(* ===== verification/_CoqProject ===== *)
-Q . S2P
Prelude.v
StdSort.v
Packet.v
BpfInstances.v
Csum.v
UpfXdp.v
FarBpf.v
SessionBpf.v
PacketTyping.v
PfcpTypes.v
PfcpReportTypes.v
PfcpGroups.v
PfcpReportGroups.v
PfcpMessages.v
PfcpRules.v
PfcpSession.v
Text.v
PfcpStream.v
PfcpOverloads.v
Exceptions.v
Logging.v
OaiLogger.v
PfcpIes.v
PfcpFqdn.v
PfcpNodeIes.v
PfcpCodec.v
PfcpContainers.v
PfcpMsg.v
PfcpElements.v
PfcpBuild.v
LifeCycle.v
Threads.v
BpfPrograms.v
Manager.v
Shutdown.v
Pipeline.v
Interleave.v
Concurrent.v
Forwarding.v
Api.v
RulesUtilities.v
UintGenerator.v
Conversions.v
Identity.v
EpcNames.v
SessionText.v
XgppConv.v
AddressText.v
Gtpv2.v
Hashes.v
