(* ===== verification/Prelude.v ===== *)
(** * A verification of the user plane function upf-bpf

    The program is a 5G user plane function whose datapath runs in the kernel.
    A control side in C++ receives PFCP sessions, keeps their rules and deploys
    them; the datapath is a set of BPF programs in C, attached to the network
    interfaces, that classify packets and add or remove GTP-U tunnels.  Paths
    below are relative to src/src unless they start with src/.

    ** Parts and how they interact

    A packet enters [upf_xdp_bpf.c], which finds the session by TEID or by the
    address of the user equipment, looks the key up in a hash map and jumps
    through a program array into the FAR program of that session
    ([far_bpf.c]); the FAR program reads its rule from its own map and
    encapsulates or decapsulates the packet.  These maps and programs are
    filled and loaded by the program managers ([SessionManager.cpp],
    [SessionProgramManager.cpp]) through wrappers of libbpf ([programs/],
    [wrappers/]), from the rules of a PFCP session ([oai/pfcp/pfcp_session.cpp])
    that the PFCP codec ([oai/pfcp/3gpp_29.244.hpp], [.cpp], [msg_pfcp.hpp])
    decodes from messages.

    ** The files, and the code they model

    - [Prelude] (this file): the state and error monad [M], machine words
      ([u8], [u16], [u32], byte order), first-match search in lists.
    - [StdSort]: the promise of std::sort as a class, and an implementation.
    - [Packet]: the packet memory with checked accesses, and the kernel
      interfaces [BpfMap], [XdpHelpers], [ProgArray] with their laws;
      [BpfInstances]: concrete maps and helpers that satisfy them.
    - [Csum]: bpf/utils/csum.h.  [UpfXdp]: bpf/upf_xdp_bpf.c and
      xdp_stats_kern.h.  [FarBpf]: bpf/far_bpf.c.  [SessionBpf]:
      bpf/session_bpf.c.  One definition per function of the C code, with its
      name; the state is the packet with the maps the program uses.
    - [PfcpTypes]: the structures of oai/common/3gpp_29.244.h.  [PfcpGroups]:
      the grouped elements of oai/pfcp/msg_pfcp.hpp, with the overloads [set]
      and [get] as the class [HasIE].
    - [PfcpRules]: oai/pfcp/pfcp_pdr.cpp and pfcp_far.cpp.  [PfcpSession]:
      every operation of oai/pfcp/pfcp_session.cpp.
    - [PfcpStream]: the std::istream of the codec.  [PfcpIes]: the element
      classes of oai/pfcp/3gpp_29.244.hpp, one instance of [PfcpIe] each.
      [PfcpCodec]: TLVs, grouped elements and the factory of 3gpp_29.244.cpp.
      [PfcpMsg]: pfcp_msg_header and pfcp_msg.  [PfcpElements]: rules to
      elements and back ([to_core_type]).
    - [LifeCycle]: programs/ProgramLifeCycle.hpp.  [BpfPrograms]: FARProgram,
      UPFProgram, SessionProgram and the map wrappers.
    - [Manager]: SessionManager.cpp, SessionProgramManager.cpp,
      SessionPrograms.cpp, UserPlaneComponent.cpp over one state [component].
    - [Pipeline]: the entry program and a FAR program, run on the maps a
      deployment left behind.
    - [Threads]: tearDown and link of programs/ProgramLifeCycle.hpp step by
      step, in threads that share the object and its mutex, with the signals
      of SignalHandler.cpp.
    - [Shutdown]: a signal between two requests: SignalHandler.cpp with exit and
      the destructors of UserPlaneComponent.cpp and SessionProgramManager.cpp.
    - [PfcpReportTypes]: the structures of usage reports, buffering, load and
      time.  [PfcpReportGroups], [PfcpMessages]: the groups and the messages of
      oai/pfcp/msg_pfcp.hpp.
      [PfcpContainers]: the members of each as a sum type, and the two overload
      sets [set] and [get] of pfcp_ies_container as the class [IesContainer].
      [PfcpOverloads]: those of the base class, which all throw.
    - [PfcpFqdn]: string_to_dotted and dotted_to_string.  [PfcpNodeIes]: the
      element classes of association and node messages.  [PfcpBuild]: a message
      structure to elements (the constructors of pfcp_msg) and back.
    - [PacketTyping]: all programs of the datapath, as programs on bytes.
    - [Forwarding]: the abstract specification, a table from sessions to keys
      and FARs, and the refinement of it by [Manager] and [Pipeline].
    - [Interleave]: createPipeline and removePipeline as lists of steps, with
      packets between any two.
    - [Concurrent]: several calls of createPipeline at once, a step at a time,
      and the constructor of programs/BPFProgram.cpp in two steps.
    - [Api]: the HTTP handlers of src/tests/api/Controller.cpp and the elements
      of InformationElementFactory.hpp, on top of [Manager].
    - [UintGenerator]: oai/common/utils/uint_generator.hpp.  [Conversions]:
      conversions.cpp and string.cpp.  [Identity]: the order of F-SEIDs
      (oai/common/3gpp_29.244.h), and IMSIs, MSISDNs and MEIs
      (3gpp_29.274.h).  [EpcNames]: oai/common/utils/epc.cpp and epc.h.
    - [Text]: numbers in texts.  [Exceptions]: the exception classes of
      3gpp_29.244.h, 3gpp_29.274.h and 3gpp_29.281.h, on an interface of
      fmt::format.  [Gtpv2]: comparisons and texts of 3gpp_29.274.h.
    - [SessionText]: pfcp_session::to_string (oai/pfcp/pfcp_session.cpp).
      [XgppConv]: oai/common/utils/3gpp_conversions.cpp and endpoint.hpp, and
      the structures of 3gpp_29.274.h and 3gpp_29.281.h they use.  [Hashes]:
      std::hash of F-SEIDs, node identifiers and core F-TEIDs.
    - [Logging]: utils/Logger.cpp, LogDefines.h, and the text of a key
      (SessionProgramManager.cpp).  [OaiLogger]: oai/common/logger.cpp and
      logger.hpp.  [AddressText]: the parts of conversions.cpp, endpoint.hpp and
      string.cpp that wrap inet_pton, inet_ntop and vsnprintf.
    - [RulesUtilities]: pfcp/Session.cpp with its rules, and the abstract classes
      of interfaces/ with their implementations (src/tests/interfaces).

    ** What the theorems show

    - The whole: [Forwarding.system_refines_table].  For every sequence of
      events, the outcomes are those of a table of sessions, and every frame is
      treated as the table says.
    - Datapath: the handlers of the entry program implement a layered parser
      ([UpfXdp.eth_handle_refines_classify]); the FAR program never leaves the
      packet ([FarBpf.far_entry_point_safe]) and the packet stays a string of
      bytes ([PacketTyping]); encapsulation and decapsulation are described
      byte by byte and undo each other ([FarBpf.tunnel_roundtrip]); checksum
      updates keep headers valid ([Csum]).
    - Sessions and rules: an invariant of every reachable session, the
      outcome of every operation with its cause, atomicity of rejections.
    - Codec: what is written is read back, for elements, messages
      ([PfcpMsg.msg_roundtrip]) and whole message structures
      ([PfcpBuild.message_roundtrip]), up to the members that are not sent;
      parsing stops on every input or is in one of the loops of the code that
      do not end ([PfcpMsg.hostile_name_hangs]); what becomes of the elements of
      any message that was parsed ([PfcpBuild.to_core_type_outcome]).  Classes that do not read back
      what they write have theorems that say so.
    - Control: an invariant of every reachable [component], what deployment
      and removal do to the maps, the life cycle of programs, and the limits
      (ten program slots, identifiers that are not reused).
    - Order: what a packet meets between two steps of a deployment or of a
      removal ([Interleave.packets_during_deployment]); deployments of several
      threads do not disturb each other when constructors are not interrupted
      ([Concurrent.deployments_interleave]), and do when they are.
    - Threads: the mutex makes tear-downs atomic
      ([Threads.tearDown_linearizable]), so the functions of [LifeCycle] stand
      for the methods; tear-downs end, and exactly which signals end the process
      and leave nothing attached.  A signal between requests releases everything
      once, and then meets the order of the destructors ([Shutdown]).
    - Interface: from a request to the treatment of a packet
      ([Api.api_uplink],
      [Api.api_downlink]), and what refused requests leave behind.
    - Composition: a packet of a deployed session is treated as the rules of
      that session say ([Pipeline]).
    - Errors: every exception of the codec is made and its text determines the
      error ([Exceptions]); two exceptions of the other headers end the process.
    - Utilities: the generator of identifiers gives a free one as long as there
      is one; the two encoders of names agree ([EpcNames]), and so do the two
      readings of an IMSI; where F-SEIDs are ordered and IMSIs incremented.  The
      columns of a printed session ([SessionText]); what conversions to the core
      network keep ([XgppConv]); equal keys have equal hashes ([Hashes]).
      Identifiers are given to one thread at a time however calls interleave
      ([UintGenerator.identifiers_unique]).
    - Logging: the lines of LOG_FUNC, for member functions, and the copy from
      behind the text in others ([Logging]); which calls of the protocol code
      write a line, and which use a pointer that was never written ([OaiLogger]).

    ** Bounds and fuel

    Integers have the width of the C type: wrap-around is written out with
    [u8], [u16], [u32] where the code can wrap.  A packet access outside
    [data, data_end) is the error [OutOfBounds], not a default value.  The
    element factory recurses over nested groups with fuel: [stream_fuel],
    twice the bytes that are left plus two, is enough because every element
    with a length takes three bytes or more ([load_fuel]); the loop of a
    message has one unit per byte ([msg_load_terminates]).  The loops over
    vectors are structural.

    A name of labels is read with one round more than it has bytes: a longer
    run meets an offset twice and never ends
    ([PfcpFqdn.dotted_to_string_ends_or_loops]); the other direction has an
    offset of 8 bits, so 256 rounds.  The search for a free identifier has one
    round more than there are identifiers in use ([UintGenerator.get_uid_live]).
    A loop of the code that does not end is [None], or the error [Diverges] of
    the codec; an access outside an array of the code is [OutOfArray].

    ** Hypotheses

    Code outside the repository is an interface with laws: BPF maps, packet
    helpers, program arrays ([Packet]), std::sort ([StdSort]), the answers of
    libbpf and the kernel during a deployment (arguments of the operations of
    [LifeCycle], [BpfPrograms] and [Manager]), and the checksum helper of the
    kernel.  Each interface has an instance on which the witnesses run.

    ** Not modelled, and why

    The elements of PFCP messages without a constructor in pfcp_msg (PFD
    management, association update, node report response, session set
    deletion): their structures are modelled, nothing sends or receives them.
    Most of 3gpp_29.274.h, 3gpp_24.008.h and 3gpp_29.281.h: structures of other
    protocols.  The functions of the C library that read and print addresses are
    interfaces.  The element classes that are commented out.
    Uninitialised memory is a parameter
    [uninit]; the padding bytes of map keys are zero, as the code clears them.
    Requests in parallel are modelled where they share maps and programs; a
    std::map that two threads change at once is undefined and not modelled.
    Shared pointers are positions of a
    store.  The remote port of a message is not part of the codec.  crc16.h is
    commented out as a whole.  if.cpp, get_gateway_netlink.cpp, pid_file.cpp,
    async_shell_cmd.cpp and fqdn.cpp of oai/common/utils call the operating system
    or libraries, and the program does not call them; the test cases call what is
    modelled; samples/ is code of other projects.
*)
From Stdlib Require Import ZArith Lia List Bool.
From stdpp Require Import base list gmap.

Declare Scope upf_scope.
Delimit Scope upf_scope with upf.

(** ** Results and the state/error monad *)

(** The outcome of a computation that may stop with an error. *)
Inductive result (E A : Type) : Type :=
| Ok (a : A)
| Err (e : E).
Arguments Ok {E A} a.
Arguments Err {E A} e.

(** A computation over a state: the state survives an error, as the memory of
    a C++ program survives a [throw] and a packet survives a [return]. *)
Definition M (S E A : Type) : Type := S -> result E A * S.

Definition ret {S E A : Type} (a : A) : M S E A := fun s => (Ok a, s).

Definition raise {S E A : Type} (e : E) : M S E A := fun s => (Err e, s).

Definition bind {S E A B : Type} (m : M S E A) (k : A -> M S E B) : M S E B :=
  fun s =>
    match m s with
    | (Ok a, s') => k a s'
    | (Err e, s') => (Err e, s')
    end.

Definition get {S E : Type} : M S E S := fun s => (Ok s, s).

Definition gets {S E A : Type} (f : S -> A) : M S E A := fun s => (Ok (f s), s).

Definition put {S E : Type} (s : S) : M S E unit := fun _ => (Ok tt, s).

Definition modify {S E : Type} (f : S -> S) : M S E unit := fun s => (Ok tt, f s).

(** [guard b e]: goes on when [b] holds, stops with [e] otherwise. *)
Definition guard {S E : Type} (b : bool) (e : E) : M S E unit :=
  if b then ret tt else raise e.

(** [of_option o e]: the value of [o], or the error [e]. *)
Definition of_option {S E A : Type} (o : option A) (e : E) : M S E A :=
  match o with Some a => ret a | None => raise e end.

(** [zoom f g m]: [m] on the part [f t] of the state [t], put back by [g]. *)
Definition zoom {S T E A : Type} (f : T -> S) (g : S -> T -> T) (m : M S E A) : M T E A :=
  fun t => let '(r, s) := m (f t) in (r, g s t).

Notation "'let*' x ':=' m 'in' k" := (bind m (fun x => k))
  (at level 10, x pattern, m at level 100, k at level 200) : upf_scope.
Notation "m ';;;' k" := (bind m (fun _ => k))
  (at level 100, right associativity) : upf_scope.
Open Scope upf_scope.

Lemma bind_ret_l {S E A B} (a : A) (k : A -> M S E B) s :
  bind (ret a) k s = k a s.
Proof. reflexivity. Qed.

Lemma bind_ok {S E A B} (m : M S E A) (k : A -> M S E B) s a s' :
  m s = (Ok a, s') -> bind m k s = k a s'.
Proof. intros H. unfold bind. now rewrite H. Qed.

Lemma bind_err {S E A B} (m : M S E A) (k : A -> M S E B) s e s' :
  m s = (Err e, s') -> bind m k s = (Err e, s').
Proof. intros H. unfold bind. now rewrite H. Qed.

Lemma bind_ok_inv {S E A B} (m : M S E A) (k : A -> M S E B) s b s' :
  bind m k s = (Ok b, s') -> exists a s1, m s = (Ok a, s1) /\ k a s1 = (Ok b, s').
Proof. unfold bind. destruct (m s) as [[a|e] s1]; [eauto|discriminate]. Qed.

Lemma zoom_eq {S T E A} (f : T -> S) (g : S -> T -> T) (m : M S E A) t r s :
  m (f t) = (r, s) -> zoom f g m t = (r, g s t).
Proof. unfold zoom. now intros ->. Qed.

Lemma guard_true {S E} (e : E) : @guard S E true e = ret tt.
Proof. reflexivity. Qed.

Lemma guard_false {S E} (e : E) : @guard S E false e = raise e.
Proof. reflexivity. Qed.

Lemma bind_assoc {S E A B C} (m : M S E A) (k : A -> M S E B)
    (h : B -> M S E C) s :
  bind (bind m k) h s = bind m (fun a => bind (k a) h) s.
Proof. unfold bind. destruct (m s) as [[a|e] s']; reflexivity. Qed.

(** The errors that an operation can end with. *)
Definition throws {S E A : Type} (P : E -> Prop) (m : M S E A) : Prop :=
  forall s e s', m s = (Err e, s') -> P e.

Section Throws.
Context {S E : Type} (P : E -> Prop).

Lemma throws_ret {A} (a : A) : throws P (ret (S := S) a).
Proof. intros s e s'. discriminate. Qed.

Lemma throws_raise {A} e : P e -> throws P (raise (S := S) (A := A) e).
Proof. intros He s e' s' [= <- _]. exact He. Qed.

Lemma throws_gets {A} (f : S -> A) : throws P (gets f).
Proof. intros s e s'. discriminate. Qed.

Lemma throws_modify f : throws P (modify (S := S) f).
Proof. intros s e s'. discriminate. Qed.

Lemma throws_bind {A B} (m : M S E A) (k : A -> M S E B) :
  throws P m -> (forall a, throws P (k a)) -> throws P (bind m k).
Proof.
  intros Hm Hk s e s'. unfold bind. destruct (m s) as [[a|e1] s1] eqn:E1; [apply Hk|].
  intros [= -> ->]. exact (Hm _ _ _ E1).
Qed.

Lemma throws_guard b e : P e -> throws P (guard (S := S) b e).
Proof. destruct b; [intros _; apply throws_ret|apply throws_raise]. Qed.

Lemma throws_of_option {A} (o : option A) e : P e -> throws P (of_option (S := S) o e).
Proof. destruct o; [intros _; apply throws_ret|apply throws_raise]. Qed.

Lemma throws_zoom {T A} (f : T -> S) (g : S -> T -> T) (m : M S E A) :
  throws P m -> throws P (zoom f g m).
Proof.
  intros Hm t e t'. unfold zoom. destruct (m (f t)) as [r s] eqn:E1. intros [= -> _].
  exact (Hm _ _ _ E1).
Qed.

End Throws.

(** Goes through an operation by its syntax. *)
Ltac throws :=
  repeat match goal with
  | |- throws _ (ret _) => apply throws_ret
  | |- throws _ (raise _) => apply throws_raise
  | |- throws _ (gets _) => apply throws_gets
  | |- throws _ (modify _) => apply throws_modify
  | |- throws _ (guard _ _) => apply throws_guard
  | |- throws _ (of_option _ _) => apply throws_of_option
  | |- throws _ (zoom _ _ _) => apply throws_zoom
  | |- throws _ (bind _ _) => apply throws_bind; [|intros]
  | |- forall _, throws _ _ => intros
  end.

(** What holds before an operation and after it, however it ends. *)
Definition preserves {S E A : Type} (P : S -> Prop) (m : M S E A) : Prop :=
  forall s r s', P s -> m s = (r, s') -> P s'.

Section Preserves.
Context {S E : Type} (P : S -> Prop).

Lemma preserves_ret {A} (a : A) : preserves P (ret (E := E) a).
Proof. intros s r s' Hs [= _ <-]. exact Hs. Qed.

Lemma preserves_get : preserves P (get (E := E)).
Proof. intros s r s' Hs [= _ <-]. exact Hs. Qed.

Lemma preserves_gets {A} (f : S -> A) : preserves P (gets (E := E) f).
Proof. intros s r s' Hs [= _ <-]. exact Hs. Qed.

Lemma preserves_raise {A} e : preserves P (raise (A := A) (E := E) e).
Proof. intros s r s' Hs [= _ <-]. exact Hs. Qed.

Lemma preserves_guard b e : preserves P (guard (E := E) b e).
Proof. destruct b; [apply preserves_ret|apply preserves_raise]. Qed.

Lemma preserves_of_option {A} (o : option A) e : preserves P (of_option (E := E) o e).
Proof. destruct o; [apply preserves_ret|apply preserves_raise]. Qed.

Lemma preserves_modify f : (forall s, P s -> P (f s)) -> preserves P (modify (E := E) f).
Proof. intros Hf s r s' Hs [= _ <-]. now apply Hf. Qed.

Lemma preserves_zoom {T A} (f : S -> T) (g : T -> S -> S) (m : M T E A) :
  (forall s t, P s -> P (g t s)) -> preserves P (zoom f g m).
Proof. intros Hg s r s' Hs. unfold zoom. destruct (m (f s)). intros [= _ <-]. now apply Hg. Qed.

Lemma preserves_bind {A B} (m : M S E A) (k : A -> M S E B) :
  preserves P m -> (forall a, preserves P (k a)) -> preserves P (bind m k).
Proof.
  intros Hm Hk s r s' Hs. unfold bind. destruct (m s) as [[a|e] s1] eqn:E1.
  - intros Hx. exact (Hk a s1 r s' (Hm _ _ _ Hs E1) Hx).
  - intros [= _ <-]. exact (Hm _ _ _ Hs E1).
Qed.

End Preserves.

(** Goes through an operation by its syntax. *)
Ltac preserves :=
  repeat match goal with
  | |- preserves _ (ret _) => apply preserves_ret
  | |- preserves _ get => apply preserves_get
  | |- preserves _ (gets _) => apply preserves_gets
  | |- preserves _ (raise _) => apply preserves_raise
  | |- preserves _ (guard _ _) => apply preserves_guard
  | |- preserves _ (of_option _ _) => apply preserves_of_option
  | |- preserves _ (bind _ _) => apply preserves_bind; [|intros]
  | |- forall _, preserves _ _ => intros
  end.

(** ** Machine integers

    A [w]-bit unsigned integer is a [Z] between [0] and [2^w - 1]; the wrap of
    an assignment or a cast is written out. *)

Open Scope Z_scope.

Definition u8 (x : Z) : Z := x mod 2 ^ 8.
Definition u16 (x : Z) : Z := x mod 2 ^ 16.
Definition u32 (x : Z) : Z := x mod 2 ^ 32.
Definition u64 (x : Z) : Z := x mod 2 ^ 64.

(** The one's complement of a 16-bit and of a 32-bit word. *)
Definition not16 (x : Z) : Z := 2 ^ 16 - 1 - u16 x.
Definition not32 (x : Z) : Z := 2 ^ 32 - 1 - u32 x.

Definition is_byte (b : Z) : Prop := 0 <= b < 256.
Definition bytes (l : list Z) : Prop := Forall is_byte l.

(** Decided by computation, for concrete bytes. *)
Lemma bytes_bool l : forallb (fun b => (0 <=? b) && (b <? 256)) l = true -> bytes l.
Proof.
  intros H. apply List.Forall_forall. intros x Hx.
  pose proof (proj1 (forallb_forall _ _) H x Hx) as Hb. cbv beta in Hb.
  unfold is_byte. lia.
Qed.

Lemma u8_range x : 0 <= u8 x < 256.
Proof. unfold u8. apply Z.mod_pos_bound. lia. Qed.

Lemma u16_range x : 0 <= u16 x < 65536.
Proof. unfold u16. apply Z.mod_pos_bound. lia. Qed.

Lemma u32_range x : 0 <= u32 x < 4294967296.
Proof. unfold u32. apply Z.mod_pos_bound. lia. Qed.

Lemma u64_range x : 0 <= u64 x < 18446744073709551616.
Proof. unfold u64. apply Z.mod_pos_bound. lia. Qed.

Lemma u8_id x : is_byte x -> u8 x = x.
Proof. intros H. apply Z.mod_small. unfold is_byte in H. lia. Qed.

Lemma u16_id x : 0 <= x < 65536 -> u16 x = x.
Proof. intros H. apply Z.mod_small. lia. Qed.

Lemma u32_id x : 0 <= x < 4294967296 -> u32 x = x.
Proof. intros H. apply Z.mod_small. lia. Qed.

(** [div_facts x d]: the quotient and remainder equation, and the bounds. *)
Ltac div_facts x d :=
  pose proof (Z.div_mod x d ltac:(lia));
  pose proof (Z.mod_pos_bound x d ltac:(lia)).

(** ** Byte strings: little-endian and big-endian words *)

Fixpoint le_enc (n : nat) (v : Z) : list Z :=
  match n with
  | O => []
  | S n' => v mod 256 :: le_enc n' (v / 256)
  end.

Fixpoint le_dec (l : list Z) : Z :=
  match l with
  | [] => 0
  | b :: l' => b + 256 * le_dec l'
  end.

Definition be_enc (n : nat) (v : Z) : list Z := rev (le_enc n v).
Definition be_dec (l : list Z) : Z := le_dec (rev l).

(** The upper part of a number shifted in front of its lower part. *)
Lemma lor_shift_add n a b : 0 <= n -> 0 <= b < 2 ^ n -> Z.lor (Z.shiftl a n) b = a * 2 ^ n + b.
Proof.
  intros Hn Hb. rewrite <- Z.add_lor_land, Z.shiftl_mul_pow2 by lia.
  assert (Z.land (a * 2 ^ n) b = 0) as ->; [|lia].
  rewrite <- Z.shiftl_mul_pow2 by lia. apply Z.bits_inj'. intros k Hk.
  rewrite Z.land_spec, Z.bits_0. destruct (Z.ltb_spec k n).
  - rewrite Z.shiftl_spec_low by lia. done.
  - replace b with (b mod 2 ^ n) by now apply Z.mod_small.
    rewrite Z.mod_pow2_bits_high by lia. apply andb_false_r.
Qed.

Lemma length_le_enc n v : length (le_enc n v) = n.
Proof. revert v. induction n as [|n IH]; intros v; simpl; [done|now rewrite IH]. Qed.

Lemma length_be_enc n v : length (be_enc n v) = n.
Proof. unfold be_enc. now rewrite length_rev, length_le_enc. Qed.

Lemma pow256_succ n : 256 ^ Z.of_nat (S n) = 256 * 256 ^ Z.of_nat n.
Proof. rewrite Nat2Z.inj_succ, Z.pow_succ_r; lia. Qed.

Lemma pow256_pos n : 0 < 256 ^ Z.of_nat n.
Proof. apply Z.pow_pos_nonneg; lia. Qed.

Lemma le_dec_enc n v : le_dec (le_enc n v) = v mod 256 ^ Z.of_nat n.
Proof.
  revert v. induction n as [|n IH]; intros v; cbn [le_enc le_dec].
  - now rewrite Z.mod_1_r.
  - rewrite IH, pow256_succ, Z.rem_mul_r by (pose proof (pow256_pos n); lia).
    reflexivity.
Qed.

Lemma be_dec_enc n v : be_dec (be_enc n v) = v mod 256 ^ Z.of_nat n.
Proof. unfold be_dec, be_enc. now rewrite rev_involutive, le_dec_enc. Qed.

Lemma bytes_le_enc n v : bytes (le_enc n v).
Proof.
  revert v. induction n as [|n IH]; intros v; simpl; constructor; [|apply IH].
  unfold is_byte. apply Z.mod_pos_bound. lia.
Qed.

Lemma bytes_rev l : bytes (rev l) <-> bytes l.
Proof. unfold bytes. rewrite !List.Forall_forall. setoid_rewrite <- in_rev. done. Qed.

Lemma bytes_be_enc n v : bytes (be_enc n v).
Proof. apply bytes_rev, bytes_le_enc. Qed.

Lemma le_dec_bound l : bytes l -> 0 <= le_dec l < 256 ^ Z.of_nat (length l).
Proof.
  induction 1 as [|b l Hb Hl IH]; cbn [le_dec length].
  - rewrite Z.pow_0_r. lia.
  - rewrite pow256_succ. unfold is_byte in Hb. lia.
Qed.

Lemma be_dec_bound l : bytes l -> 0 <= be_dec l < 256 ^ Z.of_nat (length l).
Proof. intros H. unfold be_dec. rewrite <- length_rev. now apply le_dec_bound, bytes_rev. Qed.

Lemma le_enc_dec l : bytes l -> le_enc (length l) (le_dec l) = l.
Proof.
  induction 1 as [|b l Hb Hl IH]; cbn [le_enc le_dec length]; [done|].
  unfold is_byte in Hb. f_equal.
  - rewrite Z.mul_comm, Z.mod_add by lia. apply Z.mod_small. lia.
  - rewrite Z.mul_comm, Z.div_add, Z.div_small by lia. now rewrite Z.add_0_l.
Qed.

Lemma be_enc_dec l : bytes l -> be_enc (length l) (be_dec l) = l.
Proof.
  intros H. unfold be_enc, be_dec. rewrite <- length_rev, le_enc_dec.
  - apply rev_involutive.
  - now apply bytes_rev.
Qed.

(** A word read in host order and stored again keeps its bytes. *)
Lemma le_enc_le_dec_be n l :
  bytes l -> length l = n -> le_enc n (le_dec l) = be_enc n (be_dec l).
Proof. intros Hb <-. now rewrite le_enc_dec, be_enc_dec. Qed.

Lemma le_enc_mod n v w :
  v mod 256 ^ Z.of_nat n = w mod 256 ^ Z.of_nat n -> le_enc n v = le_enc n w.
Proof.
  intros H. rewrite <- (le_enc_dec (le_enc n v)) by apply bytes_le_enc.
  rewrite <- (le_enc_dec (le_enc n w)) by apply bytes_le_enc.
  now rewrite !le_dec_enc, !length_le_enc, H.
Qed.

(** Byte swaps on a little-endian host: [htons] takes the 16 low bits of its
    argument and exchanges their bytes, [htonl] the same on 32 bits. *)
Definition htons (x : Z) : Z := be_dec (le_enc 2 x).
Definition htonl (x : Z) : Z := be_dec (le_enc 4 x).
Definition ntohs := htons.
Definition ntohl := htonl.

Lemma be_dec_two a b : be_dec [a; b] = b + 256 * a.
Proof. unfold be_dec. cbn. lia. Qed.

Lemma htons_le_dec l : bytes l -> length l = 2%nat -> htons (le_dec l) = be_dec l.
Proof. intros H HL. unfold htons. rewrite <- HL at 1. now rewrite le_enc_dec. Qed.

Lemma htonl_le_dec l : bytes l -> length l = 4%nat -> htonl (le_dec l) = be_dec l.
Proof. intros H HL. unfold htonl. rewrite <- HL at 1. now rewrite le_enc_dec. Qed.

Lemma bytes_htons_range x : 0 <= htons x < 65536.
Proof. apply (be_dec_bound (le_enc 2 x)), bytes_le_enc. Qed.

Lemma bytes_htonl_range x : 0 <= htonl x < 4294967296.
Proof. apply (be_dec_bound (le_enc 4 x)), bytes_le_enc. Qed.

(** Storing a swapped word gives the word in network order. *)
Lemma le_enc_htons x : le_enc 2 (htons x) = be_enc 2 x.
Proof.
  unfold htons, be_dec, be_enc.
  rewrite <- (length_le_enc 2 x) at 1. rewrite <- length_rev.
  apply le_enc_dec, bytes_rev, bytes_le_enc.
Qed.

Lemma le_enc_htonl x : le_enc 4 (htonl x) = be_enc 4 x.
Proof.
  unfold htonl, be_dec, be_enc.
  rewrite <- (length_le_enc 4 x) at 1. rewrite <- length_rev.
  apply le_enc_dec, bytes_rev, bytes_le_enc.
Qed.

Lemma htonl_involutive x : 0 <= x < 4294967296 -> htonl (htonl x) = x.
Proof.
  intros H. unfold htonl at 1. rewrite le_enc_htonl, be_dec_enc.
  apply Z.mod_small. exact H.
Qed.

Lemma htons_involutive x : 0 <= x < 65536 -> htons (htons x) = x.
Proof.
  intros H. unfold htons at 1. rewrite le_enc_htons, be_dec_enc.
  apply Z.mod_small. exact H.
Qed.

(** ** Lists *)

(** A list of at least [n] elements, written as its first [n] and the rest. *)
Lemma list_split_at {A} (n : nat) (l : list A) :
  (n <= length l)%nat -> exists h t, l = h ++ t /\ length h = n.
Proof.
  intros H. exists (take n l), (drop n l). split.
  - now rewrite take_drop.
  - rewrite length_take. lia.
Qed.

(** *** The first element that satisfies a test

    Lists of rules are searched from the front; an update or a removal acts on
    the first match. *)
Lemma in_lookup {A} (l : list A) (a : A) : In a l <-> exists i, l !! i = Some a.
Proof. rewrite <- list_elem_of_In. apply list_elem_of_lookup. Qed.

Section First.
Context {A : Type}.

Fixpoint update_first (p : A -> bool) (f : A -> A) (l : list A) : option (list A) :=
  match l with
  | [] => None
  | a :: l' =>
      if p a then Some (f a :: l')
      else match update_first p f l' with Some r => Some (a :: r) | None => None end
  end.

Fixpoint remove_first (p : A -> bool) (l : list A) : option (list A) :=
  match l with
  | [] => None
  | a :: l' =>
      if p a then Some l'
      else match remove_first p l' with Some r => Some (a :: r) | None => None end
  end.

Lemma find_app (p : A -> bool) l1 l2 :
  find p (l1 ++ l2) = match find p l1 with Some a => Some a | None => find p l2 end.
Proof. induction l1 as [|a l1 IH]; cbn; [done|]. destruct (p a); [done|apply IH]. Qed.

Lemma update_first_none p f l : update_first p f l = None <-> find p l = None.
Proof.
  induction l as [|a l IH]; cbn; [done|]. destruct (p a); [done|].
  rewrite <- IH. destruct (update_first p f l); done.
Qed.

Lemma remove_first_none p l : remove_first p l = None <-> find p l = None.
Proof.
  induction l as [|a l IH]; cbn; [done|]. destruct (p a); [done|].
  rewrite <- IH. destruct (remove_first p l); done.
Qed.

(** A search whose test the update respects finds the updated element. *)
Lemma find_update_first_same p f l l' :
  update_first p f l = Some l' -> (forall a, p (f a) = p a) ->
  find p l' = match find p l with Some a => Some (f a) | None => None end.
Proof.
  intros Hu Hf. revert l' Hu. induction l as [|a l IH]; intros l' Hu; cbn in *; [done|].
  destruct (p a) eqn:Hp.
  - injection Hu as <-. cbn. now rewrite Hf, Hp.
  - destruct (update_first p f l) as [r|] eqn:Hr; [|done]. injection Hu as <-.
    cbn. rewrite Hp. now apply IH.
Qed.

(** A search for elements the update does not touch is not affected. *)
Lemma find_update_first_other p q f l l' :
  update_first p f l = Some l' -> (forall a, p a = true -> q a = false) ->
  (forall a, q (f a) = q a) -> find q l' = find q l.
Proof.
  intros Hu Hpq Hf. revert l' Hu. induction l as [|a l IH]; intros l' Hu; cbn in *; [done|].
  destruct (p a) eqn:Hp.
  - injection Hu as <-. cbn. rewrite Hf, (Hpq a Hp). done.
  - destruct (update_first p f l) as [r|] eqn:Hr; [|done]. injection Hu as <-.
    cbn. destruct (q a); [done|]. now apply IH.
Qed.

Lemma find_remove_first_other p q l l' :
  remove_first p l = Some l' -> (forall a, p a = true -> q a = false) ->
  find q l' = find q l.
Proof.
  intros Hu Hpq. revert l' Hu. induction l as [|a l IH]; intros l' Hu; cbn in *; [done|].
  destruct (p a) eqn:Hp.
  - injection Hu as <-. now rewrite (Hpq a Hp).
  - destruct (remove_first p l) as [r|] eqn:Hr; [|done]. injection Hu as <-.
    cbn. destruct (q a); [done|]. now apply IH.
Qed.

(** Removing what was just added at the back. *)
Lemma remove_first_app p l a :
  find p l = None -> p a = true -> remove_first p (l ++ [a]) = Some l.
Proof.
  induction l as [|b l IH]; cbn; intros Hn Ha; [now rewrite Ha|].
  destruct (p b); [done|]. now rewrite IH.
Qed.

Lemma update_first_forall (P : A -> Prop) p f l l' :
  update_first p f l = Some l' -> (forall a, P a -> P (f a)) ->
  List.Forall P l -> List.Forall P l'.
Proof.
  intros Hu Hf Hl. revert l' Hu. induction Hl as [|a l Ha Hl IH]; intros l' Hu; cbn in *; [done|].
  destruct (p a); [injection Hu as <-; auto|].
  destruct (update_first p f l) as [r|]; [|done]. injection Hu as <-. auto.
Qed.

Lemma remove_first_forall (P : A -> Prop) p l l' :
  remove_first p l = Some l' -> List.Forall P l -> List.Forall P l'.
Proof.
  intros Hu Hl. revert l' Hu. induction Hl as [|a l Ha Hl IH]; intros l' Hu; cbn in *; [done|].
  destruct (p a); [now injection Hu as <-|].
  destruct (remove_first p l) as [r|]; [|done]. injection Hu as <-. auto.
Qed.

Lemma update_first_map {B} (g : A -> B) p f l l' :
  update_first p f l = Some l' -> (forall a, g (f a) = g a) -> map g l' = map g l.
Proof.
  intros Hu Hf. revert l' Hu. induction l as [|a l IH]; intros l' Hu; cbn in *; [done|].
  destruct (p a); [injection Hu as <-; cbn; now rewrite Hf|].
  destruct (update_first p f l) as [r|]; [|done]. injection Hu as <-. cbn. f_equal. auto.
Qed.

End First.
