(* ===== verification/StdSort.v ===== *)
(** * std::sort

    The promise of the standard algorithm, as an interface: the control of the
    data plane is verified against it.  An insertion sort shows that the
    interface can be met. *)
From Stdlib Require Import ZArith Lia List Bool Sorted Permutation.
From S2P Require Import Prelude.
Import ListNotations.
Open Scope Z_scope.

(** A permutation in which no element is less than the one before it; the
    order of elements neither of which is less is left open. *)
Class StdSort : Type := {
  std_sort {A : Type} : (A -> A -> bool) -> list A -> list A
}.

(** The comparison is a strict weak order on the elements: it compares keys. *)
Class StdSortLaws `{StdSort} : Prop := {
  std_sort_permutation {A} (lt : A -> A -> bool) (f : A -> Z) l :
    (forall a b, In a l -> In b l -> lt a b = (f a <? f b)) ->
    Permutation (std_sort lt l) l;
  std_sort_sorted {A} (lt : A -> A -> bool) (f : A -> Z) l :
    (forall a b, In a l -> In b l -> lt a b = (f a <? f b)) ->
    StronglySorted (fun a b => f a <= f b) (std_sort lt l)
}.

(** The first element is a least one. *)
Lemma std_sort_head `{StdSortLaws} {A} (lt : A -> A -> bool) (f : A -> Z) l a l' :
  (forall x y, In x l -> In y l -> lt x y = (f x <? f y)) ->
  std_sort lt l = a :: l' -> In a l /\ forall b, In b l -> f a <= f b.
Proof.
  intros Hf Hs. pose proof (std_sort_permutation lt f l Hf) as Hp.
  pose proof (std_sort_sorted lt f l Hf) as Ho. rewrite Hs in Hp, Ho.
  apply StronglySorted_inv in Ho as [_ Ho]. rewrite List.Forall_forall in Ho.
  split; [eapply Permutation_in; [exact Hp|now left]|].
  intros b Hb. eapply Permutation_in in Hb; [|apply Permutation_sym; exact Hp].
  destruct Hb as [<-|Hb]; [lia|auto].
Qed.

Lemma std_sort_nil_inv `{StdSortLaws} {A} (lt : A -> A -> bool) (f : A -> Z) l :
  (forall x y, In x l -> In y l -> lt x y = (f x <? f y)) ->
  std_sort lt l = [] -> l = [].
Proof.
  intros Hf Hs. pose proof (std_sort_permutation lt f l Hf) as Hp. rewrite Hs in Hp.
  now apply Permutation_nil in Hp.
Qed.

(** ** An instance *)

Section Insertion.
Context {A : Type}.
Variable lt : A -> A -> bool.

Fixpoint insert_sorted (a : A) (l : list A) : list A :=
  match l with
  | [] => [a]
  | b :: l' => if lt b a then b :: insert_sorted a l' else a :: l
  end.

Definition insertion_sort (l : list A) : list A := fold_right insert_sorted [] l.

Lemma insert_sorted_permutation a l : Permutation (insert_sorted a l) (a :: l).
Proof.
  induction l as [|b l IH]; cbn; [reflexivity|]. destruct (lt b a); [|reflexivity].
  rewrite IH. apply perm_swap.
Qed.

Lemma insertion_sort_permutation l : Permutation (insertion_sort l) l.
Proof.
  induction l as [|a l IH]; cbn; [reflexivity|].
  rewrite insert_sorted_permutation. now constructor.
Qed.

Lemma insert_sorted_ok (f : A -> Z) a l :
  (forall b, In b l -> lt b a = (f b <? f a)) ->
  StronglySorted (fun x y => f x <= f y) l ->
  StronglySorted (fun x y => f x <= f y) (insert_sorted a l).
Proof.
  intros Hf Hs. induction Hs as [|b l Hs IH Hb]; cbn; [repeat constructor|].
  rewrite (Hf b) by now left. rewrite List.Forall_forall in Hb.
  destruct (Z.ltb_spec (f b) (f a)) as [Hlt|Hge].
  - constructor; [apply IH; intros; apply Hf; now right|].
    rewrite List.Forall_forall. intros x Hx.
    eapply Permutation_in in Hx; [|apply insert_sorted_permutation].
    destruct Hx as [<-|Hx]; [lia|auto].
  - constructor; [constructor; [assumption|now rewrite List.Forall_forall]|].
    rewrite List.Forall_forall. intros x [<-|Hx]; [lia|]. specialize (Hb x Hx). lia.
Qed.

End Insertion.

#[export] Instance insertion_std_sort : StdSort := { std_sort := @insertion_sort }.

#[export] Instance insertion_std_sort_laws : StdSortLaws.
Proof.
  split; cbn.
  - intros A lt f l _. apply insertion_sort_permutation.
  - intros A lt f l Hf. induction l as [|a l IH]; cbn; [constructor|].
    apply insert_sorted_ok.
    + intros b Hb. apply Hf; [right|now left].
      eapply Permutation_in; [apply insertion_sort_permutation|exact Hb].
    + apply IH. intros x y Hx Hy. apply Hf; now right.
Qed.
