(* ===== verification/Packet.v ===== *)
(** * Packets and the kernel's side of an XDP program

    An XDP program sees its packet through [struct xdp_md]: the bytes between
    [data] and [data_end], and the room the driver keeps in front of [data].
    A pointer into the packet is its offset from [data].  Loads and stores are
    checked: an access outside the packet stops the program with
    [OutOfBounds], so that "the bounds checks of the code are enough" is a
    theorem and not an assumption.  The kernel's maps and helpers are not code
    of the repository: they are the operations of the type classes [BpfMap],
    [XdpHelpers] and [ProgArray], with the documented behaviour the code
    relies on as their laws. *)
From Stdlib Require Import ZArith Lia List Bool.
From stdpp Require Import base list gmap.
From S2P Require Import Prelude.
Open Scope Z_scope.
Open Scope upf_scope.

(** ** The packet *)

Record xdp_md : Type := mk_xdp_md {
  headroom : list Z;
  data : list Z
}.

Definition set_data (d : list Z) (c : xdp_md) : xdp_md := mk_xdp_md (headroom c) d.

(** The XDP actions of <linux/bpf.h>. *)
Definition XDP_ABORTED : Z := 0.
Definition XDP_DROP : Z := 1.
Definition XDP_PASS : Z := 2.
Definition XDP_TX : Z := 3.
Definition XDP_REDIRECT : Z := 4.

(** How a program may end other than by [return]: an access outside the
    packet, or a successful tail call (which never comes back) to the program
    with the given descriptor. *)
Inductive bpf_exit : Type :=
| OutOfBounds
| TailCall (fd : Z).

Definition xdp (A : Type) : Type := M xdp_md bpf_exit A.

(** [ptr_ok o]: not ([data + o > data_end]), the form of every bounds check. *)
Definition ptr_ok (o : nat) : xdp bool := gets (fun c => (o <=? length (data c))%nat).

Definition load (o n : nat) : xdp (list Z) := fun c =>
  if (o + n <=? length (data c))%nat
  then (Ok (take n (drop o (data c))), c)
  else (Err OutOfBounds, c).

Definition store (o : nat) (bs : list Z) : xdp unit := fun c =>
  if (o + length bs <=? length (data c))%nat
  then (Ok tt, set_data (take o (data c) ++ bs ++ drop (o + length bs) (data c)) c)
  else (Err OutOfBounds, c).

(** The host is little-endian (the eBPF target and x86-64). *)
Definition load_u8 (o : nat) : xdp Z := let* l := load o 1 in ret (le_dec l).
Definition load_u16 (o : nat) : xdp Z := let* l := load o 2 in ret (le_dec l).
Definition load_u32 (o : nat) : xdp Z := let* l := load o 4 in ret (le_dec l).
Definition store_u8 (o : nat) (v : Z) : xdp unit := store o (le_enc 1 v).
Definition store_u16 (o : nat) (v : Z) : xdp unit := store o (le_enc 2 v).
Definition store_u32 (o : nat) (v : Z) : xdp unit := store o (le_enc 4 v).

(** ** Maps *)

(** A map of the kernel as its [bpf_map_*_elem] calls show it; an update or a
    delete returns 0 or a negative error number.  [bpf_value_store m k v] is
    the map after a store through the pointer that the lookup of [k] gave. *)
Class BpfMap (Mp K V : Type) : Type := {
  bpf_map_lookup_elem : Mp -> K -> option V;
  bpf_value_store : Mp -> K -> V -> Mp;
  bpf_map_update_elem : Mp -> K -> V -> Z -> Mp * Z;
  bpf_map_delete_elem : Mp -> K -> Mp * Z
}.

Class BpfMapLaws (Mp K V : Type) `{BpfMap Mp K V} : Prop := {
  map_store_same m k v v0 :
    bpf_map_lookup_elem m k = Some v0 ->
    bpf_map_lookup_elem (bpf_value_store m k v) k = Some v;
  map_store_other m k v k' :
    k <> k' ->
    bpf_map_lookup_elem (bpf_value_store m k v) k' = bpf_map_lookup_elem m k';
  map_update_same m k v f m' :
    bpf_map_update_elem m k v f = (m', 0) -> bpf_map_lookup_elem m' k = Some v;
  map_update_other m k v f m' k' :
    bpf_map_update_elem m k v f = (m', 0) -> k <> k' ->
    bpf_map_lookup_elem m' k' = bpf_map_lookup_elem m k';
  map_update_fail m k v f m' r :
    bpf_map_update_elem m k v f = (m', r) -> r <> 0 -> m' = m;
  map_delete_same m k m' :
    bpf_map_delete_elem m k = (m', 0) -> bpf_map_lookup_elem m' k = None;
  map_delete_other m k m' k' :
    bpf_map_delete_elem m k = (m', 0) -> k <> k' ->
    bpf_map_lookup_elem m' k' = bpf_map_lookup_elem m k';
  map_delete_fail m k m' r :
    bpf_map_delete_elem m k = (m', r) -> r <> 0 -> m' = m;
  map_delete_absent m k m' r :
    bpf_map_delete_elem m k = (m', r) -> bpf_map_lookup_elem m k = None -> r <> 0
}.

(** ** Helpers *)

Class XdpHelpers (DevMap : Type) : Type := {
  bpf_xdp_adjust_head : Z -> xdp_md -> Z * xdp_md;
  bpf_redirect_map : DevMap -> Z -> Z -> Z;
  bpf_csum_diff : list Z -> list Z -> Z -> Z
}.

(** The sum of the 16-bit words of a byte string, in host order. *)
Fixpoint sum_words (l : list Z) : Z :=
  match l with
  | a :: b :: l' => le_dec [a; b] + sum_words l'
  | _ => 0
  end.

Class XdpHelperLaws (DevMap : Type) `{XdpHelpers DevMap} : Prop := {
  adjust_head_fail d c r c' :
    bpf_xdp_adjust_head d c = (r, c') -> r <> 0 -> c' = c;
  adjust_head_left n c c' :
    0 <= n -> bpf_xdp_adjust_head (- n) c = (0, c') ->
    exists pre, length pre = Z.to_nat n /\ bytes pre /\ data c' = pre ++ data c;
  adjust_head_right n c c' :
    0 <= n -> bpf_xdp_adjust_head n c = (0, c') ->
    data c' = drop (Z.to_nat n) (data c);
  (** XDP_REDIRECT, or on an error the two low bits of the flags. *)
  redirect_map_result m k f :
    bpf_redirect_map m k f = XDP_REDIRECT \/ bpf_redirect_map m k f = Z.land f 3;
  (** With nothing removed, the one's-complement sum of what is added. *)
  csum_diff_push l :
    bytes l -> Nat.divide 4 (length l) ->
    0 <= bpf_csum_diff [] l 0 < 2 ^ 32 /\
    bpf_csum_diff [] l 0 mod 65535 = sum_words l mod 65535 /\
    (bpf_csum_diff [] l 0 = 0 -> sum_words l = 0)
}.

(** A program array: the descriptor the kernel jumps to, when the index is in
    range, a program is there and the tail-call limit is not reached. *)
Class ProgArray (Mp : Type) : Type := {
  bpf_tail_call : Mp -> Z -> option Z
}.

(** The kernel jumps where user space stored a program, and only there. *)
Class ProgArrayLaws (Mp : Type) `{ProgArray Mp} `{BpfMap Mp Z Z} : Prop := {
  tail_call_lookup (m : Mp) (k fd : Z) :
    bpf_map_lookup_elem m k = Some fd -> bpf_tail_call m k = Some fd;
  tail_call_empty (m : Mp) (k : Z) :
    bpf_map_lookup_elem m k = None -> bpf_tail_call m k = None
}.

Lemma tail_call_ext {Mp : Type} `{ProgArrayLaws Mp} (m m' : Mp) k :
  bpf_map_lookup_elem m' k = bpf_map_lookup_elem m k -> bpf_tail_call m' k = bpf_tail_call m k.
Proof.
  intros E. destruct (bpf_map_lookup_elem m k) as [fd|] eqn:Hm.
  - now rewrite (tail_call_lookup _ _ _ E), (tail_call_lookup _ _ _ Hm).
  - now rewrite (tail_call_empty _ _ E), (tail_call_empty _ _ Hm).
Qed.

(** A map of devices holds the interfaces that user space stores; an interface
    0 is none. *)
Class DevMapLaws (Mp : Type) `{BpfMap Mp Z Z} : Prop := {
  dev_update_same (m : Mp) (k i f : Z) m' :
    bpf_map_update_elem m k i f = (m', 0) -> i <> 0 -> bpf_map_lookup_elem m' k = Some i;
  dev_update_other (m : Mp) (k i f : Z) m' k' :
    bpf_map_update_elem m k i f = (m', 0) -> k <> k' ->
    bpf_map_lookup_elem m' k' = bpf_map_lookup_elem m k'
}.

(** A key with an interface is redirected to it. *)
Class RedirectLaws (DevMap : Type) `{BpfMap DevMap Z Z} `{XdpHelpers DevMap} : Prop := {
  redirect_entry (m : DevMap) (k i f : Z) :
    bpf_map_lookup_elem m k = Some i -> bpf_redirect_map m k f = XDP_REDIRECT
}.

Section Effects.
Context {DevMap : Type} `{XdpHelpers DevMap}.

Definition adjust_head (d : Z) : xdp Z := fun c =>
  let '(r, c') := bpf_xdp_adjust_head d c in (Ok r, c').

End Effects.

(** ** Laws of loads and stores *)

Lemma set_data_data d c : data (set_data d c) = d.
Proof. reflexivity. Qed.

Lemma load_ok (o n : nat) c :
  (o + n <= length (data c))%nat -> load o n c = (Ok (take n (drop o (data c))), c).
Proof. intros Hl. unfold load. now rewrite (proj2 (Nat.leb_le _ _) Hl). Qed.

Lemma load_oob (o n : nat) c :
  (length (data c) < o + n)%nat -> load o n c = (Err OutOfBounds, c).
Proof. intros Hl. unfold load. now rewrite (proj2 (Nat.leb_gt _ _) Hl). Qed.

Lemma store_ok (o : nat) bs c :
  (o + length bs <= length (data c))%nat ->
  store o bs c =
    (Ok tt, set_data (take o (data c) ++ bs ++ drop (o + length bs) (data c)) c).
Proof. intros Hl. unfold store. now rewrite (proj2 (Nat.leb_le _ _) Hl). Qed.

Lemma skipn_skipn_add {A} (m n : nat) (l : list A) : drop m (drop n l) = drop (n + m) l.
Proof. apply drop_drop. Qed.

(** A store on a split packet replaces the middle part. *)
Lemma store_split l1 l2 l3 bs c :
  data c = l1 ++ l2 ++ l3 -> length bs = length l2 ->
  store (length l1) bs c = (Ok tt, set_data (l1 ++ bs ++ l3) c).
Proof.
  intros Hd Hl. rewrite store_ok.
  - rewrite Hd, take_app_length, <- skipn_skipn_add, drop_app_length.
    now rewrite drop_app_length'.
  - rewrite Hd, !length_app. lia.
Qed.

Lemma length_store_data (o : nat) (bs d : list Z) :
  (o + length bs <= length d)%nat ->
  length (take o d ++ bs ++ drop (o + length bs) d) = length d.
Proof. intros H. rewrite !length_app, length_take, length_drop. lia. Qed.

(** ** Headers

    A program that works through a packet holds a split [pre ++ hdr ++ post]
    of it: the bounds check of a header succeeds exactly when the rest is long
    enough, and a field of the header is read from its own bytes. *)

(** [field o n l]: the [n] bytes of [l] from offset [o]. *)
Definition field (o n : nat) (l : list Z) : list Z := take n (drop o l).

(** [split_hdr n l]: a header of [n] bytes and what follows it. *)
Definition split_hdr (n : nat) (l : list Z) : option (list Z * list Z) :=
  if (n <=? length l)%nat then Some (take n l, drop n l) else None.

Lemma split_hdr_some n l h t :
  split_hdr n l = Some (h, t) -> l = h ++ t /\ length h = n.
Proof.
  unfold split_hdr. destruct (Nat.leb_spec n (length l)); [|done].
  intros [= <- <-]. split; [now rewrite take_drop|]. rewrite length_take. lia.
Qed.

Lemma split_hdr_app n h t : length h = n -> split_hdr n (h ++ t) = Some (h, t).
Proof.
  intros <-. unfold split_hdr. rewrite (proj2 (Nat.leb_le _ _)).
  - now rewrite take_app_length, drop_app_length.
  - rewrite length_app. lia.
Qed.

Lemma bytes_app l1 l2 : bytes (l1 ++ l2) <-> bytes l1 /\ bytes l2.
Proof. apply Forall_app. Qed.

Lemma bytes_field o n l : bytes l -> bytes (field o n l).
Proof. intros H. now apply Forall_take, Forall_drop. Qed.

Lemma length_field o n l : (o + n <= length l)%nat -> length (field o n l) = n.
Proof. intros H. unfold field. rewrite length_take, length_drop. lia. Qed.

Lemma ptr_ok_split pre rest n c :
  data c = pre ++ rest ->
  ptr_ok (length pre + n) c =
    (Ok (match split_hdr n rest with Some _ => true | None => false end), c).
Proof.
  intros Hd. unfold ptr_ok, gets, split_hdr. rewrite Hd, length_app.
  destruct (Nat.leb_spec n (length rest)).
  - now rewrite (proj2 (Nat.leb_le _ _)) by lia.
  - now rewrite (proj2 (Nat.leb_gt _ _)) by lia.
Qed.

Lemma load_field pre hdr post o n c :
  data c = pre ++ hdr ++ post -> (o + n <= length hdr)%nat ->
  load (length pre + o) n c = (Ok (field o n hdr), c).
Proof.
  intros Hd Hl. rewrite load_ok by (rewrite Hd, !length_app; lia).
  unfold field. rewrite Hd, <- skipn_skipn_add, drop_app_length.
  rewrite drop_app_le, take_app_le by (rewrite ?length_drop; lia). done.
Qed.

Lemma load_u8_field pre hdr post o c :
  data c = pre ++ hdr ++ post -> (o + 1 <= length hdr)%nat ->
  load_u8 (length pre + o) c = (Ok (le_dec (field o 1 hdr)), c).
Proof. intros Hd Hl. unfold load_u8, bind. now rewrite (load_field pre hdr post). Qed.

Lemma load_u16_field pre hdr post o c :
  data c = pre ++ hdr ++ post -> (o + 2 <= length hdr)%nat ->
  load_u16 (length pre + o) c = (Ok (le_dec (field o 2 hdr)), c).
Proof. intros Hd Hl. unfold load_u16, bind. now rewrite (load_field pre hdr post). Qed.

Lemma load_u32_field pre hdr post o c :
  data c = pre ++ hdr ++ post -> (o + 4 <= length hdr)%nat ->
  load_u32 (length pre + o) c = (Ok (le_dec (field o 4 hdr)), c).
Proof. intros Hd Hl. unfold load_u32, bind. now rewrite (load_field pre hdr post). Qed.

(** ** Reasoning about programs

    [runs m c Q]: on the packet [c] the program [m] makes no access outside
    the packet and no tail call, and its result and packet satisfy [Q]. *)
Definition runs {A} (m : xdp A) (c : xdp_md) (Q : A -> xdp_md -> Prop) : Prop :=
  match m c with
  | (Ok a, c') => Q a c'
  | (Err _, _) => False
  end.

Lemma runs_ok {A} (m : xdp A) c Q :
  runs m c Q <-> exists a c', m c = (Ok a, c') /\ Q a c'.
Proof.
  unfold runs. destruct (m c) as [[a|e] c']; split; [eauto| |done|].
  - intros (? & ? & [= <- <-] & ?). done.
  - intros (? & ? & [= ] & _).
Qed.

Lemma runs_ret {A} (a : A) c (Q : A -> xdp_md -> Prop) : Q a c -> runs (ret a) c Q.
Proof. done. Qed.

Lemma runs_bind {A B} (m : xdp A) (k : A -> xdp B) c Q :
  runs m c (fun a c' => runs (k a) c' Q) -> runs (bind m k) c Q.
Proof. unfold runs, bind. destruct (m c) as [[a|e] c']; done. Qed.

Lemma runs_weaken {A} (m : xdp A) c (Q Q' : A -> xdp_md -> Prop) :
  runs m c Q -> (forall a c', Q a c' -> Q' a c') -> runs m c Q'.
Proof. unfold runs. destruct (m c) as [[a|e] c']; auto. Qed.

Lemma runs_ptr_ok (o : nat) c (Q : bool -> xdp_md -> Prop) :
  ((o <= length (data c))%nat -> Q true c) ->
  ((length (data c) < o)%nat -> Q false c) -> runs (ptr_ok o) c Q.
Proof.
  intros Ht Hf. unfold runs, ptr_ok, gets. destruct (Nat.leb_spec o (length (data c))); auto.
Qed.

Lemma runs_load (o n : nat) c (Q : list Z -> xdp_md -> Prop) :
  (o + n <= length (data c))%nat -> Q (field o n (data c)) c -> runs (load o n) c Q.
Proof. intros Hl HQ. unfold runs. now rewrite load_ok. Qed.

Lemma runs_load_u8 (o : nat) c (Q : Z -> xdp_md -> Prop) :
  (o + 1 <= length (data c))%nat -> Q (le_dec (field o 1 (data c))) c ->
  runs (load_u8 o) c Q.
Proof. intros Hl HQ. apply runs_bind, runs_load; done. Qed.

Lemma runs_load_u16 (o : nat) c (Q : Z -> xdp_md -> Prop) :
  (o + 2 <= length (data c))%nat -> Q (le_dec (field o 2 (data c))) c ->
  runs (load_u16 o) c Q.
Proof. intros Hl HQ. apply runs_bind, runs_load; done. Qed.

Lemma runs_load_u32 (o : nat) c (Q : Z -> xdp_md -> Prop) :
  (o + 4 <= length (data c))%nat -> Q (le_dec (field o 4 (data c))) c ->
  runs (load_u32 o) c Q.
Proof. intros Hl HQ. apply runs_bind, runs_load; done. Qed.

(** For memory safety the length of the packet is all that matters. *)
Lemma runs_store_len (o : nat) bs c (Q : unit -> xdp_md -> Prop) :
  (o + length bs <= length (data c))%nat ->
  (forall c', length (data c') = length (data c) -> Q tt c') ->
  runs (store o bs) c Q.
Proof.
  intros Hl HQ. unfold runs. rewrite store_ok by done.
  apply HQ. cbn. now apply length_store_data.
Qed.

Lemma runs_store_split (o : nat) l1 l2 l3 bs c (Q : unit -> xdp_md -> Prop) :
  data c = l1 ++ l2 ++ l3 -> length l1 = o -> length bs = length l2 ->
  Q tt (set_data (l1 ++ bs ++ l3) c) -> runs (store o bs) c Q.
Proof. intros Hd <- Hl HQ. unfold runs. now rewrite (store_split l1 l2 l3). Qed.

(** *** Writing a packet from left to right

    [written l n t c]: the packet starts with the bytes [l] already written,
    has [n] bytes still to write, then the bytes [t]. *)
Definition written (l : list Z) (n : nat) (t : list Z) (c : xdp_md) : Prop :=
  exists junk, length junk = n /\ data c = l ++ junk ++ t.

Lemma written_length l n t c :
  written l n t c -> length (data c) = (length l + n + length t)%nat.
Proof. intros (j & <- & ->). rewrite !length_app. lia. Qed.

Lemma runs_emit (o : nat) bs l n t c (Q : unit -> xdp_md -> Prop) :
  written l (length bs + n) t c -> length l = o ->
  (forall c', written (l ++ bs) n t c' -> headroom c' = headroom c -> Q tt c') ->
  runs (store o bs) c Q.
Proof.
  intros (j & Hj & Hd) <- HQ.
  destruct (list_split_at (length bs) j) as (j1 & j2 & -> & Hj1); [lia|].
  unfold runs. rewrite (store_split l j1 (j2 ++ t)) by (rewrite ?Hd, <- ?app_assoc; done).
  apply HQ; [|done]. exists j2. rewrite length_app in Hj. split; [lia|].
  cbn. now rewrite <- app_assoc.
Qed.

(** A load behind the bytes to write. *)
Lemma field_written (o k : nat) l n t c :
  written l n t c ->
  field (length l + n + o) k (data c) = field o k t.
Proof.
  intros (j & <- & ->). unfold field.
  rewrite <- !skipn_skipn_add, !drop_app_length. done.
Qed.

Lemma field_app_l (o k : nat) l1 l2 :
  (o + k <= length l1)%nat -> field o k (l1 ++ l2) = field o k l1.
Proof.
  intros H. unfold field. rewrite drop_app_le, take_app_le by (rewrite ?length_drop; lia).
  done.
Qed.

Lemma field_app_r (o k : nat) l1 l2 :
  field (length l1 + o) k (l1 ++ l2) = field o k l2.
Proof. unfold field. now rewrite <- skipn_skipn_add, drop_app_length. Qed.

Lemma field_all l : field 0 (length l) l = l.
Proof. unfold field. now rewrite drop_0, take_ge. Qed.

Lemma written_forget l bs n t c :
  written (l ++ bs) n t c -> written l (length bs + n) t c.
Proof.
  intros (j & <- & Hd). exists (bs ++ j). rewrite length_app. split; [done|].
  now rewrite Hd, <- !app_assoc.
Qed.

(** Reads of the three parts of a packet under construction. *)
Lemma field_written_tail (o o' k : nat) l n t c :
  written l n t c -> o' = (length l + n + o)%nat ->
  field o' k (data c) = field o k t.
Proof. intros Hw ->. now apply field_written. Qed.

Lemma field_written_head (o k : nat) l n t c :
  written l n t c -> (o + k <= length l)%nat -> field o k (data c) = field o k l.
Proof. intros (j & _ & ->) Hk. now apply field_app_l. Qed.

(** Overwriting the beginning of what is written. *)
Lemma runs_patch0 bs l1 l2 n t c (Q : unit -> xdp_md -> Prop) :
  written (l1 ++ l2) n t c -> length l1 = length bs ->
  (forall c', written (bs ++ l2) n t c' -> headroom c' = headroom c -> Q tt c') ->
  runs (store 0 bs) c Q.
Proof.
  intros (j & Hj & Hd) Hl HQ. unfold runs.
  rewrite (store_split [] l1 (l2 ++ j ++ t)) by (rewrite ?Hd, <- ?app_assoc; done).
  apply HQ; [|done]. exists j. split; [done|]. cbn. now rewrite <- app_assoc.
Qed.

Lemma sum_words_app l1 l2 :
  Nat.Even (length l1) -> sum_words (l1 ++ l2) = sum_words l1 + sum_words l2.
Proof.
  intros [k Hk]. revert l1 Hk. induction k as [|k IH]; intros l1 Hk.
  - now apply nil_length_inv in Hk as ->.
  - destruct l1 as [|a [|b l1]]; cbn in Hk; [lia|lia|].
    cbn [app sum_words]. rewrite IH by lia. lia.
Qed.

Lemma sum_words_le2 v : 0 <= v < 65536 -> sum_words (le_enc 2 v) = v.
Proof.
  intros H. change (sum_words (le_enc 2 v)) with (le_dec (le_enc 2 v) + 0).
  rewrite le_dec_enc, Z.mod_small; lia.
Qed.
