(* ===== verification/BpfInstances.v ===== *)
(** * Concrete maps and helpers

    Implementations of the kernel interfaces of [Packet]: hash maps with a
    capacity, arrays, program arrays, and packet helpers with a fixed
    headroom.  They show that the laws of the interfaces can be met, and the
    witnesses of the development run on them. *)
From Stdlib Require Import ZArith Lia List Bool.
From stdpp Require Import base list gmap.
From S2P Require Import Prelude Packet.
Open Scope Z_scope.

Definition BPF_ANY : Z := 0.
Definition BPF_NOEXIST : Z := 1.
Definition BPF_EXIST : Z := 2.

Definition ENOENT : Z := 2.
Definition E2BIG : Z := 7.
Definition EEXIST : Z := 17.

(** Case analysis of a map operation; an error number is never 0. *)
Ltac map_cases :=
  repeat (case_match; simplify_eq; cbn in * );
  try (unfold EEXIST, ENOENT, E2BIG in *; lia).

(** ** Hash maps *)

Record hash_map (K V : Type) `{Countable K} : Type := mk_hash_map {
  hm_max_entries : nat;
  hm_entries : gmap K V
}.
Arguments mk_hash_map {K V _ _} _ _.
Arguments hm_max_entries {K V _ _} _.
Arguments hm_entries {K V _ _} _.

Section HashMap.
Context {K V : Type} `{Countable K}.

Definition hm_set (m : hash_map K V) (e : gmap K V) : hash_map K V :=
  mk_hash_map (hm_max_entries m) e.

Definition hm_update (m : hash_map K V) (k : K) (v : V) (flags : Z) : hash_map K V * Z :=
  match hm_entries m !! k with
  | Some _ =>
      if flags =? BPF_NOEXIST then (m, - EEXIST)
      else (hm_set m (<[k := v]> (hm_entries m)), 0)
  | None =>
      if flags =? BPF_EXIST then (m, - ENOENT)
      else if (hm_max_entries m <=? size (hm_entries m))%nat then (m, - E2BIG)
      else (hm_set m (<[k := v]> (hm_entries m)), 0)
  end.

Definition hm_delete (m : hash_map K V) (k : K) : hash_map K V * Z :=
  match hm_entries m !! k with
  | Some _ => (hm_set m (delete k (hm_entries m)), 0)
  | None => (m, - ENOENT)
  end.

#[export] Instance hash_map_ops : BpfMap (hash_map K V) K V := {
  bpf_map_lookup_elem m k := hm_entries m !! k;
  bpf_value_store m k v := hm_set m (<[k := v]> (hm_entries m));
  bpf_map_update_elem := hm_update;
  bpf_map_delete_elem := hm_delete
}.

#[export] Instance hash_map_laws : BpfMapLaws (hash_map K V) K V.
Proof.
  split; cbn; unfold hm_update, hm_delete; intros *.
  - intros _. apply lookup_insert_eq.
  - intros Hk. now apply lookup_insert_ne.
  - intros HU. map_cases; apply lookup_insert_eq.
  - intros HU Hk. map_cases; now apply lookup_insert_ne.
  - intros HU Hr. map_cases; done.
  - intros HU. map_cases. apply lookup_delete_eq.
  - intros HU Hk. map_cases. now apply lookup_delete_ne.
  - intros HU Hr. map_cases; done.
  - intros HU Hn. map_cases; congruence.
Qed.

End HashMap.

(** ** Program arrays: a hash map from indexes to descriptors, the index checked *)

Record prog_array : Type := mk_prog_array {
  pa_max_entries : Z;
  pa_entries : gmap Z Z
}.

Definition pa_in_range (m : prog_array) (k : Z) : bool :=
  (0 <=? k) && (k <? pa_max_entries m).

Definition pa_lookup (m : prog_array) (k : Z) : option Z :=
  if pa_in_range m k then pa_entries m !! k else None.

Definition pa_update (m : prog_array) (k v : Z) (flags : Z) : prog_array * Z :=
  if negb (pa_in_range m k) then (m, - E2BIG)
  else if flags =? BPF_NOEXIST then (m, - EEXIST)
  else (mk_prog_array (pa_max_entries m) (<[k := v]> (pa_entries m)), 0).

Definition pa_delete (m : prog_array) (k : Z) : prog_array * Z :=
  match pa_lookup m k with
  | Some _ => (mk_prog_array (pa_max_entries m) (delete k (pa_entries m)), 0)
  | None => (m, - ENOENT)
  end.

#[export] Instance prog_array_tail_call : ProgArray prog_array := {
  bpf_tail_call := pa_lookup
}.

#[export] Instance prog_array_ops : BpfMap prog_array Z Z := {
  bpf_map_lookup_elem := pa_lookup;
  bpf_value_store m k v := mk_prog_array (pa_max_entries m)
    (if pa_in_range m k then <[k := v]> (pa_entries m) else pa_entries m);
  bpf_map_update_elem := pa_update;
  bpf_map_delete_elem := pa_delete
}.

#[export] Instance prog_array_tail_laws : ProgArrayLaws prog_array.
Proof. split; trivial. Qed.

Lemma pa_lookup_eq m k :
  pa_lookup m k = if pa_in_range m k then pa_entries m !! k else None.
Proof. reflexivity. Qed.

Lemma pa_in_range_eq mx e e' k :
  pa_in_range (mk_prog_array mx e) k = pa_in_range (mk_prog_array mx e') k.
Proof. reflexivity. Qed.

Ltac pa_cases :=
  map_cases; unfold pa_lookup, pa_in_range in *; cbn in *.

#[export] Instance prog_array_laws : BpfMapLaws prog_array Z Z.
Proof.
  split; cbn; unfold pa_update, pa_delete; intros *.
  - intros HL. unfold pa_lookup, pa_in_range in *. cbn.
    destruct ((0 <=? k) && (k <? pa_max_entries m)); [apply lookup_insert_eq|done].
  - intros Hk. unfold pa_lookup, pa_in_range. cbn.
    destruct ((0 <=? k) && _), ((0 <=? k') && _);
      rewrite ?lookup_insert_ne by done; done.
  - intros HU. pa_cases.
    destruct ((0 <=? k) && (k <? pa_max_entries m)); [apply lookup_insert_eq|done].
  - intros HU Hk. pa_cases.
    destruct ((0 <=? k') && _); rewrite ?lookup_insert_ne by done; done.
  - intros HU Hr. pa_cases; done.
  - intros HU. pa_cases. destruct ((0 <=? k) && (k <? pa_max_entries m)); [|done].
    apply lookup_delete_eq.
  - intros HU Hk. pa_cases.
    destruct ((0 <=? k') && _); rewrite ?lookup_delete_ne by done; done.
  - intros HU Hr. pa_cases; done.
  - intros HU Hn. rewrite Hn in HU. injection HU as <- <-. unfold ENOENT. lia.
Qed.

(** ** Packet helpers *)

(** The packet may grow into the headroom and keeps 14 bytes at least. *)
Definition sample_adjust_head (d : Z) (c : xdp_md) : Z * xdp_md :=
  if d <? 0
  then
    let n := Z.to_nat (- d) in
    let h := headroom c in
    if (n <=? length h)%nat
    then (0, mk_xdp_md (take (length h - n) h)
               (map u8 (drop (length h - n) h) ++ data c))
    else (- 22, c)
  else
    let n := Z.to_nat d in
    if (n + 14 <=? length (data c))%nat
    then (0, mk_xdp_md (headroom c ++ take n (data c)) (drop n (data c)))
    else (- 22, c).

(** Devices by index; an error returns the two low bits of the flags. *)
Definition sample_redirect_map (m : gmap Z Z) (key flags : Z) : Z :=
  match m !! key with
  | Some _ => XDP_REDIRECT
  | None => Z.land flags 3
  end.

(** The plain sum of the words, as one 32-bit word: packets are short enough
    here; longer buffers fold. *)
Definition sample_csum_diff (from to : list Z) (seed : Z) : Z :=
  let s := sum_words to - sum_words from + seed in
  if s =? 0 then 0 else 65535 + s mod 65535.

Definition sample_helpers_of {D : Type} (entries : D -> gmap Z Z) : XdpHelpers D := {|
  bpf_xdp_adjust_head := sample_adjust_head;
  bpf_redirect_map m := sample_redirect_map (entries m);
  bpf_csum_diff := sample_csum_diff
|}.

#[export] Instance sample_helpers : XdpHelpers (gmap Z Z) := sample_helpers_of id.

(** A device map as user space fills it. *)
#[export] Instance dev_map_helpers : XdpHelpers (hash_map Z Z) := sample_helpers_of hm_entries.

Lemma bytes_map_u8 l : bytes (map u8 l).
Proof.
  apply List.Forall_forall. intros x Hx. apply in_map_iff in Hx as (y & <- & _).
  apply u8_range.
Qed.

Lemma sample_laws_of {D : Type} (entries : D -> gmap Z Z) :
  @XdpHelperLaws D (sample_helpers_of entries).
Proof.
  split; cbn.
  - intros d c r c'. unfold sample_adjust_head.
    destruct (d <? 0), (_ <=? _)%nat; intros [= <- <-]; done.
  - intros n c c' Hn. unfold sample_adjust_head.
    destruct (Z.ltb_spec (- n) 0).
    + rewrite Z.opp_involutive.
      destruct (Nat.leb_spec (Z.to_nat n) (length (headroom c))); [|done].
      intros [= <-]. eexists. split; [|split; [apply bytes_map_u8|reflexivity]].
      rewrite length_map, length_drop. lia.
    + assert (n = 0) as -> by lia. cbn.
      destruct (_ <=? _)%nat; [|done]. intros [= <-]. exists []. cbn.
      split; [done|]. split; [constructor|done].
  - intros n c c' Hn. unfold sample_adjust_head.
    destruct (Z.ltb_spec n 0); [lia|].
    destruct (_ <=? _)%nat; [|done]. now intros [= <-].
  - intros m k f. unfold sample_redirect_map. destruct (entries m !! k); auto.
  - intros l Hb _. unfold sample_csum_diff. cbn [sum_words].
    rewrite Z.sub_0_r, Z.add_0_r.
    destruct (Z.eqb_spec (sum_words l) 0) as [->|Hn]; [done|].
    div_facts (sum_words l) 65535. split; [lia|]. split; [|lia].
    rewrite <- Z.add_mod_idemp_l, Z.mod_same, Z.add_0_l, Z.mod_mod by lia. done.
Qed.

#[export] Instance sample_helper_laws : XdpHelperLaws (gmap Z Z) := sample_laws_of id.
#[export] Instance dev_map_helper_laws : XdpHelperLaws (hash_map Z Z) :=
  sample_laws_of hm_entries.


#[export] Instance dev_map_laws : DevMapLaws (hash_map Z Z).
Proof.
  split.
  - intros m k i f m' Hu _. eapply map_update_same. exact Hu.
  - intros m k i f m' k' Hu Hk. eapply map_update_other; eassumption.
Qed.

#[export] Instance dev_map_redirect : RedirectLaws (hash_map Z Z).
Proof. split. cbn. unfold sample_redirect_map. now intros m k i f ->. Qed.
