(* ===== verification/Csum.v ===== *)
(** * Checksums of the datapath (src/src/bpf/utils/csum.h)

    The one's-complement arithmetic on 32-bit and 16-bit words, the update of a
    checksum inside the packet ([pcn_l3_csum_replace]) and the recomputation of
    an IPv4 header's checksum ([pcn_update_csum]).  [rfc1071_ok] is the
    specification: the words of a correct header add up to a non-zero multiple
    of 65535. *)
From Stdlib Require Import ZArith Lia List Bool.
From stdpp Require Import base list gmap.
From S2P Require Import Prelude Packet.
Open Scope Z_scope.
Open Scope upf_scope.

Definition EINVAL : Z := 22.
Definition EFAULT : Z := 14.
Definition BPF_F_HDR_FIELD_MASK : Z := 0xf.

(** ** Operations *)

Definition pcn_csum_fold (csum : Z) : Z :=
  let sum := u32 csum in
  let sum := u32 (Z.land sum 0xffff + Z.shiftr sum 16) in
  let sum := u32 (Z.land sum 0xffff + Z.shiftr sum 16) in
  not16 sum.

Definition pcn_csum_add (csum addend : Z) : Z :=
  let res := u32 (u32 csum + u32 addend) in
  u32 (res + (if res <? u32 addend then 1 else 0)).

Definition pcn_csum16_add (csum addend : Z) : Z :=
  let res := u16 (u16 csum + u16 addend) in
  u16 (res + (if res <? u16 addend then 1 else 0)).

Definition pcn_csum_unfold (n : Z) : Z := u16 n.

(** The value written to [*sum]. *)
Definition pcn_csum_replace_by_diff (sum diff : Z) : Z :=
  pcn_csum_fold (pcn_csum_add diff (not32 (pcn_csum_unfold sum))).

Definition pcn_l3_csum_replace (csum_offset old_value new_value flags : Z) : xdp Z :=
  if negb (Z.land flags (not32 BPF_F_HDR_FIELD_MASK) =? 0) then ret (- EINVAL)
  else if (0xffff <? csum_offset) || negb (Z.land csum_offset 1 =? 0) then ret (- EFAULT)
  else
    let o := Z.to_nat csum_offset in
    let* ok := ptr_ok (o + 2) in
    if negb ok then ret (- EINVAL)
    else
      let* old := load_u16 o in
      match Z.land flags BPF_F_HDR_FIELD_MASK with
      | 0 => store_u16 o (pcn_csum_replace_by_diff old new_value) ;;; ret 0
      | 2 =>
          store_u16 o
            (not16 (pcn_csum16_add
                      (pcn_csum16_add (not16 old) (not16 old_value)) new_value)) ;;;
          ret 0
      | 4 =>
          store_u16 o
            (pcn_csum_replace_by_diff old (pcn_csum_add new_value (not32 old_value))) ;;;
          ret 0
      | _ => ret (- EINVAL)
      end.

(** [linux_version_code] is the LINUX_VERSION_CODE of the build; before 4.16
    the code adds the two words itself. *)
Definition KERNEL_VERSION (a b c : Z) : Z := Z.shiftl a 16 + Z.shiftl b 8 + c.

Definition pcn_csum_diff {DevMap} `{XdpHelpers DevMap} (linux_version_code : Z)
    (from to : list Z) (seed : Z) : Z :=
  if KERNEL_VERSION 4 16 0 <=? linux_version_code
  then bpf_csum_diff from to seed
  else if negb (length from =? 4)%nat || negb (length to =? 4)%nat then u32 (- EINVAL)
  else
    let result := pcn_csum_add (le_dec to) (not32 (le_dec from)) in
    let result := u32 (result + seed) in
    if result <? seed then u32 (result + 1) else result.

(** The new value of [iph->check], from the twenty bytes of the header. *)
Definition pcn_update_csum (iph : list Z) : Z :=
  let csum := u32 (sum_words (take 20 iph)) in
  not16 (Z.land csum 0xffff + Z.shiftr csum 16).

(** ** Specification *)

(** RFC 1071: a header is intact when the one's-complement sum of its words is
    [-0], that is a non-zero multiple of 65535. *)
Definition rfc1071_ok (l : list Z) : Prop :=
  sum_words l mod 65535 = 0 /\ 0 < sum_words l.

(** ** Lemmas *)

Lemma land_ffff x : Z.land x 0xffff = x mod 65536.
Proof. change 0xffff with (Z.ones 16). now rewrite Z.land_ones by lia. Qed.

Lemma shiftr_16 x : Z.shiftr x 16 = x / 65536.
Proof. rewrite Z.shiftr_div_pow2 by lia. reflexivity. Qed.

(** Congruence modulo 65535, with an explicit quotient for [lia]. *)
Definition eqm (a b : Z) : Prop := exists k, a = b + k * 65535.

Lemma eqm_mod a b : eqm a b <-> a mod 65535 = b mod 65535.
Proof.
  split.
  - intros [k ->]. apply Z.mod_add. lia.
  - intros H. exists (a / 65535 - b / 65535).
    div_facts a 65535. div_facts b 65535. lia.
Qed.

#[global] Instance eqm_equiv : Equivalence eqm.
Proof.
  split.
  - intros a. exists 0. lia.
  - intros a b [k ->]. exists (- k). lia.
  - intros a b c [k ->] [j ->]. exists (j + k). lia.
Qed.

#[global] Instance eqm_add : Proper (eqm ==> eqm ==> eqm) Z.add.
Proof. intros a b [k ->] c d [j ->]. exists (k + j). lia. Qed.

#[global] Instance eqm_opp : Proper (eqm ==> eqm) Z.opp.
Proof. intros a b [k ->]. exists (- k). lia. Qed.

#[global] Instance eqm_sub : Proper (eqm ==> eqm ==> eqm) Z.sub.
Proof. intros a b [k ->] c d [j ->]. exists (k - j). lia. Qed.

(** One folding step keeps the class modulo 65535. *)
Lemma eqm_fold_step s : eqm (s mod 65536 + s / 65536) s.
Proof. exists (- (s / 65536)). div_facts s 65536. lia. Qed.

Lemma not16_eqm x : eqm (not16 x) (- u16 x).
Proof. exists 1. unfold not16. lia. Qed.

Lemma not32_eqm x : eqm (not32 x) (- u32 x).
Proof. exists 65537. unfold not32. lia. Qed.

Lemma not16_range x : 0 <= not16 x < 65536.
Proof. unfold not16. pose proof (u16_range x). lia. Qed.

Lemma not32_range x : 0 <= not32 x < 4294967296.
Proof. unfold not32. pose proof (u32_range x). lia. Qed.

(** The fold is a complement of a word congruent to its argument; it is the
    complement of 0 only for 0. *)
Lemma pcn_csum_fold_spec s :
  0 <= s < 2 ^ 32 ->
  exists w, pcn_csum_fold s = 65535 - w /\ 0 <= w < 65536 /\ eqm w s /\ (w = 0 -> s = 0).
Proof.
  intros Hs. unfold pcn_csum_fold. rewrite !land_ffff, !shiftr_16.
  rewrite (u32_id s) by lia.
  set (a := s mod 65536 + s / 65536).
  assert (Ha : 0 <= a <= 131070 /\ (a = 0 -> s = 0)).
  { unfold a. div_facts s 65536. lia. }
  rewrite (u32_id a) by lia.
  set (w := a mod 65536 + a / 65536).
  assert (Hw : 0 <= w < 65536 /\ (w = 0 -> a = 0)).
  { unfold w. div_facts a 65536. lia. }
  rewrite (u32_id w) by lia.
  exists w. unfold not16. rewrite u16_id by lia.
  split; [lia|]. split; [lia|]. split; [|lia].
  unfold w. rewrite eqm_fold_step. apply eqm_fold_step.
Qed.

(** The addition is the end-around-carry sum. *)
Lemma pcn_csum_add_eq a b :
  0 <= a < 2 ^ 32 -> 0 <= b < 2 ^ 32 ->
  pcn_csum_add a b = if a + b <? 2 ^ 32 then a + b else a + b - 2 ^ 32 + 1.
Proof.
  intros Ha Hb. unfold pcn_csum_add. rewrite (u32_id a), (u32_id b) by lia.
  destruct (Z.ltb_spec (a + b) (2 ^ 32)) as [Hlt|Hge].
  - rewrite (u32_id (a + b)) by lia.
    rewrite (proj2 (Z.ltb_ge (a + b) b)) by lia. rewrite Z.add_0_r. apply u32_id. lia.
  - assert (Hw : u32 (a + b) = a + b - 2 ^ 32).
    { unfold u32. rewrite <- (Z.mod_add (a + b) (-1)) by lia. apply Z.mod_small. lia. }
    rewrite Hw. rewrite (proj2 (Z.ltb_lt _ _)) by lia. rewrite u32_id; lia.
Qed.

Lemma pcn_csum_add_spec a b :
  0 <= a < 2 ^ 32 -> 0 <= b < 2 ^ 32 ->
  0 <= pcn_csum_add a b < 2 ^ 32 /\ eqm (pcn_csum_add a b) (a + b) /\
  (pcn_csum_add a b = 0 -> a = 0 /\ b = 0).
Proof.
  intros Ha Hb. rewrite pcn_csum_add_eq by done.
  destruct (Z.ltb_spec (a + b) (2 ^ 32)); repeat split; try lia.
  - reflexivity.
  - exists (-65537). lia.
Qed.

Lemma pcn_csum16_add_spec a b :
  0 <= a < 65536 -> 0 <= b < 65536 ->
  0 <= pcn_csum16_add a b < 65536 /\ eqm (pcn_csum16_add a b) (a + b).
Proof.
  intros Ha Hb. unfold pcn_csum16_add. rewrite (u16_id a), (u16_id b) by lia.
  destruct (Z.ltb_spec (a + b) 65536) as [Hlt|Hge].
  - rewrite (u16_id (a + b)) by lia.
    rewrite (proj2 (Z.ltb_ge (a + b) b)) by lia. rewrite u16_id by lia.
    split; [lia|]. exists 0. lia.
  - assert (Hw : u16 (a + b) = a + b - 65536).
    { unfold u16. rewrite <- (Z.mod_add (a + b) (-1)) by lia. apply Z.mod_small. lia. }
    rewrite Hw. rewrite (proj2 (Z.ltb_lt _ _)) by lia. rewrite u16_id by lia.
    split; [lia|]. exists (-1). lia.
Qed.

(** The checksum written from a difference: its complement is the sum of the
    difference and of the complement of the old checksum. *)
Lemma pcn_csum_replace_by_diff_spec sum diff :
  0 <= sum < 65536 -> 0 <= diff < 2 ^ 32 ->
  0 <= pcn_csum_replace_by_diff sum diff < 65536 /\
  eqm (pcn_csum_replace_by_diff sum diff) (sum - diff).
Proof.
  intros Hs Hd. unfold pcn_csum_replace_by_diff, pcn_csum_unfold.
  rewrite (u16_id sum) by lia.
  destruct (pcn_csum_add_spec diff (not32 sum)) as (Hr & He & _);
    [done|apply not32_range|].
  destruct (pcn_csum_fold_spec _ Hr) as (w & -> & Hw & Hm & _).
  split; [lia|]. rewrite Hm, He, not32_eqm, (u32_id sum) by lia.
  exists 1. lia.
Qed.

(** On a packet that holds the checksum: exactly those two bytes change. *)
Lemma pcn_l3_csum_replace_split pre old post off ov nv fl c :
  data c = pre ++ le_enc 2 old ++ post ->
  Z.of_nat (length pre) = off -> 0 <= off <= 0xffff -> Z.land off 1 = 0 ->
  0 <= old < 65536 -> In fl [0; 2; 4] ->
  pcn_l3_csum_replace off ov nv fl c =
    (Ok 0, set_data (pre ++ le_enc 2
      (if fl =? 0 then pcn_csum_replace_by_diff old nv
       else if fl =? 2 then
         not16 (pcn_csum16_add (pcn_csum16_add (not16 old) (not16 ov)) nv)
       else pcn_csum_replace_by_diff old (pcn_csum_add nv (not32 ov))) ++ post) c).
Proof.
  intros Hd Ho Hr Hodd Hold Hfl. unfold pcn_l3_csum_replace.
  assert (Z.land fl (not32 BPF_F_HDR_FIELD_MASK) = 0) as ->
    by (simpl in Hfl; destruct Hfl as [<-|[<-|[<-|[]]]]; reflexivity).
  rewrite Hodd, (proj2 (Z.ltb_ge 0xffff off)) by lia. cbn [negb orb Z.eqb].
  assert (Z.to_nat off = length pre) as -> by lia.
  assert (length (data c) = length pre + 2 + length post)%nat as HL.
  { rewrite Hd, !length_app, length_le_enc. lia. }
  unfold bind at 1, ptr_ok, gets. rewrite (proj2 (Nat.leb_le _ _)) by lia.
  cbn [negb]. unfold bind at 1, load_u16, bind at 1.
  rewrite load_ok by lia. unfold ret at 1.
  rewrite Hd, drop_app_length, take_app_length' by now rewrite length_le_enc.
  rewrite le_dec_enc, Z.mod_small by (exact Hold).
  assert (Hst : forall v, (store_u16 (length pre) v ;;; ret 0) c =
      (Ok 0, set_data (pre ++ le_enc 2 v ++ post) c)).
  { intros v. unfold store_u16, bind.
    rewrite (store_split pre (le_enc 2 old) post); [done|exact Hd|].
    now rewrite !length_le_enc. }
  simpl in Hfl; destruct Hfl as [<-|[<-|[<-|[]]]];
    change (Z.land 0 BPF_F_HDR_FIELD_MASK) with 0;
    change (Z.land 2 BPF_F_HDR_FIELD_MASK) with 2;
    change (Z.land 4 BPF_F_HDR_FIELD_MASK) with 4;
    cbn [Z.eqb Pos.eqb]; rewrite Hst; reflexivity.
Qed.

(** The use of the datapath: a difference is added to a zero checksum. *)
Lemma pcn_l3_csum_replace_push pre post off nv c :
  data c = pre ++ le_enc 2 0 ++ post ->
  Z.of_nat (length pre) = off -> 0 <= off <= 0xffff -> Z.land off 1 = 0 ->
  0 <= nv < 2 ^ 32 ->
  exists chk, 0 <= chk < 65536 /\ (chk + nv) mod 65535 = 0 /\
    pcn_l3_csum_replace off 0 nv 0 c = (Ok 0, set_data (pre ++ le_enc 2 chk ++ post) c).
Proof.
  intros Hd Ho Hr Hodd Hn. exists (pcn_csum_replace_by_diff 0 nv).
  destruct (pcn_csum_replace_by_diff_spec 0 nv) as [Hc He]; [lia|done|].
  split; [done|]. split.
  - apply (eqm_mod _ 0). rewrite He. exists 0. lia.
  - pose proof (pcn_l3_csum_replace_split pre 0 post off 0 nv 0 c Hd Ho Hr Hodd
                  ltac:(lia) ltac:(cbn; auto)) as Hp.
    now rewrite Z.eqb_refl in Hp.
Qed.

(** The word written for each of the three uses of the function. *)
Lemma l3_new_word old ov nv fl :
  0 <= old < 65536 -> In fl [0; 2; 4] ->
  (fl = 0 -> ov = 0) ->
  (fl = 2 -> 0 <= ov < 65536 /\ 0 <= nv < 65536) ->
  0 <= ov < 2 ^ 32 -> 0 <= nv < 2 ^ 32 ->
  let s' := if fl =? 0 then pcn_csum_replace_by_diff old nv
            else if fl =? 2 then
              not16 (pcn_csum16_add (pcn_csum16_add (not16 old) (not16 ov)) nv)
            else pcn_csum_replace_by_diff old (pcn_csum_add nv (not32 ov)) in
  0 <= s' < 65536 /\ eqm (s' + nv) (old + ov).
Proof.
  intros Hold Hfl H0 H2 Ho Hn. simpl in Hfl.
  destruct Hfl as [<-|[<-|[<-|[]]]]; cbn [Z.eqb Pos.eqb].
  - destruct (pcn_csum_replace_by_diff_spec old nv) as [Hr He]; [done..|].
    split; [done|]. rewrite He, H0 by done. exists 0. lia.
  - destruct (H2 eq_refl) as [Ho16 Hn16].
    destruct (pcn_csum16_add_spec (not16 old) (not16 ov)) as [Hr1 He1];
      [apply not16_range..|].
    destruct (pcn_csum16_add_spec _ nv Hr1) as [Hr2 He2]; [done|].
    split; [apply not16_range|].
    set (w := pcn_csum16_add (pcn_csum16_add _ _) nv) in *.
    rewrite (not16_eqm w), (u16_id w) by done. rewrite He2, He1, !not16_eqm, !u16_id by done. exists 0. lia.
  - destruct (pcn_csum_add_spec nv (not32 ov)) as (Hr1 & He1 & _);
      [done|apply not32_range|].
    destruct (pcn_csum_replace_by_diff_spec old _ Hold Hr1) as [Hr He].
    split; [done|]. rewrite He, He1, not32_eqm, u32_id by done. exists 0. lia.
Qed.

Lemma sum_words_nonneg l : bytes l -> 0 <= sum_words l.
Proof.
  intros H. assert (forall n, (length l <= n)%nat -> 0 <= sum_words l) as Hn.
  { intros n. revert l H. induction n as [|n IH]; intros [|a [|b l]] H HL;
      simpl in *; try lia.
    inversion H as [|? ? Ha H']; subst. inversion H' as [|? ? Hb H'']; subst.
    unfold is_byte in *. specialize (IH l H''). lia. }
  apply (Hn (length l)). lia.
Qed.

Lemma sum_words_bound l :
  bytes l -> sum_words l <= 65535 * Z.of_nat (length l / 2).
Proof.
  intros H. assert (forall n, (length l <= n)%nat ->
    sum_words l <= 65535 * Z.of_nat (length l / 2)) as Hn.
  { intros n. revert l H. induction n as [|n IH]; intros [|a [|b l]] H HL;
      cbn [sum_words]; try (simpl in *; lia).
    inversion H as [|? ? Ha H']; subst. inversion H' as [|? ? Hb H'']; subst.
    change (length (a :: b :: l)) with (2 + length l)%nat in *.
    replace ((2 + length l) / 2)%nat with (1 + length l / 2)%nat
      by (change (2 + length l)%nat with (1 * 2 + length l)%nat;
          now rewrite Nat.div_add_l).
    unfold is_byte in *. specialize (IH l H'' ltac:(lia)). cbn [le_dec]. lia. }
  apply (Hn (length l)). lia.
Qed.

(** ** Properties *)

(** C24: replacing a checksummed value inside the packet keeps the checksum
    valid: for the three field sizes, exactly the two bytes of the checksum
    change, and the sum of the checksum and of the value it covers stays the
    same in one's-complement arithmetic. *)
Theorem pcn_l3_csum_replace_valid pre old post off ov nv fl c :
  data c = pre ++ le_enc 2 old ++ post ->
  Z.of_nat (length pre) = off -> off <= 0xffff -> Z.land off 1 = 0 ->
  0 <= old < 65536 -> In fl [0; 2; 4] ->
  (fl = 0 -> ov = 0) ->
  (fl = 2 -> 0 <= ov < 65536 /\ 0 <= nv < 65536) ->
  0 <= ov < 2 ^ 32 -> 0 <= nv < 2 ^ 32 ->
  exists s', 0 <= s' < 65536 /\
    pcn_l3_csum_replace off ov nv fl c =
      (Ok 0, set_data (pre ++ le_enc 2 s' ++ post) c) /\
    (s' + nv) mod 65535 = (old + ov) mod 65535.
Proof.
  intros Hd Ho Hoff Hodd Hold Hfl H0 H2 Hov Hnv.
  destruct (l3_new_word old ov nv fl) as [Hr He]; [done..|].
  eexists. split; [exact Hr|]. split; [|now apply eqm_mod].
  apply pcn_l3_csum_replace_split; try done. lia.
Qed.

Example pcn_l3_csum_replace_valid_witness :
  exists s', 0 <= s' < 65536 /\
    pcn_l3_csum_replace 2 0x1111 0x2222 2 (mk_xdp_md [] [1; 2; 0x34; 0x12; 9]) =
      (Ok 0, set_data ([1; 2] ++ le_enc 2 s' ++ [9])
               (mk_xdp_md [] [1; 2; 0x34; 0x12; 9])) /\
    (s' + 0x2222) mod 65535 = (0x1234 + 0x1111) mod 65535.
Proof.
  apply (pcn_l3_csum_replace_valid [1; 2] 0x1234 [9]); try reflexivity; try lia.
  simpl. auto.
Defined.


