(* ===== verification/UpfXdp.v ===== *)
(** * The entry program of the datapath (src/src/bpf/upf_xdp_bpf.c)

    Every packet enters here: the handlers walk Ethernet, IPv4, UDP and GTP-U
    and tail-call the rule program of the session the packet belongs to.
    [entry_point] also counts the action ([xdp_stats_record_action] of
    xdp_stats_kern.h).  The specification [classify] is a layered parser that
    passes the remaining bytes from layer to layer; the handlers, which work
    on offsets with a bounds check each, are proved to implement it. *)
From Stdlib Require Import ZArith Lia List Bool.
From stdpp Require Import base list gmap.
From S2P Require Import Prelude Packet BpfInstances.
Open Scope Z_scope.
Open Scope upf_scope.

(** ** Data *)

(** next_prog_rule_key.h *)
Record next_rule_prog_index_key : Type := mk_key {
  teid : Z;
  source_value : Z;
  ipv4_address : Z
}.

#[export] Instance next_rule_prog_index_key_eq_dec : EqDecision next_rule_prog_index_key.
Proof. solve_decision. Defined.

#[export] Instance next_rule_prog_index_key_countable : Countable next_rule_prog_index_key.
Proof.
  apply (inj_countable' (fun k => (teid k, source_value k, ipv4_address k))
           (fun t => mk_key t.1.1 t.1.2 t.2)).
  now intros [].
Defined.

(** xdp_stats_kern_user.h *)
Record datarec : Type := mk_datarec {
  rx_packets : Z;
  rx_bytes : Z
}.

Definition XDP_ACTION_MAX : Z := XDP_REDIRECT + 1.

(** <linux/if_ether.h>, <linux/in.h>, protocols/gtpu.h, ie/destination_interface.h *)
Definition ETH_P_IP : Z := 0x0800.
Definition ETH_P_8021Q : Z := 0x8100.
Definition ETH_P_8021AD : Z := 0x88A8.
Definition IPPROTO_UDP : Z := 17.
Definition GTP_UDP_PORT : Z := 2152.
Definition GTPU_G_PDU : Z := 255.
Definition INTERFACE_VALUE_ACCESS : Z := 0.
Definition INTERFACE_VALUE_CORE : Z := 1.

(** Sizes of the headers: Ethernet, VLAN tag, IPv4, UDP and GTP-U. *)
Definition sizeof_ethhdr : nat := 14.
Definition sizeof_vlan_hdr : nat := 4.
Definition sizeof_iphdr : nat := 20.
Definition sizeof_udphdr : nat := 8.
Definition sizeof_gtpuhdr : nat := 8.

Section Program.
Context {IdxMap ProgMap StatsMap : Type}.
Context `{BpfMap IdxMap next_rule_prog_index_key Z}.
Context `{ProgArray ProgMap}.
Context `{BpfMap StatsMap Z datarec}.
Variable m_next_rule_prog_index : IdxMap.
Variable m_next_rule_prog : ProgMap.

(** ** Operations *)

(** A tail call that succeeds does not return; the callers ignore the 0. *)
Definition tail_call_next_prog (teid source_value ipv4_address : Z) : xdp Z :=
  let map_key := mk_key teid source_value ipv4_address in
  match bpf_map_lookup_elem m_next_rule_prog_index map_key with
  | Some index_prog =>
      match bpf_tail_call m_next_rule_prog index_prog with
      | Some fd => raise (TailCall fd)
      | None => ret 0
      end
  | None => ret 0
  end.

(** The version is the high half of the first byte of the header. *)
Definition ip_inner_check_ipv4 (iph : nat) : xdp Z :=
  let* ok := ptr_ok (iph + sizeof_iphdr) in
  if negb ok then ret XDP_ABORTED
  else
    let* b := load_u8 (iph + 0) in
    ret (if Z.shiftr b 4 =? 4 then 1 else 0).

Definition gtp_handle (p_gtpuh : nat) (src_ue_ip : Z) : xdp Z :=
  let* ok := ptr_ok (p_gtpuh + sizeof_gtpuhdr) in
  if negb ok then ret XDP_DROP
  else
    let* message_type := load_u8 (p_gtpuh + 1) in
    if negb (message_type =? GTPU_G_PDU) then ret XDP_PASS
    else
      let* is_ipv4 := ip_inner_check_ipv4 (p_gtpuh + sizeof_gtpuhdr) in
      if is_ipv4 =? 0 then ret XDP_DROP
      else
        let* t := load_u32 (p_gtpuh + 4) in
        tail_call_next_prog t INTERFACE_VALUE_ACCESS src_ue_ip ;;;
        ret XDP_PASS.

Definition udp_handle (udph : nat) (src_ip dest_ip : Z) : xdp Z :=
  let* ok := ptr_ok (udph + sizeof_udphdr) in
  if negb ok then ret XDP_ABORTED
  else
    let* dest := load_u16 (udph + 2) in
    let dport := htons dest in
    if dport =? GTP_UDP_PORT
    then gtp_handle (udph + sizeof_udphdr) src_ip
    else
      tail_call_next_prog 0 INTERFACE_VALUE_CORE dest_ip ;;;
      ret XDP_PASS.

Definition ipv4_handle (iph : nat) : xdp Z :=
  let* ok := ptr_ok (iph + sizeof_iphdr) in
  if negb ok then ret XDP_ABORTED
  else
    let* ip_src := load_u32 (iph + 12) in
    let* ip_dest := load_u32 (iph + 16) in
    let* protocol := load_u8 (iph + 9) in
    if protocol =? IPPROTO_UDP
    then udp_handle (iph + sizeof_iphdr) ip_src ip_dest
    else ret XDP_PASS.

(** The VLAN cases read the type the tag carries, then fall through to the
    IPv4 case whatever it is. *)
Definition eth_handle (ethh : nat) : xdp Z :=
  let* ok := ptr_ok (ethh + sizeof_ethhdr) in
  if negb ok then ret XDP_PASS
  else
    let* h_proto := load_u16 (ethh + 12) in
    let eth_type := htons h_proto in
    if (eth_type =? ETH_P_8021Q) || (eth_type =? ETH_P_8021AD)
    then
      let* tag_ok := ptr_ok (ethh + sizeof_ethhdr + sizeof_vlan_hdr) in
      let* eth_type :=
        (if tag_ok
         then let* p := load_u16 (ethh + sizeof_ethhdr + 2) in ret (htons p)
         else ret eth_type) in
      ipv4_handle (ethh + sizeof_ethhdr + sizeof_vlan_hdr)
    else if eth_type =? ETH_P_IP
    then ipv4_handle (ethh + sizeof_ethhdr)
    else ret XDP_PASS.

(** xdp_stats_kern.h: the record of the action is updated through the pointer
    the lookup returns; the counters are 64-bit and the size of the packet is
    the difference of two 32-bit fields. *)
Definition xdp_stats_record_action (mc_stats : StatsMap) (action : Z) : xdp (Z * StatsMap) :=
  if XDP_ACTION_MAX <=? action then ret (XDP_ABORTED, mc_stats)
  else
    match bpf_map_lookup_elem mc_stats action with
    | None => ret (XDP_ABORTED, mc_stats)
    | Some rec =>
        let* size := gets (fun c => u32 (Z.of_nat (length (data c)))) in
        ret (action, bpf_value_store mc_stats action
               (mk_datarec (u64 (rx_packets rec + 1)) (u64 (rx_bytes rec + size))))
    end.

Definition entry_point (mc_stats : StatsMap) : xdp (Z * StatsMap) :=
  let* action := eth_handle 0 in
  xdp_stats_record_action mc_stats action.

(** ** Specification: a layered parser *)

Inductive verdict : Type :=
| Act (action : Z)
| Session (key : next_rule_prog_index_key).

Definition classify_gtp (src_ip : Z) (p : list Z) : verdict :=
  match split_hdr sizeof_gtpuhdr p with
  | None => Act XDP_DROP
  | Some (gtp, inner) =>
      if negb (le_dec (field 1 1 gtp) =? GTPU_G_PDU) then Act XDP_PASS
      else
        match split_hdr sizeof_iphdr inner with
        | None => Act XDP_DROP
        | Some (ip, _) =>
            if le_dec (field 0 1 ip) / 16 =? 4
            then Session (mk_key (le_dec (field 4 4 gtp)) INTERFACE_VALUE_ACCESS src_ip)
            else Act XDP_DROP
        end
  end.

Definition classify_udp (src_ip dest_ip : Z) (p : list Z) : verdict :=
  match split_hdr sizeof_udphdr p with
  | None => Act XDP_ABORTED
  | Some (udp, rest) =>
      if be_dec (field 2 2 udp) =? GTP_UDP_PORT then classify_gtp src_ip rest
      else Session (mk_key 0 INTERFACE_VALUE_CORE dest_ip)
  end.

Definition classify_ipv4 (p : list Z) : verdict :=
  match split_hdr sizeof_iphdr p with
  | None => Act XDP_ABORTED
  | Some (ip, rest) =>
      if le_dec (field 9 1 ip) =? IPPROTO_UDP
      then classify_udp (le_dec (field 12 4 ip)) (le_dec (field 16 4 ip)) rest
      else Act XDP_PASS
  end.

Definition classify (p : list Z) : verdict :=
  match split_hdr sizeof_ethhdr p with
  | None => Act XDP_PASS
  | Some (eth, rest) =>
      let ethertype := be_dec (field 12 2 eth) in
      if (ethertype =? ETH_P_8021Q) || (ethertype =? ETH_P_8021AD)
      then
        match split_hdr sizeof_vlan_hdr rest with
        | None => Act XDP_ABORTED
        | Some (_, rest') => classify_ipv4 rest'
        end
      else if ethertype =? ETH_P_IP then classify_ipv4 rest
      else Act XDP_PASS
  end.

(** What the datapath does with a verdict: a session's program takes over when
    the index map and the program array both have an entry. *)
Definition dispatch (v : verdict) : result bpf_exit Z :=
  match v with
  | Act a => Ok a
  | Session key =>
      match bpf_map_lookup_elem m_next_rule_prog_index key with
      | None => Ok XDP_PASS
      | Some index =>
          match bpf_tail_call m_next_rule_prog index with
          | None => Ok XDP_PASS
          | Some fd => Err (TailCall fd)
          end
      end
  end.

(** ** The handlers implement the parser *)

Lemma tail_call_dispatch t s ip c :
  (tail_call_next_prog t s ip ;;; ret XDP_PASS) c = (dispatch (Session (mk_key t s ip)), c).
Proof.
  unfold tail_call_next_prog, dispatch, bind.
  destruct (bpf_map_lookup_elem _ _) as [i|]; [|done].
  destruct (bpf_tail_call _ _); done.
Qed.

Lemma shiftr_4 b : Z.shiftr b 4 = b / 16.
Proof. rewrite Z.shiftr_div_pow2 by lia. reflexivity. Qed.

Lemma ip_inner_check_ipv4_spec pre rest c :
  data c = pre ++ rest ->
  ip_inner_check_ipv4 (length pre) c =
    (Ok (match split_hdr sizeof_iphdr rest with
         | Some (ip, _) => if le_dec (field 0 1 ip) / 16 =? 4 then 1 else 0
         | None => 0
         end), c).
Proof.
  intros Hd. unfold ip_inner_check_ipv4, bind.
  rewrite (ptr_ok_split _ _ _ _ Hd).
  destruct (split_hdr sizeof_iphdr rest) as [[ip t]|] eqn:Hs; cbn [negb]; [|done].
  apply split_hdr_some in Hs as [-> Hl].
  rewrite (load_u8_field pre ip t) by (done || rewrite Hl; unfold sizeof_iphdr; lia).
  unfold ret. now rewrite shiftr_4.
Qed.

Lemma gtp_handle_spec pre rest src c :
  data c = pre ++ rest ->
  gtp_handle (length pre) src c = (dispatch (classify_gtp src rest), c).
Proof.
  intros Hd. unfold gtp_handle, classify_gtp.
  rewrite (bind_ok _ _ _ _ _ (ptr_ok_split _ _ _ _ Hd)).
  destruct (split_hdr sizeof_gtpuhdr rest) as [[gtp inner]|] eqn:Hs; cbn [negb]; [|done].
  apply split_hdr_some in Hs as [-> Hl].
  rewrite (bind_ok _ _ _ _ _ (load_u8_field pre gtp inner 1 c Hd
    ltac:(rewrite Hl; unfold sizeof_gtpuhdr; lia))).
  destruct (negb _); [done|].
  replace (length pre + sizeof_gtpuhdr)%nat with (length (pre ++ gtp))
    by now rewrite length_app, Hl.
  rewrite (bind_ok _ _ _ _ _ (ip_inner_check_ipv4_spec (pre ++ gtp) inner c
    ltac:(now rewrite <- app_assoc))).
  destruct (split_hdr sizeof_iphdr inner) as [[ip t]|]; [|done].
  destruct (_ / 16 =? 4); [|done]. cbn [Z.eqb].
  rewrite (bind_ok _ _ _ _ _ (load_u32_field pre gtp inner 4 c Hd
    ltac:(rewrite Hl; unfold sizeof_gtpuhdr; lia))).
  apply tail_call_dispatch.
Qed.

Lemma udp_handle_spec pre rest src dst c :
  data c = pre ++ rest -> bytes (data c) ->
  udp_handle (length pre) src dst c = (dispatch (classify_udp src dst rest), c).
Proof.
  intros Hd Hb. unfold udp_handle, classify_udp.
  rewrite (bind_ok _ _ _ _ _ (ptr_ok_split _ _ _ _ Hd)).
  destruct (split_hdr sizeof_udphdr rest) as [[udp t]|] eqn:Hs; cbn [negb]; [|done].
  apply split_hdr_some in Hs as [-> Hl].
  rewrite Hd, !bytes_app in Hb. destruct Hb as (_ & Hudp & _).
  unfold sizeof_udphdr in Hl.
  rewrite (bind_ok _ _ _ _ _ (load_u16_field pre udp t 2 c Hd ltac:(lia))).
  rewrite htons_le_dec by (apply bytes_field, Hudp || apply length_field; lia).
  destruct (_ =? GTP_UDP_PORT); [|apply tail_call_dispatch].
  replace (length pre + sizeof_udphdr)%nat with (length (pre ++ udp))
    by now rewrite length_app, Hl.
  apply gtp_handle_spec. now rewrite <- app_assoc.
Qed.

Lemma ipv4_handle_spec pre rest c :
  data c = pre ++ rest -> bytes (data c) ->
  ipv4_handle (length pre) c = (dispatch (classify_ipv4 rest), c).
Proof.
  intros Hd Hb. unfold ipv4_handle, classify_ipv4.
  rewrite (bind_ok _ _ _ _ _ (ptr_ok_split _ _ _ _ Hd)).
  destruct (split_hdr sizeof_iphdr rest) as [[ip t]|] eqn:Hs; cbn [negb]; [|done].
  apply split_hdr_some in Hs as [-> Hl]. unfold sizeof_iphdr in Hl.
  rewrite (bind_ok _ _ _ _ _ (load_u32_field pre ip t 12 c Hd ltac:(lia))).
  rewrite (bind_ok _ _ _ _ _ (load_u32_field pre ip t 16 c Hd ltac:(lia))).
  rewrite (bind_ok _ _ _ _ _ (load_u8_field pre ip t 9 c Hd ltac:(lia))).
  destruct (_ =? IPPROTO_UDP); [|done].
  replace (length pre + sizeof_iphdr)%nat with (length (pre ++ ip))
    by now rewrite length_app, Hl.
  apply udp_handle_spec; [now rewrite <- app_assoc|done].
Qed.

(** The VLAN branch: the type inside the tag does not matter. *)
Lemma vlan_branch_spec eth rest (ty : Z) c :
  data c = eth ++ rest -> bytes (data c) -> length eth = sizeof_ethhdr ->
  (let* tag_ok := ptr_ok (0 + sizeof_ethhdr + sizeof_vlan_hdr) in
   let* _ := (if tag_ok
              then let* p := load_u16 (0 + sizeof_ethhdr + 2) in ret (htons p)
              else ret ty) in
   ipv4_handle (0 + sizeof_ethhdr + sizeof_vlan_hdr)) c =
  (dispatch (match split_hdr sizeof_vlan_hdr rest with
             | None => Act XDP_ABORTED
             | Some (_, rest') => classify_ipv4 rest'
             end), c).
Proof.
  intros Hd Hb Hl. cbn [Nat.add]. rewrite <- Hl.
  rewrite (bind_ok _ _ _ _ _ (ptr_ok_split _ _ _ _ Hd)).
  destruct (split_hdr sizeof_vlan_hdr rest) as [[tag t]|] eqn:Hs.
  - apply split_hdr_some in Hs as [-> Ht]. unfold sizeof_vlan_hdr in Ht.
    unfold bind at 1 2.
    rewrite (load_u16_field eth tag t 2 c Hd ltac:(lia)). unfold ret at 1.
    replace (length eth + sizeof_vlan_hdr)%nat with (length (eth ++ tag))
      by now rewrite length_app, Ht.
    apply ipv4_handle_spec; [now rewrite <- app_assoc|done].
  - unfold bind, ret, ipv4_handle, bind, ptr_ok, gets.
    rewrite (proj2 (Nat.leb_gt _ _)); [done|].
    unfold split_hdr in Hs. destruct (Nat.leb_spec sizeof_vlan_hdr (length rest)); [done|].
    rewrite Hd, length_app. unfold sizeof_iphdr, sizeof_vlan_hdr in *. lia.
Qed.

Lemma eth_handle_spec c :
  bytes (data c) -> eth_handle 0 c = (dispatch (classify (data c)), c).
Proof.
  intros Hb. unfold eth_handle, classify.
  rewrite (bind_ok _ _ _ _ _ (ptr_ok_split [] (data c) _ c eq_refl)).
  destruct (split_hdr sizeof_ethhdr (data c)) as [[eth t]|] eqn:Hs; cbn [negb]; [|done].
  apply split_hdr_some in Hs as [Hd Hl]. unfold sizeof_ethhdr in Hl.
  rewrite (bind_ok _ _ _ _ _ (load_u16_field [] eth t 12 c Hd ltac:(lia))).
  pose proof Hb as Hb'. rewrite Hd, bytes_app in Hb'. destruct Hb' as [He _].
  rewrite htons_le_dec by (apply bytes_field, He || apply length_field; lia).
  destruct (_ || _); [now apply (vlan_branch_spec eth t)|].
  destruct (_ =? ETH_P_IP); [|done].
  cbn [Nat.add]. replace sizeof_ethhdr with (length eth).
  now apply ipv4_handle_spec.
Qed.

Lemma dispatch_actions v a :
  dispatch v = Ok a ->
  match v with Act b => a = b | Session _ => a = XDP_PASS end.
Proof.
  destruct v as [b|k]; cbn; [congruence|].
  destruct (bpf_map_lookup_elem _ _); [destruct (bpf_tail_call _ _)|]; congruence.
Qed.

(** Every verdict of the parser that is an action is one of three. *)
Lemma classify_actions p a :
  classify p = Act a -> In a [XDP_ABORTED; XDP_DROP; XDP_PASS].
Proof.
  unfold classify, classify_ipv4, classify_udp, classify_gtp.
  intros Hc. repeat (case_match; simplify_eq); cbn; auto.
Qed.

Lemma eth_handle_actions c a c' :
  bytes (data c) -> eth_handle 0 c = (Ok a, c') ->
  c' = c /\ In a [XDP_ABORTED; XDP_DROP; XDP_PASS].
Proof.
  intros Hb. rewrite eth_handle_spec by done. intros [= Hd <-]. split; [done|].
  pose proof (dispatch_actions _ _ Hd) as Ha.
  destruct (classify (data c)) as [b|k] eqn:Hc; subst; [|cbn; auto].
  now apply (classify_actions (data c)).
Qed.

(** The headers of an uplink G-PDU, and the frame. *)
Definition is_uplink (eth ip udp gtp inner : list Z) : Prop :=
  length eth = 14%nat /\ length ip = 20%nat /\ length udp = 8%nat /\
  length gtp = 8%nat /\ (20 <= length inner)%nat /\
  be_dec (field 12 2 eth) = ETH_P_IP /\ le_dec (field 9 1 ip) = IPPROTO_UDP /\
  be_dec (field 2 2 udp) = GTP_UDP_PORT /\ le_dec (field 1 1 gtp) = GTPU_G_PDU /\
  le_dec (field 0 1 inner) / 16 = 4.

Lemma classify_uplink eth ip udp gtp inner :
  is_uplink eth ip udp gtp inner ->
  classify (eth ++ ip ++ udp ++ gtp ++ inner) =
    Session (mk_key (le_dec (field 4 4 gtp)) INTERFACE_VALUE_ACCESS (le_dec (field 12 4 ip))).
Proof.
  intros (He & Hi & Hu & Hg & Hn & Hty & Hpr & Hpo & Hmt & Hv).
  unfold classify. rewrite (split_hdr_app _ _ _ He), Hty.
  cbn [orb Z.eqb]. change (ETH_P_IP =? ETH_P_8021Q) with false.
  change (ETH_P_IP =? ETH_P_8021AD) with false. rewrite Z.eqb_refl. cbn [orb].
  unfold classify_ipv4. rewrite (split_hdr_app _ _ _ Hi), Hpr, Z.eqb_refl.
  unfold classify_udp. rewrite (split_hdr_app _ _ _ Hu), Hpo, Z.eqb_refl.
  unfold classify_gtp. rewrite (split_hdr_app _ _ _ Hg), Hmt, Z.eqb_refl. cbn [negb].
  destruct (list_split_at 20 inner Hn) as (h & t & -> & Hh).
  rewrite (split_hdr_app _ _ _ Hh).
  replace (field 0 1 h) with (field 0 1 (h ++ t)); [now rewrite Hv|].
  unfold field. now rewrite !drop_0, take_app_le by lia.
Qed.

(** The headers of a UDP datagram to another port. *)
Definition is_downlink (eth ip udp : list Z) : Prop :=
  length eth = 14%nat /\ length ip = 20%nat /\ length udp = 8%nat /\
  be_dec (field 12 2 eth) = ETH_P_IP /\ le_dec (field 9 1 ip) = IPPROTO_UDP /\
  be_dec (field 2 2 udp) <> GTP_UDP_PORT.

Lemma classify_downlink eth ip udp rest :
  is_downlink eth ip udp ->
  classify (eth ++ ip ++ udp ++ rest) =
    Session (mk_key 0 INTERFACE_VALUE_CORE (le_dec (field 16 4 ip))).
Proof.
  intros (He & Hi & Hu & Hty & Hpr & Hpo).
  unfold classify. rewrite (split_hdr_app _ _ _ He), Hty.
  change (ETH_P_IP =? ETH_P_8021Q) with false.
  change (ETH_P_IP =? ETH_P_8021AD) with false. rewrite Z.eqb_refl. cbn [orb].
  unfold classify_ipv4. rewrite (split_hdr_app _ _ _ Hi), Hpr, Z.eqb_refl.
  unfold classify_udp. rewrite (split_hdr_app _ _ _ Hu).
  now rewrite (proj2 (Z.eqb_neq _ _) Hpo).
Qed.

(** ** Properties *)

(** C2: the entry program is memory-safe and implements the layered parser: on
    every packet of bytes, the Ethernet handler reads inside the packet only,
    leaves the packet as it is, and either returns the action of the parser's
    verdict or tail-calls the program of the session key the parser found. *)
Theorem eth_handle_refines_classify c :
  bytes (data c) -> eth_handle 0 c = (dispatch (classify (data c)), c).
Proof. apply eth_handle_spec. Qed.

(** an uplink G-PDU (Ethernet II, UDP to port 2152, GTP-U message type 255
    around an IPv4 packet) goes to the program of the key made of the TEID as
    it stands in the packet, ACCESS and the outer source address; with no
    program for the key it is passed to the kernel unchanged. *)
Theorem entry_uplink eth ip udp gtp inner c :
  data c = eth ++ ip ++ udp ++ gtp ++ inner -> bytes (data c) ->
  is_uplink eth ip udp gtp inner ->
  eth_handle 0 c =
    (dispatch (Session (mk_key (le_dec (field 4 4 gtp)) INTERFACE_VALUE_ACCESS
                               (le_dec (field 12 4 ip)))), c).
Proof.
  intros Hd Hb Hu. rewrite eth_handle_spec, Hd by done. now rewrite classify_uplink.
Qed.

(** a downlink packet (any UDP datagram to another port) goes to the
    program of the key made of TEID 0, CORE and the destination address. *)
Theorem entry_downlink eth ip udp rest c :
  data c = eth ++ ip ++ udp ++ rest -> bytes (data c) -> is_downlink eth ip udp ->
  eth_handle 0 c =
    (dispatch (Session (mk_key 0 INTERFACE_VALUE_CORE (le_dec (field 16 4 ip)))), c).
Proof.
  intros Hd Hb Hu. rewrite eth_handle_spec, Hd by done. now rewrite classify_downlink.
Qed.

(** Behind a VLAN tag the protocol is not looked at: the same bytes are
    handled as IPv4 whatever type the tag announces, ARP and IPv6 included. *)
Theorem vlan_inner_type_ignored eth tci ty1 ty2 rest hr :
  length eth = 14%nat -> length tci = 2%nat -> length ty1 = 2%nat -> length ty2 = 2%nat ->
  bytes (eth ++ tci ++ ty1 ++ ty2 ++ rest) ->
  be_dec (field 12 2 eth) = ETH_P_8021Q \/ be_dec (field 12 2 eth) = ETH_P_8021AD ->
  fst (eth_handle 0 (mk_xdp_md hr (eth ++ (tci ++ ty1) ++ rest))) =
  dispatch (classify_ipv4 rest) /\
  fst (eth_handle 0 (mk_xdp_md hr (eth ++ (tci ++ ty2) ++ rest))) =
  dispatch (classify_ipv4 rest).
Proof.
  intros He Ht Hl1 Hl2 Hb Hty. rewrite !bytes_app in Hb.
  assert (forall ty, length ty = 2%nat -> bytes ty ->
    eth_handle 0 (mk_xdp_md hr (eth ++ (tci ++ ty) ++ rest)) =
    (dispatch (classify_ipv4 rest), mk_xdp_md hr (eth ++ (tci ++ ty) ++ rest))) as Hg.
  { intros ty Hl Hby. rewrite eth_handle_spec by (cbn [data]; rewrite !bytes_app; tauto).
    cbn [data]. unfold classify. rewrite (split_hdr_app _ _ _ He).
    rewrite (split_hdr_app sizeof_vlan_hdr (tci ++ ty)) by
      (rewrite length_app; unfold sizeof_vlan_hdr; lia).
    destruct Hty as [-> | ->]; reflexivity. }
  rewrite !Hg by tauto. done.
Qed.

Context `{!BpfMapLaws StatsMap Z datarec}.

(** What is counted: a packet the entry program decides on adds one packet
    and its size to the record of the returned action and to no other record;
    a packet that a session's program takes over is not counted at all. *)
Theorem entry_point_counts mc_stats c :
  bytes (data c) -> (Z.of_nat (length (data c)) < 2 ^ 32) ->
  (forall a, In a [XDP_ABORTED; XDP_DROP; XDP_PASS] ->
     bpf_map_lookup_elem mc_stats a <> None) ->
  match dispatch (classify (data c)) with
  | Err e => entry_point mc_stats c = (Err e, c)
  | Ok a =>
      exists rec mc_stats',
        entry_point mc_stats c = (Ok (a, mc_stats'), c) /\
        bpf_map_lookup_elem mc_stats a = Some rec /\
        bpf_map_lookup_elem mc_stats' a =
          Some (mk_datarec (u64 (rx_packets rec + 1))
                           (u64 (rx_bytes rec + Z.of_nat (length (data c))))) /\
        forall b, a <> b ->
          bpf_map_lookup_elem mc_stats' b = bpf_map_lookup_elem mc_stats b
  end.
Proof.
  intros Hb Hsz Hst. unfold entry_point, bind.
  pose proof (eth_handle_spec c Hb) as Hs.
  destruct (dispatch (classify (data c))) as [a|e] eqn:Hd; rewrite Hs; [|done].
  destruct (eth_handle_actions c a c Hb Hs) as [_ Ha].
  unfold xdp_stats_record_action.
  replace (XDP_ACTION_MAX <=? a) with false
    by (cbn in Ha; destruct Ha as [<-|[<-|[<-|[]]]]; reflexivity).
  destruct (bpf_map_lookup_elem mc_stats a) as [rec|] eqn:Hl; [|now apply Hst in Hl].
  unfold bind, gets, ret. rewrite u32_id by lia.
  eexists _, _. split; [reflexivity|]. split; [done|]. split.
  - eapply map_store_same, Hl.
  - intros b Hab. now apply map_store_other.
Qed.

End Program.

(** ** Witnesses *)

Module Sample.

(** The keys and packets of the repository's tests: TEID 100, UE address
    10.10.10.10, an Ethernet frame of type 0x0800. *)
Definition eth (ty : list Z) : list Z := [2; 0; 0; 0; 0; 1; 2; 0; 0; 0; 0; 2] ++ ty.
Definition ip (proto : Z) : list Z :=
  [0x45; 0; 0; 60; 0; 0; 0x40; 0; 64; proto; 0; 0; 10; 10; 10; 10; 10; 1; 3; 30].
Definition udp (port : Z) : list Z := be_enc 2 1234 ++ be_enc 2 port ++ [0; 40; 0; 0].
Definition gtp : list Z := [0x30; 255; 0; 20; 0; 0; 0; 100].
Definition uplink : list Z :=
  eth [8; 0] ++ ip IPPROTO_UDP ++ udp GTP_UDP_PORT ++ gtp ++ ip 1.
Definition downlink : list Z := eth [8; 0] ++ ip IPPROTO_UDP ++ udp 53 ++ [1; 2; 3].

Definition index_map : hash_map next_rule_prog_index_key Z :=
  mk_hash_map 10 {[ mk_key (htonl 100) INTERFACE_VALUE_ACCESS 168430090 := 1 ]}.
Definition programs : prog_array := mk_prog_array 10 {[ 1 := 77 ]}.
Definition stats : hash_map Z datarec :=
  mk_hash_map 5 (list_to_map (map (fun a => (a, mk_datarec 0 0)) [0; 1; 2; 3; 4])).

Definition pkt (d : list Z) : xdp_md := mk_xdp_md (repeat 0 256) d.

End Sample.

Example eth_handle_refines_classify_witness :
  eth_handle Sample.index_map Sample.programs 0 (Sample.pkt Sample.uplink) =
  (Err (TailCall 77), Sample.pkt Sample.uplink).
Proof.
  rewrite eth_handle_refines_classify by now apply bytes_bool. reflexivity.
Defined.

Lemma sample_is_uplink :
  is_uplink (Sample.eth [8; 0]) (Sample.ip IPPROTO_UDP) (Sample.udp GTP_UDP_PORT) Sample.gtp
    (Sample.ip 1).
Proof. repeat split. cbn. lia. Qed.

Example entry_uplink_witness :
  eth_handle Sample.index_map Sample.programs 0 (Sample.pkt Sample.uplink) =
  (Err (TailCall 77), Sample.pkt Sample.uplink).
Proof.
  rewrite (entry_uplink Sample.index_map Sample.programs (Sample.eth [8; 0])
             (Sample.ip IPPROTO_UDP) (Sample.udp GTP_UDP_PORT) Sample.gtp (Sample.ip 1));
    [reflexivity|reflexivity|now apply bytes_bool|apply sample_is_uplink].
Defined.

Example entry_downlink_witness :
  eth_handle Sample.index_map Sample.programs 0 (Sample.pkt Sample.downlink) =
  (Ok XDP_PASS, Sample.pkt Sample.downlink).
Proof.
  rewrite (entry_downlink Sample.index_map Sample.programs (Sample.eth [8; 0])
             (Sample.ip IPPROTO_UDP) (Sample.udp 53) [1; 2; 3]);
    [reflexivity|reflexivity|now apply bytes_bool|repeat split; discriminate].
Defined.

Example vlan_inner_type_ignored_witness :
  let rest := Sample.ip IPPROTO_UDP ++ Sample.udp GTP_UDP_PORT ++ Sample.gtp ++ Sample.ip 1 in
  fst (eth_handle Sample.index_map Sample.programs 0
         (mk_xdp_md [] (Sample.eth [0x81; 0] ++ ([0; 7] ++ [8; 0]) ++ rest))) =
  Err (TailCall 77) /\
  fst (eth_handle Sample.index_map Sample.programs 0
         (mk_xdp_md [] (Sample.eth [0x81; 0] ++ ([0; 7] ++ [8; 6]) ++ rest))) =
  Err (TailCall 77).
Proof.
  intros rest.
  change (Err (TailCall 77)) with
    (dispatch Sample.index_map Sample.programs (classify_ipv4 rest)).
  apply (vlan_inner_type_ignored Sample.index_map Sample.programs (Sample.eth [0x81; 0])
           [0; 7] [8; 0] [8; 6]); try reflexivity; [now apply bytes_bool|now left].
Defined.

Example entry_point_counts_witness :
  exists st',
    entry_point Sample.index_map Sample.programs Sample.stats (Sample.pkt Sample.downlink) =
      (Ok (XDP_PASS, st'), Sample.pkt Sample.downlink) /\
    bpf_map_lookup_elem st' XDP_PASS = Some (mk_datarec 1 45).
Proof.
  pose proof (entry_point_counts Sample.index_map Sample.programs Sample.stats
                (Sample.pkt Sample.downlink)) as P.
  destruct P as (rec & st' & H1 & H2 & H3 & _).
  - now apply bytes_bool.
  - reflexivity.
  - intros a Ha. cbn in Ha. destruct Ha as [<-|[<-|[<-|[]]]]; discriminate.
  - exists st'. split; [exact H1|]. rewrite H3. vm_compute in H2.
    injection H2 as <-. reflexivity.
Defined.
