(* ===== verification/FarBpf.v ===== *)
(** * The FAR program (src/src/bpf/far_bpf.c)

    The program a session key jumps to: it applies one forwarding action rule,
    read from its map [m_far].  Uplink traffic loses its GTP-U tunnel headers
    and leaves on the N6 interface; downlink traffic gets outer IPv4, UDP and
    GTP-U headers and leaves towards the base station. *)
From Stdlib Require Import ZArith Lia List Bool.
From stdpp Require Import base list gmap.
From S2P Require Import Prelude Packet BpfInstances Csum UpfXdp.
Open Scope Z_scope.
Open Scope upf_scope.

(** ** Data: the fields of a FAR the datapath reads or the manager fills *)

(** ie/apply_action.h *)
Record apply_action_t_ : Type := mk_apply_action {
  aa_spare : Z;
  aa_dupl : Z;
  aa_nocp : Z;
  aa_buff : Z;
  aa_forw : Z;
  aa_drop : Z
}.

(** ie/outer_header_creation.h *)
Record outer_header_creation_t_ : Type := mk_ohc {
  outer_header_creation_description : Z;
  ohc_teid : Z;
  ohc_ipv4_address : Z;
  port_number : Z
}.

(** ie/group_ie/forwarding_parameters.h *)
Record forwarding_parameters_t_ : Type := mk_fwd {
  destination_interface : Z;
  outer_header_creation : outer_header_creation_t_
}.

(** pfcp/pfcp_far.h *)
Record pfcp_far_t_ : Type := mk_far {
  far_id : Z;
  apply_action : apply_action_t_;
  forwarding_parameters : forwarding_parameters_t_
}.

Definition OUTER_HEADER_CREATION_GTPU_UDP_IPV4 : Z := 0x0100.
Definition OUTER_HEADER_CREATION_GTPU_UDP_IPV6 : Z := 0x0200.
Definition OUTER_HEADER_CREATION_UDP_IPV4 : Z := 0x0400.
Definition OUTER_HEADER_CREATION_UDP_IPV6 : Z := 0x0800.

(** include/types.h, enum FlowDirection *)
Definition DOWNLINK : Z := 0.
Definition UPLINK : Z := 1.

Definition LOCAL_IP : Z := 503513354.
Definition GTP_FLAGS : Z := 0x30.
Definition GTP_ENCAPSULATED_SIZE : nat := sizeof_iphdr + sizeof_udphdr + sizeof_gtpuhdr.
Definition IP_CSUM_OFFSET : Z := Z.of_nat sizeof_ethhdr + 10.

(** [check_ptr o r k]: the bounds check [if (p + n > data_end) return r;]
    before the rest of the function. *)
Definition check_ptr {A} (o : nat) (r : A) (k : xdp A) : xdp A :=
  let* ok := ptr_ok o in if ok then k else ret r.

(** The assignments to the bit-fields [version] and [ihl] of the first byte. *)
Definition set_version_ihl (iph : nat) (version ihl : Z) : xdp unit :=
  let* b := load_u8 (iph + 0) in
  store_u8 (iph + 0) (Z.lor (Z.land b 0x0f) (Z.shiftl version 4)) ;;;
  let* b := load_u8 (iph + 0) in
  store_u8 (iph + 0) (Z.lor (Z.land b 0xf0) ihl).

(** The sizes of the headers as numerals. *)
Ltac xdp_sizes :=
  unfold GTP_ENCAPSULATED_SIZE, sizeof_ethhdr, sizeof_vlan_hdr, sizeof_iphdr,
    sizeof_udphdr, sizeof_gtpuhdr, store_u8, store_u16, store_u32 in *;
  cbn [Nat.add] in *.

(** The program of far_bpf.c used to attach a device that receives redirected
    packets. *)
Definition xdp_redirect_gtpu : xdp Z := ret XDP_PASS.

Section Program.
Context {FarMap ArpMap DevMap : Type}.
Context `{BpfMap FarMap Z pfcp_far_t_} `{BpfMap ArpMap Z (list Z)} `{XdpHelpers DevMap}.
Variable linux_version_code : Z.
Variable m_far : FarMap.
Variable m_arp_table : ArpMap.
Variable m_redirect_interfaces : DevMap.

(** ** Operations *)

Definition update_dst_mac_address (p_ip p_eth : nat) : xdp Z :=
  let* daddr := load_u32 (p_ip + 16) in
  match bpf_map_lookup_elem m_arp_table daddr with
  | None => ret 1
  | Some p_mac_address => store p_eth p_mac_address ;;; ret 0
  end.

(** The assignments to the fields of the outer IPv4 header. *)
Definition write_outer_ip (p_ip p_inner_ip : nat) (ohc : outer_header_creation_t_) : xdp unit :=
  set_version_ihl p_ip 4 5 ;;;
  store_u8 (p_ip + 1) 0 ;;;
  let* inner_tot_len := load_u16 (p_inner_ip + 2) in
  store_u16 (p_ip + 2) (htons (ntohs inner_tot_len + Z.of_nat GTP_ENCAPSULATED_SIZE)) ;;;
  store_u16 (p_ip + 4) 0 ;;;
  store_u16 (p_ip + 6) 0x0040 ;;;
  store_u8 (p_ip + 8) 64 ;;;
  store_u8 (p_ip + 9) IPPROTO_UDP ;;;
  store_u16 (p_ip + 10) 0 ;;;
  store_u32 (p_ip + 12) LOCAL_IP ;;;
  store_u32 (p_ip + 16) (ohc_ipv4_address ohc).

(** The assignments to the fields of the outer UDP header. *)
Definition write_outer_udp (p_udp p_inner_ip : nat) (ohc : outer_header_creation_t_) : xdp unit :=
  store_u16 (p_udp + 0) (htons GTP_UDP_PORT) ;;;
  store_u16 (p_udp + 2) (htons (port_number ohc)) ;;;
  let* inner_tot_len := load_u16 (p_inner_ip + 2) in
  store_u16 (p_udp + 4)
    (htons (ntohs inner_tot_len + Z.of_nat sizeof_udphdr + Z.of_nat sizeof_gtpuhdr)) ;;;
  store_u16 (p_udp + 6) 0.

(** The assignments to the fields of the GTP-U header. *)
Definition write_gtpu (p_gtpuh p_inner_ip : nat) (ohc : outer_header_creation_t_) : xdp unit :=
  store_u8 (p_gtpuh + 0) GTP_FLAGS ;;;
  store_u8 (p_gtpuh + 1) GTPU_G_PDU ;;;
  let* inner_tot_len := load_u16 (p_inner_ip + 2) in
  store_u16 (p_gtpuh + 2) inner_tot_len ;;;
  store_u32 (p_gtpuh + 4) (ohc_teid ohc).

(** What follows a successful ARP lookup: the destination address, the GTP-U
    header, the checksum of the outer IPv4 header. *)
Definition finish_outer_header (p_eth p_ip p_inner_ip : nat) (ohc : outer_header_creation_t_)
    (p_mac_address : list Z) : xdp (option Z) :=
  store p_eth p_mac_address ;;;
  let p_gtpuh := (p_ip + sizeof_iphdr + sizeof_udphdr)%nat in
  check_ptr (p_gtpuh + sizeof_gtpuhdr) (Some XDP_DROP) (
  write_gtpu p_gtpuh p_inner_ip ohc ;;;
  let* iph := load p_ip sizeof_iphdr in
  let l3sum := pcn_csum_diff linux_version_code [] iph 0 in
  pcn_l3_csum_replace IP_CSUM_OFFSET 0 l3sum 0 ;;;
  ret None).

(** [None]: the function ends without a [return]; its callers ignore the value. *)
Definition create_outer_header_gtpu_ipv4 (p_far : pfcp_far_t_) : xdp (option Z) :=
  let ohc := outer_header_creation (forwarding_parameters p_far) in
  adjust_head (- Z.of_nat GTP_ENCAPSULATED_SIZE) ;;;
  let p_eth := 0%nat in
  check_ptr (p_eth + sizeof_ethhdr) (Some XDP_DROP) (
  let p_orig_eth := GTP_ENCAPSULATED_SIZE in
  check_ptr (p_orig_eth + sizeof_ethhdr) (Some XDP_DROP) (
  let* orig := load p_orig_eth sizeof_ethhdr in
  store p_eth orig ;;;
  let p_ip := (p_eth + sizeof_ethhdr)%nat in
  check_ptr (p_ip + sizeof_iphdr) (Some XDP_DROP) (
  let p_inner_ip := (p_ip + GTP_ENCAPSULATED_SIZE)%nat in
  check_ptr (p_inner_ip + sizeof_iphdr) (Some XDP_DROP) (
  write_outer_ip p_ip p_inner_ip ohc ;;;
  let p_udp := (p_ip + sizeof_iphdr)%nat in
  check_ptr (p_udp + sizeof_udphdr) (Some XDP_DROP) (
  write_outer_udp p_udp p_inner_ip ohc ;;;
  let* daddr := load_u32 (p_ip + 16) in
  match bpf_map_lookup_elem m_arp_table daddr with
  | None => ret (Some XDP_DROP)
  | Some p_mac_address =>
      finish_outer_header p_eth p_ip p_inner_ip ohc p_mac_address
  end))))).

(** The rule of far_bpf.c and of session_bpf.c, which differ in the key of the
    interface to redirect to. *)
Definition far_apply (core_key access_key : Z) (p_far : option pfcp_far_t_) : xdp Z :=
  let p_eth := 0%nat in
  check_ptr (p_eth + sizeof_ethhdr) XDP_DROP (
  match p_far with
  | None => ret XDP_DROP
  | Some p_far =>
      let dest_interface := destination_interface (forwarding_parameters p_far) in
      let description :=
        outer_header_creation_description
          (outer_header_creation (forwarding_parameters p_far)) in
      if negb (aa_forw (apply_action p_far) =? 0) then
        if dest_interface =? INTERFACE_VALUE_CORE then
          if description =? OUTER_HEADER_CREATION_UDP_IPV4 then
            let p_new_eth := GTP_ENCAPSULATED_SIZE in
            check_ptr (p_new_eth + sizeof_ethhdr) 1 (
            let* eth := load p_eth sizeof_ethhdr in
            store p_new_eth eth ;;;
            let p_ip := (p_new_eth + sizeof_ethhdr)%nat in
            check_ptr (p_ip + sizeof_iphdr) XDP_DROP (
            let* fail := update_dst_mac_address p_ip p_new_eth in
            if negb (fail =? 0) then ret XDP_DROP
            else
              adjust_head (Z.of_nat GTP_ENCAPSULATED_SIZE) ;;;
              ret (bpf_redirect_map m_redirect_interfaces core_key 0)))
          else ret XDP_PASS
        else if dest_interface =? INTERFACE_VALUE_ACCESS then
          if description =? OUTER_HEADER_CREATION_GTPU_UDP_IPV4 then
            create_outer_header_gtpu_ipv4 p_far ;;;
            ret (bpf_redirect_map m_redirect_interfaces access_key 0)
          else ret XDP_PASS
        else ret XDP_PASS
      else ret XDP_PASS
  end).

Definition pfcp_far_apply (p_far : option pfcp_far_t_) : xdp Z :=
  far_apply UPLINK DOWNLINK p_far.

(** The key is a 32-bit 0, of which the map reads one byte. *)
Definition far_entry_point : xdp Z :=
  let key := u8 0 in
  pfcp_far_apply (bpf_map_lookup_elem m_far key).

(** ** Memory safety *)

Lemma runs_check_ptr {A} (o : nat) (r : A) (k : xdp A) c Q :
  ((o <= length (data c))%nat -> runs k c Q) ->
  ((length (data c) < o)%nat -> Q r c) -> runs (check_ptr o r k) c Q.
Proof. intros Hk Hr. apply runs_bind, runs_ptr_ok; [exact Hk|exact Hr]. Qed.

Lemma runs_adjust_head d c (Q : Z -> xdp_md -> Prop) :
  (forall r c', bpf_xdp_adjust_head d c = (r, c') -> Q r c') -> runs (adjust_head d) c Q.
Proof.
  intros HQ. unfold runs, adjust_head.
  destruct (bpf_xdp_adjust_head d c) as [r c'] eqn:E. auto.
Qed.

(** The values of the ARP table are MAC addresses. *)
Definition arp_ok : Prop :=
  forall k mac, bpf_map_lookup_elem m_arp_table k = Some mac -> length mac = 6%nat.

(** One step of a safety proof: every access is inside the packet because a
    bounds check stands before it and no store changes the length. *)
Ltac xdp_step :=
  lazymatch goal with
  | |- runs (bind _ _) _ _ => apply runs_bind
  | |- runs (check_ptr _ _ _) _ _ => apply runs_check_ptr; [intros ?|intros ?; try done]
  | |- runs (load _ _) _ _ => apply runs_load; [lia|]
  | |- runs (load_u8 _) _ _ => apply runs_load_u8; [lia|]
  | |- runs (load_u16 _) _ _ => apply runs_load_u16; [lia|]
  | |- runs (load_u32 _) _ _ => apply runs_load_u32; [lia|]
  | |- runs (store _ _) _ _ =>
      apply runs_store_len; [rewrite ?length_le_enc, ?length_field by lia; lia|intros ? ?]
  | |- runs (ret _) _ _ => apply runs_ret
  end.

Lemma l3_csum_replace_safe off ov nv fl c :
  runs (pcn_l3_csum_replace off ov nv fl) c (fun _ c' => length (data c') = length (data c)).
Proof.
  unfold pcn_l3_csum_replace.
  destruct (negb _); [done|]. destruct (_ || _); [done|].
  apply runs_bind, runs_ptr_ok; intros Ho; cbn [negb]; [|done].
  xdp_sizes. repeat xdp_step.
  repeat case_match; repeat xdp_step; congruence || lia.
Qed.

Lemma update_dst_mac_address_safe (p_ip p_eth : nat) c :
  arp_ok -> (p_ip + 20 <= length (data c))%nat -> (p_eth + 6 <= length (data c))%nat ->
  runs (update_dst_mac_address p_ip p_eth) c
    (fun _ c' => length (data c') = length (data c)).
Proof.
  intros Ha Hi He. unfold update_dst_mac_address. repeat xdp_step.
  destruct (bpf_map_lookup_elem _ _) as [mac|] eqn:Hm; [|done].
  apply Ha in Hm. repeat xdp_step. done.
Qed.

Lemma create_outer_header_safe p_far c :
  arp_ok -> runs (create_outer_header_gtpu_ipv4 p_far) c (fun _ _ => True).
Proof.
  intros Ha. unfold create_outer_header_gtpu_ipv4, write_outer_ip, write_outer_udp,
    finish_outer_header, write_gtpu, set_version_ihl.
  apply runs_bind, runs_adjust_head. intros _ c1 _. clear c. xdp_sizes.
  repeat xdp_step.
  destruct (bpf_map_lookup_elem _ _) as [mac|] eqn:Hm; [|done].
  apply Ha in Hm. repeat xdp_step.
  eapply runs_weaken; [apply l3_csum_replace_safe|]. done.
Qed.

Context `{!XdpHelperLaws DevMap}.

Lemma redirect_action k :
  In (bpf_redirect_map m_redirect_interfaces k 0) [XDP_ABORTED; XDP_REDIRECT].
Proof.
  destruct (redirect_map_result m_redirect_interfaces k 0) as [-> | ->]; cbn; auto.
Qed.

Definition far_actions : list Z := [XDP_ABORTED; XDP_DROP; XDP_PASS; XDP_REDIRECT].

Lemma redirect_far_action k :
  In (bpf_redirect_map m_redirect_interfaces k 0) far_actions.
Proof. pose proof (redirect_action k) as Hr. unfold far_actions. cbn in *. tauto. Qed.

Lemma far_apply_safe k1 k2 p_far c :
  arp_ok -> runs (far_apply k1 k2 p_far) c (fun a _ => In a far_actions).
Proof.
  intros Ha. unfold far_apply. xdp_sizes.
  apply runs_check_ptr; intros Hl; [|unfold far_actions; cbn; auto].
  assert (In XDP_PASS far_actions /\ In XDP_DROP far_actions) as [Hp Hd]
    by (unfold far_actions; cbn; auto).
  destruct p_far as [far|]; [|done].
  destruct (negb _); [|done]. destruct (_ =? INTERFACE_VALUE_CORE).
  - destruct (_ =? OUTER_HEADER_CREATION_UDP_IPV4); [|done].
    repeat xdp_step. eapply runs_weaken; [apply update_dst_mac_address_safe; [done|lia..]|].
    intros a c2 Hc2. cbv beta. destruct (negb _); [done|].
    apply runs_bind, runs_adjust_head. intros r c3 _. apply redirect_far_action.
  - destruct (_ =? INTERFACE_VALUE_ACCESS); [|done].
    destruct (_ =? OUTER_HEADER_CREATION_GTPU_UDP_IPV4); [|done].
    apply runs_bind. eapply runs_weaken; [now apply create_outer_header_safe|].
    intros a c1 _. apply redirect_far_action.
Qed.

(** ** The tunnel headers *)

Definition outer_ip (tot_len daddr chk : Z) : list Z :=
  [0x45; 0] ++ be_enc 2 tot_len ++ [0; 0; 0x40; 0; 64; IPPROTO_UDP] ++
  le_enc 2 chk ++ le_enc 4 LOCAL_IP ++ le_enc 4 daddr.

Definition outer_udp (port len : Z) : list Z :=
  be_enc 2 GTP_UDP_PORT ++ be_enc 2 port ++ be_enc 2 len ++ [0; 0].

Definition outer_gtp (len teid : Z) : list Z :=
  [GTP_FLAGS; GTPU_G_PDU] ++ be_enc 2 len ++ le_enc 4 teid.

(** The frame of a tunnelled packet: [len] is the length field of the inner
    IPv4 header, [chk] the checksum of the outer one. *)
Definition gtpu_frame (far : pfcp_far_t_) (mac eth payload : list Z) (chk : Z) : list Z :=
  let ohc := outer_header_creation (forwarding_parameters far) in
  let len := be_dec (field 2 2 payload) in
  (mac ++ drop 6 eth) ++ outer_ip (len + 36) (ohc_ipv4_address ohc) chk ++
  outer_udp (port_number ohc) (len + 16) ++ outer_gtp len (ohc_teid ohc) ++ payload.

Lemma version_ihl_byte b :
  le_enc 1 (Z.lor (Z.land (le_dec (le_enc 1 (Z.lor (Z.land b 0x0f) (Z.shiftl 4 4)))) 0xf0) 5)
  = [0x45].
Proof.
  rewrite le_dec_enc. change (256 ^ Z.of_nat 1) with (2 ^ 8).
  rewrite <- Z.land_ones by lia. rewrite <- Z.land_assoc, Z.land_lor_distr_l.
  rewrite <- Z.land_assoc.
  change (Z.land 15 (Z.land (Z.ones 8) 240)) with 0. rewrite Z.land_0_r. reflexivity.
Qed.

Lemma runs_set_version_ihl (o : nat) l n t c (Q : unit -> xdp_md -> Prop) :
  written l (1 + n) t c -> length l = o ->
  (forall c', written (l ++ [0x45]) n t c' -> headroom c' = headroom c -> Q tt c') ->
  runs (set_version_ihl o 4 5) c Q.
Proof.
  intros Hw Ho HQ. unfold set_version_ihl. rewrite Nat.add_0_r.
  pose proof (written_length _ _ _ _ Hw) as Hl.
  apply runs_bind, runs_load_u8; [lia|]. set (b := le_dec _). clearbody b.
  apply runs_bind. eapply runs_emit; [exact Hw|exact Ho|]. intros c1 Hw1 Hh1.
  pose proof (written_length _ _ _ _ Hw1) as Hl1. rewrite length_app in Hl1. cbn in Hl1.
  apply runs_bind, runs_load_u8; [lia|].
  rewrite (field_written_head o 1 _ _ _ _ Hw1) by (rewrite length_app; cbn; lia).
  rewrite <- (Nat.add_0_r o), <- Ho, field_app_r, Nat.add_0_r.
  apply written_forget in Hw1. eapply runs_emit; [exact Hw1|done|].
  change (field 0 1 (le_enc 1 ?x)) with (le_enc 1 x). rewrite version_ihl_byte.
  intros c2 Hw2 Hh2. apply HQ; congruence.
Qed.

Lemma sum_words_outer_ip tot daddr chk :
  0 <= chk < 65536 ->
  sum_words (outer_ip tot daddr chk) = sum_words (outer_ip tot daddr 0) + chk.
Proof.
  intros Hc. unfold outer_ip.
  set (pre := [0x45; 0] ++ be_enc 2 tot ++ [0; 0; 0x40; 0; 64; IPPROTO_UDP]).
  set (post := le_enc 4 LOCAL_IP ++ le_enc 4 daddr).
  change (sum_words (pre ++ le_enc 2 chk ++ post) =
          sum_words (pre ++ le_enc 2 0 ++ post) + chk).
  rewrite !(sum_words_app pre), !(sum_words_app (le_enc 2 _)) by
    (first [exists 5%nat; reflexivity | exists 1%nat; reflexivity]).
  rewrite !sum_words_le2 by lia. lia.
Qed.

Lemma bytes_outer_ip tot daddr chk : bytes (outer_ip tot daddr chk).
Proof.
  unfold outer_ip. rewrite !bytes_app.
  repeat split; try apply bytes_be_enc; try apply bytes_le_enc;
    repeat constructor; unfold is_byte, IPPROTO_UDP; lia.
Qed.

(** The checksum that [pcn_l3_csum_replace] writes over 0 makes the header
    valid, when the difference it gets is the sum of the header. *)
Lemma outer_ip_valid tot daddr chk l3 :
  0 <= chk < 65536 -> (chk + l3) mod 65535 = 0 ->
  l3 mod 65535 = sum_words (outer_ip tot daddr 0) mod 65535 ->
  rfc1071_ok (outer_ip tot daddr chk).
Proof.
  intros Hc Hs Hl. unfold rfc1071_ok. rewrite sum_words_outer_ip by done.
  rewrite Z.add_comm, <- Zplus_mod_idemp_r, <- Hl, Zplus_mod_idemp_r. split; [done|].
  pose proof (sum_words_nonneg (drop 2 (outer_ip tot daddr 0))
    ltac:(apply Forall_drop, bytes_outer_ip)) as Hn.
  assert (sum_words (outer_ip tot daddr 0) =
          69 + sum_words (drop 2 (outer_ip tot daddr 0))) as -> by reflexivity.
  lia.
Qed.

Lemma runs_emit_sub (o : nat) bs l m t c (Q : unit -> xdp_md -> Prop) :
  written l m t c -> length l = o -> (length bs <= m)%nat ->
  (forall c', written (l ++ bs) (m - length bs) t c' -> Q tt c') ->
  runs (store o bs) c Q.
Proof.
  intros Hw Ho Hm HQ. apply (runs_emit o bs l (m - length bs) t); [|done|auto].
  now replace (length bs + (m - length bs))%nat with m by lia.
Qed.

Ltac lens := rewrite ?length_app, ?length_le_enc; cbn [length Nat.add]; lia.

(** [emit Hw]: the next store writes where the packet under construction ends. *)
Ltac emit Hw :=
  apply runs_bind; eapply runs_emit_sub;
  [exact Hw|lens|rewrite ?length_le_enc; lia|];
  clear Hw; intros ? Hw; rewrite ?length_le_enc in Hw; cbn [Nat.sub] in Hw.

(** [check Hw]: a bounds check that succeeds. *)
Ltac check Hw :=
  apply runs_check_ptr;
  [intros _|pose proof (written_length _ _ _ _ Hw) as HL; revert HL; lens].

Ltac inbounds Hw :=
  pose proof (written_length _ _ _ _ Hw) as HL; revert HL; lens.

Lemma write_outer_ip_spec (o oi : nat) ohc l n t c (Q : unit -> xdp_md -> Prop) :
  written l (20 + n) t c -> length l = o -> oi = (o + 20 + n)%nat ->
  (20 <= length t)%nat -> bytes t ->
  (forall c', written (l ++ outer_ip (be_dec (field 2 2 t) + 36) (ohc_ipv4_address ohc) 0) n t c' ->
     Q tt c') ->
  runs (write_outer_ip o oi ohc) c Q.
Proof.
  intros Hw Ho -> Ht Hb HQ. unfold write_outer_ip. xdp_sizes.
  apply runs_bind. eapply runs_set_version_ihl; [exact Hw|exact Ho|].
  clear Hw. intros c1 Hw _. change (20 + n - 1)%nat with (19 + n)%nat in Hw.
  emit Hw. apply runs_bind, runs_load_u16; [inbounds Hw|].
  rewrite (field_written_tail 2 _ 2 _ _ _ _ Hw) by lens.
  unfold ntohs. rewrite htons_le_dec by (apply bytes_field, Hb || apply length_field; lia).
  do 7 emit Hw. eapply runs_emit_sub; [exact Hw|lens|rewrite ?length_le_enc; lia|].
  clear Hw. intros c2 Hw. rewrite length_le_enc in Hw. cbn [Nat.sub Nat.add] in Hw.
  apply HQ. rewrite Nat.sub_0_r in Hw. revert Hw.
  rewrite le_enc_htons, <- !app_assoc. exact (fun Hw => Hw).
Qed.

Lemma write_outer_udp_spec (o oi : nat) ohc l n t c (Q : unit -> xdp_md -> Prop) :
  written l (8 + n) t c -> length l = o -> oi = (o + 8 + n)%nat ->
  (20 <= length t)%nat -> bytes t ->
  (forall c', written (l ++ outer_udp (port_number ohc) (be_dec (field 2 2 t) + 16)) n t c' ->
     Q tt c') ->
  runs (write_outer_udp o oi ohc) c Q.
Proof.
  intros Hw Ho -> Ht Hb HQ. unfold write_outer_udp. xdp_sizes.
  do 2 emit Hw. apply runs_bind, runs_load_u16; [inbounds Hw|].
  rewrite (field_written_tail 2 _ 2 _ _ _ _ Hw) by lens.
  unfold ntohs. rewrite htons_le_dec by (apply bytes_field, Hb || apply length_field; lia).
  emit Hw. eapply runs_emit_sub; [exact Hw|lens|rewrite ?length_le_enc; lia|].
  clear Hw. intros c2 Hw. rewrite length_le_enc in Hw. cbn [Nat.sub Nat.add] in Hw.
  apply HQ. rewrite Nat.sub_0_r in Hw. revert Hw.
  rewrite !le_enc_htons, <- !app_assoc, <- Z.add_assoc. exact (fun Hw => Hw).
Qed.

Lemma write_gtpu_spec (o oi : nat) ohc l n t c (Q : unit -> xdp_md -> Prop) :
  written l (8 + n) t c -> length l = o -> oi = (o + 8 + n)%nat ->
  (20 <= length t)%nat -> bytes t ->
  (forall c', written (l ++ outer_gtp (be_dec (field 2 2 t)) (ohc_teid ohc)) n t c' ->
     Q tt c') ->
  runs (write_gtpu o oi ohc) c Q.
Proof.
  intros Hw Ho -> Ht Hb HQ. unfold write_gtpu. xdp_sizes.
  do 2 emit Hw. apply runs_bind, runs_load_u16; [inbounds Hw|].
  rewrite (field_written_tail 2 _ 2 _ _ _ _ Hw) by lens.
  emit Hw. eapply runs_emit_sub; [exact Hw|lens|rewrite ?length_le_enc; lia|].
  clear Hw. intros c2 Hw. rewrite length_le_enc in Hw. cbn [Nat.sub Nat.add] in Hw.
  apply HQ. rewrite Nat.sub_0_r in Hw. revert Hw.
  rewrite le_enc_le_dec_be by (apply bytes_field, Hb || apply length_field; lia).
  rewrite <- !app_assoc. exact (fun Hw => Hw).
Qed.

Lemma length_outer_ip tot daddr chk : length (outer_ip tot daddr chk) = 20%nat.
Proof. reflexivity. Qed.

Lemma outer_ip_split tot daddr chk :
  outer_ip tot daddr chk =
  take 10 (outer_ip tot daddr 0) ++ le_enc 2 chk ++ drop 12 (outer_ip tot daddr 0).
Proof. reflexivity. Qed.

(** The checksum is stored in the two zero bytes of the outer header. *)
Lemma write_checksum_spec far mac eth payload c :
  let len := be_dec (field 2 2 payload) in
  let daddr := ohc_ipv4_address (outer_header_creation (forwarding_parameters far)) in
  data c = gtpu_frame far mac eth payload 0 -> length mac = 6%nat -> length eth = 14%nat ->
  KERNEL_VERSION 4 16 0 <= linux_version_code ->
  runs (let* iph := load 14 20 in
        let l3sum := pcn_csum_diff linux_version_code [] iph 0 in
        pcn_l3_csum_replace IP_CSUM_OFFSET 0 l3sum 0 ;;;
        ret (A := option Z) None) c
    (fun r c' => r = None /\
       exists chk, data c' = gtpu_frame far mac eth payload chk /\
         rfc1071_ok (outer_ip (len + 36) daddr chk)).
Proof.
  intros len daddr Hd Hm He Hver.
  assert (Hme : length (mac ++ drop 6 eth) = 14%nat)
    by (rewrite length_app, length_drop, Hm, He; reflexivity).
  apply runs_bind, runs_load.
  { rewrite Hd. unfold gtpu_frame. rewrite length_app, Hme, length_app, length_outer_ip.
    lia. }
  assert (field 14 20 (data c) = outer_ip (len + 36) daddr 0) as ->.
  { rewrite Hd. unfold gtpu_frame. rewrite <- Hme at 1.
    rewrite <- (Nat.add_0_r (length _)), field_app_r.
    fold len daddr. rewrite field_app_l by (rewrite length_outer_ip; lia).
    rewrite <- (length_outer_ip (len + 36) daddr 0) at 1. apply field_all. }
  unfold pcn_csum_diff. rewrite (proj2 (Z.leb_le _ _) Hver).
  destruct (csum_diff_push (outer_ip (len + 36) daddr 0)) as (Hr & Hc & _);
    [apply bytes_outer_ip|rewrite length_outer_ip; now exists 5%nat|].
  set (l3 := bpf_csum_diff _ _ _) in *.
  set (ip0 := outer_ip (len + 36) daddr 0) in *.
  set (eth' := mac ++ drop 6 eth) in *.
  set (rest := outer_udp (port_number (outer_header_creation (forwarding_parameters far)))
                 (len + 16) ++
               outer_gtp len (ohc_teid (outer_header_creation (forwarding_parameters far))) ++
               payload).
  assert (Hf : forall chk, gtpu_frame far mac eth payload chk =
    (eth' ++ take 10 ip0) ++ le_enc 2 chk ++ (drop 12 ip0 ++ rest)).
  { intros chk. unfold gtpu_frame. fold eth' len daddr.
    rewrite (outer_ip_split _ _ chk). fold ip0 rest. now rewrite <- !app_assoc. }
  destruct (pcn_l3_csum_replace_push (eth' ++ take 10 ip0) (drop 12 ip0 ++ rest)
              IP_CSUM_OFFSET l3 c) as (chk & Hk & Hm0 & Heq); [|..|done|].
  { now rewrite Hd, Hf. }
  { rewrite length_app, Hme. reflexivity. }
  { unfold IP_CSUM_OFFSET, sizeof_ethhdr. lia. }
  { reflexivity. }
  apply runs_bind. unfold runs at 1. rewrite Heq. apply runs_ret. split; [done|].
  exists chk. split; [now rewrite Hf|]. now apply (outer_ip_valid _ _ _ l3).
Qed.

Lemma field_skip_eth (o k : nat) eth l :
  length eth = 14%nat -> field (14 + o) k (eth ++ l) = field o k l.
Proof. intros <-. apply field_app_r. Qed.

Lemma field_outer_daddr tot daddr chk :
  0 <= daddr < 2 ^ 32 -> le_dec (field 16 4 (outer_ip tot daddr chk)) = daddr.
Proof.
  intros H'. change (field 16 4 _) with (le_enc 4 daddr).
  rewrite le_dec_enc. apply Z.mod_small. exact H'.
Qed.

(** Up to the ARP lookup: the outer IPv4 and UDP headers are in place. *)
Lemma create_outer_header_prefix far c c1 eth payload (Q : option Z -> xdp_md -> Prop) :
  let ohc := outer_header_creation (forwarding_parameters far) in
  let len := be_dec (field 2 2 payload) in
  data c = eth ++ payload -> bytes payload ->
  length eth = 14%nat -> (20 <= length payload)%nat ->
  bpf_xdp_adjust_head (-36) c = (0, c1) -> 0 <= ohc_ipv4_address ohc < 2 ^ 32 ->
  (forall c', written (eth ++ outer_ip (len + 36) (ohc_ipv4_address ohc) 0 ++
                       outer_udp (port_number ohc) (len + 16)) 8 payload c' ->
     runs (match bpf_map_lookup_elem m_arp_table (ohc_ipv4_address ohc) with
           | None => ret (Some XDP_DROP)
           | Some mac => finish_outer_header 0 14 50 ohc mac
           end) c' Q) ->
  runs (create_outer_header_gtpu_ipv4 far) c Q.
Proof.
  intros ohc len Hd Hb He Hp Hadj Hip HQ.
  destruct (adjust_head_left 36 c c1 ltac:(lia) Hadj) as (pre & Hpre & _ & Hd1).
  change (Z.to_nat 36) with 36%nat in Hpre.
  unfold create_outer_header_gtpu_ipv4. fold ohc.
  apply runs_bind, runs_adjust_head.
  intros r c2 Hr. change (- Z.of_nat GTP_ENCAPSULATED_SIZE) with (-36) in Hr.
  rewrite Hadj in Hr. injection Hr as _ <-. xdp_sizes.
  assert (Hw : written [] 50 payload c1).
  { exists (pre ++ eth). rewrite length_app, Hpre, He. split; [done|].
    now rewrite Hd1, Hd, <- app_assoc. }
  check Hw. check Hw.
  apply runs_bind, runs_load; [inbounds Hw|].
  assert (field 36 14 (data c1) = eth) as ->.
  { rewrite Hd1, Hd, <- Hpre. rewrite <- (Nat.add_0_r (length pre)), field_app_r.
    rewrite <- He, field_app_l by lia. apply field_all. }
  apply runs_bind. eapply runs_emit_sub; [exact Hw|done|lia|].
  clear Hw. intros c2 Hw. rewrite He in Hw. cbn [Nat.sub app] in Hw.
  check Hw. check Hw.
  apply runs_bind. eapply (write_outer_ip_spec _ _ _ _ 16); [exact Hw|done..|].
  clear Hw. intros c3 Hw. check Hw.
  apply runs_bind. eapply (write_outer_udp_spec _ _ _ _ 8);
    [exact Hw|rewrite length_app, He; reflexivity|done..|].
  clear Hw. intros c4 Hw.
  apply runs_bind, runs_load_u32; [inbounds Hw|].
  rewrite (field_written_head _ _ _ _ _ _ Hw) by (rewrite !length_app, He; cbn; lia).
  rewrite <- app_assoc in Hw |- *. rewrite (field_skip_eth 16 4 eth) by done. fold len.
  rewrite field_app_l, field_outer_daddr by (rewrite ?length_outer_ip; lia || done).
  now apply HQ.
Qed.

Lemma finish_outer_header_spec far c eth payload mac :
  let ohc := outer_header_creation (forwarding_parameters far) in
  let len := be_dec (field 2 2 payload) in
  written (eth ++ outer_ip (len + 36) (ohc_ipv4_address ohc) 0 ++
           outer_udp (port_number ohc) (len + 16)) 8 payload c ->
  bytes payload -> length eth = 14%nat -> (20 <= length payload)%nat ->
  length mac = 6%nat -> KERNEL_VERSION 4 16 0 <= linux_version_code ->
  runs (finish_outer_header 0 14 50 ohc mac) c (fun r c' => r = None /\
    exists chk, data c' = gtpu_frame far mac eth payload chk /\
      rfc1071_ok (outer_ip (len + 36) (ohc_ipv4_address ohc) chk)).
Proof.
  intros ohc len Hw Hb He Hp Hmac Hver. unfold finish_outer_header. xdp_sizes.
  rewrite <- (take_drop 6 eth), <- !app_assoc in Hw.
  apply runs_bind. eapply runs_patch0; [exact Hw|rewrite length_take; lia|].
  clear Hw. intros c5 Hw _.
  apply runs_check_ptr.
  2:{ apply written_length in Hw. revert Hw. rewrite !length_app, length_drop, He. cbn. lia. }
  intros _. apply runs_bind. eapply (write_gtpu_spec _ _ _ _ 0); [exact Hw| |done..|].
  { rewrite !length_app, length_drop, He, Hmac. reflexivity. }
  clear Hw. intros c6 ([|] & Hj & Hw); [|done].
  apply write_checksum_spec; try done. rewrite Hw. unfold gtpu_frame.
  now rewrite <- !app_assoc.
Qed.

Lemma create_outer_header_spec far c c1 eth payload mac :
  let ohc := outer_header_creation (forwarding_parameters far) in
  data c = eth ++ payload -> bytes payload ->
  length eth = 14%nat -> (20 <= length payload)%nat ->
  bpf_xdp_adjust_head (-36) c = (0, c1) ->
  0 <= ohc_ipv4_address ohc < 2 ^ 32 ->
  bpf_map_lookup_elem m_arp_table (ohc_ipv4_address ohc) = Some mac ->
  length mac = 6%nat -> KERNEL_VERSION 4 16 0 <= linux_version_code ->
  runs (create_outer_header_gtpu_ipv4 far) c (fun r c' => r = None /\
    exists chk, data c' = gtpu_frame far mac eth payload chk /\
      rfc1071_ok (outer_ip (be_dec (field 2 2 payload) + 36) (ohc_ipv4_address ohc) chk)).
Proof.
  intros ohc Hd Hb He Hp Hadj Hip Harp Hmac Hver.
  eapply create_outer_header_prefix; [done..|]. fold ohc. rewrite Harp.
  intros c' Hw. now apply finish_outer_header_spec.
Qed.

(** ** The rule as a whole *)

Inductive far_kind : Type := Decap | Encap | Passive.

(** The two supported combinations of destination interface and outer header;
    every other FAR, and one that does not forward, leaves the packet alone. *)
Definition kind_of (far : pfcp_far_t_) : far_kind :=
  let fp := forwarding_parameters far in
  let d := outer_header_creation_description (outer_header_creation fp) in
  if aa_forw (apply_action far) =? 0 then Passive
  else if (destination_interface fp =? INTERFACE_VALUE_CORE) &&
          (d =? OUTER_HEADER_CREATION_UDP_IPV4) then Decap
  else if (destination_interface fp =? INTERFACE_VALUE_ACCESS) &&
          (d =? OUTER_HEADER_CREATION_GTPU_UDP_IPV4) then Encap
  else Passive.

Lemma far_apply_passive k1 k2 far c :
  kind_of far = Passive -> (14 <= length (data c))%nat ->
  far_apply k1 k2 (Some far) c = (Ok XDP_PASS, c).
Proof.
  intros Hk Hl. unfold far_apply, check_ptr, bind, ptr_ok, gets. xdp_sizes.
  rewrite (proj2 (Nat.leb_le _ _) Hl). unfold kind_of in Hk.
  destruct (aa_forw _ =? 0); cbn [negb]; [done|].
  destruct (destination_interface _ =? INTERFACE_VALUE_CORE); cbn [andb] in Hk.
  - destruct (_ =? OUTER_HEADER_CREATION_UDP_IPV4); done.
  - destruct (_ =? INTERFACE_VALUE_ACCESS); cbn [andb] in Hk; [|done].
    destruct (_ =? OUTER_HEADER_CREATION_GTPU_UDP_IPV4); done.
Qed.

Lemma far_apply_none k1 k2 c : far_apply k1 k2 None c = (Ok XDP_DROP, c).
Proof. unfold far_apply, check_ptr, bind, ptr_ok, gets. now destruct (_ <=? _)%nat. Qed.

Lemma kind_of_encap far :
  kind_of far = Encap ->
  (aa_forw (apply_action far) =? 0) = false /\
  destination_interface (forwarding_parameters far) = INTERFACE_VALUE_ACCESS /\
  outer_header_creation_description (outer_header_creation (forwarding_parameters far)) =
    OUTER_HEADER_CREATION_GTPU_UDP_IPV4.
Proof.
  unfold kind_of. destruct (aa_forw _ =? 0); [done|].
  destruct (destination_interface _ =? _) eqn:E1, (_ =? OUTER_HEADER_CREATION_UDP_IPV4) eqn:E2;
    cbn [andb]; try done;
  destruct (_ =? INTERFACE_VALUE_ACCESS) eqn:E3,
    (_ =? OUTER_HEADER_CREATION_GTPU_UDP_IPV4) eqn:E4; cbn [andb]; try done;
  intros _; apply Z.eqb_eq in E3, E4; done.
Qed.

Lemma kind_of_decap far :
  kind_of far = Decap ->
  (aa_forw (apply_action far) =? 0) = false /\
  destination_interface (forwarding_parameters far) = INTERFACE_VALUE_CORE /\
  outer_header_creation_description (outer_header_creation (forwarding_parameters far)) =
    OUTER_HEADER_CREATION_UDP_IPV4.
Proof.
  unfold kind_of. destruct (aa_forw _ =? 0); [done|].
  destruct (destination_interface _ =? INTERFACE_VALUE_CORE) eqn:E1,
    (_ =? OUTER_HEADER_CREATION_UDP_IPV4) eqn:E2; cbn [andb].
  1: intros _; apply Z.eqb_eq in E1, E2; done.
  all: destruct (_ && _); done.
Qed.

Lemma far_apply_encap k1 k2 far c Q :
  kind_of far = Encap -> (14 <= length (data c))%nat ->
  runs (create_outer_header_gtpu_ipv4 far) c
    (fun _ c' => Q (bpf_redirect_map m_redirect_interfaces k2 0) c') ->
  runs (far_apply k1 k2 (Some far)) c Q.
Proof.
  intros Hk Hl HQ. destruct (kind_of_encap _ Hk) as (Hf & Hi & Hd).
  unfold far_apply. xdp_sizes. apply runs_check_ptr; [intros _|lia].
  rewrite Hf, Hi, Hd. cbn [negb].
  change (INTERFACE_VALUE_ACCESS =? INTERFACE_VALUE_CORE) with false.
  rewrite !Z.eqb_refl. cbv iota. now apply runs_bind.
Qed.

Lemma far_apply_decap k1 k2 far c eth hdrs payload mac :
  kind_of far = Decap ->
  data c = eth ++ hdrs ++ payload -> length eth = 14%nat -> length hdrs = 36%nat ->
  (20 <= length payload)%nat ->
  bpf_map_lookup_elem m_arp_table (le_dec (field 16 4 payload)) = Some mac ->
  length mac = 6%nat ->
  (forall d, length d = length (data c) ->
     fst (bpf_xdp_adjust_head 36 (mk_xdp_md (headroom c) d)) = 0) ->
  runs (far_apply k1 k2 (Some far)) c (fun a c' =>
    a = bpf_redirect_map m_redirect_interfaces k1 0 /\
    data c' = mac ++ drop 6 eth ++ payload).
Proof.
  intros Hk Hd He Hh Hp Harp Hmac Hadj. destruct (kind_of_decap _ Hk) as (Hf & Hi & Hde).
  assert (HL : length (data c) = (50 + length payload)%nat)
    by (rewrite Hd, !length_app, He, Hh; lia).
  unfold far_apply. xdp_sizes. apply runs_check_ptr; [intros _|lia].
  rewrite Hf, Hi, Hde, !Z.eqb_refl. cbn [negb].
  apply runs_check_ptr; [intros _|lia].
  apply runs_bind, runs_load; [lia|].
  rewrite Hd, field_app_l by lia.
  replace (field 0 14 eth) with eth by (rewrite <- He; now rewrite field_all).
  assert (length (eth ++ take 22 hdrs) = 36%nat) as Hl36
    by (rewrite length_app, length_take; lia).
  rewrite <- (take_drop 22 hdrs), <- app_assoc, app_assoc in Hd.
  apply runs_bind. eapply runs_store_split; [exact Hd|exact Hl36|rewrite length_drop; lia|].
  set (pre := eth ++ take 22 hdrs) in *.
  apply runs_check_ptr; cbn [data set_data]; rewrite !length_app; [intros _|lia].
  apply runs_bind. unfold update_dst_mac_address. apply runs_bind, runs_load_u32.
  { cbn [data set_data]. rewrite !length_app. lia. }
  cbn [data set_data]. replace (field (50 + 16) 4 (pre ++ eth ++ payload))
    with (field 16 4 payload).
  2:{ rewrite app_assoc. replace 50%nat with (length (pre ++ eth))
        by (rewrite length_app; lia). now rewrite field_app_r. }
  rewrite Harp. apply runs_bind.
  apply (runs_store_split 36 pre (take 6 eth) (drop 6 eth ++ payload)); [|done|..].
  { cbn. now rewrite (app_assoc (take 6 eth)), take_drop. }
  { rewrite length_take. lia. }
  apply runs_ret. cbn [negb Z.eqb]. apply runs_bind, runs_adjust_head.
  intros r c' Hr. apply runs_ret. split; [done|].
  specialize (Hadj (pre ++ mac ++ drop 6 eth ++ payload)).
  unfold set_data in Hr. cbn [headroom] in Hr.
  change (Z.of_nat 36) with 36 in Hr. rewrite Hr in Hadj. cbn [fst] in Hadj.
  rewrite Hadj in Hr by (rewrite !length_app, length_drop; lia).
  apply adjust_head_right in Hr; [|lia]. cbn [data] in Hr.
  rewrite Hr. change (Z.to_nat 36) with 36%nat. now rewrite drop_app_length'.
Qed.

(** ** Properties *)

(** C12: whatever the packet, the FAR and the failures of the helpers, the FAR
    program never touches a byte outside the packet, makes no tail call, and
    returns XDP_ABORTED, XDP_DROP, XDP_PASS or XDP_REDIRECT. *)
Theorem far_entry_point_safe c :
  arp_ok -> exists a c', far_entry_point c = (Ok a, c') /\ In a far_actions.
Proof.
  intros Ha. apply runs_ok. apply far_apply_safe. exact Ha.
Qed.

(** C14: encapsulation. A frame with at least an IPv4 header, under a FAR that
    forwards to ACCESS with a GTP-U/UDP/IPv4 outer header, becomes the frame
    with the next hop's MAC address, the outer IPv4, UDP and GTP-U headers with
    the lengths, port, address and TEID of the FAR, and the original IPv4
    packet; the checksum of the outer IPv4 header is correct, and the packet
    is redirected to the DOWNLINK interface. *)
Theorem pfcp_far_apply_encap far c c1 eth payload mac :
  let ohc := outer_header_creation (forwarding_parameters far) in
  kind_of far = Encap ->
  data c = eth ++ payload -> bytes payload ->
  length eth = 14%nat -> (20 <= length payload)%nat ->
  bpf_xdp_adjust_head (-36) c = (0, c1) ->
  0 <= ohc_ipv4_address ohc < 2 ^ 32 ->
  bpf_map_lookup_elem m_arp_table (ohc_ipv4_address ohc) = Some mac ->
  length mac = 6%nat -> KERNEL_VERSION 4 16 0 <= linux_version_code ->
  exists c' chk,
    pfcp_far_apply (Some far) c =
      (Ok (bpf_redirect_map m_redirect_interfaces DOWNLINK 0), c') /\
    data c' = gtpu_frame far mac eth payload chk /\
    rfc1071_ok (outer_ip (be_dec (field 2 2 payload) + 36) (ohc_ipv4_address ohc) chk).
Proof.
  intros ohc Hk Hd Hb He Hp Hadj Hip Harp Hmac Hver.
  assert (Hl : (14 <= length (data c))%nat) by (rewrite Hd, length_app; lia).
  assert (runs (pfcp_far_apply (Some far)) c (fun a c' =>
    a = bpf_redirect_map m_redirect_interfaces DOWNLINK 0 /\ exists chk,
      data c' = gtpu_frame far mac eth payload chk /\
      rfc1071_ok (outer_ip (be_dec (field 2 2 payload) + 36) (ohc_ipv4_address ohc) chk)))
    as Hr.
  { apply far_apply_encap; [done..|].
    eapply runs_weaken; [eapply create_outer_header_spec; done|]. tauto. }
  apply runs_ok in Hr as (a & c' & Heq & -> & chk & Hd' & Hv).
  exists c', chk. auto.
Qed.

(** C15: decapsulation. Under a FAR that forwards to CORE with a UDP/IPv4
    outer header, the 36 bytes behind the Ethernet header are removed, the
    destination MAC address becomes that of the inner destination, the rest of
    the frame is kept byte for byte, and the packet is redirected to UPLINK. *)
Theorem pfcp_far_apply_decap far c eth hdrs payload mac :
  kind_of far = Decap ->
  data c = eth ++ hdrs ++ payload -> length eth = 14%nat -> length hdrs = 36%nat ->
  (20 <= length payload)%nat ->
  bpf_map_lookup_elem m_arp_table (le_dec (field 16 4 payload)) = Some mac ->
  length mac = 6%nat ->
  (forall d, length d = length (data c) ->
     fst (bpf_xdp_adjust_head 36 (mk_xdp_md (headroom c) d)) = 0) ->
  exists c',
    pfcp_far_apply (Some far) c =
      (Ok (bpf_redirect_map m_redirect_interfaces UPLINK 0), c') /\
    data c' = mac ++ drop 6 eth ++ payload.
Proof.
  intros Hk Hd He Hh Hp Harp Hmac Hadj.
  pose proof (far_apply_decap UPLINK DOWNLINK far c eth hdrs payload mac
                Hk Hd He Hh Hp Harp Hmac Hadj) as Hr.
  apply runs_ok in Hr as (a & c' & Heq & -> & Hd'). eauto.
Qed.

(** C16: the two ends of a tunnel: a frame encapsulated by one FAR program and
    decapsulated by another carries its IPv4 packet unchanged, whatever is in
    it; only the destination MAC address differs. *)
Theorem tunnel_roundtrip dl ul c c1 eth payload mac mac' :
  kind_of dl = Encap -> kind_of ul = Decap ->
  data c = eth ++ payload -> bytes payload ->
  length eth = 14%nat -> (20 <= length payload)%nat ->
  bpf_xdp_adjust_head (-36) c = (0, c1) ->
  (forall c2, fst (bpf_xdp_adjust_head 36 c2) = 0 \/ (length (data c2) < 50)%nat) ->
  let daddr := ohc_ipv4_address (outer_header_creation (forwarding_parameters dl)) in
  0 <= daddr < 2 ^ 32 ->
  bpf_map_lookup_elem m_arp_table daddr = Some mac -> length mac = 6%nat ->
  bpf_map_lookup_elem m_arp_table (le_dec (field 16 4 payload)) = Some mac' ->
  length mac' = 6%nat -> KERNEL_VERSION 4 16 0 <= linux_version_code ->
  exists a c',
    (pfcp_far_apply (Some dl) ;;; pfcp_far_apply (Some ul)) c = (Ok a, c') /\
    data c' = mac' ++ drop 6 eth ++ payload.
Proof.
  intros Hkd Hku Hd Hb He Hp Hadj Hadj' daddr Hip Harp Hmac Harp' Hmac' Hver.
  assert (Hl : (14 <= length (data c))%nat) by (rewrite Hd, length_app; lia).
  apply runs_ok, runs_bind. apply far_apply_encap; [done..|].
  eapply runs_weaken; [eapply create_outer_header_spec; done|].
  intros _ c2 (_ & chk & Hd2 & _).
  eapply runs_weaken.
  - apply (far_apply_decap UPLINK DOWNLINK ul c2 (mac ++ drop 6 eth)
             (outer_ip (be_dec (field 2 2 payload) + 36) daddr chk ++
              outer_udp (port_number (outer_header_creation (forwarding_parameters dl)))
                (be_dec (field 2 2 payload) + 16) ++
              outer_gtp (be_dec (field 2 2 payload))
                (ohc_teid (outer_header_creation (forwarding_parameters dl))))
             payload mac'); try done.
    + rewrite length_app, length_drop, Hmac, He. done.
    + intros d Hdl. destruct (Hadj' (mk_xdp_md (headroom c2) d)) as [|Hs]; [done|].
      cbn [data] in Hs. rewrite Hdl, Hd2 in Hs. revert Hs. unfold gtpu_frame.
      rewrite !length_app, length_drop, length_outer_ip, Hmac, He. cbn. lia.
  - intros a c' [_ Hd']. now rewrite Hd', drop_app_le, drop_ge, app_nil_l by lia.
Qed.

(** No FAR: the packet is dropped; a FAR that does not forward, or asks
    for a combination the program does not support: the packet is passed to
    the kernel; in both cases it is unchanged. *)
Theorem pfcp_far_apply_other c :
  (14 <= length (data c))%nat ->
  pfcp_far_apply None c = (Ok XDP_DROP, c) /\
  forall far, kind_of far = Passive -> pfcp_far_apply (Some far) c = (Ok XDP_PASS, c).
Proof.
  intros Hl. split.
  - apply far_apply_none.
  - intros far Hk. now apply far_apply_passive.
Qed.

(** The result of the encapsulation is not looked at: when the next hop
    has no entry in the ARP table, [create_outer_header_gtpu_ipv4] gives
    XDP_DROP, yet the FAR program redirects the half-built frame, which has
    grown by 36 bytes, has a zero IPv4 checksum and no GTP-U header. *)
Theorem encap_without_arp_is_redirected far c c1 eth payload :
  let ohc := outer_header_creation (forwarding_parameters far) in
  let len := be_dec (field 2 2 payload) in
  kind_of far = Encap ->
  data c = eth ++ payload -> bytes payload ->
  length eth = 14%nat -> (20 <= length payload)%nat ->
  bpf_xdp_adjust_head (-36) c = (0, c1) ->
  0 <= ohc_ipv4_address ohc < 2 ^ 32 ->
  bpf_map_lookup_elem m_arp_table (ohc_ipv4_address ohc) = None ->
  exists c' junk,
    create_outer_header_gtpu_ipv4 far c = (Ok (Some XDP_DROP), c') /\
    pfcp_far_apply (Some far) c =
      (Ok (bpf_redirect_map m_redirect_interfaces DOWNLINK 0), c') /\
    length junk = 8%nat /\
    data c' = (eth ++ outer_ip (len + 36) (ohc_ipv4_address ohc) 0 ++
               outer_udp (port_number ohc) (len + 16)) ++ junk ++ payload.
Proof.
  intros ohc len Hk Hd Hb He Hp Hadj Hip Harp.
  assert (Hl : (14 <= length (data c))%nat) by (rewrite Hd, length_app; lia).
  assert (runs (create_outer_header_gtpu_ipv4 far) c (fun r c' => r = Some XDP_DROP /\
    written (eth ++ outer_ip (len + 36) (ohc_ipv4_address ohc) 0 ++
             outer_udp (port_number ohc) (len + 16)) 8 payload c')) as Hr.
  { eapply create_outer_header_prefix; [done..|]. fold ohc. rewrite Harp. done. }
  apply runs_ok in Hr as (r & c' & Heq & -> & junk & Hj & Hd').
  exists c', junk. split; [done|]. split; [|done].
  assert (runs (pfcp_far_apply (Some far)) c (fun a c2 =>
    a = bpf_redirect_map m_redirect_interfaces DOWNLINK 0 /\ c2 = c')) as Hr.
  { apply far_apply_encap; [done..|]. unfold runs. now rewrite Heq. }
  apply runs_ok in Hr as (a & c2 & Heq2 & -> & ->). exact Heq2.
Qed.

End Program.

(** ** Witnesses *)

Module SampleFar.

Definition gnb_ip : Z := 33620234.
Definition ue_ip : Z := le_dec [10; 10; 10; 10].
Definition mac : list Z := [2; 0; 0; 0; 0; 9].

Definition downlink_far : pfcp_far_t_ :=
  mk_far 2 (mk_apply_action 0 0 0 0 1 0)
    (mk_fwd INTERFACE_VALUE_ACCESS
       (mk_ohc OUTER_HEADER_CREATION_GTPU_UDP_IPV4 (htonl 100) gnb_ip 2152)).
Definition uplink_far : pfcp_far_t_ :=
  mk_far 1 (mk_apply_action 0 0 0 0 1 0)
    (mk_fwd INTERFACE_VALUE_CORE (mk_ohc OUTER_HEADER_CREATION_UDP_IPV4 0 0 0)).

Definition far_map : hash_map Z pfcp_far_t_ := mk_hash_map 1 {[ 0 := uplink_far ]}.
Definition arp_table : hash_map Z (list Z) :=
  mk_hash_map 2 (list_to_map [(gnb_ip, mac); (le_dec [10; 1; 3; 30], mac)]).
Definition empty_arp : hash_map Z (list Z) := mk_hash_map 2 ∅.
Definition interfaces : gmap Z Z := {[ UPLINK := 3; DOWNLINK := 4 ]}.
Definition version : Z := KERNEL_VERSION 5 4 0.

Definition frame_eth : list Z := Sample.eth [8; 0].
Definition packet : list Z := Sample.ip IPPROTO_UDP ++ Sample.udp 53 ++ [1; 2; 3].
Definition c0 : xdp_md := Sample.pkt (frame_eth ++ packet).
Definition c1 : xdp_md := snd (sample_adjust_head (-36) c0).

End SampleFar.

Lemma sample_arp_ok : arp_ok SampleFar.arp_table.
Proof.
  intros k mac Hm. unfold SampleFar.arp_table in Hm. cbn [bpf_map_lookup_elem
    hash_map_ops hm_entries] in Hm. apply elem_of_list_to_map_2 in Hm.
  apply list_elem_of_In in Hm. destruct Hm as [[= _ <-]|[[= _ <-]|[]]]; done.
Qed.

Example far_entry_point_safe_witness :
  arp_ok SampleFar.arp_table /\
  exists a c', far_entry_point SampleFar.version SampleFar.far_map SampleFar.arp_table
                 SampleFar.interfaces (Sample.pkt [1; 2; 3]) = (Ok a, c') /\
    In a far_actions.
Proof.
  split; [apply sample_arp_ok|]. apply far_entry_point_safe. 2: apply sample_arp_ok.
  apply sample_helper_laws.
Defined.

Example pfcp_far_apply_encap_witness :
  exists c' chk,
    pfcp_far_apply SampleFar.version SampleFar.arp_table SampleFar.interfaces
      (Some SampleFar.downlink_far) SampleFar.c0 =
      (Ok (bpf_redirect_map SampleFar.interfaces DOWNLINK 0), c') /\
    data c' = gtpu_frame SampleFar.downlink_far SampleFar.mac SampleFar.frame_eth
                SampleFar.packet chk /\
    rfc1071_ok (outer_ip (be_dec (field 2 2 SampleFar.packet) + 36) SampleFar.gnb_ip chk).
Proof.
  apply (pfcp_far_apply_encap SampleFar.version SampleFar.arp_table SampleFar.interfaces
           SampleFar.downlink_far SampleFar.c0 SampleFar.c1 SampleFar.frame_eth
           SampleFar.packet SampleFar.mac); try reflexivity; try (now apply bytes_bool).
  all: vm_compute; first [lia | split; congruence | congruence | idtac].
Defined.

Example pfcp_far_apply_decap_witness :
  exists c',
    pfcp_far_apply SampleFar.version SampleFar.arp_table SampleFar.interfaces
      (Some SampleFar.uplink_far)
      (Sample.pkt (SampleFar.frame_eth ++ repeat 7 36 ++ SampleFar.packet)) =
      (Ok (bpf_redirect_map SampleFar.interfaces UPLINK 0), c') /\
    data c' = SampleFar.mac ++ drop 6 SampleFar.frame_eth ++ SampleFar.packet.
Proof.
  apply (pfcp_far_apply_decap SampleFar.version SampleFar.arp_table SampleFar.interfaces
           SampleFar.uplink_far _ SampleFar.frame_eth (repeat 7 36)); try reflexivity.
  - vm_compute. lia.
  - intros d Hd. cbn. unfold sample_adjust_head. cbn [data Z.ltb].
    rewrite Hd. reflexivity.
Defined.

Example tunnel_roundtrip_witness :
  exists a c',
    (pfcp_far_apply SampleFar.version SampleFar.arp_table SampleFar.interfaces
       (Some SampleFar.downlink_far) ;;;
     pfcp_far_apply SampleFar.version SampleFar.arp_table SampleFar.interfaces
       (Some SampleFar.uplink_far)) SampleFar.c0 = (Ok a, c') /\
    data c' = SampleFar.mac ++ drop 6 SampleFar.frame_eth ++ SampleFar.packet.
Proof.
  apply (tunnel_roundtrip SampleFar.version SampleFar.arp_table SampleFar.interfaces
           SampleFar.downlink_far SampleFar.uplink_far SampleFar.c0 SampleFar.c1
           SampleFar.frame_eth SampleFar.packet SampleFar.mac SampleFar.mac);
    try reflexivity; try (now apply bytes_bool).
  - vm_compute. lia.
  - intros c2. cbn. unfold sample_adjust_head. cbn [Z.ltb Z.compare].
    destruct (Nat.leb_spec (Z.to_nat 36 + 14) (length (data c2))); [now left|right; lia].
  - vm_compute. split; congruence.
  - vm_compute. congruence.
Defined.

Example pfcp_far_apply_other_witness :
  pfcp_far_apply SampleFar.version SampleFar.arp_table SampleFar.interfaces None
    SampleFar.c0 = (Ok XDP_DROP, SampleFar.c0).
Proof.
  apply (pfcp_far_apply_other SampleFar.version SampleFar.arp_table SampleFar.interfaces
           SampleFar.c0). vm_compute. lia.
Defined.

Example encap_without_arp_is_redirected_witness :
  exists c',
    create_outer_header_gtpu_ipv4 SampleFar.version SampleFar.empty_arp
      SampleFar.downlink_far SampleFar.c0 = (Ok (Some XDP_DROP), c') /\
    pfcp_far_apply SampleFar.version SampleFar.empty_arp SampleFar.interfaces
      (Some SampleFar.downlink_far) SampleFar.c0 =
      (Ok (bpf_redirect_map SampleFar.interfaces DOWNLINK 0), c').
Proof.
  pose proof (encap_without_arp_is_redirected SampleFar.version SampleFar.empty_arp
    SampleFar.interfaces SampleFar.downlink_far SampleFar.c0 SampleFar.c1
    SampleFar.frame_eth SampleFar.packet) as P.
  destruct P as (c' & junk & H1 & H2 & _); try reflexivity; try (now apply bytes_bool).
  - vm_compute. lia.
  - vm_compute. split; congruence.
  - exists c'. split; assumption.
Defined.
