(* ===== verification/SessionBpf.v ===== *)
(** * The session program (src/src/bpf/session_bpf.c)

    The older datapath: one program per session with the PDRs and FARs of the
    session in its maps.  The uplink entry finds a PDR by TEID, the downlink
    entry by the address of the UE; a matching PDR names the FAR to apply.
    Both entries record their action. *)
From Stdlib Require Import ZArith Lia List Bool.
From stdpp Require Import base list gmap.
From S2P Require Import Prelude Packet BpfInstances Csum UpfXdp FarBpf.
Open Scope Z_scope.
Open Scope upf_scope.

(** ** Data: the fields of a PDR the program reads *)

(** ie/group_ie/pdi.h *)
Record pdi_t_ : Type := mk_pdi {
  source_interface : Z;
  fteid_teid : Z;
  ue_ip_address : Z
}.

(** pfcp/pfcp_pdr.h *)
Record pfcp_pdr_t_ : Type := mk_pdr {
  rule_id : Z;
  precedence : Z;
  pdi : pdi_t_;
  outer_header_removal_description : Z;
  pdr_far_id : Z
}.

Definition OUTER_HEADER_REMOVAL_GTPU_UDP_IPV4 : Z := 0.
Definition OUTER_HEADER_REMOVAL_UDP_IPV4 : Z := 2.

Section Program.
Context {PdrMap FarMap ArpMap DevMap StatsMap : Type}.
Context `{BpfMap PdrMap Z pfcp_pdr_t_} `{BpfMap FarMap Z pfcp_far_t_}.
Context `{BpfMap ArpMap Z (list Z)} `{XdpHelpers DevMap} `{BpfMap StatsMap Z datarec}.
Variable linux_version_code : Z.
Variable m_teid_pdr m_ueip_pdr : PdrMap.
Variable m_fars : FarMap.
Variable m_arp_table : ArpMap.
Variable m_redirect_interfaces : DevMap.

(** The local variable [i] of both lookups is read without a value. *)
Variable uninit_i : Z.

(** ** Operations *)

(** The lines of far_bpf.c, repeated in session_bpf.c; the assignments to the
    headers are those of [FarBpf]. *)
Definition xdp_redirect_gtpu : xdp Z := ret XDP_PASS.

Definition update_dst_mac_address (p_ip p_eth : nat) : xdp Z :=
  let* daddr := load_u32 (p_ip + 16) in
  match bpf_map_lookup_elem m_arp_table daddr with
  | None => ret 1
  | Some p_mac_address => store p_eth p_mac_address ;;; ret 0
  end.

Definition create_outer_header_gtpu_ipv4 (p_far : pfcp_far_t_) : xdp (option Z) :=
  let ohc := outer_header_creation (forwarding_parameters p_far) in
  adjust_head (- Z.of_nat GTP_ENCAPSULATED_SIZE) ;;;
  let p_eth := 0%nat in
  check_ptr (p_eth + sizeof_ethhdr) (Some XDP_DROP) (
  let p_orig_eth := GTP_ENCAPSULATED_SIZE in
  check_ptr (p_orig_eth + sizeof_ethhdr) (Some XDP_DROP) (
  let* orig := load p_orig_eth sizeof_ethhdr in
  store p_eth orig ;;;
  let p_ip := (p_eth + sizeof_ethhdr)%nat in
  check_ptr (p_ip + sizeof_iphdr) (Some XDP_DROP) (
  let p_inner_ip := (p_ip + GTP_ENCAPSULATED_SIZE)%nat in
  check_ptr (p_inner_ip + sizeof_iphdr) (Some XDP_DROP) (
  write_outer_ip p_ip p_inner_ip ohc ;;;
  let p_udp := (p_ip + sizeof_iphdr)%nat in
  check_ptr (p_udp + sizeof_udphdr) (Some XDP_DROP) (
  write_outer_udp p_udp p_inner_ip ohc ;;;
  let* daddr := load_u32 (p_ip + 16) in
  match bpf_map_lookup_elem m_arp_table daddr with
  | None => ret (Some XDP_DROP)
  | Some p_mac_address =>
      store p_eth p_mac_address ;;;
      let p_gtpuh := (p_ip + sizeof_iphdr + sizeof_udphdr)%nat in
      check_ptr (p_gtpuh + sizeof_gtpuhdr) (Some XDP_DROP) (
      write_gtpu p_gtpuh p_inner_ip ohc ;;;
      let* iph := load p_ip sizeof_iphdr in
      let l3sum := pcn_csum_diff linux_version_code [] iph 0 in
      pcn_l3_csum_replace IP_CSUM_OFFSET 0 l3sum 0 ;;;
      ret None)
  end))))).

Definition pfcp_far_apply (p_far : option pfcp_far_t_) (direction : Z) : xdp Z :=
  let p_eth := 0%nat in
  check_ptr (p_eth + sizeof_ethhdr) XDP_DROP (
  match p_far with
  | None => ret XDP_DROP
  | Some p_far =>
      let dest_interface := destination_interface (forwarding_parameters p_far) in
      let description :=
        outer_header_creation_description
          (outer_header_creation (forwarding_parameters p_far)) in
      if negb (aa_forw (apply_action p_far) =? 0) then
        if dest_interface =? INTERFACE_VALUE_CORE then
          if description =? OUTER_HEADER_CREATION_UDP_IPV4 then
            let p_new_eth := GTP_ENCAPSULATED_SIZE in
            check_ptr (p_new_eth + sizeof_ethhdr) 1 (
            let* eth := load p_eth sizeof_ethhdr in
            store p_new_eth eth ;;;
            let p_ip := (p_new_eth + sizeof_ethhdr)%nat in
            check_ptr (p_ip + sizeof_iphdr) XDP_DROP (
            let* fail := update_dst_mac_address p_ip p_new_eth in
            if negb (fail =? 0) then ret XDP_DROP
            else
              adjust_head (Z.of_nat GTP_ENCAPSULATED_SIZE) ;;;
              ret (bpf_redirect_map m_redirect_interfaces direction 0)))
          else ret XDP_PASS
        else if dest_interface =? INTERFACE_VALUE_ACCESS then
          if description =? OUTER_HEADER_CREATION_GTPU_UDP_IPV4 then
            create_outer_header_gtpu_ipv4 p_far ;;;
            ret (bpf_redirect_map m_redirect_interfaces direction 0)
          else ret XDP_PASS
        else ret XDP_PASS
      else ret XDP_PASS
  end).

(** The two files differ in the key of the interface alone: what is shown of
    the rules of far_bpf.c holds of these. *)
Lemma pfcp_far_apply_as_far p_far direction :
  pfcp_far_apply p_far direction =
    far_apply linux_version_code m_arp_table m_redirect_interfaces direction direction p_far.
Proof. reflexivity. Qed.

(** 0 is a match. *)
Definition pfcp_pdr_match_pdi_access (p_pdr : pfcp_pdr_t_) (p_iph : option nat) (teid : Z) : Z :=
  match p_iph with
  | None => 0
  | Some _ =>
      if negb (outer_header_removal_description p_pdr =? OUTER_HEADER_REMOVAL_GTPU_UDP_IPV4)
         || negb (source_interface (pdi p_pdr) =? INTERFACE_VALUE_ACCESS)
         || negb (fteid_teid (pdi p_pdr) =? teid)
      then 1 else 0
  end.

Definition pfcp_pdr_match_pdi_downlink (p_pdr : pfcp_pdr_t_) (p_iph : option nat) : xdp Z :=
  match p_iph with
  | None => ret 0
  | Some iph =>
      let* daddr := load_u32 (iph + 16) in
      ret (if negb (outer_header_removal_description p_pdr =? OUTER_HEADER_REMOVAL_UDP_IPV4)
              || negb (source_interface (pdi p_pdr) =? INTERFACE_VALUE_CORE)
              || negb (ue_ip_address (pdi p_pdr) =? daddr)
           then 1 else 0)
  end.

(** [p_pdr[i]]: the value of the map holds one PDR. *)
Definition pdr_index (p_pdr : pfcp_pdr_t_) : xdp pfcp_pdr_t_ :=
  if uninit_i =? 0 then ret p_pdr else raise OutOfBounds.

Definition pfcp_pdr_lookup_uplink : xdp Z :=
  let p_gtpuh := (sizeof_ethhdr + sizeof_iphdr + sizeof_udphdr)%nat in
  check_ptr (p_gtpuh + sizeof_gtpuhdr) XDP_PASS (
  let p_iph := (p_gtpuh + 8)%nat in
  let* t := load_u32 (p_gtpuh + 4) in
  let teid := htonl t in
  match bpf_map_lookup_elem m_teid_pdr teid with
  | None => ret XDP_DROP
  | Some p_pdr =>
      let* pdr := pdr_index p_pdr in
      if pfcp_pdr_match_pdi_access pdr (Some p_iph) teid =? 0
      then pfcp_far_apply (bpf_map_lookup_elem m_fars (pdr_far_id p_pdr)) UPLINK
      else ret XDP_PASS
  end).

Definition pfcp_pdr_lookup_downlink : xdp Z :=
  check_ptr (sizeof_ethhdr + sizeof_iphdr + sizeof_udphdr) XDP_PASS (
  let p_iph := sizeof_ethhdr in
  let* dest_ip := load_u32 (p_iph + 16) in
  match bpf_map_lookup_elem m_ueip_pdr dest_ip with
  | None => ret XDP_DROP
  | Some p_pdr =>
      let* pdr := pdr_index p_pdr in
      let* no_match := pfcp_pdr_match_pdi_downlink pdr (Some p_iph) in
      if no_match =? 0
      then pfcp_far_apply (bpf_map_lookup_elem m_fars (pdr_far_id p_pdr)) DOWNLINK
      else ret XDP_PASS
  end).

Definition uplink_entry_point (mc_stats : StatsMap) : xdp (Z * StatsMap) :=
  let* action := pfcp_pdr_lookup_uplink in
  xdp_stats_record_action mc_stats action.

Definition downlink_entry_point (mc_stats : StatsMap) : xdp (Z * StatsMap) :=
  let* action := pfcp_pdr_lookup_downlink in
  xdp_stats_record_action mc_stats action.

(** ** Specification: the PDR and the FAR of a packet *)

(** The rule a lookup applies: [None] when no PDR is found, [Some None] when
    the PDR does not match. *)
Definition selected (pdr : option pfcp_pdr_t_) (matches : pfcp_pdr_t_ -> bool) :
    option (option pfcp_pdr_t_) :=
  match pdr with
  | None => None
  | Some p => Some (if matches p then Some p else None)
  end.

Definition uplink_matches (teid : Z) (p : pfcp_pdr_t_) : bool :=
  (outer_header_removal_description p =? OUTER_HEADER_REMOVAL_GTPU_UDP_IPV4) &&
  (source_interface (pdi p) =? INTERFACE_VALUE_ACCESS) && (fteid_teid (pdi p) =? teid).

Definition downlink_matches (ue_ip : Z) (p : pfcp_pdr_t_) : bool :=
  (outer_header_removal_description p =? OUTER_HEADER_REMOVAL_UDP_IPV4) &&
  (source_interface (pdi p) =? INTERFACE_VALUE_CORE) && (ue_ip_address (pdi p) =? ue_ip).

Definition apply_selected (sel : option (option pfcp_pdr_t_)) (direction : Z) : xdp Z :=
  match sel with
  | None => ret XDP_DROP
  | Some None => ret XDP_PASS
  | Some (Some p) => pfcp_far_apply (bpf_map_lookup_elem m_fars (pdr_far_id p)) direction
  end.

Lemma negb_orb3 a b c : negb a || negb b || negb c = negb (a && b && c).
Proof. now destruct a, b, c. Qed.

Lemma access_match_spec p iph teid :
  (pfcp_pdr_match_pdi_access p (Some iph) teid =? 0) = uplink_matches teid p.
Proof.
  unfold pfcp_pdr_match_pdi_access, uplink_matches. rewrite negb_orb3.
  now destruct (_ && _).
Qed.

Lemma pfcp_pdr_lookup_uplink_eq c :
  uninit_i = 0 -> bytes (data c) -> (50 <= length (data c))%nat ->
  let teid := be_dec (field 46 4 (data c)) in
  pfcp_pdr_lookup_uplink c =
  apply_selected (selected (bpf_map_lookup_elem m_teid_pdr teid) (uplink_matches teid))
    UPLINK c.
Proof.
  intros Hi Hb Hl teid. unfold pfcp_pdr_lookup_uplink, check_ptr. xdp_sizes.
  unfold bind at 1, ptr_ok, gets. rewrite (proj2 (Nat.leb_le _ _) Hl).
  unfold bind at 1, load_u32, bind at 1. rewrite load_ok by lia. unfold ret at 1.
  fold (field 46 4 (data c)).
  rewrite htonl_le_dec by (now apply bytes_field || (apply length_field; lia)).
  fold teid. unfold selected.
  destruct (bpf_map_lookup_elem m_teid_pdr teid) as [p|]; [|done].
  unfold pdr_index, bind. rewrite Hi. cbn [Z.eqb]. unfold ret at 1.
  rewrite access_match_spec. now destruct (uplink_matches teid p).
Qed.

Lemma pfcp_pdr_lookup_downlink_eq c :
  uninit_i = 0 -> (42 <= length (data c))%nat ->
  let ue_ip := le_dec (field 30 4 (data c)) in
  pfcp_pdr_lookup_downlink c =
  apply_selected (selected (bpf_map_lookup_elem m_ueip_pdr ue_ip) (downlink_matches ue_ip))
    DOWNLINK c.
Proof.
  intros Hi Hl ue_ip. unfold pfcp_pdr_lookup_downlink, check_ptr. xdp_sizes.
  unfold bind at 1, ptr_ok, gets. rewrite (proj2 (Nat.leb_le _ _) Hl).
  assert (Hld : load_u32 30 c = (Ok ue_ip, c))
    by (unfold load_u32, bind; now rewrite load_ok by lia).
  rewrite (bind_ok _ _ _ _ _ Hld). unfold selected.
  destruct (bpf_map_lookup_elem m_ueip_pdr ue_ip) as [p|]; [|done].
  unfold pdr_index, pfcp_pdr_match_pdi_downlink. rewrite Hi. cbn [Z.eqb].
  rewrite bind_ret_l. cbn [Nat.add]. unfold bind at 1 2. rewrite Hld. unfold ret at 1.
  rewrite negb_orb3. unfold downlink_matches. now destruct (_ && _).
Qed.

Lemma record_keeps_packet st a c : snd (xdp_stats_record_action st a c) = c.
Proof.
  unfold xdp_stats_record_action. destruct (_ <=? _); [done|].
  now destruct (bpf_map_lookup_elem st a).
Qed.

Context `{!XdpHelperLaws DevMap}.

(** ** Properties *)

(** Uplink rule selection: with the index variable at 0, a packet with a
    GTP-U header goes by its TEID (in host order): no PDR for it, dropped; a
    PDR that does not match (outer header removal, source interface, TEID),
    passed; a match, the FAR of that PDR is applied, towards UPLINK; a shorter
    packet is passed. *)
Theorem uplink_lookup_selects c :
  uninit_i = 0 -> bytes (data c) ->
  let teid := be_dec (field 46 4 (data c)) in
  pfcp_pdr_lookup_uplink c =
  if (50 <=? length (data c))%nat
  then apply_selected (selected (bpf_map_lookup_elem m_teid_pdr teid) (uplink_matches teid))
         UPLINK c
  else (Ok XDP_PASS, c).
Proof.
  intros Hi Hb teid. destruct (Nat.leb_spec 50 (length (data c))) as [Hl|Hl].
  - now apply pfcp_pdr_lookup_uplink_eq.
  - unfold pfcp_pdr_lookup_uplink, check_ptr. xdp_sizes.
    unfold bind at 1, ptr_ok, gets. now rewrite (proj2 (Nat.leb_gt _ _) Hl).
Qed.

(** Downlink rule selection, by the destination address of the packet. *)
Theorem downlink_lookup_selects c :
  uninit_i = 0 ->
  let ue_ip := le_dec (field 30 4 (data c)) in
  pfcp_pdr_lookup_downlink c =
  if (42 <=? length (data c))%nat
  then apply_selected
         (selected (bpf_map_lookup_elem m_ueip_pdr ue_ip) (downlink_matches ue_ip))
         DOWNLINK c
  else (Ok XDP_PASS, c).
Proof.
  intros Hi ue_ip. destruct (Nat.leb_spec 42 (length (data c))) as [Hl|Hl].
  - now apply pfcp_pdr_lookup_downlink_eq.
  - unfold pfcp_pdr_lookup_downlink, check_ptr. xdp_sizes.
    unfold bind at 1, ptr_ok, gets. now rewrite (proj2 (Nat.leb_gt _ _) Hl).
Qed.


End Program.

(** ** Witnesses *)

Module SampleSession.

Definition pdr_ul : pfcp_pdr_t_ :=
  mk_pdr 10 1 (mk_pdi INTERFACE_VALUE_ACCESS 100 SampleFar.ue_ip)
    OUTER_HEADER_REMOVAL_GTPU_UDP_IPV4 1.
Definition pdr_dl : pfcp_pdr_t_ :=
  mk_pdr 11 2 (mk_pdi INTERFACE_VALUE_CORE 0 SampleFar.ue_ip)
    OUTER_HEADER_REMOVAL_UDP_IPV4 2.
Definition teid_pdr : hash_map Z pfcp_pdr_t_ := mk_hash_map 10 {[ 100 := pdr_ul ]}.
Definition ueip_pdr : hash_map Z pfcp_pdr_t_ := mk_hash_map 10 {[ SampleFar.ue_ip := pdr_dl ]}.
Definition fars : hash_map Z pfcp_far_t_ :=
  mk_hash_map 10 {[ 1 := SampleFar.uplink_far; 2 := SampleFar.downlink_far ]}.
Definition hdrs : list Z := Sample.ip IPPROTO_UDP ++ Sample.udp GTP_UDP_PORT ++ Sample.gtp.
Definition gpdu : xdp_md := Sample.pkt (SampleFar.frame_eth ++ hdrs ++ SampleFar.packet).

End SampleSession.

Import SampleFar SampleSession.

Example uplink_lookup_selects_witness :
  pfcp_pdr_lookup_uplink version teid_pdr fars arp_table interfaces 0 gpdu =
  pfcp_far_apply version arp_table interfaces (Some uplink_far) UPLINK gpdu.
Proof.
  pose proof (uplink_lookup_selects version teid_pdr fars arp_table interfaces 0 gpdu
                eq_refl ltac:(now apply bytes_bool)) as P.
  exact P.
Defined.

Example downlink_lookup_selects_witness :
  pfcp_pdr_lookup_downlink version ueip_pdr fars arp_table interfaces 0 (Sample.pkt [1; 2]) =
  (Ok XDP_PASS, Sample.pkt [1; 2]).
Proof.
  exact (downlink_lookup_selects version ueip_pdr fars arp_table interfaces 0
           (Sample.pkt [1; 2]) eq_refl).
Defined.

