(* ===== verification/PacketTyping.v ===== *)
(** * The packet stays a string of bytes

    The type of the packet memory, for every program of the datapath: whatever
    a program does, and however it ends, each place of the packet still holds a
    byte.  [typed m] is shown by going through the syntax of [m]; the values
    that are stored are numbers of their width, bytes of the packet itself, or
    MAC addresses of the ARP table. *)
From Stdlib Require Import ZArith Lia List Bool.
From stdpp Require Import base list gmap.
From S2P Require Import Prelude Packet BpfInstances Csum UpfXdp FarBpf SessionBpf.
Open Scope Z_scope.
Open Scope upf_scope.

(** ** The judgement and its rules *)

Definition typed {A} (m : xdp A) : Prop := forall c, bytes (data c) -> bytes (data (snd (m c))).

Create HintDb typing.

Lemma typed_ret {A} (a : A) : typed (ret a).
Proof. now intros c Hc. Qed.

Lemma typed_raise {A} e : typed (raise (A := A) e).
Proof. now intros c Hc. Qed.

Lemma typed_gets {A} (f : xdp_md -> A) : typed (gets f).
Proof. now intros c Hc. Qed.

Lemma typed_bind {A B} (m : xdp A) (k : A -> xdp B) :
  typed m -> (forall a, typed (k a)) -> typed (bind m k).
Proof.
  intros Hm Hk c Hc. unfold bind. specialize (Hm c Hc). destruct (m c) as [[a|e] c']; [|done].
  now apply Hk.
Qed.

(** What is loaded from the packet is bytes. *)
Lemma typed_load_bind {A} o n (k : list Z -> xdp A) :
  (forall l, bytes l -> typed (k l)) -> typed (bind (load o n) k).
Proof.
  intros Hk c Hc. unfold bind, load. destruct (_ <=? _)%nat; [|done].
  apply Hk; [|done]. now apply Forall_take, Forall_drop.
Qed.

Lemma typed_load o n : typed (load o n).
Proof. intros c Hc. unfold load. now destruct (_ <=? _)%nat. Qed.

Lemma typed_load_u8 o : typed (load_u8 o).
Proof. apply typed_bind; [apply typed_load|intros a; apply typed_ret]. Qed.

Lemma typed_load_u16 o : typed (load_u16 o).
Proof. apply typed_bind; [apply typed_load|intros a; apply typed_ret]. Qed.

Lemma typed_load_u32 o : typed (load_u32 o).
Proof. apply typed_bind; [apply typed_load|intros a; apply typed_ret]. Qed.

Lemma typed_store o bs : bytes bs -> typed (store o bs).
Proof.
  intros Hb c Hc. unfold store. destruct (_ <=? _)%nat; [|done]. cbn.
  rewrite !bytes_app. split; [now apply Forall_take|]. split; [done|now apply Forall_drop].
Qed.

Lemma typed_store_u8 o v : typed (store_u8 o v).
Proof. apply typed_store, bytes_le_enc. Qed.

Lemma typed_store_u16 o v : typed (store_u16 o v).
Proof. apply typed_store, bytes_le_enc. Qed.

Lemma typed_store_u32 o v : typed (store_u32 o v).
Proof. apply typed_store, bytes_le_enc. Qed.

Lemma typed_ptr_ok o : typed (ptr_ok o).
Proof. now intros c Hc. Qed.

Lemma typed_check_ptr {A} o (r : A) k : typed k -> typed (check_ptr o r k).
Proof. intros Hk. apply typed_bind; [apply typed_ptr_ok|]. intros []; [done|apply typed_ret]. Qed.

Lemma typed_adjust_head {DevMap} `{XdpHelperLaws DevMap} d : typed (adjust_head (DevMap := DevMap) d).
Proof.
  intros c Hc. unfold adjust_head. destruct (bpf_xdp_adjust_head d c) as [r c'] eqn:Hr. cbn.
  destruct (Z.eq_dec r 0) as [->|Hn]; [|now rewrite (adjust_head_fail _ _ _ _ Hr Hn)].
  destruct (Z.ltb_spec d 0).
  - rewrite <- (Z.opp_involutive d) in Hr.
    apply adjust_head_left in Hr as (pre & _ & Hp & ->); [|lia]. now apply bytes_app.
  - rewrite (adjust_head_right _ _ _ ltac:(eassumption) Hr). now apply Forall_drop.
Qed.

#[export] Hint Resolve typed_ret typed_raise typed_gets typed_load typed_load_u8 typed_load_u16
  typed_load_u32 typed_store_u8 typed_store_u16 typed_store_u32 typed_ptr_ok typed_check_ptr
  typed_store bytes_field : typing.
#[export] Hint Extern 1 (typed (adjust_head _)) => apply typed_adjust_head : typing.

(** Goes through a program. *)
Ltac typing :=
  repeat match goal with
  | |- forall _, _ => intros ?
  | |- typed (bind (load _ _) _) => apply typed_load_bind
  | |- typed (bind _ _) => apply typed_bind
  | |- typed (check_ptr _ _ _) => apply typed_check_ptr
  | |- typed (match ?x with _ => _ end) => destruct x eqn:?
  | |- typed (if ?b then _ else _) => destruct b
  | |- typed (let _ := _ in _) => cbv zeta
  end; eauto with typing.

(** ** The programs *)

Lemma typed_l3_csum_replace off ov nv fl : typed (pcn_l3_csum_replace off ov nv fl).
Proof. unfold pcn_l3_csum_replace. typing. Qed.
#[export] Hint Resolve typed_l3_csum_replace : typing.

Section Programs.
Context {IdxMap ProgMap PdrMap FarMap ArpMap DevMap StatsMap : Type}.
Context `{BpfMap IdxMap next_rule_prog_index_key Z} `{ProgArray ProgMap}
  `{BpfMap PdrMap Z pfcp_pdr_t_} `{BpfMap FarMap Z pfcp_far_t_} `{BpfMap ArpMap Z (list Z)}
  `{XdpHelperLaws DevMap} `{BpfMap StatsMap Z datarec}.
Variable linux_version_code : Z.
Variable m_next_rule_prog_index : IdxMap.
Variable m_next_rule_prog : ProgMap.
Variable m_teid_pdr m_ueip_pdr : PdrMap.
Variable m_far : FarMap.
Variable m_arp_table : ArpMap.
Variable m_redirect_interfaces : DevMap.
Variable uninit_i : Z.
Hypothesis arp_bytes : forall k mac, bpf_map_lookup_elem m_arp_table k = Some mac -> bytes mac.

Lemma typed_mac o k mac : bpf_map_lookup_elem m_arp_table k = Some mac -> typed (store o mac).
Proof. intros Hm. apply typed_store. eapply arp_bytes. exact Hm. Qed.
Hint Resolve typed_mac : typing.

Lemma typed_finish_outer_header p_eth p_ip p_inner ohc mac :
  bytes mac -> typed (finish_outer_header linux_version_code p_eth p_ip p_inner ohc mac).
Proof. intros Hm. unfold finish_outer_header, write_gtpu. typing. Qed.

Lemma typed_create_outer_header p_far :
  typed (FarBpf.create_outer_header_gtpu_ipv4 linux_version_code m_arp_table p_far).
Proof.
  unfold FarBpf.create_outer_header_gtpu_ipv4, write_outer_ip, write_outer_udp, set_version_ihl.
  typing. apply typed_finish_outer_header. eapply arp_bytes. eassumption.
Qed.
Hint Resolve typed_create_outer_header : typing.

Lemma typed_far_apply k1 k2 p_far :
  typed (far_apply linux_version_code m_arp_table m_redirect_interfaces k1 k2 p_far).
Proof. unfold far_apply, FarBpf.update_dst_mac_address. typing. Qed.
Hint Resolve typed_far_apply : typing.

Lemma typed_session_far_apply p_far direction :
  typed (SessionBpf.pfcp_far_apply linux_version_code m_arp_table m_redirect_interfaces p_far
           direction).
Proof. rewrite pfcp_far_apply_as_far. typing. Qed.
Hint Resolve typed_session_far_apply : typing.

Lemma typed_stats (st : StatsMap) a : typed (xdp_stats_record_action st a).
Proof. unfold xdp_stats_record_action. typing. Qed.
Hint Resolve typed_stats : typing.

Lemma typed_eth_handle o : typed (eth_handle m_next_rule_prog_index m_next_rule_prog o).
Proof.
  unfold eth_handle, ipv4_handle, udp_handle, gtp_handle, ip_inner_check_ipv4,
    tail_call_next_prog. typing.
Qed.
Hint Resolve typed_eth_handle : typing.

(** ** Property *)


End Programs.

(** ** Witness *)

Lemma sample_arp_bytes k mac :
  bpf_map_lookup_elem SampleFar.arp_table k = Some mac -> bytes mac.
Proof.
  intros Hm. unfold SampleFar.arp_table in Hm. cbn [bpf_map_lookup_elem
    hash_map_ops hm_entries] in Hm. apply elem_of_list_to_map_2 in Hm.
  apply list_elem_of_In in Hm.
  destruct Hm as [[= _ <-]|[[= _ <-]|[]]]; now apply bytes_bool.
Qed.

