(* ===== verification/PfcpTypes.v ===== *)
(** * PFCP information elements (src/src/oai/common/3gpp_29.244.h)

    The structures of 3GPP TS 29.244 as the program keeps them: one record per
    C structure, a single-bit field as a [bool], other integers as [Z], a
    string and an IPv6 address as their bytes.  An [in_addr] is the 32-bit
    number in memory, which holds the address in network order. *)
From Stdlib Require Import ZArith Lia List Bool.
From stdpp Require Import base list gmap.
From S2P Require Import Prelude.
Open Scope Z_scope.

Record imsi_t : Type := mk_imsi_t {
  imsi_b : list Z;
  imsi_num_digits : Z
}.
#[export] Instance imsi_t_eq_dec : EqDecision imsi_t.
Proof. solve_decision. Defined.
#[export] Instance imsi_t_inhabited : Inhabited imsi_t := populate (mk_imsi_t (repeat 0 8) 0).

Record msisdn_t : Type := mk_msisdn_t {
  msisdn_b : list Z;
  msisdn_num_digits : Z
}.
#[export] Instance msisdn_t_eq_dec : EqDecision msisdn_t.
Proof. solve_decision. Defined.
#[export] Instance msisdn_t_inhabited : Inhabited msisdn_t := populate (mk_msisdn_t (repeat 0
    8) 0).

Record c_tag_t : Type := mk_c_tag_t {
  c_tag_spare : bool;
  c_tag_vid : bool;
  c_tag_dei : bool;
  c_tag_pcp : bool;
  c_tag_dei_flag : bool;
  c_tag_pcp_value : Z;
  c_tag_cvid_value : Z
}.
#[export] Instance c_tag_t_eq_dec : EqDecision c_tag_t.
Proof. solve_decision. Defined.
#[export] Instance c_tag_t_inhabited : Inhabited c_tag_t := populate (mk_c_tag_t false false
    false false false 0 0).

Record s_tag_t : Type := mk_s_tag_t {
  s_tag_spare : bool;
  s_tag_vid : bool;
  s_tag_dei : bool;
  s_tag_pcp : bool;
  s_tag_dei_flag : bool;
  s_tag_pcp_value : Z;
  s_tag_svid_value : Z
}.
#[export] Instance s_tag_t_eq_dec : EqDecision s_tag_t.
Proof. solve_decision. Defined.
#[export] Instance s_tag_t_inhabited : Inhabited s_tag_t := populate (mk_s_tag_t false false
    false false false 0 0).

Record ethertype_t : Type := mk_ethertype_t {
  ethertype : Z
}.
#[export] Instance ethertype_t_eq_dec : EqDecision ethertype_t.
Proof. solve_decision. Defined.
#[export] Instance ethertype_t_inhabited : Inhabited ethertype_t := populate (mk_ethertype_t 0).

Record ethernet_filter_id_t : Type := mk_ethernet_filter_id_t {
  ethernet_filter_id : Z
}.
#[export] Instance ethernet_filter_id_t_eq_dec : EqDecision ethernet_filter_id_t.
Proof. solve_decision. Defined.
#[export] Instance ethernet_filter_id_t_inhabited : Inhabited ethernet_filter_id_t := populate
    (mk_ethernet_filter_id_t 0).

Record ethernet_filter_properties_t : Type := mk_ethernet_filter_properties_t {
  ethernet_filter_properties_spare : Z;
  ethernet_filter_properties_bide : bool
}.
#[export] Instance ethernet_filter_properties_t_eq_dec : EqDecision
    ethernet_filter_properties_t.
Proof. solve_decision. Defined.
#[export] Instance ethernet_filter_properties_t_inhabited : Inhabited
    ethernet_filter_properties_t := populate (mk_ethernet_filter_properties_t 0 false).

Record mac_address_t : Type := mk_mac_address_t {
  mac_address_spare : Z;
  mac_address_udes : bool;
  mac_address_usou : bool;
  mac_address_dest : Z;
  mac_address_sour : Z;
  mac_address_source_mac_address : list Z;
  mac_address_destination_mac_address : list Z;
  mac_address_upper_source_mac_address : list Z;
  mac_address_upper_destination_mac_address : list Z
}.
#[export] Instance mac_address_t_eq_dec : EqDecision mac_address_t.
Proof. solve_decision. Defined.
#[export] Instance mac_address_t_inhabited : Inhabited mac_address_t := populate
    (mk_mac_address_t 0 false false 0 0 (repeat 0 6) (repeat 0 6) (repeat 0 6) (repeat 0 6)).

Record cause_t : Type := mk_cause_t {
  cause_cause_value : Z
}.
#[export] Instance cause_t_eq_dec : EqDecision cause_t.
Proof. solve_decision. Defined.
#[export] Instance cause_t_inhabited : Inhabited cause_t := populate (mk_cause_t 0).

Record source_interface_t : Type := mk_source_interface_t {
  source_interface_interface_value : Z
}.
#[export] Instance source_interface_t_eq_dec : EqDecision source_interface_t.
Proof. solve_decision. Defined.
#[export] Instance source_interface_t_inhabited : Inhabited source_interface_t := populate
    (mk_source_interface_t 0).

Record fteid_t : Type := mk_fteid_t {
  fteid_chid : bool;
  fteid_ch : bool;
  fteid_v4 : bool;
  fteid_v6 : bool;
  fteid_teid : Z;
  fteid_ipv4_address : Z;
  fteid_ipv6_address : list Z;
  fteid_choose_id : Z
}.
#[export] Instance fteid_t_eq_dec : EqDecision fteid_t.
Proof. solve_decision. Defined.
#[export] Instance fteid_t_inhabited : Inhabited fteid_t := populate (mk_fteid_t false false
    false false 0 0 (repeat 0 16) 0).

Record network_instance_t : Type := mk_network_instance_t {
  network_instance : list Z
}.
#[export] Instance network_instance_t_eq_dec : EqDecision network_instance_t.
Proof. solve_decision. Defined.
#[export] Instance network_instance_t_inhabited : Inhabited network_instance_t := populate
    (mk_network_instance_t []).

Record sdf_filter_t : Type := mk_sdf_filter_t {
  sdf_filter_spare : Z;
  sdf_filter_bid : bool;
  sdf_filter_fl : bool;
  sdf_filter_spi : bool;
  sdf_filter_ttc : bool;
  sdf_filter_fd : bool;
  sdf_filter_length_of_flow_description : Z;
  sdf_filter_flow_description : list Z;
  sdf_filter_tos_traffic_class : list Z;
  sdf_filter_security_parameter_index : list Z;
  sdf_filter_flow_label : list Z;
  sdf_filter_sdf_filter_id : Z
}.
#[export] Instance sdf_filter_t_eq_dec : EqDecision sdf_filter_t.
Proof. solve_decision. Defined.
#[export] Instance sdf_filter_t_inhabited : Inhabited sdf_filter_t := populate (mk_sdf_filter_t
    0 false false false false false 0 [] [] [] [] 0).

Record application_id_t : Type := mk_application_id_t {
  application_id : list Z
}.
#[export] Instance application_id_t_eq_dec : EqDecision application_id_t.
Proof. solve_decision. Defined.
#[export] Instance application_id_t_inhabited : Inhabited application_id_t := populate
    (mk_application_id_t []).

Record gate_status_t : Type := mk_gate_status_t {
  gate_status_ul_gate : Z;
  gate_status_dl_gate : Z
}.
#[export] Instance gate_status_t_eq_dec : EqDecision gate_status_t.
Proof. solve_decision. Defined.
#[export] Instance gate_status_t_inhabited : Inhabited gate_status_t := populate
    (mk_gate_status_t 0 0).

Record mbr_t : Type := mk_mbr_t {
  mbr_ul_mbr : Z;
  mbr_dl_mbr : Z
}.
#[export] Instance mbr_t_eq_dec : EqDecision mbr_t.
Proof. solve_decision. Defined.
#[export] Instance mbr_t_inhabited : Inhabited mbr_t := populate (mk_mbr_t 0 0).

Record gbr_t : Type := mk_gbr_t {
  gbr_ul_gbr : Z;
  gbr_dl_gbr : Z
}.
#[export] Instance gbr_t_eq_dec : EqDecision gbr_t.
Proof. solve_decision. Defined.
#[export] Instance gbr_t_inhabited : Inhabited gbr_t := populate (mk_gbr_t 0 0).

Record qer_correlation_id_t : Type := mk_qer_correlation_id_t {
  qer_correlation_id : Z
}.
#[export] Instance qer_correlation_id_t_eq_dec : EqDecision qer_correlation_id_t.
Proof. solve_decision. Defined.
#[export] Instance qer_correlation_id_t_inhabited : Inhabited qer_correlation_id_t := populate
    (mk_qer_correlation_id_t 0).

Record precedence_t : Type := mk_precedence_t {
  precedence : Z
}.
#[export] Instance precedence_t_eq_dec : EqDecision precedence_t.
Proof. solve_decision. Defined.
#[export] Instance precedence_t_inhabited : Inhabited precedence_t := populate (mk_precedence_t
    0).

Record transport_level_marking_t : Type := mk_transport_level_marking_t {
  transport_level_marking : list Z
}.
#[export] Instance transport_level_marking_t_eq_dec : EqDecision transport_level_marking_t.
Proof. solve_decision. Defined.
#[export] Instance transport_level_marking_t_inhabited : Inhabited transport_level_marking_t :=
    populate (mk_transport_level_marking_t []).

Record volume_threshold_t : Type := mk_volume_threshold_t {
  volume_threshold_tovol : bool;
  volume_threshold_ulvol : bool;
  volume_threshold_dlvol : bool;
  volume_threshold_spare : Z;
  volume_threshold_total_volume : Z;
  volume_threshold_uplink_volume : Z;
  volume_threshold_downlink_volume : Z
}.
#[export] Instance volume_threshold_t_eq_dec : EqDecision volume_threshold_t.
Proof. solve_decision. Defined.
#[export] Instance volume_threshold_t_inhabited : Inhabited volume_threshold_t := populate
    (mk_volume_threshold_t false false false 0 0 0 0).

Record time_threshold_t : Type := mk_time_threshold_t {
  time_threshold : Z
}.
#[export] Instance time_threshold_t_eq_dec : EqDecision time_threshold_t.
Proof. solve_decision. Defined.
#[export] Instance time_threshold_t_inhabited : Inhabited time_threshold_t := populate
    (mk_time_threshold_t 0).

Record monitoring_time_t : Type := mk_monitoring_time_t {
  monitoring_time : Z
}.
#[export] Instance monitoring_time_t_eq_dec : EqDecision monitoring_time_t.
Proof. solve_decision. Defined.
#[export] Instance monitoring_time_t_inhabited : Inhabited monitoring_time_t := populate
    (mk_monitoring_time_t 0).

Record subsequent_time_threshold_t : Type := mk_subsequent_time_threshold_t {
  subsequent_time_threshold : Z
}.
#[export] Instance subsequent_time_threshold_t_eq_dec : EqDecision subsequent_time_threshold_t.
Proof. solve_decision. Defined.
#[export] Instance subsequent_time_threshold_t_inhabited : Inhabited
    subsequent_time_threshold_t := populate (mk_subsequent_time_threshold_t 0).

Record inactivity_detection_time_t : Type := mk_inactivity_detection_time_t {
  inactivity_detection_time : Z
}.
#[export] Instance inactivity_detection_time_t_eq_dec : EqDecision inactivity_detection_time_t.
Proof. solve_decision. Defined.
#[export] Instance inactivity_detection_time_t_inhabited : Inhabited
    inactivity_detection_time_t := populate (mk_inactivity_detection_time_t 0).

Record redirect_information_t : Type := mk_redirect_information_t {
  redirect_information_redirect_address_type : Z;
  redirect_information_spare : Z;
  redirect_information_redirect_server_address_length : Z
}.
#[export] Instance redirect_information_t_eq_dec : EqDecision redirect_information_t.
Proof. solve_decision. Defined.
#[export] Instance redirect_information_t_inhabited : Inhabited redirect_information_t :=
    populate (mk_redirect_information_t 0 0 0).

Record report_type_t : Type := mk_report_type_t {
  report_type_upir : bool;
  report_type_erir : bool;
  report_type_usar : bool;
  report_type_dldr : bool;
  report_type_spare : Z
}.
#[export] Instance report_type_t_eq_dec : EqDecision report_type_t.
Proof. solve_decision. Defined.
#[export] Instance report_type_t_inhabited : Inhabited report_type_t := populate
    (mk_report_type_t false false false false 0).

Record offending_ie_t : Type := mk_offending_ie_t {
  offending_ie : Z
}.
#[export] Instance offending_ie_t_eq_dec : EqDecision offending_ie_t.
Proof. solve_decision. Defined.
#[export] Instance offending_ie_t_inhabited : Inhabited offending_ie_t := populate
    (mk_offending_ie_t 0).

Record forwarding_policy_t : Type := mk_forwarding_policy_t {
  forwarding_policy_forwarding_policy_identifier_length : Z;
  forwarding_policy_forwarding_policy_identifier : list Z
}.
#[export] Instance forwarding_policy_t_eq_dec : EqDecision forwarding_policy_t.
Proof. solve_decision. Defined.
#[export] Instance forwarding_policy_t_inhabited : Inhabited forwarding_policy_t := populate
    (mk_forwarding_policy_t 0 []).

Record destination_interface_t : Type := mk_destination_interface_t {
  destination_interface_interface_value : Z
}.
#[export] Instance destination_interface_t_eq_dec : EqDecision destination_interface_t.
Proof. solve_decision. Defined.
#[export] Instance destination_interface_t_inhabited : Inhabited destination_interface_t :=
    populate (mk_destination_interface_t 0).

Record apply_action_t : Type := mk_apply_action_t {
  apply_action_spare : Z;
  apply_action_dupl : bool;
  apply_action_nocp : bool;
  apply_action_buff : bool;
  apply_action_forw : bool;
  apply_action_drop : bool
}.
#[export] Instance apply_action_t_eq_dec : EqDecision apply_action_t.
Proof. solve_decision. Defined.
#[export] Instance apply_action_t_inhabited : Inhabited apply_action_t := populate
    (mk_apply_action_t 0 false false false false false).

Record pfcpsmreq_flags_t : Type := mk_pfcpsmreq_flags_t {
  pfcpsmreq_flags_spare : Z;
  pfcpsmreq_flags_qaurr : bool;
  pfcpsmreq_flags_sndem : bool;
  pfcpsmreq_flags_drobu : bool
}.
#[export] Instance pfcpsmreq_flags_t_eq_dec : EqDecision pfcpsmreq_flags_t.
Proof. solve_decision. Defined.
#[export] Instance pfcpsmreq_flags_t_inhabited : Inhabited pfcpsmreq_flags_t := populate
    (mk_pfcpsmreq_flags_t 0 false false false).

Record pdr_id_t : Type := mk_pdr_id_t {
  pdr_id_rule_id : Z
}.
#[export] Instance pdr_id_t_eq_dec : EqDecision pdr_id_t.
Proof. solve_decision. Defined.
#[export] Instance pdr_id_t_inhabited : Inhabited pdr_id_t := populate (mk_pdr_id_t 0).

Record fseid_t : Type := mk_fseid_t {
  fseid_spare : Z;
  fseid_v4 : bool;
  fseid_v6 : bool;
  fseid_seid : Z;
  fseid_ipv4_address : Z;
  fseid_ipv6_address : list Z
}.
#[export] Instance fseid_t_eq_dec : EqDecision fseid_t.
Proof. solve_decision. Defined.
#[export] Instance fseid_t_inhabited : Inhabited fseid_t := populate (mk_fseid_t 0 false false
    0 0 (repeat 0 16)).

Record node_id_t : Type := mk_node_id_t {
  node_id_spare : Z;
  node_id_node_id_type : Z;
  node_id_u1 : list Z;
  node_id_fqdn : list Z
}.
#[export] Instance node_id_t_eq_dec : EqDecision node_id_t.
Proof. solve_decision. Defined.
#[export] Instance node_id_t_inhabited : Inhabited node_id_t := populate (mk_node_id_t 0 0
    (repeat 0 16) []).

Record urr_id_t : Type := mk_urr_id_t {
  urr_id : Z
}.
#[export] Instance urr_id_t_eq_dec : EqDecision urr_id_t.
Proof. solve_decision. Defined.
#[export] Instance urr_id_t_inhabited : Inhabited urr_id_t := populate (mk_urr_id_t 0).

Record outer_header_creation_t : Type := mk_outer_header_creation_t {
  outer_header_creation_outer_header_creation_description : Z;
  outer_header_creation_teid : Z;
  outer_header_creation_ipv4_address : Z;
  outer_header_creation_ipv6_address : list Z;
  outer_header_creation_port_number : Z
}.
#[export] Instance outer_header_creation_t_eq_dec : EqDecision outer_header_creation_t.
Proof. solve_decision. Defined.
#[export] Instance outer_header_creation_t_inhabited : Inhabited outer_header_creation_t :=
    populate (mk_outer_header_creation_t 0 0 0 (repeat 0 16) 0).

Record bar_id_t : Type := mk_bar_id_t {
  bar_id : Z
}.
#[export] Instance bar_id_t_eq_dec : EqDecision bar_id_t.
Proof. solve_decision. Defined.
#[export] Instance bar_id_t_inhabited : Inhabited bar_id_t := populate (mk_bar_id_t 0).

Record cp_function_features_t : Type := mk_cp_function_features_t {
  cp_function_features_spare : Z;
  cp_function_features_ovrl : bool;
  cp_function_features_load : bool
}.
#[export] Instance cp_function_features_t_eq_dec : EqDecision cp_function_features_t.
Proof. solve_decision. Defined.
#[export] Instance cp_function_features_t_inhabited : Inhabited cp_function_features_t :=
    populate (mk_cp_function_features_t 0 false false).

Record ue_ip_address_t : Type := mk_ue_ip_address_t {
  ue_ip_address_ipv6d : bool;
  ue_ip_address_sd : bool;
  ue_ip_address_v4 : bool;
  ue_ip_address_v6 : bool;
  ue_ip_address_ipv4_address : Z;
  ue_ip_address_ipv6_address : list Z;
  ue_ip_address_ipv6_prefix_delegation_bits : Z
}.
#[export] Instance ue_ip_address_t_eq_dec : EqDecision ue_ip_address_t.
Proof. solve_decision. Defined.
#[export] Instance ue_ip_address_t_inhabited : Inhabited ue_ip_address_t := populate
    (mk_ue_ip_address_t false false false false 0 (repeat 0 16) 0).

Record outer_header_removal_t : Type := mk_outer_header_removal_t {
  outer_header_removal_outer_header_removal_description : Z
}.
#[export] Instance outer_header_removal_t_eq_dec : EqDecision outer_header_removal_t.
Proof. solve_decision. Defined.
#[export] Instance outer_header_removal_t_inhabited : Inhabited outer_header_removal_t :=
    populate (mk_outer_header_removal_t 0).

Record recovery_time_stamp_t : Type := mk_recovery_time_stamp_t {
  recovery_time_stamp : Z
}.
#[export] Instance recovery_time_stamp_t_eq_dec : EqDecision recovery_time_stamp_t.
Proof. solve_decision. Defined.
#[export] Instance recovery_time_stamp_t_inhabited : Inhabited recovery_time_stamp_t :=
    populate (mk_recovery_time_stamp_t 0).

Record header_enrichment_t : Type := mk_header_enrichment_t {
  header_enrichment_spare : Z;
  header_enrichment_header_type : Z;
  header_enrichment_lenght_of_header_field_name : Z;
  header_enrichment_header_field_name : list Z;
  header_enrichment_lenght_of_header_field_value : Z;
  header_enrichment_header_field_value : list Z
}.
#[export] Instance header_enrichment_t_eq_dec : EqDecision header_enrichment_t.
Proof. solve_decision. Defined.
#[export] Instance header_enrichment_t_inhabited : Inhabited header_enrichment_t := populate
    (mk_header_enrichment_t 0 0 0 [] 0 []).

Record node_report_type_t : Type := mk_node_report_type_t {
  node_report_type_spare : Z;
  node_report_type_upfr : bool
}.
#[export] Instance node_report_type_t_eq_dec : EqDecision node_report_type_t.
Proof. solve_decision. Defined.
#[export] Instance node_report_type_t_inhabited : Inhabited node_report_type_t := populate
    (mk_node_report_type_t 0 false).

Record activate_predefined_rules_t : Type := mk_activate_predefined_rules_t {
  activate_predefined_rules_predefined_rules_name : list Z
}.
#[export] Instance activate_predefined_rules_t_eq_dec : EqDecision activate_predefined_rules_t.
Proof. solve_decision. Defined.
#[export] Instance activate_predefined_rules_t_inhabited : Inhabited
    activate_predefined_rules_t := populate (mk_activate_predefined_rules_t []).

Record deactivate_predefined_rules_t : Type := mk_deactivate_predefined_rules_t {
  deactivate_predefined_rules_predefined_rules_name : list Z
}.
#[export] Instance deactivate_predefined_rules_t_eq_dec : EqDecision
    deactivate_predefined_rules_t.
Proof. solve_decision. Defined.
#[export] Instance deactivate_predefined_rules_t_inhabited : Inhabited
    deactivate_predefined_rules_t := populate (mk_deactivate_predefined_rules_t []).

Record far_id_t : Type := mk_far_id_t {
  far_id : Z
}.
#[export] Instance far_id_t_eq_dec : EqDecision far_id_t.
Proof. solve_decision. Defined.
#[export] Instance far_id_t_inhabited : Inhabited far_id_t := populate (mk_far_id_t 0).

Record qer_id_t : Type := mk_qer_id_t {
  qer_id : Z
}.
#[export] Instance qer_id_t_eq_dec : EqDecision qer_id_t.
Proof. solve_decision. Defined.
#[export] Instance qer_id_t_inhabited : Inhabited qer_id_t := populate (mk_qer_id_t 0).

Record failed_rule_id_t : Type := mk_failed_rule_id_t {
  failed_rule_id_spare : Z;
  failed_rule_id_rule_id_type : Z;
  failed_rule_id_rule_id_value : Z
}.
#[export] Instance failed_rule_id_t_eq_dec : EqDecision failed_rule_id_t.
Proof. solve_decision. Defined.
#[export] Instance failed_rule_id_t_inhabited : Inhabited failed_rule_id_t := populate
    (mk_failed_rule_id_t 0 0 0).

Record user_plane_inactivity_timer_t : Type := mk_user_plane_inactivity_timer_t {
  user_plane_inactivity_timer : Z
}.
#[export] Instance user_plane_inactivity_timer_t_eq_dec : EqDecision
    user_plane_inactivity_timer_t.
Proof. solve_decision. Defined.
#[export] Instance user_plane_inactivity_timer_t_inhabited : Inhabited
    user_plane_inactivity_timer_t := populate (mk_user_plane_inactivity_timer_t 0).

Record qfi_t : Type := mk_qfi_t {
  qfi_spare : Z;
  qfi : Z
}.
#[export] Instance qfi_t_eq_dec : EqDecision qfi_t.
Proof. solve_decision. Defined.
#[export] Instance qfi_t_inhabited : Inhabited qfi_t := populate (mk_qfi_t 0 0).

Record traffic_endpoint_id_t : Type := mk_traffic_endpoint_id_t {
  traffic_endpoint_id : Z
}.
#[export] Instance traffic_endpoint_id_t_eq_dec : EqDecision traffic_endpoint_id_t.
Proof. solve_decision. Defined.
#[export] Instance traffic_endpoint_id_t_inhabited : Inhabited traffic_endpoint_id_t :=
    populate (mk_traffic_endpoint_id_t 0).

Record proxying_t : Type := mk_proxying_t {
  proxying_spare : Z;
  proxying_ins : bool;
  proxying_arp : bool
}.
#[export] Instance proxying_t_eq_dec : EqDecision proxying_t.
Proof. solve_decision. Defined.
#[export] Instance proxying_t_inhabited : Inhabited proxying_t := populate (mk_proxying_t 0
    false false).

Record framed_route_t : Type := mk_framed_route_t {
  framed_route : list Z
}.
#[export] Instance framed_route_t_eq_dec : EqDecision framed_route_t.
Proof. solve_decision. Defined.
#[export] Instance framed_route_t_inhabited : Inhabited framed_route_t := populate
    (mk_framed_route_t []).

Record framed_routing_t : Type := mk_framed_routing_t {
  framed_routing : Z
}.
#[export] Instance framed_routing_t_eq_dec : EqDecision framed_routing_t.
Proof. solve_decision. Defined.
#[export] Instance framed_routing_t_inhabited : Inhabited framed_routing_t := populate
    (mk_framed_routing_t 0).

Record framed_ipv6_route_t : Type := mk_framed_ipv6_route_t {
  framed_ipv6_route : list Z
}.
#[export] Instance framed_ipv6_route_t_eq_dec : EqDecision framed_ipv6_route_t.
Proof. solve_decision. Defined.
#[export] Instance framed_ipv6_route_t_inhabited : Inhabited framed_ipv6_route_t := populate
    (mk_framed_ipv6_route_t []).

Record subsequent_volume_threshold_t : Type := mk_subsequent_volume_threshold_t {
  subsequent_volume_threshold_tovol : bool;
  subsequent_volume_threshold_ulvol : bool;
  subsequent_volume_threshold_dlvol : bool;
  subsequent_volume_threshold_spare : Z;
  subsequent_volume_threshold_total_volume : Z;
  subsequent_volume_threshold_uplink_volume : Z;
  subsequent_volume_threshold_downlink_volume : Z
}.
#[export] Instance subsequent_volume_threshold_t_eq_dec : EqDecision
    subsequent_volume_threshold_t.
Proof. solve_decision. Defined.
#[export] Instance subsequent_volume_threshold_t_inhabited : Inhabited
    subsequent_volume_threshold_t := populate (mk_subsequent_volume_threshold_t false false
    false 0 0 0 0).

Record reporting_triggers_t : Type := mk_reporting_triggers_t {
  reporting_triggers_liusa : bool;
  reporting_triggers_droth : bool;
  reporting_triggers_stop : bool;
  reporting_triggers_start : bool;
  reporting_triggers_quhti : bool;
  reporting_triggers_timth : bool;
  reporting_triggers_volth : bool;
  reporting_triggers_perio : bool;
  reporting_triggers_spare1 : bool;
  reporting_triggers_spare2 : bool;
  reporting_triggers_spare3 : bool;
  reporting_triggers_eveth : bool;
  reporting_triggers_macar : bool;
  reporting_triggers_envcl : bool;
  reporting_triggers_timqu : bool;
  reporting_triggers_volqu : bool
}.
#[export] Instance reporting_triggers_t_eq_dec : EqDecision reporting_triggers_t.
Proof. solve_decision. Defined.
#[export] Instance reporting_triggers_t_inhabited : Inhabited reporting_triggers_t := populate
    (mk_reporting_triggers_t false false false false false false false false false false false
    false false false false false).

Record up_function_features_s : Type := mk_up_function_features_s {
  up_function_features_bucp : bool;
  up_function_features_ddnd : bool;
  up_function_features_dlbd : bool;
  up_function_features_trst : bool;
  up_function_features_ftup : bool;
  up_function_features_pfdm : bool;
  up_function_features_heeu : bool;
  up_function_features_treu : bool;
  up_function_features_empu : bool;
  up_function_features_pdiu : bool;
  up_function_features_udbc : bool;
  up_function_features_quoac : bool;
  up_function_features_trace : bool;
  up_function_features_frrt : bool;
  up_function_features_spare : Z
}.
#[export] Instance up_function_features_s_eq_dec : EqDecision up_function_features_s.
Proof. solve_decision. Defined.
#[export] Instance up_function_features_s_inhabited : Inhabited up_function_features_s :=
    populate (mk_up_function_features_s false false false false false false false false false
    false false false false false 0).

Record user_plane_ip_resource_information_t : Type := mk_user_plane_ip_resource_information_t {
  user_plane_ip_resource_information_spare : bool;
  user_plane_ip_resource_information_assosi : bool;
  user_plane_ip_resource_information_assoni : bool;
  user_plane_ip_resource_information_teidri : Z;
  user_plane_ip_resource_information_v6 : bool;
  user_plane_ip_resource_information_v4 : bool;
  user_plane_ip_resource_information_teid_range : Z;
  user_plane_ip_resource_information_ipv4_address : Z;
  user_plane_ip_resource_information_ipv6_address : list Z;
  user_plane_ip_resource_information_network_instance : Z;
  user_plane_ip_resource_information_source_interface : Z
}.
#[export] Instance user_plane_ip_resource_information_t_eq_dec : EqDecision
    user_plane_ip_resource_information_t.
Proof. solve_decision. Defined.
#[export] Instance user_plane_ip_resource_information_t_inhabited : Inhabited
    user_plane_ip_resource_information_t := populate (mk_user_plane_ip_resource_information_t
    false false false 0 false false 0 0 (repeat 0 16) 0 0).

Record user_id_t : Type := mk_user_id_t {
  user_id_spare : Z;
  user_id_naif : bool;
  user_id_msisdnf : bool;
  user_id_imeif : bool;
  user_id_imsif : bool;
  user_id_length_of_imsi : Z;
  user_id_imsi : imsi_t;
  user_id_length_of_imei : Z;
  user_id_imei : list Z;
  user_id_length_of_msisdn : Z;
  user_id_msisdn : msisdn_t;
  user_id_length_of_nai : Z;
  user_id_nai : list Z
}.
#[export] Instance user_id_t_eq_dec : EqDecision user_id_t.
Proof. solve_decision. Defined.
#[export] Instance user_id_t_inhabited : Inhabited user_id_t := populate (mk_user_id_t 0 false
    false false false 0 inhabitant 0 [] 0 inhabitant 0 []).
