(* ===== verification/PfcpReportTypes.v ===== *)
(** * Structures of usage reporting (src/src/oai/common/3gpp_29.244.h)

    The structures of members that no class of the codec carries: they occur in
    the containers of msg_pfcp.hpp and stay at their default.  FQ-CSIDs are
    those of 3gpp_29.274.h. *)
From Stdlib Require Import ZArith Lia List Bool.
From stdpp Require Import base list gmap.
From S2P Require Import Prelude.
Open Scope Z_scope.

Record pfd_contents_t : Type := mk_pfd_contents_t {
  pfd_contents_spare : Z;
  pfd_contents_cp : bool;
  pfd_contents_dn : bool;
  pfd_contents_url_ : bool;
  pfd_contents_fd : bool;
  pfd_contents_length_of_flow_description : Z;
  pfd_contents_flow_description : list Z;
  pfd_contents_length_of_url : Z;
  pfd_contents_url : list Z;
  pfd_contents_length_of_domain_name : Z;
  pfd_contents_domain_name : list Z;
  pfd_contents_length_of_custom_pfd_contents : Z;
  pfd_contents_custom_pfd_contents : list Z
}.
#[export] Instance pfd_contents_t_eq_dec : EqDecision pfd_contents_t.
Proof. solve_decision. Defined.
#[export] Instance pfd_contents_t_inhabited : Inhabited pfd_contents_t := populate
    (mk_pfd_contents_t 0 false false false false 0 [] 0 [] 0 [] 0 []).

Record pfcp_association_release_request_t : Type := mk_pfcp_association_release_request_t {
  pfcp_association_release_request_spare : Z;
  pfcp_association_release_request_sarr : bool
}.
#[export] Instance pfcp_association_release_request_t_eq_dec : EqDecision
    pfcp_association_release_request_t.
Proof. solve_decision. Defined.
#[export] Instance pfcp_association_release_request_t_inhabited : Inhabited
    pfcp_association_release_request_t := populate (mk_pfcp_association_release_request_t 0
    false).

Record graceful_release_period_t : Type := mk_graceful_release_period_t {
  graceful_release_period_timer_unit : Z;
  graceful_release_period_timer_value : Z
}.
#[export] Instance graceful_release_period_t_eq_dec : EqDecision graceful_release_period_t.
Proof. solve_decision. Defined.
#[export] Instance graceful_release_period_t_inhabited : Inhabited graceful_release_period_t :=
    populate (mk_graceful_release_period_t 0 0).

Record additional_usage_reports_information_t : Type :=
    mk_additional_usage_reports_information_t {
  additional_usage_reports_information_spare : Z;
  additional_usage_reports_information_auri : bool;
  additional_usage_reports_information_number_of_additional_usage_reports_value : Z
}.
#[export] Instance additional_usage_reports_information_t_eq_dec : EqDecision
    additional_usage_reports_information_t.
Proof. solve_decision. Defined.
#[export] Instance additional_usage_reports_information_t_inhabited : Inhabited
    additional_usage_reports_information_t := populate
    (mk_additional_usage_reports_information_t 0 false 0).

Record aggregated_urr_id_t : Type := mk_aggregated_urr_id_t {
  aggregated_urr_id_urr_id : Z
}.
#[export] Instance aggregated_urr_id_t_eq_dec : EqDecision aggregated_urr_id_t.
Proof. solve_decision. Defined.
#[export] Instance aggregated_urr_id_t_inhabited : Inhabited aggregated_urr_id_t := populate
    (mk_aggregated_urr_id_t 0).

Record application_instance_id_t : Type := mk_application_instance_id_t {
  application_instance_id_application_instance_identifier : list Z
}.
#[export] Instance application_instance_id_t_eq_dec : EqDecision application_instance_id_t.
Proof. solve_decision. Defined.
#[export] Instance application_instance_id_t_inhabited : Inhabited application_instance_id_t :=
    populate (mk_application_instance_id_t []).

Record dl_buffering_duration_t : Type := mk_dl_buffering_duration_t {
  dl_buffering_duration_timer_unit : Z;
  dl_buffering_duration_timer_value : Z
}.
#[export] Instance dl_buffering_duration_t_eq_dec : EqDecision dl_buffering_duration_t.
Proof. solve_decision. Defined.
#[export] Instance dl_buffering_duration_t_inhabited : Inhabited dl_buffering_duration_t :=
    populate (mk_dl_buffering_duration_t 0 0).

Record dl_buffering_suggested_packet_count_t : Type := mk_dl_buffering_suggested_packet_count_t
    {
  dl_buffering_suggested_packet_count_packet_count : Z
}.
#[export] Instance dl_buffering_suggested_packet_count_t_eq_dec : EqDecision
    dl_buffering_suggested_packet_count_t.
Proof. solve_decision. Defined.
#[export] Instance dl_buffering_suggested_packet_count_t_inhabited : Inhabited
    dl_buffering_suggested_packet_count_t := populate (mk_dl_buffering_suggested_packet_count_t
    0).

Record dl_flow_level_marking_t : Type := mk_dl_flow_level_marking_t {
  dl_flow_level_marking_spare : Z;
  dl_flow_level_marking_sci : bool;
  dl_flow_level_marking_ttc : bool;
  dl_flow_level_marking_tos_traffic_class : Z;
  dl_flow_level_marking_service_class_indicator : Z
}.
#[export] Instance dl_flow_level_marking_t_eq_dec : EqDecision dl_flow_level_marking_t.
Proof. solve_decision. Defined.
#[export] Instance dl_flow_level_marking_t_inhabited : Inhabited dl_flow_level_marking_t :=
    populate (mk_dl_flow_level_marking_t 0 false false 0 0).

Record downlink_data_notification_delay_t : Type := mk_downlink_data_notification_delay_t {
  downlink_data_notification_delay_delay : Z
}.
#[export] Instance downlink_data_notification_delay_t_eq_dec : EqDecision
    downlink_data_notification_delay_t.
Proof. solve_decision. Defined.
#[export] Instance downlink_data_notification_delay_t_inhabited : Inhabited
    downlink_data_notification_delay_t := populate (mk_downlink_data_notification_delay_t 0).

Record downlink_data_service_information_t : Type := mk_downlink_data_service_information_t {
  downlink_data_service_information_spare : Z;
  downlink_data_service_information_qfii : bool;
  downlink_data_service_information_ppi : bool;
  downlink_data_service_information_Paging_Policy_Indication : Z;
  downlink_data_service_information_qfi : Z
}.
#[export] Instance downlink_data_service_information_t_eq_dec : EqDecision
    downlink_data_service_information_t.
Proof. solve_decision. Defined.
#[export] Instance downlink_data_service_information_t_inhabited : Inhabited
    downlink_data_service_information_t := populate (mk_downlink_data_service_information_t 0
    false false 0 0).

Record dropped_dl_traffic_threshold_t : Type := mk_dropped_dl_traffic_threshold_t {
  dropped_dl_traffic_threshold_spare : Z;
  dropped_dl_traffic_threshold_dlby : bool;
  dropped_dl_traffic_threshold_dlpa : bool;
  dropped_dl_traffic_threshold_downlink_packets : Z;
  dropped_dl_traffic_threshold_number_of_bytes_of_downlink_data : Z
}.
#[export] Instance dropped_dl_traffic_threshold_t_eq_dec : EqDecision
    dropped_dl_traffic_threshold_t.
Proof. solve_decision. Defined.
#[export] Instance dropped_dl_traffic_threshold_t_inhabited : Inhabited
    dropped_dl_traffic_threshold_t := populate (mk_dropped_dl_traffic_threshold_t 0 false false
    0 0).

Record duration_measurement_t : Type := mk_duration_measurement_t {
  duration_measurement_duration : Z
}.
#[export] Instance duration_measurement_t_eq_dec : EqDecision duration_measurement_t.
Proof. solve_decision. Defined.
#[export] Instance duration_measurement_t_inhabited : Inhabited duration_measurement_t :=
    populate (mk_duration_measurement_t 0).

Record end_time_t : Type := mk_end_time_t {
  end_time : Z
}.
#[export] Instance end_time_t_eq_dec : EqDecision end_time_t.
Proof. solve_decision. Defined.
#[export] Instance end_time_t_inhabited : Inhabited end_time_t := populate (mk_end_time_t 0).

Record ethernet_inactivity_timer_t : Type := mk_ethernet_inactivity_timer_t {
  ethernet_inactivity_timer : Z
}.
#[export] Instance ethernet_inactivity_timer_t_eq_dec : EqDecision ethernet_inactivity_timer_t.
Proof. solve_decision. Defined.
#[export] Instance ethernet_inactivity_timer_t_inhabited : Inhabited
    ethernet_inactivity_timer_t := populate (mk_ethernet_inactivity_timer_t 0).

Record ethernet_pdu_session_information_t : Type := mk_ethernet_pdu_session_information_t {
  ethernet_pdu_session_information_spare : Z;
  ethernet_pdu_session_information_ethi : bool
}.
#[export] Instance ethernet_pdu_session_information_t_eq_dec : EqDecision
    ethernet_pdu_session_information_t.
Proof. solve_decision. Defined.
#[export] Instance ethernet_pdu_session_information_t_inhabited : Inhabited
    ethernet_pdu_session_information_t := populate (mk_ethernet_pdu_session_information_t 0
    false).

Record event_id_t : Type := mk_event_id_t {
  event_id : Z
}.
#[export] Instance event_id_t_eq_dec : EqDecision event_id_t.
Proof. solve_decision. Defined.
#[export] Instance event_id_t_inhabited : Inhabited event_id_t := populate (mk_event_id_t 0).

Record event_threshold_t : Type := mk_event_threshold_t {
  event_threshold : Z
}.
#[export] Instance event_threshold_t_eq_dec : EqDecision event_threshold_t.
Proof. solve_decision. Defined.
#[export] Instance event_threshold_t_inhabited : Inhabited event_threshold_t := populate
    (mk_event_threshold_t 0).

Record flow_information_t : Type := mk_flow_information_t {
  flow_information_spare : Z;
  flow_information_flow_direction : Z;
  flow_information_length_of_flow_description : Z;
  flow_information_flow_description : list Z
}.
#[export] Instance flow_information_t_eq_dec : EqDecision flow_information_t.
Proof. solve_decision. Defined.
#[export] Instance flow_information_t_inhabited : Inhabited flow_information_t := populate
    (mk_flow_information_t 0 0 0 []).

Record linked_urr_id_t : Type := mk_linked_urr_id_t {
  linked_urr_id : Z
}.
#[export] Instance linked_urr_id_t_eq_dec : EqDecision linked_urr_id_t.
Proof. solve_decision. Defined.
#[export] Instance linked_urr_id_t_inhabited : Inhabited linked_urr_id_t := populate
    (mk_linked_urr_id_t 0).

Record mac_addresses_detected_t : Type := mk_mac_addresses_detected_t {
  mac_addresses_detected_number_of_mac_addresses : Z
}.
#[export] Instance mac_addresses_detected_t_eq_dec : EqDecision mac_addresses_detected_t.
Proof. solve_decision. Defined.
#[export] Instance mac_addresses_detected_t_inhabited : Inhabited mac_addresses_detected_t :=
    populate (mk_mac_addresses_detected_t 0).

Record mac_addresses_removed_t : Type := mk_mac_addresses_removed_t {
  mac_addresses_removed_number_of_mac_addresses : Z
}.
#[export] Instance mac_addresses_removed_t_eq_dec : EqDecision mac_addresses_removed_t.
Proof. solve_decision. Defined.
#[export] Instance mac_addresses_removed_t_inhabited : Inhabited mac_addresses_removed_t :=
    populate (mk_mac_addresses_removed_t 0).

Record measurement_information_t : Type := mk_measurement_information_t {
  measurement_information_spare : Z;
  measurement_information_radi : bool;
  measurement_information_inam : bool;
  measurement_information_mbqe : bool
}.
#[export] Instance measurement_information_t_eq_dec : EqDecision measurement_information_t.
Proof. solve_decision. Defined.
#[export] Instance measurement_information_t_inhabited : Inhabited measurement_information_t :=
    populate (mk_measurement_information_t 0 false false false).

Record measurement_method_t : Type := mk_measurement_method_t {
  measurement_method_spare : Z;
  measurement_method_event : bool;
  measurement_method_volum : bool;
  measurement_method_durat : bool
}.
#[export] Instance measurement_method_t_eq_dec : EqDecision measurement_method_t.
Proof. solve_decision. Defined.
#[export] Instance measurement_method_t_inhabited : Inhabited measurement_method_t := populate
    (mk_measurement_method_t 0 false false false).

Record measurement_period_t : Type := mk_measurement_period_t {
  measurement_period : Z
}.
#[export] Instance measurement_period_t_eq_dec : EqDecision measurement_period_t.
Proof. solve_decision. Defined.
#[export] Instance measurement_period_t_inhabited : Inhabited measurement_period_t := populate
    (mk_measurement_period_t 0).

Record metric_t : Type := mk_metric_t {
  metric : Z
}.
#[export] Instance metric_t_eq_dec : EqDecision metric_t.
Proof. solve_decision. Defined.
#[export] Instance metric_t_inhabited : Inhabited metric_t := populate (mk_metric_t 0).

Record multiplier_t : Type := mk_multiplier_t {
  multiplier_value_digits : Z;
  multiplier_exponent : Z
}.
#[export] Instance multiplier_t_eq_dec : EqDecision multiplier_t.
Proof. solve_decision. Defined.
#[export] Instance multiplier_t_inhabited : Inhabited multiplier_t := populate (mk_multiplier_t
    0 0).

Record oci_flags_t : Type := mk_oci_flags_t {
  oci_flags_spare : Z;
  oci_flags_aoci : bool
}.
#[export] Instance oci_flags_t_eq_dec : EqDecision oci_flags_t.
Proof. solve_decision. Defined.
#[export] Instance oci_flags_t_inhabited : Inhabited oci_flags_t := populate (mk_oci_flags_t 0
    false).

Record packet_rate_t : Type := mk_packet_rate_t {
  packet_rate_dlpr : bool;
  packet_rate_ulpr : bool;
  packet_rate_uplink_time_unit : Z;
  packet_rate_downlink_time_unit : Z;
  packet_rate_maximum_uplink_packet_rate : Z;
  packet_rate_maximum_downlink_packet_rate : Z
}.
#[export] Instance packet_rate_t_eq_dec : EqDecision packet_rate_t.
Proof. solve_decision. Defined.
#[export] Instance packet_rate_t_inhabited : Inhabited packet_rate_t := populate
    (mk_packet_rate_t false false 0 0 0 0).

Record pdn_type_t : Type := mk_pdn_type_t {
  pdn_type_spare : Z;
  pdn_type : Z
}.
#[export] Instance pdn_type_t_eq_dec : EqDecision pdn_type_t.
Proof. solve_decision. Defined.
#[export] Instance pdn_type_t_inhabited : Inhabited pdn_type_t := populate (mk_pdn_type_t 0 0).

Record query_urr_reference_t : Type := mk_query_urr_reference_t {
  query_urr_reference : Z
}.
#[export] Instance query_urr_reference_t_eq_dec : EqDecision query_urr_reference_t.
Proof. solve_decision. Defined.
#[export] Instance query_urr_reference_t_inhabited : Inhabited query_urr_reference_t :=
    populate (mk_query_urr_reference_t 0).

Record quota_holding_time_t : Type := mk_quota_holding_time_t {
  quota_holding_time : Z
}.
#[export] Instance quota_holding_time_t_eq_dec : EqDecision quota_holding_time_t.
Proof. solve_decision. Defined.
#[export] Instance quota_holding_time_t_inhabited : Inhabited quota_holding_time_t := populate
    (mk_quota_holding_time_t 0).

Record remote_gtp_u_peer_t : Type := mk_remote_gtp_u_peer_t {
  remote_gtp_u_peer_spare : Z;
  remote_gtp_u_peer_v4 : bool;
  remote_gtp_u_peer_v6 : bool;
  remote_gtp_u_peer_ipv4_address : Z;
  remote_gtp_u_peer_ipv6_address : list Z
}.
#[export] Instance remote_gtp_u_peer_t_eq_dec : EqDecision remote_gtp_u_peer_t.
Proof. solve_decision. Defined.
#[export] Instance remote_gtp_u_peer_t_inhabited : Inhabited remote_gtp_u_peer_t := populate
    (mk_remote_gtp_u_peer_t 0 false false 0 (repeat 0 16)).

Record rqi_t : Type := mk_rqi_t {
  rqi_spare : Z;
  rqi : bool
}.
#[export] Instance rqi_t_eq_dec : EqDecision rqi_t.
Proof. solve_decision. Defined.
#[export] Instance rqi_t_inhabited : Inhabited rqi_t := populate (mk_rqi_t 0 false).

Record sequence_number_t : Type := mk_sequence_number_t {
  sequence_number : Z
}.
#[export] Instance sequence_number_t_eq_dec : EqDecision sequence_number_t.
Proof. solve_decision. Defined.
#[export] Instance sequence_number_t_inhabited : Inhabited sequence_number_t := populate
    (mk_sequence_number_t 0).

Record start_time_t : Type := mk_start_time_t {
  start_time : Z
}.
#[export] Instance start_time_t_eq_dec : EqDecision start_time_t.
Proof. solve_decision. Defined.
#[export] Instance start_time_t_inhabited : Inhabited start_time_t := populate (mk_start_time_t
    0).

Record subsequent_time_quota_t : Type := mk_subsequent_time_quota_t {
  subsequent_time_quota_time_quota : Z
}.
#[export] Instance subsequent_time_quota_t_eq_dec : EqDecision subsequent_time_quota_t.
Proof. solve_decision. Defined.
#[export] Instance subsequent_time_quota_t_inhabited : Inhabited subsequent_time_quota_t :=
    populate (mk_subsequent_time_quota_t 0).

Record subsequent_volume_quota_t : Type := mk_subsequent_volume_quota_t {
  subsequent_volume_quota_dlvol : bool;
  subsequent_volume_quota_ulvol : bool;
  subsequent_volume_quota_tovol : bool;
  subsequent_volume_quota_total_volume : Z;
  subsequent_volume_quota_uplink_volume : Z;
  subsequent_volume_quota_downlink_volume : Z
}.
#[export] Instance subsequent_volume_quota_t_eq_dec : EqDecision subsequent_volume_quota_t.
Proof. solve_decision. Defined.
#[export] Instance subsequent_volume_quota_t_inhabited : Inhabited subsequent_volume_quota_t :=
    populate (mk_subsequent_volume_quota_t false false false 0 0 0).

Record suggested_buffering_packets_count_t : Type := mk_suggested_buffering_packets_count_t {
  suggested_buffering_packets_count_packets_count_value : Z
}.
#[export] Instance suggested_buffering_packets_count_t_eq_dec : EqDecision
    suggested_buffering_packets_count_t.
Proof. solve_decision. Defined.
#[export] Instance suggested_buffering_packets_count_t_inhabited : Inhabited
    suggested_buffering_packets_count_t := populate (mk_suggested_buffering_packets_count_t 0).

Record time_of_first_packet_t : Type := mk_time_of_first_packet_t {
  time_of_first_packet : Z
}.
#[export] Instance time_of_first_packet_t_eq_dec : EqDecision time_of_first_packet_t.
Proof. solve_decision. Defined.
#[export] Instance time_of_first_packet_t_inhabited : Inhabited time_of_first_packet_t :=
    populate (mk_time_of_first_packet_t 0).

Record time_of_last_packet_t : Type := mk_time_of_last_packet_t {
  time_of_last_packet : Z
}.
#[export] Instance time_of_last_packet_t_eq_dec : EqDecision time_of_last_packet_t.
Proof. solve_decision. Defined.
#[export] Instance time_of_last_packet_t_inhabited : Inhabited time_of_last_packet_t :=
    populate (mk_time_of_last_packet_t 0).

Record time_quota_mechanism_t : Type := mk_time_quota_mechanism_t {
  time_quota_mechanism_spare : Z;
  time_quota_mechanism_btit : Z;
  time_quota_mechanism_base_time_interval : Z
}.
#[export] Instance time_quota_mechanism_t_eq_dec : EqDecision time_quota_mechanism_t.
Proof. solve_decision. Defined.
#[export] Instance time_quota_mechanism_t_inhabited : Inhabited time_quota_mechanism_t :=
    populate (mk_time_quota_mechanism_t 0 0 0).

Record time_quota_t : Type := mk_time_quota_t {
  time_quota : Z
}.
#[export] Instance time_quota_t_eq_dec : EqDecision time_quota_t.
Proof. solve_decision. Defined.
#[export] Instance time_quota_t_inhabited : Inhabited time_quota_t := populate (mk_time_quota_t
    0).

Record timer_t : Type := mk_timer_t {
  timer_timer_unit : Z;
  timer_timer_value : Z
}.
#[export] Instance timer_t_eq_dec : EqDecision timer_t.
Proof. solve_decision. Defined.
#[export] Instance timer_t_inhabited : Inhabited timer_t := populate (mk_timer_t 0 0).

Record trace_information_t : Type := mk_trace_information_t {
  trace_information_mcc_digit2 : Z;
  trace_information_mcc_digit1 : Z;
  trace_information_mnc_digit3 : Z;
  trace_information_mcc_digit3 : Z;
  trace_information_mnc_digit2 : Z;
  trace_information_mnc_digit1 : Z;
  trace_information_trace_id : Z;
  trace_information_length_of_triggered_events : Z
}.
#[export] Instance trace_information_t_eq_dec : EqDecision trace_information_t.
Proof. solve_decision. Defined.
#[export] Instance trace_information_t_inhabited : Inhabited trace_information_t := populate
    (mk_trace_information_t 0 0 0 0 0 0 0 0).

Record ur_seqn_t : Type := mk_ur_seqn_t {
  ur_seqn : Z
}.
#[export] Instance ur_seqn_t_eq_dec : EqDecision ur_seqn_t.
Proof. solve_decision. Defined.
#[export] Instance ur_seqn_t_inhabited : Inhabited ur_seqn_t := populate (mk_ur_seqn_t 0).

Record usage_information_t : Type := mk_usage_information_t {
  usage_information_spare : Z;
  usage_information_ube : bool;
  usage_information_uae : bool;
  usage_information_aft : bool;
  usage_information_bef : bool
}.
#[export] Instance usage_information_t_eq_dec : EqDecision usage_information_t.
Proof. solve_decision. Defined.
#[export] Instance usage_information_t_inhabited : Inhabited usage_information_t := populate
    (mk_usage_information_t 0 false false false false).

Record usage_report_trigger_t : Type := mk_usage_report_trigger_t {
  usage_report_trigger_immer : bool;
  usage_report_trigger_droth : bool;
  usage_report_trigger_stop : bool;
  usage_report_trigger_start : bool;
  usage_report_trigger_quhti : bool;
  usage_report_trigger_timth : bool;
  usage_report_trigger_volth : bool;
  usage_report_trigger_perio : bool;
  usage_report_trigger_eveth : bool;
  usage_report_trigger_macar : bool;
  usage_report_trigger_envcl : bool;
  usage_report_trigger_monit : bool;
  usage_report_trigger_termr : bool;
  usage_report_trigger_liusa : bool;
  usage_report_trigger_timqu : bool;
  usage_report_trigger_volqu : bool
}.
#[export] Instance usage_report_trigger_t_eq_dec : EqDecision usage_report_trigger_t.
Proof. solve_decision. Defined.
#[export] Instance usage_report_trigger_t_inhabited : Inhabited usage_report_trigger_t :=
    populate (mk_usage_report_trigger_t false false false false false false false false false
    false false false false false false false).

Record volume_measurement_t : Type := mk_volume_measurement_t {
  volume_measurement_spare : Z;
  volume_measurement_dlvol : bool;
  volume_measurement_ulvol : bool;
  volume_measurement_tovol : bool;
  volume_measurement_total_volume : Z;
  volume_measurement_uplink_volume : Z;
  volume_measurement_downlink_volume : Z
}.
#[export] Instance volume_measurement_t_eq_dec : EqDecision volume_measurement_t.
Proof. solve_decision. Defined.
#[export] Instance volume_measurement_t_inhabited : Inhabited volume_measurement_t := populate
    (mk_volume_measurement_t 0 false false false 0 0 0).

Record volume_quota_t : Type := mk_volume_quota_t {
  volume_quota_spare : Z;
  volume_quota_dlvol : bool;
  volume_quota_ulvol : bool;
  volume_quota_tovol : bool;
  volume_quota_total_volume : Z;
  volume_quota_uplink_volume : Z;
  volume_quota_downlink_volume : Z
}.
#[export] Instance volume_quota_t_eq_dec : EqDecision volume_quota_t.
Proof. solve_decision. Defined.
#[export] Instance volume_quota_t_inhabited : Inhabited volume_quota_t := populate
    (mk_volume_quota_t 0 false false false 0 0 0).

Record fq_csid_t : Type := mk_fq_csid_t {
  fq_csid_node_id_type : Z;
  fq_csid_number_of_csids : Z;
  fq_csid_node_id : list Z;
  fq_csid_pdn_connection_set_identifier : list Z
}.
#[export] Instance fq_csid_t_eq_dec : EqDecision fq_csid_t.
Proof. solve_decision. Defined.
#[export] Instance fq_csid_t_inhabited : Inhabited fq_csid_t := populate (mk_fq_csid_t 0 0
    (repeat 0 16) (repeat 0 15)).
