(* ===== verification/PfcpGroups.v ===== *)
(** * Grouped information elements (src/src/oai/pfcp/msg_pfcp.hpp)

    A grouped element is a class with a [std::pair<bool, T>] per member: the
    flag says whether the member is present.  The overloads [set] and [get] of
    these classes are resolved by the type of the member: here by the class
    [HasIE], with one instance per class and member. *)
From Stdlib Require Import ZArith Lia List Bool.
From stdpp Require Import base list gmap.
From S2P Require Import Prelude PfcpTypes.
Open Scope Z_scope.

(** ** Optional members *)

(** [std::pair<bool, T>]; its default has the default value of [T]. *)
Record opt (T : Type) : Type := mk_opt {
  first : bool;
  second : T
}.
Arguments mk_opt {T} _ _.
Arguments first {T} _.
Arguments second {T} _.

Definition unset {T} `{Inhabited T} : opt T := mk_opt false inhabitant.

Definition present {T} (v : T) : opt T := mk_opt true v.

(** [C] has an optional member of type [T]. *)
Class HasIE (C T : Type) : Type := {
  ie : C -> opt T;
  with_ie : opt T -> C -> C
}.

Class HasIELaws (C T : Type) `{HasIE C T} : Prop := {
  ie_with_ie f c : ie (with_ie f c) = f;
  with_ie_ie c : with_ie (ie c) c = c;
  with_ie_twice f g c : with_ie f (with_ie g c) = with_ie f c
}.

(** [C] has a member of type [T] that is always there. *)
Class HasMember (C T : Type) : Type := {
  member : C -> T;
  with_member : T -> C -> C
}.

(** [C] has a vector of values of type [T]. *)
Class HasVec (C T : Type) : Type := {
  vec : C -> list T;
  with_vec : list T -> C -> C
}.

Class HasVecLaws (C T : Type) `{HasVec C T} : Prop := {
  vec_with_vec l c : vec (with_vec l c) = l;
  with_vec_vec c : with_vec (vec c) c = c;
  with_vec_twice l l' c : with_vec l (with_vec l' c) = with_vec l c
}.

(** [void set(const T& v)] *)
Definition set {C T} `{HasIE C T} (v : T) (c : C) : C := with_ie (present v) c.

(** [void set(const T& v)] for a vector *)
Definition push_back {C T} `{HasVec C T} (v : T) (c : C) : C := with_vec (vec c ++ [v]) c.

(** [bool get(T& v) const]: the value, or [None] where the code returns false
    and leaves its argument alone. *)
Definition get_ie {C T} `{HasIE C T} (c : C) : option T :=
  if first (ie (T := T) c) then Some (second (ie c)) else None.

(** [u.get(f.second)] followed, when it returns true, by [f.first = true]. *)
Definition updated {T} (u : option T) (f : opt T) : opt T :=
  match u with Some v => mk_opt true v | None => f end.

Ltac solve_has_ie := split; [now intros ? []|now intros []|now intros ?? []].
Ltac solve_has_vec := split; [now intros ? []|now intros []|now intros ?? []].

Record ethernet_packet_filter : Type := mk_ethernet_packet_filter {
  ethernet_packet_filter_ethernet_filter_id : opt ethernet_filter_id_t;
  ethernet_packet_filter_ethernet_filter_properties : opt ethernet_filter_properties_t;
  ethernet_packet_filter_mac_address : opt mac_address_t;
  ethernet_packet_filter_ethertype : opt ethertype_t;
  ethernet_packet_filter_c_tag : opt c_tag_t;
  ethernet_packet_filter_s_tag : opt s_tag_t;
  ethernet_packet_filter_sdf_filter : opt sdf_filter_t
}.
#[export] Instance ethernet_packet_filter_inhabited : Inhabited ethernet_packet_filter :=
  populate (mk_ethernet_packet_filter unset unset unset unset unset unset unset).
#[export] Instance ethernet_packet_filter_has_ethernet_filter_id : HasIE ethernet_packet_filter
    ethernet_filter_id_t :=
  {| ie := ethernet_packet_filter_ethernet_filter_id; with_ie v c := mk_ethernet_packet_filter
    v (ethernet_packet_filter_ethernet_filter_properties c) (ethernet_packet_filter_mac_address
    c) (ethernet_packet_filter_ethertype c) (ethernet_packet_filter_c_tag c)
    (ethernet_packet_filter_s_tag c) (ethernet_packet_filter_sdf_filter c) |}.
#[export] Instance ethernet_packet_filter_has_ethernet_filter_properties : HasIE
    ethernet_packet_filter ethernet_filter_properties_t :=
  {| ie := ethernet_packet_filter_ethernet_filter_properties; with_ie v c :=
    mk_ethernet_packet_filter (ethernet_packet_filter_ethernet_filter_id c) v
    (ethernet_packet_filter_mac_address c) (ethernet_packet_filter_ethertype c)
    (ethernet_packet_filter_c_tag c) (ethernet_packet_filter_s_tag c)
    (ethernet_packet_filter_sdf_filter c) |}.
#[export] Instance ethernet_packet_filter_has_mac_address : HasIE ethernet_packet_filter
    mac_address_t :=
  {| ie := ethernet_packet_filter_mac_address; with_ie v c := mk_ethernet_packet_filter
    (ethernet_packet_filter_ethernet_filter_id c)
    (ethernet_packet_filter_ethernet_filter_properties c) v (ethernet_packet_filter_ethertype
    c) (ethernet_packet_filter_c_tag c) (ethernet_packet_filter_s_tag c)
    (ethernet_packet_filter_sdf_filter c) |}.
#[export] Instance ethernet_packet_filter_has_ethertype : HasIE ethernet_packet_filter
    ethertype_t :=
  {| ie := ethernet_packet_filter_ethertype; with_ie v c := mk_ethernet_packet_filter
    (ethernet_packet_filter_ethernet_filter_id c)
    (ethernet_packet_filter_ethernet_filter_properties c) (ethernet_packet_filter_mac_address
    c) v (ethernet_packet_filter_c_tag c) (ethernet_packet_filter_s_tag c)
    (ethernet_packet_filter_sdf_filter c) |}.
#[export] Instance ethernet_packet_filter_has_c_tag : HasIE ethernet_packet_filter c_tag_t :=
  {| ie := ethernet_packet_filter_c_tag; with_ie v c := mk_ethernet_packet_filter
    (ethernet_packet_filter_ethernet_filter_id c)
    (ethernet_packet_filter_ethernet_filter_properties c) (ethernet_packet_filter_mac_address
    c) (ethernet_packet_filter_ethertype c) v (ethernet_packet_filter_s_tag c)
    (ethernet_packet_filter_sdf_filter c) |}.
#[export] Instance ethernet_packet_filter_has_s_tag : HasIE ethernet_packet_filter s_tag_t :=
  {| ie := ethernet_packet_filter_s_tag; with_ie v c := mk_ethernet_packet_filter
    (ethernet_packet_filter_ethernet_filter_id c)
    (ethernet_packet_filter_ethernet_filter_properties c) (ethernet_packet_filter_mac_address
    c) (ethernet_packet_filter_ethertype c) (ethernet_packet_filter_c_tag c) v
    (ethernet_packet_filter_sdf_filter c) |}.
#[export] Instance ethernet_packet_filter_has_sdf_filter : HasIE ethernet_packet_filter
    sdf_filter_t :=
  {| ie := ethernet_packet_filter_sdf_filter; with_ie v c := mk_ethernet_packet_filter
    (ethernet_packet_filter_ethernet_filter_id c)
    (ethernet_packet_filter_ethernet_filter_properties c) (ethernet_packet_filter_mac_address
    c) (ethernet_packet_filter_ethertype c) (ethernet_packet_filter_c_tag c)
    (ethernet_packet_filter_s_tag c) v |}.

Record pdi : Type := mk_pdi {
  pdi_source_interface : opt source_interface_t;
  pdi_local_fteid : opt fteid_t;
  pdi_network_instance : opt network_instance_t;
  pdi_ue_ip_address : opt ue_ip_address_t;
  pdi_traffic_endpoint_id : opt traffic_endpoint_id_t;
  pdi_sdf_filter : opt sdf_filter_t;
  pdi_application_id : opt application_id_t;
  pdi_ethernet_packet_filter : opt ethernet_packet_filter;
  pdi_qfi : opt qfi_t;
  pdi_framed_route : opt framed_route_t;
  pdi_framed_routing : opt framed_routing_t;
  pdi_framed_ipv6_route : opt framed_ipv6_route_t
}.
#[export] Instance pdi_inhabited : Inhabited pdi :=
  populate (mk_pdi unset unset unset unset unset unset unset unset unset unset unset unset).
#[export] Instance pdi_has_source_interface : HasIE pdi source_interface_t :=
  {| ie := pdi_source_interface; with_ie v c := mk_pdi v (pdi_local_fteid c)
    (pdi_network_instance c) (pdi_ue_ip_address c) (pdi_traffic_endpoint_id c) (pdi_sdf_filter
    c) (pdi_application_id c) (pdi_ethernet_packet_filter c) (pdi_qfi c) (pdi_framed_route c)
    (pdi_framed_routing c) (pdi_framed_ipv6_route c) |}.
#[export] Instance pdi_has_local_fteid : HasIE pdi fteid_t :=
  {| ie := pdi_local_fteid; with_ie v c := mk_pdi (pdi_source_interface c) v
    (pdi_network_instance c) (pdi_ue_ip_address c) (pdi_traffic_endpoint_id c) (pdi_sdf_filter
    c) (pdi_application_id c) (pdi_ethernet_packet_filter c) (pdi_qfi c) (pdi_framed_route c)
    (pdi_framed_routing c) (pdi_framed_ipv6_route c) |}.
#[export] Instance pdi_has_network_instance : HasIE pdi network_instance_t :=
  {| ie := pdi_network_instance; with_ie v c := mk_pdi (pdi_source_interface c)
    (pdi_local_fteid c) v (pdi_ue_ip_address c) (pdi_traffic_endpoint_id c) (pdi_sdf_filter c)
    (pdi_application_id c) (pdi_ethernet_packet_filter c) (pdi_qfi c) (pdi_framed_route c)
    (pdi_framed_routing c) (pdi_framed_ipv6_route c) |}.
#[export] Instance pdi_has_ue_ip_address : HasIE pdi ue_ip_address_t :=
  {| ie := pdi_ue_ip_address; with_ie v c := mk_pdi (pdi_source_interface c) (pdi_local_fteid
    c) (pdi_network_instance c) v (pdi_traffic_endpoint_id c) (pdi_sdf_filter c)
    (pdi_application_id c) (pdi_ethernet_packet_filter c) (pdi_qfi c) (pdi_framed_route c)
    (pdi_framed_routing c) (pdi_framed_ipv6_route c) |}.
#[export] Instance pdi_has_traffic_endpoint_id : HasIE pdi traffic_endpoint_id_t :=
  {| ie := pdi_traffic_endpoint_id; with_ie v c := mk_pdi (pdi_source_interface c)
    (pdi_local_fteid c) (pdi_network_instance c) (pdi_ue_ip_address c) v (pdi_sdf_filter c)
    (pdi_application_id c) (pdi_ethernet_packet_filter c) (pdi_qfi c) (pdi_framed_route c)
    (pdi_framed_routing c) (pdi_framed_ipv6_route c) |}.
#[export] Instance pdi_has_sdf_filter : HasIE pdi sdf_filter_t :=
  {| ie := pdi_sdf_filter; with_ie v c := mk_pdi (pdi_source_interface c) (pdi_local_fteid c)
    (pdi_network_instance c) (pdi_ue_ip_address c) (pdi_traffic_endpoint_id c) v
    (pdi_application_id c) (pdi_ethernet_packet_filter c) (pdi_qfi c) (pdi_framed_route c)
    (pdi_framed_routing c) (pdi_framed_ipv6_route c) |}.
#[export] Instance pdi_has_application_id : HasIE pdi application_id_t :=
  {| ie := pdi_application_id; with_ie v c := mk_pdi (pdi_source_interface c) (pdi_local_fteid
    c) (pdi_network_instance c) (pdi_ue_ip_address c) (pdi_traffic_endpoint_id c)
    (pdi_sdf_filter c) v (pdi_ethernet_packet_filter c) (pdi_qfi c) (pdi_framed_route c)
    (pdi_framed_routing c) (pdi_framed_ipv6_route c) |}.
#[export] Instance pdi_has_ethernet_packet_filter : HasIE pdi ethernet_packet_filter :=
  {| ie := pdi_ethernet_packet_filter; with_ie v c := mk_pdi (pdi_source_interface c)
    (pdi_local_fteid c) (pdi_network_instance c) (pdi_ue_ip_address c) (pdi_traffic_endpoint_id
    c) (pdi_sdf_filter c) (pdi_application_id c) v (pdi_qfi c) (pdi_framed_route c)
    (pdi_framed_routing c) (pdi_framed_ipv6_route c) |}.
#[export] Instance pdi_has_qfi : HasIE pdi qfi_t :=
  {| ie := pdi_qfi; with_ie v c := mk_pdi (pdi_source_interface c) (pdi_local_fteid c)
    (pdi_network_instance c) (pdi_ue_ip_address c) (pdi_traffic_endpoint_id c) (pdi_sdf_filter
    c) (pdi_application_id c) (pdi_ethernet_packet_filter c) v (pdi_framed_route c)
    (pdi_framed_routing c) (pdi_framed_ipv6_route c) |}.
#[export] Instance pdi_has_framed_route : HasIE pdi framed_route_t :=
  {| ie := pdi_framed_route; with_ie v c := mk_pdi (pdi_source_interface c) (pdi_local_fteid c)
    (pdi_network_instance c) (pdi_ue_ip_address c) (pdi_traffic_endpoint_id c) (pdi_sdf_filter
    c) (pdi_application_id c) (pdi_ethernet_packet_filter c) (pdi_qfi c) v (pdi_framed_routing
    c) (pdi_framed_ipv6_route c) |}.
#[export] Instance pdi_has_framed_routing : HasIE pdi framed_routing_t :=
  {| ie := pdi_framed_routing; with_ie v c := mk_pdi (pdi_source_interface c) (pdi_local_fteid
    c) (pdi_network_instance c) (pdi_ue_ip_address c) (pdi_traffic_endpoint_id c)
    (pdi_sdf_filter c) (pdi_application_id c) (pdi_ethernet_packet_filter c) (pdi_qfi c)
    (pdi_framed_route c) v (pdi_framed_ipv6_route c) |}.
#[export] Instance pdi_has_framed_ipv6_route : HasIE pdi framed_ipv6_route_t :=
  {| ie := pdi_framed_ipv6_route; with_ie v c := mk_pdi (pdi_source_interface c)
    (pdi_local_fteid c) (pdi_network_instance c) (pdi_ue_ip_address c) (pdi_traffic_endpoint_id
    c) (pdi_sdf_filter c) (pdi_application_id c) (pdi_ethernet_packet_filter c) (pdi_qfi c)
    (pdi_framed_route c) (pdi_framed_routing c) v |}.

Record create_pdr : Type := mk_create_pdr {
  create_pdr_pdr_id : opt pdr_id_t;
  create_pdr_precedence : opt precedence_t;
  create_pdr_pdi : opt pdi;
  create_pdr_outer_header_removal : opt outer_header_removal_t;
  create_pdr_far_id : opt far_id_t;
  create_pdr_urr_id : opt urr_id_t;
  create_pdr_qer_id : opt qer_id_t;
  create_pdr_activate_predefined_rules : opt activate_predefined_rules_t
}.
#[export] Instance create_pdr_inhabited : Inhabited create_pdr :=
  populate (mk_create_pdr unset unset unset unset unset unset unset unset).
#[export] Instance create_pdr_has_pdr_id : HasIE create_pdr pdr_id_t :=
  {| ie := create_pdr_pdr_id; with_ie v c := mk_create_pdr v (create_pdr_precedence c)
    (create_pdr_pdi c) (create_pdr_outer_header_removal c) (create_pdr_far_id c)
    (create_pdr_urr_id c) (create_pdr_qer_id c) (create_pdr_activate_predefined_rules c) |}.
#[export] Instance create_pdr_has_precedence : HasIE create_pdr precedence_t :=
  {| ie := create_pdr_precedence; with_ie v c := mk_create_pdr (create_pdr_pdr_id c) v
    (create_pdr_pdi c) (create_pdr_outer_header_removal c) (create_pdr_far_id c)
    (create_pdr_urr_id c) (create_pdr_qer_id c) (create_pdr_activate_predefined_rules c) |}.
#[export] Instance create_pdr_has_pdi : HasIE create_pdr pdi :=
  {| ie := create_pdr_pdi; with_ie v c := mk_create_pdr (create_pdr_pdr_id c)
    (create_pdr_precedence c) v (create_pdr_outer_header_removal c) (create_pdr_far_id c)
    (create_pdr_urr_id c) (create_pdr_qer_id c) (create_pdr_activate_predefined_rules c) |}.
#[export] Instance create_pdr_has_outer_header_removal : HasIE create_pdr
    outer_header_removal_t :=
  {| ie := create_pdr_outer_header_removal; with_ie v c := mk_create_pdr (create_pdr_pdr_id c)
    (create_pdr_precedence c) (create_pdr_pdi c) v (create_pdr_far_id c) (create_pdr_urr_id c)
    (create_pdr_qer_id c) (create_pdr_activate_predefined_rules c) |}.
#[export] Instance create_pdr_has_far_id : HasIE create_pdr far_id_t :=
  {| ie := create_pdr_far_id; with_ie v c := mk_create_pdr (create_pdr_pdr_id c)
    (create_pdr_precedence c) (create_pdr_pdi c) (create_pdr_outer_header_removal c) v
    (create_pdr_urr_id c) (create_pdr_qer_id c) (create_pdr_activate_predefined_rules c) |}.
#[export] Instance create_pdr_has_urr_id : HasIE create_pdr urr_id_t :=
  {| ie := create_pdr_urr_id; with_ie v c := mk_create_pdr (create_pdr_pdr_id c)
    (create_pdr_precedence c) (create_pdr_pdi c) (create_pdr_outer_header_removal c)
    (create_pdr_far_id c) v (create_pdr_qer_id c) (create_pdr_activate_predefined_rules c) |}.
#[export] Instance create_pdr_has_qer_id : HasIE create_pdr qer_id_t :=
  {| ie := create_pdr_qer_id; with_ie v c := mk_create_pdr (create_pdr_pdr_id c)
    (create_pdr_precedence c) (create_pdr_pdi c) (create_pdr_outer_header_removal c)
    (create_pdr_far_id c) (create_pdr_urr_id c) v (create_pdr_activate_predefined_rules c) |}.
#[export] Instance create_pdr_has_activate_predefined_rules : HasIE create_pdr
    activate_predefined_rules_t :=
  {| ie := create_pdr_activate_predefined_rules; with_ie v c := mk_create_pdr
    (create_pdr_pdr_id c) (create_pdr_precedence c) (create_pdr_pdi c)
    (create_pdr_outer_header_removal c) (create_pdr_far_id c) (create_pdr_urr_id c)
    (create_pdr_qer_id c) v |}.

Record update_forwarding_parameters : Type := mk_update_forwarding_parameters {
  update_forwarding_parameters_destination_interface : opt destination_interface_t;
  update_forwarding_parameters_network_instance : opt network_instance_t;
  update_forwarding_parameters_outer_header_creation : opt outer_header_creation_t;
  update_forwarding_parameters_transport_level_marking : opt transport_level_marking_t;
  update_forwarding_parameters_forwarding_policy : opt forwarding_policy_t;
  update_forwarding_parameters_header_enrichment : opt header_enrichment_t;
  update_forwarding_parameters_pfcpsmreq_flags : opt pfcpsmreq_flags_t;
  update_forwarding_parameters_linked_traffic_endpoint_id : opt traffic_endpoint_id_t
}.
#[export] Instance update_forwarding_parameters_inhabited : Inhabited
    update_forwarding_parameters :=
  populate (mk_update_forwarding_parameters unset unset unset unset unset unset unset unset).
#[export] Instance update_forwarding_parameters_has_destination_interface : HasIE
    update_forwarding_parameters destination_interface_t :=
  {| ie := update_forwarding_parameters_destination_interface; with_ie v c :=
    mk_update_forwarding_parameters v (update_forwarding_parameters_network_instance c)
    (update_forwarding_parameters_outer_header_creation c)
    (update_forwarding_parameters_transport_level_marking c)
    (update_forwarding_parameters_forwarding_policy c)
    (update_forwarding_parameters_header_enrichment c)
    (update_forwarding_parameters_pfcpsmreq_flags c)
    (update_forwarding_parameters_linked_traffic_endpoint_id c) |}.
#[export] Instance update_forwarding_parameters_has_network_instance : HasIE
    update_forwarding_parameters network_instance_t :=
  {| ie := update_forwarding_parameters_network_instance; with_ie v c :=
    mk_update_forwarding_parameters (update_forwarding_parameters_destination_interface c) v
    (update_forwarding_parameters_outer_header_creation c)
    (update_forwarding_parameters_transport_level_marking c)
    (update_forwarding_parameters_forwarding_policy c)
    (update_forwarding_parameters_header_enrichment c)
    (update_forwarding_parameters_pfcpsmreq_flags c)
    (update_forwarding_parameters_linked_traffic_endpoint_id c) |}.
#[export] Instance update_forwarding_parameters_has_outer_header_creation : HasIE
    update_forwarding_parameters outer_header_creation_t :=
  {| ie := update_forwarding_parameters_outer_header_creation; with_ie v c :=
    mk_update_forwarding_parameters (update_forwarding_parameters_destination_interface c)
    (update_forwarding_parameters_network_instance c) v
    (update_forwarding_parameters_transport_level_marking c)
    (update_forwarding_parameters_forwarding_policy c)
    (update_forwarding_parameters_header_enrichment c)
    (update_forwarding_parameters_pfcpsmreq_flags c)
    (update_forwarding_parameters_linked_traffic_endpoint_id c) |}.
#[export] Instance update_forwarding_parameters_has_transport_level_marking : HasIE
    update_forwarding_parameters transport_level_marking_t :=
  {| ie := update_forwarding_parameters_transport_level_marking; with_ie v c :=
    mk_update_forwarding_parameters (update_forwarding_parameters_destination_interface c)
    (update_forwarding_parameters_network_instance c)
    (update_forwarding_parameters_outer_header_creation c) v
    (update_forwarding_parameters_forwarding_policy c)
    (update_forwarding_parameters_header_enrichment c)
    (update_forwarding_parameters_pfcpsmreq_flags c)
    (update_forwarding_parameters_linked_traffic_endpoint_id c) |}.
#[export] Instance update_forwarding_parameters_has_forwarding_policy : HasIE
    update_forwarding_parameters forwarding_policy_t :=
  {| ie := update_forwarding_parameters_forwarding_policy; with_ie v c :=
    mk_update_forwarding_parameters (update_forwarding_parameters_destination_interface c)
    (update_forwarding_parameters_network_instance c)
    (update_forwarding_parameters_outer_header_creation c)
    (update_forwarding_parameters_transport_level_marking c) v
    (update_forwarding_parameters_header_enrichment c)
    (update_forwarding_parameters_pfcpsmreq_flags c)
    (update_forwarding_parameters_linked_traffic_endpoint_id c) |}.
#[export] Instance update_forwarding_parameters_has_header_enrichment : HasIE
    update_forwarding_parameters header_enrichment_t :=
  {| ie := update_forwarding_parameters_header_enrichment; with_ie v c :=
    mk_update_forwarding_parameters (update_forwarding_parameters_destination_interface c)
    (update_forwarding_parameters_network_instance c)
    (update_forwarding_parameters_outer_header_creation c)
    (update_forwarding_parameters_transport_level_marking c)
    (update_forwarding_parameters_forwarding_policy c) v
    (update_forwarding_parameters_pfcpsmreq_flags c)
    (update_forwarding_parameters_linked_traffic_endpoint_id c) |}.
#[export] Instance update_forwarding_parameters_has_pfcpsmreq_flags : HasIE
    update_forwarding_parameters pfcpsmreq_flags_t :=
  {| ie := update_forwarding_parameters_pfcpsmreq_flags; with_ie v c :=
    mk_update_forwarding_parameters (update_forwarding_parameters_destination_interface c)
    (update_forwarding_parameters_network_instance c)
    (update_forwarding_parameters_outer_header_creation c)
    (update_forwarding_parameters_transport_level_marking c)
    (update_forwarding_parameters_forwarding_policy c)
    (update_forwarding_parameters_header_enrichment c) v
    (update_forwarding_parameters_linked_traffic_endpoint_id c) |}.
#[export] Instance update_forwarding_parameters_has_linked_traffic_endpoint_id : HasIE
    update_forwarding_parameters traffic_endpoint_id_t :=
  {| ie := update_forwarding_parameters_linked_traffic_endpoint_id; with_ie v c :=
    mk_update_forwarding_parameters (update_forwarding_parameters_destination_interface c)
    (update_forwarding_parameters_network_instance c)
    (update_forwarding_parameters_outer_header_creation c)
    (update_forwarding_parameters_transport_level_marking c)
    (update_forwarding_parameters_forwarding_policy c)
    (update_forwarding_parameters_header_enrichment c)
    (update_forwarding_parameters_pfcpsmreq_flags c) v |}.

Record forwarding_parameters : Type := mk_forwarding_parameters {
  forwarding_parameters_destination_interface : opt destination_interface_t;
  forwarding_parameters_network_instance : opt network_instance_t;
  forwarding_parameters_redirect_information : opt redirect_information_t;
  forwarding_parameters_outer_header_creation : opt outer_header_creation_t;
  forwarding_parameters_transport_level_marking : opt transport_level_marking_t;
  forwarding_parameters_forwarding_policy : opt forwarding_policy_t;
  forwarding_parameters_header_enrichment : opt header_enrichment_t;
  forwarding_parameters_linked_traffic_endpoint_id : opt traffic_endpoint_id_t;
  forwarding_parameters_proxying : opt proxying_t
}.
#[export] Instance forwarding_parameters_inhabited : Inhabited forwarding_parameters :=
  populate (mk_forwarding_parameters unset unset unset unset unset unset unset unset unset).
#[export] Instance forwarding_parameters_has_destination_interface : HasIE
    forwarding_parameters destination_interface_t :=
  {| ie := forwarding_parameters_destination_interface; with_ie v c := mk_forwarding_parameters
    v (forwarding_parameters_network_instance c) (forwarding_parameters_redirect_information c)
    (forwarding_parameters_outer_header_creation c)
    (forwarding_parameters_transport_level_marking c) (forwarding_parameters_forwarding_policy
    c) (forwarding_parameters_header_enrichment c)
    (forwarding_parameters_linked_traffic_endpoint_id c) (forwarding_parameters_proxying c) |}.
#[export] Instance forwarding_parameters_has_network_instance : HasIE forwarding_parameters
    network_instance_t :=
  {| ie := forwarding_parameters_network_instance; with_ie v c := mk_forwarding_parameters
    (forwarding_parameters_destination_interface c) v
    (forwarding_parameters_redirect_information c) (forwarding_parameters_outer_header_creation
    c) (forwarding_parameters_transport_level_marking c)
    (forwarding_parameters_forwarding_policy c) (forwarding_parameters_header_enrichment c)
    (forwarding_parameters_linked_traffic_endpoint_id c) (forwarding_parameters_proxying c) |}.
#[export] Instance forwarding_parameters_has_redirect_information : HasIE forwarding_parameters
    redirect_information_t :=
  {| ie := forwarding_parameters_redirect_information; with_ie v c := mk_forwarding_parameters
    (forwarding_parameters_destination_interface c) (forwarding_parameters_network_instance c)
    v (forwarding_parameters_outer_header_creation c)
    (forwarding_parameters_transport_level_marking c) (forwarding_parameters_forwarding_policy
    c) (forwarding_parameters_header_enrichment c)
    (forwarding_parameters_linked_traffic_endpoint_id c) (forwarding_parameters_proxying c) |}.
#[export] Instance forwarding_parameters_has_outer_header_creation : HasIE
    forwarding_parameters outer_header_creation_t :=
  {| ie := forwarding_parameters_outer_header_creation; with_ie v c := mk_forwarding_parameters
    (forwarding_parameters_destination_interface c) (forwarding_parameters_network_instance c)
    (forwarding_parameters_redirect_information c) v
    (forwarding_parameters_transport_level_marking c) (forwarding_parameters_forwarding_policy
    c) (forwarding_parameters_header_enrichment c)
    (forwarding_parameters_linked_traffic_endpoint_id c) (forwarding_parameters_proxying c) |}.
#[export] Instance forwarding_parameters_has_transport_level_marking : HasIE
    forwarding_parameters transport_level_marking_t :=
  {| ie := forwarding_parameters_transport_level_marking; with_ie v c :=
    mk_forwarding_parameters (forwarding_parameters_destination_interface c)
    (forwarding_parameters_network_instance c) (forwarding_parameters_redirect_information c)
    (forwarding_parameters_outer_header_creation c) v (forwarding_parameters_forwarding_policy
    c) (forwarding_parameters_header_enrichment c)
    (forwarding_parameters_linked_traffic_endpoint_id c) (forwarding_parameters_proxying c) |}.
#[export] Instance forwarding_parameters_has_forwarding_policy : HasIE forwarding_parameters
    forwarding_policy_t :=
  {| ie := forwarding_parameters_forwarding_policy; with_ie v c := mk_forwarding_parameters
    (forwarding_parameters_destination_interface c) (forwarding_parameters_network_instance c)
    (forwarding_parameters_redirect_information c) (forwarding_parameters_outer_header_creation
    c) (forwarding_parameters_transport_level_marking c) v
    (forwarding_parameters_header_enrichment c)
    (forwarding_parameters_linked_traffic_endpoint_id c) (forwarding_parameters_proxying c) |}.
#[export] Instance forwarding_parameters_has_header_enrichment : HasIE forwarding_parameters
    header_enrichment_t :=
  {| ie := forwarding_parameters_header_enrichment; with_ie v c := mk_forwarding_parameters
    (forwarding_parameters_destination_interface c) (forwarding_parameters_network_instance c)
    (forwarding_parameters_redirect_information c) (forwarding_parameters_outer_header_creation
    c) (forwarding_parameters_transport_level_marking c)
    (forwarding_parameters_forwarding_policy c) v
    (forwarding_parameters_linked_traffic_endpoint_id c) (forwarding_parameters_proxying c) |}.
#[export] Instance forwarding_parameters_has_linked_traffic_endpoint_id : HasIE
    forwarding_parameters traffic_endpoint_id_t :=
  {| ie := forwarding_parameters_linked_traffic_endpoint_id; with_ie v c :=
    mk_forwarding_parameters (forwarding_parameters_destination_interface c)
    (forwarding_parameters_network_instance c) (forwarding_parameters_redirect_information c)
    (forwarding_parameters_outer_header_creation c)
    (forwarding_parameters_transport_level_marking c) (forwarding_parameters_forwarding_policy
    c) (forwarding_parameters_header_enrichment c) v (forwarding_parameters_proxying c) |}.
#[export] Instance forwarding_parameters_has_proxying : HasIE forwarding_parameters proxying_t
    :=
  {| ie := forwarding_parameters_proxying; with_ie v c := mk_forwarding_parameters
    (forwarding_parameters_destination_interface c) (forwarding_parameters_network_instance c)
    (forwarding_parameters_redirect_information c) (forwarding_parameters_outer_header_creation
    c) (forwarding_parameters_transport_level_marking c)
    (forwarding_parameters_forwarding_policy c) (forwarding_parameters_header_enrichment c)
    (forwarding_parameters_linked_traffic_endpoint_id c) v |}.

Record update_duplicating_parameters : Type := mk_update_duplicating_parameters {
  update_duplicating_parameters_destination_interface : opt destination_interface_t;
  update_duplicating_parameters_outer_header_creation : opt outer_header_creation_t;
  update_duplicating_parameters_transport_level_marking : opt transport_level_marking_t;
  update_duplicating_parameters_forwarding_policy : opt forwarding_policy_t
}.
#[export] Instance update_duplicating_parameters_inhabited : Inhabited
    update_duplicating_parameters :=
  populate (mk_update_duplicating_parameters unset unset unset unset).
#[export] Instance update_duplicating_parameters_has_destination_interface : HasIE
    update_duplicating_parameters destination_interface_t :=
  {| ie := update_duplicating_parameters_destination_interface; with_ie v c :=
    mk_update_duplicating_parameters v (update_duplicating_parameters_outer_header_creation c)
    (update_duplicating_parameters_transport_level_marking c)
    (update_duplicating_parameters_forwarding_policy c) |}.
#[export] Instance update_duplicating_parameters_has_outer_header_creation : HasIE
    update_duplicating_parameters outer_header_creation_t :=
  {| ie := update_duplicating_parameters_outer_header_creation; with_ie v c :=
    mk_update_duplicating_parameters (update_duplicating_parameters_destination_interface c) v
    (update_duplicating_parameters_transport_level_marking c)
    (update_duplicating_parameters_forwarding_policy c) |}.
#[export] Instance update_duplicating_parameters_has_transport_level_marking : HasIE
    update_duplicating_parameters transport_level_marking_t :=
  {| ie := update_duplicating_parameters_transport_level_marking; with_ie v c :=
    mk_update_duplicating_parameters (update_duplicating_parameters_destination_interface c)
    (update_duplicating_parameters_outer_header_creation c) v
    (update_duplicating_parameters_forwarding_policy c) |}.
#[export] Instance update_duplicating_parameters_has_forwarding_policy : HasIE
    update_duplicating_parameters forwarding_policy_t :=
  {| ie := update_duplicating_parameters_forwarding_policy; with_ie v c :=
    mk_update_duplicating_parameters (update_duplicating_parameters_destination_interface c)
    (update_duplicating_parameters_outer_header_creation c)
    (update_duplicating_parameters_transport_level_marking c) v |}.

Record duplicating_parameters : Type := mk_duplicating_parameters {
  duplicating_parameters_destination_interface : opt destination_interface_t;
  duplicating_parameters_outer_header_creation : opt outer_header_creation_t;
  duplicating_parameters_transport_level_marking : opt transport_level_marking_t;
  duplicating_parameters_forwarding_policy : opt forwarding_policy_t
}.
#[export] Instance duplicating_parameters_inhabited : Inhabited duplicating_parameters :=
  populate (mk_duplicating_parameters unset unset unset unset).
#[export] Instance duplicating_parameters_has_destination_interface : HasIE
    duplicating_parameters destination_interface_t :=
  {| ie := duplicating_parameters_destination_interface; with_ie v c :=
    mk_duplicating_parameters v (duplicating_parameters_outer_header_creation c)
    (duplicating_parameters_transport_level_marking c)
    (duplicating_parameters_forwarding_policy c) |}.
#[export] Instance duplicating_parameters_has_outer_header_creation : HasIE
    duplicating_parameters outer_header_creation_t :=
  {| ie := duplicating_parameters_outer_header_creation; with_ie v c :=
    mk_duplicating_parameters (duplicating_parameters_destination_interface c) v
    (duplicating_parameters_transport_level_marking c)
    (duplicating_parameters_forwarding_policy c) |}.
#[export] Instance duplicating_parameters_has_transport_level_marking : HasIE
    duplicating_parameters transport_level_marking_t :=
  {| ie := duplicating_parameters_transport_level_marking; with_ie v c :=
    mk_duplicating_parameters (duplicating_parameters_destination_interface c)
    (duplicating_parameters_outer_header_creation c) v
    (duplicating_parameters_forwarding_policy c) |}.
#[export] Instance duplicating_parameters_has_forwarding_policy : HasIE duplicating_parameters
    forwarding_policy_t :=
  {| ie := duplicating_parameters_forwarding_policy; with_ie v c := mk_duplicating_parameters
    (duplicating_parameters_destination_interface c)
    (duplicating_parameters_outer_header_creation c)
    (duplicating_parameters_transport_level_marking c) v |}.

Record create_far : Type := mk_create_far {
  create_far_far_id : opt far_id_t;
  create_far_apply_action : opt apply_action_t;
  create_far_forwarding_parameters : opt forwarding_parameters;
  create_far_duplicating_parameters : opt duplicating_parameters;
  create_far_bar_id : opt bar_id_t
}.
#[export] Instance create_far_inhabited : Inhabited create_far :=
  populate (mk_create_far unset unset unset unset unset).
#[export] Instance create_far_has_far_id : HasIE create_far far_id_t :=
  {| ie := create_far_far_id; with_ie v c := mk_create_far v (create_far_apply_action c)
    (create_far_forwarding_parameters c) (create_far_duplicating_parameters c)
    (create_far_bar_id c) |}.
#[export] Instance create_far_has_apply_action : HasIE create_far apply_action_t :=
  {| ie := create_far_apply_action; with_ie v c := mk_create_far (create_far_far_id c) v
    (create_far_forwarding_parameters c) (create_far_duplicating_parameters c)
    (create_far_bar_id c) |}.
#[export] Instance create_far_has_forwarding_parameters : HasIE create_far
    forwarding_parameters :=
  {| ie := create_far_forwarding_parameters; with_ie v c := mk_create_far (create_far_far_id c)
    (create_far_apply_action c) v (create_far_duplicating_parameters c) (create_far_bar_id c)
    |}.
#[export] Instance create_far_has_duplicating_parameters : HasIE create_far
    duplicating_parameters :=
  {| ie := create_far_duplicating_parameters; with_ie v c := mk_create_far (create_far_far_id
    c) (create_far_apply_action c) (create_far_forwarding_parameters c) v (create_far_bar_id c)
    |}.
#[export] Instance create_far_has_bar_id : HasIE create_far bar_id_t :=
  {| ie := create_far_bar_id; with_ie v c := mk_create_far (create_far_far_id c)
    (create_far_apply_action c) (create_far_forwarding_parameters c)
    (create_far_duplicating_parameters c) v |}.

Record created_pdr : Type := mk_created_pdr {
  created_pdr_pdr_id : opt pdr_id_t;
  created_pdr_local_fteid : opt fteid_t
}.
#[export] Instance created_pdr_inhabited : Inhabited created_pdr :=
  populate (mk_created_pdr unset unset).
#[export] Instance created_pdr_has_pdr_id : HasIE created_pdr pdr_id_t :=
  {| ie := created_pdr_pdr_id; with_ie v c := mk_created_pdr v (created_pdr_local_fteid c) |}.
#[export] Instance created_pdr_has_local_fteid : HasIE created_pdr fteid_t :=
  {| ie := created_pdr_local_fteid; with_ie v c := mk_created_pdr (created_pdr_pdr_id c) v |}.

Record update_pdr : Type := mk_update_pdr {
  update_pdr_pdr_id : pdr_id_t;
  update_pdr_outer_header_removal : opt outer_header_removal_t;
  update_pdr_precedence : opt precedence_t;
  update_pdr_pdi : opt pdi;
  update_pdr_far_id : opt far_id_t;
  update_pdr_urr_id : opt urr_id_t;
  update_pdr_qer_id : opt qer_id_t;
  update_pdr_activate_predefined_rules : list activate_predefined_rules_t;
  update_pdr_deactivate_predefined_rules : list deactivate_predefined_rules_t
}.
#[export] Instance update_pdr_inhabited : Inhabited update_pdr :=
  populate (mk_update_pdr inhabitant unset unset unset unset unset unset [] []).
#[export] Instance update_pdr_has_pdr_id : HasMember update_pdr pdr_id_t :=
  {| member := update_pdr_pdr_id; with_member v c := mk_update_pdr v
    (update_pdr_outer_header_removal c) (update_pdr_precedence c) (update_pdr_pdi c)
    (update_pdr_far_id c) (update_pdr_urr_id c) (update_pdr_qer_id c)
    (update_pdr_activate_predefined_rules c) (update_pdr_deactivate_predefined_rules c) |}.
#[export] Instance update_pdr_has_outer_header_removal : HasIE update_pdr
    outer_header_removal_t :=
  {| ie := update_pdr_outer_header_removal; with_ie v c := mk_update_pdr (update_pdr_pdr_id c)
    v (update_pdr_precedence c) (update_pdr_pdi c) (update_pdr_far_id c) (update_pdr_urr_id c)
    (update_pdr_qer_id c) (update_pdr_activate_predefined_rules c)
    (update_pdr_deactivate_predefined_rules c) |}.
#[export] Instance update_pdr_has_precedence : HasIE update_pdr precedence_t :=
  {| ie := update_pdr_precedence; with_ie v c := mk_update_pdr (update_pdr_pdr_id c)
    (update_pdr_outer_header_removal c) v (update_pdr_pdi c) (update_pdr_far_id c)
    (update_pdr_urr_id c) (update_pdr_qer_id c) (update_pdr_activate_predefined_rules c)
    (update_pdr_deactivate_predefined_rules c) |}.
#[export] Instance update_pdr_has_pdi : HasIE update_pdr pdi :=
  {| ie := update_pdr_pdi; with_ie v c := mk_update_pdr (update_pdr_pdr_id c)
    (update_pdr_outer_header_removal c) (update_pdr_precedence c) v (update_pdr_far_id c)
    (update_pdr_urr_id c) (update_pdr_qer_id c) (update_pdr_activate_predefined_rules c)
    (update_pdr_deactivate_predefined_rules c) |}.
#[export] Instance update_pdr_has_far_id : HasIE update_pdr far_id_t :=
  {| ie := update_pdr_far_id; with_ie v c := mk_update_pdr (update_pdr_pdr_id c)
    (update_pdr_outer_header_removal c) (update_pdr_precedence c) (update_pdr_pdi c) v
    (update_pdr_urr_id c) (update_pdr_qer_id c) (update_pdr_activate_predefined_rules c)
    (update_pdr_deactivate_predefined_rules c) |}.
#[export] Instance update_pdr_has_urr_id : HasIE update_pdr urr_id_t :=
  {| ie := update_pdr_urr_id; with_ie v c := mk_update_pdr (update_pdr_pdr_id c)
    (update_pdr_outer_header_removal c) (update_pdr_precedence c) (update_pdr_pdi c)
    (update_pdr_far_id c) v (update_pdr_qer_id c) (update_pdr_activate_predefined_rules c)
    (update_pdr_deactivate_predefined_rules c) |}.
#[export] Instance update_pdr_has_qer_id : HasIE update_pdr qer_id_t :=
  {| ie := update_pdr_qer_id; with_ie v c := mk_update_pdr (update_pdr_pdr_id c)
    (update_pdr_outer_header_removal c) (update_pdr_precedence c) (update_pdr_pdi c)
    (update_pdr_far_id c) (update_pdr_urr_id c) v (update_pdr_activate_predefined_rules c)
    (update_pdr_deactivate_predefined_rules c) |}.
#[export] Instance update_pdr_has_activate_predefined_rules : HasVec update_pdr
    activate_predefined_rules_t :=
  {| vec := update_pdr_activate_predefined_rules; with_vec v c := mk_update_pdr
    (update_pdr_pdr_id c) (update_pdr_outer_header_removal c) (update_pdr_precedence c)
    (update_pdr_pdi c) (update_pdr_far_id c) (update_pdr_urr_id c) (update_pdr_qer_id c) v
    (update_pdr_deactivate_predefined_rules c) |}.
#[export] Instance update_pdr_has_deactivate_predefined_rules : HasVec update_pdr
    deactivate_predefined_rules_t :=
  {| vec := update_pdr_deactivate_predefined_rules; with_vec v c := mk_update_pdr
    (update_pdr_pdr_id c) (update_pdr_outer_header_removal c) (update_pdr_precedence c)
    (update_pdr_pdi c) (update_pdr_far_id c) (update_pdr_urr_id c) (update_pdr_qer_id c)
    (update_pdr_activate_predefined_rules c) v |}.

Record update_far : Type := mk_update_far {
  update_far_far_id : far_id_t;
  update_far_apply_action : opt apply_action_t;
  update_far_update_forwarding_parameters : opt update_forwarding_parameters;
  update_far_update_duplicating_parameters : opt update_duplicating_parameters;
  update_far_bar_id : opt bar_id_t
}.
#[export] Instance update_far_inhabited : Inhabited update_far :=
  populate (mk_update_far inhabitant unset unset unset unset).
#[export] Instance update_far_has_far_id : HasMember update_far far_id_t :=
  {| member := update_far_far_id; with_member v c := mk_update_far v (update_far_apply_action
    c) (update_far_update_forwarding_parameters c) (update_far_update_duplicating_parameters c)
    (update_far_bar_id c) |}.
#[export] Instance update_far_has_apply_action : HasIE update_far apply_action_t :=
  {| ie := update_far_apply_action; with_ie v c := mk_update_far (update_far_far_id c) v
    (update_far_update_forwarding_parameters c) (update_far_update_duplicating_parameters c)
    (update_far_bar_id c) |}.
#[export] Instance update_far_has_update_forwarding_parameters : HasIE update_far
    update_forwarding_parameters :=
  {| ie := update_far_update_forwarding_parameters; with_ie v c := mk_update_far
    (update_far_far_id c) (update_far_apply_action c) v
    (update_far_update_duplicating_parameters c) (update_far_bar_id c) |}.
#[export] Instance update_far_has_update_duplicating_parameters : HasIE update_far
    update_duplicating_parameters :=
  {| ie := update_far_update_duplicating_parameters; with_ie v c := mk_update_far
    (update_far_far_id c) (update_far_apply_action c) (update_far_update_forwarding_parameters
    c) v (update_far_bar_id c) |}.
#[export] Instance update_far_has_bar_id : HasIE update_far bar_id_t :=
  {| ie := update_far_bar_id; with_ie v c := mk_update_far (update_far_far_id c)
    (update_far_apply_action c) (update_far_update_forwarding_parameters c)
    (update_far_update_duplicating_parameters c) v |}.

Record remove_pdr : Type := mk_remove_pdr {
  remove_pdr_pdr_id : opt pdr_id_t
}.
#[export] Instance remove_pdr_inhabited : Inhabited remove_pdr :=
  populate (mk_remove_pdr unset).
#[export] Instance remove_pdr_has_pdr_id : HasIE remove_pdr pdr_id_t :=
  {| ie := remove_pdr_pdr_id; with_ie v c := mk_remove_pdr v |}.

Record remove_far : Type := mk_remove_far {
  remove_far_far_id : opt far_id_t
}.
#[export] Instance remove_far_inhabited : Inhabited remove_far :=
  populate (mk_remove_far unset).
#[export] Instance remove_far_has_far_id : HasIE remove_far far_id_t :=
  {| ie := remove_far_far_id; with_ie v c := mk_remove_far v |}.

(** The instances are lenses. *)

#[export] Instance ethernet_packet_filter_has_ethernet_filter_id_laws : HasIELaws
    ethernet_packet_filter ethernet_filter_id_t.
Proof. solve_has_ie. Qed.

#[export] Instance ethernet_packet_filter_has_ethernet_filter_properties_laws : HasIELaws
    ethernet_packet_filter ethernet_filter_properties_t.
Proof. solve_has_ie. Qed.

#[export] Instance ethernet_packet_filter_has_mac_address_laws : HasIELaws
    ethernet_packet_filter mac_address_t.
Proof. solve_has_ie. Qed.

#[export] Instance ethernet_packet_filter_has_ethertype_laws : HasIELaws ethernet_packet_filter
    ethertype_t.
Proof. solve_has_ie. Qed.

#[export] Instance ethernet_packet_filter_has_c_tag_laws : HasIELaws ethernet_packet_filter
    c_tag_t.
Proof. solve_has_ie. Qed.

#[export] Instance ethernet_packet_filter_has_s_tag_laws : HasIELaws ethernet_packet_filter
    s_tag_t.
Proof. solve_has_ie. Qed.

#[export] Instance ethernet_packet_filter_has_sdf_filter_laws : HasIELaws
    ethernet_packet_filter sdf_filter_t.
Proof. solve_has_ie. Qed.

#[export] Instance pdi_has_source_interface_laws : HasIELaws pdi source_interface_t.
Proof. solve_has_ie. Qed.

#[export] Instance pdi_has_local_fteid_laws : HasIELaws pdi fteid_t.
Proof. solve_has_ie. Qed.

#[export] Instance pdi_has_network_instance_laws : HasIELaws pdi network_instance_t.
Proof. solve_has_ie. Qed.

#[export] Instance pdi_has_ue_ip_address_laws : HasIELaws pdi ue_ip_address_t.
Proof. solve_has_ie. Qed.

#[export] Instance pdi_has_traffic_endpoint_id_laws : HasIELaws pdi traffic_endpoint_id_t.
Proof. solve_has_ie. Qed.

#[export] Instance pdi_has_sdf_filter_laws : HasIELaws pdi sdf_filter_t.
Proof. solve_has_ie. Qed.

#[export] Instance pdi_has_application_id_laws : HasIELaws pdi application_id_t.
Proof. solve_has_ie. Qed.

#[export] Instance pdi_has_ethernet_packet_filter_laws : HasIELaws pdi ethernet_packet_filter.
Proof. solve_has_ie. Qed.

#[export] Instance pdi_has_qfi_laws : HasIELaws pdi qfi_t.
Proof. solve_has_ie. Qed.

#[export] Instance pdi_has_framed_route_laws : HasIELaws pdi framed_route_t.
Proof. solve_has_ie. Qed.

#[export] Instance pdi_has_framed_routing_laws : HasIELaws pdi framed_routing_t.
Proof. solve_has_ie. Qed.

#[export] Instance pdi_has_framed_ipv6_route_laws : HasIELaws pdi framed_ipv6_route_t.
Proof. solve_has_ie. Qed.

#[export] Instance create_pdr_has_pdr_id_laws : HasIELaws create_pdr pdr_id_t.
Proof. solve_has_ie. Qed.

#[export] Instance create_pdr_has_precedence_laws : HasIELaws create_pdr precedence_t.
Proof. solve_has_ie. Qed.

#[export] Instance create_pdr_has_pdi_laws : HasIELaws create_pdr pdi.
Proof. solve_has_ie. Qed.

#[export] Instance create_pdr_has_outer_header_removal_laws : HasIELaws create_pdr
    outer_header_removal_t.
Proof. solve_has_ie. Qed.

#[export] Instance create_pdr_has_far_id_laws : HasIELaws create_pdr far_id_t.
Proof. solve_has_ie. Qed.

#[export] Instance create_pdr_has_urr_id_laws : HasIELaws create_pdr urr_id_t.
Proof. solve_has_ie. Qed.

#[export] Instance create_pdr_has_qer_id_laws : HasIELaws create_pdr qer_id_t.
Proof. solve_has_ie. Qed.

#[export] Instance create_pdr_has_activate_predefined_rules_laws : HasIELaws create_pdr
    activate_predefined_rules_t.
Proof. solve_has_ie. Qed.

#[export] Instance update_forwarding_parameters_has_destination_interface_laws : HasIELaws
    update_forwarding_parameters destination_interface_t.
Proof. solve_has_ie. Qed.

#[export] Instance update_forwarding_parameters_has_network_instance_laws : HasIELaws
    update_forwarding_parameters network_instance_t.
Proof. solve_has_ie. Qed.

#[export] Instance update_forwarding_parameters_has_outer_header_creation_laws : HasIELaws
    update_forwarding_parameters outer_header_creation_t.
Proof. solve_has_ie. Qed.

#[export] Instance update_forwarding_parameters_has_transport_level_marking_laws : HasIELaws
    update_forwarding_parameters transport_level_marking_t.
Proof. solve_has_ie. Qed.

#[export] Instance update_forwarding_parameters_has_forwarding_policy_laws : HasIELaws
    update_forwarding_parameters forwarding_policy_t.
Proof. solve_has_ie. Qed.

#[export] Instance update_forwarding_parameters_has_header_enrichment_laws : HasIELaws
    update_forwarding_parameters header_enrichment_t.
Proof. solve_has_ie. Qed.

#[export] Instance update_forwarding_parameters_has_pfcpsmreq_flags_laws : HasIELaws
    update_forwarding_parameters pfcpsmreq_flags_t.
Proof. solve_has_ie. Qed.

#[export] Instance update_forwarding_parameters_has_linked_traffic_endpoint_id_laws : HasIELaws
    update_forwarding_parameters traffic_endpoint_id_t.
Proof. solve_has_ie. Qed.

#[export] Instance forwarding_parameters_has_destination_interface_laws : HasIELaws
    forwarding_parameters destination_interface_t.
Proof. solve_has_ie. Qed.

#[export] Instance forwarding_parameters_has_network_instance_laws : HasIELaws
    forwarding_parameters network_instance_t.
Proof. solve_has_ie. Qed.

#[export] Instance forwarding_parameters_has_redirect_information_laws : HasIELaws
    forwarding_parameters redirect_information_t.
Proof. solve_has_ie. Qed.

#[export] Instance forwarding_parameters_has_outer_header_creation_laws : HasIELaws
    forwarding_parameters outer_header_creation_t.
Proof. solve_has_ie. Qed.

#[export] Instance forwarding_parameters_has_transport_level_marking_laws : HasIELaws
    forwarding_parameters transport_level_marking_t.
Proof. solve_has_ie. Qed.

#[export] Instance forwarding_parameters_has_forwarding_policy_laws : HasIELaws
    forwarding_parameters forwarding_policy_t.
Proof. solve_has_ie. Qed.

#[export] Instance forwarding_parameters_has_header_enrichment_laws : HasIELaws
    forwarding_parameters header_enrichment_t.
Proof. solve_has_ie. Qed.

#[export] Instance forwarding_parameters_has_linked_traffic_endpoint_id_laws : HasIELaws
    forwarding_parameters traffic_endpoint_id_t.
Proof. solve_has_ie. Qed.

#[export] Instance forwarding_parameters_has_proxying_laws : HasIELaws forwarding_parameters
    proxying_t.
Proof. solve_has_ie. Qed.

#[export] Instance update_duplicating_parameters_has_destination_interface_laws : HasIELaws
    update_duplicating_parameters destination_interface_t.
Proof. solve_has_ie. Qed.

#[export] Instance update_duplicating_parameters_has_outer_header_creation_laws : HasIELaws
    update_duplicating_parameters outer_header_creation_t.
Proof. solve_has_ie. Qed.

#[export] Instance update_duplicating_parameters_has_transport_level_marking_laws : HasIELaws
    update_duplicating_parameters transport_level_marking_t.
Proof. solve_has_ie. Qed.

#[export] Instance update_duplicating_parameters_has_forwarding_policy_laws : HasIELaws
    update_duplicating_parameters forwarding_policy_t.
Proof. solve_has_ie. Qed.

#[export] Instance duplicating_parameters_has_destination_interface_laws : HasIELaws
    duplicating_parameters destination_interface_t.
Proof. solve_has_ie. Qed.

#[export] Instance duplicating_parameters_has_outer_header_creation_laws : HasIELaws
    duplicating_parameters outer_header_creation_t.
Proof. solve_has_ie. Qed.

#[export] Instance duplicating_parameters_has_transport_level_marking_laws : HasIELaws
    duplicating_parameters transport_level_marking_t.
Proof. solve_has_ie. Qed.

#[export] Instance duplicating_parameters_has_forwarding_policy_laws : HasIELaws
    duplicating_parameters forwarding_policy_t.
Proof. solve_has_ie. Qed.

#[export] Instance create_far_has_far_id_laws : HasIELaws create_far far_id_t.
Proof. solve_has_ie. Qed.

#[export] Instance create_far_has_apply_action_laws : HasIELaws create_far apply_action_t.
Proof. solve_has_ie. Qed.

#[export] Instance create_far_has_forwarding_parameters_laws : HasIELaws create_far
    forwarding_parameters.
Proof. solve_has_ie. Qed.

#[export] Instance create_far_has_duplicating_parameters_laws : HasIELaws create_far
    duplicating_parameters.
Proof. solve_has_ie. Qed.

#[export] Instance create_far_has_bar_id_laws : HasIELaws create_far bar_id_t.
Proof. solve_has_ie. Qed.

#[export] Instance created_pdr_has_pdr_id_laws : HasIELaws created_pdr pdr_id_t.
Proof. solve_has_ie. Qed.

#[export] Instance created_pdr_has_local_fteid_laws : HasIELaws created_pdr fteid_t.
Proof. solve_has_ie. Qed.

#[export] Instance update_pdr_has_outer_header_removal_laws : HasIELaws update_pdr
    outer_header_removal_t.
Proof. solve_has_ie. Qed.

#[export] Instance update_pdr_has_precedence_laws : HasIELaws update_pdr precedence_t.
Proof. solve_has_ie. Qed.

#[export] Instance update_pdr_has_pdi_laws : HasIELaws update_pdr pdi.
Proof. solve_has_ie. Qed.

#[export] Instance update_pdr_has_far_id_laws : HasIELaws update_pdr far_id_t.
Proof. solve_has_ie. Qed.

#[export] Instance update_pdr_has_urr_id_laws : HasIELaws update_pdr urr_id_t.
Proof. solve_has_ie. Qed.

#[export] Instance update_pdr_has_qer_id_laws : HasIELaws update_pdr qer_id_t.
Proof. solve_has_ie. Qed.

#[export] Instance update_far_has_apply_action_laws : HasIELaws update_far apply_action_t.
Proof. solve_has_ie. Qed.

#[export] Instance update_far_has_update_forwarding_parameters_laws : HasIELaws update_far
    update_forwarding_parameters.
Proof. solve_has_ie. Qed.

#[export] Instance update_far_has_update_duplicating_parameters_laws : HasIELaws update_far
    update_duplicating_parameters.
Proof. solve_has_ie. Qed.

#[export] Instance update_far_has_bar_id_laws : HasIELaws update_far bar_id_t.
Proof. solve_has_ie. Qed.

#[export] Instance remove_pdr_has_pdr_id_laws : HasIELaws remove_pdr pdr_id_t.
Proof. solve_has_ie. Qed.

#[export] Instance remove_far_has_far_id_laws : HasIELaws remove_far far_id_t.
Proof. solve_has_ie. Qed.

(** ** [set] and [get] *)

Section Members.
Context {C T : Type} `{HasIELaws C T}.

Lemma get_set (v : T) (c : C) : get_ie (set v c) = Some v.
Proof. unfold get_ie, set. now rewrite ie_with_ie. Qed.

Lemma set_set (v w : T) (c : C) : set v (set w c) = set v c.
Proof. apply with_ie_twice. Qed.

Lemma get_some (v : T) (c : C) : get_ie c = Some v -> set v c = c.
Proof.
  unfold get_ie, set. intros Hg. rewrite <- (with_ie_ie c) at 2.
  destruct (ie c) as [[|] w]; cbn in Hg; [|done]. now injection Hg as <-.
Qed.

End Members.

Lemma updated_first {T} (u : option T) (f : opt T) :
  first (updated u f) = true <-> u <> None \/ first f = true.
Proof. destruct u; cbn; split; auto. intros [H|H]; done. Qed.
