(* ===== verification/PfcpReportGroups.v ===== *)
(** * Grouped elements of usage reporting and QoS (src/src/oai/pfcp/msg_pfcp.hpp)

    The containers for usage reporting rules, QoS rules, buffering, traffic
    endpoints, load control, reports and packet flow descriptions: one record
    per class, with [set] and [get] as in [PfcpGroups]. *)
From Stdlib Require Import ZArith Lia List Bool.
From stdpp Require Import base list gmap.
From S2P Require Import Prelude PfcpTypes PfcpReportTypes PfcpGroups.
Open Scope Z_scope.

Record pfd : Type := mk_pfd {
  pfd_pfd_contents : opt pfd_contents_t
}.
#[export] Instance pfd_inhabited : Inhabited pfd :=
  populate (mk_pfd unset).
#[export] Instance pfd_has_pfd_contents : HasIE pfd pfd_contents_t :=
  {| ie := pfd_pfd_contents; with_ie v c :=
    let 'mk_pfd _ := c in
    mk_pfd v |}.

Record application_ids_pfds : Type := mk_application_ids_pfds {
  application_ids_pfds_application_id : opt application_id_t;
  application_ids_pfds_pfds : opt (list pfd)
}.
#[export] Instance application_ids_pfds_inhabited : Inhabited application_ids_pfds :=
  populate (mk_application_ids_pfds unset unset).
#[export] Instance application_ids_pfds_has_application_id : HasIE application_ids_pfds
    application_id_t :=
  {| ie := application_ids_pfds_application_id; with_ie v c :=
    let 'mk_application_ids_pfds _ x2 := c in
    mk_application_ids_pfds v x2 |}.
#[export] Instance application_ids_pfds_has_pfds : HasIE application_ids_pfds (list pfd) :=
  {| ie := application_ids_pfds_pfds; with_ie v c :=
    let 'mk_application_ids_pfds x1 _ := c in
    mk_application_ids_pfds x1 v |}.

Record query_urr : Type := mk_query_urr {
  query_urr_urr_id : opt urr_id_t
}.
#[export] Instance query_urr_inhabited : Inhabited query_urr :=
  populate (mk_query_urr unset).
#[export] Instance query_urr_has_urr_id : HasIE query_urr urr_id_t :=
  {| ie := query_urr_urr_id; with_ie v c :=
    let 'mk_query_urr _ := c in
    mk_query_urr v |}.

Record user_plane_path_failure_report : Type := mk_user_plane_path_failure_report {
  user_plane_path_failure_report_remote_gtp_u_peer : opt remote_gtp_u_peer_t
}.
#[export] Instance user_plane_path_failure_report_inhabited : Inhabited
    user_plane_path_failure_report :=
  populate (mk_user_plane_path_failure_report unset).
#[export] Instance user_plane_path_failure_report_has_remote_gtp_u_peer : HasIE
    user_plane_path_failure_report remote_gtp_u_peer_t :=
  {| ie := user_plane_path_failure_report_remote_gtp_u_peer; with_ie v c :=
    let 'mk_user_plane_path_failure_report _ := c in
    mk_user_plane_path_failure_report v |}.

Record event_information : Type := mk_event_information {
  event_information_event_id : opt event_id_t;
  event_information_event_threshold : opt event_threshold_t
}.
#[export] Instance event_information_inhabited : Inhabited event_information :=
  populate (mk_event_information unset unset).
#[export] Instance event_information_has_event_id : HasIE event_information event_id_t :=
  {| ie := event_information_event_id; with_ie v c :=
    let 'mk_event_information _ x2 := c in
    mk_event_information v x2 |}.
#[export] Instance event_information_has_event_threshold : HasIE event_information
    event_threshold_t :=
  {| ie := event_information_event_threshold; with_ie v c :=
    let 'mk_event_information x1 _ := c in
    mk_event_information x1 v |}.

Record aggregated_urrs : Type := mk_aggregated_urrs {
  aggregated_urrs_aggregated_urr_id : opt aggregated_urr_id_t;
  aggregated_urrs_multiplier : opt multiplier_t
}.
#[export] Instance aggregated_urrs_inhabited : Inhabited aggregated_urrs :=
  populate (mk_aggregated_urrs unset unset).
#[export] Instance aggregated_urrs_has_aggregated_urr_id : HasIE aggregated_urrs
    aggregated_urr_id_t :=
  {| ie := aggregated_urrs_aggregated_urr_id; with_ie v c :=
    let 'mk_aggregated_urrs _ x2 := c in
    mk_aggregated_urrs v x2 |}.
#[export] Instance aggregated_urrs_has_multiplier : HasIE aggregated_urrs multiplier_t :=
  {| ie := aggregated_urrs_multiplier; with_ie v c :=
    let 'mk_aggregated_urrs x1 _ := c in
    mk_aggregated_urrs x1 v |}.

Record additional_monitoring_time : Type := mk_additional_monitoring_time {
  additional_monitoring_time_monitoring_time : opt monitoring_time_t;
  additional_monitoring_time_subsequent_volume_threshold : opt subsequent_volume_threshold_t;
  additional_monitoring_time_subsequent_time_threshold : opt subsequent_time_threshold_t;
  additional_monitoring_time_subsequent_volume_quota : opt subsequent_volume_quota_t;
  additional_monitoring_time_subsequent_time_quota : opt subsequent_time_quota_t
}.
#[export] Instance additional_monitoring_time_inhabited : Inhabited additional_monitoring_time
    :=
  populate (mk_additional_monitoring_time unset unset unset unset unset).
#[export] Instance additional_monitoring_time_has_monitoring_time : HasIE
    additional_monitoring_time monitoring_time_t :=
  {| ie := additional_monitoring_time_monitoring_time; with_ie v c :=
    let 'mk_additional_monitoring_time _ x2 x3 x4 x5 := c in
    mk_additional_monitoring_time v x2 x3 x4 x5 |}.
#[export] Instance additional_monitoring_time_has_subsequent_volume_threshold : HasIE
    additional_monitoring_time subsequent_volume_threshold_t :=
  {| ie := additional_monitoring_time_subsequent_volume_threshold; with_ie v c :=
    let 'mk_additional_monitoring_time x1 _ x3 x4 x5 := c in
    mk_additional_monitoring_time x1 v x3 x4 x5 |}.
#[export] Instance additional_monitoring_time_has_subsequent_time_threshold : HasIE
    additional_monitoring_time subsequent_time_threshold_t :=
  {| ie := additional_monitoring_time_subsequent_time_threshold; with_ie v c :=
    let 'mk_additional_monitoring_time x1 x2 _ x4 x5 := c in
    mk_additional_monitoring_time x1 x2 v x4 x5 |}.
#[export] Instance additional_monitoring_time_has_subsequent_volume_quota : HasIE
    additional_monitoring_time subsequent_volume_quota_t :=
  {| ie := additional_monitoring_time_subsequent_volume_quota; with_ie v c :=
    let 'mk_additional_monitoring_time x1 x2 x3 _ x5 := c in
    mk_additional_monitoring_time x1 x2 x3 v x5 |}.
#[export] Instance additional_monitoring_time_has_subsequent_time_quota : HasIE
    additional_monitoring_time subsequent_time_quota_t :=
  {| ie := additional_monitoring_time_subsequent_time_quota; with_ie v c :=
    let 'mk_additional_monitoring_time x1 x2 x3 x4 _ := c in
    mk_additional_monitoring_time x1 x2 x3 x4 v |}.

Record create_urr : Type := mk_create_urr {
  create_urr_urr_id : opt urr_id_t;
  create_urr_measurement_method : opt measurement_method_t;
  create_urr_reporting_triggers : opt reporting_triggers_t;
  create_urr_measurement_period : opt measurement_period_t;
  create_urr_volume_threshold : opt volume_threshold_t;
  create_urr_volume_quota : opt volume_quota_t;
  create_urr_time_threshold : opt time_threshold_t;
  create_urr_time_quota : opt time_quota_t;
  create_urr_quota_holding_time : opt quota_holding_time_t;
  create_urr_dropped_dl_traffic_threshold : opt dropped_dl_traffic_threshold_t;
  create_urr_monitoring_time : opt monitoring_time_t;
  create_urr_event_information : opt event_information;
  create_urr_subsequent_volume_threshold : opt subsequent_volume_threshold_t;
  create_urr_subsequent_time_threshold : opt subsequent_time_threshold_t;
  create_urr_subsequent_volume_quota : opt subsequent_volume_quota_t;
  create_urr_subsequent_time_quota : opt subsequent_time_quota_t;
  create_urr_inactivity_detection_time : opt inactivity_detection_time_t;
  create_urr_linked_urr_id : opt linked_urr_id_t;
  create_urr_measurement_information : opt measurement_information_t;
  create_urr_time_quota_mechanism : opt time_quota_mechanism_t;
  create_urr_aggregated_urrs : opt aggregated_urrs;
  create_urr_far_id_for_quota_action : opt far_id_t;
  create_urr_ethernet_inactivity_timer : opt ethernet_inactivity_timer_t;
  create_urr_additional_monitoring_time : opt additional_monitoring_time
}.
#[export] Instance create_urr_inhabited : Inhabited create_urr :=
  populate (mk_create_urr unset unset unset unset unset unset unset unset unset unset unset
    unset unset unset unset unset unset unset unset unset unset unset unset unset).
#[export] Instance create_urr_has_urr_id : HasIE create_urr urr_id_t :=
  {| ie := create_urr_urr_id; with_ie v c :=
    let 'mk_create_urr _ x2 x3 x4 x5 x6 x7 x8 x9 x10 x11 x12 x13 x14 x15 x16 x17 x18 x19 x20
    x21 x22 x23 x24 := c in
    mk_create_urr v x2 x3 x4 x5 x6 x7 x8 x9 x10 x11 x12 x13 x14 x15 x16 x17 x18 x19 x20 x21 x22
    x23 x24 |}.
#[export] Instance create_urr_has_measurement_method : HasIE create_urr measurement_method_t :=
  {| ie := create_urr_measurement_method; with_ie v c :=
    let 'mk_create_urr x1 _ x3 x4 x5 x6 x7 x8 x9 x10 x11 x12 x13 x14 x15 x16 x17 x18 x19 x20
    x21 x22 x23 x24 := c in
    mk_create_urr x1 v x3 x4 x5 x6 x7 x8 x9 x10 x11 x12 x13 x14 x15 x16 x17 x18 x19 x20 x21 x22
    x23 x24 |}.
#[export] Instance create_urr_has_reporting_triggers : HasIE create_urr reporting_triggers_t :=
  {| ie := create_urr_reporting_triggers; with_ie v c :=
    let 'mk_create_urr x1 x2 _ x4 x5 x6 x7 x8 x9 x10 x11 x12 x13 x14 x15 x16 x17 x18 x19 x20
    x21 x22 x23 x24 := c in
    mk_create_urr x1 x2 v x4 x5 x6 x7 x8 x9 x10 x11 x12 x13 x14 x15 x16 x17 x18 x19 x20 x21 x22
    x23 x24 |}.
#[export] Instance create_urr_has_measurement_period : HasIE create_urr measurement_period_t :=
  {| ie := create_urr_measurement_period; with_ie v c :=
    let 'mk_create_urr x1 x2 x3 _ x5 x6 x7 x8 x9 x10 x11 x12 x13 x14 x15 x16 x17 x18 x19 x20
    x21 x22 x23 x24 := c in
    mk_create_urr x1 x2 x3 v x5 x6 x7 x8 x9 x10 x11 x12 x13 x14 x15 x16 x17 x18 x19 x20 x21 x22
    x23 x24 |}.
#[export] Instance create_urr_has_volume_threshold : HasIE create_urr volume_threshold_t :=
  {| ie := create_urr_volume_threshold; with_ie v c :=
    let 'mk_create_urr x1 x2 x3 x4 _ x6 x7 x8 x9 x10 x11 x12 x13 x14 x15 x16 x17 x18 x19 x20
    x21 x22 x23 x24 := c in
    mk_create_urr x1 x2 x3 x4 v x6 x7 x8 x9 x10 x11 x12 x13 x14 x15 x16 x17 x18 x19 x20 x21 x22
    x23 x24 |}.
#[export] Instance create_urr_has_volume_quota : HasIE create_urr volume_quota_t :=
  {| ie := create_urr_volume_quota; with_ie v c :=
    let 'mk_create_urr x1 x2 x3 x4 x5 _ x7 x8 x9 x10 x11 x12 x13 x14 x15 x16 x17 x18 x19 x20
    x21 x22 x23 x24 := c in
    mk_create_urr x1 x2 x3 x4 x5 v x7 x8 x9 x10 x11 x12 x13 x14 x15 x16 x17 x18 x19 x20 x21 x22
    x23 x24 |}.
#[export] Instance create_urr_has_time_threshold : HasIE create_urr time_threshold_t :=
  {| ie := create_urr_time_threshold; with_ie v c :=
    let 'mk_create_urr x1 x2 x3 x4 x5 x6 _ x8 x9 x10 x11 x12 x13 x14 x15 x16 x17 x18 x19 x20
    x21 x22 x23 x24 := c in
    mk_create_urr x1 x2 x3 x4 x5 x6 v x8 x9 x10 x11 x12 x13 x14 x15 x16 x17 x18 x19 x20 x21 x22
    x23 x24 |}.
#[export] Instance create_urr_has_time_quota : HasIE create_urr time_quota_t :=
  {| ie := create_urr_time_quota; with_ie v c :=
    let 'mk_create_urr x1 x2 x3 x4 x5 x6 x7 _ x9 x10 x11 x12 x13 x14 x15 x16 x17 x18 x19 x20
    x21 x22 x23 x24 := c in
    mk_create_urr x1 x2 x3 x4 x5 x6 x7 v x9 x10 x11 x12 x13 x14 x15 x16 x17 x18 x19 x20 x21 x22
    x23 x24 |}.
#[export] Instance create_urr_has_quota_holding_time : HasIE create_urr quota_holding_time_t :=
  {| ie := create_urr_quota_holding_time; with_ie v c :=
    let 'mk_create_urr x1 x2 x3 x4 x5 x6 x7 x8 _ x10 x11 x12 x13 x14 x15 x16 x17 x18 x19 x20
    x21 x22 x23 x24 := c in
    mk_create_urr x1 x2 x3 x4 x5 x6 x7 x8 v x10 x11 x12 x13 x14 x15 x16 x17 x18 x19 x20 x21 x22
    x23 x24 |}.
#[export] Instance create_urr_has_dropped_dl_traffic_threshold : HasIE create_urr
    dropped_dl_traffic_threshold_t :=
  {| ie := create_urr_dropped_dl_traffic_threshold; with_ie v c :=
    let 'mk_create_urr x1 x2 x3 x4 x5 x6 x7 x8 x9 _ x11 x12 x13 x14 x15 x16 x17 x18 x19 x20 x21
    x22 x23 x24 := c in
    mk_create_urr x1 x2 x3 x4 x5 x6 x7 x8 x9 v x11 x12 x13 x14 x15 x16 x17 x18 x19 x20 x21 x22
    x23 x24 |}.
#[export] Instance create_urr_has_monitoring_time : HasIE create_urr monitoring_time_t :=
  {| ie := create_urr_monitoring_time; with_ie v c :=
    let 'mk_create_urr x1 x2 x3 x4 x5 x6 x7 x8 x9 x10 _ x12 x13 x14 x15 x16 x17 x18 x19 x20 x21
    x22 x23 x24 := c in
    mk_create_urr x1 x2 x3 x4 x5 x6 x7 x8 x9 x10 v x12 x13 x14 x15 x16 x17 x18 x19 x20 x21 x22
    x23 x24 |}.
#[export] Instance create_urr_has_event_information : HasIE create_urr event_information :=
  {| ie := create_urr_event_information; with_ie v c :=
    let 'mk_create_urr x1 x2 x3 x4 x5 x6 x7 x8 x9 x10 x11 _ x13 x14 x15 x16 x17 x18 x19 x20 x21
    x22 x23 x24 := c in
    mk_create_urr x1 x2 x3 x4 x5 x6 x7 x8 x9 x10 x11 v x13 x14 x15 x16 x17 x18 x19 x20 x21 x22
    x23 x24 |}.
#[export] Instance create_urr_has_subsequent_volume_threshold : HasIE create_urr
    subsequent_volume_threshold_t :=
  {| ie := create_urr_subsequent_volume_threshold; with_ie v c :=
    let 'mk_create_urr x1 x2 x3 x4 x5 x6 x7 x8 x9 x10 x11 x12 _ x14 x15 x16 x17 x18 x19 x20 x21
    x22 x23 x24 := c in
    mk_create_urr x1 x2 x3 x4 x5 x6 x7 x8 x9 x10 x11 x12 v x14 x15 x16 x17 x18 x19 x20 x21 x22
    x23 x24 |}.
#[export] Instance create_urr_has_subsequent_time_threshold : HasIE create_urr
    subsequent_time_threshold_t :=
  {| ie := create_urr_subsequent_time_threshold; with_ie v c :=
    let 'mk_create_urr x1 x2 x3 x4 x5 x6 x7 x8 x9 x10 x11 x12 x13 _ x15 x16 x17 x18 x19 x20 x21
    x22 x23 x24 := c in
    mk_create_urr x1 x2 x3 x4 x5 x6 x7 x8 x9 x10 x11 x12 x13 v x15 x16 x17 x18 x19 x20 x21 x22
    x23 x24 |}.
#[export] Instance create_urr_has_subsequent_volume_quota : HasIE create_urr
    subsequent_volume_quota_t :=
  {| ie := create_urr_subsequent_volume_quota; with_ie v c :=
    let 'mk_create_urr x1 x2 x3 x4 x5 x6 x7 x8 x9 x10 x11 x12 x13 x14 _ x16 x17 x18 x19 x20 x21
    x22 x23 x24 := c in
    mk_create_urr x1 x2 x3 x4 x5 x6 x7 x8 x9 x10 x11 x12 x13 x14 v x16 x17 x18 x19 x20 x21 x22
    x23 x24 |}.
#[export] Instance create_urr_has_subsequent_time_quota : HasIE create_urr
    subsequent_time_quota_t :=
  {| ie := create_urr_subsequent_time_quota; with_ie v c :=
    let 'mk_create_urr x1 x2 x3 x4 x5 x6 x7 x8 x9 x10 x11 x12 x13 x14 x15 _ x17 x18 x19 x20 x21
    x22 x23 x24 := c in
    mk_create_urr x1 x2 x3 x4 x5 x6 x7 x8 x9 x10 x11 x12 x13 x14 x15 v x17 x18 x19 x20 x21 x22
    x23 x24 |}.
#[export] Instance create_urr_has_inactivity_detection_time : HasIE create_urr
    inactivity_detection_time_t :=
  {| ie := create_urr_inactivity_detection_time; with_ie v c :=
    let 'mk_create_urr x1 x2 x3 x4 x5 x6 x7 x8 x9 x10 x11 x12 x13 x14 x15 x16 _ x18 x19 x20 x21
    x22 x23 x24 := c in
    mk_create_urr x1 x2 x3 x4 x5 x6 x7 x8 x9 x10 x11 x12 x13 x14 x15 x16 v x18 x19 x20 x21 x22
    x23 x24 |}.
#[export] Instance create_urr_has_linked_urr_id : HasIE create_urr linked_urr_id_t :=
  {| ie := create_urr_linked_urr_id; with_ie v c :=
    let 'mk_create_urr x1 x2 x3 x4 x5 x6 x7 x8 x9 x10 x11 x12 x13 x14 x15 x16 x17 _ x19 x20 x21
    x22 x23 x24 := c in
    mk_create_urr x1 x2 x3 x4 x5 x6 x7 x8 x9 x10 x11 x12 x13 x14 x15 x16 x17 v x19 x20 x21 x22
    x23 x24 |}.
#[export] Instance create_urr_has_measurement_information : HasIE create_urr
    measurement_information_t :=
  {| ie := create_urr_measurement_information; with_ie v c :=
    let 'mk_create_urr x1 x2 x3 x4 x5 x6 x7 x8 x9 x10 x11 x12 x13 x14 x15 x16 x17 x18 _ x20 x21
    x22 x23 x24 := c in
    mk_create_urr x1 x2 x3 x4 x5 x6 x7 x8 x9 x10 x11 x12 x13 x14 x15 x16 x17 x18 v x20 x21 x22
    x23 x24 |}.
#[export] Instance create_urr_has_time_quota_mechanism : HasIE create_urr
    time_quota_mechanism_t :=
  {| ie := create_urr_time_quota_mechanism; with_ie v c :=
    let 'mk_create_urr x1 x2 x3 x4 x5 x6 x7 x8 x9 x10 x11 x12 x13 x14 x15 x16 x17 x18 x19 _ x21
    x22 x23 x24 := c in
    mk_create_urr x1 x2 x3 x4 x5 x6 x7 x8 x9 x10 x11 x12 x13 x14 x15 x16 x17 x18 x19 v x21 x22
    x23 x24 |}.
#[export] Instance create_urr_has_aggregated_urrs : HasIE create_urr aggregated_urrs :=
  {| ie := create_urr_aggregated_urrs; with_ie v c :=
    let 'mk_create_urr x1 x2 x3 x4 x5 x6 x7 x8 x9 x10 x11 x12 x13 x14 x15 x16 x17 x18 x19 x20 _
    x22 x23 x24 := c in
    mk_create_urr x1 x2 x3 x4 x5 x6 x7 x8 x9 x10 x11 x12 x13 x14 x15 x16 x17 x18 x19 x20 v x22
    x23 x24 |}.
#[export] Instance create_urr_has_far_id_for_quota_action : HasIE create_urr far_id_t :=
  {| ie := create_urr_far_id_for_quota_action; with_ie v c :=
    let 'mk_create_urr x1 x2 x3 x4 x5 x6 x7 x8 x9 x10 x11 x12 x13 x14 x15 x16 x17 x18 x19 x20
    x21 _ x23 x24 := c in
    mk_create_urr x1 x2 x3 x4 x5 x6 x7 x8 x9 x10 x11 x12 x13 x14 x15 x16 x17 x18 x19 x20 x21 v
    x23 x24 |}.
#[export] Instance create_urr_has_ethernet_inactivity_timer : HasIE create_urr
    ethernet_inactivity_timer_t :=
  {| ie := create_urr_ethernet_inactivity_timer; with_ie v c :=
    let 'mk_create_urr x1 x2 x3 x4 x5 x6 x7 x8 x9 x10 x11 x12 x13 x14 x15 x16 x17 x18 x19 x20
    x21 x22 _ x24 := c in
    mk_create_urr x1 x2 x3 x4 x5 x6 x7 x8 x9 x10 x11 x12 x13 x14 x15 x16 x17 x18 x19 x20 x21
    x22 v x24 |}.
#[export] Instance create_urr_has_additional_monitoring_time : HasIE create_urr
    additional_monitoring_time :=
  {| ie := create_urr_additional_monitoring_time; with_ie v c :=
    let 'mk_create_urr x1 x2 x3 x4 x5 x6 x7 x8 x9 x10 x11 x12 x13 x14 x15 x16 x17 x18 x19 x20
    x21 x22 x23 _ := c in
    mk_create_urr x1 x2 x3 x4 x5 x6 x7 x8 x9 x10 x11 x12 x13 x14 x15 x16 x17 x18 x19 x20 x21
    x22 x23 v |}.

Record create_qer : Type := mk_create_qer {
  create_qer_qer_id : opt qer_id_t;
  create_qer_qer_correlation_id : opt qer_correlation_id_t;
  create_qer_gate_status : opt gate_status_t;
  create_qer_maximum_bitrate : opt mbr_t;
  create_qer_guaranteed_bitrate : opt gbr_t;
  create_qer_packet_rate : opt packet_rate_t;
  create_qer_dl_flow_level_marking : opt dl_flow_level_marking_t;
  create_qer_qos_flow_identifier : opt qfi_t;
  create_qer_reflective_qos : opt rqi_t
}.
#[export] Instance create_qer_inhabited : Inhabited create_qer :=
  populate (mk_create_qer unset unset unset unset unset unset unset unset unset).
#[export] Instance create_qer_has_qer_id : HasIE create_qer qer_id_t :=
  {| ie := create_qer_qer_id; with_ie v c :=
    let 'mk_create_qer _ x2 x3 x4 x5 x6 x7 x8 x9 := c in
    mk_create_qer v x2 x3 x4 x5 x6 x7 x8 x9 |}.
#[export] Instance create_qer_has_qer_correlation_id : HasIE create_qer qer_correlation_id_t :=
  {| ie := create_qer_qer_correlation_id; with_ie v c :=
    let 'mk_create_qer x1 _ x3 x4 x5 x6 x7 x8 x9 := c in
    mk_create_qer x1 v x3 x4 x5 x6 x7 x8 x9 |}.
#[export] Instance create_qer_has_gate_status : HasIE create_qer gate_status_t :=
  {| ie := create_qer_gate_status; with_ie v c :=
    let 'mk_create_qer x1 x2 _ x4 x5 x6 x7 x8 x9 := c in
    mk_create_qer x1 x2 v x4 x5 x6 x7 x8 x9 |}.
#[export] Instance create_qer_has_maximum_bitrate : HasIE create_qer mbr_t :=
  {| ie := create_qer_maximum_bitrate; with_ie v c :=
    let 'mk_create_qer x1 x2 x3 _ x5 x6 x7 x8 x9 := c in
    mk_create_qer x1 x2 x3 v x5 x6 x7 x8 x9 |}.
#[export] Instance create_qer_has_guaranteed_bitrate : HasIE create_qer gbr_t :=
  {| ie := create_qer_guaranteed_bitrate; with_ie v c :=
    let 'mk_create_qer x1 x2 x3 x4 _ x6 x7 x8 x9 := c in
    mk_create_qer x1 x2 x3 x4 v x6 x7 x8 x9 |}.
#[export] Instance create_qer_has_packet_rate : HasIE create_qer packet_rate_t :=
  {| ie := create_qer_packet_rate; with_ie v c :=
    let 'mk_create_qer x1 x2 x3 x4 x5 _ x7 x8 x9 := c in
    mk_create_qer x1 x2 x3 x4 x5 v x7 x8 x9 |}.
#[export] Instance create_qer_has_dl_flow_level_marking : HasIE create_qer
    dl_flow_level_marking_t :=
  {| ie := create_qer_dl_flow_level_marking; with_ie v c :=
    let 'mk_create_qer x1 x2 x3 x4 x5 x6 _ x8 x9 := c in
    mk_create_qer x1 x2 x3 x4 x5 x6 v x8 x9 |}.
#[export] Instance create_qer_has_qos_flow_identifier : HasIE create_qer qfi_t :=
  {| ie := create_qer_qos_flow_identifier; with_ie v c :=
    let 'mk_create_qer x1 x2 x3 x4 x5 x6 x7 _ x9 := c in
    mk_create_qer x1 x2 x3 x4 x5 x6 x7 v x9 |}.
#[export] Instance create_qer_has_reflective_qos : HasIE create_qer rqi_t :=
  {| ie := create_qer_reflective_qos; with_ie v c :=
    let 'mk_create_qer x1 x2 x3 x4 x5 x6 x7 x8 _ := c in
    mk_create_qer x1 x2 x3 x4 x5 x6 x7 x8 v |}.

Record create_bar : Type := mk_create_bar {
  create_bar_bar_id : opt bar_id_t;
  create_bar_downlink_data_notification_delay : opt downlink_data_notification_delay_t;
  create_bar_suggested_buffering_packets_count : opt suggested_buffering_packets_count_t
}.
#[export] Instance create_bar_inhabited : Inhabited create_bar :=
  populate (mk_create_bar unset unset unset).
#[export] Instance create_bar_has_bar_id : HasIE create_bar bar_id_t :=
  {| ie := create_bar_bar_id; with_ie v c :=
    let 'mk_create_bar _ x2 x3 := c in
    mk_create_bar v x2 x3 |}.
#[export] Instance create_bar_has_downlink_data_notification_delay : HasIE create_bar
    downlink_data_notification_delay_t :=
  {| ie := create_bar_downlink_data_notification_delay; with_ie v c :=
    let 'mk_create_bar x1 _ x3 := c in
    mk_create_bar x1 v x3 |}.
#[export] Instance create_bar_has_suggested_buffering_packets_count : HasIE create_bar
    suggested_buffering_packets_count_t :=
  {| ie := create_bar_suggested_buffering_packets_count; with_ie v c :=
    let 'mk_create_bar x1 x2 _ := c in
    mk_create_bar x1 x2 v |}.

Record create_traffic_endpoint : Type := mk_create_traffic_endpoint {
  create_traffic_endpoint_traffic_endpoint_id : opt traffic_endpoint_id_t;
  create_traffic_endpoint_local_fteid : opt fteid_t;
  create_traffic_endpoint_network_instance : opt network_instance_t;
  create_traffic_endpoint_ue_ip_address : opt ue_ip_address_t;
  create_traffic_endpoint_ethernet_pdu_session_information : opt
    ethernet_pdu_session_information_t;
  create_traffic_endpoint_framed_route : opt framed_route_t;
  create_traffic_endpoint_framed_routing : opt framed_routing_t;
  create_traffic_endpoint_framed_ipv6_route : opt framed_ipv6_route_t
}.
#[export] Instance create_traffic_endpoint_inhabited : Inhabited create_traffic_endpoint :=
  populate (mk_create_traffic_endpoint unset unset unset unset unset unset unset unset).
#[export] Instance create_traffic_endpoint_has_traffic_endpoint_id : HasIE
    create_traffic_endpoint traffic_endpoint_id_t :=
  {| ie := create_traffic_endpoint_traffic_endpoint_id; with_ie v c :=
    let 'mk_create_traffic_endpoint _ x2 x3 x4 x5 x6 x7 x8 := c in
    mk_create_traffic_endpoint v x2 x3 x4 x5 x6 x7 x8 |}.
#[export] Instance create_traffic_endpoint_has_local_fteid : HasIE create_traffic_endpoint
    fteid_t :=
  {| ie := create_traffic_endpoint_local_fteid; with_ie v c :=
    let 'mk_create_traffic_endpoint x1 _ x3 x4 x5 x6 x7 x8 := c in
    mk_create_traffic_endpoint x1 v x3 x4 x5 x6 x7 x8 |}.
#[export] Instance create_traffic_endpoint_has_network_instance : HasIE create_traffic_endpoint
    network_instance_t :=
  {| ie := create_traffic_endpoint_network_instance; with_ie v c :=
    let 'mk_create_traffic_endpoint x1 x2 _ x4 x5 x6 x7 x8 := c in
    mk_create_traffic_endpoint x1 x2 v x4 x5 x6 x7 x8 |}.
#[export] Instance create_traffic_endpoint_has_ue_ip_address : HasIE create_traffic_endpoint
    ue_ip_address_t :=
  {| ie := create_traffic_endpoint_ue_ip_address; with_ie v c :=
    let 'mk_create_traffic_endpoint x1 x2 x3 _ x5 x6 x7 x8 := c in
    mk_create_traffic_endpoint x1 x2 x3 v x5 x6 x7 x8 |}.
#[export] Instance create_traffic_endpoint_has_ethernet_pdu_session_information : HasIE
    create_traffic_endpoint ethernet_pdu_session_information_t :=
  {| ie := create_traffic_endpoint_ethernet_pdu_session_information; with_ie v c :=
    let 'mk_create_traffic_endpoint x1 x2 x3 x4 _ x6 x7 x8 := c in
    mk_create_traffic_endpoint x1 x2 x3 x4 v x6 x7 x8 |}.
#[export] Instance create_traffic_endpoint_has_framed_route : HasIE create_traffic_endpoint
    framed_route_t :=
  {| ie := create_traffic_endpoint_framed_route; with_ie v c :=
    let 'mk_create_traffic_endpoint x1 x2 x3 x4 x5 _ x7 x8 := c in
    mk_create_traffic_endpoint x1 x2 x3 x4 x5 v x7 x8 |}.
#[export] Instance create_traffic_endpoint_has_framed_routing : HasIE create_traffic_endpoint
    framed_routing_t :=
  {| ie := create_traffic_endpoint_framed_routing; with_ie v c :=
    let 'mk_create_traffic_endpoint x1 x2 x3 x4 x5 x6 _ x8 := c in
    mk_create_traffic_endpoint x1 x2 x3 x4 x5 x6 v x8 |}.
#[export] Instance create_traffic_endpoint_has_framed_ipv6_route : HasIE
    create_traffic_endpoint framed_ipv6_route_t :=
  {| ie := create_traffic_endpoint_framed_ipv6_route; with_ie v c :=
    let 'mk_create_traffic_endpoint x1 x2 x3 x4 x5 x6 x7 _ := c in
    mk_create_traffic_endpoint x1 x2 x3 x4 x5 x6 x7 v |}.

Record created_traffic_endpoint : Type := mk_created_traffic_endpoint {
  created_traffic_endpoint_traffic_endpoint_id : opt traffic_endpoint_id_t;
  created_traffic_endpoint_local_fteid : opt fteid_t
}.
#[export] Instance created_traffic_endpoint_inhabited : Inhabited created_traffic_endpoint :=
  populate (mk_created_traffic_endpoint unset unset).
#[export] Instance created_traffic_endpoint_has_traffic_endpoint_id : HasIE
    created_traffic_endpoint traffic_endpoint_id_t :=
  {| ie := created_traffic_endpoint_traffic_endpoint_id; with_ie v c :=
    let 'mk_created_traffic_endpoint _ x2 := c in
    mk_created_traffic_endpoint v x2 |}.
#[export] Instance created_traffic_endpoint_has_local_fteid : HasIE created_traffic_endpoint
    fteid_t :=
  {| ie := created_traffic_endpoint_local_fteid; with_ie v c :=
    let 'mk_created_traffic_endpoint x1 _ := c in
    mk_created_traffic_endpoint x1 v |}.

Record load_control_information : Type := mk_load_control_information {
  load_control_information_load_control_sequence_number : opt sequence_number_t;
  load_control_information_load_metric : opt metric_t
}.
#[export] Instance load_control_information_inhabited : Inhabited load_control_information :=
  populate (mk_load_control_information unset unset).
#[export] Instance load_control_information_has_load_control_sequence_number : HasIE
    load_control_information sequence_number_t :=
  {| ie := load_control_information_load_control_sequence_number; with_ie v c :=
    let 'mk_load_control_information _ x2 := c in
    mk_load_control_information v x2 |}.
#[export] Instance load_control_information_has_load_metric : HasIE load_control_information
    metric_t :=
  {| ie := load_control_information_load_metric; with_ie v c :=
    let 'mk_load_control_information x1 _ := c in
    mk_load_control_information x1 v |}.

Record overload_control_information : Type := mk_overload_control_information {
  overload_control_information_overload_control_sequence_number : opt sequence_number_t;
  overload_control_information_overload_reduction_metric : opt metric_t;
  overload_control_information_period_of_validity : opt timer_t;
  overload_control_information_overload_control_information_flags : opt oci_flags_t
}.
#[export] Instance overload_control_information_inhabited : Inhabited
    overload_control_information :=
  populate (mk_overload_control_information unset unset unset unset).
#[export] Instance overload_control_information_has_overload_control_sequence_number : HasIE
    overload_control_information sequence_number_t :=
  {| ie := overload_control_information_overload_control_sequence_number; with_ie v c :=
    let 'mk_overload_control_information _ x2 x3 x4 := c in
    mk_overload_control_information v x2 x3 x4 |}.
#[export] Instance overload_control_information_has_overload_reduction_metric : HasIE
    overload_control_information metric_t :=
  {| ie := overload_control_information_overload_reduction_metric; with_ie v c :=
    let 'mk_overload_control_information x1 _ x3 x4 := c in
    mk_overload_control_information x1 v x3 x4 |}.
#[export] Instance overload_control_information_has_period_of_validity : HasIE
    overload_control_information timer_t :=
  {| ie := overload_control_information_period_of_validity; with_ie v c :=
    let 'mk_overload_control_information x1 x2 _ x4 := c in
    mk_overload_control_information x1 x2 v x4 |}.
#[export] Instance overload_control_information_has_overload_control_information_flags : HasIE
    overload_control_information oci_flags_t :=
  {| ie := overload_control_information_overload_control_information_flags; with_ie v c :=
    let 'mk_overload_control_information x1 x2 x3 _ := c in
    mk_overload_control_information x1 x2 x3 v |}.

Record remove_urr : Type := mk_remove_urr {
  remove_urr_urr_id : opt urr_id_t
}.
#[export] Instance remove_urr_inhabited : Inhabited remove_urr :=
  populate (mk_remove_urr unset).
#[export] Instance remove_urr_has_urr_id : HasIE remove_urr urr_id_t :=
  {| ie := remove_urr_urr_id; with_ie v c :=
    let 'mk_remove_urr _ := c in
    mk_remove_urr v |}.

Record remove_qer : Type := mk_remove_qer {
  remove_qer_qer_id : opt qer_id_t
}.
#[export] Instance remove_qer_inhabited : Inhabited remove_qer :=
  populate (mk_remove_qer unset).
#[export] Instance remove_qer_has_qer_id : HasIE remove_qer qer_id_t :=
  {| ie := remove_qer_qer_id; with_ie v c :=
    let 'mk_remove_qer _ := c in
    mk_remove_qer v |}.

Record remove_bar : Type := mk_remove_bar {
  remove_bar_bar_id : opt bar_id_t
}.
#[export] Instance remove_bar_inhabited : Inhabited remove_bar :=
  populate (mk_remove_bar unset).
#[export] Instance remove_bar_has_bar_id : HasIE remove_bar bar_id_t :=
  {| ie := remove_bar_bar_id; with_ie v c :=
    let 'mk_remove_bar _ := c in
    mk_remove_bar v |}.

Record remove_traffic_endpoint : Type := mk_remove_traffic_endpoint {
  remove_traffic_endpoint_traffic_endpoint_id : opt traffic_endpoint_id_t
}.
#[export] Instance remove_traffic_endpoint_inhabited : Inhabited remove_traffic_endpoint :=
  populate (mk_remove_traffic_endpoint unset).
#[export] Instance remove_traffic_endpoint_has_traffic_endpoint_id : HasIE
    remove_traffic_endpoint traffic_endpoint_id_t :=
  {| ie := remove_traffic_endpoint_traffic_endpoint_id; with_ie v c :=
    let 'mk_remove_traffic_endpoint _ := c in
    mk_remove_traffic_endpoint v |}.

Record update_urr : Type := mk_update_urr {
  update_urr_urr_id : opt urr_id_t;
  update_urr_measurement_method : opt measurement_method_t;
  update_urr_reporting_triggers : opt reporting_triggers_t;
  update_urr_measurement_period : opt measurement_period_t;
  update_urr_volume_threshold : opt volume_threshold_t;
  update_urr_volume_quota : opt volume_quota_t;
  update_urr_time_threshold : opt time_threshold_t;
  update_urr_time_quota : opt time_quota_t;
  update_urr_quota_holding_time : opt quota_holding_time_t;
  update_urr_dropped_dl_traffic_threshold : opt dropped_dl_traffic_threshold_t;
  update_urr_monitoring_time : opt monitoring_time_t;
  update_urr_event_information : opt event_information;
  update_urr_subsequent_volume_threshold : opt subsequent_volume_threshold_t;
  update_urr_subsequent_time_threshold : opt subsequent_time_threshold_t;
  update_urr_subsequent_volume_quota : opt subsequent_volume_quota_t;
  update_urr_subsequent_time_quota : opt subsequent_time_quota_t;
  update_urr_inactivity_detection_time : opt inactivity_detection_time_t;
  update_urr_linked_urr_id : opt linked_urr_id_t;
  update_urr_measurement_information : opt measurement_information_t;
  update_urr_time_quota_mechanism : opt time_quota_mechanism_t;
  update_urr_aggregated_urrs : opt aggregated_urrs;
  update_urr_far_id_for_quota_action : opt far_id_t;
  update_urr_ethernet_inactivity_timer : opt ethernet_inactivity_timer_t;
  update_urr_additional_monitoring_time : opt additional_monitoring_time
}.
#[export] Instance update_urr_inhabited : Inhabited update_urr :=
  populate (mk_update_urr unset unset unset unset unset unset unset unset unset unset unset
    unset unset unset unset unset unset unset unset unset unset unset unset unset).
#[export] Instance update_urr_has_urr_id : HasIE update_urr urr_id_t :=
  {| ie := update_urr_urr_id; with_ie v c :=
    let 'mk_update_urr _ x2 x3 x4 x5 x6 x7 x8 x9 x10 x11 x12 x13 x14 x15 x16 x17 x18 x19 x20
    x21 x22 x23 x24 := c in
    mk_update_urr v x2 x3 x4 x5 x6 x7 x8 x9 x10 x11 x12 x13 x14 x15 x16 x17 x18 x19 x20 x21 x22
    x23 x24 |}.
#[export] Instance update_urr_has_measurement_method : HasIE update_urr measurement_method_t :=
  {| ie := update_urr_measurement_method; with_ie v c :=
    let 'mk_update_urr x1 _ x3 x4 x5 x6 x7 x8 x9 x10 x11 x12 x13 x14 x15 x16 x17 x18 x19 x20
    x21 x22 x23 x24 := c in
    mk_update_urr x1 v x3 x4 x5 x6 x7 x8 x9 x10 x11 x12 x13 x14 x15 x16 x17 x18 x19 x20 x21 x22
    x23 x24 |}.
#[export] Instance update_urr_has_reporting_triggers : HasIE update_urr reporting_triggers_t :=
  {| ie := update_urr_reporting_triggers; with_ie v c :=
    let 'mk_update_urr x1 x2 _ x4 x5 x6 x7 x8 x9 x10 x11 x12 x13 x14 x15 x16 x17 x18 x19 x20
    x21 x22 x23 x24 := c in
    mk_update_urr x1 x2 v x4 x5 x6 x7 x8 x9 x10 x11 x12 x13 x14 x15 x16 x17 x18 x19 x20 x21 x22
    x23 x24 |}.
#[export] Instance update_urr_has_measurement_period : HasIE update_urr measurement_period_t :=
  {| ie := update_urr_measurement_period; with_ie v c :=
    let 'mk_update_urr x1 x2 x3 _ x5 x6 x7 x8 x9 x10 x11 x12 x13 x14 x15 x16 x17 x18 x19 x20
    x21 x22 x23 x24 := c in
    mk_update_urr x1 x2 x3 v x5 x6 x7 x8 x9 x10 x11 x12 x13 x14 x15 x16 x17 x18 x19 x20 x21 x22
    x23 x24 |}.
#[export] Instance update_urr_has_volume_threshold : HasIE update_urr volume_threshold_t :=
  {| ie := update_urr_volume_threshold; with_ie v c :=
    let 'mk_update_urr x1 x2 x3 x4 _ x6 x7 x8 x9 x10 x11 x12 x13 x14 x15 x16 x17 x18 x19 x20
    x21 x22 x23 x24 := c in
    mk_update_urr x1 x2 x3 x4 v x6 x7 x8 x9 x10 x11 x12 x13 x14 x15 x16 x17 x18 x19 x20 x21 x22
    x23 x24 |}.
#[export] Instance update_urr_has_volume_quota : HasIE update_urr volume_quota_t :=
  {| ie := update_urr_volume_quota; with_ie v c :=
    let 'mk_update_urr x1 x2 x3 x4 x5 _ x7 x8 x9 x10 x11 x12 x13 x14 x15 x16 x17 x18 x19 x20
    x21 x22 x23 x24 := c in
    mk_update_urr x1 x2 x3 x4 x5 v x7 x8 x9 x10 x11 x12 x13 x14 x15 x16 x17 x18 x19 x20 x21 x22
    x23 x24 |}.
#[export] Instance update_urr_has_time_threshold : HasIE update_urr time_threshold_t :=
  {| ie := update_urr_time_threshold; with_ie v c :=
    let 'mk_update_urr x1 x2 x3 x4 x5 x6 _ x8 x9 x10 x11 x12 x13 x14 x15 x16 x17 x18 x19 x20
    x21 x22 x23 x24 := c in
    mk_update_urr x1 x2 x3 x4 x5 x6 v x8 x9 x10 x11 x12 x13 x14 x15 x16 x17 x18 x19 x20 x21 x22
    x23 x24 |}.
#[export] Instance update_urr_has_time_quota : HasIE update_urr time_quota_t :=
  {| ie := update_urr_time_quota; with_ie v c :=
    let 'mk_update_urr x1 x2 x3 x4 x5 x6 x7 _ x9 x10 x11 x12 x13 x14 x15 x16 x17 x18 x19 x20
    x21 x22 x23 x24 := c in
    mk_update_urr x1 x2 x3 x4 x5 x6 x7 v x9 x10 x11 x12 x13 x14 x15 x16 x17 x18 x19 x20 x21 x22
    x23 x24 |}.
#[export] Instance update_urr_has_quota_holding_time : HasIE update_urr quota_holding_time_t :=
  {| ie := update_urr_quota_holding_time; with_ie v c :=
    let 'mk_update_urr x1 x2 x3 x4 x5 x6 x7 x8 _ x10 x11 x12 x13 x14 x15 x16 x17 x18 x19 x20
    x21 x22 x23 x24 := c in
    mk_update_urr x1 x2 x3 x4 x5 x6 x7 x8 v x10 x11 x12 x13 x14 x15 x16 x17 x18 x19 x20 x21 x22
    x23 x24 |}.
#[export] Instance update_urr_has_dropped_dl_traffic_threshold : HasIE update_urr
    dropped_dl_traffic_threshold_t :=
  {| ie := update_urr_dropped_dl_traffic_threshold; with_ie v c :=
    let 'mk_update_urr x1 x2 x3 x4 x5 x6 x7 x8 x9 _ x11 x12 x13 x14 x15 x16 x17 x18 x19 x20 x21
    x22 x23 x24 := c in
    mk_update_urr x1 x2 x3 x4 x5 x6 x7 x8 x9 v x11 x12 x13 x14 x15 x16 x17 x18 x19 x20 x21 x22
    x23 x24 |}.
#[export] Instance update_urr_has_monitoring_time : HasIE update_urr monitoring_time_t :=
  {| ie := update_urr_monitoring_time; with_ie v c :=
    let 'mk_update_urr x1 x2 x3 x4 x5 x6 x7 x8 x9 x10 _ x12 x13 x14 x15 x16 x17 x18 x19 x20 x21
    x22 x23 x24 := c in
    mk_update_urr x1 x2 x3 x4 x5 x6 x7 x8 x9 x10 v x12 x13 x14 x15 x16 x17 x18 x19 x20 x21 x22
    x23 x24 |}.
#[export] Instance update_urr_has_event_information : HasIE update_urr event_information :=
  {| ie := update_urr_event_information; with_ie v c :=
    let 'mk_update_urr x1 x2 x3 x4 x5 x6 x7 x8 x9 x10 x11 _ x13 x14 x15 x16 x17 x18 x19 x20 x21
    x22 x23 x24 := c in
    mk_update_urr x1 x2 x3 x4 x5 x6 x7 x8 x9 x10 x11 v x13 x14 x15 x16 x17 x18 x19 x20 x21 x22
    x23 x24 |}.
#[export] Instance update_urr_has_subsequent_volume_threshold : HasIE update_urr
    subsequent_volume_threshold_t :=
  {| ie := update_urr_subsequent_volume_threshold; with_ie v c :=
    let 'mk_update_urr x1 x2 x3 x4 x5 x6 x7 x8 x9 x10 x11 x12 _ x14 x15 x16 x17 x18 x19 x20 x21
    x22 x23 x24 := c in
    mk_update_urr x1 x2 x3 x4 x5 x6 x7 x8 x9 x10 x11 x12 v x14 x15 x16 x17 x18 x19 x20 x21 x22
    x23 x24 |}.
#[export] Instance update_urr_has_subsequent_time_threshold : HasIE update_urr
    subsequent_time_threshold_t :=
  {| ie := update_urr_subsequent_time_threshold; with_ie v c :=
    let 'mk_update_urr x1 x2 x3 x4 x5 x6 x7 x8 x9 x10 x11 x12 x13 _ x15 x16 x17 x18 x19 x20 x21
    x22 x23 x24 := c in
    mk_update_urr x1 x2 x3 x4 x5 x6 x7 x8 x9 x10 x11 x12 x13 v x15 x16 x17 x18 x19 x20 x21 x22
    x23 x24 |}.
#[export] Instance update_urr_has_subsequent_volume_quota : HasIE update_urr
    subsequent_volume_quota_t :=
  {| ie := update_urr_subsequent_volume_quota; with_ie v c :=
    let 'mk_update_urr x1 x2 x3 x4 x5 x6 x7 x8 x9 x10 x11 x12 x13 x14 _ x16 x17 x18 x19 x20 x21
    x22 x23 x24 := c in
    mk_update_urr x1 x2 x3 x4 x5 x6 x7 x8 x9 x10 x11 x12 x13 x14 v x16 x17 x18 x19 x20 x21 x22
    x23 x24 |}.
#[export] Instance update_urr_has_subsequent_time_quota : HasIE update_urr
    subsequent_time_quota_t :=
  {| ie := update_urr_subsequent_time_quota; with_ie v c :=
    let 'mk_update_urr x1 x2 x3 x4 x5 x6 x7 x8 x9 x10 x11 x12 x13 x14 x15 _ x17 x18 x19 x20 x21
    x22 x23 x24 := c in
    mk_update_urr x1 x2 x3 x4 x5 x6 x7 x8 x9 x10 x11 x12 x13 x14 x15 v x17 x18 x19 x20 x21 x22
    x23 x24 |}.
#[export] Instance update_urr_has_inactivity_detection_time : HasIE update_urr
    inactivity_detection_time_t :=
  {| ie := update_urr_inactivity_detection_time; with_ie v c :=
    let 'mk_update_urr x1 x2 x3 x4 x5 x6 x7 x8 x9 x10 x11 x12 x13 x14 x15 x16 _ x18 x19 x20 x21
    x22 x23 x24 := c in
    mk_update_urr x1 x2 x3 x4 x5 x6 x7 x8 x9 x10 x11 x12 x13 x14 x15 x16 v x18 x19 x20 x21 x22
    x23 x24 |}.
#[export] Instance update_urr_has_linked_urr_id : HasIE update_urr linked_urr_id_t :=
  {| ie := update_urr_linked_urr_id; with_ie v c :=
    let 'mk_update_urr x1 x2 x3 x4 x5 x6 x7 x8 x9 x10 x11 x12 x13 x14 x15 x16 x17 _ x19 x20 x21
    x22 x23 x24 := c in
    mk_update_urr x1 x2 x3 x4 x5 x6 x7 x8 x9 x10 x11 x12 x13 x14 x15 x16 x17 v x19 x20 x21 x22
    x23 x24 |}.
#[export] Instance update_urr_has_measurement_information : HasIE update_urr
    measurement_information_t :=
  {| ie := update_urr_measurement_information; with_ie v c :=
    let 'mk_update_urr x1 x2 x3 x4 x5 x6 x7 x8 x9 x10 x11 x12 x13 x14 x15 x16 x17 x18 _ x20 x21
    x22 x23 x24 := c in
    mk_update_urr x1 x2 x3 x4 x5 x6 x7 x8 x9 x10 x11 x12 x13 x14 x15 x16 x17 x18 v x20 x21 x22
    x23 x24 |}.
#[export] Instance update_urr_has_time_quota_mechanism : HasIE update_urr
    time_quota_mechanism_t :=
  {| ie := update_urr_time_quota_mechanism; with_ie v c :=
    let 'mk_update_urr x1 x2 x3 x4 x5 x6 x7 x8 x9 x10 x11 x12 x13 x14 x15 x16 x17 x18 x19 _ x21
    x22 x23 x24 := c in
    mk_update_urr x1 x2 x3 x4 x5 x6 x7 x8 x9 x10 x11 x12 x13 x14 x15 x16 x17 x18 x19 v x21 x22
    x23 x24 |}.
#[export] Instance update_urr_has_aggregated_urrs : HasIE update_urr aggregated_urrs :=
  {| ie := update_urr_aggregated_urrs; with_ie v c :=
    let 'mk_update_urr x1 x2 x3 x4 x5 x6 x7 x8 x9 x10 x11 x12 x13 x14 x15 x16 x17 x18 x19 x20 _
    x22 x23 x24 := c in
    mk_update_urr x1 x2 x3 x4 x5 x6 x7 x8 x9 x10 x11 x12 x13 x14 x15 x16 x17 x18 x19 x20 v x22
    x23 x24 |}.
#[export] Instance update_urr_has_far_id_for_quota_action : HasIE update_urr far_id_t :=
  {| ie := update_urr_far_id_for_quota_action; with_ie v c :=
    let 'mk_update_urr x1 x2 x3 x4 x5 x6 x7 x8 x9 x10 x11 x12 x13 x14 x15 x16 x17 x18 x19 x20
    x21 _ x23 x24 := c in
    mk_update_urr x1 x2 x3 x4 x5 x6 x7 x8 x9 x10 x11 x12 x13 x14 x15 x16 x17 x18 x19 x20 x21 v
    x23 x24 |}.
#[export] Instance update_urr_has_ethernet_inactivity_timer : HasIE update_urr
    ethernet_inactivity_timer_t :=
  {| ie := update_urr_ethernet_inactivity_timer; with_ie v c :=
    let 'mk_update_urr x1 x2 x3 x4 x5 x6 x7 x8 x9 x10 x11 x12 x13 x14 x15 x16 x17 x18 x19 x20
    x21 x22 _ x24 := c in
    mk_update_urr x1 x2 x3 x4 x5 x6 x7 x8 x9 x10 x11 x12 x13 x14 x15 x16 x17 x18 x19 x20 x21
    x22 v x24 |}.
#[export] Instance update_urr_has_additional_monitoring_time : HasIE update_urr
    additional_monitoring_time :=
  {| ie := update_urr_additional_monitoring_time; with_ie v c :=
    let 'mk_update_urr x1 x2 x3 x4 x5 x6 x7 x8 x9 x10 x11 x12 x13 x14 x15 x16 x17 x18 x19 x20
    x21 x22 x23 _ := c in
    mk_update_urr x1 x2 x3 x4 x5 x6 x7 x8 x9 x10 x11 x12 x13 x14 x15 x16 x17 x18 x19 x20 x21
    x22 x23 v |}.

Record update_qer : Type := mk_update_qer {
  update_qer_qer_id : opt qer_id_t;
  update_qer_qer_correlation_id : opt qer_correlation_id_t;
  update_qer_gate_status : opt gate_status_t;
  update_qer_maximum_bitrate : opt mbr_t;
  update_qer_guaranteed_bitrate : opt gbr_t;
  update_qer_packet_rate : opt packet_rate_t;
  update_qer_dl_flow_level_marking : opt dl_flow_level_marking_t;
  update_qer_qos_flow_identifier : opt qfi_t;
  update_qer_reflective_qos : opt rqi_t
}.
#[export] Instance update_qer_inhabited : Inhabited update_qer :=
  populate (mk_update_qer unset unset unset unset unset unset unset unset unset).
#[export] Instance update_qer_has_qer_id : HasIE update_qer qer_id_t :=
  {| ie := update_qer_qer_id; with_ie v c :=
    let 'mk_update_qer _ x2 x3 x4 x5 x6 x7 x8 x9 := c in
    mk_update_qer v x2 x3 x4 x5 x6 x7 x8 x9 |}.
#[export] Instance update_qer_has_qer_correlation_id : HasIE update_qer qer_correlation_id_t :=
  {| ie := update_qer_qer_correlation_id; with_ie v c :=
    let 'mk_update_qer x1 _ x3 x4 x5 x6 x7 x8 x9 := c in
    mk_update_qer x1 v x3 x4 x5 x6 x7 x8 x9 |}.
#[export] Instance update_qer_has_gate_status : HasIE update_qer gate_status_t :=
  {| ie := update_qer_gate_status; with_ie v c :=
    let 'mk_update_qer x1 x2 _ x4 x5 x6 x7 x8 x9 := c in
    mk_update_qer x1 x2 v x4 x5 x6 x7 x8 x9 |}.
#[export] Instance update_qer_has_maximum_bitrate : HasIE update_qer mbr_t :=
  {| ie := update_qer_maximum_bitrate; with_ie v c :=
    let 'mk_update_qer x1 x2 x3 _ x5 x6 x7 x8 x9 := c in
    mk_update_qer x1 x2 x3 v x5 x6 x7 x8 x9 |}.
#[export] Instance update_qer_has_guaranteed_bitrate : HasIE update_qer gbr_t :=
  {| ie := update_qer_guaranteed_bitrate; with_ie v c :=
    let 'mk_update_qer x1 x2 x3 x4 _ x6 x7 x8 x9 := c in
    mk_update_qer x1 x2 x3 x4 v x6 x7 x8 x9 |}.
#[export] Instance update_qer_has_packet_rate : HasIE update_qer packet_rate_t :=
  {| ie := update_qer_packet_rate; with_ie v c :=
    let 'mk_update_qer x1 x2 x3 x4 x5 _ x7 x8 x9 := c in
    mk_update_qer x1 x2 x3 x4 x5 v x7 x8 x9 |}.
#[export] Instance update_qer_has_dl_flow_level_marking : HasIE update_qer
    dl_flow_level_marking_t :=
  {| ie := update_qer_dl_flow_level_marking; with_ie v c :=
    let 'mk_update_qer x1 x2 x3 x4 x5 x6 _ x8 x9 := c in
    mk_update_qer x1 x2 x3 x4 x5 x6 v x8 x9 |}.
#[export] Instance update_qer_has_qos_flow_identifier : HasIE update_qer qfi_t :=
  {| ie := update_qer_qos_flow_identifier; with_ie v c :=
    let 'mk_update_qer x1 x2 x3 x4 x5 x6 x7 _ x9 := c in
    mk_update_qer x1 x2 x3 x4 x5 x6 x7 v x9 |}.
#[export] Instance update_qer_has_reflective_qos : HasIE update_qer rqi_t :=
  {| ie := update_qer_reflective_qos; with_ie v c :=
    let 'mk_update_qer x1 x2 x3 x4 x5 x6 x7 x8 _ := c in
    mk_update_qer x1 x2 x3 x4 x5 x6 x7 x8 v |}.

Record update_bar_within_pfcp_session_modification_request : Type :=
    mk_update_bar_within_pfcp_session_modification_request {
  update_bar_modification_bar_id : opt bar_id_t;
  update_bar_modification_downlink_data_notification_delay : opt
    downlink_data_notification_delay_t;
  update_bar_modification_suggested_buffering_packets_count : opt
    suggested_buffering_packets_count_t
}.
#[export] Instance update_bar_within_pfcp_session_modification_request_inhabited : Inhabited
    update_bar_within_pfcp_session_modification_request :=
  populate (mk_update_bar_within_pfcp_session_modification_request unset unset unset).
#[export] Instance update_bar_modification_has_bar_id : HasIE
    update_bar_within_pfcp_session_modification_request bar_id_t :=
  {| ie := update_bar_modification_bar_id; with_ie v c :=
    let 'mk_update_bar_within_pfcp_session_modification_request _ x2 x3 := c in
    mk_update_bar_within_pfcp_session_modification_request v x2 x3 |}.
#[export] Instance update_bar_modification_has_downlink_data_notification_delay : HasIE
    update_bar_within_pfcp_session_modification_request downlink_data_notification_delay_t :=
  {| ie := update_bar_modification_downlink_data_notification_delay; with_ie v c :=
    let 'mk_update_bar_within_pfcp_session_modification_request x1 _ x3 := c in
    mk_update_bar_within_pfcp_session_modification_request x1 v x3 |}.
#[export] Instance update_bar_modification_has_suggested_buffering_packets_count : HasIE
    update_bar_within_pfcp_session_modification_request suggested_buffering_packets_count_t :=
  {| ie := update_bar_modification_suggested_buffering_packets_count; with_ie v c :=
    let 'mk_update_bar_within_pfcp_session_modification_request x1 x2 _ := c in
    mk_update_bar_within_pfcp_session_modification_request x1 x2 v |}.

Record update_bar_within_pfcp_session_report_response : Type :=
    mk_update_bar_within_pfcp_session_report_response {
  update_bar_report_bar_id : opt bar_id_t;
  update_bar_report_downlink_data_notification_delay : opt downlink_data_notification_delay_t;
  update_bar_report_dl_buffering_duration : opt dl_buffering_duration_t;
  update_bar_report_dl_buffering_buffering_suggested_packet_count : opt
    dl_buffering_suggested_packet_count_t;
  update_bar_report_suggested_buffering_packets_count : opt suggested_buffering_packets_count_t
}.
#[export] Instance update_bar_within_pfcp_session_report_response_inhabited : Inhabited
    update_bar_within_pfcp_session_report_response :=
  populate (mk_update_bar_within_pfcp_session_report_response unset unset unset unset unset).
#[export] Instance update_bar_report_has_bar_id : HasIE
    update_bar_within_pfcp_session_report_response bar_id_t :=
  {| ie := update_bar_report_bar_id; with_ie v c :=
    let 'mk_update_bar_within_pfcp_session_report_response _ x2 x3 x4 x5 := c in
    mk_update_bar_within_pfcp_session_report_response v x2 x3 x4 x5 |}.
#[export] Instance update_bar_report_has_downlink_data_notification_delay : HasIE
    update_bar_within_pfcp_session_report_response downlink_data_notification_delay_t :=
  {| ie := update_bar_report_downlink_data_notification_delay; with_ie v c :=
    let 'mk_update_bar_within_pfcp_session_report_response x1 _ x3 x4 x5 := c in
    mk_update_bar_within_pfcp_session_report_response x1 v x3 x4 x5 |}.
#[export] Instance update_bar_report_has_dl_buffering_duration : HasIE
    update_bar_within_pfcp_session_report_response dl_buffering_duration_t :=
  {| ie := update_bar_report_dl_buffering_duration; with_ie v c :=
    let 'mk_update_bar_within_pfcp_session_report_response x1 x2 _ x4 x5 := c in
    mk_update_bar_within_pfcp_session_report_response x1 x2 v x4 x5 |}.
#[export] Instance update_bar_report_has_dl_buffering_buffering_suggested_packet_count : HasIE
    update_bar_within_pfcp_session_report_response dl_buffering_suggested_packet_count_t :=
  {| ie := update_bar_report_dl_buffering_buffering_suggested_packet_count; with_ie v c :=
    let 'mk_update_bar_within_pfcp_session_report_response x1 x2 x3 _ x5 := c in
    mk_update_bar_within_pfcp_session_report_response x1 x2 x3 v x5 |}.
#[export] Instance update_bar_report_has_suggested_buffering_packets_count : HasIE
    update_bar_within_pfcp_session_report_response suggested_buffering_packets_count_t :=
  {| ie := update_bar_report_suggested_buffering_packets_count; with_ie v c :=
    let 'mk_update_bar_within_pfcp_session_report_response x1 x2 x3 x4 _ := c in
    mk_update_bar_within_pfcp_session_report_response x1 x2 x3 x4 v |}.

Record update_traffic_endpoint : Type := mk_update_traffic_endpoint {
  update_traffic_endpoint_traffic_endpoint_id : opt traffic_endpoint_id_t;
  update_traffic_endpoint_local_fteid : opt fteid_t;
  update_traffic_endpoint_network_instance : opt network_instance_t;
  update_traffic_endpoint_ue_ip_address : opt ue_ip_address_t;
  update_traffic_endpoint_framed_route : opt framed_route_t;
  update_traffic_endpoint_framed_routing : opt framed_routing_t;
  update_traffic_endpoint_framed_ipv6_route : opt framed_ipv6_route_t
}.
#[export] Instance update_traffic_endpoint_inhabited : Inhabited update_traffic_endpoint :=
  populate (mk_update_traffic_endpoint unset unset unset unset unset unset unset).
#[export] Instance update_traffic_endpoint_has_traffic_endpoint_id : HasIE
    update_traffic_endpoint traffic_endpoint_id_t :=
  {| ie := update_traffic_endpoint_traffic_endpoint_id; with_ie v c :=
    let 'mk_update_traffic_endpoint _ x2 x3 x4 x5 x6 x7 := c in
    mk_update_traffic_endpoint v x2 x3 x4 x5 x6 x7 |}.
#[export] Instance update_traffic_endpoint_has_local_fteid : HasIE update_traffic_endpoint
    fteid_t :=
  {| ie := update_traffic_endpoint_local_fteid; with_ie v c :=
    let 'mk_update_traffic_endpoint x1 _ x3 x4 x5 x6 x7 := c in
    mk_update_traffic_endpoint x1 v x3 x4 x5 x6 x7 |}.
#[export] Instance update_traffic_endpoint_has_network_instance : HasIE update_traffic_endpoint
    network_instance_t :=
  {| ie := update_traffic_endpoint_network_instance; with_ie v c :=
    let 'mk_update_traffic_endpoint x1 x2 _ x4 x5 x6 x7 := c in
    mk_update_traffic_endpoint x1 x2 v x4 x5 x6 x7 |}.
#[export] Instance update_traffic_endpoint_has_ue_ip_address : HasIE update_traffic_endpoint
    ue_ip_address_t :=
  {| ie := update_traffic_endpoint_ue_ip_address; with_ie v c :=
    let 'mk_update_traffic_endpoint x1 x2 x3 _ x5 x6 x7 := c in
    mk_update_traffic_endpoint x1 x2 x3 v x5 x6 x7 |}.
#[export] Instance update_traffic_endpoint_has_framed_route : HasIE update_traffic_endpoint
    framed_route_t :=
  {| ie := update_traffic_endpoint_framed_route; with_ie v c :=
    let 'mk_update_traffic_endpoint x1 x2 x3 x4 _ x6 x7 := c in
    mk_update_traffic_endpoint x1 x2 x3 x4 v x6 x7 |}.
#[export] Instance update_traffic_endpoint_has_framed_routing : HasIE update_traffic_endpoint
    framed_routing_t :=
  {| ie := update_traffic_endpoint_framed_routing; with_ie v c :=
    let 'mk_update_traffic_endpoint x1 x2 x3 x4 x5 _ x7 := c in
    mk_update_traffic_endpoint x1 x2 x3 x4 x5 v x7 |}.
#[export] Instance update_traffic_endpoint_has_framed_ipv6_route : HasIE
    update_traffic_endpoint framed_ipv6_route_t :=
  {| ie := update_traffic_endpoint_framed_ipv6_route; with_ie v c :=
    let 'mk_update_traffic_endpoint x1 x2 x3 x4 x5 x6 _ := c in
    mk_update_traffic_endpoint x1 x2 x3 x4 x5 x6 v |}.

Record ethernet_traffic_information : Type := mk_ethernet_traffic_information {
  ethernet_traffic_information_mac_addresses_detected : opt mac_addresses_detected_t;
  ethernet_traffic_information_mac_addresses_removed : opt mac_addresses_removed_t
}.
#[export] Instance ethernet_traffic_information_inhabited : Inhabited
    ethernet_traffic_information :=
  populate (mk_ethernet_traffic_information unset unset).
#[export] Instance ethernet_traffic_information_has_mac_addresses_detected : HasIE
    ethernet_traffic_information mac_addresses_detected_t :=
  {| ie := ethernet_traffic_information_mac_addresses_detected; with_ie v c :=
    let 'mk_ethernet_traffic_information _ x2 := c in
    mk_ethernet_traffic_information v x2 |}.
#[export] Instance ethernet_traffic_information_has_mac_addresses_removed : HasIE
    ethernet_traffic_information mac_addresses_removed_t :=
  {| ie := ethernet_traffic_information_mac_addresses_removed; with_ie v c :=
    let 'mk_ethernet_traffic_information x1 _ := c in
    mk_ethernet_traffic_information x1 v |}.

Record usage_report_within_pfcp_session_modification_response : Type :=
    mk_usage_report_within_pfcp_session_modification_response {
  usage_report_modification_urr_id : opt urr_id_t;
  usage_report_modification_ur_seqn : opt ur_seqn_t;
  usage_report_modification_usage_report_trigger : opt usage_report_trigger_t;
  usage_report_modification_start_time : opt start_time_t;
  usage_report_modification_end_time : opt end_time_t;
  usage_report_modification_volume_measurement : opt volume_measurement_t;
  usage_report_modification_duration_measurement : opt duration_measurement_t;
  usage_report_modification_time_of_first_packet : opt time_of_first_packet_t;
  usage_report_modification_time_of_last_packet : opt time_of_last_packet_t;
  usage_report_modification_usage_information : opt usage_information_t;
  usage_report_modification_query_urr_reference : opt query_urr_reference_t;
  usage_report_modification_ethernet_traffic_information : opt ethernet_traffic_information
}.
#[export] Instance usage_report_within_pfcp_session_modification_response_inhabited : Inhabited
    usage_report_within_pfcp_session_modification_response :=
  populate (mk_usage_report_within_pfcp_session_modification_response unset unset unset unset
    unset unset unset unset unset unset unset unset).
#[export] Instance usage_report_modification_has_urr_id : HasIE
    usage_report_within_pfcp_session_modification_response urr_id_t :=
  {| ie := usage_report_modification_urr_id; with_ie v c :=
    let 'mk_usage_report_within_pfcp_session_modification_response _ x2 x3 x4 x5 x6 x7 x8 x9
    x10 x11 x12 := c in
    mk_usage_report_within_pfcp_session_modification_response v x2 x3 x4 x5 x6 x7 x8 x9 x10 x11
    x12 |}.
#[export] Instance usage_report_modification_has_ur_seqn : HasIE
    usage_report_within_pfcp_session_modification_response ur_seqn_t :=
  {| ie := usage_report_modification_ur_seqn; with_ie v c :=
    let 'mk_usage_report_within_pfcp_session_modification_response x1 _ x3 x4 x5 x6 x7 x8 x9
    x10 x11 x12 := c in
    mk_usage_report_within_pfcp_session_modification_response x1 v x3 x4 x5 x6 x7 x8 x9 x10 x11
    x12 |}.
#[export] Instance usage_report_modification_has_usage_report_trigger : HasIE
    usage_report_within_pfcp_session_modification_response usage_report_trigger_t :=
  {| ie := usage_report_modification_usage_report_trigger; with_ie v c :=
    let 'mk_usage_report_within_pfcp_session_modification_response x1 x2 _ x4 x5 x6 x7 x8 x9
    x10 x11 x12 := c in
    mk_usage_report_within_pfcp_session_modification_response x1 x2 v x4 x5 x6 x7 x8 x9 x10 x11
    x12 |}.
#[export] Instance usage_report_modification_has_start_time : HasIE
    usage_report_within_pfcp_session_modification_response start_time_t :=
  {| ie := usage_report_modification_start_time; with_ie v c :=
    let 'mk_usage_report_within_pfcp_session_modification_response x1 x2 x3 _ x5 x6 x7 x8 x9
    x10 x11 x12 := c in
    mk_usage_report_within_pfcp_session_modification_response x1 x2 x3 v x5 x6 x7 x8 x9 x10 x11
    x12 |}.
#[export] Instance usage_report_modification_has_end_time : HasIE
    usage_report_within_pfcp_session_modification_response end_time_t :=
  {| ie := usage_report_modification_end_time; with_ie v c :=
    let 'mk_usage_report_within_pfcp_session_modification_response x1 x2 x3 x4 _ x6 x7 x8 x9
    x10 x11 x12 := c in
    mk_usage_report_within_pfcp_session_modification_response x1 x2 x3 x4 v x6 x7 x8 x9 x10 x11
    x12 |}.
#[export] Instance usage_report_modification_has_volume_measurement : HasIE
    usage_report_within_pfcp_session_modification_response volume_measurement_t :=
  {| ie := usage_report_modification_volume_measurement; with_ie v c :=
    let 'mk_usage_report_within_pfcp_session_modification_response x1 x2 x3 x4 x5 _ x7 x8 x9
    x10 x11 x12 := c in
    mk_usage_report_within_pfcp_session_modification_response x1 x2 x3 x4 x5 v x7 x8 x9 x10 x11
    x12 |}.
#[export] Instance usage_report_modification_has_duration_measurement : HasIE
    usage_report_within_pfcp_session_modification_response duration_measurement_t :=
  {| ie := usage_report_modification_duration_measurement; with_ie v c :=
    let 'mk_usage_report_within_pfcp_session_modification_response x1 x2 x3 x4 x5 x6 _ x8 x9
    x10 x11 x12 := c in
    mk_usage_report_within_pfcp_session_modification_response x1 x2 x3 x4 x5 x6 v x8 x9 x10 x11
    x12 |}.
#[export] Instance usage_report_modification_has_time_of_first_packet : HasIE
    usage_report_within_pfcp_session_modification_response time_of_first_packet_t :=
  {| ie := usage_report_modification_time_of_first_packet; with_ie v c :=
    let 'mk_usage_report_within_pfcp_session_modification_response x1 x2 x3 x4 x5 x6 x7 _ x9
    x10 x11 x12 := c in
    mk_usage_report_within_pfcp_session_modification_response x1 x2 x3 x4 x5 x6 x7 v x9 x10 x11
    x12 |}.
#[export] Instance usage_report_modification_has_time_of_last_packet : HasIE
    usage_report_within_pfcp_session_modification_response time_of_last_packet_t :=
  {| ie := usage_report_modification_time_of_last_packet; with_ie v c :=
    let 'mk_usage_report_within_pfcp_session_modification_response x1 x2 x3 x4 x5 x6 x7 x8 _
    x10 x11 x12 := c in
    mk_usage_report_within_pfcp_session_modification_response x1 x2 x3 x4 x5 x6 x7 x8 v x10 x11
    x12 |}.
#[export] Instance usage_report_modification_has_usage_information : HasIE
    usage_report_within_pfcp_session_modification_response usage_information_t :=
  {| ie := usage_report_modification_usage_information; with_ie v c :=
    let 'mk_usage_report_within_pfcp_session_modification_response x1 x2 x3 x4 x5 x6 x7 x8 x9 _
    x11 x12 := c in
    mk_usage_report_within_pfcp_session_modification_response x1 x2 x3 x4 x5 x6 x7 x8 x9 v x11
    x12 |}.
#[export] Instance usage_report_modification_has_query_urr_reference : HasIE
    usage_report_within_pfcp_session_modification_response query_urr_reference_t :=
  {| ie := usage_report_modification_query_urr_reference; with_ie v c :=
    let 'mk_usage_report_within_pfcp_session_modification_response x1 x2 x3 x4 x5 x6 x7 x8 x9
    x10 _ x12 := c in
    mk_usage_report_within_pfcp_session_modification_response x1 x2 x3 x4 x5 x6 x7 x8 x9 x10 v
    x12 |}.
#[export] Instance usage_report_modification_has_ethernet_traffic_information : HasIE
    usage_report_within_pfcp_session_modification_response ethernet_traffic_information :=
  {| ie := usage_report_modification_ethernet_traffic_information; with_ie v c :=
    let 'mk_usage_report_within_pfcp_session_modification_response x1 x2 x3 x4 x5 x6 x7 x8 x9
    x10 x11 _ := c in
    mk_usage_report_within_pfcp_session_modification_response x1 x2 x3 x4 x5 x6 x7 x8 x9 x10
    x11 v |}.

Record usage_report_within_pfcp_session_deletion_response : Type :=
    mk_usage_report_within_pfcp_session_deletion_response {
  usage_report_deletion_urr_id : opt urr_id_t;
  usage_report_deletion_ur_seqn : opt ur_seqn_t;
  usage_report_deletion_usage_report_trigger : opt usage_report_trigger_t;
  usage_report_deletion_start_time : opt start_time_t;
  usage_report_deletion_end_time : opt end_time_t;
  usage_report_deletion_volume_measurement : opt volume_measurement_t;
  usage_report_deletion_duration_measurement : opt duration_measurement_t;
  usage_report_deletion_time_of_first_packet : opt time_of_first_packet_t;
  usage_report_deletion_time_of_last_packet : opt time_of_last_packet_t;
  usage_report_deletion_usage_information : opt usage_information_t;
  usage_report_deletion_ethernet_traffic_information : opt ethernet_traffic_information
}.
#[export] Instance usage_report_within_pfcp_session_deletion_response_inhabited : Inhabited
    usage_report_within_pfcp_session_deletion_response :=
  populate (mk_usage_report_within_pfcp_session_deletion_response unset unset unset unset unset
    unset unset unset unset unset unset).
#[export] Instance usage_report_deletion_has_urr_id : HasIE
    usage_report_within_pfcp_session_deletion_response urr_id_t :=
  {| ie := usage_report_deletion_urr_id; with_ie v c :=
    let 'mk_usage_report_within_pfcp_session_deletion_response _ x2 x3 x4 x5 x6 x7 x8 x9 x10
    x11 := c in
    mk_usage_report_within_pfcp_session_deletion_response v x2 x3 x4 x5 x6 x7 x8 x9 x10 x11 |}.
#[export] Instance usage_report_deletion_has_ur_seqn : HasIE
    usage_report_within_pfcp_session_deletion_response ur_seqn_t :=
  {| ie := usage_report_deletion_ur_seqn; with_ie v c :=
    let 'mk_usage_report_within_pfcp_session_deletion_response x1 _ x3 x4 x5 x6 x7 x8 x9 x10
    x11 := c in
    mk_usage_report_within_pfcp_session_deletion_response x1 v x3 x4 x5 x6 x7 x8 x9 x10 x11 |}.
#[export] Instance usage_report_deletion_has_usage_report_trigger : HasIE
    usage_report_within_pfcp_session_deletion_response usage_report_trigger_t :=
  {| ie := usage_report_deletion_usage_report_trigger; with_ie v c :=
    let 'mk_usage_report_within_pfcp_session_deletion_response x1 x2 _ x4 x5 x6 x7 x8 x9 x10
    x11 := c in
    mk_usage_report_within_pfcp_session_deletion_response x1 x2 v x4 x5 x6 x7 x8 x9 x10 x11 |}.
#[export] Instance usage_report_deletion_has_start_time : HasIE
    usage_report_within_pfcp_session_deletion_response start_time_t :=
  {| ie := usage_report_deletion_start_time; with_ie v c :=
    let 'mk_usage_report_within_pfcp_session_deletion_response x1 x2 x3 _ x5 x6 x7 x8 x9 x10
    x11 := c in
    mk_usage_report_within_pfcp_session_deletion_response x1 x2 x3 v x5 x6 x7 x8 x9 x10 x11 |}.
#[export] Instance usage_report_deletion_has_end_time : HasIE
    usage_report_within_pfcp_session_deletion_response end_time_t :=
  {| ie := usage_report_deletion_end_time; with_ie v c :=
    let 'mk_usage_report_within_pfcp_session_deletion_response x1 x2 x3 x4 _ x6 x7 x8 x9 x10
    x11 := c in
    mk_usage_report_within_pfcp_session_deletion_response x1 x2 x3 x4 v x6 x7 x8 x9 x10 x11 |}.
#[export] Instance usage_report_deletion_has_volume_measurement : HasIE
    usage_report_within_pfcp_session_deletion_response volume_measurement_t :=
  {| ie := usage_report_deletion_volume_measurement; with_ie v c :=
    let 'mk_usage_report_within_pfcp_session_deletion_response x1 x2 x3 x4 x5 _ x7 x8 x9 x10
    x11 := c in
    mk_usage_report_within_pfcp_session_deletion_response x1 x2 x3 x4 x5 v x7 x8 x9 x10 x11 |}.
#[export] Instance usage_report_deletion_has_duration_measurement : HasIE
    usage_report_within_pfcp_session_deletion_response duration_measurement_t :=
  {| ie := usage_report_deletion_duration_measurement; with_ie v c :=
    let 'mk_usage_report_within_pfcp_session_deletion_response x1 x2 x3 x4 x5 x6 _ x8 x9 x10
    x11 := c in
    mk_usage_report_within_pfcp_session_deletion_response x1 x2 x3 x4 x5 x6 v x8 x9 x10 x11 |}.
#[export] Instance usage_report_deletion_has_time_of_first_packet : HasIE
    usage_report_within_pfcp_session_deletion_response time_of_first_packet_t :=
  {| ie := usage_report_deletion_time_of_first_packet; with_ie v c :=
    let 'mk_usage_report_within_pfcp_session_deletion_response x1 x2 x3 x4 x5 x6 x7 _ x9 x10
    x11 := c in
    mk_usage_report_within_pfcp_session_deletion_response x1 x2 x3 x4 x5 x6 x7 v x9 x10 x11 |}.
#[export] Instance usage_report_deletion_has_time_of_last_packet : HasIE
    usage_report_within_pfcp_session_deletion_response time_of_last_packet_t :=
  {| ie := usage_report_deletion_time_of_last_packet; with_ie v c :=
    let 'mk_usage_report_within_pfcp_session_deletion_response x1 x2 x3 x4 x5 x6 x7 x8 _ x10
    x11 := c in
    mk_usage_report_within_pfcp_session_deletion_response x1 x2 x3 x4 x5 x6 x7 x8 v x10 x11 |}.
#[export] Instance usage_report_deletion_has_usage_information : HasIE
    usage_report_within_pfcp_session_deletion_response usage_information_t :=
  {| ie := usage_report_deletion_usage_information; with_ie v c :=
    let 'mk_usage_report_within_pfcp_session_deletion_response x1 x2 x3 x4 x5 x6 x7 x8 x9 _ x11
    := c in
    mk_usage_report_within_pfcp_session_deletion_response x1 x2 x3 x4 x5 x6 x7 x8 x9 v x11 |}.
#[export] Instance usage_report_deletion_has_ethernet_traffic_information : HasIE
    usage_report_within_pfcp_session_deletion_response ethernet_traffic_information :=
  {| ie := usage_report_deletion_ethernet_traffic_information; with_ie v c :=
    let 'mk_usage_report_within_pfcp_session_deletion_response x1 x2 x3 x4 x5 x6 x7 x8 x9 x10 _
    := c in
    mk_usage_report_within_pfcp_session_deletion_response x1 x2 x3 x4 x5 x6 x7 x8 x9 x10 v |}.

Record downlink_data_report : Type := mk_downlink_data_report {
  downlink_data_report_pdr_id : opt pdr_id_t;
  downlink_data_report_downlink_data_service_information : opt
    downlink_data_service_information_t
}.
#[export] Instance downlink_data_report_inhabited : Inhabited downlink_data_report :=
  populate (mk_downlink_data_report unset unset).
#[export] Instance downlink_data_report_has_pdr_id : HasIE downlink_data_report pdr_id_t :=
  {| ie := downlink_data_report_pdr_id; with_ie v c :=
    let 'mk_downlink_data_report _ x2 := c in
    mk_downlink_data_report v x2 |}.
#[export] Instance downlink_data_report_has_downlink_data_service_information : HasIE
    downlink_data_report downlink_data_service_information_t :=
  {| ie := downlink_data_report_downlink_data_service_information; with_ie v c :=
    let 'mk_downlink_data_report x1 _ := c in
    mk_downlink_data_report x1 v |}.

Record application_detection_information : Type := mk_application_detection_information {
  application_detection_information_application_id : opt application_id_t;
  application_detection_information_application_instance_id : opt application_instance_id_t;
  application_detection_information_flow_information : opt flow_information_t
}.
#[export] Instance application_detection_information_inhabited : Inhabited
    application_detection_information :=
  populate (mk_application_detection_information unset unset unset).
#[export] Instance application_detection_information_has_application_id : HasIE
    application_detection_information application_id_t :=
  {| ie := application_detection_information_application_id; with_ie v c :=
    let 'mk_application_detection_information _ x2 x3 := c in
    mk_application_detection_information v x2 x3 |}.
#[export] Instance application_detection_information_has_application_instance_id : HasIE
    application_detection_information application_instance_id_t :=
  {| ie := application_detection_information_application_instance_id; with_ie v c :=
    let 'mk_application_detection_information x1 _ x3 := c in
    mk_application_detection_information x1 v x3 |}.
#[export] Instance application_detection_information_has_flow_information : HasIE
    application_detection_information flow_information_t :=
  {| ie := application_detection_information_flow_information; with_ie v c :=
    let 'mk_application_detection_information x1 x2 _ := c in
    mk_application_detection_information x1 x2 v |}.

Record event_reporting : Type := mk_event_reporting {
  event_reporting_event_id : opt event_id_t
}.
#[export] Instance event_reporting_inhabited : Inhabited event_reporting :=
  populate (mk_event_reporting unset).
#[export] Instance event_reporting_has_event_id : HasIE event_reporting event_id_t :=
  {| ie := event_reporting_event_id; with_ie v c :=
    let 'mk_event_reporting _ := c in
    mk_event_reporting v |}.

Record usage_report_within_pfcp_session_report_request : Type :=
    mk_usage_report_within_pfcp_session_report_request {
  usage_report_request_urr_id : opt urr_id_t;
  usage_report_request_ur_seqn : opt ur_seqn_t;
  usage_report_request_usage_report_trigger : opt usage_report_trigger_t;
  usage_report_request_start_time : opt start_time_t;
  usage_report_request_end_time : opt end_time_t;
  usage_report_request_volume_measurement : opt volume_measurement_t;
  usage_report_request_duration_measurement : opt duration_measurement_t;
  usage_report_request_application_detection_information : opt
    application_detection_information;
  usage_report_request_ue_ip_address : opt ue_ip_address_t;
  usage_report_request_network_instance : opt network_instance_t;
  usage_report_request_time_of_first_packet : opt time_of_first_packet_t;
  usage_report_request_time_of_last_packet : opt time_of_last_packet_t;
  usage_report_request_usage_information : opt usage_information_t;
  usage_report_request_query_urr_reference : opt query_urr_reference_t;
  usage_report_request_event_reporting : opt event_reporting;
  usage_report_request_ethernet_traffic_information : opt ethernet_traffic_information
}.
#[export] Instance usage_report_within_pfcp_session_report_request_inhabited : Inhabited
    usage_report_within_pfcp_session_report_request :=
  populate (mk_usage_report_within_pfcp_session_report_request unset unset unset unset unset
    unset unset unset unset unset unset unset unset unset unset unset).
#[export] Instance usage_report_request_has_urr_id : HasIE
    usage_report_within_pfcp_session_report_request urr_id_t :=
  {| ie := usage_report_request_urr_id; with_ie v c :=
    let 'mk_usage_report_within_pfcp_session_report_request _ x2 x3 x4 x5 x6 x7 x8 x9 x10 x11
    x12 x13 x14 x15 x16 := c in
    mk_usage_report_within_pfcp_session_report_request v x2 x3 x4 x5 x6 x7 x8 x9 x10 x11 x12
    x13 x14 x15 x16 |}.
#[export] Instance usage_report_request_has_ur_seqn : HasIE
    usage_report_within_pfcp_session_report_request ur_seqn_t :=
  {| ie := usage_report_request_ur_seqn; with_ie v c :=
    let 'mk_usage_report_within_pfcp_session_report_request x1 _ x3 x4 x5 x6 x7 x8 x9 x10 x11
    x12 x13 x14 x15 x16 := c in
    mk_usage_report_within_pfcp_session_report_request x1 v x3 x4 x5 x6 x7 x8 x9 x10 x11 x12
    x13 x14 x15 x16 |}.
#[export] Instance usage_report_request_has_usage_report_trigger : HasIE
    usage_report_within_pfcp_session_report_request usage_report_trigger_t :=
  {| ie := usage_report_request_usage_report_trigger; with_ie v c :=
    let 'mk_usage_report_within_pfcp_session_report_request x1 x2 _ x4 x5 x6 x7 x8 x9 x10 x11
    x12 x13 x14 x15 x16 := c in
    mk_usage_report_within_pfcp_session_report_request x1 x2 v x4 x5 x6 x7 x8 x9 x10 x11 x12
    x13 x14 x15 x16 |}.
#[export] Instance usage_report_request_has_start_time : HasIE
    usage_report_within_pfcp_session_report_request start_time_t :=
  {| ie := usage_report_request_start_time; with_ie v c :=
    let 'mk_usage_report_within_pfcp_session_report_request x1 x2 x3 _ x5 x6 x7 x8 x9 x10 x11
    x12 x13 x14 x15 x16 := c in
    mk_usage_report_within_pfcp_session_report_request x1 x2 x3 v x5 x6 x7 x8 x9 x10 x11 x12
    x13 x14 x15 x16 |}.
#[export] Instance usage_report_request_has_end_time : HasIE
    usage_report_within_pfcp_session_report_request end_time_t :=
  {| ie := usage_report_request_end_time; with_ie v c :=
    let 'mk_usage_report_within_pfcp_session_report_request x1 x2 x3 x4 _ x6 x7 x8 x9 x10 x11
    x12 x13 x14 x15 x16 := c in
    mk_usage_report_within_pfcp_session_report_request x1 x2 x3 x4 v x6 x7 x8 x9 x10 x11 x12
    x13 x14 x15 x16 |}.
#[export] Instance usage_report_request_has_volume_measurement : HasIE
    usage_report_within_pfcp_session_report_request volume_measurement_t :=
  {| ie := usage_report_request_volume_measurement; with_ie v c :=
    let 'mk_usage_report_within_pfcp_session_report_request x1 x2 x3 x4 x5 _ x7 x8 x9 x10 x11
    x12 x13 x14 x15 x16 := c in
    mk_usage_report_within_pfcp_session_report_request x1 x2 x3 x4 x5 v x7 x8 x9 x10 x11 x12
    x13 x14 x15 x16 |}.
#[export] Instance usage_report_request_has_duration_measurement : HasIE
    usage_report_within_pfcp_session_report_request duration_measurement_t :=
  {| ie := usage_report_request_duration_measurement; with_ie v c :=
    let 'mk_usage_report_within_pfcp_session_report_request x1 x2 x3 x4 x5 x6 _ x8 x9 x10 x11
    x12 x13 x14 x15 x16 := c in
    mk_usage_report_within_pfcp_session_report_request x1 x2 x3 x4 x5 x6 v x8 x9 x10 x11 x12
    x13 x14 x15 x16 |}.
#[export] Instance usage_report_request_has_application_detection_information : HasIE
    usage_report_within_pfcp_session_report_request application_detection_information :=
  {| ie := usage_report_request_application_detection_information; with_ie v c :=
    let 'mk_usage_report_within_pfcp_session_report_request x1 x2 x3 x4 x5 x6 x7 _ x9 x10 x11
    x12 x13 x14 x15 x16 := c in
    mk_usage_report_within_pfcp_session_report_request x1 x2 x3 x4 x5 x6 x7 v x9 x10 x11 x12
    x13 x14 x15 x16 |}.
#[export] Instance usage_report_request_has_ue_ip_address : HasIE
    usage_report_within_pfcp_session_report_request ue_ip_address_t :=
  {| ie := usage_report_request_ue_ip_address; with_ie v c :=
    let 'mk_usage_report_within_pfcp_session_report_request x1 x2 x3 x4 x5 x6 x7 x8 _ x10 x11
    x12 x13 x14 x15 x16 := c in
    mk_usage_report_within_pfcp_session_report_request x1 x2 x3 x4 x5 x6 x7 x8 v x10 x11 x12
    x13 x14 x15 x16 |}.
#[export] Instance usage_report_request_has_network_instance : HasIE
    usage_report_within_pfcp_session_report_request network_instance_t :=
  {| ie := usage_report_request_network_instance; with_ie v c :=
    let 'mk_usage_report_within_pfcp_session_report_request x1 x2 x3 x4 x5 x6 x7 x8 x9 _ x11
    x12 x13 x14 x15 x16 := c in
    mk_usage_report_within_pfcp_session_report_request x1 x2 x3 x4 x5 x6 x7 x8 x9 v x11 x12 x13
    x14 x15 x16 |}.
#[export] Instance usage_report_request_has_time_of_first_packet : HasIE
    usage_report_within_pfcp_session_report_request time_of_first_packet_t :=
  {| ie := usage_report_request_time_of_first_packet; with_ie v c :=
    let 'mk_usage_report_within_pfcp_session_report_request x1 x2 x3 x4 x5 x6 x7 x8 x9 x10 _
    x12 x13 x14 x15 x16 := c in
    mk_usage_report_within_pfcp_session_report_request x1 x2 x3 x4 x5 x6 x7 x8 x9 x10 v x12 x13
    x14 x15 x16 |}.
#[export] Instance usage_report_request_has_time_of_last_packet : HasIE
    usage_report_within_pfcp_session_report_request time_of_last_packet_t :=
  {| ie := usage_report_request_time_of_last_packet; with_ie v c :=
    let 'mk_usage_report_within_pfcp_session_report_request x1 x2 x3 x4 x5 x6 x7 x8 x9 x10 x11
    _ x13 x14 x15 x16 := c in
    mk_usage_report_within_pfcp_session_report_request x1 x2 x3 x4 x5 x6 x7 x8 x9 x10 x11 v x13
    x14 x15 x16 |}.
#[export] Instance usage_report_request_has_usage_information : HasIE
    usage_report_within_pfcp_session_report_request usage_information_t :=
  {| ie := usage_report_request_usage_information; with_ie v c :=
    let 'mk_usage_report_within_pfcp_session_report_request x1 x2 x3 x4 x5 x6 x7 x8 x9 x10 x11
    x12 _ x14 x15 x16 := c in
    mk_usage_report_within_pfcp_session_report_request x1 x2 x3 x4 x5 x6 x7 x8 x9 x10 x11 x12 v
    x14 x15 x16 |}.
#[export] Instance usage_report_request_has_query_urr_reference : HasIE
    usage_report_within_pfcp_session_report_request query_urr_reference_t :=
  {| ie := usage_report_request_query_urr_reference; with_ie v c :=
    let 'mk_usage_report_within_pfcp_session_report_request x1 x2 x3 x4 x5 x6 x7 x8 x9 x10 x11
    x12 x13 _ x15 x16 := c in
    mk_usage_report_within_pfcp_session_report_request x1 x2 x3 x4 x5 x6 x7 x8 x9 x10 x11 x12
    x13 v x15 x16 |}.
#[export] Instance usage_report_request_has_event_reporting : HasIE
    usage_report_within_pfcp_session_report_request event_reporting :=
  {| ie := usage_report_request_event_reporting; with_ie v c :=
    let 'mk_usage_report_within_pfcp_session_report_request x1 x2 x3 x4 x5 x6 x7 x8 x9 x10 x11
    x12 x13 x14 _ x16 := c in
    mk_usage_report_within_pfcp_session_report_request x1 x2 x3 x4 x5 x6 x7 x8 x9 x10 x11 x12
    x13 x14 v x16 |}.
#[export] Instance usage_report_request_has_ethernet_traffic_information : HasIE
    usage_report_within_pfcp_session_report_request ethernet_traffic_information :=
  {| ie := usage_report_request_ethernet_traffic_information; with_ie v c :=
    let 'mk_usage_report_within_pfcp_session_report_request x1 x2 x3 x4 x5 x6 x7 x8 x9 x10 x11
    x12 x13 x14 x15 _ := c in
    mk_usage_report_within_pfcp_session_report_request x1 x2 x3 x4 x5 x6 x7 x8 x9 x10 x11 x12
    x13 x14 x15 v |}.

Record error_indication_report : Type := mk_error_indication_report {
  error_indication_report_remote_fteid : opt fteid_t
}.
#[export] Instance error_indication_report_inhabited : Inhabited error_indication_report :=
  populate (mk_error_indication_report unset).
#[export] Instance error_indication_report_has_remote_fteid : HasIE error_indication_report
    fteid_t :=
  {| ie := error_indication_report_remote_fteid; with_ie v c :=
    let 'mk_error_indication_report _ := c in
    mk_error_indication_report v |}.

(** The instances are lenses. *)

#[export] Instance pfd_has_pfd_contents_laws : HasIELaws pfd pfd_contents_t.
Proof. solve_has_ie. Qed.

#[export] Instance application_ids_pfds_has_application_id_laws : HasIELaws
    application_ids_pfds application_id_t.
Proof. solve_has_ie. Qed.

#[export] Instance application_ids_pfds_has_pfds_laws : HasIELaws application_ids_pfds (list
    pfd).
Proof. solve_has_ie. Qed.

#[export] Instance query_urr_has_urr_id_laws : HasIELaws query_urr urr_id_t.
Proof. solve_has_ie. Qed.

#[export] Instance user_plane_path_failure_report_has_remote_gtp_u_peer_laws : HasIELaws
    user_plane_path_failure_report remote_gtp_u_peer_t.
Proof. solve_has_ie. Qed.

#[export] Instance event_information_has_event_id_laws : HasIELaws event_information event_id_t.
Proof. solve_has_ie. Qed.

#[export] Instance event_information_has_event_threshold_laws : HasIELaws event_information
    event_threshold_t.
Proof. solve_has_ie. Qed.

#[export] Instance aggregated_urrs_has_aggregated_urr_id_laws : HasIELaws aggregated_urrs
    aggregated_urr_id_t.
Proof. solve_has_ie. Qed.

#[export] Instance aggregated_urrs_has_multiplier_laws : HasIELaws aggregated_urrs multiplier_t.
Proof. solve_has_ie. Qed.

#[export] Instance additional_monitoring_time_has_monitoring_time_laws : HasIELaws
    additional_monitoring_time monitoring_time_t.
Proof. solve_has_ie. Qed.

#[export] Instance additional_monitoring_time_has_subsequent_volume_threshold_laws : HasIELaws
    additional_monitoring_time subsequent_volume_threshold_t.
Proof. solve_has_ie. Qed.

#[export] Instance additional_monitoring_time_has_subsequent_time_threshold_laws : HasIELaws
    additional_monitoring_time subsequent_time_threshold_t.
Proof. solve_has_ie. Qed.

#[export] Instance additional_monitoring_time_has_subsequent_volume_quota_laws : HasIELaws
    additional_monitoring_time subsequent_volume_quota_t.
Proof. solve_has_ie. Qed.

#[export] Instance additional_monitoring_time_has_subsequent_time_quota_laws : HasIELaws
    additional_monitoring_time subsequent_time_quota_t.
Proof. solve_has_ie. Qed.

#[export] Instance create_urr_has_urr_id_laws : HasIELaws create_urr urr_id_t.
Proof. solve_has_ie. Qed.

#[export] Instance create_urr_has_measurement_method_laws : HasIELaws create_urr
    measurement_method_t.
Proof. solve_has_ie. Qed.

#[export] Instance create_urr_has_reporting_triggers_laws : HasIELaws create_urr
    reporting_triggers_t.
Proof. solve_has_ie. Qed.

#[export] Instance create_urr_has_measurement_period_laws : HasIELaws create_urr
    measurement_period_t.
Proof. solve_has_ie. Qed.

#[export] Instance create_urr_has_volume_threshold_laws : HasIELaws create_urr
    volume_threshold_t.
Proof. solve_has_ie. Qed.

#[export] Instance create_urr_has_volume_quota_laws : HasIELaws create_urr volume_quota_t.
Proof. solve_has_ie. Qed.

#[export] Instance create_urr_has_time_threshold_laws : HasIELaws create_urr time_threshold_t.
Proof. solve_has_ie. Qed.

#[export] Instance create_urr_has_time_quota_laws : HasIELaws create_urr time_quota_t.
Proof. solve_has_ie. Qed.

#[export] Instance create_urr_has_quota_holding_time_laws : HasIELaws create_urr
    quota_holding_time_t.
Proof. solve_has_ie. Qed.

#[export] Instance create_urr_has_dropped_dl_traffic_threshold_laws : HasIELaws create_urr
    dropped_dl_traffic_threshold_t.
Proof. solve_has_ie. Qed.

#[export] Instance create_urr_has_monitoring_time_laws : HasIELaws create_urr monitoring_time_t.
Proof. solve_has_ie. Qed.

#[export] Instance create_urr_has_event_information_laws : HasIELaws create_urr
    event_information.
Proof. solve_has_ie. Qed.

#[export] Instance create_urr_has_subsequent_volume_threshold_laws : HasIELaws create_urr
    subsequent_volume_threshold_t.
Proof. solve_has_ie. Qed.

#[export] Instance create_urr_has_subsequent_time_threshold_laws : HasIELaws create_urr
    subsequent_time_threshold_t.
Proof. solve_has_ie. Qed.

#[export] Instance create_urr_has_subsequent_volume_quota_laws : HasIELaws create_urr
    subsequent_volume_quota_t.
Proof. solve_has_ie. Qed.

#[export] Instance create_urr_has_subsequent_time_quota_laws : HasIELaws create_urr
    subsequent_time_quota_t.
Proof. solve_has_ie. Qed.

#[export] Instance create_urr_has_inactivity_detection_time_laws : HasIELaws create_urr
    inactivity_detection_time_t.
Proof. solve_has_ie. Qed.

#[export] Instance create_urr_has_linked_urr_id_laws : HasIELaws create_urr linked_urr_id_t.
Proof. solve_has_ie. Qed.

#[export] Instance create_urr_has_measurement_information_laws : HasIELaws create_urr
    measurement_information_t.
Proof. solve_has_ie. Qed.

#[export] Instance create_urr_has_time_quota_mechanism_laws : HasIELaws create_urr
    time_quota_mechanism_t.
Proof. solve_has_ie. Qed.

#[export] Instance create_urr_has_aggregated_urrs_laws : HasIELaws create_urr aggregated_urrs.
Proof. solve_has_ie. Qed.

#[export] Instance create_urr_has_far_id_for_quota_action_laws : HasIELaws create_urr far_id_t.
Proof. solve_has_ie. Qed.

#[export] Instance create_urr_has_ethernet_inactivity_timer_laws : HasIELaws create_urr
    ethernet_inactivity_timer_t.
Proof. solve_has_ie. Qed.

#[export] Instance create_urr_has_additional_monitoring_time_laws : HasIELaws create_urr
    additional_monitoring_time.
Proof. solve_has_ie. Qed.

#[export] Instance create_qer_has_qer_id_laws : HasIELaws create_qer qer_id_t.
Proof. solve_has_ie. Qed.

#[export] Instance create_qer_has_qer_correlation_id_laws : HasIELaws create_qer
    qer_correlation_id_t.
Proof. solve_has_ie. Qed.

#[export] Instance create_qer_has_gate_status_laws : HasIELaws create_qer gate_status_t.
Proof. solve_has_ie. Qed.

#[export] Instance create_qer_has_maximum_bitrate_laws : HasIELaws create_qer mbr_t.
Proof. solve_has_ie. Qed.

#[export] Instance create_qer_has_guaranteed_bitrate_laws : HasIELaws create_qer gbr_t.
Proof. solve_has_ie. Qed.

#[export] Instance create_qer_has_packet_rate_laws : HasIELaws create_qer packet_rate_t.
Proof. solve_has_ie. Qed.

#[export] Instance create_qer_has_dl_flow_level_marking_laws : HasIELaws create_qer
    dl_flow_level_marking_t.
Proof. solve_has_ie. Qed.

#[export] Instance create_qer_has_qos_flow_identifier_laws : HasIELaws create_qer qfi_t.
Proof. solve_has_ie. Qed.

#[export] Instance create_qer_has_reflective_qos_laws : HasIELaws create_qer rqi_t.
Proof. solve_has_ie. Qed.

#[export] Instance create_bar_has_bar_id_laws : HasIELaws create_bar bar_id_t.
Proof. solve_has_ie. Qed.

#[export] Instance create_bar_has_downlink_data_notification_delay_laws : HasIELaws create_bar
    downlink_data_notification_delay_t.
Proof. solve_has_ie. Qed.

#[export] Instance create_bar_has_suggested_buffering_packets_count_laws : HasIELaws create_bar
    suggested_buffering_packets_count_t.
Proof. solve_has_ie. Qed.

#[export] Instance create_traffic_endpoint_has_traffic_endpoint_id_laws : HasIELaws
    create_traffic_endpoint traffic_endpoint_id_t.
Proof. solve_has_ie. Qed.

#[export] Instance create_traffic_endpoint_has_local_fteid_laws : HasIELaws
    create_traffic_endpoint fteid_t.
Proof. solve_has_ie. Qed.

#[export] Instance create_traffic_endpoint_has_network_instance_laws : HasIELaws
    create_traffic_endpoint network_instance_t.
Proof. solve_has_ie. Qed.

#[export] Instance create_traffic_endpoint_has_ue_ip_address_laws : HasIELaws
    create_traffic_endpoint ue_ip_address_t.
Proof. solve_has_ie. Qed.

#[export] Instance create_traffic_endpoint_has_ethernet_pdu_session_information_laws :
    HasIELaws create_traffic_endpoint ethernet_pdu_session_information_t.
Proof. solve_has_ie. Qed.

#[export] Instance create_traffic_endpoint_has_framed_route_laws : HasIELaws
    create_traffic_endpoint framed_route_t.
Proof. solve_has_ie. Qed.

#[export] Instance create_traffic_endpoint_has_framed_routing_laws : HasIELaws
    create_traffic_endpoint framed_routing_t.
Proof. solve_has_ie. Qed.

#[export] Instance create_traffic_endpoint_has_framed_ipv6_route_laws : HasIELaws
    create_traffic_endpoint framed_ipv6_route_t.
Proof. solve_has_ie. Qed.

#[export] Instance created_traffic_endpoint_has_traffic_endpoint_id_laws : HasIELaws
    created_traffic_endpoint traffic_endpoint_id_t.
Proof. solve_has_ie. Qed.

#[export] Instance created_traffic_endpoint_has_local_fteid_laws : HasIELaws
    created_traffic_endpoint fteid_t.
Proof. solve_has_ie. Qed.

#[export] Instance load_control_information_has_load_control_sequence_number_laws : HasIELaws
    load_control_information sequence_number_t.
Proof. solve_has_ie. Qed.

#[export] Instance load_control_information_has_load_metric_laws : HasIELaws
    load_control_information metric_t.
Proof. solve_has_ie. Qed.

#[export] Instance overload_control_information_has_overload_control_sequence_number_laws :
    HasIELaws overload_control_information sequence_number_t.
Proof. solve_has_ie. Qed.

#[export] Instance overload_control_information_has_overload_reduction_metric_laws : HasIELaws
    overload_control_information metric_t.
Proof. solve_has_ie. Qed.

#[export] Instance overload_control_information_has_period_of_validity_laws : HasIELaws
    overload_control_information timer_t.
Proof. solve_has_ie. Qed.

#[export] Instance overload_control_information_has_overload_control_information_flags_laws :
    HasIELaws overload_control_information oci_flags_t.
Proof. solve_has_ie. Qed.

#[export] Instance remove_urr_has_urr_id_laws : HasIELaws remove_urr urr_id_t.
Proof. solve_has_ie. Qed.

#[export] Instance remove_qer_has_qer_id_laws : HasIELaws remove_qer qer_id_t.
Proof. solve_has_ie. Qed.

#[export] Instance remove_bar_has_bar_id_laws : HasIELaws remove_bar bar_id_t.
Proof. solve_has_ie. Qed.

#[export] Instance remove_traffic_endpoint_has_traffic_endpoint_id_laws : HasIELaws
    remove_traffic_endpoint traffic_endpoint_id_t.
Proof. solve_has_ie. Qed.

#[export] Instance update_urr_has_urr_id_laws : HasIELaws update_urr urr_id_t.
Proof. solve_has_ie. Qed.

#[export] Instance update_urr_has_measurement_method_laws : HasIELaws update_urr
    measurement_method_t.
Proof. solve_has_ie. Qed.

#[export] Instance update_urr_has_reporting_triggers_laws : HasIELaws update_urr
    reporting_triggers_t.
Proof. solve_has_ie. Qed.

#[export] Instance update_urr_has_measurement_period_laws : HasIELaws update_urr
    measurement_period_t.
Proof. solve_has_ie. Qed.

#[export] Instance update_urr_has_volume_threshold_laws : HasIELaws update_urr
    volume_threshold_t.
Proof. solve_has_ie. Qed.

#[export] Instance update_urr_has_volume_quota_laws : HasIELaws update_urr volume_quota_t.
Proof. solve_has_ie. Qed.

#[export] Instance update_urr_has_time_threshold_laws : HasIELaws update_urr time_threshold_t.
Proof. solve_has_ie. Qed.

#[export] Instance update_urr_has_time_quota_laws : HasIELaws update_urr time_quota_t.
Proof. solve_has_ie. Qed.

#[export] Instance update_urr_has_quota_holding_time_laws : HasIELaws update_urr
    quota_holding_time_t.
Proof. solve_has_ie. Qed.

#[export] Instance update_urr_has_dropped_dl_traffic_threshold_laws : HasIELaws update_urr
    dropped_dl_traffic_threshold_t.
Proof. solve_has_ie. Qed.

#[export] Instance update_urr_has_monitoring_time_laws : HasIELaws update_urr monitoring_time_t.
Proof. solve_has_ie. Qed.

#[export] Instance update_urr_has_event_information_laws : HasIELaws update_urr
    event_information.
Proof. solve_has_ie. Qed.

#[export] Instance update_urr_has_subsequent_volume_threshold_laws : HasIELaws update_urr
    subsequent_volume_threshold_t.
Proof. solve_has_ie. Qed.

#[export] Instance update_urr_has_subsequent_time_threshold_laws : HasIELaws update_urr
    subsequent_time_threshold_t.
Proof. solve_has_ie. Qed.

#[export] Instance update_urr_has_subsequent_volume_quota_laws : HasIELaws update_urr
    subsequent_volume_quota_t.
Proof. solve_has_ie. Qed.

#[export] Instance update_urr_has_subsequent_time_quota_laws : HasIELaws update_urr
    subsequent_time_quota_t.
Proof. solve_has_ie. Qed.

#[export] Instance update_urr_has_inactivity_detection_time_laws : HasIELaws update_urr
    inactivity_detection_time_t.
Proof. solve_has_ie. Qed.

#[export] Instance update_urr_has_linked_urr_id_laws : HasIELaws update_urr linked_urr_id_t.
Proof. solve_has_ie. Qed.

#[export] Instance update_urr_has_measurement_information_laws : HasIELaws update_urr
    measurement_information_t.
Proof. solve_has_ie. Qed.

#[export] Instance update_urr_has_time_quota_mechanism_laws : HasIELaws update_urr
    time_quota_mechanism_t.
Proof. solve_has_ie. Qed.

#[export] Instance update_urr_has_aggregated_urrs_laws : HasIELaws update_urr aggregated_urrs.
Proof. solve_has_ie. Qed.

#[export] Instance update_urr_has_far_id_for_quota_action_laws : HasIELaws update_urr far_id_t.
Proof. solve_has_ie. Qed.

#[export] Instance update_urr_has_ethernet_inactivity_timer_laws : HasIELaws update_urr
    ethernet_inactivity_timer_t.
Proof. solve_has_ie. Qed.

#[export] Instance update_urr_has_additional_monitoring_time_laws : HasIELaws update_urr
    additional_monitoring_time.
Proof. solve_has_ie. Qed.

#[export] Instance update_qer_has_qer_id_laws : HasIELaws update_qer qer_id_t.
Proof. solve_has_ie. Qed.

#[export] Instance update_qer_has_qer_correlation_id_laws : HasIELaws update_qer
    qer_correlation_id_t.
Proof. solve_has_ie. Qed.

#[export] Instance update_qer_has_gate_status_laws : HasIELaws update_qer gate_status_t.
Proof. solve_has_ie. Qed.

#[export] Instance update_qer_has_maximum_bitrate_laws : HasIELaws update_qer mbr_t.
Proof. solve_has_ie. Qed.

#[export] Instance update_qer_has_guaranteed_bitrate_laws : HasIELaws update_qer gbr_t.
Proof. solve_has_ie. Qed.

#[export] Instance update_qer_has_packet_rate_laws : HasIELaws update_qer packet_rate_t.
Proof. solve_has_ie. Qed.

#[export] Instance update_qer_has_dl_flow_level_marking_laws : HasIELaws update_qer
    dl_flow_level_marking_t.
Proof. solve_has_ie. Qed.

#[export] Instance update_qer_has_qos_flow_identifier_laws : HasIELaws update_qer qfi_t.
Proof. solve_has_ie. Qed.

#[export] Instance update_qer_has_reflective_qos_laws : HasIELaws update_qer rqi_t.
Proof. solve_has_ie. Qed.

#[export] Instance update_bar_modification_has_bar_id_laws : HasIELaws
    update_bar_within_pfcp_session_modification_request bar_id_t.
Proof. solve_has_ie. Qed.

#[export] Instance update_bar_modification_has_downlink_data_notification_delay_laws :
    HasIELaws update_bar_within_pfcp_session_modification_request
    downlink_data_notification_delay_t.
Proof. solve_has_ie. Qed.

#[export] Instance update_bar_modification_has_suggested_buffering_packets_count_laws :
    HasIELaws update_bar_within_pfcp_session_modification_request
    suggested_buffering_packets_count_t.
Proof. solve_has_ie. Qed.

#[export] Instance update_bar_report_has_bar_id_laws : HasIELaws
    update_bar_within_pfcp_session_report_response bar_id_t.
Proof. solve_has_ie. Qed.

#[export] Instance update_bar_report_has_downlink_data_notification_delay_laws : HasIELaws
    update_bar_within_pfcp_session_report_response downlink_data_notification_delay_t.
Proof. solve_has_ie. Qed.

#[export] Instance update_bar_report_has_dl_buffering_duration_laws : HasIELaws
    update_bar_within_pfcp_session_report_response dl_buffering_duration_t.
Proof. solve_has_ie. Qed.

#[export] Instance update_bar_report_has_dl_buffering_buffering_suggested_packet_count_laws :
    HasIELaws update_bar_within_pfcp_session_report_response
    dl_buffering_suggested_packet_count_t.
Proof. solve_has_ie. Qed.

#[export] Instance update_bar_report_has_suggested_buffering_packets_count_laws : HasIELaws
    update_bar_within_pfcp_session_report_response suggested_buffering_packets_count_t.
Proof. solve_has_ie. Qed.

#[export] Instance update_traffic_endpoint_has_traffic_endpoint_id_laws : HasIELaws
    update_traffic_endpoint traffic_endpoint_id_t.
Proof. solve_has_ie. Qed.

#[export] Instance update_traffic_endpoint_has_local_fteid_laws : HasIELaws
    update_traffic_endpoint fteid_t.
Proof. solve_has_ie. Qed.

#[export] Instance update_traffic_endpoint_has_network_instance_laws : HasIELaws
    update_traffic_endpoint network_instance_t.
Proof. solve_has_ie. Qed.

#[export] Instance update_traffic_endpoint_has_ue_ip_address_laws : HasIELaws
    update_traffic_endpoint ue_ip_address_t.
Proof. solve_has_ie. Qed.

#[export] Instance update_traffic_endpoint_has_framed_route_laws : HasIELaws
    update_traffic_endpoint framed_route_t.
Proof. solve_has_ie. Qed.

#[export] Instance update_traffic_endpoint_has_framed_routing_laws : HasIELaws
    update_traffic_endpoint framed_routing_t.
Proof. solve_has_ie. Qed.

#[export] Instance update_traffic_endpoint_has_framed_ipv6_route_laws : HasIELaws
    update_traffic_endpoint framed_ipv6_route_t.
Proof. solve_has_ie. Qed.

#[export] Instance ethernet_traffic_information_has_mac_addresses_detected_laws : HasIELaws
    ethernet_traffic_information mac_addresses_detected_t.
Proof. solve_has_ie. Qed.

#[export] Instance ethernet_traffic_information_has_mac_addresses_removed_laws : HasIELaws
    ethernet_traffic_information mac_addresses_removed_t.
Proof. solve_has_ie. Qed.

#[export] Instance usage_report_modification_has_urr_id_laws : HasIELaws
    usage_report_within_pfcp_session_modification_response urr_id_t.
Proof. solve_has_ie. Qed.

#[export] Instance usage_report_modification_has_ur_seqn_laws : HasIELaws
    usage_report_within_pfcp_session_modification_response ur_seqn_t.
Proof. solve_has_ie. Qed.

#[export] Instance usage_report_modification_has_usage_report_trigger_laws : HasIELaws
    usage_report_within_pfcp_session_modification_response usage_report_trigger_t.
Proof. solve_has_ie. Qed.

#[export] Instance usage_report_modification_has_start_time_laws : HasIELaws
    usage_report_within_pfcp_session_modification_response start_time_t.
Proof. solve_has_ie. Qed.

#[export] Instance usage_report_modification_has_end_time_laws : HasIELaws
    usage_report_within_pfcp_session_modification_response end_time_t.
Proof. solve_has_ie. Qed.

#[export] Instance usage_report_modification_has_volume_measurement_laws : HasIELaws
    usage_report_within_pfcp_session_modification_response volume_measurement_t.
Proof. solve_has_ie. Qed.

#[export] Instance usage_report_modification_has_duration_measurement_laws : HasIELaws
    usage_report_within_pfcp_session_modification_response duration_measurement_t.
Proof. solve_has_ie. Qed.

#[export] Instance usage_report_modification_has_time_of_first_packet_laws : HasIELaws
    usage_report_within_pfcp_session_modification_response time_of_first_packet_t.
Proof. solve_has_ie. Qed.

#[export] Instance usage_report_modification_has_time_of_last_packet_laws : HasIELaws
    usage_report_within_pfcp_session_modification_response time_of_last_packet_t.
Proof. solve_has_ie. Qed.

#[export] Instance usage_report_modification_has_usage_information_laws : HasIELaws
    usage_report_within_pfcp_session_modification_response usage_information_t.
Proof. solve_has_ie. Qed.

#[export] Instance usage_report_modification_has_query_urr_reference_laws : HasIELaws
    usage_report_within_pfcp_session_modification_response query_urr_reference_t.
Proof. solve_has_ie. Qed.

#[export] Instance usage_report_modification_has_ethernet_traffic_information_laws : HasIELaws
    usage_report_within_pfcp_session_modification_response ethernet_traffic_information.
Proof. solve_has_ie. Qed.

#[export] Instance usage_report_deletion_has_urr_id_laws : HasIELaws
    usage_report_within_pfcp_session_deletion_response urr_id_t.
Proof. solve_has_ie. Qed.

#[export] Instance usage_report_deletion_has_ur_seqn_laws : HasIELaws
    usage_report_within_pfcp_session_deletion_response ur_seqn_t.
Proof. solve_has_ie. Qed.

#[export] Instance usage_report_deletion_has_usage_report_trigger_laws : HasIELaws
    usage_report_within_pfcp_session_deletion_response usage_report_trigger_t.
Proof. solve_has_ie. Qed.

#[export] Instance usage_report_deletion_has_start_time_laws : HasIELaws
    usage_report_within_pfcp_session_deletion_response start_time_t.
Proof. solve_has_ie. Qed.

#[export] Instance usage_report_deletion_has_end_time_laws : HasIELaws
    usage_report_within_pfcp_session_deletion_response end_time_t.
Proof. solve_has_ie. Qed.

#[export] Instance usage_report_deletion_has_volume_measurement_laws : HasIELaws
    usage_report_within_pfcp_session_deletion_response volume_measurement_t.
Proof. solve_has_ie. Qed.

#[export] Instance usage_report_deletion_has_duration_measurement_laws : HasIELaws
    usage_report_within_pfcp_session_deletion_response duration_measurement_t.
Proof. solve_has_ie. Qed.

#[export] Instance usage_report_deletion_has_time_of_first_packet_laws : HasIELaws
    usage_report_within_pfcp_session_deletion_response time_of_first_packet_t.
Proof. solve_has_ie. Qed.

#[export] Instance usage_report_deletion_has_time_of_last_packet_laws : HasIELaws
    usage_report_within_pfcp_session_deletion_response time_of_last_packet_t.
Proof. solve_has_ie. Qed.

#[export] Instance usage_report_deletion_has_usage_information_laws : HasIELaws
    usage_report_within_pfcp_session_deletion_response usage_information_t.
Proof. solve_has_ie. Qed.

#[export] Instance usage_report_deletion_has_ethernet_traffic_information_laws : HasIELaws
    usage_report_within_pfcp_session_deletion_response ethernet_traffic_information.
Proof. solve_has_ie. Qed.

#[export] Instance downlink_data_report_has_pdr_id_laws : HasIELaws downlink_data_report
    pdr_id_t.
Proof. solve_has_ie. Qed.

#[export] Instance downlink_data_report_has_downlink_data_service_information_laws : HasIELaws
    downlink_data_report downlink_data_service_information_t.
Proof. solve_has_ie. Qed.

#[export] Instance application_detection_information_has_application_id_laws : HasIELaws
    application_detection_information application_id_t.
Proof. solve_has_ie. Qed.

#[export] Instance application_detection_information_has_application_instance_id_laws :
    HasIELaws application_detection_information application_instance_id_t.
Proof. solve_has_ie. Qed.

#[export] Instance application_detection_information_has_flow_information_laws : HasIELaws
    application_detection_information flow_information_t.
Proof. solve_has_ie. Qed.

#[export] Instance event_reporting_has_event_id_laws : HasIELaws event_reporting event_id_t.
Proof. solve_has_ie. Qed.

#[export] Instance usage_report_request_has_urr_id_laws : HasIELaws
    usage_report_within_pfcp_session_report_request urr_id_t.
Proof. solve_has_ie. Qed.

#[export] Instance usage_report_request_has_ur_seqn_laws : HasIELaws
    usage_report_within_pfcp_session_report_request ur_seqn_t.
Proof. solve_has_ie. Qed.

#[export] Instance usage_report_request_has_usage_report_trigger_laws : HasIELaws
    usage_report_within_pfcp_session_report_request usage_report_trigger_t.
Proof. solve_has_ie. Qed.

#[export] Instance usage_report_request_has_start_time_laws : HasIELaws
    usage_report_within_pfcp_session_report_request start_time_t.
Proof. solve_has_ie. Qed.

#[export] Instance usage_report_request_has_end_time_laws : HasIELaws
    usage_report_within_pfcp_session_report_request end_time_t.
Proof. solve_has_ie. Qed.

#[export] Instance usage_report_request_has_volume_measurement_laws : HasIELaws
    usage_report_within_pfcp_session_report_request volume_measurement_t.
Proof. solve_has_ie. Qed.

#[export] Instance usage_report_request_has_duration_measurement_laws : HasIELaws
    usage_report_within_pfcp_session_report_request duration_measurement_t.
Proof. solve_has_ie. Qed.

#[export] Instance usage_report_request_has_application_detection_information_laws : HasIELaws
    usage_report_within_pfcp_session_report_request application_detection_information.
Proof. solve_has_ie. Qed.

#[export] Instance usage_report_request_has_ue_ip_address_laws : HasIELaws
    usage_report_within_pfcp_session_report_request ue_ip_address_t.
Proof. solve_has_ie. Qed.

#[export] Instance usage_report_request_has_network_instance_laws : HasIELaws
    usage_report_within_pfcp_session_report_request network_instance_t.
Proof. solve_has_ie. Qed.

#[export] Instance usage_report_request_has_time_of_first_packet_laws : HasIELaws
    usage_report_within_pfcp_session_report_request time_of_first_packet_t.
Proof. solve_has_ie. Qed.

#[export] Instance usage_report_request_has_time_of_last_packet_laws : HasIELaws
    usage_report_within_pfcp_session_report_request time_of_last_packet_t.
Proof. solve_has_ie. Qed.

#[export] Instance usage_report_request_has_usage_information_laws : HasIELaws
    usage_report_within_pfcp_session_report_request usage_information_t.
Proof. solve_has_ie. Qed.

#[export] Instance usage_report_request_has_query_urr_reference_laws : HasIELaws
    usage_report_within_pfcp_session_report_request query_urr_reference_t.
Proof. solve_has_ie. Qed.

#[export] Instance usage_report_request_has_event_reporting_laws : HasIELaws
    usage_report_within_pfcp_session_report_request event_reporting.
Proof. solve_has_ie. Qed.

#[export] Instance usage_report_request_has_ethernet_traffic_information_laws : HasIELaws
    usage_report_within_pfcp_session_report_request ethernet_traffic_information.
Proof. solve_has_ie. Qed.

#[export] Instance error_indication_report_has_remote_fteid_laws : HasIELaws
    error_indication_report fteid_t.
Proof. solve_has_ie. Qed.
