(* ===== verification/PfcpMessages.v ===== *)
(** * Messages as structures (src/src/oai/pfcp/msg_pfcp.hpp)

    The containers of whole messages, with [set] and [get] as in [PfcpGroups];
    the members for FQ-CSIDs have accessors with a name of their own. *)
From Stdlib Require Import ZArith Lia List Bool.
From stdpp Require Import base list gmap.
From S2P Require Import Prelude PfcpTypes PfcpReportTypes PfcpGroups PfcpReportGroups.
Open Scope Z_scope.

Record pfcp_heartbeat_request : Type := mk_pfcp_heartbeat_request {
  heartbeat_request_recovery_time_stamp : opt recovery_time_stamp_t
}.
#[export] Instance pfcp_heartbeat_request_inhabited : Inhabited pfcp_heartbeat_request :=
  populate (mk_pfcp_heartbeat_request unset).
#[export] Instance heartbeat_request_has_recovery_time_stamp : HasIE pfcp_heartbeat_request
    recovery_time_stamp_t :=
  {| ie := heartbeat_request_recovery_time_stamp; with_ie v c :=
    let 'mk_pfcp_heartbeat_request _ := c in
    mk_pfcp_heartbeat_request v |}.

Record pfcp_heartbeat_response : Type := mk_pfcp_heartbeat_response {
  heartbeat_response_recovery_time_stamp : opt recovery_time_stamp_t
}.
#[export] Instance pfcp_heartbeat_response_inhabited : Inhabited pfcp_heartbeat_response :=
  populate (mk_pfcp_heartbeat_response unset).
#[export] Instance heartbeat_response_has_recovery_time_stamp : HasIE pfcp_heartbeat_response
    recovery_time_stamp_t :=
  {| ie := heartbeat_response_recovery_time_stamp; with_ie v c :=
    let 'mk_pfcp_heartbeat_response _ := c in
    mk_pfcp_heartbeat_response v |}.

Record pfcp_association_setup_request : Type := mk_pfcp_association_setup_request {
  association_setup_request_node_id : opt node_id_t;
  association_setup_request_recovery_time_stamp : opt recovery_time_stamp_t;
  association_setup_request_up_function_features : opt up_function_features_s;
  association_setup_request_cp_function_features : opt cp_function_features_t;
  association_setup_request_user_plane_ip_resource_information : opt
    user_plane_ip_resource_information_t
}.
#[export] Instance pfcp_association_setup_request_inhabited : Inhabited
    pfcp_association_setup_request :=
  populate (mk_pfcp_association_setup_request unset unset unset unset unset).
#[export] Instance association_setup_request_has_node_id : HasIE pfcp_association_setup_request
    node_id_t :=
  {| ie := association_setup_request_node_id; with_ie v c :=
    let 'mk_pfcp_association_setup_request _ x2 x3 x4 x5 := c in
    mk_pfcp_association_setup_request v x2 x3 x4 x5 |}.
#[export] Instance association_setup_request_has_recovery_time_stamp : HasIE
    pfcp_association_setup_request recovery_time_stamp_t :=
  {| ie := association_setup_request_recovery_time_stamp; with_ie v c :=
    let 'mk_pfcp_association_setup_request x1 _ x3 x4 x5 := c in
    mk_pfcp_association_setup_request x1 v x3 x4 x5 |}.
#[export] Instance association_setup_request_has_up_function_features : HasIE
    pfcp_association_setup_request up_function_features_s :=
  {| ie := association_setup_request_up_function_features; with_ie v c :=
    let 'mk_pfcp_association_setup_request x1 x2 _ x4 x5 := c in
    mk_pfcp_association_setup_request x1 x2 v x4 x5 |}.
#[export] Instance association_setup_request_has_cp_function_features : HasIE
    pfcp_association_setup_request cp_function_features_t :=
  {| ie := association_setup_request_cp_function_features; with_ie v c :=
    let 'mk_pfcp_association_setup_request x1 x2 x3 _ x5 := c in
    mk_pfcp_association_setup_request x1 x2 x3 v x5 |}.
#[export] Instance association_setup_request_has_user_plane_ip_resource_information : HasIE
    pfcp_association_setup_request user_plane_ip_resource_information_t :=
  {| ie := association_setup_request_user_plane_ip_resource_information; with_ie v c :=
    let 'mk_pfcp_association_setup_request x1 x2 x3 x4 _ := c in
    mk_pfcp_association_setup_request x1 x2 x3 x4 v |}.

Record pfcp_association_setup_response : Type := mk_pfcp_association_setup_response {
  association_setup_response_node_id : opt node_id_t;
  association_setup_response_cause : opt cause_t;
  association_setup_response_recovery_time_stamp : opt recovery_time_stamp_t;
  association_setup_response_up_function_features : opt up_function_features_s;
  association_setup_response_cp_function_features : opt cp_function_features_t;
  association_setup_response_user_plane_ip_resource_information : opt
    user_plane_ip_resource_information_t
}.
#[export] Instance pfcp_association_setup_response_inhabited : Inhabited
    pfcp_association_setup_response :=
  populate (mk_pfcp_association_setup_response unset unset unset unset unset unset).
#[export] Instance association_setup_response_has_node_id : HasIE
    pfcp_association_setup_response node_id_t :=
  {| ie := association_setup_response_node_id; with_ie v c :=
    let 'mk_pfcp_association_setup_response _ x2 x3 x4 x5 x6 := c in
    mk_pfcp_association_setup_response v x2 x3 x4 x5 x6 |}.
#[export] Instance association_setup_response_has_cause : HasIE pfcp_association_setup_response
    cause_t :=
  {| ie := association_setup_response_cause; with_ie v c :=
    let 'mk_pfcp_association_setup_response x1 _ x3 x4 x5 x6 := c in
    mk_pfcp_association_setup_response x1 v x3 x4 x5 x6 |}.
#[export] Instance association_setup_response_has_recovery_time_stamp : HasIE
    pfcp_association_setup_response recovery_time_stamp_t :=
  {| ie := association_setup_response_recovery_time_stamp; with_ie v c :=
    let 'mk_pfcp_association_setup_response x1 x2 _ x4 x5 x6 := c in
    mk_pfcp_association_setup_response x1 x2 v x4 x5 x6 |}.
#[export] Instance association_setup_response_has_up_function_features : HasIE
    pfcp_association_setup_response up_function_features_s :=
  {| ie := association_setup_response_up_function_features; with_ie v c :=
    let 'mk_pfcp_association_setup_response x1 x2 x3 _ x5 x6 := c in
    mk_pfcp_association_setup_response x1 x2 x3 v x5 x6 |}.
#[export] Instance association_setup_response_has_cp_function_features : HasIE
    pfcp_association_setup_response cp_function_features_t :=
  {| ie := association_setup_response_cp_function_features; with_ie v c :=
    let 'mk_pfcp_association_setup_response x1 x2 x3 x4 _ x6 := c in
    mk_pfcp_association_setup_response x1 x2 x3 x4 v x6 |}.
#[export] Instance association_setup_response_has_user_plane_ip_resource_information : HasIE
    pfcp_association_setup_response user_plane_ip_resource_information_t :=
  {| ie := association_setup_response_user_plane_ip_resource_information; with_ie v c :=
    let 'mk_pfcp_association_setup_response x1 x2 x3 x4 x5 _ := c in
    mk_pfcp_association_setup_response x1 x2 x3 x4 x5 v |}.

Record pfcp_association_release_request : Type := mk_pfcp_association_release_request {
  association_release_request_node_id : opt node_id_t
}.
#[export] Instance pfcp_association_release_request_inhabited : Inhabited
    pfcp_association_release_request :=
  populate (mk_pfcp_association_release_request unset).
#[export] Instance association_release_request_has_node_id : HasIE
    pfcp_association_release_request node_id_t :=
  {| ie := association_release_request_node_id; with_ie v c :=
    let 'mk_pfcp_association_release_request _ := c in
    mk_pfcp_association_release_request v |}.

Record pfcp_association_release_response : Type := mk_pfcp_association_release_response {
  association_release_response_node_id : opt node_id_t;
  association_release_response_cause : opt cause_t
}.
#[export] Instance pfcp_association_release_response_inhabited : Inhabited
    pfcp_association_release_response :=
  populate (mk_pfcp_association_release_response unset unset).
#[export] Instance association_release_response_has_node_id : HasIE
    pfcp_association_release_response node_id_t :=
  {| ie := association_release_response_node_id; with_ie v c :=
    let 'mk_pfcp_association_release_response _ x2 := c in
    mk_pfcp_association_release_response v x2 |}.
#[export] Instance association_release_response_has_cause : HasIE
    pfcp_association_release_response cause_t :=
  {| ie := association_release_response_cause; with_ie v c :=
    let 'mk_pfcp_association_release_response x1 _ := c in
    mk_pfcp_association_release_response x1 v |}.

Record pfcp_node_report_request : Type := mk_pfcp_node_report_request {
  node_report_request_node_id : opt node_id_t;
  node_report_request_node_report_type : opt node_report_type_t;
  node_report_request_user_plane_path_failure_report : opt user_plane_path_failure_report
}.
#[export] Instance pfcp_node_report_request_inhabited : Inhabited pfcp_node_report_request :=
  populate (mk_pfcp_node_report_request unset unset unset).
#[export] Instance node_report_request_has_node_id : HasIE pfcp_node_report_request node_id_t :=
  {| ie := node_report_request_node_id; with_ie v c :=
    let 'mk_pfcp_node_report_request _ x2 x3 := c in
    mk_pfcp_node_report_request v x2 x3 |}.
#[export] Instance node_report_request_has_node_report_type : HasIE pfcp_node_report_request
    node_report_type_t :=
  {| ie := node_report_request_node_report_type; with_ie v c :=
    let 'mk_pfcp_node_report_request x1 _ x3 := c in
    mk_pfcp_node_report_request x1 v x3 |}.
#[export] Instance node_report_request_has_user_plane_path_failure_report : HasIE
    pfcp_node_report_request user_plane_path_failure_report :=
  {| ie := node_report_request_user_plane_path_failure_report; with_ie v c :=
    let 'mk_pfcp_node_report_request x1 x2 _ := c in
    mk_pfcp_node_report_request x1 x2 v |}.

Record pfcp_session_establishment_request : Type := mk_pfcp_session_establishment_request {
  session_establishment_request_node_id : opt node_id_t;
  session_establishment_request_cp_fseid : opt fseid_t;
  session_establishment_request_create_pdrs : list create_pdr;
  session_establishment_request_create_fars : list create_far;
  session_establishment_request_create_urrs : list create_urr;
  session_establishment_request_create_qers : list create_qer;
  session_establishment_request_create_bar : opt create_bar;
  session_establishment_request_create_traffic_endpoint : opt create_traffic_endpoint;
  session_establishment_request_pdn_type : opt pdn_type_t;
  session_establishment_request_sgw_c_fq_csid : opt fq_csid_t;
  session_establishment_request_mme_fq_csid : opt fq_csid_t;
  session_establishment_request_pgw_c_fq_csid : opt fq_csid_t;
  session_establishment_request_epdg_fq_csid : opt fq_csid_t;
  session_establishment_request_twan_fq_csid : opt fq_csid_t;
  session_establishment_request_user_plane_inactivity_timer : opt user_plane_inactivity_timer_t;
  session_establishment_request_user_id : opt user_id_t;
  session_establishment_request_trace_information : opt trace_information_t
}.
#[export] Instance pfcp_session_establishment_request_inhabited : Inhabited
    pfcp_session_establishment_request :=
  populate (mk_pfcp_session_establishment_request unset unset [] [] [] [] unset unset unset
    unset unset unset unset unset unset unset unset).
#[export] Instance session_establishment_request_has_node_id : HasIE
    pfcp_session_establishment_request node_id_t :=
  {| ie := session_establishment_request_node_id; with_ie v c :=
    let 'mk_pfcp_session_establishment_request _ x2 x3 x4 x5 x6 x7 x8 x9 x10 x11 x12 x13 x14
    x15 x16 x17 := c in
    mk_pfcp_session_establishment_request v x2 x3 x4 x5 x6 x7 x8 x9 x10 x11 x12 x13 x14 x15 x16
    x17 |}.
#[export] Instance session_establishment_request_has_cp_fseid : HasIE
    pfcp_session_establishment_request fseid_t :=
  {| ie := session_establishment_request_cp_fseid; with_ie v c :=
    let 'mk_pfcp_session_establishment_request x1 _ x3 x4 x5 x6 x7 x8 x9 x10 x11 x12 x13 x14
    x15 x16 x17 := c in
    mk_pfcp_session_establishment_request x1 v x3 x4 x5 x6 x7 x8 x9 x10 x11 x12 x13 x14 x15 x16
    x17 |}.
#[export] Instance session_establishment_request_has_create_pdrs : HasVec
    pfcp_session_establishment_request create_pdr :=
  {| vec := session_establishment_request_create_pdrs; with_vec v c :=
    let 'mk_pfcp_session_establishment_request x1 x2 _ x4 x5 x6 x7 x8 x9 x10 x11 x12 x13 x14
    x15 x16 x17 := c in
    mk_pfcp_session_establishment_request x1 x2 v x4 x5 x6 x7 x8 x9 x10 x11 x12 x13 x14 x15 x16
    x17 |}.
#[export] Instance session_establishment_request_has_create_fars : HasVec
    pfcp_session_establishment_request create_far :=
  {| vec := session_establishment_request_create_fars; with_vec v c :=
    let 'mk_pfcp_session_establishment_request x1 x2 x3 _ x5 x6 x7 x8 x9 x10 x11 x12 x13 x14
    x15 x16 x17 := c in
    mk_pfcp_session_establishment_request x1 x2 x3 v x5 x6 x7 x8 x9 x10 x11 x12 x13 x14 x15 x16
    x17 |}.
#[export] Instance session_establishment_request_has_create_urrs : HasVec
    pfcp_session_establishment_request create_urr :=
  {| vec := session_establishment_request_create_urrs; with_vec v c :=
    let 'mk_pfcp_session_establishment_request x1 x2 x3 x4 _ x6 x7 x8 x9 x10 x11 x12 x13 x14
    x15 x16 x17 := c in
    mk_pfcp_session_establishment_request x1 x2 x3 x4 v x6 x7 x8 x9 x10 x11 x12 x13 x14 x15 x16
    x17 |}.
#[export] Instance session_establishment_request_has_create_qers : HasVec
    pfcp_session_establishment_request create_qer :=
  {| vec := session_establishment_request_create_qers; with_vec v c :=
    let 'mk_pfcp_session_establishment_request x1 x2 x3 x4 x5 _ x7 x8 x9 x10 x11 x12 x13 x14
    x15 x16 x17 := c in
    mk_pfcp_session_establishment_request x1 x2 x3 x4 x5 v x7 x8 x9 x10 x11 x12 x13 x14 x15 x16
    x17 |}.
#[export] Instance session_establishment_request_has_create_bar : HasIE
    pfcp_session_establishment_request create_bar :=
  {| ie := session_establishment_request_create_bar; with_ie v c :=
    let 'mk_pfcp_session_establishment_request x1 x2 x3 x4 x5 x6 _ x8 x9 x10 x11 x12 x13 x14
    x15 x16 x17 := c in
    mk_pfcp_session_establishment_request x1 x2 x3 x4 x5 x6 v x8 x9 x10 x11 x12 x13 x14 x15 x16
    x17 |}.
Definition session_establishment_request_set_sgw_c_fq_csid (v : fq_csid_t) (c :
    pfcp_session_establishment_request) : pfcp_session_establishment_request :=
  let 'mk_pfcp_session_establishment_request x1 x2 x3 x4 x5 x6 x7 x8 x9 _ x11 x12 x13 x14 x15
    x16 x17 := c in
  mk_pfcp_session_establishment_request x1 x2 x3 x4 x5 x6 x7 x8 x9 (present v) x11 x12 x13 x14
    x15 x16 x17.
Definition session_establishment_request_get_sgw_c_fq_csid (c :
    pfcp_session_establishment_request) : option fq_csid_t :=
  if first (session_establishment_request_sgw_c_fq_csid c) then Some (second
    (session_establishment_request_sgw_c_fq_csid c)) else None.
Definition session_establishment_request_set_mme_fq_csid (v : fq_csid_t) (c :
    pfcp_session_establishment_request) : pfcp_session_establishment_request :=
  let 'mk_pfcp_session_establishment_request x1 x2 x3 x4 x5 x6 x7 x8 x9 x10 _ x12 x13 x14 x15
    x16 x17 := c in
  mk_pfcp_session_establishment_request x1 x2 x3 x4 x5 x6 x7 x8 x9 x10 (present v) x12 x13 x14
    x15 x16 x17.
Definition session_establishment_request_get_mme_fq_csid (c :
    pfcp_session_establishment_request) : option fq_csid_t :=
  if first (session_establishment_request_mme_fq_csid c) then Some (second
    (session_establishment_request_mme_fq_csid c)) else None.
Definition session_establishment_request_set_pgw_c_fq_csid (v : fq_csid_t) (c :
    pfcp_session_establishment_request) : pfcp_session_establishment_request :=
  let 'mk_pfcp_session_establishment_request x1 x2 x3 x4 x5 x6 x7 x8 x9 x10 x11 _ x13 x14 x15
    x16 x17 := c in
  mk_pfcp_session_establishment_request x1 x2 x3 x4 x5 x6 x7 x8 x9 x10 x11 (present v) x13 x14
    x15 x16 x17.
Definition session_establishment_request_get_pgw_c_fq_csid (c :
    pfcp_session_establishment_request) : option fq_csid_t :=
  if first (session_establishment_request_pgw_c_fq_csid c) then Some (second
    (session_establishment_request_pgw_c_fq_csid c)) else None.
Definition session_establishment_request_set_epdg_fq_csid (v : fq_csid_t) (c :
    pfcp_session_establishment_request) : pfcp_session_establishment_request :=
  let 'mk_pfcp_session_establishment_request x1 x2 x3 x4 x5 x6 x7 x8 x9 x10 x11 x12 _ x14 x15
    x16 x17 := c in
  mk_pfcp_session_establishment_request x1 x2 x3 x4 x5 x6 x7 x8 x9 x10 x11 x12 (present v) x14
    x15 x16 x17.
Definition session_establishment_request_get_epdg_fq_csid (c :
    pfcp_session_establishment_request) : option fq_csid_t :=
  if first (session_establishment_request_epdg_fq_csid c) then Some (second
    (session_establishment_request_epdg_fq_csid c)) else None.
Definition session_establishment_request_set_twan_fq_csid (v : fq_csid_t) (c :
    pfcp_session_establishment_request) : pfcp_session_establishment_request :=
  let 'mk_pfcp_session_establishment_request x1 x2 x3 x4 x5 x6 x7 x8 x9 x10 x11 x12 x13 _ x15
    x16 x17 := c in
  mk_pfcp_session_establishment_request x1 x2 x3 x4 x5 x6 x7 x8 x9 x10 x11 x12 x13 (present v)
    x15 x16 x17.
Definition session_establishment_request_get_twan_fq_csid (c :
    pfcp_session_establishment_request) : option fq_csid_t :=
  if first (session_establishment_request_twan_fq_csid c) then Some (second
    (session_establishment_request_twan_fq_csid c)) else None.
#[export] Instance session_establishment_request_has_user_plane_inactivity_timer : HasIE
    pfcp_session_establishment_request user_plane_inactivity_timer_t :=
  {| ie := session_establishment_request_user_plane_inactivity_timer; with_ie v c :=
    let 'mk_pfcp_session_establishment_request x1 x2 x3 x4 x5 x6 x7 x8 x9 x10 x11 x12 x13 x14 _
    x16 x17 := c in
    mk_pfcp_session_establishment_request x1 x2 x3 x4 x5 x6 x7 x8 x9 x10 x11 x12 x13 x14 v x16
    x17 |}.
#[export] Instance session_establishment_request_has_user_id : HasIE
    pfcp_session_establishment_request user_id_t :=
  {| ie := session_establishment_request_user_id; with_ie v c :=
    let 'mk_pfcp_session_establishment_request x1 x2 x3 x4 x5 x6 x7 x8 x9 x10 x11 x12 x13 x14
    x15 _ x17 := c in
    mk_pfcp_session_establishment_request x1 x2 x3 x4 x5 x6 x7 x8 x9 x10 x11 x12 x13 x14 x15 v
    x17 |}.
#[export] Instance session_establishment_request_has_trace_information : HasIE
    pfcp_session_establishment_request trace_information_t :=
  {| ie := session_establishment_request_trace_information; with_ie v c :=
    let 'mk_pfcp_session_establishment_request x1 x2 x3 x4 x5 x6 x7 x8 x9 x10 x11 x12 x13 x14
    x15 x16 _ := c in
    mk_pfcp_session_establishment_request x1 x2 x3 x4 x5 x6 x7 x8 x9 x10 x11 x12 x13 x14 x15
    x16 v |}.

Record pfcp_session_establishment_response : Type := mk_pfcp_session_establishment_response {
  session_establishment_response_node_id : opt node_id_t;
  session_establishment_response_cause : opt cause_t;
  session_establishment_response_offending_ie : opt offending_ie_t;
  session_establishment_response_up_fseid : opt fseid_t;
  session_establishment_response_created_pdrs : list created_pdr;
  session_establishment_response_load_control_information : opt load_control_information;
  session_establishment_response_overload_control_information : opt
    overload_control_information;
  session_establishment_response_sgw_u_fq_csid : opt fq_csid_t;
  session_establishment_response_pgw_u_fq_csid : opt fq_csid_t;
  session_establishment_response_failed_rule_id : opt failed_rule_id_t;
  session_establishment_response_created_traffic_endpoint : opt created_traffic_endpoint
}.
#[export] Instance pfcp_session_establishment_response_inhabited : Inhabited
    pfcp_session_establishment_response :=
  populate (mk_pfcp_session_establishment_response unset unset unset unset [] unset unset unset
    unset unset unset).
#[export] Instance session_establishment_response_has_node_id : HasIE
    pfcp_session_establishment_response node_id_t :=
  {| ie := session_establishment_response_node_id; with_ie v c :=
    let 'mk_pfcp_session_establishment_response _ x2 x3 x4 x5 x6 x7 x8 x9 x10 x11 := c in
    mk_pfcp_session_establishment_response v x2 x3 x4 x5 x6 x7 x8 x9 x10 x11 |}.
#[export] Instance session_establishment_response_has_cause : HasIE
    pfcp_session_establishment_response cause_t :=
  {| ie := session_establishment_response_cause; with_ie v c :=
    let 'mk_pfcp_session_establishment_response x1 _ x3 x4 x5 x6 x7 x8 x9 x10 x11 := c in
    mk_pfcp_session_establishment_response x1 v x3 x4 x5 x6 x7 x8 x9 x10 x11 |}.
#[export] Instance session_establishment_response_has_offending_ie : HasIE
    pfcp_session_establishment_response offending_ie_t :=
  {| ie := session_establishment_response_offending_ie; with_ie v c :=
    let 'mk_pfcp_session_establishment_response x1 x2 _ x4 x5 x6 x7 x8 x9 x10 x11 := c in
    mk_pfcp_session_establishment_response x1 x2 v x4 x5 x6 x7 x8 x9 x10 x11 |}.
#[export] Instance session_establishment_response_has_up_fseid : HasIE
    pfcp_session_establishment_response fseid_t :=
  {| ie := session_establishment_response_up_fseid; with_ie v c :=
    let 'mk_pfcp_session_establishment_response x1 x2 x3 _ x5 x6 x7 x8 x9 x10 x11 := c in
    mk_pfcp_session_establishment_response x1 x2 x3 v x5 x6 x7 x8 x9 x10 x11 |}.
#[export] Instance session_establishment_response_has_created_pdrs : HasVec
    pfcp_session_establishment_response created_pdr :=
  {| vec := session_establishment_response_created_pdrs; with_vec v c :=
    let 'mk_pfcp_session_establishment_response x1 x2 x3 x4 _ x6 x7 x8 x9 x10 x11 := c in
    mk_pfcp_session_establishment_response x1 x2 x3 x4 v x6 x7 x8 x9 x10 x11 |}.
#[export] Instance session_establishment_response_has_load_control_information : HasIE
    pfcp_session_establishment_response load_control_information :=
  {| ie := session_establishment_response_load_control_information; with_ie v c :=
    let 'mk_pfcp_session_establishment_response x1 x2 x3 x4 x5 _ x7 x8 x9 x10 x11 := c in
    mk_pfcp_session_establishment_response x1 x2 x3 x4 x5 v x7 x8 x9 x10 x11 |}.
#[export] Instance session_establishment_response_has_overload_control_information : HasIE
    pfcp_session_establishment_response overload_control_information :=
  {| ie := session_establishment_response_overload_control_information; with_ie v c :=
    let 'mk_pfcp_session_establishment_response x1 x2 x3 x4 x5 x6 _ x8 x9 x10 x11 := c in
    mk_pfcp_session_establishment_response x1 x2 x3 x4 x5 x6 v x8 x9 x10 x11 |}.
Definition session_establishment_response_set_sgw_u_fq_csid (v : fq_csid_t) (c :
    pfcp_session_establishment_response) : pfcp_session_establishment_response :=
  let 'mk_pfcp_session_establishment_response x1 x2 x3 x4 x5 x6 x7 _ x9 x10 x11 := c in
  mk_pfcp_session_establishment_response x1 x2 x3 x4 x5 x6 x7 (present v) x9 x10 x11.
Definition session_establishment_response_get_sgw_u_fq_csid (c :
    pfcp_session_establishment_response) : option fq_csid_t :=
  if first (session_establishment_response_sgw_u_fq_csid c) then Some (second
    (session_establishment_response_sgw_u_fq_csid c)) else None.
Definition session_establishment_response_set_pgw_u_fq_csid (v : fq_csid_t) (c :
    pfcp_session_establishment_response) : pfcp_session_establishment_response :=
  let 'mk_pfcp_session_establishment_response x1 x2 x3 x4 x5 x6 x7 x8 _ x10 x11 := c in
  mk_pfcp_session_establishment_response x1 x2 x3 x4 x5 x6 x7 x8 (present v) x10 x11.
Definition session_establishment_response_get_pgw_u_fq_csid (c :
    pfcp_session_establishment_response) : option fq_csid_t :=
  if first (session_establishment_response_pgw_u_fq_csid c) then Some (second
    (session_establishment_response_pgw_u_fq_csid c)) else None.
#[export] Instance session_establishment_response_has_failed_rule_id : HasIE
    pfcp_session_establishment_response failed_rule_id_t :=
  {| ie := session_establishment_response_failed_rule_id; with_ie v c :=
    let 'mk_pfcp_session_establishment_response x1 x2 x3 x4 x5 x6 x7 x8 x9 _ x11 := c in
    mk_pfcp_session_establishment_response x1 x2 x3 x4 x5 x6 x7 x8 x9 v x11 |}.
#[export] Instance session_establishment_response_has_created_traffic_endpoint : HasIE
    pfcp_session_establishment_response created_traffic_endpoint :=
  {| ie := session_establishment_response_created_traffic_endpoint; with_ie v c :=
    let 'mk_pfcp_session_establishment_response x1 x2 x3 x4 x5 x6 x7 x8 x9 x10 _ := c in
    mk_pfcp_session_establishment_response x1 x2 x3 x4 x5 x6 x7 x8 x9 x10 v |}.

Record pfcp_session_modification_request : Type := mk_pfcp_session_modification_request {
  session_modification_request_cp_fseid : opt fseid_t;
  session_modification_request_remove_pdrs : list remove_pdr;
  session_modification_request_remove_fars : list remove_far;
  session_modification_request_remove_urrs : list remove_urr;
  session_modification_request_remove_qers : list remove_qer;
  session_modification_request_remove_bar : opt remove_bar;
  session_modification_request_remove_traffic_endpoint : opt remove_traffic_endpoint;
  session_modification_request_create_pdrs : list create_pdr;
  session_modification_request_create_fars : list create_far;
  session_modification_request_create_urrs : list create_urr;
  session_modification_request_create_qers : list create_qer;
  session_modification_request_create_bar : opt create_bar;
  session_modification_request_create_traffic_endpoint : opt create_traffic_endpoint;
  session_modification_request_update_pdrs : list update_pdr;
  session_modification_request_update_fars : list update_far;
  session_modification_request_update_urrs : list update_urr;
  session_modification_request_update_qers : list update_qer;
  session_modification_request_update_bar : opt
    update_bar_within_pfcp_session_modification_request;
  session_modification_request_update_traffic_endpoint : opt update_traffic_endpoint;
  session_modification_request_pfcpsmreq_flags : opt pfcpsmreq_flags_t;
  session_modification_request_pgw_c_fq_csid : opt fq_csid_t;
  session_modification_request_sgw_c_fq_csid : opt fq_csid_t;
  session_modification_request_mme_fq_csid : opt fq_csid_t;
  session_modification_request_epdg_fq_csid : opt fq_csid_t;
  session_modification_request_twan_fq_csid : opt fq_csid_t;
  session_modification_request_user_plane_inactivity_timer : opt user_plane_inactivity_timer_t;
  session_modification_request_query_urr_reference : opt query_urr_reference_t;
  session_modification_request_trace_information : opt trace_information_t
}.
#[export] Instance pfcp_session_modification_request_inhabited : Inhabited
    pfcp_session_modification_request :=
  populate (mk_pfcp_session_modification_request unset [] [] [] [] unset unset [] [] [] []
    unset unset [] [] [] [] unset unset unset unset unset unset unset unset unset unset unset).
#[export] Instance session_modification_request_has_cp_fseid : HasIE
    pfcp_session_modification_request fseid_t :=
  {| ie := session_modification_request_cp_fseid; with_ie v c :=
    let 'mk_pfcp_session_modification_request _ x2 x3 x4 x5 x6 x7 x8 x9 x10 x11 x12 x13 x14 x15
    x16 x17 x18 x19 x20 x21 x22 x23 x24 x25 x26 x27 x28 := c in
    mk_pfcp_session_modification_request v x2 x3 x4 x5 x6 x7 x8 x9 x10 x11 x12 x13 x14 x15 x16
    x17 x18 x19 x20 x21 x22 x23 x24 x25 x26 x27 x28 |}.
#[export] Instance session_modification_request_has_remove_pdrs : HasVec
    pfcp_session_modification_request remove_pdr :=
  {| vec := session_modification_request_remove_pdrs; with_vec v c :=
    let 'mk_pfcp_session_modification_request x1 _ x3 x4 x5 x6 x7 x8 x9 x10 x11 x12 x13 x14 x15
    x16 x17 x18 x19 x20 x21 x22 x23 x24 x25 x26 x27 x28 := c in
    mk_pfcp_session_modification_request x1 v x3 x4 x5 x6 x7 x8 x9 x10 x11 x12 x13 x14 x15 x16
    x17 x18 x19 x20 x21 x22 x23 x24 x25 x26 x27 x28 |}.
#[export] Instance session_modification_request_has_remove_fars : HasVec
    pfcp_session_modification_request remove_far :=
  {| vec := session_modification_request_remove_fars; with_vec v c :=
    let 'mk_pfcp_session_modification_request x1 x2 _ x4 x5 x6 x7 x8 x9 x10 x11 x12 x13 x14 x15
    x16 x17 x18 x19 x20 x21 x22 x23 x24 x25 x26 x27 x28 := c in
    mk_pfcp_session_modification_request x1 x2 v x4 x5 x6 x7 x8 x9 x10 x11 x12 x13 x14 x15 x16
    x17 x18 x19 x20 x21 x22 x23 x24 x25 x26 x27 x28 |}.
#[export] Instance session_modification_request_has_remove_urrs : HasVec
    pfcp_session_modification_request remove_urr :=
  {| vec := session_modification_request_remove_urrs; with_vec v c :=
    let 'mk_pfcp_session_modification_request x1 x2 x3 _ x5 x6 x7 x8 x9 x10 x11 x12 x13 x14 x15
    x16 x17 x18 x19 x20 x21 x22 x23 x24 x25 x26 x27 x28 := c in
    mk_pfcp_session_modification_request x1 x2 x3 v x5 x6 x7 x8 x9 x10 x11 x12 x13 x14 x15 x16
    x17 x18 x19 x20 x21 x22 x23 x24 x25 x26 x27 x28 |}.
#[export] Instance session_modification_request_has_remove_qers : HasVec
    pfcp_session_modification_request remove_qer :=
  {| vec := session_modification_request_remove_qers; with_vec v c :=
    let 'mk_pfcp_session_modification_request x1 x2 x3 x4 _ x6 x7 x8 x9 x10 x11 x12 x13 x14 x15
    x16 x17 x18 x19 x20 x21 x22 x23 x24 x25 x26 x27 x28 := c in
    mk_pfcp_session_modification_request x1 x2 x3 x4 v x6 x7 x8 x9 x10 x11 x12 x13 x14 x15 x16
    x17 x18 x19 x20 x21 x22 x23 x24 x25 x26 x27 x28 |}.
#[export] Instance session_modification_request_has_remove_bar : HasIE
    pfcp_session_modification_request remove_bar :=
  {| ie := session_modification_request_remove_bar; with_ie v c :=
    let 'mk_pfcp_session_modification_request x1 x2 x3 x4 x5 _ x7 x8 x9 x10 x11 x12 x13 x14 x15
    x16 x17 x18 x19 x20 x21 x22 x23 x24 x25 x26 x27 x28 := c in
    mk_pfcp_session_modification_request x1 x2 x3 x4 x5 v x7 x8 x9 x10 x11 x12 x13 x14 x15 x16
    x17 x18 x19 x20 x21 x22 x23 x24 x25 x26 x27 x28 |}.
#[export] Instance session_modification_request_has_remove_traffic_endpoint : HasIE
    pfcp_session_modification_request remove_traffic_endpoint :=
  {| ie := session_modification_request_remove_traffic_endpoint; with_ie v c :=
    let 'mk_pfcp_session_modification_request x1 x2 x3 x4 x5 x6 _ x8 x9 x10 x11 x12 x13 x14 x15
    x16 x17 x18 x19 x20 x21 x22 x23 x24 x25 x26 x27 x28 := c in
    mk_pfcp_session_modification_request x1 x2 x3 x4 x5 x6 v x8 x9 x10 x11 x12 x13 x14 x15 x16
    x17 x18 x19 x20 x21 x22 x23 x24 x25 x26 x27 x28 |}.
#[export] Instance session_modification_request_has_create_pdrs : HasVec
    pfcp_session_modification_request create_pdr :=
  {| vec := session_modification_request_create_pdrs; with_vec v c :=
    let 'mk_pfcp_session_modification_request x1 x2 x3 x4 x5 x6 x7 _ x9 x10 x11 x12 x13 x14 x15
    x16 x17 x18 x19 x20 x21 x22 x23 x24 x25 x26 x27 x28 := c in
    mk_pfcp_session_modification_request x1 x2 x3 x4 x5 x6 x7 v x9 x10 x11 x12 x13 x14 x15 x16
    x17 x18 x19 x20 x21 x22 x23 x24 x25 x26 x27 x28 |}.
#[export] Instance session_modification_request_has_create_fars : HasVec
    pfcp_session_modification_request create_far :=
  {| vec := session_modification_request_create_fars; with_vec v c :=
    let 'mk_pfcp_session_modification_request x1 x2 x3 x4 x5 x6 x7 x8 _ x10 x11 x12 x13 x14 x15
    x16 x17 x18 x19 x20 x21 x22 x23 x24 x25 x26 x27 x28 := c in
    mk_pfcp_session_modification_request x1 x2 x3 x4 x5 x6 x7 x8 v x10 x11 x12 x13 x14 x15 x16
    x17 x18 x19 x20 x21 x22 x23 x24 x25 x26 x27 x28 |}.
#[export] Instance session_modification_request_has_create_urrs : HasVec
    pfcp_session_modification_request create_urr :=
  {| vec := session_modification_request_create_urrs; with_vec v c :=
    let 'mk_pfcp_session_modification_request x1 x2 x3 x4 x5 x6 x7 x8 x9 _ x11 x12 x13 x14 x15
    x16 x17 x18 x19 x20 x21 x22 x23 x24 x25 x26 x27 x28 := c in
    mk_pfcp_session_modification_request x1 x2 x3 x4 x5 x6 x7 x8 x9 v x11 x12 x13 x14 x15 x16
    x17 x18 x19 x20 x21 x22 x23 x24 x25 x26 x27 x28 |}.
#[export] Instance session_modification_request_has_create_qers : HasVec
    pfcp_session_modification_request create_qer :=
  {| vec := session_modification_request_create_qers; with_vec v c :=
    let 'mk_pfcp_session_modification_request x1 x2 x3 x4 x5 x6 x7 x8 x9 x10 _ x12 x13 x14 x15
    x16 x17 x18 x19 x20 x21 x22 x23 x24 x25 x26 x27 x28 := c in
    mk_pfcp_session_modification_request x1 x2 x3 x4 x5 x6 x7 x8 x9 x10 v x12 x13 x14 x15 x16
    x17 x18 x19 x20 x21 x22 x23 x24 x25 x26 x27 x28 |}.
#[export] Instance session_modification_request_has_create_bar : HasIE
    pfcp_session_modification_request create_bar :=
  {| ie := session_modification_request_create_bar; with_ie v c :=
    let 'mk_pfcp_session_modification_request x1 x2 x3 x4 x5 x6 x7 x8 x9 x10 x11 _ x13 x14 x15
    x16 x17 x18 x19 x20 x21 x22 x23 x24 x25 x26 x27 x28 := c in
    mk_pfcp_session_modification_request x1 x2 x3 x4 x5 x6 x7 x8 x9 x10 x11 v x13 x14 x15 x16
    x17 x18 x19 x20 x21 x22 x23 x24 x25 x26 x27 x28 |}.
#[export] Instance session_modification_request_has_create_traffic_endpoint : HasIE
    pfcp_session_modification_request create_traffic_endpoint :=
  {| ie := session_modification_request_create_traffic_endpoint; with_ie v c :=
    let 'mk_pfcp_session_modification_request x1 x2 x3 x4 x5 x6 x7 x8 x9 x10 x11 x12 _ x14 x15
    x16 x17 x18 x19 x20 x21 x22 x23 x24 x25 x26 x27 x28 := c in
    mk_pfcp_session_modification_request x1 x2 x3 x4 x5 x6 x7 x8 x9 x10 x11 x12 v x14 x15 x16
    x17 x18 x19 x20 x21 x22 x23 x24 x25 x26 x27 x28 |}.
#[export] Instance session_modification_request_has_update_pdrs : HasVec
    pfcp_session_modification_request update_pdr :=
  {| vec := session_modification_request_update_pdrs; with_vec v c :=
    let 'mk_pfcp_session_modification_request x1 x2 x3 x4 x5 x6 x7 x8 x9 x10 x11 x12 x13 _ x15
    x16 x17 x18 x19 x20 x21 x22 x23 x24 x25 x26 x27 x28 := c in
    mk_pfcp_session_modification_request x1 x2 x3 x4 x5 x6 x7 x8 x9 x10 x11 x12 x13 v x15 x16
    x17 x18 x19 x20 x21 x22 x23 x24 x25 x26 x27 x28 |}.
#[export] Instance session_modification_request_has_update_fars : HasVec
    pfcp_session_modification_request update_far :=
  {| vec := session_modification_request_update_fars; with_vec v c :=
    let 'mk_pfcp_session_modification_request x1 x2 x3 x4 x5 x6 x7 x8 x9 x10 x11 x12 x13 x14 _
    x16 x17 x18 x19 x20 x21 x22 x23 x24 x25 x26 x27 x28 := c in
    mk_pfcp_session_modification_request x1 x2 x3 x4 x5 x6 x7 x8 x9 x10 x11 x12 x13 x14 v x16
    x17 x18 x19 x20 x21 x22 x23 x24 x25 x26 x27 x28 |}.
#[export] Instance session_modification_request_has_update_urrs : HasVec
    pfcp_session_modification_request update_urr :=
  {| vec := session_modification_request_update_urrs; with_vec v c :=
    let 'mk_pfcp_session_modification_request x1 x2 x3 x4 x5 x6 x7 x8 x9 x10 x11 x12 x13 x14
    x15 _ x17 x18 x19 x20 x21 x22 x23 x24 x25 x26 x27 x28 := c in
    mk_pfcp_session_modification_request x1 x2 x3 x4 x5 x6 x7 x8 x9 x10 x11 x12 x13 x14 x15 v
    x17 x18 x19 x20 x21 x22 x23 x24 x25 x26 x27 x28 |}.
#[export] Instance session_modification_request_has_update_qers : HasVec
    pfcp_session_modification_request update_qer :=
  {| vec := session_modification_request_update_qers; with_vec v c :=
    let 'mk_pfcp_session_modification_request x1 x2 x3 x4 x5 x6 x7 x8 x9 x10 x11 x12 x13 x14
    x15 x16 _ x18 x19 x20 x21 x22 x23 x24 x25 x26 x27 x28 := c in
    mk_pfcp_session_modification_request x1 x2 x3 x4 x5 x6 x7 x8 x9 x10 x11 x12 x13 x14 x15 x16
    v x18 x19 x20 x21 x22 x23 x24 x25 x26 x27 x28 |}.
#[export] Instance session_modification_request_has_update_bar : HasIE
    pfcp_session_modification_request update_bar_within_pfcp_session_modification_request :=
  {| ie := session_modification_request_update_bar; with_ie v c :=
    let 'mk_pfcp_session_modification_request x1 x2 x3 x4 x5 x6 x7 x8 x9 x10 x11 x12 x13 x14
    x15 x16 x17 _ x19 x20 x21 x22 x23 x24 x25 x26 x27 x28 := c in
    mk_pfcp_session_modification_request x1 x2 x3 x4 x5 x6 x7 x8 x9 x10 x11 x12 x13 x14 x15 x16
    x17 v x19 x20 x21 x22 x23 x24 x25 x26 x27 x28 |}.
#[export] Instance session_modification_request_has_update_traffic_endpoint : HasIE
    pfcp_session_modification_request update_traffic_endpoint :=
  {| ie := session_modification_request_update_traffic_endpoint; with_ie v c :=
    let 'mk_pfcp_session_modification_request x1 x2 x3 x4 x5 x6 x7 x8 x9 x10 x11 x12 x13 x14
    x15 x16 x17 x18 _ x20 x21 x22 x23 x24 x25 x26 x27 x28 := c in
    mk_pfcp_session_modification_request x1 x2 x3 x4 x5 x6 x7 x8 x9 x10 x11 x12 x13 x14 x15 x16
    x17 x18 v x20 x21 x22 x23 x24 x25 x26 x27 x28 |}.
#[export] Instance session_modification_request_has_pfcpsmreq_flags : HasIE
    pfcp_session_modification_request pfcpsmreq_flags_t :=
  {| ie := session_modification_request_pfcpsmreq_flags; with_ie v c :=
    let 'mk_pfcp_session_modification_request x1 x2 x3 x4 x5 x6 x7 x8 x9 x10 x11 x12 x13 x14
    x15 x16 x17 x18 x19 _ x21 x22 x23 x24 x25 x26 x27 x28 := c in
    mk_pfcp_session_modification_request x1 x2 x3 x4 x5 x6 x7 x8 x9 x10 x11 x12 x13 x14 x15 x16
    x17 x18 x19 v x21 x22 x23 x24 x25 x26 x27 x28 |}.
Definition session_modification_request_set_pgw_c_fq_csid (v : fq_csid_t) (c :
    pfcp_session_modification_request) : pfcp_session_modification_request :=
  let 'mk_pfcp_session_modification_request x1 x2 x3 x4 x5 x6 x7 x8 x9 x10 x11 x12 x13 x14 x15
    x16 x17 x18 x19 x20 _ x22 x23 x24 x25 x26 x27 x28 := c in
  mk_pfcp_session_modification_request x1 x2 x3 x4 x5 x6 x7 x8 x9 x10 x11 x12 x13 x14 x15 x16
    x17 x18 x19 x20 (present v) x22 x23 x24 x25 x26 x27 x28.
Definition session_modification_request_get_pgw_c_fq_csid (c :
    pfcp_session_modification_request) : option fq_csid_t :=
  if first (session_modification_request_pgw_c_fq_csid c) then Some (second
    (session_modification_request_pgw_c_fq_csid c)) else None.
Definition session_modification_request_set_sgw_c_fq_csid (v : fq_csid_t) (c :
    pfcp_session_modification_request) : pfcp_session_modification_request :=
  let 'mk_pfcp_session_modification_request x1 x2 x3 x4 x5 x6 x7 x8 x9 x10 x11 x12 x13 x14 x15
    x16 x17 x18 x19 x20 x21 _ x23 x24 x25 x26 x27 x28 := c in
  mk_pfcp_session_modification_request x1 x2 x3 x4 x5 x6 x7 x8 x9 x10 x11 x12 x13 x14 x15 x16
    x17 x18 x19 x20 x21 (present v) x23 x24 x25 x26 x27 x28.
Definition session_modification_request_get_sgw_c_fq_csid (c :
    pfcp_session_modification_request) : option fq_csid_t :=
  if first (session_modification_request_sgw_c_fq_csid c) then Some (second
    (session_modification_request_sgw_c_fq_csid c)) else None.
Definition session_modification_request_set_mme_fq_csid (v : fq_csid_t) (c :
    pfcp_session_modification_request) : pfcp_session_modification_request :=
  let 'mk_pfcp_session_modification_request x1 x2 x3 x4 x5 x6 x7 x8 x9 x10 x11 x12 x13 x14 x15
    x16 x17 x18 x19 x20 x21 x22 _ x24 x25 x26 x27 x28 := c in
  mk_pfcp_session_modification_request x1 x2 x3 x4 x5 x6 x7 x8 x9 x10 x11 x12 x13 x14 x15 x16
    x17 x18 x19 x20 x21 x22 (present v) x24 x25 x26 x27 x28.
Definition session_modification_request_get_mme_fq_csid (c : pfcp_session_modification_request)
    : option fq_csid_t :=
  if first (session_modification_request_mme_fq_csid c) then Some (second
    (session_modification_request_mme_fq_csid c)) else None.
Definition session_modification_request_set_epdg_fq_csid (v : fq_csid_t) (c :
    pfcp_session_modification_request) : pfcp_session_modification_request :=
  let 'mk_pfcp_session_modification_request x1 x2 x3 x4 x5 x6 x7 x8 x9 x10 x11 x12 x13 x14 x15
    x16 x17 x18 x19 x20 x21 x22 x23 _ x25 x26 x27 x28 := c in
  mk_pfcp_session_modification_request x1 x2 x3 x4 x5 x6 x7 x8 x9 x10 x11 x12 x13 x14 x15 x16
    x17 x18 x19 x20 x21 x22 x23 (present v) x25 x26 x27 x28.
Definition session_modification_request_get_epdg_fq_csid (c :
    pfcp_session_modification_request) : option fq_csid_t :=
  if first (session_modification_request_epdg_fq_csid c) then Some (second
    (session_modification_request_epdg_fq_csid c)) else None.
Definition session_modification_request_set_twan_fq_csid (v : fq_csid_t) (c :
    pfcp_session_modification_request) : pfcp_session_modification_request :=
  let 'mk_pfcp_session_modification_request x1 x2 x3 x4 x5 x6 x7 x8 x9 x10 x11 x12 x13 x14 x15
    x16 x17 x18 x19 x20 x21 x22 x23 x24 _ x26 x27 x28 := c in
  mk_pfcp_session_modification_request x1 x2 x3 x4 x5 x6 x7 x8 x9 x10 x11 x12 x13 x14 x15 x16
    x17 x18 x19 x20 x21 x22 x23 x24 (present v) x26 x27 x28.
Definition session_modification_request_get_twan_fq_csid (c :
    pfcp_session_modification_request) : option fq_csid_t :=
  if first (session_modification_request_twan_fq_csid c) then Some (second
    (session_modification_request_twan_fq_csid c)) else None.
#[export] Instance session_modification_request_has_user_plane_inactivity_timer : HasIE
    pfcp_session_modification_request user_plane_inactivity_timer_t :=
  {| ie := session_modification_request_user_plane_inactivity_timer; with_ie v c :=
    let 'mk_pfcp_session_modification_request x1 x2 x3 x4 x5 x6 x7 x8 x9 x10 x11 x12 x13 x14
    x15 x16 x17 x18 x19 x20 x21 x22 x23 x24 x25 _ x27 x28 := c in
    mk_pfcp_session_modification_request x1 x2 x3 x4 x5 x6 x7 x8 x9 x10 x11 x12 x13 x14 x15 x16
    x17 x18 x19 x20 x21 x22 x23 x24 x25 v x27 x28 |}.
#[export] Instance session_modification_request_has_query_urr_reference : HasIE
    pfcp_session_modification_request query_urr_reference_t :=
  {| ie := session_modification_request_query_urr_reference; with_ie v c :=
    let 'mk_pfcp_session_modification_request x1 x2 x3 x4 x5 x6 x7 x8 x9 x10 x11 x12 x13 x14
    x15 x16 x17 x18 x19 x20 x21 x22 x23 x24 x25 x26 _ x28 := c in
    mk_pfcp_session_modification_request x1 x2 x3 x4 x5 x6 x7 x8 x9 x10 x11 x12 x13 x14 x15 x16
    x17 x18 x19 x20 x21 x22 x23 x24 x25 x26 v x28 |}.
#[export] Instance session_modification_request_has_trace_information : HasIE
    pfcp_session_modification_request trace_information_t :=
  {| ie := session_modification_request_trace_information; with_ie v c :=
    let 'mk_pfcp_session_modification_request x1 x2 x3 x4 x5 x6 x7 x8 x9 x10 x11 x12 x13 x14
    x15 x16 x17 x18 x19 x20 x21 x22 x23 x24 x25 x26 x27 _ := c in
    mk_pfcp_session_modification_request x1 x2 x3 x4 x5 x6 x7 x8 x9 x10 x11 x12 x13 x14 x15 x16
    x17 x18 x19 x20 x21 x22 x23 x24 x25 x26 x27 v |}.

Record pfcp_session_modification_response : Type := mk_pfcp_session_modification_response {
  session_modification_response_cause : opt cause_t;
  session_modification_response_offending_ie : opt offending_ie_t;
  session_modification_response_created_pdrs : list created_pdr;
  session_modification_response_load_control_information : opt load_control_information;
  session_modification_response_overload_control_information : opt overload_control_information;
  session_modification_response_usage_report : opt
    usage_report_within_pfcp_session_modification_response;
  session_modification_response_failed_rule_id : opt failed_rule_id_t;
  session_modification_response_additional_usage_reports_information : opt
    additional_usage_reports_information_t;
  session_modification_response_created_traffic_endpoint : opt created_traffic_endpoint
}.
#[export] Instance pfcp_session_modification_response_inhabited : Inhabited
    pfcp_session_modification_response :=
  populate (mk_pfcp_session_modification_response unset unset [] unset unset unset unset unset
    unset).
#[export] Instance session_modification_response_has_cause : HasIE
    pfcp_session_modification_response cause_t :=
  {| ie := session_modification_response_cause; with_ie v c :=
    let 'mk_pfcp_session_modification_response _ x2 x3 x4 x5 x6 x7 x8 x9 := c in
    mk_pfcp_session_modification_response v x2 x3 x4 x5 x6 x7 x8 x9 |}.
#[export] Instance session_modification_response_has_offending_ie : HasIE
    pfcp_session_modification_response offending_ie_t :=
  {| ie := session_modification_response_offending_ie; with_ie v c :=
    let 'mk_pfcp_session_modification_response x1 _ x3 x4 x5 x6 x7 x8 x9 := c in
    mk_pfcp_session_modification_response x1 v x3 x4 x5 x6 x7 x8 x9 |}.
#[export] Instance session_modification_response_has_created_pdrs : HasVec
    pfcp_session_modification_response created_pdr :=
  {| vec := session_modification_response_created_pdrs; with_vec v c :=
    let 'mk_pfcp_session_modification_response x1 x2 _ x4 x5 x6 x7 x8 x9 := c in
    mk_pfcp_session_modification_response x1 x2 v x4 x5 x6 x7 x8 x9 |}.
#[export] Instance session_modification_response_has_load_control_information : HasIE
    pfcp_session_modification_response load_control_information :=
  {| ie := session_modification_response_load_control_information; with_ie v c :=
    let 'mk_pfcp_session_modification_response x1 x2 x3 _ x5 x6 x7 x8 x9 := c in
    mk_pfcp_session_modification_response x1 x2 x3 v x5 x6 x7 x8 x9 |}.
#[export] Instance session_modification_response_has_overload_control_information : HasIE
    pfcp_session_modification_response overload_control_information :=
  {| ie := session_modification_response_overload_control_information; with_ie v c :=
    let 'mk_pfcp_session_modification_response x1 x2 x3 x4 _ x6 x7 x8 x9 := c in
    mk_pfcp_session_modification_response x1 x2 x3 x4 v x6 x7 x8 x9 |}.
#[export] Instance session_modification_response_has_usage_report : HasIE
    pfcp_session_modification_response usage_report_within_pfcp_session_modification_response :=
  {| ie := session_modification_response_usage_report; with_ie v c :=
    let 'mk_pfcp_session_modification_response x1 x2 x3 x4 x5 _ x7 x8 x9 := c in
    mk_pfcp_session_modification_response x1 x2 x3 x4 x5 v x7 x8 x9 |}.
#[export] Instance session_modification_response_has_failed_rule_id : HasIE
    pfcp_session_modification_response failed_rule_id_t :=
  {| ie := session_modification_response_failed_rule_id; with_ie v c :=
    let 'mk_pfcp_session_modification_response x1 x2 x3 x4 x5 x6 _ x8 x9 := c in
    mk_pfcp_session_modification_response x1 x2 x3 x4 x5 x6 v x8 x9 |}.
#[export] Instance session_modification_response_has_additional_usage_reports_information :
    HasIE pfcp_session_modification_response additional_usage_reports_information_t :=
  {| ie := session_modification_response_additional_usage_reports_information; with_ie v c :=
    let 'mk_pfcp_session_modification_response x1 x2 x3 x4 x5 x6 x7 _ x9 := c in
    mk_pfcp_session_modification_response x1 x2 x3 x4 x5 x6 x7 v x9 |}.
#[export] Instance session_modification_response_has_created_traffic_endpoint : HasIE
    pfcp_session_modification_response created_traffic_endpoint :=
  {| ie := session_modification_response_created_traffic_endpoint; with_ie v c :=
    let 'mk_pfcp_session_modification_response x1 x2 x3 x4 x5 x6 x7 x8 _ := c in
    mk_pfcp_session_modification_response x1 x2 x3 x4 x5 x6 x7 x8 v |}.

Record pfcp_session_deletion_request : Type := mk_pfcp_session_deletion_request {}.
#[export] Instance pfcp_session_deletion_request_inhabited : Inhabited
    pfcp_session_deletion_request := populate mk_pfcp_session_deletion_request.

Record pfcp_session_deletion_response : Type := mk_pfcp_session_deletion_response {
  session_deletion_response_cause : opt cause_t;
  session_deletion_response_offending_ie : opt offending_ie_t
}.
#[export] Instance pfcp_session_deletion_response_inhabited : Inhabited
    pfcp_session_deletion_response :=
  populate (mk_pfcp_session_deletion_response unset unset).
#[export] Instance session_deletion_response_has_cause : HasIE pfcp_session_deletion_response
    cause_t :=
  {| ie := session_deletion_response_cause; with_ie v c :=
    let 'mk_pfcp_session_deletion_response _ x2 := c in
    mk_pfcp_session_deletion_response v x2 |}.
#[export] Instance session_deletion_response_has_offending_ie : HasIE
    pfcp_session_deletion_response offending_ie_t :=
  {| ie := session_deletion_response_offending_ie; with_ie v c :=
    let 'mk_pfcp_session_deletion_response x1 _ := c in
    mk_pfcp_session_deletion_response x1 v |}.

Record pfcp_session_report_request : Type := mk_pfcp_session_report_request {
  session_report_request_report_type : opt report_type_t;
  session_report_request_downlink_data_report : opt downlink_data_report;
  session_report_request_usage_report : opt usage_report_within_pfcp_session_report_request;
  session_report_request_error_indication_report : opt error_indication_report;
  session_report_request_load_control_information : opt load_control_information;
  session_report_request_overload_control_information : opt overload_control_information;
  session_report_request_additional_usage_reports_information : opt
    additional_usage_reports_information_t
}.
#[export] Instance pfcp_session_report_request_inhabited : Inhabited
    pfcp_session_report_request :=
  populate (mk_pfcp_session_report_request unset unset unset unset unset unset unset).
#[export] Instance session_report_request_has_report_type : HasIE pfcp_session_report_request
    report_type_t :=
  {| ie := session_report_request_report_type; with_ie v c :=
    let 'mk_pfcp_session_report_request _ x2 x3 x4 x5 x6 x7 := c in
    mk_pfcp_session_report_request v x2 x3 x4 x5 x6 x7 |}.
#[export] Instance session_report_request_has_downlink_data_report : HasIE
    pfcp_session_report_request downlink_data_report :=
  {| ie := session_report_request_downlink_data_report; with_ie v c :=
    let 'mk_pfcp_session_report_request x1 _ x3 x4 x5 x6 x7 := c in
    mk_pfcp_session_report_request x1 v x3 x4 x5 x6 x7 |}.
#[export] Instance session_report_request_has_usage_report : HasIE pfcp_session_report_request
    usage_report_within_pfcp_session_report_request :=
  {| ie := session_report_request_usage_report; with_ie v c :=
    let 'mk_pfcp_session_report_request x1 x2 _ x4 x5 x6 x7 := c in
    mk_pfcp_session_report_request x1 x2 v x4 x5 x6 x7 |}.
#[export] Instance session_report_request_has_error_indication_report : HasIE
    pfcp_session_report_request error_indication_report :=
  {| ie := session_report_request_error_indication_report; with_ie v c :=
    let 'mk_pfcp_session_report_request x1 x2 x3 _ x5 x6 x7 := c in
    mk_pfcp_session_report_request x1 x2 x3 v x5 x6 x7 |}.
#[export] Instance session_report_request_has_load_control_information : HasIE
    pfcp_session_report_request load_control_information :=
  {| ie := session_report_request_load_control_information; with_ie v c :=
    let 'mk_pfcp_session_report_request x1 x2 x3 x4 _ x6 x7 := c in
    mk_pfcp_session_report_request x1 x2 x3 x4 v x6 x7 |}.
#[export] Instance session_report_request_has_overload_control_information : HasIE
    pfcp_session_report_request overload_control_information :=
  {| ie := session_report_request_overload_control_information; with_ie v c :=
    let 'mk_pfcp_session_report_request x1 x2 x3 x4 x5 _ x7 := c in
    mk_pfcp_session_report_request x1 x2 x3 x4 x5 v x7 |}.
#[export] Instance session_report_request_has_additional_usage_reports_information : HasIE
    pfcp_session_report_request additional_usage_reports_information_t :=
  {| ie := session_report_request_additional_usage_reports_information; with_ie v c :=
    let 'mk_pfcp_session_report_request x1 x2 x3 x4 x5 x6 _ := c in
    mk_pfcp_session_report_request x1 x2 x3 x4 x5 x6 v |}.

Record pfcp_session_report_response : Type := mk_pfcp_session_report_response {
  session_report_response_cause : opt cause_t;
  session_report_response_offending_ie : opt offending_ie_t;
  session_report_response_update_bar : opt update_bar_within_pfcp_session_report_response
}.
#[export] Instance pfcp_session_report_response_inhabited : Inhabited
    pfcp_session_report_response :=
  populate (mk_pfcp_session_report_response unset unset unset).
#[export] Instance session_report_response_has_cause : HasIE pfcp_session_report_response
    cause_t :=
  {| ie := session_report_response_cause; with_ie v c :=
    let 'mk_pfcp_session_report_response _ x2 x3 := c in
    mk_pfcp_session_report_response v x2 x3 |}.
#[export] Instance session_report_response_has_offending_ie : HasIE
    pfcp_session_report_response offending_ie_t :=
  {| ie := session_report_response_offending_ie; with_ie v c :=
    let 'mk_pfcp_session_report_response x1 _ x3 := c in
    mk_pfcp_session_report_response x1 v x3 |}.
#[export] Instance session_report_response_has_update_bar : HasIE pfcp_session_report_response
    update_bar_within_pfcp_session_report_response :=
  {| ie := session_report_response_update_bar; with_ie v c :=
    let 'mk_pfcp_session_report_response x1 x2 _ := c in
    mk_pfcp_session_report_response x1 x2 v |}.

Record pfcp_pfd_management_request : Type := mk_pfcp_pfd_management_request {
  pfd_management_request_application_ids_pfds : opt application_ids_pfds
}.
#[export] Instance pfcp_pfd_management_request_inhabited : Inhabited
    pfcp_pfd_management_request :=
  populate (mk_pfcp_pfd_management_request unset).
#[export] Instance pfd_management_request_has_application_ids_pfds : HasIE
    pfcp_pfd_management_request application_ids_pfds :=
  {| ie := pfd_management_request_application_ids_pfds; with_ie v c :=
    let 'mk_pfcp_pfd_management_request _ := c in
    mk_pfcp_pfd_management_request v |}.

Record pfcp_pfd_management_response : Type := mk_pfcp_pfd_management_response {
  pfd_management_response_cause : opt cause_t;
  pfd_management_response_offending_ie : opt offending_ie_t
}.
#[export] Instance pfcp_pfd_management_response_inhabited : Inhabited
    pfcp_pfd_management_response :=
  populate (mk_pfcp_pfd_management_response unset unset).
#[export] Instance pfd_management_response_has_cause : HasIE pfcp_pfd_management_response
    cause_t :=
  {| ie := pfd_management_response_cause; with_ie v c :=
    let 'mk_pfcp_pfd_management_response _ x2 := c in
    mk_pfcp_pfd_management_response v x2 |}.
#[export] Instance pfd_management_response_has_offending_ie : HasIE
    pfcp_pfd_management_response offending_ie_t :=
  {| ie := pfd_management_response_offending_ie; with_ie v c :=
    let 'mk_pfcp_pfd_management_response x1 _ := c in
    mk_pfcp_pfd_management_response x1 v |}.

Record pfcp_association_update_request : Type := mk_pfcp_association_update_request {
  association_update_request_node_id : opt node_id_t;
  association_update_request_up_function_features : opt up_function_features_s;
  association_update_request_cp_function_features : opt cp_function_features_t;
  association_update_request_pfcp_association_release_request : opt
    pfcp_association_release_request_t;
  association_update_request_graceful_release_period : opt graceful_release_period_t;
  association_update_request_user_plane_ip_resource_information : opt
    user_plane_ip_resource_information_t
}.
#[export] Instance pfcp_association_update_request_inhabited : Inhabited
    pfcp_association_update_request :=
  populate (mk_pfcp_association_update_request unset unset unset unset unset unset).
#[export] Instance association_update_request_has_node_id : HasIE
    pfcp_association_update_request node_id_t :=
  {| ie := association_update_request_node_id; with_ie v c :=
    let 'mk_pfcp_association_update_request _ x2 x3 x4 x5 x6 := c in
    mk_pfcp_association_update_request v x2 x3 x4 x5 x6 |}.
#[export] Instance association_update_request_has_up_function_features : HasIE
    pfcp_association_update_request up_function_features_s :=
  {| ie := association_update_request_up_function_features; with_ie v c :=
    let 'mk_pfcp_association_update_request x1 _ x3 x4 x5 x6 := c in
    mk_pfcp_association_update_request x1 v x3 x4 x5 x6 |}.
#[export] Instance association_update_request_has_cp_function_features : HasIE
    pfcp_association_update_request cp_function_features_t :=
  {| ie := association_update_request_cp_function_features; with_ie v c :=
    let 'mk_pfcp_association_update_request x1 x2 _ x4 x5 x6 := c in
    mk_pfcp_association_update_request x1 x2 v x4 x5 x6 |}.
#[export] Instance association_update_request_has_pfcp_association_release_request : HasIE
    pfcp_association_update_request pfcp_association_release_request_t :=
  {| ie := association_update_request_pfcp_association_release_request; with_ie v c :=
    let 'mk_pfcp_association_update_request x1 x2 x3 _ x5 x6 := c in
    mk_pfcp_association_update_request x1 x2 x3 v x5 x6 |}.
#[export] Instance association_update_request_has_graceful_release_period : HasIE
    pfcp_association_update_request graceful_release_period_t :=
  {| ie := association_update_request_graceful_release_period; with_ie v c :=
    let 'mk_pfcp_association_update_request x1 x2 x3 x4 _ x6 := c in
    mk_pfcp_association_update_request x1 x2 x3 x4 v x6 |}.
#[export] Instance association_update_request_has_user_plane_ip_resource_information : HasIE
    pfcp_association_update_request user_plane_ip_resource_information_t :=
  {| ie := association_update_request_user_plane_ip_resource_information; with_ie v c :=
    let 'mk_pfcp_association_update_request x1 x2 x3 x4 x5 _ := c in
    mk_pfcp_association_update_request x1 x2 x3 x4 x5 v |}.

Record pfcp_association_update_response : Type := mk_pfcp_association_update_response {
  association_update_response_node_id : opt node_id_t;
  association_update_response_cause : opt cause_t;
  association_update_response_up_function_features : opt up_function_features_s;
  association_update_response_cp_function_features : opt cp_function_features_t
}.
#[export] Instance pfcp_association_update_response_inhabited : Inhabited
    pfcp_association_update_response :=
  populate (mk_pfcp_association_update_response unset unset unset unset).
#[export] Instance association_update_response_has_node_id : HasIE
    pfcp_association_update_response node_id_t :=
  {| ie := association_update_response_node_id; with_ie v c :=
    let 'mk_pfcp_association_update_response _ x2 x3 x4 := c in
    mk_pfcp_association_update_response v x2 x3 x4 |}.
#[export] Instance association_update_response_has_cause : HasIE
    pfcp_association_update_response cause_t :=
  {| ie := association_update_response_cause; with_ie v c :=
    let 'mk_pfcp_association_update_response x1 _ x3 x4 := c in
    mk_pfcp_association_update_response x1 v x3 x4 |}.
#[export] Instance association_update_response_has_up_function_features : HasIE
    pfcp_association_update_response up_function_features_s :=
  {| ie := association_update_response_up_function_features; with_ie v c :=
    let 'mk_pfcp_association_update_response x1 x2 _ x4 := c in
    mk_pfcp_association_update_response x1 x2 v x4 |}.
#[export] Instance association_update_response_has_cp_function_features : HasIE
    pfcp_association_update_response cp_function_features_t :=
  {| ie := association_update_response_cp_function_features; with_ie v c :=
    let 'mk_pfcp_association_update_response x1 x2 x3 _ := c in
    mk_pfcp_association_update_response x1 x2 x3 v |}.

Record pfcp_version_not_supported_response : Type := mk_pfcp_version_not_supported_response {}.
#[export] Instance pfcp_version_not_supported_response_inhabited : Inhabited
    pfcp_version_not_supported_response := populate mk_pfcp_version_not_supported_response.

Record pfcp_node_report_response : Type := mk_pfcp_node_report_response {
  node_report_response_node_id : opt node_id_t;
  node_report_response_cause : opt cause_t;
  node_report_response_offending_ie : opt offending_ie_t
}.
#[export] Instance pfcp_node_report_response_inhabited : Inhabited pfcp_node_report_response :=
  populate (mk_pfcp_node_report_response unset unset unset).
#[export] Instance node_report_response_has_node_id : HasIE pfcp_node_report_response node_id_t
    :=
  {| ie := node_report_response_node_id; with_ie v c :=
    let 'mk_pfcp_node_report_response _ x2 x3 := c in
    mk_pfcp_node_report_response v x2 x3 |}.
#[export] Instance node_report_response_has_cause : HasIE pfcp_node_report_response cause_t :=
  {| ie := node_report_response_cause; with_ie v c :=
    let 'mk_pfcp_node_report_response x1 _ x3 := c in
    mk_pfcp_node_report_response x1 v x3 |}.
#[export] Instance node_report_response_has_offending_ie : HasIE pfcp_node_report_response
    offending_ie_t :=
  {| ie := node_report_response_offending_ie; with_ie v c :=
    let 'mk_pfcp_node_report_response x1 x2 _ := c in
    mk_pfcp_node_report_response x1 x2 v |}.

Record pfcp_session_set_deletion_request : Type := mk_pfcp_session_set_deletion_request {
  session_set_deletion_request_node_id : opt node_id_t;
  session_set_deletion_request_sgw_c_fq_csid : opt fq_csid_t;
  session_set_deletion_request_pgw_c_fq_csid : opt fq_csid_t;
  session_set_deletion_request_sgw_u_fq_csid : opt fq_csid_t;
  session_set_deletion_request_pgw_u_fq_csid : opt fq_csid_t;
  session_set_deletion_request_twan_fq_csid : opt fq_csid_t;
  session_set_deletion_request_epdg_fq_csid : opt fq_csid_t;
  session_set_deletion_request_mme_fq_csid : opt fq_csid_t
}.
#[export] Instance pfcp_session_set_deletion_request_inhabited : Inhabited
    pfcp_session_set_deletion_request :=
  populate (mk_pfcp_session_set_deletion_request unset unset unset unset unset unset unset
    unset).
#[export] Instance session_set_deletion_request_has_node_id : HasIE
    pfcp_session_set_deletion_request node_id_t :=
  {| ie := session_set_deletion_request_node_id; with_ie v c :=
    let 'mk_pfcp_session_set_deletion_request _ x2 x3 x4 x5 x6 x7 x8 := c in
    mk_pfcp_session_set_deletion_request v x2 x3 x4 x5 x6 x7 x8 |}.
Definition session_set_deletion_request_set_sgw_c_fq_csid (v : fq_csid_t) (c :
    pfcp_session_set_deletion_request) : pfcp_session_set_deletion_request :=
  let 'mk_pfcp_session_set_deletion_request x1 _ x3 x4 x5 x6 x7 x8 := c in
  mk_pfcp_session_set_deletion_request x1 (present v) x3 x4 x5 x6 x7 x8.
Definition session_set_deletion_request_get_sgw_c_fq_csid (c :
    pfcp_session_set_deletion_request) : option fq_csid_t :=
  if first (session_set_deletion_request_sgw_c_fq_csid c) then Some (second
    (session_set_deletion_request_sgw_c_fq_csid c)) else None.
Definition session_set_deletion_request_set_pgw_c_fq_csid (v : fq_csid_t) (c :
    pfcp_session_set_deletion_request) : pfcp_session_set_deletion_request :=
  let 'mk_pfcp_session_set_deletion_request x1 x2 _ x4 x5 x6 x7 x8 := c in
  mk_pfcp_session_set_deletion_request x1 x2 (present v) x4 x5 x6 x7 x8.
Definition session_set_deletion_request_get_pgw_c_fq_csid (c :
    pfcp_session_set_deletion_request) : option fq_csid_t :=
  if first (session_set_deletion_request_pgw_c_fq_csid c) then Some (second
    (session_set_deletion_request_pgw_c_fq_csid c)) else None.
Definition session_set_deletion_request_set_sgw_u_fq_csid (v : fq_csid_t) (c :
    pfcp_session_set_deletion_request) : pfcp_session_set_deletion_request :=
  let 'mk_pfcp_session_set_deletion_request x1 x2 x3 _ x5 x6 x7 x8 := c in
  mk_pfcp_session_set_deletion_request x1 x2 x3 (present v) x5 x6 x7 x8.
Definition session_set_deletion_request_get_sgw_u_fq_csid (c :
    pfcp_session_set_deletion_request) : option fq_csid_t :=
  if first (session_set_deletion_request_sgw_u_fq_csid c) then Some (second
    (session_set_deletion_request_sgw_u_fq_csid c)) else None.
Definition session_set_deletion_request_set_pgw_u_fq_csid (v : fq_csid_t) (c :
    pfcp_session_set_deletion_request) : pfcp_session_set_deletion_request :=
  let 'mk_pfcp_session_set_deletion_request x1 x2 x3 x4 _ x6 x7 x8 := c in
  mk_pfcp_session_set_deletion_request x1 x2 x3 x4 (present v) x6 x7 x8.
Definition session_set_deletion_request_get_pgw_u_fq_csid (c :
    pfcp_session_set_deletion_request) : option fq_csid_t :=
  if first (session_set_deletion_request_pgw_u_fq_csid c) then Some (second
    (session_set_deletion_request_pgw_u_fq_csid c)) else None.
Definition session_set_deletion_request_set_twan_fq_csid (v : fq_csid_t) (c :
    pfcp_session_set_deletion_request) : pfcp_session_set_deletion_request :=
  let 'mk_pfcp_session_set_deletion_request x1 x2 x3 x4 x5 _ x7 x8 := c in
  mk_pfcp_session_set_deletion_request x1 x2 x3 x4 x5 (present v) x7 x8.
Definition session_set_deletion_request_get_twan_fq_csid (c :
    pfcp_session_set_deletion_request) : option fq_csid_t :=
  if first (session_set_deletion_request_twan_fq_csid c) then Some (second
    (session_set_deletion_request_twan_fq_csid c)) else None.
Definition session_set_deletion_request_set_epdg_fq_csid (v : fq_csid_t) (c :
    pfcp_session_set_deletion_request) : pfcp_session_set_deletion_request :=
  let 'mk_pfcp_session_set_deletion_request x1 x2 x3 x4 x5 x6 _ x8 := c in
  mk_pfcp_session_set_deletion_request x1 x2 x3 x4 x5 x6 (present v) x8.
Definition session_set_deletion_request_get_epdg_fq_csid (c :
    pfcp_session_set_deletion_request) : option fq_csid_t :=
  if first (session_set_deletion_request_epdg_fq_csid c) then Some (second
    (session_set_deletion_request_epdg_fq_csid c)) else None.
Definition session_set_deletion_request_set_mme_fq_csid (v : fq_csid_t) (c :
    pfcp_session_set_deletion_request) : pfcp_session_set_deletion_request :=
  let 'mk_pfcp_session_set_deletion_request x1 x2 x3 x4 x5 x6 x7 _ := c in
  mk_pfcp_session_set_deletion_request x1 x2 x3 x4 x5 x6 x7 (present v).
Definition session_set_deletion_request_get_mme_fq_csid (c : pfcp_session_set_deletion_request)
    : option fq_csid_t :=
  if first (session_set_deletion_request_mme_fq_csid c) then Some (second
    (session_set_deletion_request_mme_fq_csid c)) else None.

Record pfcp_session_set_deletion_response : Type := mk_pfcp_session_set_deletion_response {
  session_set_deletion_response_node_id : opt node_id_t;
  session_set_deletion_response_cause : opt cause_t;
  session_set_deletion_response_offending_ie : opt offending_ie_t
}.
#[export] Instance pfcp_session_set_deletion_response_inhabited : Inhabited
    pfcp_session_set_deletion_response :=
  populate (mk_pfcp_session_set_deletion_response unset unset unset).
#[export] Instance session_set_deletion_response_has_node_id : HasIE
    pfcp_session_set_deletion_response node_id_t :=
  {| ie := session_set_deletion_response_node_id; with_ie v c :=
    let 'mk_pfcp_session_set_deletion_response _ x2 x3 := c in
    mk_pfcp_session_set_deletion_response v x2 x3 |}.
#[export] Instance session_set_deletion_response_has_cause : HasIE
    pfcp_session_set_deletion_response cause_t :=
  {| ie := session_set_deletion_response_cause; with_ie v c :=
    let 'mk_pfcp_session_set_deletion_response x1 _ x3 := c in
    mk_pfcp_session_set_deletion_response x1 v x3 |}.
#[export] Instance session_set_deletion_response_has_offending_ie : HasIE
    pfcp_session_set_deletion_response offending_ie_t :=
  {| ie := session_set_deletion_response_offending_ie; with_ie v c :=
    let 'mk_pfcp_session_set_deletion_response x1 x2 _ := c in
    mk_pfcp_session_set_deletion_response x1 x2 v |}.

(** The instances are lenses. *)

#[export] Instance heartbeat_request_has_recovery_time_stamp_laws : HasIELaws
    pfcp_heartbeat_request recovery_time_stamp_t.
Proof. solve_has_ie. Qed.

#[export] Instance heartbeat_response_has_recovery_time_stamp_laws : HasIELaws
    pfcp_heartbeat_response recovery_time_stamp_t.
Proof. solve_has_ie. Qed.

#[export] Instance association_setup_request_has_node_id_laws : HasIELaws
    pfcp_association_setup_request node_id_t.
Proof. solve_has_ie. Qed.

#[export] Instance association_setup_request_has_recovery_time_stamp_laws : HasIELaws
    pfcp_association_setup_request recovery_time_stamp_t.
Proof. solve_has_ie. Qed.

#[export] Instance association_setup_request_has_up_function_features_laws : HasIELaws
    pfcp_association_setup_request up_function_features_s.
Proof. solve_has_ie. Qed.

#[export] Instance association_setup_request_has_cp_function_features_laws : HasIELaws
    pfcp_association_setup_request cp_function_features_t.
Proof. solve_has_ie. Qed.

#[export] Instance association_setup_request_has_user_plane_ip_resource_information_laws :
    HasIELaws pfcp_association_setup_request user_plane_ip_resource_information_t.
Proof. solve_has_ie. Qed.

#[export] Instance association_setup_response_has_node_id_laws : HasIELaws
    pfcp_association_setup_response node_id_t.
Proof. solve_has_ie. Qed.

#[export] Instance association_setup_response_has_cause_laws : HasIELaws
    pfcp_association_setup_response cause_t.
Proof. solve_has_ie. Qed.

#[export] Instance association_setup_response_has_recovery_time_stamp_laws : HasIELaws
    pfcp_association_setup_response recovery_time_stamp_t.
Proof. solve_has_ie. Qed.

#[export] Instance association_setup_response_has_up_function_features_laws : HasIELaws
    pfcp_association_setup_response up_function_features_s.
Proof. solve_has_ie. Qed.

#[export] Instance association_setup_response_has_cp_function_features_laws : HasIELaws
    pfcp_association_setup_response cp_function_features_t.
Proof. solve_has_ie. Qed.

#[export] Instance association_setup_response_has_user_plane_ip_resource_information_laws :
    HasIELaws pfcp_association_setup_response user_plane_ip_resource_information_t.
Proof. solve_has_ie. Qed.

#[export] Instance association_release_request_has_node_id_laws : HasIELaws
    pfcp_association_release_request node_id_t.
Proof. solve_has_ie. Qed.

#[export] Instance association_release_response_has_node_id_laws : HasIELaws
    pfcp_association_release_response node_id_t.
Proof. solve_has_ie. Qed.

#[export] Instance association_release_response_has_cause_laws : HasIELaws
    pfcp_association_release_response cause_t.
Proof. solve_has_ie. Qed.

#[export] Instance node_report_request_has_node_id_laws : HasIELaws pfcp_node_report_request
    node_id_t.
Proof. solve_has_ie. Qed.

#[export] Instance node_report_request_has_node_report_type_laws : HasIELaws
    pfcp_node_report_request node_report_type_t.
Proof. solve_has_ie. Qed.

#[export] Instance node_report_request_has_user_plane_path_failure_report_laws : HasIELaws
    pfcp_node_report_request user_plane_path_failure_report.
Proof. solve_has_ie. Qed.

#[export] Instance session_establishment_request_has_node_id_laws : HasIELaws
    pfcp_session_establishment_request node_id_t.
Proof. solve_has_ie. Qed.

#[export] Instance session_establishment_request_has_cp_fseid_laws : HasIELaws
    pfcp_session_establishment_request fseid_t.
Proof. solve_has_ie. Qed.

#[export] Instance session_establishment_request_has_create_pdrs_laws : HasVecLaws
    pfcp_session_establishment_request create_pdr.
Proof. solve_has_vec. Qed.

#[export] Instance session_establishment_request_has_create_fars_laws : HasVecLaws
    pfcp_session_establishment_request create_far.
Proof. solve_has_vec. Qed.

#[export] Instance session_establishment_request_has_create_urrs_laws : HasVecLaws
    pfcp_session_establishment_request create_urr.
Proof. solve_has_vec. Qed.

#[export] Instance session_establishment_request_has_create_qers_laws : HasVecLaws
    pfcp_session_establishment_request create_qer.
Proof. solve_has_vec. Qed.

#[export] Instance session_establishment_request_has_create_bar_laws : HasIELaws
    pfcp_session_establishment_request create_bar.
Proof. solve_has_ie. Qed.

Lemma session_establishment_request_get_set_sgw_c_fq_csid v c :
  session_establishment_request_get_sgw_c_fq_csid
    (session_establishment_request_set_sgw_c_fq_csid v c) = Some v.
Proof. now destruct c. Qed.

Lemma session_establishment_request_get_set_mme_fq_csid v c :
  session_establishment_request_get_mme_fq_csid (session_establishment_request_set_mme_fq_csid
    v c) = Some v.
Proof. now destruct c. Qed.

Lemma session_establishment_request_get_set_pgw_c_fq_csid v c :
  session_establishment_request_get_pgw_c_fq_csid
    (session_establishment_request_set_pgw_c_fq_csid v c) = Some v.
Proof. now destruct c. Qed.

Lemma session_establishment_request_get_set_epdg_fq_csid v c :
  session_establishment_request_get_epdg_fq_csid
    (session_establishment_request_set_epdg_fq_csid v c) = Some v.
Proof. now destruct c. Qed.

Lemma session_establishment_request_get_set_twan_fq_csid v c :
  session_establishment_request_get_twan_fq_csid
    (session_establishment_request_set_twan_fq_csid v c) = Some v.
Proof. now destruct c. Qed.

#[export] Instance session_establishment_request_has_user_plane_inactivity_timer_laws :
    HasIELaws pfcp_session_establishment_request user_plane_inactivity_timer_t.
Proof. solve_has_ie. Qed.

#[export] Instance session_establishment_request_has_user_id_laws : HasIELaws
    pfcp_session_establishment_request user_id_t.
Proof. solve_has_ie. Qed.

#[export] Instance session_establishment_request_has_trace_information_laws : HasIELaws
    pfcp_session_establishment_request trace_information_t.
Proof. solve_has_ie. Qed.

#[export] Instance session_establishment_response_has_node_id_laws : HasIELaws
    pfcp_session_establishment_response node_id_t.
Proof. solve_has_ie. Qed.

#[export] Instance session_establishment_response_has_cause_laws : HasIELaws
    pfcp_session_establishment_response cause_t.
Proof. solve_has_ie. Qed.

#[export] Instance session_establishment_response_has_offending_ie_laws : HasIELaws
    pfcp_session_establishment_response offending_ie_t.
Proof. solve_has_ie. Qed.

#[export] Instance session_establishment_response_has_up_fseid_laws : HasIELaws
    pfcp_session_establishment_response fseid_t.
Proof. solve_has_ie. Qed.

#[export] Instance session_establishment_response_has_created_pdrs_laws : HasVecLaws
    pfcp_session_establishment_response created_pdr.
Proof. solve_has_vec. Qed.

#[export] Instance session_establishment_response_has_load_control_information_laws : HasIELaws
    pfcp_session_establishment_response load_control_information.
Proof. solve_has_ie. Qed.

#[export] Instance session_establishment_response_has_overload_control_information_laws :
    HasIELaws pfcp_session_establishment_response overload_control_information.
Proof. solve_has_ie. Qed.

Lemma session_establishment_response_get_set_sgw_u_fq_csid v c :
  session_establishment_response_get_sgw_u_fq_csid
    (session_establishment_response_set_sgw_u_fq_csid v c) = Some v.
Proof. now destruct c. Qed.

Lemma session_establishment_response_get_set_pgw_u_fq_csid v c :
  session_establishment_response_get_pgw_u_fq_csid
    (session_establishment_response_set_pgw_u_fq_csid v c) = Some v.
Proof. now destruct c. Qed.

#[export] Instance session_establishment_response_has_failed_rule_id_laws : HasIELaws
    pfcp_session_establishment_response failed_rule_id_t.
Proof. solve_has_ie. Qed.

#[export] Instance session_establishment_response_has_created_traffic_endpoint_laws : HasIELaws
    pfcp_session_establishment_response created_traffic_endpoint.
Proof. solve_has_ie. Qed.

#[export] Instance session_modification_request_has_cp_fseid_laws : HasIELaws
    pfcp_session_modification_request fseid_t.
Proof. solve_has_ie. Qed.

#[export] Instance session_modification_request_has_remove_pdrs_laws : HasVecLaws
    pfcp_session_modification_request remove_pdr.
Proof. solve_has_vec. Qed.

#[export] Instance session_modification_request_has_remove_fars_laws : HasVecLaws
    pfcp_session_modification_request remove_far.
Proof. solve_has_vec. Qed.

#[export] Instance session_modification_request_has_remove_urrs_laws : HasVecLaws
    pfcp_session_modification_request remove_urr.
Proof. solve_has_vec. Qed.

#[export] Instance session_modification_request_has_remove_qers_laws : HasVecLaws
    pfcp_session_modification_request remove_qer.
Proof. solve_has_vec. Qed.

#[export] Instance session_modification_request_has_remove_bar_laws : HasIELaws
    pfcp_session_modification_request remove_bar.
Proof. solve_has_ie. Qed.

#[export] Instance session_modification_request_has_remove_traffic_endpoint_laws : HasIELaws
    pfcp_session_modification_request remove_traffic_endpoint.
Proof. solve_has_ie. Qed.

#[export] Instance session_modification_request_has_create_pdrs_laws : HasVecLaws
    pfcp_session_modification_request create_pdr.
Proof. solve_has_vec. Qed.

#[export] Instance session_modification_request_has_create_fars_laws : HasVecLaws
    pfcp_session_modification_request create_far.
Proof. solve_has_vec. Qed.

#[export] Instance session_modification_request_has_create_urrs_laws : HasVecLaws
    pfcp_session_modification_request create_urr.
Proof. solve_has_vec. Qed.

#[export] Instance session_modification_request_has_create_qers_laws : HasVecLaws
    pfcp_session_modification_request create_qer.
Proof. solve_has_vec. Qed.

#[export] Instance session_modification_request_has_create_bar_laws : HasIELaws
    pfcp_session_modification_request create_bar.
Proof. solve_has_ie. Qed.

#[export] Instance session_modification_request_has_create_traffic_endpoint_laws : HasIELaws
    pfcp_session_modification_request create_traffic_endpoint.
Proof. solve_has_ie. Qed.

#[export] Instance session_modification_request_has_update_pdrs_laws : HasVecLaws
    pfcp_session_modification_request update_pdr.
Proof. solve_has_vec. Qed.

#[export] Instance session_modification_request_has_update_fars_laws : HasVecLaws
    pfcp_session_modification_request update_far.
Proof. solve_has_vec. Qed.

#[export] Instance session_modification_request_has_update_urrs_laws : HasVecLaws
    pfcp_session_modification_request update_urr.
Proof. solve_has_vec. Qed.

#[export] Instance session_modification_request_has_update_qers_laws : HasVecLaws
    pfcp_session_modification_request update_qer.
Proof. solve_has_vec. Qed.

#[export] Instance session_modification_request_has_update_bar_laws : HasIELaws
    pfcp_session_modification_request update_bar_within_pfcp_session_modification_request.
Proof. solve_has_ie. Qed.

#[export] Instance session_modification_request_has_update_traffic_endpoint_laws : HasIELaws
    pfcp_session_modification_request update_traffic_endpoint.
Proof. solve_has_ie. Qed.

#[export] Instance session_modification_request_has_pfcpsmreq_flags_laws : HasIELaws
    pfcp_session_modification_request pfcpsmreq_flags_t.
Proof. solve_has_ie. Qed.

Lemma session_modification_request_get_set_pgw_c_fq_csid v c :
  session_modification_request_get_pgw_c_fq_csid
    (session_modification_request_set_pgw_c_fq_csid v c) = Some v.
Proof. now destruct c. Qed.

Lemma session_modification_request_get_set_sgw_c_fq_csid v c :
  session_modification_request_get_sgw_c_fq_csid
    (session_modification_request_set_sgw_c_fq_csid v c) = Some v.
Proof. now destruct c. Qed.

Lemma session_modification_request_get_set_mme_fq_csid v c :
  session_modification_request_get_mme_fq_csid (session_modification_request_set_mme_fq_csid v
    c) = Some v.
Proof. now destruct c. Qed.

Lemma session_modification_request_get_set_epdg_fq_csid v c :
  session_modification_request_get_epdg_fq_csid (session_modification_request_set_epdg_fq_csid
    v c) = Some v.
Proof. now destruct c. Qed.

Lemma session_modification_request_get_set_twan_fq_csid v c :
  session_modification_request_get_twan_fq_csid (session_modification_request_set_twan_fq_csid
    v c) = Some v.
Proof. now destruct c. Qed.

#[export] Instance session_modification_request_has_user_plane_inactivity_timer_laws :
    HasIELaws pfcp_session_modification_request user_plane_inactivity_timer_t.
Proof. solve_has_ie. Qed.

#[export] Instance session_modification_request_has_query_urr_reference_laws : HasIELaws
    pfcp_session_modification_request query_urr_reference_t.
Proof. solve_has_ie. Qed.

#[export] Instance session_modification_request_has_trace_information_laws : HasIELaws
    pfcp_session_modification_request trace_information_t.
Proof. solve_has_ie. Qed.

#[export] Instance session_modification_response_has_cause_laws : HasIELaws
    pfcp_session_modification_response cause_t.
Proof. solve_has_ie. Qed.

#[export] Instance session_modification_response_has_offending_ie_laws : HasIELaws
    pfcp_session_modification_response offending_ie_t.
Proof. solve_has_ie. Qed.

#[export] Instance session_modification_response_has_created_pdrs_laws : HasVecLaws
    pfcp_session_modification_response created_pdr.
Proof. solve_has_vec. Qed.

#[export] Instance session_modification_response_has_load_control_information_laws : HasIELaws
    pfcp_session_modification_response load_control_information.
Proof. solve_has_ie. Qed.

#[export] Instance session_modification_response_has_overload_control_information_laws :
    HasIELaws pfcp_session_modification_response overload_control_information.
Proof. solve_has_ie. Qed.

#[export] Instance session_modification_response_has_usage_report_laws : HasIELaws
    pfcp_session_modification_response usage_report_within_pfcp_session_modification_response.
Proof. solve_has_ie. Qed.

#[export] Instance session_modification_response_has_failed_rule_id_laws : HasIELaws
    pfcp_session_modification_response failed_rule_id_t.
Proof. solve_has_ie. Qed.

#[export] Instance session_modification_response_has_additional_usage_reports_information_laws
    : HasIELaws pfcp_session_modification_response additional_usage_reports_information_t.
Proof. solve_has_ie. Qed.

#[export] Instance session_modification_response_has_created_traffic_endpoint_laws : HasIELaws
    pfcp_session_modification_response created_traffic_endpoint.
Proof. solve_has_ie. Qed.

#[export] Instance session_deletion_response_has_cause_laws : HasIELaws
    pfcp_session_deletion_response cause_t.
Proof. solve_has_ie. Qed.

#[export] Instance session_deletion_response_has_offending_ie_laws : HasIELaws
    pfcp_session_deletion_response offending_ie_t.
Proof. solve_has_ie. Qed.

#[export] Instance session_report_request_has_report_type_laws : HasIELaws
    pfcp_session_report_request report_type_t.
Proof. solve_has_ie. Qed.

#[export] Instance session_report_request_has_downlink_data_report_laws : HasIELaws
    pfcp_session_report_request downlink_data_report.
Proof. solve_has_ie. Qed.

#[export] Instance session_report_request_has_usage_report_laws : HasIELaws
    pfcp_session_report_request usage_report_within_pfcp_session_report_request.
Proof. solve_has_ie. Qed.

#[export] Instance session_report_request_has_error_indication_report_laws : HasIELaws
    pfcp_session_report_request error_indication_report.
Proof. solve_has_ie. Qed.

#[export] Instance session_report_request_has_load_control_information_laws : HasIELaws
    pfcp_session_report_request load_control_information.
Proof. solve_has_ie. Qed.

#[export] Instance session_report_request_has_overload_control_information_laws : HasIELaws
    pfcp_session_report_request overload_control_information.
Proof. solve_has_ie. Qed.

#[export] Instance session_report_request_has_additional_usage_reports_information_laws :
    HasIELaws pfcp_session_report_request additional_usage_reports_information_t.
Proof. solve_has_ie. Qed.

#[export] Instance session_report_response_has_cause_laws : HasIELaws
    pfcp_session_report_response cause_t.
Proof. solve_has_ie. Qed.

#[export] Instance session_report_response_has_offending_ie_laws : HasIELaws
    pfcp_session_report_response offending_ie_t.
Proof. solve_has_ie. Qed.

#[export] Instance session_report_response_has_update_bar_laws : HasIELaws
    pfcp_session_report_response update_bar_within_pfcp_session_report_response.
Proof. solve_has_ie. Qed.

#[export] Instance pfd_management_request_has_application_ids_pfds_laws : HasIELaws
    pfcp_pfd_management_request application_ids_pfds.
Proof. solve_has_ie. Qed.

#[export] Instance pfd_management_response_has_cause_laws : HasIELaws
    pfcp_pfd_management_response cause_t.
Proof. solve_has_ie. Qed.

#[export] Instance pfd_management_response_has_offending_ie_laws : HasIELaws
    pfcp_pfd_management_response offending_ie_t.
Proof. solve_has_ie. Qed.

#[export] Instance association_update_request_has_node_id_laws : HasIELaws
    pfcp_association_update_request node_id_t.
Proof. solve_has_ie. Qed.

#[export] Instance association_update_request_has_up_function_features_laws : HasIELaws
    pfcp_association_update_request up_function_features_s.
Proof. solve_has_ie. Qed.

#[export] Instance association_update_request_has_cp_function_features_laws : HasIELaws
    pfcp_association_update_request cp_function_features_t.
Proof. solve_has_ie. Qed.

#[export] Instance association_update_request_has_pfcp_association_release_request_laws :
    HasIELaws pfcp_association_update_request pfcp_association_release_request_t.
Proof. solve_has_ie. Qed.

#[export] Instance association_update_request_has_graceful_release_period_laws : HasIELaws
    pfcp_association_update_request graceful_release_period_t.
Proof. solve_has_ie. Qed.

#[export] Instance association_update_request_has_user_plane_ip_resource_information_laws :
    HasIELaws pfcp_association_update_request user_plane_ip_resource_information_t.
Proof. solve_has_ie. Qed.

#[export] Instance association_update_response_has_node_id_laws : HasIELaws
    pfcp_association_update_response node_id_t.
Proof. solve_has_ie. Qed.

#[export] Instance association_update_response_has_cause_laws : HasIELaws
    pfcp_association_update_response cause_t.
Proof. solve_has_ie. Qed.

#[export] Instance association_update_response_has_up_function_features_laws : HasIELaws
    pfcp_association_update_response up_function_features_s.
Proof. solve_has_ie. Qed.

#[export] Instance association_update_response_has_cp_function_features_laws : HasIELaws
    pfcp_association_update_response cp_function_features_t.
Proof. solve_has_ie. Qed.

#[export] Instance node_report_response_has_node_id_laws : HasIELaws pfcp_node_report_response
    node_id_t.
Proof. solve_has_ie. Qed.

#[export] Instance node_report_response_has_cause_laws : HasIELaws pfcp_node_report_response
    cause_t.
Proof. solve_has_ie. Qed.

#[export] Instance node_report_response_has_offending_ie_laws : HasIELaws
    pfcp_node_report_response offending_ie_t.
Proof. solve_has_ie. Qed.

#[export] Instance session_set_deletion_request_has_node_id_laws : HasIELaws
    pfcp_session_set_deletion_request node_id_t.
Proof. solve_has_ie. Qed.

Lemma session_set_deletion_request_get_set_sgw_c_fq_csid v c :
  session_set_deletion_request_get_sgw_c_fq_csid
    (session_set_deletion_request_set_sgw_c_fq_csid v c) = Some v.
Proof. now destruct c. Qed.

Lemma session_set_deletion_request_get_set_pgw_c_fq_csid v c :
  session_set_deletion_request_get_pgw_c_fq_csid
    (session_set_deletion_request_set_pgw_c_fq_csid v c) = Some v.
Proof. now destruct c. Qed.

Lemma session_set_deletion_request_get_set_sgw_u_fq_csid v c :
  session_set_deletion_request_get_sgw_u_fq_csid
    (session_set_deletion_request_set_sgw_u_fq_csid v c) = Some v.
Proof. now destruct c. Qed.

Lemma session_set_deletion_request_get_set_pgw_u_fq_csid v c :
  session_set_deletion_request_get_pgw_u_fq_csid
    (session_set_deletion_request_set_pgw_u_fq_csid v c) = Some v.
Proof. now destruct c. Qed.

Lemma session_set_deletion_request_get_set_twan_fq_csid v c :
  session_set_deletion_request_get_twan_fq_csid (session_set_deletion_request_set_twan_fq_csid
    v c) = Some v.
Proof. now destruct c. Qed.

Lemma session_set_deletion_request_get_set_epdg_fq_csid v c :
  session_set_deletion_request_get_epdg_fq_csid (session_set_deletion_request_set_epdg_fq_csid
    v c) = Some v.
Proof. now destruct c. Qed.

Lemma session_set_deletion_request_get_set_mme_fq_csid v c :
  session_set_deletion_request_get_mme_fq_csid (session_set_deletion_request_set_mme_fq_csid v
    c) = Some v.
Proof. now destruct c. Qed.

#[export] Instance session_set_deletion_response_has_node_id_laws : HasIELaws
    pfcp_session_set_deletion_response node_id_t.
Proof. solve_has_ie. Qed.

#[export] Instance session_set_deletion_response_has_cause_laws : HasIELaws
    pfcp_session_set_deletion_response cause_t.
Proof. solve_has_ie. Qed.

#[export] Instance session_set_deletion_response_has_offending_ie_laws : HasIELaws
    pfcp_session_set_deletion_response offending_ie_t.
Proof. solve_has_ie. Qed.
