(* ===== verification/PfcpRules.v ===== *)
(** * Detection and forwarding rules (src/src/oai/pfcp: pfcp_pdr, pfcp_far)

    The rules a session keeps: built from Create PDR and Create FAR elements,
    changed by Update PDR and Update FAR elements. *)
From Stdlib Require Import ZArith Lia List Bool.
From stdpp Require Import base list gmap.
From S2P Require Import Prelude PfcpTypes PfcpGroups.
Open Scope Z_scope.

(** ** Data *)

Record pfcp_pdr : Type := mk_pfcp_pdr {
  pfcp_pdr_local_seid : Z;
  pfcp_pdr_pdr_id : pdr_id_t;
  pfcp_pdr_precedence : opt precedence_t;
  pfcp_pdr_pdi : opt pdi;
  pfcp_pdr_outer_header_removal : opt outer_header_removal_t;
  pfcp_pdr_far_id : opt far_id_t;
  pfcp_pdr_urr_id : opt urr_id_t;
  pfcp_pdr_qer_id : opt qer_id_t;
  pfcp_pdr_activate_predefined_rules : opt activate_predefined_rules_t;
  pfcp_pdr_notified_cp : bool
}.
#[export] Instance pfcp_pdr_inhabited : Inhabited pfcp_pdr :=
  populate (mk_pfcp_pdr inhabitant inhabitant unset unset unset unset unset unset unset
    inhabitant).
#[export] Instance pfcp_pdr_has_local_seid : HasMember pfcp_pdr Z :=
  {| member := pfcp_pdr_local_seid; with_member v c := mk_pfcp_pdr v (pfcp_pdr_pdr_id c)
    (pfcp_pdr_precedence c) (pfcp_pdr_pdi c) (pfcp_pdr_outer_header_removal c) (pfcp_pdr_far_id
    c) (pfcp_pdr_urr_id c) (pfcp_pdr_qer_id c) (pfcp_pdr_activate_predefined_rules c)
    (pfcp_pdr_notified_cp c) |}.
#[export] Instance pfcp_pdr_has_pdr_id : HasMember pfcp_pdr pdr_id_t :=
  {| member := pfcp_pdr_pdr_id; with_member v c := mk_pfcp_pdr (pfcp_pdr_local_seid c) v
    (pfcp_pdr_precedence c) (pfcp_pdr_pdi c) (pfcp_pdr_outer_header_removal c) (pfcp_pdr_far_id
    c) (pfcp_pdr_urr_id c) (pfcp_pdr_qer_id c) (pfcp_pdr_activate_predefined_rules c)
    (pfcp_pdr_notified_cp c) |}.
#[export] Instance pfcp_pdr_has_precedence : HasIE pfcp_pdr precedence_t :=
  {| ie := pfcp_pdr_precedence; with_ie v c := mk_pfcp_pdr (pfcp_pdr_local_seid c)
    (pfcp_pdr_pdr_id c) v (pfcp_pdr_pdi c) (pfcp_pdr_outer_header_removal c) (pfcp_pdr_far_id
    c) (pfcp_pdr_urr_id c) (pfcp_pdr_qer_id c) (pfcp_pdr_activate_predefined_rules c)
    (pfcp_pdr_notified_cp c) |}.
#[export] Instance pfcp_pdr_has_pdi : HasIE pfcp_pdr pdi :=
  {| ie := pfcp_pdr_pdi; with_ie v c := mk_pfcp_pdr (pfcp_pdr_local_seid c) (pfcp_pdr_pdr_id c)
    (pfcp_pdr_precedence c) v (pfcp_pdr_outer_header_removal c) (pfcp_pdr_far_id c)
    (pfcp_pdr_urr_id c) (pfcp_pdr_qer_id c) (pfcp_pdr_activate_predefined_rules c)
    (pfcp_pdr_notified_cp c) |}.
#[export] Instance pfcp_pdr_has_outer_header_removal : HasIE pfcp_pdr outer_header_removal_t :=
  {| ie := pfcp_pdr_outer_header_removal; with_ie v c := mk_pfcp_pdr (pfcp_pdr_local_seid c)
    (pfcp_pdr_pdr_id c) (pfcp_pdr_precedence c) (pfcp_pdr_pdi c) v (pfcp_pdr_far_id c)
    (pfcp_pdr_urr_id c) (pfcp_pdr_qer_id c) (pfcp_pdr_activate_predefined_rules c)
    (pfcp_pdr_notified_cp c) |}.
#[export] Instance pfcp_pdr_has_far_id : HasIE pfcp_pdr far_id_t :=
  {| ie := pfcp_pdr_far_id; with_ie v c := mk_pfcp_pdr (pfcp_pdr_local_seid c) (pfcp_pdr_pdr_id
    c) (pfcp_pdr_precedence c) (pfcp_pdr_pdi c) (pfcp_pdr_outer_header_removal c) v
    (pfcp_pdr_urr_id c) (pfcp_pdr_qer_id c) (pfcp_pdr_activate_predefined_rules c)
    (pfcp_pdr_notified_cp c) |}.
#[export] Instance pfcp_pdr_has_urr_id : HasIE pfcp_pdr urr_id_t :=
  {| ie := pfcp_pdr_urr_id; with_ie v c := mk_pfcp_pdr (pfcp_pdr_local_seid c) (pfcp_pdr_pdr_id
    c) (pfcp_pdr_precedence c) (pfcp_pdr_pdi c) (pfcp_pdr_outer_header_removal c)
    (pfcp_pdr_far_id c) v (pfcp_pdr_qer_id c) (pfcp_pdr_activate_predefined_rules c)
    (pfcp_pdr_notified_cp c) |}.
#[export] Instance pfcp_pdr_has_qer_id : HasIE pfcp_pdr qer_id_t :=
  {| ie := pfcp_pdr_qer_id; with_ie v c := mk_pfcp_pdr (pfcp_pdr_local_seid c) (pfcp_pdr_pdr_id
    c) (pfcp_pdr_precedence c) (pfcp_pdr_pdi c) (pfcp_pdr_outer_header_removal c)
    (pfcp_pdr_far_id c) (pfcp_pdr_urr_id c) v (pfcp_pdr_activate_predefined_rules c)
    (pfcp_pdr_notified_cp c) |}.
#[export] Instance pfcp_pdr_has_activate_predefined_rules : HasIE pfcp_pdr
    activate_predefined_rules_t :=
  {| ie := pfcp_pdr_activate_predefined_rules; with_ie v c := mk_pfcp_pdr (pfcp_pdr_local_seid
    c) (pfcp_pdr_pdr_id c) (pfcp_pdr_precedence c) (pfcp_pdr_pdi c)
    (pfcp_pdr_outer_header_removal c) (pfcp_pdr_far_id c) (pfcp_pdr_urr_id c) (pfcp_pdr_qer_id
    c) v (pfcp_pdr_notified_cp c) |}.
#[export] Instance pfcp_pdr_has_notified_cp : HasMember pfcp_pdr bool :=
  {| member := pfcp_pdr_notified_cp; with_member v c := mk_pfcp_pdr (pfcp_pdr_local_seid c)
    (pfcp_pdr_pdr_id c) (pfcp_pdr_precedence c) (pfcp_pdr_pdi c) (pfcp_pdr_outer_header_removal
    c) (pfcp_pdr_far_id c) (pfcp_pdr_urr_id c) (pfcp_pdr_qer_id c)
    (pfcp_pdr_activate_predefined_rules c) v |}.

Record pfcp_far : Type := mk_pfcp_far {
  pfcp_far_far_id : far_id_t;
  pfcp_far_apply_action : apply_action_t;
  pfcp_far_forwarding_parameters : opt forwarding_parameters;
  pfcp_far_duplicating_parameters : opt duplicating_parameters;
  pfcp_far_bar_id : opt bar_id_t
}.
#[export] Instance pfcp_far_inhabited : Inhabited pfcp_far :=
  populate (mk_pfcp_far inhabitant inhabitant unset unset unset).
#[export] Instance pfcp_far_has_far_id : HasMember pfcp_far far_id_t :=
  {| member := pfcp_far_far_id; with_member v c := mk_pfcp_far v (pfcp_far_apply_action c)
    (pfcp_far_forwarding_parameters c) (pfcp_far_duplicating_parameters c) (pfcp_far_bar_id c)
    |}.
#[export] Instance pfcp_far_has_apply_action : HasMember pfcp_far apply_action_t :=
  {| member := pfcp_far_apply_action; with_member v c := mk_pfcp_far (pfcp_far_far_id c) v
    (pfcp_far_forwarding_parameters c) (pfcp_far_duplicating_parameters c) (pfcp_far_bar_id c)
    |}.
#[export] Instance pfcp_far_has_forwarding_parameters : HasIE pfcp_far forwarding_parameters :=
  {| ie := pfcp_far_forwarding_parameters; with_ie v c := mk_pfcp_far (pfcp_far_far_id c)
    (pfcp_far_apply_action c) v (pfcp_far_duplicating_parameters c) (pfcp_far_bar_id c) |}.
#[export] Instance pfcp_far_has_duplicating_parameters : HasIE pfcp_far duplicating_parameters
    :=
  {| ie := pfcp_far_duplicating_parameters; with_ie v c := mk_pfcp_far (pfcp_far_far_id c)
    (pfcp_far_apply_action c) (pfcp_far_forwarding_parameters c) v (pfcp_far_bar_id c) |}.
#[export] Instance pfcp_far_has_bar_id : HasIE pfcp_far bar_id_t :=
  {| ie := pfcp_far_bar_id; with_ie v c := mk_pfcp_far (pfcp_far_far_id c)
    (pfcp_far_apply_action c) (pfcp_far_forwarding_parameters c)
    (pfcp_far_duplicating_parameters c) v |}.

(** ** Construction *)

(** [explicit pfcp_pdr(const pfcp::create_pdr& c)] *)
Definition pfcp_pdr_of_create (c : create_pdr) : pfcp_pdr :=
  mk_pfcp_pdr 0 (second (create_pdr_pdr_id c)) (create_pdr_precedence c) (create_pdr_pdi c)
    (create_pdr_outer_header_removal c) (create_pdr_far_id c) (create_pdr_urr_id c)
    (create_pdr_qer_id c) (create_pdr_activate_predefined_rules c) false.

(** [explicit pfcp_far(const pfcp::create_far& c)] *)
Definition pfcp_far_of_create (c : create_far) : pfcp_far :=
  mk_pfcp_far (second (create_far_far_id c)) (second (create_far_apply_action c))
    (create_far_forwarding_parameters c) (create_far_duplicating_parameters c)
    (create_far_bar_id c).

(** ** Updates *)

(** [if (u.f.first) set(u.f.second);] *)
Definition set_from {U C} (T : Type) `{HasIE U T} `{HasIE C T} (u : U) (c : C) : C :=
  if first (ie (T := T) u) then set (T := T) (second (ie u)) c else c.

Definition forwarding_parameters_update (u : update_forwarding_parameters)
    (f : forwarding_parameters) : forwarding_parameters :=
  let f := set_from destination_interface_t u f in
  let f := set_from network_instance_t u f in
  let f := set_from outer_header_creation_t u f in
  let f := set_from transport_level_marking_t u f in
  let f := set_from forwarding_policy_t u f in
  let f := set_from header_enrichment_t u f in
  set_from traffic_endpoint_id_t u f.

Definition duplicating_parameters_update (u : update_duplicating_parameters)
    (f : duplicating_parameters) : duplicating_parameters :=
  let f := set_from destination_interface_t u f in
  let f := set_from outer_header_creation_t u f in
  let f := set_from transport_level_marking_t u f in
  set_from forwarding_policy_t u f.

(** [pfcp_far::update]: the flags [first] of the forwarding and duplicating
    parameters are left as they are. *)
Definition pfcp_far_update (u : update_far) (f : pfcp_far) : pfcp_far :=
  let f := match get_ie (T := apply_action_t) u with
           | Some v => with_member v f
           | None => f
           end in
  let f := if first (update_far_update_forwarding_parameters u)
           then with_ie (mk_opt (first (pfcp_far_forwarding_parameters f))
                  (forwarding_parameters_update
                     (second (update_far_update_forwarding_parameters u))
                     (second (pfcp_far_forwarding_parameters f)))) f
           else f in
  let f := if first (update_far_update_duplicating_parameters u)
           then with_ie (mk_opt (first (pfcp_far_duplicating_parameters f))
                  (duplicating_parameters_update
                     (second (update_far_update_duplicating_parameters u))
                     (second (pfcp_far_duplicating_parameters f)))) f
           else f in
  with_ie (updated (get_ie (T := bar_id_t) u) (ie f)) f.

(** [if (update.get(f.second)) f.first = true;] *)
Definition update_member {U C} (T : Type) `{HasIE U T} `{HasIE C T} (u : U) (c : C) : C :=
  with_ie (updated (get_ie (T := T) u) (ie c)) c.

Definition pfcp_pdr_update (u : update_pdr) (p : pfcp_pdr) : pfcp_pdr :=
  let p := update_member outer_header_removal_t u p in
  let p := update_member precedence_t u p in
  let p := update_member pdi u p in
  let p := update_member far_id_t u p in
  let p := update_member urr_id_t u p in
  update_member qer_id_t u p.

(** [pfcp_pdr::notify_cp_requested]: the report is built once, and not sent. *)
Definition notify_cp_requested (p : pfcp_pdr) : pfcp_pdr :=
  if pfcp_pdr_notified_cp p then p else with_member true p.

(** [bool operator<(const pfcp_pdr& rhs) const] *)
Definition pfcp_pdr_lt (p q : pfcp_pdr) : bool :=
  precedence (second (pfcp_pdr_precedence p)) <? precedence (second (pfcp_pdr_precedence q)).

(** ** Lemmas *)

Lemma pfcp_far_update_id u f : pfcp_far_far_id (pfcp_far_update u f) = pfcp_far_far_id f.
Proof.
  unfold pfcp_far_update.
  destruct (get_ie (T := apply_action_t) u) as [v|],
    (first (update_far_update_forwarding_parameters u)),
    (first (update_far_update_duplicating_parameters u)); reflexivity.
Qed.

Lemma pfcp_pdr_update_id u p :
  pfcp_pdr_pdr_id (pfcp_pdr_update u p) = pfcp_pdr_pdr_id p /\
  pfcp_pdr_local_seid (pfcp_pdr_update u p) = pfcp_pdr_local_seid p.
Proof. done. Qed.

Lemma forwarding_parameters_update_members u f :
  let f' := forwarding_parameters_update u f in
  forwarding_parameters_destination_interface f' =
    updated (get_ie u) (forwarding_parameters_destination_interface f) /\
  forwarding_parameters_network_instance f' =
    updated (get_ie u) (forwarding_parameters_network_instance f) /\
  forwarding_parameters_outer_header_creation f' =
    updated (get_ie u) (forwarding_parameters_outer_header_creation f) /\
  forwarding_parameters_transport_level_marking f' =
    updated (get_ie u) (forwarding_parameters_transport_level_marking f) /\
  forwarding_parameters_forwarding_policy f' =
    updated (get_ie u) (forwarding_parameters_forwarding_policy f) /\
  forwarding_parameters_header_enrichment f' =
    updated (get_ie u) (forwarding_parameters_header_enrichment f) /\
  forwarding_parameters_linked_traffic_endpoint_id f' =
    updated (get_ie u) (forwarding_parameters_linked_traffic_endpoint_id f) /\
  forwarding_parameters_redirect_information f' =
    forwarding_parameters_redirect_information f /\
  forwarding_parameters_proxying f' = forwarding_parameters_proxying f.
Proof.
  destruct f, u as [[[|] ?] [[|] ?] [[|] ?] [[|] ?] [[|] ?] [[|] ?] ? [[|] ?]];
    repeat split.
Qed.

Lemma pfcp_far_update_members u f :
  let f' := pfcp_far_update u f in
  pfcp_far_apply_action f' =
    match get_ie u with Some a => a | None => pfcp_far_apply_action f end /\
  first (pfcp_far_forwarding_parameters f') = first (pfcp_far_forwarding_parameters f) /\
  second (pfcp_far_forwarding_parameters f') =
    match get_ie u with
    | Some v => forwarding_parameters_update v (second (pfcp_far_forwarding_parameters f))
    | None => second (pfcp_far_forwarding_parameters f)
    end /\
  pfcp_far_bar_id f' = updated (get_ie u) (pfcp_far_bar_id f).
Proof.
  unfold pfcp_far_update, get_ie.
  destruct u as [? [[|] ?] [[|] ?] [[|] ?] [[|] ?]]; repeat split.
Qed.
