(* ===== verification/PfcpSession.v ===== *)
(** * PFCP sessions (src/src/oai/pfcp/pfcp_session.cpp)

    A session keeps its detection and forwarding rules in the order of their
    creation; rules are found by their identifier from the front.  The
    methods that can fail return a cause and, for a missing element, its type;
    [M pfcp_session failure] carries both outcomes.  The vectors hold shared
    pointers to rules that only the session creates, so a rule is updated in
    place in its vector. *)
From Stdlib Require Import ZArith Lia List Bool.
From stdpp Require Import base list gmap.
From S2P Require Import Prelude PfcpTypes PfcpGroups PfcpRules.
Open Scope Z_scope.
Open Scope upf_scope.

(** ** Data *)

Record pfcp_session : Type := mk_pfcp_session {
  cp_fseid : fseid_t;
  seid : Z;
  pdrs : list pfcp_pdr;
  fars : list pfcp_far
}.

(** [pfcp_session(pfcp::fseid_t& cp, uint64_t up_seid)] *)
Definition new_pfcp_session (cp : fseid_t) (up_seid : Z) : pfcp_session :=
  mk_pfcp_session cp up_seid [] [].

Definition get_up_seid (s : pfcp_session) : Z := seid s.

(** What a method leaves in its out-parameters when it returns false. *)
Record failure : Type := mk_failure {
  cause_value : Z;
  offending_ie : option Z
}.

Definition CAUSE_VALUE_REQUEST_REJECTED : Z := 64.
Definition CAUSE_VALUE_MANDATORY_IE_MISSING : Z := 66.
Definition CAUSE_VALUE_RULE_CREATION_MODIFICATION_FAILURE : Z := 73.

Definition PFCP_IE_PDI : Z := 2.
Definition PFCP_IE_FORWARDING_PARAMETERS : Z := 4.
Definition PFCP_IE_DUPLICATING_PARAMETERS : Z := 5.
Definition PFCP_IE_SOURCE_INTERFACE : Z := 20.
Definition PFCP_IE_F_TEID : Z := 21.
Definition PFCP_IE_PRECEDENCE : Z := 29.
Definition PFCP_IE_APPLY_ACTION : Z := 44.
Definition PFCP_IE_PACKET_DETECTION_RULE_ID : Z := 56.
Definition PFCP_IE_FAR_ID : Z := 108.

Definition INTERFACE_VALUE_ACCESS : Z := 0.
Definition INTERFACE_VALUE_CORE : Z := 1.

Definition missing (ie_type : Z) : failure :=
  mk_failure CAUSE_VALUE_MANDATORY_IE_MISSING (Some ie_type).
Definition rejected : failure := mk_failure CAUSE_VALUE_REQUEST_REJECTED None.
Definition modification_failure : failure :=
  mk_failure CAUSE_VALUE_RULE_CREATION_MODIFICATION_FAILURE None.

Definition session_m (A : Type) : Type := M pfcp_session failure A.

Definition with_pdrs (l : list pfcp_pdr) (s : pfcp_session) : pfcp_session :=
  mk_pfcp_session (cp_fseid s) (seid s) l (fars s).
Definition with_fars (l : list pfcp_far) (s : pfcp_session) : pfcp_session :=
  mk_pfcp_session (cp_fseid s) (seid s) (pdrs s) l.

(** ** Operations *)

Definition has_far_id (id : Z) (f : pfcp_far) : bool := far_id (pfcp_far_far_id f) =? id.
Definition has_pdr_id (id : Z) (p : pfcp_pdr) : bool :=
  pdr_id_rule_id (pfcp_pdr_pdr_id p) =? id.

Definition get_far (id : Z) (s : pfcp_session) : option pfcp_far :=
  find (has_far_id id) (fars s).
Definition get_pdr (id : Z) (s : pfcp_session) : option pfcp_pdr :=
  find (has_pdr_id id) (pdrs s).

Definition add_far (f : pfcp_far) : session_m unit :=
  modify (fun s => with_fars (fars s ++ [f]) s).
Definition add_pdr (p : pfcp_pdr) : session_m unit :=
  modify (fun s => with_pdrs (pdrs s ++ [p]) s).

Definition remove_far_by_id (id : far_id_t) : session_m unit :=
  let* s := get in
  let* l := of_option (remove_first (has_far_id (far_id id)) (fars s)) modification_failure in
  put (with_fars l s).

Definition remove_pdr_by_id (id : pdr_id_t) : session_m unit :=
  let* s := get in
  let* l := of_option (remove_first (has_pdr_id (pdr_id_rule_id id)) (pdrs s))
              modification_failure in
  put (with_pdrs l s).

(** [pfcp_far::update] and [pfcp_pdr::update] always return true. *)
Definition session_update_far (u : update_far) : session_m unit :=
  let* s := get in
  let* l := of_option
              (update_first (has_far_id (far_id (update_far_far_id u)))
                 (pfcp_far_update u) (fars s)) modification_failure in
  put (with_fars l s).

Definition session_update_pdr (u : update_pdr) : session_m unit :=
  let* s := get in
  let* l := of_option
              (update_first (has_pdr_id (pdr_id_rule_id (update_pdr_pdr_id u)))
                 (pfcp_pdr_update u) (pdrs s)) modification_failure in
  put (with_pdrs l s).

Definition session_create_far (c : create_far) : session_m unit :=
  guard (first (create_far_far_id c)) (missing PFCP_IE_FAR_ID) ;;;
  guard (first (create_far_apply_action c)) (missing PFCP_IE_APPLY_ACTION) ;;;
  let action := second (create_far_apply_action c) in
  guard (negb (apply_action_forw action) || first (create_far_forwarding_parameters c))
    (missing PFCP_IE_FORWARDING_PARAMETERS) ;;;
  guard (negb (apply_action_dupl action) || first (create_far_duplicating_parameters c))
    (missing PFCP_IE_DUPLICATING_PARAMETERS) ;;;
  add_far (pfcp_far_of_create c).

(** [pdr->set(get_up_seid()); add(spdr);] *)
Definition add_created_pdr (c : create_pdr) : session_m unit :=
  let* s := get in
  add_pdr (with_member (get_up_seid s) (pfcp_pdr_of_create c)).

(** The parts in comments in the source are not there. *)
Definition session_create_pdr (c : create_pdr) : session_m unit :=
  guard (first (create_pdr_pdr_id c)) (missing PFCP_IE_PACKET_DETECTION_RULE_ID) ;;;
  guard (first (create_pdr_pdi c)) (missing PFCP_IE_PDI) ;;;
  guard (first (create_pdr_precedence c)) (missing PFCP_IE_PRECEDENCE) ;;;
  let p := second (create_pdr_pdi c) in
  guard (first (pdi_source_interface p)) (missing PFCP_IE_SOURCE_INTERFACE) ;;;
  guard (negb (first (pdi_traffic_endpoint_id p))) rejected ;;;
  let interface := source_interface_interface_value (second (pdi_source_interface p)) in
  if interface =? INTERFACE_VALUE_ACCESS then
    guard (first (pdi_local_fteid p)) (missing PFCP_IE_F_TEID) ;;;
    add_created_pdr c
  else if interface =? INTERFACE_VALUE_CORE then add_created_pdr c
  else raise rejected.

Definition session_remove_far (r : remove_far) : session_m unit :=
  guard (first (remove_far_far_id r)) (missing PFCP_IE_FAR_ID) ;;;
  remove_far_by_id (second (remove_far_far_id r)).

Definition session_remove_pdr (r : remove_pdr) : session_m unit :=
  guard (first (remove_pdr_pdr_id r)) (missing PFCP_IE_PACKET_DETECTION_RULE_ID) ;;;
  remove_pdr_by_id (second (remove_pdr_pdr_id r)).

Definition cleanup : session_m unit := modify (fun s => with_pdrs [] (with_fars [] s)).

(** ** Specification: the life of a session *)

(** One message element applied to a session. *)
Inductive rule_op : Type :=
| CreateFar (c : create_far)
| CreatePdr (c : create_pdr)
| UpdateFar (u : update_far)
| UpdatePdr (u : update_pdr)
| RemoveFar (r : remove_far)
| RemovePdr (r : remove_pdr)
| Cleanup.

Definition run_op (o : rule_op) : session_m unit :=
  match o with
  | CreateFar c => session_create_far c
  | CreatePdr c => session_create_pdr c
  | UpdateFar u => session_update_far u
  | UpdatePdr u => session_update_pdr u
  | RemoveFar r => session_remove_far r
  | RemovePdr r => session_remove_pdr r
  | Cleanup => cleanup
  end.

(** The states a session goes through, failed operations included. *)
Inductive reachable (cp : fseid_t) (up_seid : Z) : pfcp_session -> Prop :=
| reach_new : reachable cp up_seid (new_pfcp_session cp up_seid)
| reach_op s o r s' :
    reachable cp up_seid s -> run_op o s = (r, s') -> reachable cp up_seid s'.

(** What the data plane relies on: a rule has its precedence and its PDI, and
    belongs to its session. *)
Definition pdr_ok (up_seid : Z) (p : pfcp_pdr) : Prop :=
  first (pfcp_pdr_precedence p) = true /\ first (pfcp_pdr_pdi p) = true /\
  pfcp_pdr_local_seid p = up_seid.

Definition session_ok (s : pfcp_session) : Prop :=
  List.Forall (pdr_ok (seid s)) (pdrs s).

(** ** Lemmas *)

Lemma bind_guard_inv {A} b e (k : unit -> session_m A) s (r : result failure A) s' :
  bind (guard b e) k s = (r, s') ->
  b = true /\ k tt s = (r, s') \/ b = false /\ r = Err e /\ s' = s.
Proof.
  destruct b; cbn; [auto|]. intros [= <- <-]. auto.
Qed.

(** Goes through the guards of a method. *)
Ltac guards H :=
  repeat (apply bind_guard_inv in H as [[? H]|(? & -> & ->)]; [|now auto]).

(** A created FAR is as the element says, a failed creation changes nothing. *)
Lemma create_far_inv c s r s' :
  session_create_far c s = (r, s') ->
  (r = Ok tt /\ s' = with_fars (fars s ++ [pfcp_far_of_create c]) s /\
   first (create_far_far_id c) = true /\ first (create_far_apply_action c) = true) \/
  (exists e, r = Err e /\ s' = s).
Proof.
  unfold session_create_far. intros Hc.
  apply bind_guard_inv in Hc as [[H1 Hc]|(_ & -> & ->)]; [|eauto].
  apply bind_guard_inv in Hc as [[H2 Hc]|(_ & -> & ->)]; [|eauto].
  apply bind_guard_inv in Hc as [[_ Hc]|(_ & -> & ->)]; [|eauto].
  apply bind_guard_inv in Hc as [[_ Hc]|(_ & -> & ->)]; [|eauto].
  injection Hc as <- <-. auto.
Qed.

Lemma create_pdr_inv c s r s' :
  session_create_pdr c s = (r, s') ->
  (r = Ok tt /\
   s' = with_pdrs (pdrs s ++ [with_member (seid s) (pfcp_pdr_of_create c)]) s /\
   first (create_pdr_pdr_id c) = true /\ first (create_pdr_pdi c) = true /\
   first (create_pdr_precedence c) = true) \/
  (exists e, r = Err e /\ s' = s).
Proof.
  unfold session_create_pdr. intros Hc.
  apply bind_guard_inv in Hc as [[H1 Hc]|(_ & -> & ->)]; [|eauto].
  apply bind_guard_inv in Hc as [[H2 Hc]|(_ & -> & ->)]; [|eauto].
  apply bind_guard_inv in Hc as [[H3 Hc]|(_ & -> & ->)]; [|eauto].
  apply bind_guard_inv in Hc as [[_ Hc]|(_ & -> & ->)]; [|eauto].
  apply bind_guard_inv in Hc as [[_ Hc]|(_ & -> & ->)]; [|eauto].
  destruct (_ =? INTERFACE_VALUE_ACCESS).
  - apply bind_guard_inv in Hc as [[_ Hc]|(_ & -> & ->)]; [|eauto].
    injection Hc as <- <-. auto 6.
  - destruct (_ =? INTERFACE_VALUE_CORE); injection Hc as <- <-; [auto 6|eauto].
Qed.

Lemma update_far_inv u s r s' :
  session_update_far u s = (r, s') ->
  (exists l, update_first (has_far_id (far_id (update_far_far_id u))) (pfcp_far_update u)
               (fars s) = Some l /\ r = Ok tt /\ s' = with_fars l s) \/
  (get_far (far_id (update_far_far_id u)) s = None /\ r = Err modification_failure /\ s' = s).
Proof.
  unfold session_update_far, bind, get, put, of_option. intros Hc.
  destruct (update_first _ _ _) as [l|] eqn:Hu; injection Hc as <- <-; [eauto|].
  right. split; [|done]. now apply update_first_none in Hu.
Qed.

Lemma update_pdr_inv u s r s' :
  session_update_pdr u s = (r, s') ->
  (exists l, update_first (has_pdr_id (pdr_id_rule_id (update_pdr_pdr_id u)))
               (pfcp_pdr_update u) (pdrs s) = Some l /\ r = Ok tt /\ s' = with_pdrs l s) \/
  (get_pdr (pdr_id_rule_id (update_pdr_pdr_id u)) s = None /\
   r = Err modification_failure /\ s' = s).
Proof.
  unfold session_update_pdr, bind, get, put, of_option. intros Hc.
  destruct (update_first _ _ _) as [l|] eqn:Hu; injection Hc as <- <-; [eauto|].
  right. split; [|done]. now apply update_first_none in Hu.
Qed.

Lemma remove_far_inv r0 s r s' :
  session_remove_far r0 s = (r, s') ->
  (exists l, remove_first (has_far_id (far_id (second (remove_far_far_id r0)))) (fars s)
               = Some l /\ r = Ok tt /\ s' = with_fars l s) \/
  (exists e, r = Err e /\ s' = s).
Proof.
  unfold session_remove_far. intros Hc.
  apply bind_guard_inv in Hc as [[_ Hc]|(_ & -> & ->)]; [|eauto].
  revert Hc. unfold remove_far_by_id, bind, get, put, of_option.
  destruct (remove_first _ _) as [l|] eqn:Hu; intros [= <- <-]; eauto.
Qed.

Lemma remove_pdr_inv r0 s r s' :
  session_remove_pdr r0 s = (r, s') ->
  (exists l, remove_first (has_pdr_id (pdr_id_rule_id (second (remove_pdr_pdr_id r0))))
               (pdrs s) = Some l /\ r = Ok tt /\ s' = with_pdrs l s) \/
  (exists e, r = Err e /\ s' = s).
Proof.
  unfold session_remove_pdr. intros Hc.
  apply bind_guard_inv in Hc as [[_ Hc]|(_ & -> & ->)]; [|eauto].
  revert Hc. unfold remove_pdr_by_id, bind, get, put, of_option.
  destruct (remove_first _ _) as [l|] eqn:Hu; intros [= <- <-]; eauto.
Qed.

Lemma pdr_ok_update up u p : pdr_ok up p -> pdr_ok up (pfcp_pdr_update u p).
Proof.
  intros (H1 & H2 & H3). unfold pdr_ok. cbn. repeat split; [| |done].
  all: apply updated_first; auto.
Qed.

Lemma run_op_ok o s r s' : session_ok s -> run_op o s = (r, s') -> session_ok s'.
Proof.
  unfold session_ok. intros Hs Ho. destruct o; cbn in Ho.
  - apply create_far_inv in Ho as [(_ & -> & _)|(? & _ & ->)]; done.
  - apply create_pdr_inv in Ho as [(_ & -> & _ & H2 & H3)|(? & _ & ->)]; [|done].
    cbn. apply List.Forall_app. split; [done|]. repeat constructor; done.
  - apply update_far_inv in Ho as [(l & _ & _ & ->)|(_ & _ & ->)]; done.
  - apply update_pdr_inv in Ho as [(l & Hl & _ & ->)|(_ & _ & ->)]; [|done].
    cbn. eapply update_first_forall; [exact Hl|apply pdr_ok_update|done].
  - apply remove_far_inv in Ho as [(l & _ & _ & ->)|(? & _ & ->)]; done.
  - apply remove_pdr_inv in Ho as [(l & Hl & _ & ->)|(? & _ & ->)]; [|done].
    cbn. eapply remove_first_forall; [exact Hl|done].
  - injection Ho as _ <-. constructor.
Qed.

Lemma run_op_ids o s r s' : run_op o s = (r, s') -> seid s' = seid s /\ cp_fseid s' = cp_fseid s.
Proof.
  destruct o; cbn [run_op]; intros Ho.
  - apply create_far_inv in Ho as [(_ & -> & _)|(? & _ & ->)]; done.
  - apply create_pdr_inv in Ho as [(_ & -> & _)|(? & _ & ->)]; done.
  - apply update_far_inv in Ho as [(l & _ & _ & ->)|(_ & _ & ->)]; done.
  - apply update_pdr_inv in Ho as [(l & _ & _ & ->)|(_ & _ & ->)]; done.
  - apply remove_far_inv in Ho as [(l & _ & _ & ->)|(? & _ & ->)]; done.
  - apply remove_pdr_inv in Ho as [(l & _ & _ & ->)|(? & _ & ->)]; done.
  - injection Ho as _ <-. done.
Qed.

(** A branch of the equivalence in which a member is missing. *)
Ltac refuse :=
  split; [intros (? & [=] & _)|];
  let Hx := fresh in intros Hx; exfalso; decompose [and] Hx; congruence.

Lemma run_op_error o s e s' :
  run_op o s = (Err e, s') ->
  s' = s /\ In e [missing PFCP_IE_FAR_ID; missing PFCP_IE_APPLY_ACTION;
                  missing PFCP_IE_FORWARDING_PARAMETERS;
                  missing PFCP_IE_DUPLICATING_PARAMETERS;
                  missing PFCP_IE_PACKET_DETECTION_RULE_ID; missing PFCP_IE_PDI;
                  missing PFCP_IE_PRECEDENCE; missing PFCP_IE_SOURCE_INTERFACE;
                  missing PFCP_IE_F_TEID; rejected; modification_failure].
Proof.
  destruct o; cbn [run_op];
    unfold session_create_far, session_create_pdr, session_update_far, session_update_pdr,
      session_remove_far, session_remove_pdr, remove_far_by_id, remove_pdr_by_id, cleanup,
      add_created_pdr, add_far, add_pdr, bind, guard, get, put, modify, of_option, raise, ret;
    intros Ho; repeat (case_match; simplify_eq); split; try done; cbn; tauto.
Qed.

(** ** Properties *)

(** C22: a rejected element changes nothing: the session is as before, the
    cause is one of request rejected, mandatory element missing and rule
    modification failure, and the offending element is given exactly when a
    mandatory element is missing. *)
Theorem rejected_op_is_atomic o s e s' :
  run_op o s = (Err e, s') ->
  s' = s /\
  In (cause_value e) [CAUSE_VALUE_REQUEST_REJECTED; CAUSE_VALUE_MANDATORY_IE_MISSING;
                      CAUSE_VALUE_RULE_CREATION_MODIFICATION_FAILURE] /\
  (offending_ie e <> None <-> cause_value e = CAUSE_VALUE_MANDATORY_IE_MISSING).
Proof.
  intros Ho. apply run_op_error in Ho as [-> He]. split; [done|].
  cbn in He. repeat destruct He as [<-|He]; try done;
    (split; [cbn; tauto|]; split; [done|]); done.
Qed.

(** C20: invariant of a session under any sequence of elements, accepted or
    not: it keeps its identifiers, and each of its detection rules has a
    precedence and a PDI and carries the identifier of the session. *)
Theorem reachable_session_ok cp up_seid s :
  reachable cp up_seid s -> session_ok s /\ seid s = up_seid /\ cp_fseid s = cp.
Proof.
  induction 1 as [|s o r s' Hr (IH & Hs & Hc) Ho]; [repeat constructor|].
  split; [now apply (run_op_ok o s r)|]. rewrite <- Hs, <- Hc. now apply (run_op_ids o s r).
Qed.

(** C21: a Create PDR is accepted exactly when it has an identifier, a
    precedence and a PDI with a source interface and no traffic endpoint, the
    interface is CORE, or ACCESS with an F-TEID; then the new rule stands
    behind the others with the session's identifier. *)
Theorem create_pdr_accepted_iff c s :
  let p := second (create_pdr_pdi c) in
  let interface := source_interface_interface_value (second (pdi_source_interface p)) in
  (exists s', session_create_pdr c s = (Ok tt, s') /\
     s' = with_pdrs (pdrs s ++ [with_member (seid s) (pfcp_pdr_of_create c)]) s) <->
  get_ie (T := pdr_id_t) c <> None /\ get_ie (T := precedence_t) c <> None /\
  get_ie (T := pdi) c <> None /\ get_ie (T := source_interface_t) p <> None /\
  get_ie (T := traffic_endpoint_id_t) p = None /\
  (interface = INTERFACE_VALUE_CORE \/
   interface = INTERFACE_VALUE_ACCESS /\ get_ie (T := fteid_t) p <> None).
Proof.
  intros p interface. unfold session_create_pdr, get_ie, bind, guard. cbn.
  fold p interface.
  destruct (first (create_pdr_pdr_id c)); cbn; [|refuse].
  destruct (first (create_pdr_pdi c)); cbn; [|refuse].
  destruct (first (create_pdr_precedence c)); cbn; [|refuse].
  destruct (first (pdi_source_interface p)); cbn; [|refuse].
  destruct (first (pdi_traffic_endpoint_id p)); cbn;
    [split; [intros (? & [=] & _)|intros (_ & _ & _ & _ & [=] & _)]|].
  destruct (Z.eqb_spec interface INTERFACE_VALUE_ACCESS) as [->|Ha].
  - destruct (first (pdi_local_fteid p)); cbn.
    + split; [intros _; repeat split; auto|eauto].
    + split; [intros (? & [=] & _)|].
      intros (_ & _ & _ & _ & _ & [[=]|[_ Hf]]). done.
  - destruct (Z.eqb_spec interface INTERFACE_VALUE_CORE) as [->|Hc]; cbn.
    + split; [intros _; repeat split; auto|eauto].
    + split; [intros (? & [=] & _)|]. intros (_ & _ & _ & _ & _ & [?|[? _]]); done.
Qed.

(** Lookup after creation: an identifier that was already there still
    gives the older rule; the new identifier, when it was free, gives the new
    rule; nothing else changes. *)
Theorem create_far_lookup c s s' id :
  session_create_far c s = (Ok tt, s') ->
  get_far id s' =
    match get_far id s with
    | Some f => Some f
    | None => if far_id (second (create_far_far_id c)) =? id
              then Some (pfcp_far_of_create c) else None
    end /\ pdrs s' = pdrs s.
Proof.
  intros Hc. apply create_far_inv in Hc as [(_ & -> & _)|(? & [=] & _)].
  split; [|done]. unfold get_far. cbn [fars with_fars]. rewrite find_app.
  destruct (find _ (fars s)); [done|]. cbn. unfold has_far_id. cbn.
  now destruct (_ =? id).
Qed.

(** Removing a rule that was just created under a free identifier gives
    the session back, for forwarding and for detection rules. *)
Theorem create_then_remove s :
  (forall c s1, session_create_far c s = (Ok tt, s1) ->
     get_far (far_id (second (create_far_far_id c))) s = None ->
     session_remove_far (mk_remove_far (create_far_far_id c)) s1 = (Ok tt, s)) /\
  (forall c s1, session_create_pdr c s = (Ok tt, s1) ->
     get_pdr (pdr_id_rule_id (second (create_pdr_pdr_id c))) s = None ->
     session_remove_pdr (mk_remove_pdr (create_pdr_pdr_id c)) s1 = (Ok tt, s)).
Proof.
  split; intros c s1 Hc Hn.
  - apply create_far_inv in Hc as [(_ & -> & Hf & _)|(? & [=] & _)].
    unfold session_remove_far, remove_far_by_id, bind, guard, get, put, of_option.
    cbn [remove_far_far_id]. rewrite Hf. cbn [ret fars with_fars].
    rewrite remove_first_app by (exact Hn || apply Z.eqb_refl). now destruct s.
  - apply create_pdr_inv in Hc as [(_ & -> & Hf & _)|(? & [=] & _)].
    unfold session_remove_pdr, remove_pdr_by_id, bind, guard, get, put, of_option.
    cbn [remove_pdr_pdr_id]. rewrite Hf. cbn [ret pdrs with_pdrs].
    rewrite remove_first_app by (exact Hn || apply Z.eqb_refl). now destruct s.
Qed.

(** An Update FAR changes the first rule with its identifier, member by
    member, and no other rule; without such a rule it fails. *)
Theorem update_far_lookup u s id :
  let uid := far_id (update_far_far_id u) in
  match get_far uid s with
  | None => session_update_far u s = (Err modification_failure, s)
  | Some f =>
      exists s', session_update_far u s = (Ok tt, s') /\
        get_far uid s' = Some (pfcp_far_update u f) /\
        (id <> uid -> get_far id s' = get_far id s) /\
        map pfcp_far_far_id (fars s') = map pfcp_far_far_id (fars s) /\ pdrs s' = pdrs s
  end.
Proof.
  intros uid. destruct (get_far uid s) as [f|] eqn:Hg.
  - destruct (session_update_far u s) as [r s'] eqn:Hu. exists s'.
    apply update_far_inv in Hu as [(l & Hl & -> & ->)|(Hn & _ & _)];
      [|unfold uid in Hg; congruence].
    assert (forall i a, has_far_id i (pfcp_far_update u a) = has_far_id i a) as Hid
      by (intros i a; unfold has_far_id; now rewrite pfcp_far_update_id).
    split; [done|]. unfold get_far in *. cbn [fars with_fars]. split; [|split; [|split; [|done]]].
    + fold uid in Hl. rewrite (find_update_first_same _ _ _ _ Hl) by apply Hid.
      now rewrite Hg.
    + intros Hne. eapply find_update_first_other; [exact Hl| |apply Hid].
      unfold has_far_id. intros a Ha. apply Z.eqb_eq in Ha. fold uid in Ha.
      apply Z.eqb_neq. congruence.
    + eapply update_first_map; [exact Hl|apply pfcp_far_update_id].
  - unfold session_update_far, bind, get, of_option, raise.
    apply (update_first_none _ (pfcp_far_update u)) in Hg. fold uid. now rewrite Hg.
Qed.

(** An Update FAR cannot give forwarding parameters to a rule that has
    none: the update is accepted and may switch forwarding on, the parameters
    are stored, but they stay marked as absent. *)
Theorem update_far_keeps_parameters_absent u s f :
  get_far (far_id (update_far_far_id u)) s = Some f ->
  get_ie (T := forwarding_parameters) f = None ->
  exists s' f',
    session_update_far u s = (Ok tt, s') /\
    get_far (far_id (update_far_far_id u)) s' = Some f' /\
    get_ie (T := forwarding_parameters) f' = None /\
    pfcp_far_apply_action f' =
      match get_ie u with Some a => a | None => pfcp_far_apply_action f end /\
    second (pfcp_far_forwarding_parameters f') =
      match get_ie u with
      | Some v => forwarding_parameters_update v (second (pfcp_far_forwarding_parameters f))
      | None => second (pfcp_far_forwarding_parameters f)
      end.
Proof.
  intros Hg Hn. destruct (session_update_far u s) as [r s'] eqn:Hu.
  apply update_far_inv in Hu as [(l & Hl & -> & ->)|(Hx & _)]; [|congruence].
  destruct (pfcp_far_update_members u f) as (Ha & Hf & Hs & _).
  eexists _, (pfcp_far_update u f). split; [reflexivity|]. split; [|split; [|done]].
  - unfold get_far in *. cbn [fars with_fars].
    rewrite (find_update_first_same _ _ _ _ Hl), Hg; [done|].
    intros a. unfold has_far_id. now rewrite pfcp_far_update_id.
  - unfold get_ie in *. cbn [ie pfcp_far_has_forwarding_parameters] in *. rewrite Hf.
    destruct (first (pfcp_far_forwarding_parameters f)); done.
Qed.

(** ** Witnesses *)

Module SamplePfcp.

Definition fteid (t : Z) : fteid_t := mk_fteid_t false false true false t 0 (repeat 0 16) 0.
Definition ue_ip : ue_ip_address_t :=
  mk_ue_ip_address_t false false true false 168430090 (repeat 0 16) 0.

Definition the_pdi (interface t : Z) : pdi :=
  set (mk_source_interface_t interface) (set (fteid t) (set ue_ip inhabitant)).

Definition cr_pdr (id prec interface t fid : Z) : create_pdr :=
  set (mk_pdr_id_t id) (set (mk_precedence_t prec) (set (the_pdi interface t)
    (set (mk_far_id_t fid) (set (mk_outer_header_removal_t 0) inhabitant)))).

Definition fwd (interface description t addr port : Z) : forwarding_parameters :=
  set (mk_destination_interface_t interface)
    (set (mk_outer_header_creation_t description t addr (repeat 0 16) port) inhabitant).

Definition cr_far (id : Z) (p : forwarding_parameters) : create_far :=
  set (mk_far_id_t id)
    (set (mk_apply_action_t 0 false false false true false) (set p inhabitant)).

(** A FAR that buffers and has no forwarding parameters. *)
Definition cr_far_buff (id : Z) : create_far :=
  set (mk_far_id_t id)
    (set (mk_apply_action_t 0 false false true false false) inhabitant).

Definition up_far (id : Z) : update_far :=
  with_member (mk_far_id_t id) (set (mk_apply_action_t 0 false false false true false)
    (set (T := update_forwarding_parameters)
       (set (mk_destination_interface_t INTERFACE_VALUE_CORE) inhabitant) inhabitant)).

Definition empty : pfcp_session := new_pfcp_session inhabitant 1000.

(** The session of the repository's tests: uplink PDR 10 with precedence 1,
    downlink PDR 11 with precedence 2, a FAR for each. *)
Definition ops : list rule_op :=
  [CreateFar (cr_far 1 (fwd INTERFACE_VALUE_CORE 0x0400 0 0 0));
   CreateFar (cr_far 2 (fwd INTERFACE_VALUE_ACCESS 0x0100 100 33620234 2152));
   CreatePdr (cr_pdr 11 2 INTERFACE_VALUE_CORE 100 2);
   CreatePdr (cr_pdr 10 1 INTERFACE_VALUE_ACCESS 100 1)].

Definition session : pfcp_session := fold_left (fun s o => snd (run_op o s)) ops empty.

End SamplePfcp.

Import SamplePfcp.

Lemma fold_reachable cp up ops s :
  reachable cp up s -> reachable cp up (fold_left (fun s o => snd (run_op o s)) ops s).
Proof.
  revert s. induction ops as [|o ops IH]; intros s Hs; cbn; [done|].
  apply IH. apply (reach_op _ _ s o (fst (run_op o s))); [done|]. now destruct (run_op o s).
Qed.

Example rejected_op_is_atomic_witness :
  run_op (CreateFar inhabitant) empty = (Err (missing PFCP_IE_FAR_ID), empty) /\
  In (cause_value (missing PFCP_IE_FAR_ID))
    [CAUSE_VALUE_REQUEST_REJECTED; CAUSE_VALUE_MANDATORY_IE_MISSING;
     CAUSE_VALUE_RULE_CREATION_MODIFICATION_FAILURE].
Proof.
  split; [reflexivity|].
  apply (rejected_op_is_atomic (CreateFar inhabitant) empty _ empty). reflexivity.
Defined.

Example reachable_session_ok_witness : session_ok session /\ seid session = 1000.
Proof.
  destruct (reachable_session_ok inhabitant 1000 session) as (H1 & H2 & _).
  - apply fold_reachable. constructor.
  - split; assumption.
Defined.

Example create_far_lookup_witness :
  exists s', session_create_far (cr_far_buff 3) session = (Ok tt, s') /\
    get_far 3 s' = Some (pfcp_far_of_create (cr_far_buff 3)).
Proof.
  exists (snd (session_create_far (cr_far_buff 3) session)). split; [reflexivity|].
  exact (proj1 (create_far_lookup (cr_far_buff 3) session _ 3 eq_refl)).
Defined.

Example create_then_remove_witness :
  session_remove_far (mk_remove_far (create_far_far_id (cr_far_buff 3)))
    (snd (session_create_far (cr_far_buff 3) session)) = (Ok tt, session).
Proof.
  apply (proj1 (create_then_remove session) (cr_far_buff 3)); reflexivity.
Defined.

Example update_far_keeps_parameters_absent_witness :
  let s := snd (session_create_far (cr_far_buff 3) session) in
  exists s' f',
    session_update_far (up_far 3) s = (Ok tt, s') /\ get_far 3 s' = Some f' /\
    get_ie (T := forwarding_parameters) f' = None /\
    apply_action_forw (pfcp_far_apply_action f') = true.
Proof.
  intros s.
  destruct (update_far_keeps_parameters_absent (up_far 3) s
              (pfcp_far_of_create (cr_far_buff 3)) eq_refl eq_refl)
    as (s' & f' & H1 & H2 & H3 & H4 & _).
  exists s', f'. split; [exact H1|]. split; [exact H2|]. split; [exact H3|].
  rewrite H4. reflexivity.
Defined.
