(* ===== verification/Text.v ===== *)
(** * Numbers in texts

    std::to_string and the integers of fmt::format write a number in decimal digits
    ([pretty] of stdpp).  A text of numbers and words can be taken apart again:
    digits end at the first character that is none. *)
From Stdlib Require Import ZArith Lia List Bool Ascii String.
From stdpp Require Import base list strings pretty.
From S2P Require Import Prelude.
Open Scope Z_scope.
Open Scope string_scope.

(** The characters of a text that other files keep as codes. *)
Fixpoint of_codes (l : list Z) : string :=
  match l with
  | [] => ""
  | c :: l => String (ascii_of_N (Z.to_N c)) (of_codes l)
  end.

Definition is_digit (c : ascii) : bool := (48 <=? N_of_ascii c)%N && (N_of_ascii c <=? 57)%N.
Fixpoint all_digits (s : string) : bool :=
  match s with EmptyString => true | String c s => is_digit c && all_digits s end.

Lemma pretty_N_go_digits x s : all_digits s = true -> all_digits (pretty_N_go x s) = true.
Proof.
  revert s. induction (N.lt_wf_0 x) as [x _ IH]; intros s Hs.
  destruct (N.eq_dec x 0%N) as [->|Hx]; [now rewrite pretty_N_go_0|].
  rewrite pretty_N_go_step by lia. apply IH; [apply N.div_lt; lia|].
  cbn [all_digits]. rewrite Hs, andb_true_r. unfold pretty_N_char. now repeat case_match.
Qed.

Lemma pretty_N_go_nonempty x s : s <> "" -> pretty_N_go x s <> "".
Proof.
  revert s. induction (N.lt_wf_0 x) as [x _ IH]; intros s Hs.
  destruct (N.eq_dec x 0%N) as [->|Hx]; [now rewrite pretty_N_go_0|].
  rewrite pretty_N_go_step by lia. apply IH; [apply N.div_lt; lia|discriminate].
Qed.

(** A number that is not negative is written as some digits. *)
Lemma pretty_digits z : 0 <= z -> all_digits (pretty z) = true /\ pretty z <> "".
Proof.
  intros Hz. destruct z as [|p|p]; [split; [reflexivity|discriminate]| |lia].
  change (pretty (Z.pos p)) with (pretty (N.pos p)). unfold pretty, pretty_N.
  rewrite decide_False by lia. split; [now apply pretty_N_go_digits|].
  rewrite pretty_N_go_step by lia. apply pretty_N_go_nonempty. discriminate.
Qed.

(** Digits end at the first character that is none. *)
Lemma digits_end a b c d r1 r2 :
  all_digits a = true -> all_digits b = true -> is_digit c = false -> is_digit d = false ->
  a +:+ String c r1 = b +:+ String d r2 -> a = b /\ String c r1 = String d r2.
Proof.
  revert b. induction a as [|x a IH]; intros [|y b]; cbn; intros Ha Hb Hc Hd Heq.
  - done.
  - injection Heq as -> _. now rewrite Hc in Hb.
  - injection Heq as -> _. now rewrite Hd in Ha.
  - injection Heq as -> Heq. apply andb_true_iff in Ha as [_ Ha], Hb as [_ Hb].
    destruct (IH b Ha Hb Hc Hd Heq) as [-> ?]. done.
Qed.

Lemma number_end x y c d r1 r2 :
  0 <= x -> 0 <= y -> is_digit c = false -> is_digit d = false ->
  pretty x +:+ String c r1 = pretty y +:+ String d r2 -> x = y /\ String c r1 = String d r2.
Proof.
  intros Hx Hy Hc Hd Heq.
  apply digits_end in Heq as [Hp ?]; try done; try now apply pretty_digits.
  split; [|done]. now apply (inj pretty).
Qed.

Lemma number_first x c r1 r2 :
  0 <= x -> is_digit c = false -> pretty x +:+ r1 <> String c r2.
Proof.
  intros Hx Hc Heq. destruct (pretty_digits x Hx) as [Hd Hn].
  destruct (pretty x) as [|d s]; [done|]. injection Heq as -> _. cbn in Hd. now rewrite Hc in Hd.
Qed.

Lemma append_cons c s t : String c s +:+ t = String c (s +:+ t).
Proof. reflexivity. Qed.

Lemma append_empty t : "" +:+ t = t.
Proof. reflexivity. Qed.

Lemma append_nil s : s +:+ "" = s.
Proof. induction s as [|c s IH]; [done|]. change (String c (s +:+ "") = String c s). now rewrite IH. Qed.

(** The numbers of two equal texts, one after the other. *)
Ltac cut_numbers :=
  repeat match goal with
  | H : pretty _ +:+ String _ _ = pretty _ +:+ String _ _ |- _ =>
      apply number_end in H as [? H]; [|auto..|reflexivity|reflexivity]; try discriminate H;
      try (injection H as H)
  | H : pretty _ +:+ _ = String _ _ |- _ => exfalso; apply number_first in H; auto
  | H : String _ _ = pretty _ +:+ _ |- _ => symmetry in H; exfalso; apply number_first in H; auto
  end.
