(* ===== verification/PfcpStream.v ===== *)
(** * Byte streams of the PFCP codec

    The [std::istream] of the [load_from] methods: the bytes that are left and
    the fail flag.  A read that finds too few bytes stores those it finds, sets
    the flag, and the following reads leave their variables as they are; it
    does not throw.  A read therefore takes the bytes of the variable before. *)
From Stdlib Require Import ZArith Lia List Bool.
From stdpp Require Import base list.
From S2P Require Import Prelude.
Open Scope Z_scope.
Open Scope upf_scope.

Record istream : Type := mk_istream {
  left_bytes : list Z;
  failed : bool
}.

(** What stops the codec: its exceptions; [LengthError], [std::length_error] of
    the library; [OutOfArray], an access outside an array of an element, where
    the behaviour of the code is undefined; [Diverges], a loop or a recursion
    that does not end; [OutOfFuel], a computation of the model cut short, which
    theorems exclude. *)
Inductive pfcp_error : Type :=
| TlvBadLength (type length : Z)
| IeValue (type : Z)
| MsgBadLength (type length ies_length check_length : Z)
| IllegalIe (type : Z)
| LengthError
| OutOfArray (type : Z)
| Diverges (type : Z)
| OutOfFuel.

Definition stream (A : Type) : Type := M istream pfcp_error A.

(** The stream of a buffer. *)
Definition of_bytes (l : list Z) : istream := mk_istream l false.

(** [is.read(v, n)] into a variable whose [n] bytes are [old]. *)
Definition is_read (old : list Z) : stream (list Z) := fun s =>
  if failed s then (Ok old, s)
  else
    let n := length old in
    if (n <=? length (left_bytes s))%nat
    then (Ok (take n (left_bytes s)), mk_istream (drop n (left_bytes s)) false)
    else (Ok (left_bytes s ++ drop (length (left_bytes s)) old), mk_istream [] true).

(** An unsigned integer in network order, [v = beNNtoh(v)] after the read. *)
Definition read_be (n : nat) (old : Z) : stream Z :=
  let* l := is_read (le_enc n old) in ret (be_dec l).

(** One byte, and an IPv4 address kept in network order. *)
Definition read_byte (old : Z) : stream Z := let* l := is_read [old] in ret (le_dec l).
Definition read_ipv4 (old : Z) : stream Z := let* l := is_read (le_enc 4 old) in ret (le_dec l).
Definition read_ipv6 (old : list Z) : stream (list Z) := is_read old.

(** [char e[n]; is.read(e, n)]: [uninit] is what the stack holds. *)
Definition read_string (uninit : Z) (n : nat) : stream (list Z) := is_read (repeat uninit n).

(** The byte of a union of bit fields, from the least significant bit. *)
Fixpoint byte_of (l : list bool) : Z :=
  match l with
  | [] => 0
  | b :: l' => Z.b2z b + 2 * byte_of l'
  end.

(** The optional parts of an element. *)
Definition when {A} (b : bool) (m : stream A) (d : A) : stream A := if b then m else ret d.
Definition bytes_if (b : bool) (l : list Z) : list Z := if b then l else [].

(** ** Reading what was written *)

Lemma is_read_app old l rest :
  length l = length old -> is_read old (of_bytes (l ++ rest)) = (Ok l, of_bytes rest).
Proof.
  intros Hl. unfold is_read, of_bytes. cbn. rewrite length_app.
  rewrite (proj2 (Nat.leb_le _ _)) by lia.
  now rewrite take_app_length', drop_app_length' by done.
Qed.

Lemma read_be_enc n old v rest :
  0 <= v < 256 ^ Z.of_nat n -> read_be n old (of_bytes (be_enc n v ++ rest)) = (Ok v, of_bytes rest).
Proof.
  intros Hv. unfold read_be, bind. rewrite is_read_app by now rewrite length_be_enc, length_le_enc.
  unfold ret. now rewrite be_dec_enc, Z.mod_small.
Qed.

Lemma read_byte_enc old v rest :
  0 <= v < 256 -> read_byte old (of_bytes (v :: rest)) = (Ok v, of_bytes rest).
Proof.
  intros Hv. unfold read_byte, bind. change (v :: rest) with ([v] ++ rest).
  rewrite is_read_app by done. unfold ret. cbn. now rewrite Z.add_0_r.
Qed.

Lemma read_ipv4_enc old v rest :
  0 <= v < 2 ^ 32 -> read_ipv4 old (of_bytes (le_enc 4 v ++ rest)) = (Ok v, of_bytes rest).
Proof.
  intros Hv. unfold read_ipv4, bind. rewrite is_read_app by now rewrite !length_le_enc.
  unfold ret. rewrite le_dec_enc, Z.mod_small; done.
Qed.

Lemma read_ipv6_app old l rest :
  length l = length old -> read_ipv6 old (of_bytes (l ++ rest)) = (Ok l, of_bytes rest).
Proof. apply is_read_app. Qed.

Lemma read_string_app u n l rest :
  length l = n -> read_string u n (of_bytes (l ++ rest)) = (Ok l, of_bytes rest).
Proof. intros Hl. apply is_read_app. now rewrite repeat_length. Qed.

Lemma read_when {A} b (m : stream A) v d bs rest :
  (b = true -> m (of_bytes (bs ++ rest)) = (Ok v, of_bytes rest)) ->
  when b m d (of_bytes (bytes_if b bs ++ rest)) = (Ok (if b then v else d), of_bytes rest).
Proof. destruct b; cbn; [auto|]. intros _. reflexivity. Qed.

Lemma byte_of_bound l : (length l <= 8)%nat -> 0 <= byte_of l < 256.
Proof.
  intros Hl. assert (0 <= byte_of l < 2 ^ Z.of_nat (length l)) as Hb.
  { clear Hl. induction l as [|b l IH]; [cbn; lia|].
    cbn [byte_of length]. rewrite Nat2Z.inj_succ, Z.pow_succ_r by lia.
    destruct b; cbn [Z.b2z]; lia. }
  assert (2 ^ Z.of_nat (length l) <= 2 ^ 8) by (apply Z.pow_le_mono_r; lia). lia.
Qed.

Lemma testbit_byte_of l i : Z.testbit (byte_of l) (Z.of_nat i) = nth i l false.
Proof.
  revert i. induction l as [|b l IH]; intros [|i]; cbn [byte_of nth]; [apply Z.bits_0..| |].
  - rewrite Z.add_comm. apply Z.testbit_0_r.
  - rewrite Nat2Z.inj_succ, Z.add_comm, Z.testbit_succ_r by lia. apply IH.
Qed.

Lemma length_bytes_if b l : Z.of_nat (length (bytes_if b l)) = if b then Z.of_nat (length l) else 0.
Proof. now destruct b. Qed.

(** ** A reader never gives bytes back, and needs no fuel *)

Definition shrinks {A} (m : stream A) : Prop :=
  forall s r s', m s = (r, s') ->
    (length (left_bytes s') <= length (left_bytes s))%nat /\ r <> Err OutOfFuel.

Create HintDb shrinks.

Lemma shrinks_ret {A} (a : A) : shrinks (ret a).
Proof. intros s r s' [= <- <-]. split; [lia|discriminate]. Qed.

Lemma shrinks_raise {A} e : e <> OutOfFuel -> shrinks (raise (A := A) e).
Proof. intros He s r s' [= <- <-]. split; [lia|congruence]. Qed.

Lemma shrinks_guard b e : e <> OutOfFuel -> shrinks (guard b e).
Proof. intros He. destruct b; [apply shrinks_ret|now apply shrinks_raise]. Qed.

Lemma shrinks_bind {A B} (m : stream A) (k : A -> stream B) :
  shrinks m -> (forall a, shrinks (k a)) -> shrinks (bind m k).
Proof.
  intros Hm Hk s r s'. unfold bind. destruct (m s) as [[a|e] s1] eqn:E; apply Hm in E as [E1 E2].
  - intros Hr. apply Hk in Hr as [H1 H2]. split; [lia|done].
  - intros [= <- <-]. split; [lia|congruence].
Qed.

Lemma shrinks_is_read old : shrinks (is_read old).
Proof.
  intros s r s'. unfold is_read. destruct (failed s); [intros [= <- <-]; split; [lia|done]|].
  destruct (_ <=? _)%nat eqn:Hn; intros [= <- <-]; cbn; (split; [|done]);
    rewrite ?length_drop; lia.
Qed.

Lemma shrinks_read_be n old : shrinks (read_be n old).
Proof. apply shrinks_bind; [apply shrinks_is_read|intros; apply shrinks_ret]. Qed.

Lemma shrinks_read_byte old : shrinks (read_byte old).
Proof. apply shrinks_bind; [apply shrinks_is_read|intros; apply shrinks_ret]. Qed.

Lemma shrinks_read_ipv4 old : shrinks (read_ipv4 old).
Proof. apply shrinks_bind; [apply shrinks_is_read|intros; apply shrinks_ret]. Qed.

Lemma shrinks_read_ipv6 old : shrinks (read_ipv6 old).
Proof. apply shrinks_is_read. Qed.

Lemma shrinks_read_string u n : shrinks (read_string u n).
Proof. apply shrinks_is_read. Qed.

Lemma shrinks_when {A} b (m : stream A) d : shrinks m -> shrinks (when b m d).
Proof. destruct b; cbn; [done|intros; apply shrinks_ret]. Qed.

#[export] Hint Resolve shrinks_ret shrinks_raise shrinks_guard shrinks_bind shrinks_is_read
  shrinks_read_be shrinks_read_byte shrinks_read_ipv4 shrinks_read_ipv6 shrinks_read_string
  shrinks_when : shrinks.
#[export] Hint Extern 1 (_ <> OutOfFuel) => discriminate : shrinks.
