(* ===== verification/PfcpOverloads.v ===== *)
(** * The base class of the containers (src/src/oai/pfcp/msg_pfcp.hpp)

    [pfcp_ies_container] has two overloads, [get] and [set], for each type of member
    there is, and both throw a [pfcp_msg_illegal_ie_exception] with the number of the
    information element.  A container overrides the overloads of its own members
    ([PfcpContainers]); for any other value the call ends here.  An overload is
    chosen by the type of its argument: here by an instance of [Overloads]. *)
From Stdlib Require Import ZArith.
From stdpp Require Import base.
From S2P Require Import Prelude PfcpStream PfcpTypes PfcpReportTypes PfcpGroups PfcpReportGroups PfcpMessages.
Open Scope Z_scope.

(** A structure that no element class uses. *)
Record pfcpsrrsp_flags_t : Type := mk_pfcpsrrsp_flags_t {
  pfcpsrrsp_flags_spare : Z;
  pfcpsrrsp_flags_drobu : bool
}.

(** The number that the two overloads for [T] throw. *)
Class Overloads (T : Type) : Type := thrown_type : Z.

#[export] Instance create_pdr_overloads : Overloads create_pdr := 1.
#[export] Instance pdi_overloads : Overloads pdi := 2.
#[export] Instance create_far_overloads : Overloads create_far := 3.
#[export] Instance forwarding_parameters_overloads : Overloads forwarding_parameters := 4.
#[export] Instance duplicating_parameters_overloads : Overloads duplicating_parameters := 5.
#[export] Instance create_urr_overloads : Overloads create_urr := 6.
#[export] Instance create_qer_overloads : Overloads create_qer := 7.
#[export] Instance created_pdr_overloads : Overloads created_pdr := 8.
#[export] Instance update_pdr_overloads : Overloads update_pdr := 9.
#[export] Instance update_far_overloads : Overloads update_far := 10.
#[export] Instance update_forwarding_parameters_overloads :
  Overloads update_forwarding_parameters := 11.
#[export] Instance update_bar_within_pfcp_session_modification_request_overloads :
  Overloads update_bar_within_pfcp_session_modification_request := 86.
#[export] Instance update_bar_within_pfcp_session_report_response_overloads :
  Overloads update_bar_within_pfcp_session_report_response := 12.
#[export] Instance update_urr_overloads : Overloads update_urr := 13.
#[export] Instance update_qer_overloads : Overloads update_qer := 14.
#[export] Instance remove_pdr_overloads : Overloads remove_pdr := 15.
#[export] Instance remove_far_overloads : Overloads remove_far := 16.
#[export] Instance remove_urr_overloads : Overloads remove_urr := 17.
#[export] Instance remove_qer_overloads : Overloads remove_qer := 18.
#[export] Instance cause_overloads : Overloads cause_t := 19.
#[export] Instance source_interface_overloads : Overloads source_interface_t := 20.
#[export] Instance fteid_overloads : Overloads fteid_t := 21.
#[export] Instance network_instance_overloads : Overloads network_instance_t := 22.
#[export] Instance sdf_filter_overloads : Overloads sdf_filter_t := 23.
#[export] Instance application_id_overloads : Overloads application_id_t := 24.
#[export] Instance gate_status_overloads : Overloads gate_status_t := 25.
#[export] Instance mbr_overloads : Overloads mbr_t := 26.
#[export] Instance gbr_overloads : Overloads gbr_t := 27.
#[export] Instance qer_correlation_id_overloads : Overloads qer_correlation_id_t := 28.
#[export] Instance precedence_overloads : Overloads precedence_t := 29.
#[export] Instance transport_level_marking_overloads : Overloads transport_level_marking_t := 30.
#[export] Instance volume_threshold_overloads : Overloads volume_threshold_t := 31.
#[export] Instance time_threshold_overloads : Overloads time_threshold_t := 32.
#[export] Instance monitoring_time_overloads : Overloads monitoring_time_t := 33.
#[export] Instance subsequent_volume_threshold_overloads :
  Overloads subsequent_volume_threshold_t := 34.
#[export] Instance subsequent_time_threshold_overloads :
  Overloads subsequent_time_threshold_t := 35.
#[export] Instance inactivity_detection_time_overloads :
  Overloads inactivity_detection_time_t := 36.
#[export] Instance reporting_triggers_overloads : Overloads reporting_triggers_t := 37.
#[export] Instance redirect_information_overloads : Overloads redirect_information_t := 38.
#[export] Instance report_type_overloads : Overloads report_type_t := 39.
#[export] Instance offending_ie_overloads : Overloads offending_ie_t := 40.
#[export] Instance forwarding_policy_overloads : Overloads forwarding_policy_t := 41.
#[export] Instance destination_interface_overloads : Overloads destination_interface_t := 42.
#[export] Instance up_function_features_overloads : Overloads up_function_features_s := 43.
#[export] Instance apply_action_overloads : Overloads apply_action_t := 44.
#[export] Instance downlink_data_service_information_overloads :
  Overloads downlink_data_service_information_t := 45.
#[export] Instance downlink_data_notification_delay_overloads :
  Overloads downlink_data_notification_delay_t := 46.
#[export] Instance dl_buffering_duration_overloads : Overloads dl_buffering_duration_t := 47.
#[export] Instance dl_buffering_suggested_packet_count_overloads :
  Overloads dl_buffering_suggested_packet_count_t := 48.
#[export] Instance pfcpsmreq_flags_overloads : Overloads pfcpsmreq_flags_t := 49.
#[export] Instance pfcpsrrsp_flags_overloads : Overloads pfcpsrrsp_flags_t := 50.
#[export] Instance load_control_information_overloads : Overloads load_control_information := 51.
#[export] Instance sequence_number_overloads : Overloads sequence_number_t := 52.
#[export] Instance metric_overloads : Overloads metric_t := 53.
#[export] Instance overload_control_information_overloads :
  Overloads overload_control_information := 54.
#[export] Instance timer_overloads : Overloads timer_t := 55.
#[export] Instance pdr_id_overloads : Overloads pdr_id_t := 56.
#[export] Instance fseid_overloads : Overloads fseid_t := 57.
#[export] Instance application_ids_pfds_overloads : Overloads application_ids_pfds := 58.
#[export] Instance pfd_overloads : Overloads pfd := 59.
#[export] Instance node_id_overloads : Overloads node_id_t := 60.
#[export] Instance pfd_contents_overloads : Overloads pfd_contents_t := 61.
#[export] Instance measurement_method_overloads : Overloads measurement_method_t := 62.
#[export] Instance usage_report_trigger_overloads : Overloads usage_report_trigger_t := 63.
#[export] Instance measurement_period_overloads : Overloads measurement_period_t := 64.
#[export] Instance fq_csid_overloads : Overloads fq_csid_t := 65.
#[export] Instance volume_measurement_overloads : Overloads volume_measurement_t := 66.
#[export] Instance duration_measurement_overloads : Overloads duration_measurement_t := 67.
#[export] Instance application_detection_information_overloads :
  Overloads application_detection_information := 68.
#[export] Instance time_of_first_packet_overloads : Overloads time_of_first_packet_t := 69.
#[export] Instance time_of_last_packet_overloads : Overloads time_of_last_packet_t := 70.
#[export] Instance quota_holding_time_overloads : Overloads quota_holding_time_t := 71.
#[export] Instance dropped_dl_traffic_threshold_overloads :
  Overloads dropped_dl_traffic_threshold_t := 72.
#[export] Instance volume_quota_overloads : Overloads volume_quota_t := 73.
#[export] Instance time_quota_overloads : Overloads time_quota_t := 74.
#[export] Instance start_time_overloads : Overloads start_time_t := 75.
#[export] Instance end_time_overloads : Overloads end_time_t := 76.
#[export] Instance query_urr_overloads : Overloads query_urr := 77.
#[export] Instance usage_report_within_pfcp_session_modification_response_overloads :
  Overloads usage_report_within_pfcp_session_modification_response := 78.
#[export] Instance usage_report_within_pfcp_session_deletion_response_overloads :
  Overloads usage_report_within_pfcp_session_deletion_response := 79.
#[export] Instance usage_report_within_pfcp_session_report_request_overloads :
  Overloads usage_report_within_pfcp_session_report_request := 80.
#[export] Instance urr_id_overloads : Overloads urr_id_t := 81.
#[export] Instance linked_urr_id_overloads : Overloads linked_urr_id_t := 82.
#[export] Instance downlink_data_report_overloads : Overloads downlink_data_report := 83.
#[export] Instance outer_header_creation_overloads : Overloads outer_header_creation_t := 84.
#[export] Instance create_bar_overloads : Overloads create_bar := 85.
#[export] Instance remove_bar_overloads : Overloads remove_bar := 87.
#[export] Instance bar_id_overloads : Overloads bar_id_t := 88.
#[export] Instance cp_function_features_overloads : Overloads cp_function_features_t := 89.
#[export] Instance usage_information_overloads : Overloads usage_information_t := 90.
#[export] Instance application_instance_id_overloads : Overloads application_instance_id_t := 91.
#[export] Instance flow_information_overloads : Overloads flow_information_t := 92.
#[export] Instance ue_ip_address_overloads : Overloads ue_ip_address_t := 93.
#[export] Instance packet_rate_overloads : Overloads packet_rate_t := 94.
#[export] Instance outer_header_removal_overloads : Overloads outer_header_removal_t := 95.
#[export] Instance recovery_time_stamp_overloads : Overloads recovery_time_stamp_t := 96.
#[export] Instance dl_flow_level_marking_overloads : Overloads dl_flow_level_marking_t := 97.
#[export] Instance header_enrichment_overloads : Overloads header_enrichment_t := 98.
#[export] Instance error_indication_report_overloads : Overloads error_indication_report := 99.
#[export] Instance measurement_information_overloads : Overloads measurement_information_t := 100.
#[export] Instance node_report_type_overloads : Overloads node_report_type_t := 101.
#[export] Instance user_plane_path_failure_report_overloads :
  Overloads user_plane_path_failure_report := 102.
#[export] Instance remote_gtp_u_peer_overloads : Overloads remote_gtp_u_peer_t := 103.
#[export] Instance ur_seqn_overloads : Overloads ur_seqn_t := 104.
#[export] Instance update_duplicating_parameters_overloads :
  Overloads update_duplicating_parameters := 105.
#[export] Instance activate_predefined_rules_overloads :
  Overloads activate_predefined_rules_t := 106.
#[export] Instance deactivate_predefined_rules_overloads :
  Overloads deactivate_predefined_rules_t := 107.
#[export] Instance far_id_overloads : Overloads far_id_t := 108.
#[export] Instance qer_id_overloads : Overloads qer_id_t := 109.
#[export] Instance oci_flags_overloads : Overloads oci_flags_t := 110.
#[export] Instance pfcp_association_release_request_overloads :
  Overloads pfcp_association_release_request_t := 111.
#[export] Instance graceful_release_period_overloads : Overloads graceful_release_period_t := 112.
#[export] Instance pdn_type_overloads : Overloads pdn_type_t := 113.
#[export] Instance failed_rule_id_overloads : Overloads failed_rule_id_t := 114.
#[export] Instance time_quota_mechanism_overloads : Overloads time_quota_mechanism_t := 115.
#[export] Instance user_plane_ip_resource_information_overloads :
  Overloads user_plane_ip_resource_information_t := 116.
#[export] Instance user_plane_inactivity_timer_overloads :
  Overloads user_plane_inactivity_timer_t := 117.
#[export] Instance aggregated_urrs_overloads : Overloads aggregated_urrs := 118.
#[export] Instance multiplier_overloads : Overloads multiplier_t := 119.
#[export] Instance aggregated_urr_id_overloads : Overloads aggregated_urr_id_t := 120.
#[export] Instance subsequent_volume_quota_overloads : Overloads subsequent_volume_quota_t := 121.
#[export] Instance subsequent_time_quota_overloads : Overloads subsequent_time_quota_t := 122.
#[export] Instance rqi_overloads : Overloads rqi_t := 123.
#[export] Instance qfi_overloads : Overloads qfi_t := 124.
#[export] Instance query_urr_reference_overloads : Overloads query_urr_reference_t := 125.
#[export] Instance additional_usage_reports_information_overloads :
  Overloads additional_usage_reports_information_t := 126.
#[export] Instance create_traffic_endpoint_overloads : Overloads create_traffic_endpoint := 127.
#[export] Instance created_traffic_endpoint_overloads : Overloads created_traffic_endpoint := 128.
#[export] Instance update_traffic_endpoint_overloads : Overloads update_traffic_endpoint := 129.
#[export] Instance remove_traffic_endpoint_overloads : Overloads remove_traffic_endpoint := 130.
#[export] Instance traffic_endpoint_id_overloads : Overloads traffic_endpoint_id_t := 131.
#[export] Instance ethernet_packet_filter_overloads : Overloads ethernet_packet_filter := 132.
#[export] Instance mac_address_overloads : Overloads mac_address_t := 133.
#[export] Instance c_tag_overloads : Overloads c_tag_t := 134.
#[export] Instance s_tag_overloads : Overloads s_tag_t := 135.
#[export] Instance ethertype_overloads : Overloads ethertype_t := 136.
#[export] Instance proxying_overloads : Overloads proxying_t := 137.
#[export] Instance ethernet_filter_id_overloads : Overloads ethernet_filter_id_t := 138.
#[export] Instance ethernet_filter_properties_overloads :
  Overloads ethernet_filter_properties_t := 139.
#[export] Instance suggested_buffering_packets_count_overloads :
  Overloads suggested_buffering_packets_count_t := 140.
#[export] Instance user_id_overloads : Overloads user_id_t := 141.
#[export] Instance ethernet_pdu_session_information_overloads :
  Overloads ethernet_pdu_session_information_t := 142.
#[export] Instance ethernet_traffic_information_overloads :
  Overloads ethernet_traffic_information := 143.
#[export] Instance mac_addresses_detected_overloads : Overloads mac_addresses_detected_t := 144.
#[export] Instance mac_addresses_removed_overloads : Overloads mac_addresses_removed_t := 145.
#[export] Instance ethernet_inactivity_timer_overloads :
  Overloads ethernet_inactivity_timer_t := 146.
#[export] Instance additional_monitoring_time_overloads :
  Overloads additional_monitoring_time := 147.
#[export] Instance event_information_overloads : Overloads event_information := 148.
#[export] Instance event_reporting_overloads : Overloads event_reporting := 149.
#[export] Instance event_id_overloads : Overloads event_id_t := 150.
#[export] Instance event_threshold_overloads : Overloads event_threshold_t := 151.
#[export] Instance trace_information_overloads : Overloads trace_information_t := 152.
#[export] Instance framed_route_overloads : Overloads framed_route_t := 153.
#[export] Instance framed_routing_overloads : Overloads framed_routing_t := 154.
#[export] Instance framed_ipv6_route_overloads : Overloads framed_ipv6_route_t := 155.

(** [virtual bool get(T& v) const] and [virtual void set(const T& v)] *)
Definition base_get {T : Type} `{Overloads T} : result pfcp_error (bool * T) :=
  Err (IllegalIe (thrown_type (T := T))).

Definition base_set {C T : Type} `{Overloads T} (v : T) (c : C) : result pfcp_error C :=
  Err (IllegalIe (thrown_type (T := T))).
