(* ===== verification/Exceptions.v ===== *)
(** * The exceptions of the protocol headers

    The exception classes of oai/common/3gpp_29.244.h (PFCP), 3gpp_29.274.h
    (GTPv2-C) and 3gpp_29.281.h (GTP-U): a cause, which stays 0 except in the base
    class, and a text made by fmt::format.  The constructors do not let an exception
    out ([throw()]): one that fmt::format throws ends the process. *)
From Stdlib Require Import ZArith Lia List Bool Ascii String.
From stdpp Require Import base list strings pretty.
From S2P Require Import Prelude Text PfcpStream.
Open Scope Z_scope.
Open Scope string_scope.

(** ** fmt::format *)

Inductive fmt_arg : Type :=
| FmtInt (z : Z)
| FmtStr (s : string).

Definition arg_text (a : fmt_arg) : string :=
  match a with FmtInt z => pretty z | FmtStr s => s end.

(** A format string: characters, and replacement fields without an index. *)
Inductive piece : Type :=
| Lit (c : ascii)
| Hole.

Fixpoint template (l : list piece) : string :=
  match l with
  | [] => ""
  | Lit c :: l => String c (template l)
  | Hole :: l => "{}" +:+ template l
  end.

(** The fields take the arguments in order; there must be enough. *)
Fixpoint fill_fields (l : list piece) (args : list fmt_arg) : option string :=
  match l, args with
  | [], _ => Some ""
  | Lit c :: l, _ => String c <$> fill_fields l args
  | Hole :: l, a :: args => append (arg_text a) <$> fill_fields l args
  | Hole :: _, [] => None
  end.

Definition no_brace (p : piece) : bool :=
  match p with Lit c => negb (Ascii.eqb c "{"%char || Ascii.eqb c "}"%char) | Hole => true end.

(** fmt::format, of a library: [None] when it throws fmt::format_error. *)
Class Format : Type := format : string -> list fmt_arg -> option string.

Class FormatLaws `{Format} : Prop :=
  format_template l args :
    forallb no_brace l = true -> format (template l) args = fill_fields l args.

(** ** Data *)

Record gtp_exception : Type := mk_exception { exn_cause : Z; phrase : string }.

(** [std::exception::what] *)
Definition what (e : gtp_exception) : string := phrase e.

(** A constructor: [None] when it ends the process. *)
Definition built : Type := option gtp_exception.

Section Constructors.
Context `{Format}.

(** [phrase = fmt::format(...)] and [phrase = aphrase], after the base class. *)
Definition formatted (s : string) (args : list fmt_arg) (e : gtp_exception) : built :=
  mk_exception (exn_cause e) <$> format s args.
Definition worded (aphrase : string) (e : gtp_exception) : built :=
  Some (mk_exception (exn_cause e) aphrase).


(** *** PFCP: 3gpp_29.244.h *)

Definition pfcp_exception_default : built :=
  Some (mk_exception 0 "PFCP Exception unknown cause").
Definition pfcp_exception (acause : Z) : built :=
  formatted "PFCP Exception cause {}" [FmtInt acause]
    (mk_exception acause "").
Definition pfcp_msg_bad_length_exception (msg_type hdr_size ie_size check_ie_size : Z) (file : string) (line : Z) : built :=
  pfcp_exception_default ≫= formatted
    "PFCP msg {} Bad Length hdr.length {}/ sum ie {} / check sum ie {} Exception {}:{}"
    [FmtInt (u8 msg_type); FmtInt (u16 hdr_size); FmtInt (u16 ie_size); FmtInt (u16 check_ie_size); FmtStr file; FmtInt line].
Definition pfcp_msg_bad_length_exception_text (aphrase : string) : built :=
  pfcp_exception_default ≫= worded aphrase.
Definition pfcp_msg_unimplemented_ie_exception (msg_type ie_type instance : Z) : built :=
  pfcp_exception_default ≫= formatted
    "PFCP msg {} Unimplemented {} IE Instance {} Exception"
    [FmtInt (u8 msg_type); FmtInt (u16 ie_type); FmtInt (u8 instance)].
Definition pfcp_msg_unimplemented_ie_exception_text (aphrase : string) : built :=
  pfcp_exception_default ≫= worded aphrase.
Definition pfcp_msg_illegal_ie_exception (msg_type ie_type : Z) (file : string) (line : Z) : built :=
  pfcp_exception_default ≫= formatted
    "PFCP msg {} Illegal IE {} Exception {}:{}"
    [FmtInt (u8 msg_type); FmtInt (u16 ie_type); FmtStr file; FmtInt line].
Definition pfcp_msg_illegal_ie_exception_text (aphrase : string) : built :=
  pfcp_exception_default ≫= worded aphrase.
Definition pfcp_ie_exception (ie_type : Z) : built :=
  pfcp_exception_default ≫= formatted
    "PFCP IE {} Exception"
    [FmtInt (u16 ie_type)].
Definition pfcp_ie_exception_text (aphrase : string) : built :=
  pfcp_exception_default ≫= worded aphrase.
Definition pfcp_ie_unimplemented_exception (ie_type : Z) : built :=
  pfcp_ie_exception ie_type ≫= formatted
    "PFCP IE {} Unimplemented Exception"
    [FmtInt (u16 ie_type)].
Definition pfcp_tlv_exception (ie_type : Z) : built :=
  pfcp_ie_exception ie_type ≫= formatted
    "PFCP IE TLV {} Exception"
    [FmtInt (u16 ie_type)].
Definition pfcp_tlv_bad_length_exception (ie_type ie_length : Z) (file : string) (line : Z) : built :=
  pfcp_tlv_exception ie_type ≫= formatted
    "PFCP IE TLV {} Bad Length {} Exception {}:{}"
    [FmtInt (u16 ie_type); FmtInt (u16 ie_length); FmtStr file; FmtInt line].
Definition pfcp_ie_value_exception (ie_type : Z) (field : string) : built :=
  pfcp_ie_exception ie_type ≫= formatted
    "PFCP IE {} Bad Value of {} Exception"
    [FmtInt (u16 ie_type); FmtStr field].

(** *** GTPV2-C: 3gpp_29.274.h *)

Definition gtpc_exception_default : built :=
  Some (mk_exception 0 "GTPV2-C Exception unknown cause").
Definition gtpc_exception (acause : Z) : built :=
  formatted "GTPV2-C Exception cause {}" [FmtInt acause]
    (mk_exception acause "").
Definition gtpc_msg_bad_length_exception (msg_type msg_size : Z) : built :=
  gtpc_exception_default ≫= formatted
    "GTPV2-C msg {} Bad Length {} Exception"
    [FmtInt (u8 msg_type); FmtInt (u16 msg_size)].
Definition gtpc_msg_bad_length_exception_text (aphrase : string) : built :=
  gtpc_exception_default ≫= worded aphrase.
Definition gtpc_msg_unimplemented_ie_exception (msg_type ie_type instance : Z) : built :=
  gtpc_exception_default ≫= formatted
    "GTPV2-C msg {} Unimplemented {} IE Instance {} Exception"
    [FmtInt (u8 msg_type); FmtInt (u8 ie_type); FmtInt (u8 instance)].
Definition gtpc_msg_unimplemented_ie_exception_text (aphrase : string) : built :=
  gtpc_exception_default ≫= worded aphrase.
Definition gtpc_msg_illegal_ie_exception (msg_type ie_type : Z) (file : string) (line : Z) : built :=
  gtpc_exception_default ≫= formatted
    "GTPV2-C msg {} Illegal IE {} Exception {}:{}"
    [FmtInt (u8 msg_type); FmtInt (u8 ie_type); FmtStr file; FmtInt line].
Definition gtpc_msg_illegal_ie_exception_text (aphrase : string) : built :=
  gtpc_exception_default ≫= worded aphrase.
Definition gtpc_ie_exception (ie_type : Z) : built :=
  gtpc_exception_default ≫= formatted
    "GTPV2-C IE {} Exception"
    [FmtInt (u8 ie_type)].
Definition gtpc_ie_exception_text (aphrase : string) : built :=
  gtpc_exception_default ≫= worded aphrase.
Definition gtpc_missing_ie_exception (gtpc_msg ie_type : Z) : built :=
  gtpc_exception_default ≫= formatted
    "GTPV2-C msg {} missing IE {} Exception"
    [FmtInt (u8 gtpc_msg); FmtInt (u8 ie_type)].
Definition gtpc_missing_ie_exception_text (aphrase : string) : built :=
  gtpc_exception_default ≫= worded aphrase.
Definition gtpc_missing_named_ie_exception (gtpc_msg ie_type : string) : built :=
  gtpc_exception_default ≫= formatted
    "GTPV2-C msg {} missing IE {} Exception"
    [FmtStr gtpc_msg; FmtStr ie_type].
Definition gtpc_ie_unimplemented_exception (ie_type : Z) : built :=
  gtpc_ie_exception ie_type ≫= formatted
    "GTPV2-C IE {} Unimplemented Exception"
    [FmtInt (u8 ie_type)].
Definition gtpc_tlv_exception (ie_type : Z) : built :=
  gtpc_ie_exception ie_type ≫= formatted
    "GTPV2-C IE TLV {} Exception"
    [FmtInt (u8 ie_type)].
Definition gtpc_tlv_bad_length_exception (ie_type ie_length : Z) : built :=
  gtpc_tlv_exception ie_type ≫= formatted
    "GTPV2-C IE TLV {} Bad Length {} Exception"
    [FmtInt (u8 ie_type)].
Definition gtpc_tlv_bad_instance_exception (ie_type ie_instance : Z) : built :=
  gtpc_tlv_exception ie_type ≫= formatted
    "GTPV2-C IE TLV {} Bad Instance {} Exception"
    [FmtInt (u8 ie_type); FmtInt (u8 ie_instance)].
Definition gtpc_ie_value_exception (ie_type : Z) (field : string) : built :=
  gtpc_ie_exception ie_type ≫= formatted
    "GTPV2-C IE {} Bad Value of {} Exception"
    [FmtInt (u8 ie_type); FmtStr field].

(** *** GTPV1-U: 3gpp_29.281.h *)

Definition gtpu_exception_default : built :=
  Some (mk_exception 0 "GTPV1-U Exception unknown cause").
Definition gtpu_exception (acause : Z) : built :=
  formatted "GTPV1-U Exception cause {}" [FmtInt acause]
    (mk_exception acause "").
Definition gtpu_msg_bad_length_exception (msg_type msg_size : Z) : built :=
  gtpu_exception_default ≫= formatted
    "GTPV1-U msg {} Bad Length {} Exception"
    [FmtInt (u8 msg_type); FmtInt (u16 msg_size)].
Definition gtpu_msg_bad_length_exception_text (aphrase : string) : built :=
  gtpu_exception_default ≫= worded aphrase.
Definition gtpu_msg_unimplemented_ie_exception (msg_type ie_type instance : Z) : built :=
  gtpu_exception_default ≫= formatted
    "GTPV1-U msg {} Unimplemented {} IE Instance {} Exception"
    [FmtInt (u8 msg_type); FmtInt (u8 ie_type); FmtInt (u8 instance)].
Definition gtpu_msg_unimplemented_ie_exception_text (aphrase : string) : built :=
  gtpu_exception_default ≫= worded aphrase.
Definition gtpu_msg_illegal_ie_exception (msg_type ie_type : Z) : built :=
  gtpu_exception_default ≫= formatted
    "GTPV1-U msg {} Illegal {} Exception"
    [FmtInt (u8 msg_type); FmtInt (u8 ie_type)].
Definition gtpu_msg_illegal_ie_exception_text (aphrase : string) : built :=
  gtpu_exception_default ≫= worded aphrase.
Definition gtpu_ie_exception (ie_type : Z) : built :=
  gtpu_exception_default ≫= formatted
    "GTPV1-U IE {} Exception"
    [FmtInt (u8 ie_type)].
Definition gtpu_ie_exception_text (aphrase : string) : built :=
  gtpu_exception_default ≫= worded aphrase.
Definition gtpu_ie_unimplemented_exception (ie_type : Z) : built :=
  gtpu_ie_exception ie_type ≫= formatted
    "GTPV1-U IE {} Unimplemented Exception"
    [FmtInt (u8 ie_type)].
Definition gtpu_tlv_exception (ie_type : Z) : built :=
  gtpu_ie_exception ie_type ≫= formatted
    "GTPV1-U IE TLV {} Exception"
    [FmtInt (u8 ie_type)].
Definition gtpu_tlv_bad_length_exception (ie_type ie_length : Z) : built :=
  gtpu_tlv_exception ie_type ≫= formatted
    "GTPV1-U IE TLV {} Bad Length {} Exception"
    [FmtInt (u8 ie_type)].
Definition gtpu_ie_value_exception (ie_type : Z) (field : string) : built :=
  gtpu_ie_exception ie_type ≫= formatted
    "GTPV1-U IE {} Bad Value of {} Exception"
    [FmtInt (u8 ie_type); FmtStr field].

(** What the codec throws, at a line of a file: [msg_type] is what an element is
    illegal in (0 for one inside another), [field] the field with a wrong
    value.  The other outcomes of [pfcp_error] are no exceptions of these
    classes. *)
Definition thrown (file : string) (line msg_type : Z) (field : string) (e : pfcp_error)
    : option built :=
  match e with
  | TlvBadLength ty len => Some (pfcp_tlv_bad_length_exception ty len file line)
  | IeValue ty => Some (pfcp_ie_value_exception ty field)
  | MsgBadLength ty len ies chk => Some (pfcp_msg_bad_length_exception ty len ies chk file line)
  | IllegalIe ty => Some (pfcp_msg_illegal_ie_exception msg_type ty file line)
  | _ => None
  end.

End Constructors.

(** ** Lemmas *)

(** The pieces of a format string. *)
Fixpoint pieces (s : string) : list piece :=
  match s with
  | EmptyString => []
  | String "{"%char (String "}"%char s) => Hole :: pieces s
  | String c s => Lit c :: pieces s
  end.

Section Properties.
Context `{FormatLaws}.

Lemma format_literal s args :
  template (pieces s) = s -> forallb no_brace (pieces s) = true ->
  format s args = fill_fields (pieces s) args.
Proof. intros Hs Hb. rewrite <- Hs at 1. now apply format_template. Qed.

Lemma formatted_literal s args e :
  template (pieces s) = s -> forallb no_brace (pieces s) = true ->
  formatted s args e = mk_exception (exn_cause e) <$> fill_fields (pieces s) args.
Proof. intros Hs Hb. unfold formatted. now rewrite format_literal. Qed.

(** A constructor, evaluated: base class by base class. *)
Ltac build :=
  unfold pfcp_exception_default, gtpc_exception_default, gtpu_exception_default;
  repeat (first [progress cbn [mbind option_bind exn_cause]
                |rewrite formatted_literal by reflexivity]; cbn).

(** ** Properties *)

(** What the exceptions of the codec say. *)
Definition error_text (file : string) (line msg_type : Z) (field : string) (e : pfcp_error)
    : string :=
  let at_line := " Exception " +:+ file +:+ ":" +:+ pretty line in
  match e with
  | TlvBadLength ty len =>
      "PFCP IE TLV " +:+ pretty (u16 ty) +:+ " Bad Length " +:+ pretty (u16 len) +:+ at_line
  | IeValue ty => "PFCP IE " +:+ pretty (u16 ty) +:+ " Bad Value of " +:+ field +:+ " Exception"
  | MsgBadLength ty len ies chk =>
      "PFCP msg " +:+ pretty (u8 ty) +:+ " Bad Length hdr.length " +:+ pretty (u16 len) +:+
      "/ sum ie " +:+ pretty (u16 ies) +:+ " / check sum ie " +:+ pretty (u16 chk) +:+ at_line
  | IllegalIe ty => "PFCP msg " +:+ pretty (u8 msg_type) +:+ " Illegal IE " +:+ pretty (u16 ty) +:+ at_line
  | _ => ""
  end.

(** Every exception of the codec is made, without ending the process, and says
    its class, its numbers and the place. *)
Theorem codec_exception_says file line msg_type field e b :
  thrown file line msg_type field e = Some b ->
  exists x, b = Some x /\ exn_cause x = 0 /\ what x = error_text file line msg_type field e.
Proof.
  destruct e; cbn [thrown]; try done; intros [= <-];
    unfold pfcp_tlv_bad_length_exception, pfcp_tlv_exception, pfcp_ie_value_exception,
      pfcp_ie_exception, pfcp_msg_bad_length_exception, pfcp_msg_illegal_ie_exception; build;
    rewrite ?append_nil; eexists; (split; [reflexivity|]); (split; [reflexivity|]); cbn; now rewrite ?append_nil.
Qed.

(** The numbers of an error fit the fields they are read from. *)
Definition error_in_range (e : pfcp_error) : Prop :=
  match e with
  | TlvBadLength ty len => 0 <= ty < 2 ^ 16 /\ 0 <= len < 2 ^ 16
  | IeValue ty | IllegalIe ty => 0 <= ty < 2 ^ 16
  | MsgBadLength ty len ies chk =>
      0 <= ty < 2 ^ 8 /\ 0 <= len < 2 ^ 16 /\ 0 <= ies < 2 ^ 16 /\ 0 <= chk < 2 ^ 16
  | _ => True
  end.

(** The text of an exception determines the error: what two errors say, thrown
    at the same place, is the same only for the same error. *)
Theorem error_text_inj file line msg_type field e1 e2 :
  thrown file line msg_type field e1 <> None -> thrown file line msg_type field e2 <> None ->
  error_in_range e1 -> error_in_range e2 ->
  error_text file line msg_type field e1 = error_text file line msg_type field e2 -> e1 = e2.
Proof.
  assert (forall z, 0 <= u16 z) as P16 by (intros z; now apply Z.mod_pos_bound).
  assert (forall z, 0 <= u8 z) as P8 by (intros z; now apply Z.mod_pos_bound).
  assert (forall z, 0 <= z < 2 ^ 16 -> u16 z = z) as I16 by (intros z Hz; now apply Z.mod_small).
  assert (forall z, 0 <= z < 2 ^ 8 -> u8 z = z) as I8 by (intros z Hz; now apply Z.mod_small).
  destruct e1, e2; cbn [thrown]; try done; intros _ _ R1 R2; cbn in R1, R2;
    cbn [error_text]; rewrite ?append_cons, ?append_empty; intros Heq; injection Heq as Heq;
    cut_numbers; f_equal; rewrite ?I16, ?I8 in * by lia; try assumption.
Qed.

(** The two constructors whose format string has more fields than they give
    arguments end the process, always. *)
Theorem gtp_tlv_bad_length_terminates ty len :
  gtpc_tlv_bad_length_exception ty len = None /\ gtpu_tlv_bad_length_exception ty len = None.
Proof.
  unfold gtpc_tlv_bad_length_exception, gtpc_tlv_exception, gtpc_ie_exception,
    gtpu_tlv_bad_length_exception, gtpu_tlv_exception, gtpu_ie_exception.
  split; build; reflexivity.
Qed.

(** All the others of the two headers make their object. *)
Theorem gtp_exceptions_built ty ie inst len cause file line name :
  Forall is_Some
    [gtpc_exception_default; gtpc_exception cause; gtpc_msg_bad_length_exception ty len;
     gtpc_msg_unimplemented_ie_exception ty ie inst;
     gtpc_msg_illegal_ie_exception ty ie file line; gtpc_ie_exception ie;
     gtpc_missing_ie_exception ty ie; gtpc_missing_named_ie_exception name name;
     gtpc_ie_unimplemented_exception ie; gtpc_tlv_exception ie;
     gtpc_tlv_bad_instance_exception ie inst; gtpc_ie_value_exception ie name;
     gtpu_exception_default; gtpu_exception cause; gtpu_msg_bad_length_exception ty len;
     gtpu_msg_unimplemented_ie_exception ty ie inst; gtpu_msg_illegal_ie_exception ty ie;
     gtpu_ie_exception ie; gtpu_ie_unimplemented_exception ie; gtpu_tlv_exception ie;
     gtpu_ie_value_exception ie name].
Proof.
  unfold gtpc_exception, gtpc_msg_bad_length_exception, gtpc_msg_unimplemented_ie_exception,
    gtpc_msg_illegal_ie_exception, gtpc_missing_ie_exception, gtpc_missing_named_ie_exception,
    gtpc_ie_unimplemented_exception, gtpc_tlv_bad_instance_exception, gtpc_tlv_exception,
    gtpc_ie_value_exception, gtpc_ie_exception, gtpu_exception, gtpu_msg_bad_length_exception,
    gtpu_msg_unimplemented_ie_exception, gtpu_msg_illegal_ie_exception,
    gtpu_ie_unimplemented_exception, gtpu_tlv_exception, gtpu_ie_value_exception,
    gtpu_ie_exception.
  build. repeat constructor; eexists; reflexivity.
Qed.

End Properties.

(** ** A formatter with the laws *)

Module SampleFormat.

#[export] Instance format_fields : Format := fun s args => fill_fields (pieces s) args.

Lemma pieces_template l : forallb no_brace l = true -> pieces (template l) = l.
Proof.
  induction l as [|[c|] l IH]; cbn [forallb]; intros Hl; [done| |].
  - apply andb_true_iff in Hl as [Hc Hl]. cbn [template].
    transitivity (Lit c :: pieces (template l)); [|now rewrite IH].
    revert Hc. destruct c as [[] [] [] [] [] [] [] []]; cbn; done.
  - change (Hole :: pieces (template l) = Hole :: l). now rewrite IH.
Qed.

#[export] Instance format_fields_laws : FormatLaws.
Proof. intros l args Hl. unfold format, format_fields. now rewrite pieces_template. Qed.

End SampleFormat.

Import SampleFormat.

Example codec_exception_says_witness :
  exists x, pfcp_tlv_bad_length_exception 19 0 "a.hpp" 592 = Some x /\
    what x = "PFCP IE TLV 19 Bad Length 0 Exception a.hpp:592".
Proof.
  destruct (codec_exception_says "a.hpp" 592 0 "" (TlvBadLength 19 0) _ eq_refl) as (x & Hx & _ & Hw).
  exists x. split; [exact Hx|exact Hw].
Defined.

Example error_text_inj_witness : TlvBadLength 19 4 = TlvBadLength 19 4.
Proof.
  apply (error_text_inj "a.hpp" 592 0 "" (TlvBadLength 19 4) (TlvBadLength 19 4));
    [discriminate|discriminate|cbn; lia|cbn; lia|reflexivity].
Defined.
