(* ===== verification/Logging.v ===== *)
(** * Logging of the user plane (src/src/utils/Logger.cpp, LogDefines.h)

    Nearly every function begins with LOG_FUNC: it cuts the name out of
    __PRETTY_FUNCTION__ with std::string::find and rfind, copies it into an array, and
    logs a line at the beginning and one at the end, when the object is destroyed.
    The lines go to spdlog, of a library: the log is the list of calls made to it. *)
From Stdlib Require Import ZArith Lia List Bool Ascii String.
From stdpp Require Import base list strings pretty.
From S2P Require Import Prelude Text Exceptions UpfXdp.
Open Scope string_scope.
Open Scope Z_scope.
Open Scope upf_scope.

(** ** Searching in a std::string *)

Definition npos : Z := 2 ^ 64 - 1.

Definition str_size (s : string) : Z := Z.of_nat (String.length s).

(** [s.find(pat, pos)] *)
Definition find (pat s : string) (pos : Z) : Z :=
  if str_size s <? pos then npos
  else match String.index (Z.to_nat pos) pat s with Some n => Z.of_nat n | None => npos end.

Fixpoint last_index (c : ascii) (s : string) : option nat :=
  match s with
  | EmptyString => None
  | String d s =>
      match last_index c s with
      | Some n => Some (S n)
      | None => if Ascii.eqb c d then Some 0%nat else None
      end
  end.

(** [s.rfind(c, pos)]: the last one that does not begin behind [pos]. *)
Definition rfind (c : ascii) (s : string) (pos : Z) : Z :=
  match last_index c (substring 0 (Z.to_nat (Z.min (pos + 1) (str_size s))) s) with
  | Some n => Z.of_nat n
  | None => npos
  end.

(** A C string ends at the first NUL. *)
Fixpoint c_str (s : string) : string :=
  match s with
  | EmptyString => ""
  | String c s => if Ascii.eqb c zero then "" else String c (c_str s)
  end.

(** ** The name of the function *)

Definition MAX_METHOD_LENGTH : Z := 100.

Definition func_colon (funcName : string) : Z :=
  let colon := find "::" funcName 0 in
  let secondColon := find "::" funcName (u64 (colon + 1)) in
  if secondColon =? npos then colon
  else
    let brackets := find "(" funcName colon in
    if secondColon <? brackets then secondColon else colon.

Definition func_begin (funcName : string) : Z :=
  u64 (rfind " " funcName (func_colon funcName) + 1).

Definition func_length (funcName : string) : Z :=
  Z.min (u64 (rfind "(" funcName npos - func_begin funcName)) MAX_METHOD_LENGTH.

(** What memcpy puts into mFunctionName, in front of the NUL: [None] when it reads
    behind the characters of the string and their NUL. *)
Definition func_name (funcName : string) : option string :=
  if func_begin funcName + func_length funcName <=? str_size funcName + 1
  then Some (substring (Z.to_nat (func_begin funcName)) (Z.to_nat (func_length funcName)) funcName)
  else None.

(** ** The log *)

Inductive LOG_TYPE_T : Type :=
| LOG_FUNCTION | LOG_BEGIN | LOG_END | LOG_INF | LOG_WRN | LOG_ERROR | LOG_NEW | LOG_DELETE
| LOG_LOCK | LOG_DBG | LOG_MAX.

(** The methods of spdlog::logger. *)
Inductive severity : Type := SevDebug | SevInfo | SevWarn | SevError.

Definition log : Type := list (severity * string).

Inductive log_error : Type :=
| FormatError
| ReadOutside.

Notation logging := (M log log_error).

(** [Logger::doPrint] *)
Definition doPrint (type : LOG_TYPE_T) (out : string) : logging unit :=
  match type with
  | LOG_ERROR => modify (fun l => (l ++ [(SevError, out)])%list)
  | LOG_INF => modify (fun l => (l ++ [(SevInfo, out)])%list)
  | LOG_DBG => modify (fun l => (l ++ [(SevDebug, out)])%list)
  | LOG_WRN => modify (fun l => (l ++ [(SevWarn, out)])%list)
  | _ => ret tt
  end.

Section Logger.
Context `{Format}.
Variables processId threadId : Z.

(** fmt::format, which may throw. *)
Definition fmt_format (s : string) (args : list fmt_arg) : logging string :=
  of_option (format s args) FormatError.

(** [Logger::print]: a message or a file that is NULL is [None]. *)
Definition print (pMessage : option string) (type : LOG_TYPE_T) (pFile : option string) (line : Z)
    : logging unit :=
  let ids := [FmtInt processId; FmtInt threadId] in
  let* out :=
    match pFile, pMessage with
    | Some f, Some m =>
        fmt_format "[{}.{}] ({}:{}) {}" (ids ++ [FmtStr f; FmtInt line; FmtStr m])
    | Some f, None => fmt_format "[{}.{}] ({}:{}))" (ids ++ [FmtStr f; FmtInt line])
    | None, Some m => fmt_format "[{}.{}] {}" (ids ++ [FmtStr m])
    | None, None => fmt_format "[{}.{}] {}" ids
    end in
  doPrint type out.

(** LOG_ERROR, LOG_DBG, LOG_INF and LOG_WARN. *)
Definition LOG (type : LOG_TYPE_T) (file : string) (line : Z) (message : string)
    (args : list fmt_arg) : logging unit :=
  let* text := fmt_format message args in
  print (Some (c_str text)) type (Some file) line.

(** The constructor and the destructor of FuncLogger. *)
Definition FuncLogger (funcName : string) : logging string :=
  let* mFunctionName := of_option (func_name funcName) ReadOutside in
  let* text := fmt_format "[bgn] {}" [FmtStr (c_str mFunctionName)] in
  print (Some (c_str text)) LOG_DBG None 0 ;;;
  ret mFunctionName.

Definition FuncLogger_destroy (mFunctionName : string) : logging unit :=
  let* text := fmt_format "[end] {}" [FmtStr (c_str mFunctionName)] in
  print (Some (c_str text)) LOG_DBG None 0.

(** LOG_FUNC at the beginning of a function: the object is destroyed when the
    function returns and when it throws. *)
Definition LOG_FUNC {A : Type} (funcName : string) (body : logging A) : logging A := fun l =>
  match FuncLogger funcName l with
  | (Ok name, l1) =>
      let '(r, l2) := body l1 in
      let '(d, l3) := FuncLogger_destroy name l2 in
      (match d with Ok _ => r | Err e => Err e end, l3)
  | (Err e, l1) => (Err e, l1)
  end.

End Logger.

(** ** The key of a session as text (src/src/SessionProgramManager.cpp) *)

(** [operator<<]: an unsigned char is written as a character, and the address comes
    behind a comma operator. *)
Definition key_text (v : next_rule_prog_index_key) : string :=
  "teid: " +:+ pretty (teid v) +:+ " source_interface: " +:+
  String (ascii_of_N (Z.to_N (source_value v))) "ip: ".

(** ** Lemmas on texts *)

Fixpoint has (c : ascii) (s : string) : bool :=
  match s with EmptyString => false | String d s => Ascii.eqb c d || has c s end.

Lemma has_append c s t : has c (s +:+ t) = has c s || has c t.
Proof.
  induction s as [|d s IH]; [done|]. rewrite append_cons. cbn [has].
  now rewrite IH, orb_assoc.
Qed.

Lemma length_append s t : String.length (s +:+ t) = (String.length s + String.length t)%nat.
Proof. induction s as [|c s IH]; [done|]. rewrite append_cons. cbn. now rewrite IH. Qed.

Lemma append_assoc s t u : (s +:+ t) +:+ u = s +:+ (t +:+ u).
Proof. induction s as [|c s IH]; [done|]. now rewrite !append_cons, IH. Qed.

Lemma index_string n pat c s :
  String.index (S n) pat (String c s) = S <$> String.index n pat s.
Proof. cbn [String.index]. now destruct (String.index n pat s). Qed.

(** A search that begins behind a prefix. *)
Lemma index_behind a n pat s :
  String.index (String.length a + n) pat (a +:+ s) =
    (fun m => (String.length a + m)%nat) <$> String.index n pat s.
Proof.
  induction a as [|c a IH]; [rewrite append_empty; cbn; now destruct (String.index n pat s)|].
  rewrite append_cons. cbn [String.length Nat.add]. rewrite index_string, IH.
  now destruct (String.index n pat s).
Qed.

Lemma index_behind_0 a pat s :
  String.index (String.length a) pat (a +:+ s) =
    (fun m => (String.length a + m)%nat) <$> String.index 0 pat s.
Proof. rewrite <- index_behind. now rewrite Nat.add_0_r. Qed.

(** Nothing is found in a prefix without the first character. *)
Lemma index_skip a c pat s :
  has c a = false ->
  String.index 0 (String c pat) (a +:+ s) =
    (fun m => (String.length a + m)%nat) <$> String.index 0 (String c pat) s.
Proof.
  induction a as [|d a IH]; intros Ha;
    [rewrite append_empty; now destruct (String.index 0 _ s)|].
  cbn [has] in Ha. apply orb_false_iff in Ha as [Hd Ha]. rewrite append_cons.
  apply Ascii.eqb_neq in Hd. cbn [String.index String.prefix].
  destruct (ascii_dec c d) as [|_]; [done|]. rewrite (IH Ha).
  now destruct (String.index 0 _ s).
Qed.

Lemma last_index_append c s t :
  last_index c (s +:+ t) =
    match last_index c t with
    | Some n => Some (String.length s + n)%nat
    | None => last_index c s
    end.
Proof.
  induction s as [|d s IH]; [rewrite append_empty; now destruct (last_index c t)|].
  rewrite append_cons. cbn [last_index]. rewrite IH. now destruct (last_index c t).
Qed.

Lemma last_index_none c s : has c s = false -> last_index c s = None.
Proof.
  induction s as [|d s IH]; [done|]. cbn [has last_index]. intros Hs.
  apply orb_false_iff in Hs as [Hd Hs]. now rewrite (IH Hs), Hd.
Qed.

Lemma substring_prefix s t n :
  substring 0 (String.length s + n) (s +:+ t) = s +:+ substring 0 n t.
Proof.
  induction s as [|c s IH]; [now rewrite !append_empty|]. rewrite !append_cons. cbn. now rewrite IH.
Qed.

Lemma substring_behind s t n m :
  substring (String.length s + n) m (s +:+ t) = substring n m t.
Proof. induction s as [|c s IH]; [done|]. rewrite append_cons. exact IH. Qed.

Lemma substring_0 s : substring 0 0 s = "".
Proof. now destruct s. Qed.

(** The beginning of a text, of at most [n] characters. *)
Definition take_str (n : nat) (s : string) : string := substring 0 n s.

Lemma take_str_append n s t :
  (n <= String.length s)%nat -> take_str n (s +:+ t) = take_str n s.
Proof.
  unfold take_str. revert n. induction s as [|c s IH]; intros n Hn; cbn in Hn.
  - assert (n = 0)%nat as -> by lia. now rewrite !substring_0.
  - rewrite append_cons. destruct n as [|n]; [now rewrite !substring_0|]. cbn.
    rewrite IH by lia. done.
Qed.

Lemma take_str_all n s : (String.length s <= n)%nat -> take_str n s = s.
Proof.
  unfold take_str. revert n. induction s as [|c s IH]; intros n Hn; cbn in Hn; [now destruct n|].
  destruct n as [|n]; [lia|]. cbn. now rewrite IH by lia.
Qed.

Lemma find_found pat s k n :
  (k <= String.length s)%nat -> String.index k pat s = Some n ->
  find pat s (Z.of_nat k) = Z.of_nat n.
Proof.
  intros Hk Hn. unfold find, str_size.
  rewrite (proj2 (Z.ltb_ge _ _)) by lia. now rewrite Nat2Z.id, Hn.
Qed.

Lemma index_self c t : String.index 0 (String c "") (String c t) = Some 0%nat.
Proof. cbn. destruct (ascii_dec c c); [|done]. now destruct t. Qed.

Lemma index_colons x : String.index 0 "::" ("::" +:+ x) = Some 0%nat.
Proof. change ("::" +:+ x) with (String ":" (String ":" x)). cbn. now destruct x. Qed.

(** Behind one colon, in front of a word without one. *)
Lemma index_colon y t :
  has ":" y = false -> y <> "" ->
  String.index 0 "::" (String ":" (y +:+ t)) =
    (fun n => S (String.length y + n)) <$> String.index 0 "::" t.
Proof.
  intros Hy Hn. transitivity (S <$> String.index 0 "::" (y +:+ t)).
  - destruct y as [|c y]; [done|]. cbn [has] in Hy. apply orb_false_iff in Hy as [Hc _].
    apply Ascii.eqb_neq in Hc. rewrite append_cons. cbn [String.index String.prefix].
    destruct (ascii_dec ":" ":") as [_|]; [|done].
    destruct (ascii_dec ":" c) as [|_]; [done|]. done.
  - rewrite index_skip by done. now destruct (String.index 0 "::" t).
Qed.

(** ** The name of a member function *)

(** What stands in front of the name: nothing, or words, without parentheses and
    with at most one pair of colons. *)
Record result_type (r : string) : Prop := {
  rt_space : r = "" \/ exists w, r = w +:+ " ";
  rt_paren : has "(" r = false;
  rt_colons : has ":" r = false \/
    exists r1 r2, r = r1 +:+ "::" +:+ r2 /\ has ":" r1 = false /\ has ":" r2 = false /\ r2 <> ""
}.

(** A class and a method. *)
Definition word (w : string) : Prop :=
  has ":" w = false /\ has "(" w = false /\ has " " w = false /\ has zero w = false.

Section Member.
Variables r cls m args : string.
Let f := r +:+ cls +:+ "::" +:+ m +:+ "(" +:+ args.
Hypothesis Hr : result_type r.
Hypothesis Hcls : word cls.
Hypothesis Hm : word m.
Hypothesis Hargs : has "(" args = false.
Hypothesis Hsize : str_size f < npos.

Let k := (String.length r + String.length cls)%nat.
Let t := "::" +:+ m +:+ "(" +:+ args.

Lemma f_split : f = (r +:+ cls) +:+ t.
Proof. unfold f, t. now rewrite append_assoc. Qed.

Lemma k_split : String.length (r +:+ cls) = k.
Proof. unfold k. apply length_append. Qed.

Lemma f_length : String.length f = (k + 3 + String.length m + String.length args)%nat.
Proof. rewrite f_split, length_append, k_split. unfold t. rewrite !length_append. cbn. lia. Qed.

Lemma brackets_in_t : String.index 0 "(" t = Some (2 + String.length m)%nat.
Proof.
  destruct Hm as (_ & Hp & _).
  transitivity (String.index 0 "(" (("::" +:+ m) +:+ String "(" args)).
  - unfold t. now rewrite append_assoc.
  - rewrite index_skip by exact Hp. rewrite index_self. cbn. now rewrite Nat.add_0_r.
Qed.

Lemma func_colon_member : func_colon f = Z.of_nat k.
Proof.
  pose proof f_length as Hl. pose proof brackets_in_t as Hb.
  destruct Hcls as (Hc1 & Hc2 & _), Hm as (Hm1 & _).
  unfold func_colon. destruct (rt_colons _ Hr) as [Hn|(r1 & r2 & Er & H1 & H2 & Hne)].
  - assert (find "::" f 0 = Z.of_nat k) as ->.
    { apply (find_found _ _ 0); [lia|]. rewrite f_split, index_skip, k_split
        by now rewrite has_append, Hn, Hc1. unfold t. rewrite index_colons. cbn.
      now rewrite Nat.add_0_r. }
    assert (find "(" f (Z.of_nat k) = Z.of_nat (k + (2 + String.length m))) as ->.
    { apply find_found; [lia|]. rewrite f_split, <- k_split, index_behind_0.
      now rewrite Hb. }
    assert (u64 (Z.of_nat k + 1) = Z.of_nat (k + 1)) as ->
      by (unfold u64, str_size, npos in *; rewrite Z.mod_small; lia).
    destruct (String.index (k + 1) "::" f) as [n|] eqn:Hi.
    + rewrite (find_found _ _ _ n) by (done || lia).
      destruct (_ =? _); [done|]. rewrite (proj2 (Z.ltb_ge _ _)); [done|].
      revert Hi. rewrite f_split, <- k_split.
      assert ((r +:+ cls) +:+ t = ((r +:+ cls) +:+ ":") +:+ (String ":" ((m +:+ "(") +:+ args))) as ->
        by (unfold t; now rewrite !append_assoc).
      replace (String.length (r +:+ cls) + 1)%nat with (String.length ((r +:+ cls) +:+ ":"))
        by (rewrite length_append; cbn; lia).
      rewrite index_behind_0, index_colon; [|now rewrite has_append, Hm1|now destruct m].
      destruct (String.index 0 "::" args); [|done]. intros [= <-].
      rewrite !length_append. cbn. lia.
    + unfold find. rewrite Nat2Z.id, Hi. destruct (_ <? _); reflexivity.
  - assert (find "::" f 0 = Z.of_nat (String.length r1)) as ->.
    { apply (find_found _ _ 0); [lia|]. rewrite f_split, Er, !append_assoc.
      rewrite index_skip, index_colons by done. cbn. now rewrite Nat.add_0_r. }
    assert (k = String.length r1 + 2 + String.length r2 + String.length cls)%nat as Hk
      by (unfold k; rewrite Er, !length_append; cbn; lia).
    assert (u64 (Z.of_nat (String.length r1) + 1) = Z.of_nat (String.length r1 + 1)) as ->
      by (unfold u64, str_size, npos in *; rewrite Z.mod_small; lia).
    rewrite (find_found _ _ _ k).
    + rewrite (proj2 (Z.eqb_neq _ _)) by (unfold str_size in Hsize; lia).
      rewrite (find_found _ _ _ (k + (2 + String.length m))); [now rewrite (proj2 (Z.ltb_lt _ _)) by lia|lia|].
      assert (f = r1 +:+ ("::" +:+ r2 +:+ cls) +:+ t) as ->
        by (rewrite f_split, Er; now rewrite !append_assoc).
      rewrite index_behind_0, index_skip, Hb; [cbn; rewrite ?length_append; cbn; f_equal; lia|].
      rewrite !has_append, Hc2, orb_false_r. pose proof (rt_paren _ Hr) as Hp.
      rewrite Er, !has_append in Hp. now apply orb_false_iff in Hp as [_ Hp].
    + lia.
    + assert (f = (r1 +:+ ":") +:+ String ":" ((r2 +:+ cls) +:+ t)) as ->
        by (rewrite f_split, Er; now rewrite !append_assoc).
      replace (String.length r1 + 1)%nat with (String.length (r1 +:+ ":"))
        by (rewrite length_append; cbn; lia).
      rewrite index_behind_0, index_colon; [|now rewrite has_append, H2, Hc1|now destruct r2].
      unfold t. rewrite index_colons. cbn. rewrite !length_append. cbn. f_equal. lia.
Qed.

Lemma func_begin_member : func_begin f = Z.of_nat (String.length r).
Proof.
  pose proof f_length as Hl. unfold func_begin. rewrite func_colon_member. unfold rfind.
  replace (Z.to_nat (Z.min (Z.of_nat k + 1) (str_size f))) with (String.length (r +:+ cls) + 1)%nat
    by (unfold str_size; rewrite k_split; lia).
  rewrite f_split, substring_prefix.
  replace (substring 0 1 t) with ":" by reflexivity. rewrite append_assoc.
  destruct Hcls as (_ & _ & Hs & _). rewrite last_index_append, last_index_none
    by now rewrite has_append, Hs.
  destruct (rt_space _ Hr) as [Er|[w Er]]; rewrite Er; [reflexivity|].
  rewrite last_index_append. cbn. rewrite length_append. cbn. unfold u64, str_size, npos in *.
  assert (String.length r = String.length w + 1)%nat by (rewrite Er, length_append; cbn; lia).
  rewrite Z.mod_small; unfold k in *; lia.
Qed.

Lemma func_length_member :
  func_length f = Z.min (Z.of_nat (String.length (cls +:+ "::" +:+ m))) MAX_METHOD_LENGTH.
Proof.
  pose proof f_length as Hl. unfold func_length. rewrite func_begin_member. f_equal. unfold rfind.
  replace (Z.to_nat (Z.min (npos + 1) (str_size f))) with (String.length f + 0)%nat
    by (unfold str_size in *; lia).
  rewrite <- (append_nil f) at 2. rewrite substring_prefix, substring_0, append_nil.
  assert (f = (r +:+ cls +:+ "::" +:+ m) +:+ String "(" args) as ->
    by (unfold f; now rewrite !append_assoc).
  rewrite last_index_append.
  replace (last_index "(" (String "(" args)) with (Some 0%nat)
    by (cbn; now rewrite (last_index_none _ _ Hargs)).
  rewrite !length_append. cbn. unfold u64, str_size, npos, k in *.
  rewrite Z.mod_small; lia.
Qed.

(** The copy stays inside the text, and has the class and the method. *)
Lemma func_name_member : func_name f = Some (take_str 100 (cls +:+ "::" +:+ m)).
Proof.
  pose proof f_length as Hl. unfold func_name. rewrite func_begin_member, func_length_member.
  set (name := cls +:+ "::" +:+ m).
  assert (String.length name = String.length cls + 2 + String.length m)%nat as Hn
    by (unfold name; rewrite !length_append; cbn; lia).
  rewrite (proj2 (Z.leb_le _ _)) by (unfold str_size, MAX_METHOD_LENGTH, k in *; lia).
  f_equal. rewrite Nat2Z.id.
  assert (f = r +:+ name +:+ String "(" args) as -> by (unfold f, name; now rewrite !append_assoc).
  rewrite <- (Nat.add_0_r (String.length r)), substring_behind.
  change (take_str (Z.to_nat (Z.min (Z.of_nat (String.length name)) MAX_METHOD_LENGTH))
    (name +:+ String "(" args) = take_str 100 name).
  rewrite take_str_append by lia. unfold MAX_METHOD_LENGTH.
  destruct (le_lt_dec (String.length name) 100).
  - now rewrite !take_str_all by lia.
  - f_equal. lia.
Qed.

End Member.

(** A function outside of classes: the name is taken to begin behind the last space,
    which two parameters put behind the parenthesis, the length wraps around, and a
    hundred characters are copied from there. *)
Section Free.
Variables pre a b : string.
Let f := pre +:+ "(" +:+ a +:+ " " +:+ b.
Hypothesis no_colon : has ":" f = false.
Hypothesis no_paren : has "(" (a +:+ " " +:+ b) = false.
Hypothesis no_space : has " " b = false.
Hypothesis f_size : str_size f < npos - 100.

Lemma find_nothing pos : find "::" f pos = npos.
Proof.
  unfold find. destruct (_ <? _); [done|].
  assert (forall n s, has ":" s = false -> String.index n "::" s = None) as ->; [|done..].
  intros n s. revert n. induction s as [|c s IH]; intros n Hs; [now destruct n|].
  cbn [has] in Hs. apply orb_false_iff in Hs as [Hc Hs]. apply Ascii.eqb_neq in Hc.
  destruct n as [|n]; cbn [String.index String.prefix];
    [destruct (ascii_dec ":" c); [done|]|]; now rewrite (IH _ Hs).
Qed.

Lemma free_begin : func_begin f = str_size f - Z.of_nat (String.length b).
Proof.
  unfold func_begin, func_colon. rewrite !find_nothing. change (npos =? npos) with true. cbv iota.
  unfold rfind.
  replace (Z.to_nat (Z.min (npos + 1) (str_size f))) with (String.length f + 0)%nat
    by (unfold str_size in *; lia).
  rewrite <- (append_nil f) at 2. rewrite substring_prefix, substring_0, append_nil.
  assert (f = (pre +:+ "(" +:+ a) +:+ String " " b) as -> by (unfold f; now rewrite !append_assoc).
  rewrite last_index_append.
  replace (last_index " " (String " " b)) with (Some 0%nat)
    by (cbn; now rewrite (last_index_none _ _ no_space)).
  revert f_size. unfold str_size. rewrite !length_append. cbn. intros Hs.
  unfold u64, npos in *. rewrite Z.mod_small; lia.
Qed.

Lemma free_length : func_length f = MAX_METHOD_LENGTH.
Proof.
  unfold func_length. rewrite free_begin. unfold rfind.
  replace (Z.to_nat (Z.min (npos + 1) (str_size f))) with (String.length f + 0)%nat
    by (unfold str_size in *; lia).
  rewrite <- (append_nil f) at 2. rewrite substring_prefix, substring_0, append_nil.
  assert (f = pre +:+ String "(" (a +:+ " " +:+ b)) as -> by reflexivity.
  rewrite last_index_append.
  replace (last_index "(" (String "(" (a +:+ " " +:+ b))) with (Some 0%nat)
    by (cbn; now rewrite (last_index_none _ _ no_paren)).
  revert f_size. unfold str_size. repeat (rewrite !length_append; cbn). intros Hs.
  unfold u64, npos, MAX_METHOD_LENGTH in *.
  match goal with |- Z.min (?x mod _) _ = _ => rewrite <- (Z.mod_unique x (2 ^ 64) (-1) (x + 2 ^ 64)) end;
    lia.
Qed.

Lemma func_name_free :
  func_name f = None <-> Z.of_nat (String.length b) < 99.
Proof.
  unfold func_name. rewrite free_begin, free_length. unfold MAX_METHOD_LENGTH.
  destruct (Z.leb_spec (str_size f - Z.of_nat (String.length b) + 100) (str_size f + 1));
    split; (done || lia).
Qed.

End Free.

(** ** Properties *)

Section Says.
Context `{FormatLaws}.
Variables processId threadId : Z.

Lemma fmt_format_fields l args s x :
  template (pieces s) = s -> forallb no_brace (pieces s) = true ->
  fill_fields (pieces s) args = Some x -> fmt_format s args l = (Ok x, l).
Proof. intros Hs Hb Hx. unfold fmt_format. now rewrite format_literal, Hx. Qed.

(** A line of the log. *)
Definition log_line (text : string) : string :=
  "[" +:+ pretty processId +:+ "." +:+ pretty threadId +:+ "] " +:+ text.

Lemma print_says m l :
  print processId threadId (Some m) LOG_DBG None 0 l = (Ok tt, (l ++ [(SevDebug, log_line m)])%list).
Proof.
  unfold print.
  rewrite (bind_ok _ _ _ _ _ (fmt_format_fields l [FmtInt processId; FmtInt threadId; FmtStr m]
    "[{}.{}] {}" (log_line (m +:+ "")) eq_refl eq_refl eq_refl)).
  now rewrite append_nil.
Qed.

Lemma c_str_clean s : has zero s = false -> c_str s = s.
Proof.
  induction s as [|c s IH]; [done|]. cbn [has c_str]. intros Hs.
  apply orb_false_iff in Hs as [Hc Hs]. rewrite Ascii.eqb_sym in Hc. now rewrite Hc, IH.
Qed.

Lemma c_str_cut s t : has zero s = false -> c_str (s +:+ String zero t) = s.
Proof.
  induction s as [|c s IH]; [done|]. rewrite append_cons. cbn [has c_str]. intros Hs.
  apply orb_false_iff in Hs as [Hc Hs]. rewrite Ascii.eqb_sym in Hc. now rewrite Hc, IH.
Qed.

Lemma digits_not_nul s : all_digits s = true -> has zero s = false.
Proof.
  induction s as [|c s IH]; [done|]. cbn [all_digits has]. intros Hs.
  apply andb_true_iff in Hs as [Hc Hs]. rewrite (IH Hs), orb_false_r.
  destruct (Ascii.eqb_spec zero c) as [<-|]; [discriminate Hc|done].
Qed.

Lemma has_take c n s : has c s = false -> has c (take_str n s) = false.
Proof.
  unfold take_str. revert n. induction s as [|d s IH]; intros n Hs; [now destruct n|].
  destruct n as [|n]; [done|]. cbn [has substring] in *. apply orb_false_iff in Hs as [Hd Hs].
  now rewrite Hd, IH.
Qed.

(** The line of one end of a function. *)
Lemma end_says word name l :
  template (pieces (word +:+ "{}")) = word +:+ "{}" ->
  forallb no_brace (pieces (word +:+ "{}")) = true ->
  fill_fields (pieces (word +:+ "{}")) [FmtStr (c_str name)] = Some (word +:+ (c_str name +:+ "")) ->
  has zero word = false -> has zero name = false ->
  (let* text := fmt_format (word +:+ "{}") [FmtStr (c_str name)] in
   print processId threadId (Some (c_str text)) LOG_DBG None 0) l =
    (Ok tt, (l ++ [(SevDebug, log_line (word +:+ name))])%list).
Proof.
  intros H1 H2 H3 Hw Hn. rewrite (bind_ok _ _ _ _ _ (fmt_format_fields l _ _ _ H1 H2 H3)).
  rewrite append_nil, (c_str_clean name) by done. rewrite c_str_clean; [apply print_says|].
  now rewrite has_append, Hw, Hn.
Qed.

(** LOG_FUNC in a member function writes one line with the name of the class and of
    the method, of at most a hundred characters, before anything else, and one like
    it after everything, whether the body returns or throws; and it hands on what
    the body did. *)
Theorem LOG_FUNC_says {A} r cls m args (body : logging A) l x l' :
  let f := r +:+ cls +:+ "::" +:+ m +:+ "(" +:+ args in
  let name := take_str 100 (cls +:+ "::" +:+ m) in
  result_type r -> word cls -> word m -> has "(" args = false -> str_size f < npos ->
  body (l ++ [(SevDebug, log_line ("[bgn] " +:+ name))])%list = (x, l') ->
  LOG_FUNC processId threadId f body l =
    (x, (l' ++ [(SevDebug, log_line ("[end] " +:+ name))])%list).
Proof.
  intros f name Hr Hc Hm Ha Hs Hb.
  assert (has zero name = false) as Hz.
  { apply has_take. rewrite !has_append. destruct Hc as (_ & _ & _ & ->), Hm as (_ & _ & _ & ->).
    reflexivity. }
  unfold LOG_FUNC, FuncLogger. unfold f. rewrite func_name_member by done. fold name.
  pose proof (fun word k H1 H2 H3 H4 => end_says word name k H1 H2 H3 H4 Hz) as He.
  rewrite (bind_ok (of_option (Some name) ReadOutside) _ l name l eq_refl).
  pose proof (He "[bgn] " l eq_refl eq_refl eq_refl eq_refl) as Hbgn.
  unfold bind at 1 in Hbgn. unfold bind at 1.
  change ("[bgn] " +:+ "{}") with "[bgn] {}" in Hbgn.
  destruct (fmt_format "[bgn] {}" [FmtStr (c_str name)] l) as [[text|e] l1]; [|discriminate Hbgn].
  rewrite (bind_ok _ _ _ _ _ Hbgn). cbn [ret]. unfold ret. rewrite Hb.
  unfold FuncLogger_destroy.
  pose proof (He "[end] " l' eq_refl eq_refl eq_refl eq_refl) as Hend.
  change ("[end] " +:+ "{}") with "[end] {}" in Hend. now rewrite Hend.
Qed.

(** LOG_FUNC in a function outside of classes whose last parameter has less than 99
    characters behind the last space copies characters from behind the text. *)
Theorem LOG_FUNC_free_outside {A} pre a b (body : logging A) l :
  let f := pre +:+ "(" +:+ a +:+ " " +:+ b in
  has ":" f = false -> has "(" (a +:+ " " +:+ b) = false -> has " " b = false ->
  str_size f < npos - 100 -> Z.of_nat (String.length b) < 99 ->
  LOG_FUNC processId threadId f body l = (Err ReadOutside, l).
Proof.
  intros f Hc Hp Hb Hs Hl. unfold LOG_FUNC, FuncLogger, f.
  now rewrite (proj2 (func_name_free pre a b Hc Hp Hb Hs)).
Qed.

(** A message that is NULL, without a file, has one field more than arguments. *)
Theorem print_nothing_throws type line l :
  print processId threadId None type None line l = (Err FormatError, l).
Proof.
  unfold print, fmt_format. rewrite (format_literal "[{}.{}] {}") by reflexivity. reflexivity.
Qed.

Lemma print_file_says m type file line l :
  print processId threadId (Some m) type (Some file) line l =
  doPrint type ("[" +:+ pretty processId +:+ "." +:+ pretty threadId +:+ "] (" +:+ file +:+ ":" +:+
    pretty line +:+ ") " +:+ m) l.
Proof.
  unfold print.
  rewrite (bind_ok _ _ _ _ _ (fmt_format_fields l
    [FmtInt processId; FmtInt threadId; FmtStr file; FmtInt line; FmtStr m] "[{}.{}] ({}:{}) {}"
    ("[" +:+ pretty processId +:+ "." +:+ pretty threadId +:+ "] (" +:+ file +:+ ":" +:+
      pretty line +:+ ") " +:+ (m +:+ "")) eq_refl eq_refl eq_refl)).
  now rewrite append_nil.
Qed.

(** What BPFMap::update logs about the key of an uplink session (ACCESS is 0, and
    the number is written as a character) ends behind the TEID: the address and the
    name of the map are not in the line. *)
Theorem uplink_key_line file line v name l :
  source_value v = 0 -> 0 <= teid v ->
  LOG processId threadId LOG_DBG file line "The key {} was updated at {} map!"
    [FmtStr (key_text v); FmtStr name] l =
  (Ok tt, (l ++ [(SevDebug, "[" +:+ pretty processId +:+ "." +:+ pretty threadId +:+ "] (" +:+ file +:+
     ":" +:+ pretty line +:+ ") The key teid: " +:+ pretty (teid v) +:+ " source_interface: ")])%list).
Proof.
  intros Hv Ht. unfold LOG.
  rewrite (bind_ok _ _ _ _ _ (fmt_format_fields l [FmtStr (key_text v); FmtStr name]
    "The key {} was updated at {} map!"
    ("The key " +:+ (key_text v +:+ " was updated at " +:+ (name +:+ " map!"))) eq_refl eq_refl
    eq_refl)).
  rewrite print_file_says. unfold key_text. rewrite Hv.
  assert ("The key " +:+ (("teid: " +:+ pretty (teid v) +:+ " source_interface: " +:+
    String (ascii_of_N (Z.to_N 0)) "ip: ") +:+ " was updated at " +:+ (name +:+ " map!")) =
    ("The key teid: " +:+ pretty (teid v) +:+ " source_interface: ") +:+
      String zero ("ip: " +:+ " was updated at " +:+ (name +:+ " map!"))) as ->
    by now rewrite !append_assoc.
  rewrite c_str_cut; [reflexivity|]. rewrite !has_append.
  now rewrite (digits_not_nul _ (proj1 (pretty_digits _ Ht))).
Qed.

End Says.

(** ** Examples *)

Module SampleLogging.
Import SampleFormat.

Definition pretty_create_session : string :=
  "void SessionManager::createBPFSession(std::shared_ptr<pfcp::pfcp_session>)".
Definition pretty_get_far : string := "std::shared_ptr<FARProgram> SessionPrograms::getFARProgram() const".
Definition pretty_main_function : string := "int main(int, char**)".

(** The return type counts, when it has two pairs of colons. *)
Definition pretty_create_pdr : string :=
  "std::shared_ptr<pfcp::create_pdr> InformationElementFactory::createOaiPDR(u16, u32)".

Lemma member_names :
  func_name pretty_create_session = Some "SessionManager::createBPFSession" /\
  func_name pretty_get_far = Some "SessionPrograms::getFARProgram" /\
  func_name pretty_create_pdr =
    Some "std::shared_ptr<pfcp::create_pdr> InformationElementFactory::createOaiPDR" /\
  func_name pretty_main_function = None.
Proof. repeat split. Qed.

Example LOG_FUNC_says_witness :
  LOG_FUNC 7 8 pretty_get_far (ret 5) [] =
    (Ok 5, [(SevDebug, "[7.8] [bgn] SessionPrograms::getFARProgram");
            (SevDebug, "[7.8] [end] SessionPrograms::getFARProgram")]).
Proof.
  assert (result_type "std::shared_ptr<FARProgram> ") as Hr.
  { split; [right; now exists "std::shared_ptr<FARProgram>"|reflexivity|].
    right. exists "std", "shared_ptr<FARProgram> ". now repeat split. }
  exact (LOG_FUNC_says 7 8 _ "SessionPrograms" "getFARProgram" ") const" (ret 5) [] (Ok 5)
    [(SevDebug, "[7.8] [bgn] SessionPrograms::getFARProgram")] Hr
    ltac:(now repeat split) ltac:(now repeat split) eq_refl eq_refl eq_refl).
Defined.

Example LOG_FUNC_free_outside_witness :
  LOG_FUNC 7 8 pretty_main_function (ret tt) [] = (Err ReadOutside, []).
Proof. now apply (LOG_FUNC_free_outside 7 8 "int main" "int," "char**)"). Defined.

Example uplink_key_line_witness :
  snd (LOG 7 8 LOG_DBG "BPFMap.hpp" 99 "The key {} was updated at {} map!"
         [FmtStr (key_text (mk_key 100 0 16843009)); FmtStr "m_next_rule_prog_index"] []) =
    [(SevDebug, "[7.8] (BPFMap.hpp:99) The key teid: 100 source_interface: ")].
Proof. now rewrite (uplink_key_line 7 8). Defined.

End SampleLogging.
