(* ===== verification/OaiLogger.v ===== *)
(** * The logger of the protocol code (src/src/oai/common/logger.cpp, logger.hpp)

    One object, made at its first use, holds a logger for each part of the code; they
    exist only after [init].  What a method does depends on three macros of the build:
    a method whose macro is off has an empty body.  The lines go to spdlog, of a
    library: the log is the list of calls made to it. *)
From Stdlib Require Import ZArith Lia List Bool Ascii String.
From stdpp Require Import base list strings.
From S2P Require Import Prelude Text Logging.
Open Scope string_scope.
Open Scope Z_scope.
Open Scope upf_scope.

(** ** Data *)

Record build : Type := mk_build {
  TRACE_IS_ON : bool;
  DEBUG_IS_ON : bool;
  INFO_IS_ON : bool
}.

(** spdlog::level *)
Inductive level : Type := trace | debug | info | warn | err | critical.

Definition level_number (l : level) : Z :=
  match l with trace => 0 | debug => 1 | info => 2 | warn => 3 | err => 4 | critical => 5 end.

Inductive _LogType : Type := _ltTrace | _ltDebug | _ltInfo | _ltStartup | _ltWarn | _ltError.

(** The members of Logger. *)
Inductive member : Type :=
| m_async_cmd | m_enb_s1u | m_gtpv1_u | m_gtpv2_c | m_itti | m_mme_s11 | m_pgwc_app | m_pgwc_s5s8
| m_pgwc_sx | m_sgwc_app | m_sgwc_s11 | m_sgwc_s5s8 | m_sgwc_sx | m_spgwu_app | m_spgwu_s1u
| m_spgwu_sx | m_system | m_udp | m_pfcp | m_pfcp_switch.

Record _Logger : Type := mk__Logger {
  category : string;
  log_level : level;
  log_sinks : list nat
}.

(** A sink of the standard output or of a file, with its level. *)
Inductive sink : Type :=
| Stdout (lv : level)
| RotatingFile (filename : string) (lv : level).

Record Logger : Type := mk_Logger {
  m_sinks : list sink;
  pointer : member -> option _Logger
}.

(** The object, when it was made, and the calls made to spdlog: the category, the
    method and the text. *)
Record log_state : Type := mk_log_state {
  m_singleton : option Logger;
  calls : list (string * level * string)
}.

(** A pointer that was never written. *)
Inductive log_fault : Type := Uninitialised (m : member).

Notation logging := (M log_state log_fault).

(** ** Operations *)

Section Build.
Variable b : build.

Definition llevel : level :=
  if TRACE_IS_ON b then trace else if DEBUG_IS_ON b then debug else if INFO_IS_ON b then info
  else warn.

(** The constructor of _Logger. *)
Definition new_Logger (cat : string) (sinks : list sink) : _Logger :=
  mk__Logger cat llevel (seq 0 (length sinks)).

(** The constructor of Logger initialises nothing. *)
Definition singleton : logging Logger := fun s =>
  match m_singleton s with
  | Some lg => (Ok lg, s)
  | None =>
      let lg := mk_Logger [] (fun _ => None) in (Ok lg, mk_log_state (Some lg) (calls s))
  end.

Definition set_level (lv : level) (k : sink) : sink :=
  match k with Stdout _ => Stdout lv | RotatingFile f _ => RotatingFile f lv end.

(** A sink is pushed at the end, and the level is set of the sink at [num_sinks]. *)
Definition push_sink (k : sink) (x : list sink * nat) : list sink * nat :=
  let '(sinks, num_sinks) := x in
  (alter (set_level llevel) num_sinks (sinks ++ [k])%list, S num_sinks).

Definition init_sinks (app : string) (log_stdout log_rot_file : bool) (sinks : list sink)
    : list sink :=
  let x := (sinks, 0%nat) in
  let x := if log_stdout then push_sink (Stdout trace) x else x in
  let x := if log_rot_file then push_sink (RotatingFile ("./" +:+ app +:+ ".log") trace) x else x in
  fst x.

Definition category_of (m : member) : string :=
  match m with
  | m_async_cmd => "async_c  "
  | m_enb_s1u => "enb_s1u  "
  | m_gtpv1_u => "gtpv1_u  "
  | m_gtpv2_c => "gtpv2_c  "
  | m_itti => "itti     "
  | m_mme_s11 => "mme_s11  "
  | m_pgwc_app => "pgwc_app "
  | m_pgwc_s5s8 => "pgwc_s5  "
  | m_pgwc_sx => "pgwc_sx  "
  | m_sgwc_app => "sgwc_app "
  | m_sgwc_s11 => "sgwc_s11 "
  | m_sgwc_s5s8 => "sgwc_s5  "
  | m_sgwc_sx => "sgwc_sx  "
  | m_spgwu_app => "spgwu_app"
  | m_spgwu_s1u => "spgwu_s1u"
  | m_spgwu_sx => "spgwu_sx "
  | m_system => "system   "
  | m_udp => "udp      "
  | m_pfcp => "pfcp     "
  | m_pfcp_switch => "pfcp_sw  "
  end.

(** [Logger::init]; [pattern] of the loggers, which is only passed on, is left out. *)
Definition init (app : string) (log_stdout log_rot_file : bool) : logging unit :=
  let* lg := singleton in
  let sinks := init_sinks app log_stdout log_rot_file (m_sinks lg) in
  modify (fun s => mk_log_state
    (Some (mk_Logger sinks (fun m => Some (new_Logger (category_of m) sinks)))) (calls s)).

(** The method of spdlog::logger for a type. *)
Definition spdlog_method (lt : _LogType) : level :=
  match lt with
  | _ltTrace => trace
  | _ltDebug => debug
  | _ltInfo => info
  | _ltStartup => warn
  | _ltWarn => err
  | _ltError => critical
  end.

(** [_Logger::log] of the text that vsnprintf makes: 2047 characters fit. *)
Definition do_log (m : member) (lt : _LogType) (p : option _Logger) (text : string)
    : logging unit :=
  match p with
  | Some lg =>
      modify (fun s => mk_log_state (m_singleton s)
        (calls s ++ [(category lg, spdlog_method lt, take_str 2047 text)])%list)
  | None => raise (Uninitialised m)
  end.

(** [Logger::m().trace(...)] and the others: an empty body does not use the pointer. *)
Definition method (lt : _LogType) (m : member) (text : string) : logging unit :=
  let* lg := singleton in
  match lt with
  | _ltTrace => if TRACE_IS_ON b then do_log m lt (pointer lg m) text else ret tt
  | _ltDebug => if DEBUG_IS_ON b then do_log m lt (pointer lg m) text else ret tt
  | _ltInfo => if INFO_IS_ON b then do_log m lt (pointer lg m) text else ret tt
  | _ => do_log m lt (pointer lg m) text
  end.

(** ** Properties *)

Definition compiled (lt : _LogType) : bool :=
  match lt with
  | _ltTrace => TRACE_IS_ON b
  | _ltDebug => DEBUG_IS_ON b
  | _ltInfo => INFO_IS_ON b
  | _ => true
  end.

(** A line that is compiled in is never below the level of its logger. *)
Theorem compiled_not_filtered lt cat sinks :
  compiled lt = true ->
  level_number (log_level (new_Logger cat sinks)) <= level_number (spdlog_method lt).
Proof.
  cbn. unfold llevel. destruct lt; cbn [compiled spdlog_method]; intros Hc; rewrite ?Hc;
    repeat case_match; cbn; lia.
Qed.

(** A method: nothing when it is compiled out; a call of spdlog after [init]; and
    the use of a pointer that was never written before it. *)
Theorem method_outcome lt m text s :
  match m_singleton s with
  | Some lg =>
      method lt m text s =
        if compiled lt then
          match pointer lg m with
          | Some lg' =>
              (Ok tt, mk_log_state (Some lg)
                 (calls s ++ [(category lg', spdlog_method lt, take_str 2047 text)])%list)
          | None => (Err (Uninitialised m), s)
          end
        else (Ok tt, s)
  | None =>
      fst (method lt m text s) = if compiled lt then Err (Uninitialised m) else Ok tt
  end.
Proof.
  destruct s as [[lg|] c]; cbn; unfold method, singleton, bind; cbn.
  - destruct lt; cbn; repeat case_match; unfold do_log; try case_match; reflexivity.
  - destruct lt; cbn; repeat case_match; reflexivity.
Qed.

(** After [init] every member can be used. *)
Theorem init_then_method app o f lt m text s :
  compiled lt = true ->
  exists s1 s2, init app o f s = (Ok tt, s1) /\ method lt m text s1 = (Ok tt, s2) /\
    calls s2 = (calls s ++ [(category_of m, spdlog_method lt, take_str 2047 text)])%list.
Proof.
  intros Hc. unfold init, singleton.
  destruct s as [[lg|] c]; cbn [m_singleton calls]; (eexists; eexists; split; [reflexivity|]);
    match goal with |- context [method _ _ _ ?s1] => pose proof (method_outcome lt m text s1) as Hm end;
    cbn [m_singleton] in Hm; rewrite Hc in Hm; (split; [exact Hm|reflexivity]).
Qed.

(** The first [init] sets the level of every sink; one more sets the levels of the
    first sinks again, and its own stay at trace. *)
Theorem init_sinks_levels app o f app' o' f' :
  let lv k := match k with Stdout l | RotatingFile _ l => l end in
  let first := init_sinks app o f [] in
  map lv first = repeat llevel (length first) /\
  (o = true -> f = true ->
   map lv (init_sinks app' o' f' first) =
     (map lv first ++ repeat trace (length (init_sinks app' o' f' [])))%list).
Proof.
  split; [destruct o, f; reflexivity|]. intros -> ->. destruct o', f'; reflexivity.
Qed.

End Build.

(** The calls of pfcp_session.cpp and pfcp_pdr.cpp, which are of trace and info,
    write nothing and use no pointer in a build that defines none of the macros,
    although nothing calls [init]. *)
Theorem session_calls_silent lt m text s :
  lt = _ltTrace \/ lt = _ltInfo ->
  exists s', method (mk_build false false false) lt m text s = (Ok tt, s') /\ calls s' = calls s.
Proof.
  intros Hl. destruct s as [[lg|] c]; destruct Hl as [-> | ->]; eexists; (split; [reflexivity|reflexivity]).
Qed.

Example session_calls_silent_witness :
  exists s', method (mk_build false false false) _ltInfo m_spgwu_sx "pfcp_session::add(far) seid 1 "
    (mk_log_state None []) = (Ok tt, s') /\ calls s' = [].
Proof. apply (session_calls_silent _ltInfo). now right. Defined.
