(* ===== verification/PfcpIes.v ===== *)
(** * Information elements of PFCP (src/src/oai/pfcp/3gpp_29.244.hpp)

    Each class [pfcp_x_ie] of the source is an instance of [PfcpIe] for its
    core type [x_t]: [ie_length] and [ie_value] are what the constructor from
    the core type followed by [dump_to] write (the length of the TLV and the
    bytes behind it), [ie_check] is the exception they throw, and [ie_load] is
    the constructor from a TLV of that length, [load_from] and [to_core_type].
    Members that a constructor does not initialise hold [uninit]. *)
From Stdlib Require Import ZArith Lia List Bool Ascii String.
From stdpp Require Import base list pretty.
From S2P Require Import Prelude PfcpStream PfcpTypes.
Open Scope Z_scope.
Open Scope upf_scope.

Class PfcpIe (T : Type) : Type := {
  ie_type : Z;
  ie_check : T -> option pfcp_error;
  ie_length : T -> Z;
  ie_value : Z -> T -> list Z;
  ie_load : Z -> Z -> stream T
}.

(** What the elements promise to the messages: a well-formed value is written
    in as many bytes as its length says, and is read back, up to the members
    that are not written ([ie_norm]); reading always makes progress. *)
Class PfcpIeLaws (T : Type) `{PfcpIe T} : Type := {
  ie_wf : T -> Prop;
  ie_norm : Z -> T -> T;
  ie_wf_check v : ie_wf v -> ie_check v = None;
  ie_wf_length uninit v :
    ie_wf v -> ie_length v = Z.of_nat (length (ie_value uninit v)) /\ 0 < ie_length v < 65536;
  ie_load_value u1 u2 v rest :
    ie_wf v ->
    ie_load u1 (ie_length v) (of_bytes (ie_value u2 v ++ rest)) =
      (Ok (ie_norm u1 v), of_bytes rest);
  ie_load_shrinks uninit len : shrinks (ie_load uninit len)
}.

Definition no_check {T : Type} (v : T) : option pfcp_error := None.

(** ** Integers in network order *)

Section Fixed.
Context {T : Type} (ty : Z) (n : nat) (get : T -> Z) (mk : Z -> T) (init : option Z).

(** [init]: the value after construction from a TLV, when there is one. *)
Definition fixed_ie : PfcpIe T := {|
  ie_type := ty;
  ie_check := no_check;
  ie_length _ := Z.of_nat n;
  ie_value _ v := be_enc n (get v);
  ie_load uninit len :=
    guard (len =? Z.of_nat n) (TlvBadLength ty len) ;;;
    let* x := read_be n (match init with Some i => i | None => uninit end) in
    ret (mk x)
|}.

Hypothesis n_range : (0 < n <= 8)%nat.
Hypothesis mk_get : forall v, mk (get v) = v.

Definition fixed_ie_laws : @PfcpIeLaws T fixed_ie.
Proof.
  refine (@Build_PfcpIeLaws T fixed_ie (fun v => 0 <= get v < 256 ^ Z.of_nat n)
            (fun _ v => v) _ _ _ _); cbn.
  - done.
  - intros _ v _. rewrite length_be_enc. lia.
  - intros u1 _ v rest Hv. rewrite Z.eqb_refl, guard_true, bind_ret_l.
    rewrite (bind_ok _ _ _ _ _ (read_be_enc n _ (get v) rest Hv)).
    unfold ret. now rewrite mk_get.
  - intros. auto with shrinks.
Defined.

End Fixed.

#[export] Instance cause_ie : PfcpIe cause_t :=
  fixed_ie 19 1 cause_cause_value mk_cause_t (Some 0).
#[export] Instance source_interface_ie : PfcpIe source_interface_t :=
  fixed_ie 20 1 source_interface_interface_value mk_source_interface_t (Some 255).
#[export] Instance precedence_ie : PfcpIe precedence_t :=
  fixed_ie 29 4 precedence mk_precedence_t (Some 0).
#[export] Instance offending_ie_ie : PfcpIe offending_ie_t :=
  fixed_ie 40 2 offending_ie mk_offending_ie_t (Some 0).
#[export] Instance destination_interface_ie : PfcpIe destination_interface_t :=
  fixed_ie 42 1 destination_interface_interface_value mk_destination_interface_t (Some 255).
#[export] Instance pdr_id_ie : PfcpIe pdr_id_t :=
  fixed_ie 56 2 pdr_id_rule_id mk_pdr_id_t (Some 0).
#[export] Instance bar_id_ie : PfcpIe bar_id_t :=
  fixed_ie 88 1 bar_id mk_bar_id_t (Some 0).
#[export] Instance outer_header_removal_ie : PfcpIe outer_header_removal_t :=
  fixed_ie 95 1 outer_header_removal_outer_header_removal_description mk_outer_header_removal_t (None).
#[export] Instance recovery_time_stamp_ie : PfcpIe recovery_time_stamp_t :=
  fixed_ie 96 4 recovery_time_stamp mk_recovery_time_stamp_t (Some 0).
#[export] Instance far_id_ie : PfcpIe far_id_t :=
  fixed_ie 108 4 far_id mk_far_id_t (None).
#[export] Instance qer_id_ie : PfcpIe qer_id_t :=
  fixed_ie 109 4 qer_id mk_qer_id_t (None).
#[export] Instance user_plane_inactivity_timer_ie : PfcpIe user_plane_inactivity_timer_t :=
  fixed_ie 117 4 user_plane_inactivity_timer mk_user_plane_inactivity_timer_t (None).

#[export] Instance cause_ie_laws : PfcpIeLaws cause_t.
Proof. apply fixed_ie_laws; [lia|now intros []]. Defined.
#[export] Instance source_interface_ie_laws : PfcpIeLaws source_interface_t.
Proof. apply fixed_ie_laws; [lia|now intros []]. Defined.
#[export] Instance precedence_ie_laws : PfcpIeLaws precedence_t.
Proof. apply fixed_ie_laws; [lia|now intros []]. Defined.
#[export] Instance offending_ie_ie_laws : PfcpIeLaws offending_ie_t.
Proof. apply fixed_ie_laws; [lia|now intros []]. Defined.
#[export] Instance destination_interface_ie_laws : PfcpIeLaws destination_interface_t.
Proof. apply fixed_ie_laws; [lia|now intros []]. Defined.
#[export] Instance pdr_id_ie_laws : PfcpIeLaws pdr_id_t.
Proof. apply fixed_ie_laws; [lia|now intros []]. Defined.
#[export] Instance bar_id_ie_laws : PfcpIeLaws bar_id_t.
Proof. apply fixed_ie_laws; [lia|now intros []]. Defined.
#[export] Instance outer_header_removal_ie_laws : PfcpIeLaws outer_header_removal_t.
Proof. apply fixed_ie_laws; [lia|now intros []]. Defined.
#[export] Instance recovery_time_stamp_ie_laws : PfcpIeLaws recovery_time_stamp_t.
Proof. apply fixed_ie_laws; [lia|now intros []]. Defined.
#[export] Instance far_id_ie_laws : PfcpIeLaws far_id_t.
Proof. apply fixed_ie_laws; [lia|now intros []]. Defined.
#[export] Instance qer_id_ie_laws : PfcpIeLaws qer_id_t.
Proof. apply fixed_ie_laws; [lia|now intros []]. Defined.
#[export] Instance user_plane_inactivity_timer_ie_laws : PfcpIeLaws user_plane_inactivity_timer_t.
Proof. apply fixed_ie_laws; [lia|now intros []]. Defined.

(** ** Names: the whole value is a string *)

Section Name.
Context {T : Type} (ty : Z) (get : T -> list Z) (mk : list Z -> T) (not_empty : bool).

(** [not_empty]: [load_from] refuses the length 0. *)
Definition name_ie : PfcpIe T := {|
  ie_type := ty;
  ie_check := no_check;
  ie_length v := u16 (Z.of_nat (length (get v)));
  ie_value _ v := get v;
  ie_load uninit len :=
    guard (negb (not_empty && (len =? 0))) (TlvBadLength ty len) ;;;
    let* e := read_string uninit (Z.to_nat len) in
    ret (mk e)
|}.

Hypothesis mk_get : forall v, mk (get v) = v.

Definition name_ie_laws : @PfcpIeLaws T name_ie.
Proof.
  refine (@Build_PfcpIeLaws T name_ie (fun v => 0 < Z.of_nat (length (get v)) < 65536)
            (fun _ v => v) _ _ _ _); cbn.
  - done.
  - intros _ v Hv. rewrite u16_id by lia. lia.
  - intros u1 _ v rest Hv. rewrite u16_id, (proj2 (Z.eqb_neq _ _)) by lia.
    rewrite andb_false_r, guard_true, bind_ret_l.
    rewrite (bind_ok _ _ _ _ _ (read_string_app _ _ _ _ (eq_sym (Nat2Z.id _)))).
    unfold ret. now rewrite mk_get.
  - intros. auto with shrinks.
Defined.

End Name.

#[export] Instance network_instance_ie : PfcpIe network_instance_t :=
  name_ie 22 network_instance mk_network_instance_t false.
#[export] Instance application_id_ie : PfcpIe application_id_t :=
  name_ie 24 application_id mk_application_id_t false.
#[export] Instance activate_predefined_rules_ie : PfcpIe activate_predefined_rules_t :=
  name_ie 106 activate_predefined_rules_predefined_rules_name mk_activate_predefined_rules_t true.
#[export] Instance deactivate_predefined_rules_ie : PfcpIe deactivate_predefined_rules_t :=
  name_ie 107 deactivate_predefined_rules_predefined_rules_name mk_deactivate_predefined_rules_t
    true.

#[export] Instance network_instance_ie_laws : PfcpIeLaws network_instance_t.
Proof. apply name_ie_laws. now intros []. Defined.
#[export] Instance application_id_ie_laws : PfcpIeLaws application_id_t.
Proof. apply name_ie_laws. now intros []. Defined.
#[export] Instance activate_predefined_rules_ie_laws : PfcpIeLaws activate_predefined_rules_t.
Proof. apply name_ie_laws. now intros []. Defined.
#[export] Instance deactivate_predefined_rules_ie_laws : PfcpIeLaws deactivate_predefined_rules_t.
Proof. apply name_ie_laws. now intros []. Defined.

(** ** Elements made of bit fields *)

Definition bit (b : Z) (i : nat) : bool := Z.testbit b (Z.of_nat i).

Lemma bit_byte_of l i : bit (byte_of l) i = nth i l false.
Proof. apply testbit_byte_of. Qed.

Definition zeros16 : list Z := repeat 0 16.
Definition ipv4_ok (a : Z) : Prop := 0 <= a < 2 ^ 32.
Definition ipv6_ok (a : list Z) : Prop := length a = 16%nat.

(** IE F_TEID.  The constructor sets [v4] and [v6] only without [ch], and the
    choose identifier only with [ch]; [dump_to] writes the latter for [chid]
    alone, without counting it. *)
#[export] Instance fteid_ie : PfcpIe fteid_t := {|
  ie_type := 21;
  ie_check := no_check;
  ie_length v :=
    if fteid_ch v then (if fteid_chid v then 2 else 1)
    else 5 + (if fteid_v4 v then 4 else 0) + (if fteid_v6 v then 16 else 0);
  ie_value uninit v :=
    let v4 := negb (fteid_ch v) && fteid_v4 v in
    let v6 := negb (fteid_ch v) && fteid_v6 v in
    [byte_of [v4; v6; fteid_ch v; fteid_chid v]] ++
    bytes_if (negb (fteid_ch v)) (be_enc 4 (fteid_teid v)) ++
    bytes_if v4 (le_enc 4 (fteid_ipv4_address v)) ++
    bytes_if v6 (fteid_ipv6_address v) ++
    bytes_if (fteid_chid v) [if fteid_ch v then fteid_choose_id v else u8 uninit];
  ie_load uninit len :=
    let* b := read_byte 0 in
    let v4 := bit b 0 in let v6 := bit b 1 in
    let ch := bit b 2 in let chid := bit b 3 in
    guard (len =? (if ch then (if chid then 2 else 1)
                   else 5 + (if v4 then 4 else 0) + (if v6 then 16 else 0)))
      (TlvBadLength 21 len) ;;;
    let* teid := when (negb ch) (read_be 4 0) 0 in
    let* ipv4 := when (negb ch && v4) (read_ipv4 0) 0 in
    let* ipv6 := when (negb ch && v6) (read_ipv6 zeros16) zeros16 in
    let* choose_id := when (ch && chid) (read_byte 0) 0 in
    ret (mk_fteid_t chid ch v4 v6 teid ipv4 ipv6 choose_id)
|}.

(** IE F_SEID *)
#[export] Instance f_seid_ie : PfcpIe fseid_t := {|
  ie_type := 57;
  ie_check := no_check;
  ie_length v := 9 + (if fseid_v4 v then 4 else 0) + (if fseid_v6 v then 16 else 0);
  ie_value _ v :=
    [byte_of [fseid_v6 v; fseid_v4 v]] ++
    be_enc 8 (fseid_seid v) ++
    bytes_if (fseid_v4 v) (le_enc 4 (fseid_ipv4_address v)) ++
    bytes_if (fseid_v6 v) (fseid_ipv6_address v);
  ie_load uninit len :=
    let* b := read_byte (u8 uninit) in
    let v6 := bit b 0 in let v4 := bit b 1 in
    guard (len =? 9 + (if v4 then 4 else 0) + (if v6 then 16 else 0)) (TlvBadLength 57 len) ;;;
    let* seid := read_be 8 uninit in
    let* ipv4 := when v4 (read_ipv4 uninit) 0 in
    let* ipv6 := when v6 (read_ipv6 (repeat (u8 uninit) 16)) zeros16 in
    ret (mk_fseid_t 0 v4 v6 seid ipv4 ipv6)
|}.

(** IE UE_IP_ADDRESS.  The constructor sets [ipv6d] only with [v6], and
    [to_core_type] copies it only then. *)
#[export] Instance ue_ip_address_ie : PfcpIe ue_ip_address_t := {|
  ie_type := 93;
  ie_check := no_check;
  ie_length v :=
    1 + (if ue_ip_address_v4 v then 4 else 0) +
    (if ue_ip_address_v6 v then 16 + (if ue_ip_address_ipv6d v then 1 else 0) else 0);
  ie_value _ v :=
    let ipv6d := ue_ip_address_v6 v && ue_ip_address_ipv6d v in
    [byte_of [ue_ip_address_v6 v; ue_ip_address_v4 v; ue_ip_address_sd v; ipv6d]] ++
    bytes_if (ue_ip_address_v4 v) (le_enc 4 (ue_ip_address_ipv4_address v)) ++
    bytes_if (ue_ip_address_v6 v) (ue_ip_address_ipv6_address v) ++
    bytes_if ipv6d [ue_ip_address_ipv6_prefix_delegation_bits v];
  ie_load uninit len :=
    let* b := read_byte (u8 uninit) in
    let v6 := bit b 0 in let v4 := bit b 1 in let sd := bit b 2 in let ipv6d := bit b 3 in
    guard (len =? 1 + (if v4 then 4 else 0) +
                  (if v6 then 16 + (if ipv6d then 1 else 0) else 0)) (TlvBadLength 93 len) ;;;
    let* ipv4 := when v4 (read_ipv4 uninit) 0 in
    let* ipv6 := when v6 (read_ipv6 (repeat (u8 uninit) 16)) zeros16 in
    let* bits := when (v6 && ipv6d) (read_byte (u8 uninit)) 0 in
    ret (mk_ue_ip_address_t (v6 && ipv6d) sd v4 v6 ipv4 ipv6 bits)
|}.

(** IE APPLY_ACTION *)
#[export] Instance apply_action_ie : PfcpIe apply_action_t := {|
  ie_type := 44;
  ie_check := no_check;
  ie_length _ := 1;
  ie_value _ v :=
    [byte_of [apply_action_drop v; apply_action_forw v; apply_action_buff v;
              apply_action_nocp v; apply_action_dupl v]];
  ie_load uninit len :=
    guard (len =? 1) (TlvBadLength 44 len) ;;;
    let* b := read_byte 0 in
    ret (mk_apply_action_t 0 (bit b 4) (bit b 3) (bit b 2) (bit b 1) (bit b 0))
|}.

(** IE GATE_STATUS: two fields of two bits *)
#[export] Instance gate_status_ie : PfcpIe gate_status_t := {|
  ie_type := 25;
  ie_check := no_check;
  ie_length _ := 1;
  ie_value _ v := [gate_status_dl_gate v mod 4 + 4 * (gate_status_ul_gate v mod 4)];
  ie_load uninit len :=
    guard (len =? 1) (TlvBadLength 25 len) ;;;
    let* b := read_byte (u8 uninit) in
    ret (mk_gate_status_t (b / 4 mod 4) (b mod 4))
|}.

(** IE QFI: a field of six bits *)
#[export] Instance qfi_ie : PfcpIe qfi_t := {|
  ie_type := 124;
  ie_check := no_check;
  ie_length _ := 1;
  ie_value _ v := [qfi v mod 64];
  ie_load uninit len :=
    guard (len =? 1) (TlvBadLength 124 len) ;;;
    let* b := read_byte (u8 uninit) in
    ret (mk_qfi_t 0 (b mod 64))
|}.

(** One step of a proof that what was written is read back. *)
Ltac read_step :=
  first
  [ rewrite guard_true, bind_ret_l
  | rewrite bind_ret_l
  | erewrite bind_ok by (first
      [ apply read_byte_enc; first [assumption | apply byte_of_bound; cbn; lia | lia]
      | apply read_be_enc; first [assumption | lia | cbn; lia]
      | apply read_ipv4_enc; assumption
      | apply read_ipv6_app; first [assumption | now rewrite repeat_length]
      | apply read_string_app; lia
      | apply read_when; intros ?; first
          [ apply read_byte_enc; assumption
          | apply read_be_enc; first [assumption | lia | cbn; lia]
          | apply read_ipv4_enc; assumption
          | apply read_ipv6_app; first [assumption | now rewrite repeat_length]
          | apply read_string_app; auto ] ]) ];
  cbv beta.

Ltac ie_laws :=
  cbv beta iota zeta delta [ie_length ie_value ie_load fteid_ie f_seid_ie ue_ip_address_ie
    apply_action_ie gate_status_ie qfi_ie];
  rewrite <- ?app_assoc.

Definition fteid_wf (v : fteid_t) : Prop :=
  0 <= fteid_teid v < 256 ^ Z.of_nat 4 /\ ipv4_ok (fteid_ipv4_address v) /\
  ipv6_ok (fteid_ipv6_address v) /\ 0 <= fteid_choose_id v < 256 /\
  (fteid_chid v = true -> fteid_ch v = true).

(** What is left of an F-TEID on the wire. *)
Definition fteid_norm (v : fteid_t) : fteid_t :=
  let ch := fteid_ch v in
  let v4 := negb ch && fteid_v4 v in
  let v6 := negb ch && fteid_v6 v in
  mk_fteid_t (fteid_chid v) ch v4 v6 (if negb ch then fteid_teid v else 0)
    (if v4 then fteid_ipv4_address v else 0) (if v6 then fteid_ipv6_address v else zeros16)
    (if fteid_chid v then fteid_choose_id v else 0).

#[export] Instance fteid_ie_laws : PfcpIeLaws fteid_t.
Proof.
  refine (@Build_PfcpIeLaws fteid_t _ fteid_wf (fun _ => fteid_norm) _ _ _ _); [done|..].
  - intros u [chid ch v4 v6 teid a4 a6 cid] (H1 & H2 & H3 & H4 & H5). cbn in *.
    unfold ipv6_ok in H3. destruct ch, chid, v4, v6; cbn;
      first [discriminate (H5 eq_refl) | rewrite ?length_app, ?H3; cbn; lia].
  - intros u1 u2 [chid ch v4 v6 teid a4 a6 cid] rest (H1 & H2 & H3 & H4 & H5).
    unfold fteid_norm; ie_laws; cbn [fteid_chid fteid_ch fteid_v4 fteid_v6 fteid_teid fteid_ipv4_address
       fteid_ipv6_address fteid_choose_id] in *.
    assert (Hc : ch && chid = chid) by (destruct ch, chid; try done; now specialize (H5 eq_refl)).
    read_step. rewrite !bit_byte_of. cbn [nth]. rewrite Hc.
    replace (_ =? _) with true 
      by (destruct ch, chid, v4, v6; first [done | discriminate (H5 eq_refl)]).
    rewrite !(andb_assoc (negb ch) (negb ch)), !andb_diag.
    replace (bytes_if chid [_]) with (bytes_if chid [cid])
      by (destruct ch, chid; first [done | discriminate (H5 eq_refl)]).
    now repeat read_step.
  - intros. cbn. auto 20 with shrinks.
Defined.

Definition f_seid_wf (v : fseid_t) : Prop :=
  0 <= fseid_seid v < 256 ^ Z.of_nat 8 /\ ipv4_ok (fseid_ipv4_address v) /\
  ipv6_ok (fseid_ipv6_address v).

Definition f_seid_norm (v : fseid_t) : fseid_t :=
  mk_fseid_t 0 (fseid_v4 v) (fseid_v6 v) (fseid_seid v)
    (if fseid_v4 v then fseid_ipv4_address v else 0)
    (if fseid_v6 v then fseid_ipv6_address v else zeros16).

#[export] Instance f_seid_ie_laws : PfcpIeLaws fseid_t.
Proof.
  refine (@Build_PfcpIeLaws fseid_t _ f_seid_wf (fun _ => f_seid_norm) _ _ _ _); [done|..].
  - intros u [sp v4 v6 seid a4 a6] (H1 & H2 & H3). cbn in *.
    unfold ipv6_ok in H3. destruct v4, v6; cbn; rewrite ?length_app, ?H3; cbn; lia.
  - intros u1 u2 [sp v4 v6 seid a4 a6] rest (H1 & H2 & H3).
    unfold f_seid_norm; ie_laws; cbn [fseid_v4 fseid_v6 fseid_seid fseid_ipv4_address
       fseid_ipv6_address] in *.
    read_step. rewrite !bit_byte_of. cbn [nth]. rewrite Z.eqb_refl.
    now repeat read_step.
  - intros. cbn. auto 20 with shrinks.
Defined.

Definition ue_ip_address_wf (v : ue_ip_address_t) : Prop :=
  ipv4_ok (ue_ip_address_ipv4_address v) /\ ipv6_ok (ue_ip_address_ipv6_address v) /\
  0 <= ue_ip_address_ipv6_prefix_delegation_bits v < 256.

Definition ue_ip_address_norm (v : ue_ip_address_t) : ue_ip_address_t :=
  let ipv6d := ue_ip_address_v6 v && ue_ip_address_ipv6d v in
  mk_ue_ip_address_t ipv6d (ue_ip_address_sd v) (ue_ip_address_v4 v) (ue_ip_address_v6 v)
    (if ue_ip_address_v4 v then ue_ip_address_ipv4_address v else 0)
    (if ue_ip_address_v6 v then ue_ip_address_ipv6_address v else zeros16)
    (if ipv6d then ue_ip_address_ipv6_prefix_delegation_bits v else 0).

#[export] Instance ue_ip_address_ie_laws : PfcpIeLaws ue_ip_address_t.
Proof.
  refine (@Build_PfcpIeLaws ue_ip_address_t _ ue_ip_address_wf (fun _ => ue_ip_address_norm)
            _ _ _ _); [done|..].
  - intros u [d sd v4 v6 a4 a6 bits] (H1 & H2 & H3). cbn in *.
    unfold ipv6_ok in H2. destruct v4, v6, d; cbn; rewrite ?length_app, ?H2; cbn; lia.
  - intros u1 u2 [d sd v4 v6 a4 a6 bits] rest (H1 & H2 & H3).
    unfold ue_ip_address_norm; ie_laws; cbn [ue_ip_address_ipv6d ue_ip_address_sd
      ue_ip_address_v4 ue_ip_address_v6 ue_ip_address_ipv4_address ue_ip_address_ipv6_address
      ue_ip_address_ipv6_prefix_delegation_bits] in *.
    read_step. rewrite !bit_byte_of. cbn [nth].
    rewrite !(andb_assoc v6 v6), !andb_diag.
    replace (_ =? _) with true by (now destruct v4, v6, d).
    now repeat read_step.
  - intros. cbn. auto 20 with shrinks.
Defined.

#[export] Instance apply_action_ie_laws : PfcpIeLaws apply_action_t.
Proof.
  refine (@Build_PfcpIeLaws apply_action_t _ (fun _ => True)
            (fun _ v => mk_apply_action_t 0 (apply_action_dupl v) (apply_action_nocp v)
                          (apply_action_buff v) (apply_action_forw v) (apply_action_drop v))
            _ _ _ _); [done|done|..].
  - intros u1 u2 v rest _. ie_laws. read_step. read_step. now rewrite !bit_byte_of.
  - intros. cbn. auto 20 with shrinks.
Defined.

#[export] Instance gate_status_ie_laws : PfcpIeLaws gate_status_t.
Proof.
  refine (@Build_PfcpIeLaws gate_status_t _
            (fun v => 0 <= gate_status_ul_gate v < 4 /\ 0 <= gate_status_dl_gate v < 4)
            (fun _ v => v) _ _ _ _); [done|done|..].
  - intros u1 u2 [ul dl] rest (H1 & H2). cbn in H1, H2. ie_laws. cbn [gate_status_ul_gate
      gate_status_dl_gate]. rewrite !Z.mod_small by lia. read_step. read_step.
    unfold ret. do 3 f_equal.
    + rewrite (Z.mul_comm 4), Z.div_add, Z.div_small by lia. apply Z.mod_small. lia.
    + rewrite (Z.mul_comm 4), Z.mod_add by lia. apply Z.mod_small. lia.
  - intros. cbn. auto 20 with shrinks.
Defined.

#[export] Instance qfi_ie_laws : PfcpIeLaws qfi_t.
Proof.
  refine (@Build_PfcpIeLaws qfi_t _ (fun v => 0 <= qfi v < 64)
            (fun _ v => mk_qfi_t 0 (qfi v)) _ _ _ _); [done|done|..].
  - intros u1 u2 [sp q] rest H. cbn in H. ie_laws. cbn [qfi].
    rewrite Z.mod_small by lia. read_step. read_step. unfold ret. now rewrite Z.mod_small.
  - intros. cbn. auto 20 with shrinks.
Defined.

(** ** Elements with several integers or strings *)

(** Bit rates: five bytes each, in network order *)
Section Rates.
Context {T : Type} (ty : Z) (ul dl : T -> Z) (mk : Z -> Z -> T).

Definition rates_ie : PfcpIe T := {|
  ie_type := ty;
  ie_check := no_check;
  ie_length _ := 10;
  ie_value _ v := be_enc 5 (ul v) ++ be_enc 5 (dl v);
  ie_load uninit len :=
    guard (len =? 10) (TlvBadLength ty len) ;;;
    let* u := read_be 5 0 in
    let* d := read_be 5 0 in
    ret (mk u d)
|}.

Hypothesis mk_get : forall v, mk (ul v) (dl v) = v.

Definition rates_ie_laws : @PfcpIeLaws T rates_ie.
Proof.
  refine (@Build_PfcpIeLaws T rates_ie
            (fun v => 0 <= ul v < 256 ^ Z.of_nat 5 /\ 0 <= dl v < 256 ^ Z.of_nat 5)
            (fun _ v => v) _ _ _ _); [done|done|..].
  - intros u1 u2 v rest (H1 & H2). cbv beta iota zeta delta [ie_length ie_value ie_load rates_ie].
    rewrite <- app_assoc. repeat read_step. unfold ret. now rewrite mk_get.
  - intros. cbn. auto 20 with shrinks.
Defined.

End Rates.

#[export] Instance mbr_ie : PfcpIe mbr_t := rates_ie 26 mbr_ul_mbr mbr_dl_mbr mk_mbr_t.
#[export] Instance gbr_ie : PfcpIe gbr_t := rates_ie 27 gbr_ul_gbr gbr_dl_gbr mk_gbr_t.
#[export] Instance mbr_ie_laws : PfcpIeLaws mbr_t.
Proof. apply rates_ie_laws. now intros []. Defined.
#[export] Instance gbr_ie_laws : PfcpIeLaws gbr_t.
Proof. apply rates_ie_laws. now intros []. Defined.

(** IE QER_CORRELATION_ID is written in four bytes; [load_from] demands one. *)
#[export] Instance qer_correlation_id_ie : PfcpIe qer_correlation_id_t := {|
  ie_type := 28;
  ie_check := no_check;
  ie_length _ := 4;
  ie_value _ v := be_enc 4 (qer_correlation_id v);
  ie_load uninit len :=
    guard (len =? 1) (TlvBadLength 28 len) ;;;
    let* x := read_be 4 0 in
    ret (mk_qer_correlation_id_t x)
|}.

(** No value of this element is read back: none is well-formed. *)
#[export] Instance qer_correlation_id_ie_laws : PfcpIeLaws qer_correlation_id_t.
Proof.
  refine (@Build_PfcpIeLaws qer_correlation_id_t _ (fun _ => False) (fun _ v => v) _ _ _ _);
    [done..|].
  intros. cbn. auto 20 with shrinks.
Defined.

(** IE URR_ID is written in the order of the host and read in network order. *)
#[export] Instance urr_id_ie : PfcpIe urr_id_t := {|
  ie_type := 81;
  ie_check := no_check;
  ie_length _ := 4;
  ie_value _ v := le_enc 4 (urr_id v);
  ie_load uninit len :=
    guard (len =? 4) (TlvBadLength 81 len) ;;;
    let* x := read_be 4 uninit in
    ret (mk_urr_id_t x)
|}.

(** The bytes of the identifier are swapped on the way. *)
#[export] Instance urr_id_ie_laws : PfcpIeLaws urr_id_t.
Proof.
  refine (@Build_PfcpIeLaws urr_id_t _ (fun v => 0 <= urr_id v < 2 ^ 32)
            (fun _ v => mk_urr_id_t (htonl (urr_id v))) _ _ _ _); [done|done|..].
  - intros u1 u2 [v] rest H. cbv beta iota zeta delta [ie_length ie_value ie_load urr_id_ie urr_id].
    rewrite Z.eqb_refl, guard_true, bind_ret_l.
    rewrite <- (htonl_involutive v) at 1 by exact H. rewrite le_enc_htonl.
    pose proof (bytes_htonl_range v). now read_step.
  - intros. cbn. auto 20 with shrinks.
Defined.

(** IE TRANSPORT_LEVEL_MARKING.  [dump_to] refuses a length other than 2. *)
#[export] Instance transport_level_marking_ie : PfcpIe transport_level_marking_t := {|
  ie_type := 30;
  ie_check v :=
    let l := u16 (Z.of_nat (length (transport_level_marking v))) in
    if l =? 2 then None else Some (TlvBadLength 30 l);
  ie_length v := u16 (Z.of_nat (length (transport_level_marking v)));
  ie_value _ v := transport_level_marking v;
  ie_load uninit len :=
    guard (len =? 2) (TlvBadLength 30 len) ;;;
    let* e := read_string uninit 2 in
    ret (mk_transport_level_marking_t e)
|}.

#[export] Instance transport_level_marking_ie_laws : PfcpIeLaws transport_level_marking_t.
Proof.
  refine (@Build_PfcpIeLaws transport_level_marking_t _
            (fun v => length (transport_level_marking v) = 2%nat) (fun _ v => v) _ _ _ _);
    cbv beta iota zeta delta [ie_check ie_length ie_value ie_load transport_level_marking_ie].
  - intros v Hv. now rewrite Hv.
  - intros u v Hv. rewrite Hv. change (u16 (Z.of_nat 2)) with 2. lia.
  - intros u1 u2 [v] rest H. rewrite H. change (u16 _ =? 2) with true. read_step.
    rewrite (bind_ok _ _ _ _ _ (read_string_app u1 2 _ rest H)). done.
  - intros. cbn. auto 20 with shrinks.
Defined.

(** IE FORWARDING_POLICY *)
#[export] Instance forwarding_policy_ie : PfcpIe forwarding_policy_t := {|
  ie_type := 41;
  ie_check := no_check;
  ie_length v := u16 (1 + Z.of_nat (length (forwarding_policy_forwarding_policy_identifier v)));
  ie_value _ v :=
    [forwarding_policy_forwarding_policy_identifier_length v] ++
    forwarding_policy_forwarding_policy_identifier v;
  ie_load uninit len :=
    guard (negb (len <? 1)) (TlvBadLength 41 len) ;;;
    let* n := read_byte 0 in
    guard (len =? 1 + n) (TlvBadLength 41 len) ;;;
    let* e := read_string uninit (Z.to_nat n) in
    ret (mk_forwarding_policy_t n e)
|}.

(** The length of the identifier is a member of its own. *)
Definition forwarding_policy_wf (v : forwarding_policy_t) : Prop :=
  Z.of_nat (length (forwarding_policy_forwarding_policy_identifier v)) =
    forwarding_policy_forwarding_policy_identifier_length v /\
  forwarding_policy_forwarding_policy_identifier_length v < 256.

#[export] Instance forwarding_policy_ie_laws : PfcpIeLaws forwarding_policy_t.
Proof.
  refine (@Build_PfcpIeLaws forwarding_policy_t _ forwarding_policy_wf (fun _ v => v) _ _ _ _);
    [done|..].
  - intros u [n l] (H1 & H2). cbn in *. rewrite u16_id by lia. lia.
  - intros u1 u2 [n l] rest (H1 & H2).
    cbv beta iota zeta delta [ie_length ie_value ie_load forwarding_policy_ie
      forwarding_policy_forwarding_policy_identifier
      forwarding_policy_forwarding_policy_identifier_length] in *.
    rewrite <- app_assoc, u16_id, H1, (proj2 (Z.ltb_ge _ _)) by lia. cbn [negb].
    read_step. read_step. rewrite Z.eqb_refl. now repeat read_step.
  - intros. cbn. auto 20 with shrinks.
Defined.

(** IE SDF_FILTER.  The flow label and the filter identifier are written but
    not counted in the length, the identifier as decimal text. *)
Definition decimal (z : Z) : list Z :=
  map (fun c => Z.of_nat (nat_of_ascii c)) (list_ascii_of_string (pretty z)).

#[export] Instance sdf_filter_ie : PfcpIe sdf_filter_t := {|
  ie_type := 23;
  ie_check v :=
    if sdf_filter_ttc v && negb (length (sdf_filter_tos_traffic_class v) =? 2)%nat
    then Some (IeValue 23)
    else if sdf_filter_spi v && negb (length (sdf_filter_security_parameter_index v) =? 4)%nat
    then Some (IeValue 23)
    else if sdf_filter_fl v && negb (length (sdf_filter_flow_label v) =? 3)%nat
    then Some (IeValue 23)
    else None;
  ie_length v :=
    u16 (2 +
         (if sdf_filter_fd v then 2 + Z.of_nat (length (sdf_filter_flow_description v)) else 0) +
         (if sdf_filter_ttc v then 2 else 0) + (if sdf_filter_spi v then 4 else 0));
  ie_value _ v :=
    [byte_of [sdf_filter_fd v; sdf_filter_ttc v; sdf_filter_spi v; sdf_filter_fl v;
              sdf_filter_bid v]] ++ [0] ++
    bytes_if (sdf_filter_fd v) (be_enc 2 (sdf_filter_length_of_flow_description v)) ++
    bytes_if (sdf_filter_fd v) (sdf_filter_flow_description v) ++
    bytes_if (sdf_filter_ttc v) (sdf_filter_tos_traffic_class v) ++
    bytes_if (sdf_filter_spi v) (sdf_filter_security_parameter_index v) ++
    bytes_if (sdf_filter_fl v) (sdf_filter_flow_label v) ++
    bytes_if (sdf_filter_bid v) (decimal (sdf_filter_sdf_filter_id v));
  ie_load uninit len :=
    let* b := read_byte (u8 uninit) in
    let fd := bit b 0 in let ttc := bit b 1 in let spi := bit b 2 in
    let fl := bit b 3 in let bid := bit b 4 in
    let* spare := read_byte 0 in
    let* n := when fd (read_be 2 uninit) 0 in
    let* description := when fd (read_string uninit (Z.to_nat n)) [] in
    let* tos := when ttc (read_string uninit 2) [] in
    let* index := when spi (read_string uninit 4) [] in
    let* label := when fl (read_string uninit 3) [] in
    let* id := when bid (read_be 4 uninit) 0 in
    ret (mk_sdf_filter_t 0 bid fl spi ttc fd n description tos index label id)
|}.

(** Values with a flow label or a filter identifier are not read back. *)
Definition sdf_filter_wf (v : sdf_filter_t) : Prop :=
  Z.of_nat (length (sdf_filter_flow_description v)) = sdf_filter_length_of_flow_description v /\
  sdf_filter_length_of_flow_description v < 65526 /\
  (sdf_filter_ttc v = true -> length (sdf_filter_tos_traffic_class v) = 2%nat) /\
  (sdf_filter_spi v = true -> length (sdf_filter_security_parameter_index v) = 4%nat) /\
  sdf_filter_fl v = false /\ sdf_filter_bid v = false.

Definition sdf_filter_norm (v : sdf_filter_t) : sdf_filter_t :=
  mk_sdf_filter_t 0 false false (sdf_filter_spi v) (sdf_filter_ttc v) (sdf_filter_fd v)
    (if sdf_filter_fd v then sdf_filter_length_of_flow_description v else 0)
    (if sdf_filter_fd v then sdf_filter_flow_description v else [])
    (if sdf_filter_ttc v then sdf_filter_tos_traffic_class v else [])
    (if sdf_filter_spi v then sdf_filter_security_parameter_index v else []) [] 0.

#[export] Instance sdf_filter_ie_laws : PfcpIeLaws sdf_filter_t.
Proof.
  refine (@Build_PfcpIeLaws sdf_filter_t _ sdf_filter_wf (fun _ => sdf_filter_norm) _ _ _ _).
  - intros [sp bid fl spi ttc fd n d t i l id] (H1 & H2 & H3 & H4 & H5 & H6).
    cbn in *. subst. destruct ttc, spi; cbn;
      try rewrite (H3 eq_refl); try rewrite (H4 eq_refl); reflexivity.
  - intros u [sp bid fl spi ttc fd n d t i l id] (H1 & H2 & H3 & H4 & H5 & H6).
    cbn in *. subst. cbn. rewrite !app_nil_r, !length_app.
    rewrite u16_id by (destruct fd, ttc, spi; lia).
    destruct fd, ttc, spi; cbn [bytes_if length]; 
      try rewrite (H3 eq_refl); try rewrite (H4 eq_refl); rewrite ?length_be_enc; lia.
  - intros u1 u2 [sp bid fl spi ttc fd n d t i l id] rest (H1 & H2 & H3 & H4 & H5 & H6).
    unfold sdf_filter_norm; cbv beta iota zeta delta [ie_value ie_load sdf_filter_ie].
    cbn [sdf_filter_spare sdf_filter_bid sdf_filter_fl sdf_filter_spi
      sdf_filter_ttc sdf_filter_fd sdf_filter_length_of_flow_description
      sdf_filter_flow_description sdf_filter_tos_traffic_class
      sdf_filter_security_parameter_index sdf_filter_flow_label sdf_filter_sdf_filter_id] in *.
    subst fl bid. cbn [bytes_if]. rewrite <- !app_assoc. cbn [app].
    read_step. rewrite !bit_byte_of. cbn [nth when].
    read_step.
    destruct fd; cbn [when bytes_if app]; now repeat read_step.
  - intros. cbn. auto 30 with shrinks.
Defined.

(** IE OUTER_HEADER_CREATION: the members that are there depend on the
    description; [load_from] leaves the others uninitialised. *)
Definition has (description mask : Z) : bool := negb (Z.land description mask =? 0).
Definition has_teid (d : Z) : bool := has d 0x300.
Definition has_ipv4 (d : Z) : bool := has d 0x500.
Definition has_ipv6 (d : Z) : bool := has d 0xA00.
Definition has_port (d : Z) : bool := has d 0x400.

#[export] Instance outer_header_creation_ie : PfcpIe outer_header_creation_t := {|
  ie_type := 84;
  ie_check := no_check;
  ie_length v :=
    let d := outer_header_creation_outer_header_creation_description v in
    2 + (if has_teid d then 4 else 0) + (if has_ipv4 d then 4 else 0) +
    (if has_ipv6 d then 16 else 0) + (if has_port d then 2 else 0);
  ie_value _ v :=
    let d := outer_header_creation_outer_header_creation_description v in
    be_enc 2 d ++
    bytes_if (has_teid d) (be_enc 4 (outer_header_creation_teid v)) ++
    bytes_if (has_ipv4 d) (le_enc 4 (outer_header_creation_ipv4_address v)) ++
    bytes_if (has_ipv6 d) (outer_header_creation_ipv6_address v) ++
    bytes_if (has_port d) (be_enc 2 (outer_header_creation_port_number v));
  ie_load uninit len :=
    guard (negb (len <? 4)) (TlvBadLength 84 len) ;;;
    let* d := read_be 2 uninit in
    let* teid := when (has_teid d) (read_be 4 uninit) (u32 uninit) in
    let* ipv4 := when (has_ipv4 d) (read_ipv4 uninit) (u32 uninit) in
    let* ipv6 := when (has_ipv6 d) (read_ipv6 (repeat (u8 uninit) 16)) (repeat (u8 uninit) 16) in
    let* port := when (has_port d) (read_be 2 uninit) (u16 uninit) in
    ret (mk_outer_header_creation_t d teid ipv4 ipv6 port)
|}.

Definition outer_header_creation_wf (v : outer_header_creation_t) : Prop :=
  let d := outer_header_creation_outer_header_creation_description v in
  0 <= d < 256 ^ Z.of_nat 2 /\ 0 <= outer_header_creation_teid v < 256 ^ Z.of_nat 4 /\
  ipv4_ok (outer_header_creation_ipv4_address v) /\
  ipv6_ok (outer_header_creation_ipv6_address v) /\
  0 <= outer_header_creation_port_number v < 256 ^ Z.of_nat 2 /\
  has_teid d || has_ipv4 d || has_ipv6 d = true.

Definition outer_header_creation_norm (uninit : Z) (v : outer_header_creation_t)
    : outer_header_creation_t :=
  let d := outer_header_creation_outer_header_creation_description v in
  mk_outer_header_creation_t d
    (if has_teid d then outer_header_creation_teid v else u32 uninit)
    (if has_ipv4 d then outer_header_creation_ipv4_address v else u32 uninit)
    (if has_ipv6 d then outer_header_creation_ipv6_address v else repeat (u8 uninit) 16)
    (if has_port d then outer_header_creation_port_number v else u16 uninit).

#[export] Instance outer_header_creation_ie_laws : PfcpIeLaws outer_header_creation_t.
Proof.
  refine (@Build_PfcpIeLaws outer_header_creation_t _ outer_header_creation_wf
            outer_header_creation_norm _ _ _ _); [done|..].
  - intros u [d teid a4 a6 p] (H1 & H2 & H3 & H4 & H5 & H6).
    cbv beta iota zeta delta [ie_length ie_value outer_header_creation_ie].
    cbn [outer_header_creation_outer_header_creation_description outer_header_creation_teid
      outer_header_creation_ipv4_address outer_header_creation_ipv6_address
      outer_header_creation_port_number] in *. unfold ipv6_ok in H4.
    destruct (has_teid d), (has_ipv4 d), (has_ipv6 d), (has_port d); cbn [bytes_if];
      rewrite ?length_app, ?length_be_enc, ?length_le_enc, ?H4; cbn [length]; lia.
  - intros u1 u2 [d teid a4 a6 p] rest (H1 & H2 & H3 & H4 & H5 & H6).
    unfold outer_header_creation_norm.
    cbv beta iota zeta delta [ie_length ie_value ie_load outer_header_creation_ie].
    cbn [outer_header_creation_outer_header_creation_description outer_header_creation_teid
      outer_header_creation_ipv4_address outer_header_creation_ipv6_address
      outer_header_creation_port_number] in *.
    replace (_ <? 4) with false
      by (destruct (has_teid d), (has_ipv4 d), (has_ipv6 d), (has_port d); done).
    rewrite <- !app_assoc. cbn [negb]. now repeat read_step.
  - intros. cbn. auto 30 with shrinks.
Defined.

