(* ===== verification/PfcpFqdn.v ===== *)
(** * Domain names of node identifiers (src/src/oai/pfcp/3gpp_29.244.hpp)

    [pfcp_ie::string_to_dotted] and [pfcp_ie::dotted_to_string]: a name with
    dots becomes labels with a length byte before each, and back.  The loops
    have fuel.  Both may run for ever, on 8- and 16-bit offsets that wrap: [None]
    is a loop that does not end, and theorems say that no fuel helps then. *)
From Stdlib Require Import ZArith Lia List Bool.
From stdpp Require Import base list.
From S2P Require Import Prelude PfcpStream.
Open Scope Z_scope.

(** A name is its bytes; [str[str.length()]] is the NUL character. *)
Definition char_at (s : list Z) (i : nat) : Z := nth i s 0.

(** [char] is signed. *)
Definition s8 (b : Z) : Z := if b <? 128 then b else b - 256.

(** ** From a name with dots to labels *)

(** The array [value], the position of the length byte of the current label,
    the characters of the label so far, and the 8-bit offset. *)
Fixpoint to_dotted_loop (fuel : nat) (str value : list Z) (last_size : nat) (word_length : Z)
    (offset : nat) : option (list Z) :=
  match fuel with
  | O => None
  | S fuel =>
      let c := char_at str offset in
      let next := ((offset + 1) mod 256)%nat in
      if c =? 0 then Some (<[last_size := word_length]> value)
      else if c =? 46 then
        to_dotted_loop fuel str (<[last_size := word_length]> value) (offset + 1) 0 next
      else to_dotted_loop fuel str (<[(offset + 1)%nat := c]> value) last_size
             (u8 (word_length + 1)) next
  end.

Definition string_to_dotted (uninit : Z) (str : list Z) : option (list Z) :=
  to_dotted_loop 256 str (repeat uninit (length str + 1)) 0 0 0.

(** ** From labels to a name with dots *)

(** [std::length_error] of [std::string::append] with a negative length. *)
Inductive name_outcome : Type :=
| Name (s : list Z)
| LengthErrorThrown.

Fixpoint to_string_loop (fuel : nat) (dot : list Z) (offset : nat) (no_dot : list Z)
    : option name_outcome :=
  match fuel with
  | O => None
  | S fuel =>
      if (offset <? length dot)%nat then
        let d := s8 (char_at dot offset) in
        if d <? 64 then
          let next := Z.to_nat (u16 (Z.of_nat offset + 1 + d)) in
          if (0 <=? Z.of_nat offset + d) && (Z.of_nat offset + d <=? Z.of_nat (length dot)) then
            if d <? 0 then Some LengthErrorThrown
            else
              to_string_loop fuel dot next
                (no_dot ++ (if (offset =? 0)%nat then [] else [46]) ++
                 take (Z.to_nat d) (drop (offset + 1) (dot ++ [0])))
          else to_string_loop fuel dot next no_dot
        else
          to_string_loop fuel dot (Z.to_nat (u16 (Z.of_nat offset + 1)))
            (no_dot ++ [char_at dot offset])
      else Some (Name no_dot)
  end.

(** One round more than there are bytes: a longer run meets an offset twice. *)
Definition dotted_to_string (dot : list Z) : option name_outcome :=
  to_string_loop (S (length dot)) dot 0 [].

(** ** Names as lists of labels *)

Definition label_ok (w : list Z) : Prop :=
  (length w < 64)%nat /\ Forall (fun c => 0 < c < 256 /\ c <> 46) w.

(** The name with dots and the labels with lengths. *)
Fixpoint join (w : list Z) (ws : list (list Z)) : list Z :=
  match ws with
  | [] => w
  | w' :: ws' => w ++ 46 :: join w' ws'
  end.

Definition encoded (ws : list (list Z)) : list Z :=
  concat (map (fun w => Z.of_nat (length w) :: w) ws).

Lemma length_join w ws : length (encoded (w :: ws)) = S (length (join w ws)).
Proof.
  revert w. induction ws as [|w' ws IH]; intros w; unfold encoded in *; cbn in *.
  - rewrite app_nil_r. reflexivity.
  - specialize (IH w'). rewrite !length_app. cbn in *. lia.
Qed.

(** Inside a label: the characters of [w] are copied behind the length byte. *)
Lemma to_dotted_word fuel str pre w post value last word offset :
  str = pre ++ w ++ post -> offset = length pre -> Forall (fun c => 0 < c < 256 /\ c <> 46) w ->
  length value = S (length str) -> (length str < 256)%nat ->
  0 <= word -> word + Z.of_nat (length w) < 256 ->
  to_dotted_loop (length w + fuel) str value last word offset =
  to_dotted_loop fuel str (take (offset + 1) value ++ w ++ drop (offset + 1 + length w) value) last
    (word + Z.of_nat (length w)) (offset + length w).
Proof.
  intros Hs Ho Hw Hv Hn H0 H1. revert pre value word offset Hs Ho Hv H0 H1.
  induction Hw as [|c w [Hc Hd] Hw IH]; intros pre value word offset Hs Ho Hv H0 H1.
  { cbn [length app Nat.add]. rewrite Nat.add_0_r, Z.add_0_r, Nat.add_0_r, take_drop. done. }
  cbn [length Nat.add to_dotted_loop]. unfold char_at.
  assert (nth offset str 0 = c) as ->.
  { rewrite Hs, app_nth2, Ho, Nat.sub_diag by lia. done. }
  rewrite (proj2 (Z.eqb_neq c 0)), (proj2 (Z.eqb_neq c 46)) by lia.
  assert (length str = length pre + S (length w) + length post)%nat as Hl.
  { rewrite Hs, !length_app. cbn. rewrite ?length_app. lia. }
  rewrite Nat.mod_small by lia. cbn [length] in H1.
  change (u8 (word + 1)) with (Z.modulo (word + 1) 256). rewrite Z.mod_small by lia.
  assert (<[(offset + 1)%nat := c]> value = (take (offset + 1) value ++ [c]) ++ drop (offset + 2) value)
    as Hi.
  { rewrite insert_take_drop by lia. rewrite <- app_assoc. do 2 f_equal. f_equal. lia. }
  rewrite (IH (pre ++ [c])); [|rewrite Hs, <- app_assoc; done|rewrite length_app; cbn; lia|
    now rewrite length_insert|lia|lia].
  rewrite Hi, drop_app_ge, drop_drop, take_app_length' by (rewrite length_app, length_take; cbn; lia).
  f_equal; [|lia|lia]. rewrite <- app_assoc. cbn [app]. do 3 f_equal.
  f_equal. rewrite length_app, length_take. cbn [length]. lia.
Qed.

Lemma insert_length_byte (o : nat) (n : Z) value w tl :
  (o < length value)%nat ->
  <[o := n]> (take (o + 1) value ++ w ++ tl) = take o value ++ n :: w ++ tl.
Proof.
  intros Ho. rewrite insert_app_l by (rewrite length_take; lia).
  rewrite insert_take_drop by (rewrite length_take; lia).
  rewrite take_take, Nat.min_l, drop_ge by (rewrite ?length_take; lia). now rewrite <- app_assoc.
Qed.

(** The name ends a label at its NUL or at a dot. *)
Lemma to_dotted_labels ws w str pre value last fuel :
  str = pre ++ join w ws -> Forall label_ok (w :: ws) -> last = length pre ->
  length value = S (length str) -> (length str < 256)%nat -> (length (join w ws) < fuel)%nat ->
  to_dotted_loop fuel str value last 0 (length pre) =
    Some (take (length pre) value ++ encoded (w :: ws)).
Proof.
  revert w pre value last fuel. induction ws as [|w' ws IH];
    intros w pre value last fuel Hs Hok -> Hv Hn Hf; cbn [join] in *;
    inversion Hok as [|? ? [Hw Hc] Hok']; subst.
  - rewrite !length_app in *. replace fuel with (length w + S (fuel - S (length w)))%nat by lia.
    rewrite (to_dotted_word _ (pre ++ w) pre w []) by (rewrite ?app_nil_r, ?length_app; (done || lia)).
    cbn [to_dotted_loop]. unfold char_at. rewrite nth_overflow by (rewrite length_app; lia).
    rewrite Z.eqb_refl. f_equal. rewrite Z.add_0_l.
    rewrite insert_length_byte, (drop_ge value) by lia. done.
  - rewrite !length_app in *. cbn [length] in *.
    replace fuel with (length w + S (fuel - S (length w)))%nat by lia.
    rewrite (to_dotted_word _ _ pre w (46 :: join w' ws)) by (rewrite ?length_app; (done || cbn; lia)).
    cbn [to_dotted_loop]. unfold char_at.
    assert (nth (length pre + length w) (pre ++ w ++ 46 :: join w' ws) 0 = 46) as ->.
    { rewrite app_assoc, <- length_app. apply nth_middle. }
    cbn [Z.eqb Pos.eqb]. rewrite Nat.mod_small, Z.add_0_l by lia.
    replace (length pre + length w + 1)%nat with (length (pre ++ w ++ [46]))
      by (rewrite !length_app; cbn; lia).
    rewrite (IH w'); [|now rewrite <- !app_assoc|done|done| |lia|lia].
    2:{ rewrite length_insert, !length_app, length_take, length_drop.
        cbn [length] in *. lia. }
    f_equal. rewrite insert_length_byte by lia. rewrite !length_app. cbn [length].
    rewrite (app_comm_cons w), app_assoc.
    rewrite take_app_length' by (rewrite length_app, length_take; cbn; lia).
    unfold encoded. cbn. now rewrite <- app_assoc.
Qed.

Lemma string_to_dotted_labels uninit w ws :
  Forall label_ok (w :: ws) -> (length (join w ws) < 256)%nat ->
  string_to_dotted uninit (join w ws) = Some (encoded (w :: ws)).
Proof.
  intros Hok Hn. unfold string_to_dotted.
  change 0%nat with (length (A := Z) []) at 2.
  now rewrite (to_dotted_labels ws w (join w ws) [] (repeat uninit (length (join w ws) + 1)))
    by (rewrite ?repeat_length; (done || lia)).
Qed.

(** One label, read back. *)
Lemma to_string_label fuel dot pre w post acc :
  dot = pre ++ Z.of_nat (length w) :: w ++ post -> (length w < 64)%nat ->
  Z.of_nat (length dot) < 65536 ->
  to_string_loop (S fuel) dot (length pre) acc =
  to_string_loop fuel dot (length (pre ++ Z.of_nat (length w) :: w))
    (acc ++ (if (length pre =? 0)%nat then [] else [46]) ++ w).
Proof.
  intros Hd Hw Hn. assert (length dot = length pre + S (length w) + length post)%nat as Hl.
  { rewrite Hd, !length_app. cbn. rewrite length_app. lia. }
  cbn [to_string_loop].
  rewrite (proj2 (Nat.ltb_lt _ _)) by lia.
  assert (s8 (char_at dot (length pre)) = Z.of_nat (length w)) as ->.
  { unfold char_at. rewrite Hd, nth_middle. unfold s8. now rewrite (proj2 (Z.ltb_lt _ _)) by lia. }
  rewrite (proj2 (Z.ltb_lt (Z.of_nat (length w)) 64)), (proj2 (Z.ltb_ge (Z.of_nat (length w)) 0)),
    (proj2 (Z.leb_le 0 _)), (proj2 (Z.leb_le _ (Z.of_nat (length dot)))) by lia.
  cbn [andb]. rewrite u16_id by lia. f_equal.
  - rewrite length_app. cbn. lia.
  - do 2 f_equal. rewrite Hd, <- !app_assoc. cbn [app]. rewrite <- app_assoc.
    change (Z.of_nat (length w) :: w ++ post ++ [0])
      with ([Z.of_nat (length w)] ++ w ++ post ++ [0]). rewrite (app_assoc pre).
    rewrite drop_app_length' by (rewrite length_app; cbn; lia).
    now rewrite take_app_length' by lia.
Qed.

Lemma to_string_labels ws dot pre acc fuel :
  dot = pre ++ encoded ws -> pre <> [] -> Forall label_ok ws -> Z.of_nat (length dot) < 65536 ->
  (length ws < fuel)%nat ->
  to_string_loop fuel dot (length pre) acc =
    Some (Name (acc ++ concat (map (cons 46) ws))).
Proof.
  revert pre acc fuel. induction ws as [|w ws IH]; intros pre acc [|fuel] Hd Hp Hok Hn Hf;
    try (cbn in Hf; lia).
  - unfold encoded in Hd. cbn [map concat] in *. rewrite app_nil_r in Hd. subst dot.
    cbn [to_string_loop]. rewrite Nat.ltb_irrefl. now rewrite app_nil_r.
  - inversion Hok as [|? ? [Hw _] Hok']; subst.
    rewrite (to_string_label _ _ pre w (encoded ws)) by (unfold encoded in *; done).
    rewrite IH; [| |now destruct pre|done|done|cbn in Hf; lia].
    + destruct pre; [done|]. cbn. now rewrite <- !app_assoc.
    + unfold encoded. cbn. now rewrite <- app_assoc.
Qed.

Lemma join_concat w ws : join w ws = w ++ concat (map (cons 46) ws).
Proof. revert w. induction ws as [|w' ws IH]; intros w; cbn; [now rewrite app_nil_r|]. now rewrite IH. Qed.

Lemma length_encoded ws : (length ws <= length (encoded ws))%nat.
Proof.
  unfold encoded. induction ws as [|w ws IH]; [done|]. cbn. rewrite length_app. lia.
Qed.

Lemma dotted_to_string_labels w ws :
  Forall label_ok (w :: ws) -> Z.of_nat (length (encoded (w :: ws))) < 65536 ->
  dotted_to_string (encoded (w :: ws)) = Some (Name (join w ws)).
Proof.
  intros Hok Hn. pose proof (length_encoded ws) as Hl. inversion Hok as [|? ? [Hw Hc] Hok']; subst.
  unfold dotted_to_string. change 0%nat with (length (A := Z) []) at 1.
  assert (encoded (w :: ws) = [] ++ Z.of_nat (length w) :: w ++ encoded ws) as He by done.
  rewrite (to_string_label _ _ [] w (encoded ws)) by done.
  rewrite (to_string_labels ws); [|done|done|done|done|rewrite He; cbn; rewrite length_app; lia].
  now rewrite join_concat.
Qed.

(** C29: round trip of domain names: a name of labels without dots and NULs, each
    shorter than 64 characters, shorter than 256 in all, is turned into labels
    and back; both loops end. *)
Theorem fqdn_roundtrip uninit w ws :
  Forall label_ok (w :: ws) -> (length (join w ws) < 256)%nat ->
  exists dotted, string_to_dotted uninit (join w ws) = Some dotted /\
    length dotted = S (length (join w ws)) /\
    dotted_to_string dotted = Some (Name (join w ws)).
Proof.
  intros Hok Hn. exists (encoded (w :: ws)). pose proof (length_join w ws) as Hl.
  split; [now apply string_to_dotted_labels|]. split; [done|].
  apply dotted_to_string_labels; [done|lia].
Qed.

(** ** Loops that do not end *)

(** The offset of the next round does not depend on what was copied. *)
Definition next_offset (dot : list Z) (offset : nat) : nat :=
  let d := s8 (char_at dot offset) in
  if d <? 64 then Z.to_nat (u16 (Z.of_nat offset + 1 + d))
  else Z.to_nat (u16 (Z.of_nat offset + 1)).

(** The rounds go on from an offset: it is inside, and nothing is thrown. *)
Definition goes_on (dot : list Z) (offset : nat) : bool :=
  (offset <? length dot)%nat &&
  negb (let d := s8 (char_at dot offset) in
        (d <? 0) && (0 <=? Z.of_nat offset + d) && (Z.of_nat offset + d <=? Z.of_nat (length dot))).

Definition offset_after (dot : list Z) (n offset : nat) : nat := Nat.iter n (next_offset dot) offset.

Lemma to_string_loop_round fuel dot offset acc :
  if goes_on dot offset then
    exists acc', to_string_loop (S fuel) dot offset acc =
                 to_string_loop fuel dot (next_offset dot offset) acc'
  else exists r, to_string_loop (S fuel) dot offset acc = Some r.
Proof.
  cbn [to_string_loop]. unfold goes_on, next_offset.
  destruct (offset <? length dot)%nat; [|eexists; reflexivity].
  set (d := s8 _). destruct (d <? 64) eqn:H64.
  - destruct (d <? 0), (0 <=? _), (_ <=? _); cbn [andb negb]; eexists; reflexivity.
  - rewrite (proj2 (Z.ltb_ge d 0)) by (apply Z.ltb_ge in H64; lia). cbn [andb negb].
    eexists; reflexivity.
Qed.

Lemma to_string_loop_none fuel dot offset acc :
  to_string_loop fuel dot offset acc = None <->
  forall n, (n < fuel)%nat -> goes_on dot (offset_after dot n offset) = true.
Proof.
  revert offset acc. induction fuel as [|fuel IH]; intros offset acc.
  { split; [intros _ n Hn; lia|done]. }
  pose proof (to_string_loop_round fuel dot offset acc) as Hr. destruct (goes_on dot offset) eqn:Hg.
  - destruct Hr as [acc' ->]. rewrite IH. split; intros H n Hn.
    + destruct n as [|n]; [done|]. unfold offset_after. rewrite Nat.iter_succ_r. apply H. lia.
    + specialize (H (S n) ltac:(lia)). unfold offset_after in *. now rewrite Nat.iter_succ_r in H.
  - destruct Hr as [r ->]. split; [done|]. intros H. specialize (H 0%nat ltac:(lia)). cbn in H.
    congruence.
Qed.

Lemma offset_after_add dot m n o : offset_after dot (m + n) o = offset_after dot m (offset_after dot n o).
Proof. unfold offset_after. apply Nat.iter_add. Qed.

(** Offsets inside the name that are met more often than there are bytes
    repeat. *)
Lemma offsets_repeat dot :
  (forall n, (n <= length dot)%nat -> (offset_after dot n 0 < length dot)%nat) ->
  exists i j, (i < j <= length dot)%nat /\ offset_after dot i 0 = offset_after dot j 0.
Proof.
  intros H. set (f n := offset_after dot n 0).
  destruct (decide (Exists (fun j => Exists (fun i => f i = f j) (seq 0 j))
                      (seq 0 (S (length dot))))) as [He|Hno].
  - apply Exists_exists in He as (j & Hj & He). apply Exists_exists in He as (i & Hi & He).
    apply elem_of_seq in Hi, Hj. exists i, j. split; [lia|done].
  - exfalso.
    assert (length (map f (seq 0 (S (length dot)))) <= length (seq 0 (length dot)))%nat as Hl;
      [|rewrite length_map, !length_seq in Hl; lia].
    apply submseteq_length, NoDup_submseteq.
    + apply NoDup_fmap_2_strong; [|apply NoDup_seq].
      intros x y Hx Hy Heq. apply elem_of_seq in Hx, Hy.
      destruct (lt_eq_lt_dec x y) as [[Hlt|]|Hlt]; [|done|]; exfalso; apply Hno.
      * apply Exists_exists. exists y. split; [apply elem_of_seq; lia|].
        apply Exists_exists. exists x. split; [apply elem_of_seq; lia|done].
      * apply Exists_exists. exists x. split; [apply elem_of_seq; lia|].
        apply Exists_exists. exists y. split; [apply elem_of_seq; lia|done].
    + intros x Hx. apply list_elem_of_fmap in Hx as (n & -> & Hn). apply elem_of_seq in Hn.
      apply elem_of_seq. specialize (H n). unfold f. lia.
Qed.

Lemma offsets_cycle dot i j :
  (i < j <= length dot)%nat -> offset_after dot i 0 = offset_after dot j 0 ->
  forall n, exists m, (m <= length dot)%nat /\ offset_after dot n 0 = offset_after dot m 0.
Proof.
  intros Hij He n. induction n as [n IH] using lt_wf_ind.
  destruct (decide (n <= length dot)%nat) as [|Hn]; [exists n; done|].
  destruct (IH (n - j + i)%nat ltac:(lia)) as (m & Hm & Hm'). exists m. split; [done|].
  rewrite <- Hm', (offset_after_add dot (n - j) i), He, <- offset_after_add. f_equal. lia.
Qed.


(** A name that starts with the byte 255, a length of -1, is such a name. *)
Lemma name_255_loops fuel rest : to_string_loop fuel (255 :: rest) 0 [] = None.
Proof.
  apply to_string_loop_none. intros n _.
  assert (offset_after (255 :: rest) n 0 = 0%nat) as ->; [|done].
  induction n as [|n IH]; [done|].
  change (next_offset (255 :: rest) (offset_after (255 :: rest) n 0) = 0%nat). now rewrite IH.
Qed.

(** [string_to_dotted] does not end when the first 256 characters hold no NUL:
    its offset has eight bits. *)
Lemma to_dotted_loops fuel str value last word offset :
  (256 <= length str)%nat -> Forall (fun c => c <> 0) str -> (offset < 256)%nat ->
  to_dotted_loop fuel str value last word offset = None.
Proof.
  intros Hl Hc. revert value last word offset.
  induction fuel as [|fuel IH]; intros value last word offset Ho; [done|].
  cbn [to_dotted_loop].
  assert (char_at str offset <> 0) as Hn.
  { rewrite Forall_forall in Hc. apply Hc. apply list_elem_of_In, nth_In. lia. }
  rewrite (proj2 (Z.eqb_neq _ _) Hn).
  assert ((offset + 1) mod 256 < 256)%nat by (apply Nat.mod_upper_bound; lia).
  destruct (_ =? 46); now apply IH.
Qed.

Lemma fqdn_roundtrip_witness :
  exists dotted, string_to_dotted 0 [117; 112; 102; 46; 53; 103] = Some dotted /\
    length dotted = 7%nat /\ dotted_to_string dotted = Some (Name [117; 112; 102; 46; 53; 103]).
Proof.
  apply (fqdn_roundtrip 0 [117; 112; 102] [[53; 103]]); [|cbn; lia].
  repeat constructor; lia.
Defined.

