(* ===== verification/PfcpNodeIes.v ===== *)
(** * Elements of node management and usage reporting
    (src/src/oai/pfcp/3gpp_29.244.hpp)

    The classes of thresholds, triggers, features, node identifiers, failed
    rules, IP resources and user identifiers.  Several of them do not read back
    what they write; the values that are read back are those of [ie_wf], none
    when it is [False]. *)
From Stdlib Require Import ZArith Lia List Bool.
From stdpp Require Import base list.
From S2P Require Import Prelude PfcpStream PfcpTypes PfcpIes PfcpFqdn.
Open Scope Z_scope.
Open Scope upf_scope.

(** ** Integers in network order *)

#[export] Instance time_threshold_ie : PfcpIe time_threshold_t :=
  fixed_ie 32 4 time_threshold mk_time_threshold_t (Some 0).
#[export] Instance monitoring_time_ie : PfcpIe monitoring_time_t :=
  fixed_ie 33 4 monitoring_time mk_monitoring_time_t (Some 0).
#[export] Instance subsequent_time_threshold_ie : PfcpIe subsequent_time_threshold_t :=
  fixed_ie 35 4 subsequent_time_threshold mk_subsequent_time_threshold_t (Some 0).
#[export] Instance inactivity_detection_time_ie : PfcpIe inactivity_detection_time_t :=
  fixed_ie 36 4 inactivity_detection_time mk_inactivity_detection_time_t (Some 0).

#[export] Instance time_threshold_ie_laws : PfcpIeLaws time_threshold_t.
Proof. apply fixed_ie_laws; [lia|now intros []]. Defined.
#[export] Instance monitoring_time_ie_laws : PfcpIeLaws monitoring_time_t.
Proof. apply fixed_ie_laws; [lia|now intros []]. Defined.
#[export] Instance subsequent_time_threshold_ie_laws : PfcpIeLaws subsequent_time_threshold_t.
Proof. apply fixed_ie_laws; [lia|now intros []]. Defined.
#[export] Instance inactivity_detection_time_ie_laws : PfcpIeLaws inactivity_detection_time_t.
Proof. apply fixed_ie_laws; [lia|now intros []]. Defined.

(** ** Volume thresholds *)

Section Volume.
Context {T : Type} (ty : Z) (tovol ulvol dlvol : T -> bool) (total uplink downlink : T -> Z).
Context (mk : bool -> bool -> bool -> Z -> Z -> Z -> T).

(** [load_from] does not read the byte of the flags: it goes by what the object
    holds.  Each volume ends up in [total_volume], and the members of the
    uplink and the downlink keep the bytes in network order. *)
Definition volume_ie : PfcpIe T := {|
  ie_type := ty;
  ie_check := no_check;
  ie_length v :=
    1 + (if tovol v then 8 else 0) + (if ulvol v then 8 else 0) + (if dlvol v then 8 else 0);
  ie_value _ v :=
    [byte_of [tovol v; ulvol v; dlvol v]] ++
    bytes_if (tovol v) (be_enc 8 (total v)) ++
    bytes_if (ulvol v) (be_enc 8 (uplink v)) ++
    bytes_if (dlvol v) (be_enc 8 (downlink v));
  ie_load uninit len :=
    guard (negb (len <? 1)) (TlvBadLength ty len) ;;;
    let old := le_enc 8 uninit in
    let to := bit (u8 uninit) 0 in let ul := bit (u8 uninit) 1 in let dl := bit (u8 uninit) 2 in
    let* t := when to (read_be 8 uninit) (le_dec old) in
    let* u := when ul (is_read old) old in
    let* d := when dl (is_read old) old in
    let total_volume := if dl then be_dec d else if ul then be_dec u else t in
    ret (mk to ul dl (if to then total_volume else 0) (if ul then le_dec u else 0)
           (if dl then le_dec d else 0))
|}.

Definition volume_ie_laws : @PfcpIeLaws T volume_ie.
Proof.
  refine (@Build_PfcpIeLaws T volume_ie (fun _ => False) (fun _ v => v) _ _ _ _); [done..|].
  intros. cbn. auto 20 with shrinks.
Defined.

End Volume.

#[export] Instance volume_threshold_ie : PfcpIe volume_threshold_t :=
  volume_ie 31 volume_threshold_tovol volume_threshold_ulvol volume_threshold_dlvol
    volume_threshold_total_volume volume_threshold_uplink_volume volume_threshold_downlink_volume
    (fun t u d => mk_volume_threshold_t t u d 0).
#[export] Instance subsequent_volume_threshold_ie : PfcpIe subsequent_volume_threshold_t :=
  volume_ie 34 subsequent_volume_threshold_tovol subsequent_volume_threshold_ulvol
    subsequent_volume_threshold_dlvol subsequent_volume_threshold_total_volume
    subsequent_volume_threshold_uplink_volume subsequent_volume_threshold_downlink_volume
    (fun t u d => mk_subsequent_volume_threshold_t t u d 0).
#[export] Instance volume_threshold_ie_laws : PfcpIeLaws volume_threshold_t.
Proof. apply volume_ie_laws. Defined.
#[export] Instance subsequent_volume_threshold_ie_laws : PfcpIeLaws subsequent_volume_threshold_t.
Proof. apply volume_ie_laws. Defined.

(** ** Bits *)

#[export] Instance reporting_triggers_ie : PfcpIe reporting_triggers_t := {|
  ie_type := 37;
  ie_check := no_check;
  ie_length _ := 2;
  ie_value _ v :=
    [byte_of [reporting_triggers_perio v; reporting_triggers_volth v; reporting_triggers_timth v;
              reporting_triggers_quhti v; reporting_triggers_start v; reporting_triggers_stop v;
              reporting_triggers_droth v; reporting_triggers_liusa v]] ++
    [byte_of [reporting_triggers_volqu v; reporting_triggers_timqu v; reporting_triggers_envcl v;
              reporting_triggers_macar v; reporting_triggers_eveth v]];
  ie_load uninit len :=
    guard (len =? 2) (TlvBadLength 37 len) ;;;
    let* a := read_byte (u8 uninit) in
    let* b := read_byte (u8 uninit) in
    ret (mk_reporting_triggers_t (bit a 7) (bit a 6) (bit a 5) (bit a 4) (bit a 3) (bit a 2)
           (bit a 1) (bit a 0) false false false (bit b 4) (bit b 3) (bit b 2) (bit b 1) (bit b 0))
|}.

#[export] Instance report_type_ie : PfcpIe report_type_t := {|
  ie_type := 39;
  ie_check := no_check;
  ie_length _ := 1;
  ie_value _ v :=
    [byte_of [report_type_dldr v; report_type_usar v; report_type_erir v; report_type_upir v]];
  ie_load uninit len :=
    guard (len =? 1) (TlvBadLength 39 len) ;;;
    let* b := read_byte 0 in
    ret (mk_report_type_t (bit b 3) (bit b 2) (bit b 1) (bit b 0) 0)
|}.

#[export] Instance up_function_features_ie : PfcpIe up_function_features_s := {|
  ie_type := 43;
  ie_check := no_check;
  ie_length _ := 2;
  ie_value _ v :=
    [byte_of [up_function_features_bucp v; up_function_features_ddnd v;
              up_function_features_dlbd v; up_function_features_trst v;
              up_function_features_ftup v; up_function_features_pfdm v;
              up_function_features_heeu v; up_function_features_treu v]] ++
    [byte_of [up_function_features_empu v; up_function_features_pdiu v;
              up_function_features_udbc v; up_function_features_quoac v;
              up_function_features_trace v; up_function_features_frrt v]];
  ie_load uninit len :=
    guard (len =? 2) (TlvBadLength 43 len) ;;;
    let* a := read_byte 0 in
    let* b := read_byte 0 in
    ret (mk_up_function_features_s (bit a 0) (bit a 1) (bit a 2) (bit a 3) (bit a 4) (bit a 5)
           (bit a 6) (bit a 7) (bit b 0) (bit b 1) (bit b 2) (bit b 3) (bit b 4) (bit b 5) 0)
|}.

#[export] Instance cp_function_features_ie : PfcpIe cp_function_features_t := {|
  ie_type := 89;
  ie_check := no_check;
  ie_length _ := 1;
  ie_value _ v := [byte_of [cp_function_features_load v; cp_function_features_ovrl v]];
  ie_load uninit len :=
    guard (len =? 1) (TlvBadLength 89 len) ;;;
    let* b := read_byte 0 in
    ret (mk_cp_function_features_t 0 (bit b 1) (bit b 0))
|}.

Ltac bits_laws :=
  cbv beta iota zeta delta [ie_length ie_value ie_load reporting_triggers_ie report_type_ie
    up_function_features_ie cp_function_features_ie];
  rewrite <- ?app_assoc; cbn [app]; repeat read_step; rewrite ?bit_byte_of; cbn [nth].

(** The bits of every value are read back; spare bits are not sent. *)
#[export] Instance reporting_triggers_ie_laws : PfcpIeLaws reporting_triggers_t.
Proof.
  refine (@Build_PfcpIeLaws reporting_triggers_t _ (fun _ => True)
            (fun _ v => mk_reporting_triggers_t (reporting_triggers_liusa v)
               (reporting_triggers_droth v) (reporting_triggers_stop v) (reporting_triggers_start v)
               (reporting_triggers_quhti v) (reporting_triggers_timth v)
               (reporting_triggers_volth v) (reporting_triggers_perio v) false false false
               (reporting_triggers_eveth v) (reporting_triggers_macar v)
               (reporting_triggers_envcl v) (reporting_triggers_timqu v)
               (reporting_triggers_volqu v)) _ _ _ _); [done|done|..].
  - intros. now bits_laws.
  - intros. cbn. auto 20 with shrinks.
Defined.

#[export] Instance report_type_ie_laws : PfcpIeLaws report_type_t.
Proof.
  refine (@Build_PfcpIeLaws report_type_t _ (fun _ => True)
            (fun _ v => mk_report_type_t (report_type_upir v) (report_type_erir v)
               (report_type_usar v) (report_type_dldr v) 0) _ _ _ _); [done|done|..].
  - intros. now bits_laws.
  - intros. cbn. auto 20 with shrinks.
Defined.

#[export] Instance up_function_features_ie_laws : PfcpIeLaws up_function_features_s.
Proof.
  refine (@Build_PfcpIeLaws up_function_features_s _ (fun _ => True)
            (fun _ v => mk_up_function_features_s (up_function_features_bucp v)
               (up_function_features_ddnd v) (up_function_features_dlbd v)
               (up_function_features_trst v) (up_function_features_ftup v)
               (up_function_features_pfdm v) (up_function_features_heeu v)
               (up_function_features_treu v) (up_function_features_empu v)
               (up_function_features_pdiu v) (up_function_features_udbc v)
               (up_function_features_quoac v) (up_function_features_trace v)
               (up_function_features_frrt v) 0) _ _ _ _); [done|done|..].
  - intros. now bits_laws.
  - intros. cbn. auto 20 with shrinks.
Defined.

#[export] Instance cp_function_features_ie_laws : PfcpIeLaws cp_function_features_t.
Proof.
  refine (@Build_PfcpIeLaws cp_function_features_t _ (fun _ => True)
            (fun _ v => mk_cp_function_features_t 0 (cp_function_features_ovrl v)
               (cp_function_features_load v)) _ _ _ _); [done|done|..].
  - intros. now bits_laws.
  - intros. cbn. auto 20 with shrinks.
Defined.

(** ** IE NODE_ID *)

(** The union of the core type: an IPv4 address is its first four bytes. *)
#[export] Instance node_id_ie : PfcpIe node_id_t := {|
  ie_type := 60;
  ie_check v :=
    if node_id_node_id_type v =? 2 then
      match string_to_dotted 0 (node_id_fqdn v) with Some _ => None | None => Some (Diverges 60) end
    else None;
  ie_length v :=
    match node_id_node_id_type v with
    | 0 => 1 + 4
    | 1 => 1 + 16
    | 2 => u16 (1 + (Z.of_nat (length (node_id_fqdn v)) + 1))
    | _ => 1
    end;
  ie_value uninit v :=
    [node_id_node_id_type v mod 16] ++
    match node_id_node_id_type v with
    | 0 => take 4 (node_id_u1 v)
    | 1 => node_id_u1 v
    | 2 => default [] (string_to_dotted uninit (node_id_fqdn v))
    | _ => []
    end;
  ie_load uninit len :=
    let* b := read_byte (u8 uninit) in
    let check_length := u16 (len - 1) in
    let node_id_type := b mod 16 in
    match node_id_type with
    | 0 =>
        guard (check_length =? 4) (TlvBadLength 60 len) ;;;
        let* a := is_read (repeat (u8 uninit) 4) in
        ret (mk_node_id_t 0 node_id_type (a ++ repeat 0 12) [])
    | 1 =>
        guard (check_length =? 16) (TlvBadLength 60 len) ;;;
        let* a := read_ipv6 (repeat (u8 uninit) 16) in
        ret (mk_node_id_t 0 node_id_type a [])
    | 2 =>
        guard (negb (check_length =? 0)) (TlvBadLength 60 len) ;;;
        let* e := read_string uninit (Z.to_nat check_length) in
        match dotted_to_string e with
        | Some (Name fqdn) => ret (mk_node_id_t 0 node_id_type zeros16 fqdn)
        | Some LengthErrorThrown => raise LengthError
        | None => raise (Diverges 60)
        end
    | _ => ret (mk_node_id_t 0 node_id_type zeros16 [])
    end
|}.

(** Names are those of [fqdn_roundtrip]. *)
Definition node_id_wf (v : node_id_t) : Prop :=
  0 <= node_id_node_id_type v < 16 /\
  (node_id_node_id_type v = 0 \/ node_id_node_id_type v = 1 -> length (node_id_u1 v) = 16%nat) /\
  (node_id_node_id_type v = 2 ->
   exists w ws, node_id_fqdn v = join w ws /\ Forall label_ok (w :: ws) /\
     (length (join w ws) < 256)%nat).

Definition node_id_norm (v : node_id_t) : node_id_t :=
  match node_id_node_id_type v with
  | 0 => mk_node_id_t 0 0 (take 4 (node_id_u1 v) ++ repeat 0 12) []
  | 1 => mk_node_id_t 0 1 (node_id_u1 v) []
  | 2 => mk_node_id_t 0 2 zeros16 (node_id_fqdn v)
  | _ => mk_node_id_t 0 (node_id_node_id_type v) zeros16 []
  end.

(** The cases of the type, as the [switch] distinguishes them. *)
Lemma node_id_type_cases t : t = 0 \/ t = 1 \/ t = 2 \/ (t <> 0 /\ t <> 1 /\ t <> 2).
Proof. lia. Qed.

Lemma match_other_type {A} t (a b c d : A) :
  t <> 0 -> t <> 1 -> t <> 2 ->
  match t with 0 => a | 1 => b | 2 => c | _ => d end = d.
Proof. intros. destruct t as [|[p|[p|p|]|]|]; done. Qed.

#[export] Instance node_id_ie_laws : PfcpIeLaws node_id_t.
Proof.
  refine (@Build_PfcpIeLaws node_id_t _ node_id_wf (fun _ => node_id_norm) _ _ _ _);
    cbv beta iota zeta delta [ie_check ie_length ie_value ie_load node_id_ie].
  - intros [sp t u f] (H1 & H2 & H3). cbn [node_id_node_id_type node_id_fqdn] in *.
    destruct (Z.eqb_spec t 2) as [->|]; [|done].
    destruct (H3 eq_refl) as (w & ws & -> & Hok & Hn). now rewrite string_to_dotted_labels.
  - intros uninit [sp t u f] (H1 & H2 & H3).
    cbn [node_id_node_id_type node_id_fqdn node_id_u1] in *.
    destruct (node_id_type_cases t) as [->|[->|[->|(N0 & N1 & N2)]]].
    + rewrite !length_app, length_take, H2 by auto. cbn. lia.
    + rewrite !length_app, H2 by auto. cbn. lia.
    + destruct (H3 eq_refl) as (w & ws & -> & Hok & Hn).
      rewrite string_to_dotted_labels by done. cbn [default from_option id].
      pose proof (length_join w ws) as Hl. rewrite u16_id by lia.
      rewrite length_app, Hl. cbn [length]. lia.
    + rewrite !match_other_type by done. cbn. lia.
  - intros u1 u2 [sp t u f] rest (H1 & H2 & H3).
    unfold node_id_norm. cbn [node_id_node_id_type node_id_fqdn node_id_u1] in *.
    rewrite Z.mod_small by lia. rewrite <- app_assoc. cbn [app]. read_step.
    rewrite Z.mod_small by lia.
    destruct (node_id_type_cases t) as [->|[->|[->|(N0 & N1 & N2)]]].
    + change (u16 _ =? 4) with true. read_step.
      erewrite bind_ok by (apply is_read_app; rewrite length_take, repeat_length, H2 by auto; done).
      done.
    + change (u16 _ =? 16) with true. read_step.
      erewrite bind_ok by (apply read_ipv6_app; rewrite repeat_length, H2 by auto; done).
      done.
    + destruct (H3 eq_refl) as (w & ws & -> & Hok & Hn).
      rewrite string_to_dotted_labels by done. cbn [default from_option id].
      pose proof (length_join w ws) as Hl.
      rewrite (u16_id (1 + _)), u16_id by lia.
      rewrite (proj2 (Z.eqb_neq _ 0)) by lia. read_step.
      erewrite bind_ok by (apply read_string_app; lia).
      rewrite dotted_to_string_labels; [done|done|lia].
    + rewrite !match_other_type by done. done.
  - intros uninit len. apply shrinks_bind; [auto with shrinks|]. intros b.
    destruct (node_id_type_cases (b mod 16)) as [->|[->|[->|(N0 & N1 & N2)]]];
      [auto 20 with shrinks..| |].
    + apply shrinks_bind; [auto with shrinks|]. intros _.
      apply shrinks_bind; [auto with shrinks|]. intros e.
      destruct (dotted_to_string e) as [[|]|]; auto with shrinks.
    + rewrite match_other_type by done. auto with shrinks.
Defined.

(** A name that starts with a label of length 255. *)
Lemma node_id_255 uninit rest :
  Z.of_nat (length rest) < 65534 ->
  ie_load (T := node_id_t) uninit (Z.of_nat (length rest) + 2) (of_bytes (2 :: 255 :: rest)) =
    (Err (Diverges 60), of_bytes []).
Proof.
  intros Hn. cbv beta iota zeta delta [ie_load node_id_ie].
  rewrite (bind_ok _ _ _ _ _ (read_byte_enc (u8 uninit) 2 (255 :: rest) ltac:(lia))).
  change (2 mod 16) with 2. cbv iota. rewrite u16_id, (proj2 (Z.eqb_neq _ 0)) by lia. read_step.
  rewrite <- (app_nil_r (255 :: rest)).
  erewrite bind_ok by (apply read_string_app; cbn [length]; lia).
  unfold dotted_to_string. now rewrite name_255_loops.
Qed.

(** ** Elements that are not read back *)

(** IE NODE_REPORT_TYPE.  The constructor does not look at the value, and
    [to_core_type] writes into the element instead of the value; the factory
    does not know the element. *)
#[export] Instance node_report_type_ie : PfcpIe node_report_type_t := {|
  ie_type := 101;
  ie_check := no_check;
  ie_length _ := 1;
  ie_value _ v := [0];
  ie_load uninit len :=
    guard (len =? 1) (TlvBadLength 101 len) ;;;
    let* b := read_byte 0 in
    ret (mk_node_report_type_t 0 false)
|}.

#[export] Instance node_report_type_ie_laws : PfcpIeLaws node_report_type_t.
Proof.
  refine (@Build_PfcpIeLaws node_report_type_t _ (fun _ => False) (fun _ v => v) _ _ _ _);
    [done..|].
  intros. cbn. auto 20 with shrinks.
Defined.

(** IE FAILED_RULE_ID.  The length counts the identifier and not the byte in
    front of it; [load_from] demands the length 1 before it looks at the type. *)
Definition failed_rule_id_length (t : Z) : Z :=
  match t with
  | 4 => 1
  | 0 => 2
  | 1 | 2 | 3 => 4
  | _ => 0
  end.

#[export] Instance failed_rule_id_ie : PfcpIe failed_rule_id_t := {|
  ie_type := 114;
  ie_check v :=
    if failed_rule_id_length (failed_rule_id_rule_id_type v) =? 0
    then Some (TlvBadLength 114 0) else None;
  ie_length v := failed_rule_id_length (failed_rule_id_rule_id_type v);
  ie_value _ v :=
    [failed_rule_id_rule_id_type v mod 32] ++
    match failed_rule_id_length (failed_rule_id_rule_id_type v) with
    | 1 => [u8 (failed_rule_id_rule_id_value v)]
    | 2 => be_enc 2 (failed_rule_id_rule_id_value v)
    | 4 => be_enc 4 (failed_rule_id_rule_id_value v)
    | _ => []
    end;
  ie_load uninit len :=
    guard (len =? 1) (TlvBadLength 114 len) ;;;
    let* b := read_byte 0 in
    let t := b mod 32 in
    if t =? 4 then
      guard (len =? 1) (TlvBadLength 114 len) ;;;
      let* x := read_byte (u8 uninit) in ret (mk_failed_rule_id_t 0 t x)
    else if t =? 0 then
      guard (len =? 2) (TlvBadLength 114 len) ;;;
      let* x := read_be 2 uninit in ret (mk_failed_rule_id_t 0 t x)
    else if (t =? 1) || (t =? 2) || (t =? 3) then
      guard (len =? 4) (TlvBadLength 114 len) ;;;
      let* x := read_be 4 uninit in ret (mk_failed_rule_id_t 0 t x)
    else raise (IeValue 114)
|}.

#[export] Instance failed_rule_id_ie_laws : PfcpIeLaws failed_rule_id_t.
Proof.
  refine (@Build_PfcpIeLaws failed_rule_id_t _ (fun _ => False) (fun _ v => v) _ _ _ _);
    [done..|].
  intros. apply shrinks_bind; [auto with shrinks|intros _].
  apply shrinks_bind; [auto with shrinks|intros b]. cbv zeta.
  destruct (_ =? 4); [auto 20 with shrinks|]. destruct (_ =? 0); [auto 20 with shrinks|].
  destruct (_ || _); auto 20 with shrinks.
Defined.

(** IE USER_PLANE_IP_RESOURCE_INFORMATION.  The TEID range, one byte, is dumped
    in four and not counted; the network instance, two bytes, in four.  On the
    way back the range is one byte that [be32toh] shifts out. *)
#[export] Instance user_plane_ip_resource_information_ie
    : PfcpIe user_plane_ip_resource_information_t := {|
  ie_type := 116;
  ie_check := no_check;
  ie_length v :=
    1 + (if user_plane_ip_resource_information_v4 v then 4 else 0) +
    (if user_plane_ip_resource_information_v6 v then 16 else 0) +
    (if user_plane_ip_resource_information_assoni v then 2 else 0) +
    (if user_plane_ip_resource_information_assosi v then 1 else 0);
  ie_value _ v :=
    [Z.b2z (user_plane_ip_resource_information_v4 v) +
     2 * Z.b2z (user_plane_ip_resource_information_v6 v) +
     4 * (user_plane_ip_resource_information_teidri v mod 8) +
     32 * Z.b2z (user_plane_ip_resource_information_assoni v) +
     64 * Z.b2z (user_plane_ip_resource_information_assosi v)] ++
    be_enc 4 (user_plane_ip_resource_information_teid_range v) ++
    bytes_if (user_plane_ip_resource_information_v4 v)
      (le_enc 4 (user_plane_ip_resource_information_ipv4_address v)) ++
    bytes_if (user_plane_ip_resource_information_v6 v)
      (user_plane_ip_resource_information_ipv6_address v) ++
    bytes_if (user_plane_ip_resource_information_assoni v)
      (be_enc 4 (user_plane_ip_resource_information_network_instance v)) ++
    bytes_if (user_plane_ip_resource_information_assosi v)
      [user_plane_ip_resource_information_source_interface v mod 16];
  ie_load uninit len :=
    guard (negb (len <? 1)) (TlvBadLength 116 len) ;;;
    let* b := read_byte 0 in
    let* r := read_byte 0 in
    let teid_range := u8 (htonl r) in
    let v4 := bit b 0 in let v6 := bit b 1 in
    let assoni := bit b 5 in let assosi := bit b 6 in
    let* ipv4 := when v4 (read_ipv4 0) 0 in
    let* ipv6 := when v6 (read_ipv6 zeros16) zeros16 in
    let* ni := when assoni (read_be 2 0) 0 in
    let* si := when assosi (read_byte 0) 0 in
    ret (mk_user_plane_ip_resource_information_t false assosi assoni (b / 4 mod 8) v6 v4 teid_range
           ipv4 ipv6 ni (si mod 16))
|}.

#[export] Instance user_plane_ip_resource_information_ie_laws
    : PfcpIeLaws user_plane_ip_resource_information_t.
Proof.
  refine (@Build_PfcpIeLaws user_plane_ip_resource_information_t _ (fun _ => False)
            (fun _ v => v) _ _ _ _); [done..|].
  intros. cbn. auto 30 with shrinks.
Defined.

(** The TEID range never arrives. *)
Lemma be32toh_byte r : 0 <= r < 256 -> u8 (htonl r) = 0.
Proof.
  intros Hr. unfold htonl. change (le_enc 4 r) with (r mod 256 :: le_enc 3 (r / 256)).
  rewrite Z.div_small, Z.mod_small by lia. change (le_enc 3 0) with [0; 0; 0].
  unfold be_dec, u8. cbn [rev app le_dec]. change (2 ^ 8) with 256.
  replace (0 + 256 * (0 + 256 * (0 + 256 * (r + 256 * 0)))) with (r * 65536 * 256) by lia.
  now rewrite Z_mod_mult.
Qed.

(** IE USER_ID.  [dump_to] counts the parts a second time; it computes the
    number of bytes of the IMSI and the MSISDN from their digits, and marks the
    last half byte of an odd number. *)
Definition bcd_length (num_digits : Z) : Z := let n := Z.min num_digits 15 in n / 2 + n mod 2.

Definition bcd_bytes (b : list Z) (num_digits : Z) : list Z :=
  let n := Z.min num_digits 15 in
  let i := Z.to_nat (n / 2) in
  take (Z.to_nat (bcd_length num_digits))
    (if n mod 2 =? 1 then <[i := Z.lor (nth i b 0) 0xF0]> b else b).

(** [length] bytes into an array of eight, and the digits they stand for; the
    code then looks at the byte before position [length]. *)
Definition bcd_load (uninit length : Z) : stream (list Z * Z) :=
  if (0 <? length) && (length <=? 8) then
    let* l := is_read (repeat 0 (Z.to_nat length)) in
    let b := l ++ repeat 0 (8 - Z.to_nat length) in
    let filler := Z.land (nth (Z.to_nat length - 1) b 0) 0xF0 =? 0xF0 in
    ret (b, length * 2 - (if filler then 1 else 0))
  else raise (OutOfArray 141).

Definition user_id_lengths (v : user_id_t) (imsi msisdn : Z) : Z :=
  (if user_id_imsif v then 1 + imsi else 0) +
  (if user_id_imeif v then 1 + user_id_length_of_imei v else 0) +
  (if user_id_msisdnf v then 1 + msisdn else 0) +
  (if user_id_naif v then 1 + user_id_length_of_nai v else 0).

#[export] Instance user_id_ie : PfcpIe user_id_t := {|
  ie_type := 141;
  ie_check := no_check;
  ie_length v :=
    u16 (1 + user_id_lengths v (user_id_length_of_imsi v) (user_id_length_of_msisdn v) +
         user_id_lengths v (bcd_length (imsi_num_digits (user_id_imsi v)))
           (bcd_length (msisdn_num_digits (user_id_msisdn v))));
  ie_value _ v :=
    let imsi := bcd_bytes (imsi_b (user_id_imsi v)) (imsi_num_digits (user_id_imsi v)) in
    let msisdn := bcd_bytes (msisdn_b (user_id_msisdn v)) (msisdn_num_digits (user_id_msisdn v)) in
    [byte_of [user_id_imsif v; user_id_imeif v; user_id_msisdnf v; user_id_naif v]] ++
    bytes_if (user_id_imsif v) (Z.of_nat (length imsi) :: imsi) ++
    bytes_if (user_id_imeif v) (user_id_length_of_imei v :: user_id_imei v) ++
    bytes_if (user_id_msisdnf v) (Z.of_nat (length msisdn) :: msisdn) ++
    bytes_if (user_id_naif v) (user_id_length_of_nai v :: user_id_nai v);
  ie_load uninit len :=
    guard (len =? 1) (TlvBadLength 141 len) ;;;
    let* f := read_byte (u8 uninit) in
    let imsif := bit f 0 in let imeif := bit f 1 in
    let msisdnf := bit f 2 in let naif := bit f 3 in
    let* l1 := when imsif (read_byte (u8 uninit)) 0 in
    let* imsi := when imsif (bcd_load uninit l1) (repeat 0 8, 0) in
    let* l2 := when imeif (read_byte (u8 uninit)) 0 in
    let* imei := when imeif (read_string uninit (Z.to_nat l2)) [] in
    let* l3 := when msisdnf (read_byte (u8 uninit)) 0 in
    let* msisdn := when msisdnf (bcd_load uninit l3) (repeat 0 8, 0) in
    let* l4 := when naif (read_byte (u8 uninit)) 0 in
    let* nai := when naif (read_string uninit (Z.to_nat l4)) [] in
    ret (mk_user_id_t 0 naif msisdnf imeif imsif
           l1 (mk_imsi_t (fst imsi) (Z.min (snd imsi) 15)) l2 imei
           l3 (mk_msisdn_t (fst msisdn) (snd msisdn)) l4 nai)
|}.

Lemma shrinks_bcd_load uninit length : shrinks (bcd_load uninit length).
Proof. unfold bcd_load. destruct (_ && _); auto with shrinks. Qed.
#[export] Hint Resolve shrinks_bcd_load : shrinks.

(** Only the identifier without any part is read back. *)
#[export] Instance user_id_ie_laws : PfcpIeLaws user_id_t.
Proof.
  refine (@Build_PfcpIeLaws user_id_t _
            (fun v => user_id_imsif v = false /\ user_id_imeif v = false /\
                      user_id_msisdnf v = false /\ user_id_naif v = false)
            (fun _ _ => inhabitant) _ _ _ _); [done|..];
    cbv beta iota zeta delta [ie_length ie_value ie_load user_id_ie user_id_lengths].
  - intros u v (-> & -> & -> & ->). split; [reflexivity|]. split; reflexivity.
  - intros u1 u2 v rest (-> & -> & -> & ->). cbn [bytes_if app]. change (u16 _ =? 1) with true.
    repeat read_step. rewrite !bit_byte_of. cbn [nth when]. reflexivity.
  - intros. auto 40 with shrinks.
Defined.
