(* ===== verification/PfcpCodec.v ===== *)
(** * Elements and messages of PFCP as bytes (src/src/oai/pfcp/3gpp_29.244.hpp)

    TLVs, grouped elements ([pfcp_grouped_ie]), the element factory
    [new_pfcp_ie_from_stream] (3gpp_29.244.cpp), the header and the message
    ([pfcp_msg_header], [pfcp_msg]).  An element object is a tree; the length
    in its TLV is a function of the tree, as the constructors and [add_ie]
    compute it, and a loaded object comes with the length it was loaded with,
    which only the loop that loads it reads.  The recursion of the factory
    over nested groups has fuel; [stream_fuel] is enough for every stream. *)
From Stdlib Require Import ZArith Lia List Bool.
From stdpp Require Import base list.
From S2P Require Import Prelude PfcpStream PfcpTypes PfcpIes PfcpNodeIes.
Open Scope Z_scope.
Open Scope upf_scope.

(** ** Element objects *)

(** The classes that are not grouped, over their core types. *)
Inductive leaf : Type :=
| Cause (v : cause_t)
| SourceInterface (v : source_interface_t)
| FTeid (v : fteid_t)
| NetworkInstance (v : network_instance_t)
| SdfFilter (v : sdf_filter_t)
| ApplicationId (v : application_id_t)
| GateStatus (v : gate_status_t)
| Mbr (v : mbr_t)
| Gbr (v : gbr_t)
| QerCorrelationId (v : qer_correlation_id_t)
| Precedence (v : precedence_t)
| TransportLevelMarking (v : transport_level_marking_t)
| OffendingIe (v : offending_ie_t)
| ForwardingPolicy (v : forwarding_policy_t)
| DestinationInterface (v : destination_interface_t)
| ApplyAction (v : apply_action_t)
| PdrId (v : pdr_id_t)
| FSeid (v : fseid_t)
| UrrId (v : urr_id_t)
| OuterHeaderCreation (v : outer_header_creation_t)
| BarId (v : bar_id_t)
| UeIpAddress (v : ue_ip_address_t)
| OuterHeaderRemoval (v : outer_header_removal_t)
| RecoveryTimeStamp (v : recovery_time_stamp_t)
| ActivatePredefinedRules (v : activate_predefined_rules_t)
| DeactivatePredefinedRules (v : deactivate_predefined_rules_t)
| FarId (v : far_id_t)
| QerId (v : qer_id_t)
| UserPlaneInactivityTimer (v : user_plane_inactivity_timer_t)
| Qfi (v : qfi_t)
| VolumeThreshold (v : volume_threshold_t)
| TimeThreshold (v : time_threshold_t)
| MonitoringTime (v : monitoring_time_t)
| SubsequentVolumeThreshold (v : subsequent_volume_threshold_t)
| SubsequentTimeThreshold (v : subsequent_time_threshold_t)
| InactivityDetectionTime (v : inactivity_detection_time_t)
| ReportingTriggers (v : reporting_triggers_t)
| ReportType (v : report_type_t)
| UpFunctionFeatures (v : up_function_features_s)
| NodeId (v : node_id_t)
| CpFunctionFeatures (v : cp_function_features_t)
| NodeReportType (v : node_report_type_t)
| FailedRuleId (v : failed_rule_id_t)
| UserPlaneIpResourceInformation (v : user_plane_ip_resource_information_t)
| UserId (v : user_id_t).

(** The core type of a leaf, its way back and its value. *)
Definition leaf_case {R : Type} (l : leaf)
    (f : forall (T : Type) (I : PfcpIe T) (L : PfcpIeLaws T), (T -> leaf) -> T -> R) : R :=
  match l with
  | Cause v => f _ _ _ Cause v
  | SourceInterface v => f _ _ _ SourceInterface v
  | FTeid v => f _ _ _ FTeid v
  | NetworkInstance v => f _ _ _ NetworkInstance v
  | SdfFilter v => f _ _ _ SdfFilter v
  | ApplicationId v => f _ _ _ ApplicationId v
  | GateStatus v => f _ _ _ GateStatus v
  | Mbr v => f _ _ _ Mbr v
  | Gbr v => f _ _ _ Gbr v
  | QerCorrelationId v => f _ _ _ QerCorrelationId v
  | Precedence v => f _ _ _ Precedence v
  | TransportLevelMarking v => f _ _ _ TransportLevelMarking v
  | OffendingIe v => f _ _ _ OffendingIe v
  | ForwardingPolicy v => f _ _ _ ForwardingPolicy v
  | DestinationInterface v => f _ _ _ DestinationInterface v
  | ApplyAction v => f _ _ _ ApplyAction v
  | PdrId v => f _ _ _ PdrId v
  | FSeid v => f _ _ _ FSeid v
  | UrrId v => f _ _ _ UrrId v
  | OuterHeaderCreation v => f _ _ _ OuterHeaderCreation v
  | BarId v => f _ _ _ BarId v
  | UeIpAddress v => f _ _ _ UeIpAddress v
  | OuterHeaderRemoval v => f _ _ _ OuterHeaderRemoval v
  | RecoveryTimeStamp v => f _ _ _ RecoveryTimeStamp v
  | ActivatePredefinedRules v => f _ _ _ ActivatePredefinedRules v
  | DeactivatePredefinedRules v => f _ _ _ DeactivatePredefinedRules v
  | FarId v => f _ _ _ FarId v
  | QerId v => f _ _ _ QerId v
  | UserPlaneInactivityTimer v => f _ _ _ UserPlaneInactivityTimer v
  | Qfi v => f _ _ _ Qfi v
  | VolumeThreshold v => f _ _ _ VolumeThreshold v
  | TimeThreshold v => f _ _ _ TimeThreshold v
  | MonitoringTime v => f _ _ _ MonitoringTime v
  | SubsequentVolumeThreshold v => f _ _ _ SubsequentVolumeThreshold v
  | SubsequentTimeThreshold v => f _ _ _ SubsequentTimeThreshold v
  | InactivityDetectionTime v => f _ _ _ InactivityDetectionTime v
  | ReportingTriggers v => f _ _ _ ReportingTriggers v
  | ReportType v => f _ _ _ ReportType v
  | UpFunctionFeatures v => f _ _ _ UpFunctionFeatures v
  | NodeId v => f _ _ _ NodeId v
  | CpFunctionFeatures v => f _ _ _ CpFunctionFeatures v
  | NodeReportType v => f _ _ _ NodeReportType v
  | FailedRuleId v => f _ _ _ FailedRuleId v
  | UserPlaneIpResourceInformation v => f _ _ _ UserPlaneIpResourceInformation v
  | UserId v => f _ _ _ UserId v
  end.

Definition leaf_type (l : leaf) : Z := leaf_case l (fun T I L mk v => ie_type (T := T)).
Definition leaf_check (l : leaf) : option pfcp_error := leaf_case l (fun T I L mk v => ie_check v).
Definition leaf_length (l : leaf) : Z := leaf_case l (fun T I L mk v => ie_length v).
Definition leaf_value (uninit : Z) (l : leaf) : list Z :=
  leaf_case l (fun T I L mk v => ie_value uninit v).
Definition leaf_wf (l : leaf) : Prop := leaf_case l (fun T I L mk v => ie_wf v).
Definition leaf_norm (uninit : Z) (l : leaf) : leaf :=
  leaf_case l (fun T I L mk v => mk (ie_norm uninit v)).

Unset Elimination Schemes.
Inductive pfcp_ie : Type :=
| Leaf (l : leaf)
| Group (type : Z) (ies : list pfcp_ie).
Set Elimination Schemes.

Fixpoint pfcp_ie_ind (P : pfcp_ie -> Prop) (Hl : forall l, P (Leaf l))
    (Hg : forall ty ies, List.Forall P ies -> P (Group ty ies)) (i : pfcp_ie) : P i :=
  match i with
  | Leaf l => Hl l
  | Group ty ies =>
      Hg ty ies
        (list_ind (List.Forall P) (@List.Forall_nil _ P)
           (fun i' l => @List.Forall_cons _ P i' l (pfcp_ie_ind P Hl Hg i')) ies)
  end.

(** [tlv.get_length()] of a constructed object; [add_ie] adds on 16 bits. *)
Fixpoint tlv_length (i : pfcp_ie) : Z :=
  match i with
  | Leaf l => leaf_length l
  | Group _ ies => fold_left (fun n len => u16 (n + (4 + len))) (map tlv_length ies) 0
  end.

Definition tlv_type (i : pfcp_ie) : Z :=
  match i with Leaf l => leaf_type l | Group ty _ => ty end.

(** [pfcp_tlv::dump_to] of a TLV without an enterprise (identifier 0). *)
Definition tlv_bytes (type length : Z) : list Z :=
  be_enc 2 type ++ be_enc 2 length ++ bytes_if (Z.testbit type 15) (be_enc 2 0).

(** The bytes [dump_to] writes when it does not throw, and what it throws. *)
Fixpoint ie_bytes (uninit : Z) (i : pfcp_ie) : list Z :=
  match i with
  | Leaf l => tlv_bytes (leaf_type l) (leaf_length l) ++ leaf_value uninit l
  | Group ty ies => tlv_bytes ty (tlv_length i) ++ concat (map (ie_bytes uninit) ies)
  end.

Definition first_error (l : list (option pfcp_error)) : option pfcp_error :=
  fold_right (fun e r => match e with Some _ => e | None => r end) None l.

Fixpoint dump_check (i : pfcp_ie) : option pfcp_error :=
  match i with
  | Leaf l => leaf_check l
  | Group _ ies => first_error (map dump_check ies)
  end.

(** ** The factory *)

Definition load_as {T : Type} {I : PfcpIe T} (mk : T -> leaf) (uninit len : Z) : stream leaf :=
  let* v := ie_load uninit len in ret (mk v).

(** The cases of the [switch] for elements that are not grouped. *)
Definition leaf_loader (ty : Z) : option (Z -> Z -> stream leaf) :=
  match ty with
  | 19 => Some (load_as Cause)
  | 20 => Some (load_as SourceInterface)
  | 21 => Some (load_as FTeid)
  | 22 => Some (load_as NetworkInstance)
  | 23 => Some (load_as SdfFilter)
  | 24 => Some (load_as ApplicationId)
  | 25 => Some (load_as GateStatus)
  | 26 => Some (load_as Mbr)
  | 27 => Some (load_as Gbr)
  | 28 => Some (load_as QerCorrelationId)
  | 29 => Some (load_as Precedence)
  | 30 => Some (load_as TransportLevelMarking)
  | 31 => Some (load_as VolumeThreshold)
  | 32 => Some (load_as TimeThreshold)
  | 33 => Some (load_as MonitoringTime)
  | 34 => Some (load_as SubsequentVolumeThreshold)
  | 35 => Some (load_as SubsequentTimeThreshold)
  | 36 => Some (load_as InactivityDetectionTime)
  | 37 => Some (load_as ReportingTriggers)
  | 39 => Some (load_as ReportType)
  | 40 => Some (load_as OffendingIe)
  | 41 => Some (load_as ForwardingPolicy)
  | 42 => Some (load_as DestinationInterface)
  | 43 => Some (load_as UpFunctionFeatures)
  | 44 => Some (load_as ApplyAction)
  | 56 => Some (load_as PdrId)
  | 57 => Some (load_as FSeid)
  | 60 => Some (load_as NodeId)
  | 81 => Some (load_as UrrId)
  | 84 => Some (load_as OuterHeaderCreation)
  | 88 => Some (load_as BarId)
  | 89 => Some (load_as CpFunctionFeatures)
  | 93 => Some (load_as UeIpAddress)
  | 95 => Some (load_as OuterHeaderRemoval)
  | 96 => Some (load_as RecoveryTimeStamp)
  | 106 => Some (load_as ActivatePredefinedRules)
  | 107 => Some (load_as DeactivatePredefinedRules)
  | 108 => Some (load_as FarId)
  | 109 => Some (load_as QerId)
  | 114 => Some (load_as FailedRuleId)
  | 116 => Some (load_as UserPlaneIpResourceInformation)
  | 117 => Some (load_as UserPlaneInactivityTimer)
  | 124 => Some (load_as Qfi)
  | 141 => Some (load_as UserId)
  | _ => None
  end.

(** The grouped elements: Create PDR (1) to Remove QER (18), Downlink Data
    Report. *)
Definition is_group (ty : Z) : bool := (1 <=? ty) && (ty <=? 18) || (ty =? 83).

(** [pfcp_tlv::load_from] on a new TLV: type and length. *)
Definition tlv_load : stream (Z * Z) :=
  let* type := read_be 2 0 in
  let* length := read_be 2 0 in
  let* enterprise_id := when (Z.testbit type 15) (read_be 2 0) 0 in
  ret (type, length).

(** [new_pfcp_ie_from_stream]: [None] is the null pointer; otherwise the
    length in the TLV and the object. [load_ies] is the loop of
    [pfcp_grouped_ie::load_from] for a group of type [ty] and length [len]. *)
Fixpoint load_ie (uninit : Z) (fuel : nat) : stream (option (Z * pfcp_ie)) :=
  match fuel with
  | O => raise OutOfFuel
  | S fuel =>
      let* tlv := tlv_load in
      let (ty, len) := tlv in
      if len =? 0 then ret None
      else if is_group ty then
        let* ies := load_ies uninit fuel ty len len in ret (Some (len, Group ty ies))
      else
        match leaf_loader ty with
        | Some load => let* l := load uninit len in ret (Some (len, Leaf l))
        | None => ret None
        end
  end
with load_ies (uninit : Z) (fuel : nat) (ty len remaining_size : Z) : stream (list pfcp_ie) :=
  match fuel with
  | O => raise OutOfFuel
  | S fuel =>
      if 0 <? remaining_size then
        let* o := load_ie uninit fuel in
        match o with
        | Some (l, ie) =>
            let* ies := load_ies uninit fuel ty len (remaining_size - (l + 4)) in
            ret (ie :: ies)
        | None => raise (TlvBadLength ty len)
        end
      else ret []
  end.

Definition stream_fuel (s : istream) : nat := 2 * length (left_bytes s) + 2.

Definition new_pfcp_ie_from_stream (uninit : Z) : stream (option (Z * pfcp_ie)) :=
  fun s => load_ie uninit (stream_fuel s) s.

(** ** Termination: an element takes at least three bytes *)

Lemma tlv_load_takes s ty len s' :
  tlv_load s = (Ok (ty, len), s') -> len <> 0 ->
  (length (left_bytes s') + 3 <= length (left_bytes s))%nat.
Proof.
  unfold tlv_load. intros H Hn.
  apply bind_ok_inv in H as (ty' & s1 & H1 & H). apply bind_ok_inv in H as (len' & s2 & H2 & H).
  apply bind_ok_inv in H as (e & s3 & H3 & H). injection H as -> -> <-.
  assert (length (left_bytes s3) <= length (left_bytes s2))%nat as H3'.
  { eapply shrinks_when in H3 as [? _]; [done|]. auto with shrinks. }
  enough (length (left_bytes s2) + 3 <= length (left_bytes s))%nat by lia. clear H3 H3'.
  destruct s as [l f]. cbn [left_bytes]. destruct f.
  { injection H1 as <- <-. injection H2 as <- <-. done. }
  destruct l as [|a [|b [|c [|d l]]]]; injection H1 as <- <-; injection H2 as <- <-;
    try done. cbn. rewrite drop_0. lia.
Qed.

Lemma leaf_loader_shrinks ty load uninit len : leaf_loader ty = Some load -> shrinks (load uninit len).
Proof.
  unfold leaf_loader. repeat case_match; try discriminate; intros [= <-];
    (apply shrinks_bind; [apply ie_load_shrinks|intros; apply shrinks_ret]).
Qed.

Lemma shrinks_tlv_load : shrinks tlv_load.
Proof. unfold tlv_load. auto 10 with shrinks. Qed.

(** Enough fuel for an element, and for the loop of a group. *)
Lemma load_fuel uninit fuel :
  (forall s r s',
     (2 * length (left_bytes s) + 1 <= fuel)%nat -> load_ie uninit fuel s = (r, s') ->
     (length (left_bytes s') <= length (left_bytes s))%nat /\ r <> Err OutOfFuel /\
     (forall o, r = Ok (Some o) -> (length (left_bytes s') + 3 <= length (left_bytes s))%nat)) /\
  (forall ty len rem s r s',
     (2 * length (left_bytes s) + 2 <= fuel)%nat -> load_ies uninit fuel ty len rem s = (r, s') ->
     (length (left_bytes s') <= length (left_bytes s))%nat /\ r <> Err OutOfFuel).
Proof.
  induction fuel as [|fuel [IHe IHl]];
    (split; [intros s r s' Hf|intros ty len rem s r s' Hf]); [lia|lia|..]; cbn [load_ie load_ies].
  - unfold bind at 1. destruct (tlv_load s) as [[[ty len]|e] s1] eqn:E;
      pose proof (shrinks_tlv_load _ _ _ E) as [H1 H2].
    2:{ intros [= <- <-]. split; [done|]. split; [congruence|discriminate]. }
    destruct (len =? 0) eqn:Hl; [intros [= <- <-]; split; [done|]; split; [done|discriminate]|].
    apply Z.eqb_neq in Hl. pose proof (tlv_load_takes _ _ _ _ E Hl) as H3.
    destruct (is_group ty); [|destruct (leaf_loader ty) as [load|] eqn:El].
    + unfold bind. destruct (load_ies _ _ _ _ _ _) as [[ies|e] s2] eqn:E2;
        (apply IHl in E2 as [H4 H5]; [|lia]); intros [= <- <-]; (split; [lia|]);
        (split; [congruence|]); [|discriminate]. intros o _. lia.
    + unfold bind. destruct (load uninit len s1) as [[l|e] s2] eqn:E2;
        apply (leaf_loader_shrinks _ _ _ _ El) in E2 as [H4 H5]; intros [= <- <-];
        (split; [lia|]); (split; [congruence|]); [|discriminate]. intros o _. lia.
    + intros [= <- <-]. split; [lia|]. split; [done|discriminate].
  - destruct (0 <? rem); [|intros [= <- <-]; done].
    unfold bind at 1. destruct (load_ie uninit fuel s) as [[o|e] s1] eqn:E;
      (apply IHe in E as (H1 & H2 & H3); [|lia]); [|intros [= <- <-]; split; [done|congruence]].
    destruct o as [[l ie]|]; [|intros [= <- <-]; done].
    specialize (H3 _ eq_refl). unfold bind.
    destruct (load_ies _ _ _ _ _ _) as [[ies|e] s2] eqn:E2;
      (apply IHl in E2 as [H4 H5]; [|lia]); intros [= <- <-]; (split; [lia|]); congruence.
Qed.

(** ** Round trip of element trees *)

(** The length of the value before it is cut to 16 bits. *)
Fixpoint ie_size (i : pfcp_ie) : Z :=
  match i with
  | Leaf l => leaf_length l
  | Group _ ies => fold_right (fun i n => 4 + ie_size i + n) 0 ies
  end.

(** Well-formed objects: the leaves are, no group is empty, lengths fit. *)
Fixpoint ie_tree_wf (i : pfcp_ie) : Prop :=
  match i with
  | Leaf l => leaf_wf l
  | Group ty ies =>
      is_group ty = true /\ ies <> [] /\ ie_size i < 65536 /\
      fold_right (fun i P => ie_tree_wf i /\ P) True ies
  end.

(** The object as it arrives: members that are not sent are those of a new
    object. *)
Fixpoint ie_tree_norm (uninit : Z) (i : pfcp_ie) : pfcp_ie :=
  match i with
  | Leaf l => Leaf (leaf_norm uninit l)
  | Group ty ies => Group ty (map (ie_tree_norm uninit) ies)
  end.

Lemma leaf_wf_check l : leaf_wf l -> leaf_check l = None.
Proof. destruct l; apply ie_wf_check. Qed.

Lemma leaf_wf_length u l :
  leaf_wf l -> leaf_length l = Z.of_nat (length (leaf_value u l)) /\ 0 < leaf_length l < 65536.
Proof. destruct l; apply ie_wf_length. Qed.

Lemma leaf_type_range l : 0 <= leaf_type l < 256 /\ is_group (leaf_type l) = false.
Proof. destruct l; cbn; (split; [lia|reflexivity]). Qed.

Lemma load_as_value {T} (I : PfcpIe T) (L : PfcpIeLaws T) (mk : T -> leaf) u1 u2 v rest :
  ie_wf v ->
  load_as mk u1 (ie_length v) (of_bytes (ie_value u2 v ++ rest)) =
    (Ok (mk (ie_norm u1 v)), of_bytes rest).
Proof. intros H. unfold load_as. now rewrite (bind_ok _ _ _ _ _ (ie_load_value u1 u2 v rest H)). Qed.

Lemma leaf_load_value u1 u2 l rest :
  leaf_wf l ->
  exists load, leaf_loader (leaf_type l) = Some load /\
    load u1 (leaf_length l) (of_bytes (leaf_value u2 l ++ rest)) =
      (Ok (leaf_norm u1 l), of_bytes rest).
Proof.
  destruct l; intros H; try done; (eexists; split; [reflexivity|]); now apply load_as_value.
Qed.

Lemma length_tlv_bytes ty len : 0 <= ty < 2 ^ 15 -> length (tlv_bytes ty len) = 4%nat.
Proof.
  intros H. unfold tlv_bytes. rewrite Z.testbit_odd, Z.shiftr_div_pow2, Z.div_small by lia.
  cbn [Z.odd bytes_if]. now rewrite !length_app, !length_be_enc.
Qed.

Lemma tlv_load_bytes ty len rest :
  0 <= ty < 2 ^ 15 -> 0 <= len < 65536 ->
  tlv_load (of_bytes (tlv_bytes ty len ++ rest)) = (Ok (ty, len), of_bytes rest).
Proof.
  intros Ht Hl. unfold tlv_load, tlv_bytes. rewrite <- !app_assoc.
  read_step. read_step. rewrite Z.testbit_odd, Z.shiftr_div_pow2, Z.div_small by lia. done.
Qed.

Lemma is_group_range ty : is_group ty = true -> 0 <= ty < 2 ^ 15.
Proof. unfold is_group. rewrite orb_true_iff, andb_true_iff. lia. Qed.

Lemma ie_tree_wf_forall ies :
  fold_right (fun i P => ie_tree_wf i /\ P) True ies <-> List.Forall ie_tree_wf ies.
Proof.
  induction ies as [|i ies IH]; cbn; [split; [constructor|done]|].
  rewrite IH. split; [intros [? ?]; now constructor|inversion 1; done].
Qed.

Definition ies_size (ies : list pfcp_ie) : Z := fold_right (fun i n => 4 + ie_size i + n) 0 ies.

Lemma ies_size_nonneg ies : List.Forall (fun i => 0 < ie_size i < 65536) ies -> 0 <= ies_size ies.
Proof. unfold ies_size. induction 1 as [|i ies H _ IH]; cbn; lia. Qed.

(** Lengths on 16 bits are the lengths of the bytes. *)
Lemma ie_tree_sizes u i :
  ie_tree_wf i ->
  tlv_length i = ie_size i /\ 0 < ie_size i < 65536 /\
  Z.of_nat (length (ie_bytes u i)) = 4 + ie_size i.
Proof.
  induction i as [l|ty ies IH] using pfcp_ie_ind.
  - cbn [ie_tree_wf]. intros H. cbn [tlv_length ie_size ie_bytes].
    destruct (leaf_wf_length u l H) as [H1 H2]. pose proof (leaf_type_range l) as [H3 _].
    split; [done|]. split; [done|]. rewrite length_app, length_tlv_bytes by lia. lia.
  - intros (Hg & Hn & Hs & Hw). apply ie_tree_wf_forall in Hw.
    pose proof (is_group_range _ Hg) as Ht.
    assert (Ha : List.Forall (fun i => tlv_length i = ie_size i /\ 0 < ie_size i < 65536 /\
               Z.of_nat (length (ie_bytes u i)) = 4 + ie_size i) ies).
    { rewrite List.Forall_forall in *. auto. }
    clear IH Hw. split; [|split].
    + cbn [tlv_length]. assert (Hacc : forall a, 0 <= a -> a + ie_size (Group ty ies) < 65536 ->
        fold_left (fun n len => u16 (n + (4 + len))) (map tlv_length ies) a =
          a + ie_size (Group ty ies)); [|now apply (Hacc 0)].
      clear Hn Hs. cbn [ie_size]. induction Ha as [|i ies (H1 & H2 & _) Ha IH]; cbn; intros a H3 H4; [lia|].
      assert (0 <= ies_size ies)
        by (apply ies_size_nonneg; eapply List.Forall_impl; [|exact Ha]; cbn; tauto).
      unfold ies_size in *. rewrite u16_id, IH by lia. lia.
    + split; [|done]. destruct Ha as [|i ies (_ & H2 & _) Ha]; [done|]. cbn.
      assert (0 <= ies_size ies); [|unfold ies_size in *; lia].
      apply ies_size_nonneg. eapply List.Forall_impl; [|exact Ha]. cbn. tauto.
    + cbn [ie_bytes]. rewrite length_app, length_tlv_bytes by done. cbn [ie_size].
      clear Hn Hs. induction Ha as [|i ies (_ & H2 & H3) Ha IH]; cbn; [lia|].
      rewrite length_app. lia.
Qed.

Definition loads_back (u1 u2 : Z) (i : pfcp_ie) : Prop :=
  forall fuel rest, (length (ie_bytes u2 i) <= fuel)%nat ->
    load_ie u1 fuel (of_bytes (ie_bytes u2 i ++ rest)) =
      (Ok (Some (ie_size i, ie_tree_norm u1 i)), of_bytes rest).

Lemma load_ies_loop u1 u2 ty len ies :
  List.Forall ie_tree_wf ies -> List.Forall (loads_back u1 u2) ies ->
  forall fuel rest, (length (concat (map (ie_bytes u2) ies)) < fuel)%nat ->
    load_ies u1 fuel ty len (ies_size ies) (of_bytes (concat (map (ie_bytes u2) ies) ++ rest)) =
      (Ok (map (ie_tree_norm u1) ies), of_bytes rest).
Proof.
  intros Hw Hl. induction Hl as [|i ies Hi Hl IH]; intros [|fuel] rest Hf; [lia|done|lia|].
  inversion Hw as [|? ? Hwi Hw']; subst. cbn [map concat] in *. rewrite length_app in Hf.
  destruct (ie_tree_sizes u2 i Hwi) as (_ & Hs & Hb).
  assert (0 <= ies_size ies).
  { apply ies_size_nonneg. eapply List.Forall_impl; [|exact Hw']. intros j Hj.
    now destruct (ie_tree_sizes u2 j Hj) as (_ & ? & _). }
  cbn [load_ies ies_size fold_right]. fold (ies_size ies).
  rewrite (proj2 (Z.ltb_lt _ _)) by lia. rewrite <- app_assoc.
  rewrite (bind_ok _ _ _ _ _ (Hi fuel _ ltac:(lia))).
  replace (4 + ie_size i + ies_size ies - (ie_size i + 4)) with (ies_size ies) by lia.
  now rewrite (bind_ok _ _ _ _ _ (IH Hw' fuel rest ltac:(lia))).
Qed.

Lemma load_tree u1 u2 i : ie_tree_wf i -> loads_back u1 u2 i.
Proof.
  induction i as [l|ty ies IH] using pfcp_ie_ind; intros Hw [|fuel] rest Hf;
    destruct (ie_tree_sizes u2 _ Hw) as (Hlen & Hs & Hb); try lia; cbn [load_ie ie_bytes].
  - cbn [ie_tree_wf ie_size] in *. destruct (leaf_type_range l) as [Ht Hg].
    destruct (leaf_load_value u1 u2 l rest Hw) as (load & Hl & Hv). rewrite <- app_assoc.
    rewrite (bind_ok _ _ _ _ _ (tlv_load_bytes (leaf_type l) (leaf_length l) _ ltac:(lia) ltac:(lia))).
    rewrite (proj2 (Z.eqb_neq _ _)), Hg, Hl by lia. now rewrite (bind_ok _ _ _ _ _ Hv).
  - pose proof Hw as (Hg & Hn & _ & Hws). apply ie_tree_wf_forall in Hws.
    pose proof (is_group_range _ Hg) as Ht. rewrite <- app_assoc, Hlen.
    rewrite (bind_ok _ _ _ _ _ (tlv_load_bytes ty (ie_size (Group ty ies)) _ Ht ltac:(lia))).
    rewrite (proj2 (Z.eqb_neq _ _)), Hg by lia.
    assert (Hall : List.Forall (loads_back u1 u2) ies).
    { rewrite List.Forall_forall in *. auto. }
    cbn [ie_bytes] in Hf. rewrite length_app, length_tlv_bytes in Hf by done.
    now rewrite (bind_ok _ _ _ _ _ (load_ies_loop u1 u2 ty _ ies Hws Hall fuel rest ltac:(lia))).
Qed.

(** Writing a well-formed object throws nothing. *)
Lemma first_error_none {A} (f : A -> option pfcp_error) l :
  List.Forall (fun a => f a = None) l -> first_error (map f l) = None.
Proof. induction 1 as [|a l H _ IH]; cbn; [done|]. now rewrite H. Qed.

Lemma dump_check_wf_ie i : ie_tree_wf i -> dump_check i = None.
Proof.
  induction i as [l|ty ies IH] using pfcp_ie_ind; [apply leaf_wf_check|].
  intros (_ & _ & _ & Hw). apply ie_tree_wf_forall in Hw. apply first_error_none.
  rewrite List.Forall_forall in *. auto.
Qed.

Lemma dump_check_wf l : List.Forall ie_tree_wf l -> first_error (map dump_check l) = None.
Proof.
  intros H. apply first_error_none. eapply List.Forall_impl; [|exact H].
  exact dump_check_wf_ie.
Qed.
