(* ===== verification/PfcpContainers.v ===== *)
(** * Members of containers (src/src/oai/pfcp/msg_pfcp.hpp)

    What an element sets in the container it stands in: a container overrides
    [set] for the types of its members, and the base class
    [pfcp_ies_container] throws for the others. *)
From Stdlib Require Import ZArith Lia List Bool.
From stdpp Require Import base list gmap.
From S2P Require Import Prelude PfcpStream PfcpTypes PfcpIes PfcpNodeIes PfcpCodec PfcpGroups PfcpReportGroups PfcpMessages PfcpOverloads.
Open Scope Z_scope.

(** The values [to_core_type] makes. *)
Inductive core_value : Type :=
| CLeaf (l : leaf)
| CCreatePdr (v : create_pdr)
| CPdi (v : pdi)
| CCreateFar (v : create_far)
| CForwardingParameters (v : forwarding_parameters)
| CDuplicatingParameters (v : duplicating_parameters)
| CCreateUrr (v : create_urr)
| CCreateQer (v : create_qer)
| CCreatedPdr (v : created_pdr)
| CUpdatePdr (v : update_pdr)
| CUpdateFar (v : update_far)
| CUpdateForwardingParameters (v : update_forwarding_parameters)
| CUpdateBarReport (v : update_bar_within_pfcp_session_report_response)
| CUpdateUrr (v : update_urr)
| CUpdateQer (v : update_qer)
| CRemovePdr (v : remove_pdr)
| CRemoveFar (v : remove_far)
| CRemoveUrr (v : remove_urr)
| CRemoveQer (v : remove_qer)
| CDownlinkDataReport (v : downlink_data_report)
| CCreateTrafficEndpoint (v : create_traffic_endpoint).

(** The type of the element that makes it. *)
Definition core_type (x : core_value) : Z :=
  match x with
  | CLeaf l => leaf_type l
  | CCreatePdr _ => 1
  | CPdi _ => 2
  | CCreateFar _ => 3
  | CForwardingParameters _ => 4
  | CDuplicatingParameters _ => 5
  | CCreateUrr _ => 6
  | CCreateQer _ => 7
  | CCreatedPdr _ => 8
  | CUpdatePdr _ => 9
  | CUpdateFar _ => 10
  | CUpdateForwardingParameters _ => 11
  | CUpdateBarReport _ => 12
  | CUpdateUrr _ => 13
  | CUpdateQer _ => 14
  | CRemovePdr _ => 15
  | CRemoveFar _ => 16
  | CRemoveUrr _ => 17
  | CRemoveQer _ => 18
  | CDownlinkDataReport _ => 83
  | CCreateTrafficEndpoint _ => 127
  end.

(** [set] of a container: [None] where the base class throws. *)
Class IesContainer (C : Type) : Type := set_value : core_value -> C -> option C.

(** The overload of the base class for a value. *)
Definition base_set_leaf {C : Type} (l : leaf) (c : C) : result pfcp_error C :=
  match l with
  | Cause v => base_set v c
  | SourceInterface v => base_set v c
  | FTeid v => base_set v c
  | NetworkInstance v => base_set v c
  | SdfFilter v => base_set v c
  | ApplicationId v => base_set v c
  | GateStatus v => base_set v c
  | Mbr v => base_set v c
  | Gbr v => base_set v c
  | QerCorrelationId v => base_set v c
  | Precedence v => base_set v c
  | TransportLevelMarking v => base_set v c
  | OffendingIe v => base_set v c
  | ForwardingPolicy v => base_set v c
  | DestinationInterface v => base_set v c
  | ApplyAction v => base_set v c
  | PdrId v => base_set v c
  | FSeid v => base_set v c
  | UrrId v => base_set v c
  | OuterHeaderCreation v => base_set v c
  | BarId v => base_set v c
  | UeIpAddress v => base_set v c
  | OuterHeaderRemoval v => base_set v c
  | RecoveryTimeStamp v => base_set v c
  | ActivatePredefinedRules v => base_set v c
  | DeactivatePredefinedRules v => base_set v c
  | FarId v => base_set v c
  | QerId v => base_set v c
  | UserPlaneInactivityTimer v => base_set v c
  | Qfi v => base_set v c
  | VolumeThreshold v => base_set v c
  | TimeThreshold v => base_set v c
  | MonitoringTime v => base_set v c
  | SubsequentVolumeThreshold v => base_set v c
  | SubsequentTimeThreshold v => base_set v c
  | InactivityDetectionTime v => base_set v c
  | ReportingTriggers v => base_set v c
  | ReportType v => base_set v c
  | UpFunctionFeatures v => base_set v c
  | NodeId v => base_set v c
  | CpFunctionFeatures v => base_set v c
  | NodeReportType v => base_set v c
  | FailedRuleId v => base_set v c
  | UserPlaneIpResourceInformation v => base_set v c
  | UserId v => base_set v c
  end.

Definition base_set_value {C : Type} (x : core_value) (c : C) : result pfcp_error C :=
  match x with
  | CLeaf l => base_set_leaf l c
  | CCreatePdr v => base_set v c
  | CPdi v => base_set v c
  | CCreateFar v => base_set v c
  | CForwardingParameters v => base_set v c
  | CDuplicatingParameters v => base_set v c
  | CCreateUrr v => base_set v c
  | CCreateQer v => base_set v c
  | CCreatedPdr v => base_set v c
  | CUpdatePdr v => base_set v c
  | CUpdateFar v => base_set v c
  | CUpdateForwardingParameters v => base_set v c
  | CUpdateBarReport v => base_set v c
  | CUpdateUrr v => base_set v c
  | CUpdateQer v => base_set v c
  | CRemovePdr v => base_set v c
  | CRemoveFar v => base_set v c
  | CRemoveUrr v => base_set v c
  | CRemoveQer v => base_set v c
  | CDownlinkDataReport v => base_set v c
  | CCreateTrafficEndpoint v => base_set v c
  end.

(** [s.set(v)] *)
Definition set_member {C : Type} `{IesContainer C} (x : core_value) (c : C)
    : result pfcp_error C :=
  match set_value x c with
  | Some c' => Ok c'
  | None => base_set_value x c
  end.

Lemma set_member_some {C : Type} `{IesContainer C} x (c c' : C) :
  set_value x c = Some c' -> set_member x c = Ok c'.
Proof. unfold set_member. now intros ->. Qed.

(** What a container has no member for is refused under the number of its own
    element: the number that the overload throws is the number in the TLV. *)
Lemma base_set_value_throws {C : Type} (x : core_value) (c : C) :
  base_set_value x c = Err (IllegalIe (core_type x)).
Proof. destruct x as [[]| | | | | | | | | | | | | | | | | | | |]; reflexivity. Qed.

#[export] Instance pdi_container : IesContainer pdi := fun x c =>
  match x with
  | CLeaf (SourceInterface v) => Some (set v c)
  | CLeaf (FTeid v) => Some (set v c)
  | CLeaf (NetworkInstance v) => Some (set v c)
  | CLeaf (UeIpAddress v) => Some (set v c)
  | CLeaf (SdfFilter v) => Some (set v c)
  | CLeaf (ApplicationId v) => Some (set v c)
  | CLeaf (Qfi v) => Some (set v c)
  | _ => None
  end.

#[export] Instance create_pdr_container : IesContainer create_pdr := fun x c =>
  match x with
  | CLeaf (PdrId v) => Some (set v c)
  | CLeaf (Precedence v) => Some (set v c)
  | CPdi v => Some (set v c)
  | CLeaf (OuterHeaderRemoval v) => Some (set v c)
  | CLeaf (FarId v) => Some (set v c)
  | CLeaf (UrrId v) => Some (set v c)
  | CLeaf (QerId v) => Some (set v c)
  | CLeaf (ActivatePredefinedRules v) => Some (set v c)
  | _ => None
  end.

#[export] Instance update_forwarding_parameters_container : IesContainer
    update_forwarding_parameters := fun x c =>
  match x with
  | CLeaf (DestinationInterface v) => Some (set v c)
  | CLeaf (NetworkInstance v) => Some (set v c)
  | CLeaf (OuterHeaderCreation v) => Some (set v c)
  | CLeaf (TransportLevelMarking v) => Some (set v c)
  | CLeaf (ForwardingPolicy v) => Some (set v c)
  | _ => None
  end.

#[export] Instance forwarding_parameters_container : IesContainer forwarding_parameters := fun x c
    =>
  match x with
  | CLeaf (DestinationInterface v) => Some (set v c)
  | CLeaf (NetworkInstance v) => Some (set v c)
  | CLeaf (OuterHeaderCreation v) => Some (set v c)
  | CLeaf (TransportLevelMarking v) => Some (set v c)
  | CLeaf (ForwardingPolicy v) => Some (set v c)
  | _ => None
  end.

#[export] Instance duplicating_parameters_container : IesContainer duplicating_parameters := fun x
    c =>
  match x with
  | CLeaf (DestinationInterface v) => Some (set v c)
  | CLeaf (OuterHeaderCreation v) => Some (set v c)
  | CLeaf (TransportLevelMarking v) => Some (set v c)
  | CLeaf (ForwardingPolicy v) => Some (set v c)
  | _ => None
  end.

#[export] Instance create_far_container : IesContainer create_far := fun x c =>
  match x with
  | CLeaf (FarId v) => Some (set v c)
  | CLeaf (ApplyAction v) => Some (set v c)
  | CForwardingParameters v => Some (set v c)
  | CDuplicatingParameters v => Some (set v c)
  | CLeaf (BarId v) => Some (set v c)
  | _ => None
  end.

#[export] Instance created_pdr_container : IesContainer created_pdr := fun x c =>
  match x with
  | CLeaf (PdrId v) => Some (set v c)
  | CLeaf (FTeid v) => Some (set v c)
  | _ => None
  end.

#[export] Instance update_pdr_container : IesContainer update_pdr := fun x c =>
  match x with
  | CLeaf (OuterHeaderRemoval v) => Some (set v c)
  | CLeaf (Precedence v) => Some (set v c)
  | CPdi v => Some (set v c)
  | CLeaf (FarId v) => Some (set v c)
  | CLeaf (UrrId v) => Some (set v c)
  | CLeaf (QerId v) => Some (set v c)
  | CLeaf (ActivatePredefinedRules v) => Some (push_back v c)
  | CLeaf (DeactivatePredefinedRules v) => Some (push_back v c)
  | CLeaf (PdrId v) => Some (with_member v c)
  | _ => None
  end.

#[export] Instance update_far_container : IesContainer update_far := fun x c =>
  match x with
  | CLeaf (ApplyAction v) => Some (set v c)
  | CUpdateForwardingParameters v => Some (set v c)
  | CLeaf (BarId v) => Some (set v c)
  | CLeaf (FarId v) => Some (with_member v c)
  | _ => None
  end.

#[export] Instance remove_pdr_container : IesContainer remove_pdr := fun x c =>
  match x with
  | CLeaf (PdrId v) => Some (set v c)
  | _ => None
  end.

#[export] Instance remove_far_container : IesContainer remove_far := fun x c =>
  match x with
  | CLeaf (FarId v) => Some (set v c)
  | _ => None
  end.

#[export] Instance create_urr_container : IesContainer create_urr := fun x c =>
  match x with
  | CLeaf (UrrId v) => Some (set v c)
  | CLeaf (ReportingTriggers v) => Some (set v c)
  | CLeaf (VolumeThreshold v) => Some (set v c)
  | CLeaf (TimeThreshold v) => Some (set v c)
  | CLeaf (MonitoringTime v) => Some (set v c)
  | CLeaf (SubsequentVolumeThreshold v) => Some (set v c)
  | CLeaf (SubsequentTimeThreshold v) => Some (set v c)
  | CLeaf (InactivityDetectionTime v) => Some (set v c)
  | CLeaf (FarId v) => Some (set v c)
  | _ => None
  end.

#[export] Instance create_qer_container : IesContainer create_qer := fun x c =>
  match x with
  | CLeaf (QerId v) => Some (set v c)
  | CLeaf (QerCorrelationId v) => Some (set v c)
  | CLeaf (GateStatus v) => Some (set v c)
  | CLeaf (Mbr v) => Some (set v c)
  | CLeaf (Gbr v) => Some (set v c)
  | CLeaf (Qfi v) => Some (set v c)
  | _ => None
  end.

#[export] Instance create_traffic_endpoint_container : IesContainer create_traffic_endpoint := fun
    x c =>
  match x with
  | CLeaf (FTeid v) => Some (set v c)
  | CLeaf (NetworkInstance v) => Some (set v c)
  | CLeaf (UeIpAddress v) => Some (set v c)
  | _ => None
  end.

#[export] Instance remove_urr_container : IesContainer remove_urr := fun x c =>
  match x with
  | CLeaf (UrrId v) => Some (set v c)
  | _ => None
  end.

#[export] Instance remove_qer_container : IesContainer remove_qer := fun x c =>
  match x with
  | CLeaf (QerId v) => Some (set v c)
  | _ => None
  end.

#[export] Instance update_urr_container : IesContainer update_urr := fun x c =>
  match x with
  | CLeaf (UrrId v) => Some (set v c)
  | CLeaf (ReportingTriggers v) => Some (set v c)
  | CLeaf (VolumeThreshold v) => Some (set v c)
  | CLeaf (TimeThreshold v) => Some (set v c)
  | CLeaf (MonitoringTime v) => Some (set v c)
  | CLeaf (SubsequentVolumeThreshold v) => Some (set v c)
  | CLeaf (SubsequentTimeThreshold v) => Some (set v c)
  | CLeaf (InactivityDetectionTime v) => Some (set v c)
  | CLeaf (FarId v) => Some (set v c)
  | _ => None
  end.

#[export] Instance update_qer_container : IesContainer update_qer := fun x c =>
  match x with
  | CLeaf (QerId v) => Some (set v c)
  | CLeaf (QerCorrelationId v) => Some (set v c)
  | CLeaf (GateStatus v) => Some (set v c)
  | CLeaf (Mbr v) => Some (set v c)
  | CLeaf (Gbr v) => Some (set v c)
  | CLeaf (Qfi v) => Some (set v c)
  | _ => None
  end.

#[export] Instance update_bar_report_container : IesContainer
    update_bar_within_pfcp_session_report_response := fun x c =>
  match x with
  | CLeaf (BarId v) => Some (set v c)
  | _ => None
  end.

#[export] Instance downlink_data_report_container : IesContainer downlink_data_report := fun x c =>
  match x with
  | CLeaf (PdrId v) => Some (set v c)
  | _ => None
  end.

#[export] Instance heartbeat_request_container : IesContainer pfcp_heartbeat_request := fun x c =>
  match x with
  | CLeaf (RecoveryTimeStamp v) => Some (set v c)
  | _ => None
  end.

#[export] Instance heartbeat_response_container : IesContainer pfcp_heartbeat_response := fun x c
    =>
  match x with
  | CLeaf (RecoveryTimeStamp v) => Some (set v c)
  | _ => None
  end.

#[export] Instance association_setup_request_container : IesContainer
    pfcp_association_setup_request := fun x c =>
  match x with
  | CLeaf (NodeId v) => Some (set v c)
  | CLeaf (RecoveryTimeStamp v) => Some (set v c)
  | CLeaf (UpFunctionFeatures v) => Some (set v c)
  | CLeaf (CpFunctionFeatures v) => Some (set v c)
  | CLeaf (UserPlaneIpResourceInformation v) => Some (set v c)
  | _ => None
  end.

#[export] Instance association_setup_response_container : IesContainer
    pfcp_association_setup_response := fun x c =>
  match x with
  | CLeaf (NodeId v) => Some (set v c)
  | CLeaf (Cause v) => Some (set v c)
  | CLeaf (RecoveryTimeStamp v) => Some (set v c)
  | CLeaf (UpFunctionFeatures v) => Some (set v c)
  | CLeaf (CpFunctionFeatures v) => Some (set v c)
  | CLeaf (UserPlaneIpResourceInformation v) => Some (set v c)
  | _ => None
  end.

#[export] Instance association_release_request_container : IesContainer
    pfcp_association_release_request := fun x c =>
  match x with
  | CLeaf (NodeId v) => Some (set v c)
  | _ => None
  end.

#[export] Instance association_release_response_container : IesContainer
    pfcp_association_release_response := fun x c =>
  match x with
  | CLeaf (NodeId v) => Some (set v c)
  | CLeaf (Cause v) => Some (set v c)
  | _ => None
  end.

#[export] Instance node_report_request_container : IesContainer pfcp_node_report_request := fun x
    c =>
  match x with
  | CLeaf (NodeId v) => Some (set v c)
  | CLeaf (NodeReportType v) => Some (set v c)
  | _ => None
  end.

#[export] Instance session_establishment_request_container : IesContainer
    pfcp_session_establishment_request := fun x c =>
  match x with
  | CLeaf (NodeId v) => Some (set v c)
  | CLeaf (FSeid v) => Some (set v c)
  | CCreatePdr v => Some (push_back v c)
  | CCreateFar v => Some (push_back v c)
  | CCreateUrr v => Some (push_back v c)
  | CCreateQer v => Some (push_back v c)
  | CLeaf (UserPlaneInactivityTimer v) => Some (set v c)
  | CLeaf (UserId v) => Some (set v c)
  | _ => None
  end.

#[export] Instance session_establishment_response_container : IesContainer
    pfcp_session_establishment_response := fun x c =>
  match x with
  | CLeaf (NodeId v) => Some (set v c)
  | CLeaf (Cause v) => Some (set v c)
  | CLeaf (OffendingIe v) => Some (set v c)
  | CLeaf (FSeid v) => Some (set v c)
  | CCreatedPdr v => Some (push_back v c)
  | CLeaf (FailedRuleId v) => Some (set v c)
  | _ => None
  end.

#[export] Instance session_modification_request_container : IesContainer
    pfcp_session_modification_request := fun x c =>
  match x with
  | CLeaf (FSeid v) => Some (set v c)
  | CRemovePdr v => Some (push_back v c)
  | CRemoveFar v => Some (push_back v c)
  | CRemoveUrr v => Some (push_back v c)
  | CRemoveQer v => Some (push_back v c)
  | CCreatePdr v => Some (push_back v c)
  | CCreateFar v => Some (push_back v c)
  | CCreateUrr v => Some (push_back v c)
  | CCreateQer v => Some (push_back v c)
  | CCreateTrafficEndpoint v => Some (set v c)
  | CUpdatePdr v => Some (push_back v c)
  | CUpdateFar v => Some (push_back v c)
  | CUpdateUrr v => Some (push_back v c)
  | CUpdateQer v => Some (push_back v c)
  | CLeaf (UserPlaneInactivityTimer v) => Some (set v c)
  | _ => None
  end.

#[export] Instance session_modification_response_container : IesContainer
    pfcp_session_modification_response := fun x c =>
  match x with
  | CLeaf (Cause v) => Some (set v c)
  | CLeaf (OffendingIe v) => Some (set v c)
  | CCreatedPdr v => Some (push_back v c)
  | CLeaf (FailedRuleId v) => Some (set v c)
  | _ => None
  end.

#[export] Instance session_deletion_request_container : IesContainer pfcp_session_deletion_request
    := fun x c =>
  None.

#[export] Instance session_deletion_response_container : IesContainer
    pfcp_session_deletion_response := fun x c =>
  match x with
  | CLeaf (Cause v) => Some (set v c)
  | CLeaf (OffendingIe v) => Some (set v c)
  | _ => None
  end.

#[export] Instance session_report_request_container : IesContainer pfcp_session_report_request :=
    fun x c =>
  match x with
  | CLeaf (ReportType v) => Some (set v c)
  | CDownlinkDataReport v => Some (set v c)
  | _ => None
  end.

#[export] Instance session_report_response_container : IesContainer pfcp_session_report_response
    := fun x c =>
  match x with
  | CLeaf (Cause v) => Some (set v c)
  | CLeaf (OffendingIe v) => Some (set v c)
  | CUpdateBarReport v => Some (set v c)
  | _ => None
  end.

#[export] Instance pfd_management_request_container : IesContainer pfcp_pfd_management_request :=
    fun x c =>
  None.

#[export] Instance pfd_management_response_container : IesContainer pfcp_pfd_management_response
    := fun x c =>
  match x with
  | CLeaf (Cause v) => Some (set v c)
  | CLeaf (OffendingIe v) => Some (set v c)
  | _ => None
  end.

#[export] Instance association_update_request_container : IesContainer
    pfcp_association_update_request := fun x c =>
  match x with
  | CLeaf (NodeId v) => Some (set v c)
  | CLeaf (UpFunctionFeatures v) => Some (set v c)
  | CLeaf (CpFunctionFeatures v) => Some (set v c)
  | CLeaf (UserPlaneIpResourceInformation v) => Some (set v c)
  | _ => None
  end.

#[export] Instance association_update_response_container : IesContainer
    pfcp_association_update_response := fun x c =>
  match x with
  | CLeaf (NodeId v) => Some (set v c)
  | CLeaf (Cause v) => Some (set v c)
  | CLeaf (UpFunctionFeatures v) => Some (set v c)
  | CLeaf (CpFunctionFeatures v) => Some (set v c)
  | _ => None
  end.

#[export] Instance version_not_supported_response_container : IesContainer
    pfcp_version_not_supported_response := fun x c =>
  None.

#[export] Instance node_report_response_container : IesContainer pfcp_node_report_response := fun
    x c =>
  match x with
  | CLeaf (NodeId v) => Some (set v c)
  | CLeaf (Cause v) => Some (set v c)
  | CLeaf (OffendingIe v) => Some (set v c)
  | _ => None
  end.

#[export] Instance session_set_deletion_request_container : IesContainer
    pfcp_session_set_deletion_request := fun x c =>
  match x with
  | CLeaf (NodeId v) => Some (set v c)
  | _ => None
  end.

#[export] Instance session_set_deletion_response_container : IesContainer
    pfcp_session_set_deletion_response := fun x c =>
  match x with
  | CLeaf (NodeId v) => Some (set v c)
  | CLeaf (Cause v) => Some (set v c)
  | CLeaf (OffendingIe v) => Some (set v c)
  | _ => None
  end.
