(* ===== verification/PfcpMsg.v ===== *)
(** * Messages of PFCP (src/src/oai/pfcp/3gpp_29.244.hpp)

    [pfcp_msg_header] and [pfcp_msg]: construction, [dump_to] and [load_from].
    The port of the peer is not part of the codec and is left out. *)
From Stdlib Require Import ZArith Lia List Bool.
From stdpp Require Import base list.
From S2P Require Import Prelude PfcpStream PfcpTypes PfcpIes PfcpFqdn PfcpNodeIes PfcpCodec.
Open Scope Z_scope.
Open Scope upf_scope.

(** The bytes [u1] and [u2] are kept as their bit fields. *)
Record pfcp_msg_header : Type := mk_pfcp_msg_header {
  h_s : bool;
  h_mp : bool;
  h_spare : Z;
  h_version : Z;
  message_type : Z;
  message_length : Z;
  msg_seid : Z;
  sequence_number : Z;
  h_spare2 : Z;
  message_priority : Z
}.

Definition new_header : pfcp_msg_header := mk_pfcp_msg_header false false 0 1 0 (3 + 1) 0 0 0 0.

Definition set_seid (s : Z) (h : pfcp_msg_header) : pfcp_msg_header :=
  mk_pfcp_msg_header true (h_mp h) (h_spare h) (h_version h) (message_type h)
    (if h_s h then message_length h else u16 (message_length h + 8)) s (sequence_number h)
    (h_spare2 h) (message_priority h).

Definition set_message_type (t : Z) (h : pfcp_msg_header) : pfcp_msg_header :=
  mk_pfcp_msg_header (h_s h) (h_mp h) (h_spare h) (h_version h) t (message_length h) (msg_seid h)
    (sequence_number h) (h_spare2 h) (message_priority h).

Definition set_message_length (l : Z) (h : pfcp_msg_header) : pfcp_msg_header :=
  mk_pfcp_msg_header (h_s h) (h_mp h) (h_spare h) (h_version h) (message_type h) l (msg_seid h)
    (sequence_number h) (h_spare2 h) (message_priority h).

Definition set_sequence_number (n : Z) (h : pfcp_msg_header) : pfcp_msg_header :=
  mk_pfcp_msg_header (h_s h) (h_mp h) (h_spare h) (h_version h) (message_type h)
    (message_length h) (msg_seid h) (Z.land n 0x00FFFFFF) (h_spare2 h) (message_priority h).

(** [pfcp_msg_header::dump_to]: the spare bits are cleared, and the priority
    when there is none; three bytes of the sequence number. *)
Definition header_bytes (h : pfcp_msg_header) : list Z :=
  [Z.b2z (h_s h) + 2 * Z.b2z (h_mp h) + 32 * (h_version h mod 8)] ++ [u8 (message_type h)] ++
  be_enc 2 (message_length h) ++
  bytes_if (h_s h) (be_enc 8 (msg_seid h)) ++
  be_enc 3 (sequence_number h) ++
  [16 * ((if h_mp h then message_priority h else 0) mod 16)].

(** [load_from] on the header of a new message. *)
Definition header_load (uninit : Z) : stream pfcp_msg_header :=
  let* b := read_byte 32 in
  let s := bit b 0 in
  let* ty := read_byte 0 in
  let* len := read_be 2 4 in
  let* seid := when s (read_be 8 0) 0 in
  let* sn := read_be 3 uninit in
  let* b2 := read_byte 0 in
  ret (mk_pfcp_msg_header s (bit b 1) (b / 4 mod 8) (b / 32 mod 8) ty len seid sn
         (b2 mod 16) (b2 / 16 mod 16)).

Record pfcp_msg : Type := mk_pfcp_msg {
  hdr : pfcp_msg_header;
  ies : list pfcp_ie
}.

Definition on_hdr (f : pfcp_msg_header -> pfcp_msg_header) (m : pfcp_msg) : pfcp_msg :=
  mk_pfcp_msg (f (hdr m)) (ies m).

Definition new_msg (ty : Z) : pfcp_msg := mk_pfcp_msg (set_message_type ty new_header) [].

Definition msg_add_ie (i : pfcp_ie) (m : pfcp_msg) : pfcp_msg :=
  mk_pfcp_msg (set_message_length (u16 (message_length (hdr m) + 4 + tlv_length i)) (hdr m))
    (ies m ++ [i]).

(** The constructors from core types add elements one after the other. *)
Definition msg_of_ies (ty : Z) (l : list pfcp_ie) : pfcp_msg :=
  fold_left (fun m i => msg_add_ie i m) l (new_msg ty).

Definition msg_bytes (uninit : Z) (m : pfcp_msg) : list Z :=
  header_bytes (hdr m) ++ concat (map (ie_bytes uninit) (ies m)).

(** The [do] loop of [load_from]: the elements and [ies_length]. *)
Fixpoint load_msg_ies (uninit : Z) (fuel : nat) (check_msg_length ies_length : Z)
    : stream (list pfcp_ie * Z) :=
  match fuel with
  | O => raise OutOfFuel
  | S fuel =>
      let* o := new_pfcp_ie_from_stream uninit in
      match o with
      | None => ret ([], ies_length)
      | Some (l, ie) =>
          let n := u16 (ies_length + (4 + l)) in
          if n <? check_msg_length then
            let* r := load_msg_ies uninit fuel check_msg_length n in
            ret (ie :: fst r, snd r)
          else ret ([ie], n)
      end
  end.

Definition check_msg_length (h : pfcp_msg_header) : Z :=
  let l := u16 (message_length h - 3 - 1) in
  if h_s h then u16 (l - 8) else l.

Definition msg_load (uninit : Z) : stream pfcp_msg := fun s =>
  (let* h := header_load uninit in
   let* r := load_msg_ies uninit (S (length (left_bytes s))) (check_msg_length h) 0 in
   guard (snd r =? check_msg_length h)
     (MsgBadLength (message_type h) (message_length h) (snd r) (check_msg_length h)) ;;;
   ret (mk_pfcp_msg h (fst r))) s.

(** ** Termination *)

Lemma new_pfcp_ie_takes uninit s r s' :
  new_pfcp_ie_from_stream uninit s = (r, s') ->
  (length (left_bytes s') <= length (left_bytes s))%nat /\ r <> Err OutOfFuel /\
  (forall o, r = Ok (Some o) -> (length (left_bytes s') + 3 <= length (left_bytes s))%nat).
Proof. apply load_fuel. unfold stream_fuel. lia. Qed.

Lemma load_msg_ies_fuel uninit fuel check n s r s' :
  (length (left_bytes s) < fuel)%nat -> load_msg_ies uninit fuel check n s = (r, s') ->
  r <> Err OutOfFuel.
Proof.
  revert n s r s'. induction fuel as [|fuel IH]; intros n s r s' Hf; [lia|]. cbn [load_msg_ies].
  unfold bind at 1. destruct (new_pfcp_ie_from_stream uninit s) as [[o|e] s1] eqn:E;
    apply new_pfcp_ie_takes in E as (H1 & H2 & H3); [|intros [= <- <-]; congruence].
  destruct o as [[l ie]|]; [|now intros [= <- <-]]. specialize (H3 _ eq_refl).
  destruct (_ <? check); [|now intros [= <- <-]]. unfold bind.
  destruct (load_msg_ies _ _ _ _ _) as [[a|e] s2] eqn:E2;
    (apply IH in E2; [|lia]); intros [= <- <-]; congruence.
Qed.

Lemma shrinks_header_load uninit : shrinks (header_load uninit).
Proof. unfold header_load. auto 20 with shrinks. Qed.


(** ** Round trip *)

Definition header_wf (h : pfcp_msg_header) : Prop :=
  0 <= h_version h < 8 /\ 0 <= message_type h < 256 /\ 0 <= message_length h < 65536 /\
  0 <= msg_seid h < 256 ^ Z.of_nat 8 /\ 0 <= sequence_number h < 256 ^ Z.of_nat 3 /\
  0 <= message_priority h < 16.

(** What is left of a header on the wire. *)
Definition header_norm (h : pfcp_msg_header) : pfcp_msg_header :=
  mk_pfcp_msg_header (h_s h) (h_mp h) 0 (h_version h) (message_type h) (message_length h)
    (if h_s h then msg_seid h else 0) (sequence_number h) 0
    (if h_mp h then message_priority h else 0).

Lemma header_byte s mp v :
  0 <= v < 8 ->
  let b := Z.b2z s + 2 * Z.b2z mp + 32 * v in
  0 <= b < 256 /\ bit b 0 = s /\ bit b 1 = mp /\ b / 4 mod 8 = 0 /\ b / 32 mod 8 = v.
Proof.
  intros Hv. assert (v = 0 \/ v = 1 \/ v = 2 \/ v = 3 \/ v = 4 \/ v = 5 \/ v = 6 \/ v = 7)
    as Hc by lia. clear Hv.
  repeat destruct Hc as [->|Hc]; [..|subst v]; destruct s, mp; cbn zeta;
    (split; [cbn; lia|]); repeat split.
Qed.

Lemma header_load_bytes uninit h rest :
  header_wf h ->
  header_load uninit (of_bytes (header_bytes h ++ rest)) = (Ok (header_norm h), of_bytes rest).
Proof.
  destruct h as [s mp sp v ty len seid sn sp2 pr]. intros (H1 & H2 & H3 & H4 & H5 & H6).
  cbn in H1, H2, H3, H6. cbn [msg_seid sequence_number] in H4, H5.
  unfold header_load, header_bytes, header_norm. rewrite <- !app_assoc. cbn [app].
  cbn [h_s h_mp h_version message_type message_length msg_seid sequence_number message_priority].
  rewrite (Z.mod_small v) by lia. rewrite (u8_id ty) by (unfold is_byte; lia).
  destruct (header_byte s mp v H1) as (Hb & E0 & E1 & E2 & E3).
  rewrite (bind_ok _ _ _ _ _ (read_byte_enc 32 _ _ Hb)), E0, E1, E2, E3.
  assert (Hp : 0 <= (if mp then pr else 0) < 16) by (destruct mp; lia).
  rewrite (Z.mod_small _ 16) by exact Hp.
  do 5 read_step. unfold ret. rewrite (Z.mul_comm 16), Z.mod_mul, Z.div_mul by lia.
  now rewrite Z.mod_small by exact Hp.
Qed.

Lemma new_pfcp_ie_from_stream_bytes u1 u2 i rest :
  ie_tree_wf i ->
  new_pfcp_ie_from_stream u1 (of_bytes (ie_bytes u2 i ++ rest)) =
    (Ok (Some (ie_size i, ie_tree_norm u1 i)), of_bytes rest).
Proof.
  intros Hi. apply load_tree; [done|]. unfold stream_fuel. cbn. rewrite length_app. lia.
Qed.

Lemma ies_size_wf_nonneg l : List.Forall ie_tree_wf l -> 0 <= ies_size l.
Proof.
  intros H. apply ies_size_nonneg. eapply List.Forall_impl; [|exact H]. intros i Hi.
  now destruct (ie_tree_sizes 0 i Hi) as (_ & ? & _).
Qed.

Lemma length_ies_bytes u l :
  List.Forall ie_tree_wf l -> (length l <= length (concat (map (ie_bytes u) l)))%nat.
Proof.
  induction 1 as [|i l Hi _ IH]; cbn; [lia|]. rewrite length_app.
  pose proof (ie_tree_sizes u i Hi) as (_ & ? & ?). lia.
Qed.

(** The loop reads all elements and stops at the announced length. *)
Lemma load_msg_ies_bytes u1 u2 check l rest :
  List.Forall ie_tree_wf l -> l <> [] ->
  forall fuel n, (length l <= fuel)%nat -> 0 <= n -> n + ies_size l = check -> check < 65536 ->
  load_msg_ies u1 fuel check n (of_bytes (concat (map (ie_bytes u2) l) ++ rest)) =
    (Ok (map (ie_tree_norm u1) l, check), of_bytes rest).
Proof.
  induction 1 as [|i l Hi Hl IH]; intros Hne [|fuel] n Hf Hn Hc Hb; [done..|cbn in Hf; lia|].
  cbn [load_msg_ies map concat]. rewrite <- app_assoc.
  rewrite (bind_ok _ _ _ _ _ (new_pfcp_ie_from_stream_bytes u1 u2 i _ Hi)).
  pose proof (ie_tree_sizes 0 i Hi) as (_ & Hs & _). pose proof (ies_size_wf_nonneg l Hl) as Hr.
  cbn [ies_size fold_right] in Hc. fold (ies_size l) in Hc. rewrite u16_id by lia.
  destruct l as [|j l].
  - cbn in Hc. rewrite (proj2 (Z.ltb_ge _ _)) by lia. cbn. unfold ret. do 3 f_equal. lia.
  - inversion Hl as [|? ? Hj Hl']; subst.
    pose proof (ie_tree_sizes 0 j Hj) as (_ & Hsj & _).
    pose proof (ies_size_wf_nonneg l Hl') as Hr'.
    assert (0 < ies_size (j :: l)) by (cbn; fold (ies_size l); lia).
    rewrite (proj2 (Z.ltb_lt _ _)) by lia.
    pose proof (IH ltac:(done) fuel (n + (4 + ie_size i)) ltac:(cbn in *; lia) ltac:(lia)
                  ltac:(lia) Hb) as E.
    now rewrite (bind_ok _ _ _ _ _ E).
Qed.

(** A message whose length field counts its elements. *)
Definition msg_wf (m : pfcp_msg) : Prop :=
  header_wf (hdr m) /\ List.Forall ie_tree_wf (ies m) /\
  message_length (hdr m) = 4 + (if h_s (hdr m) then 8 else 0) + ies_size (ies m).

Definition msg_norm (uninit : Z) (m : pfcp_msg) : pfcp_msg :=
  mk_pfcp_msg (header_norm (hdr m)) (map (ie_tree_norm uninit) (ies m)).

Lemma msg_load_bytes u1 u2 m :
  msg_wf m -> fst (msg_load u1 (of_bytes (msg_bytes u2 m))) = Ok (msg_norm u1 m).
Proof.
  destruct m as [h l]. intros (Hh & Hl & Hm). cbn [hdr ies] in *.
  assert (Hc : check_msg_length (header_norm h) = ies_size l).
  { pose proof (ies_size_wf_nonneg l Hl) as Hr. destruct Hh as (_ & _ & Hb & _).
    unfold check_msg_length. cbn [header_norm h_s message_length]. rewrite Hm in *.
    rewrite (u16_id (_ - 3 - 1)) by (destruct (h_s h); lia).
    destruct (h_s h); rewrite ?u16_id by lia; lia. }
  unfold msg_load, msg_bytes. cbn [hdr ies].
  rewrite (bind_ok _ _ _ _ _ (header_load_bytes u1 h _ Hh)), Hc.
  destruct l as [|i l].
  - cbn. done.
  - rewrite <- (app_nil_r (concat _)).
    assert (Hf : (length (i :: l) <= S (length (left_bytes (of_bytes
                    (header_bytes h ++ concat (map (ie_bytes u2) (i :: l)) ++ [])))))%nat).
    { pose proof (length_ies_bytes u2 (i :: l) Hl). cbn [left_bytes of_bytes].
      rewrite !length_app. lia. }
    destruct Hh as (_ & _ & Hb & _).
    assert (ies_size (i :: l) < 65536) by (destruct (h_s h); lia).
    pose proof (load_msg_ies_bytes u1 u2 (ies_size (i :: l)) (i :: l) [] Hl
                  ltac:(done) _ 0 Hf ltac:(lia) ltac:(lia) ltac:(lia)) as E.
    rewrite (bind_ok _ _ _ _ _ E). cbn [snd fst]. now rewrite Z.eqb_refl.
Qed.

(** A message built by its constructor and the setters of the sender. *)
Definition build_msg (ty : Z) (l : list pfcp_ie) (seid : option Z) (seq : Z) : pfcp_msg :=
  on_hdr (set_sequence_number seq)
    (on_hdr (match seid with Some s => set_seid s | None => fun h => h end) (msg_of_ies ty l)).

(** Objects whose length is the one in their TLV: well-formed and empty ones. *)
Definition sized (i : pfcp_ie) : Prop := tlv_length i = ie_size i /\ 0 <= ie_size i.

Lemma wf_sized l : List.Forall ie_tree_wf l -> List.Forall sized l.
Proof.
  intros H. eapply List.Forall_impl; [|exact H]. intros i Hi.
  destruct (ie_tree_sizes 0 i Hi) as (? & ? & _). split; lia.
Qed.

Lemma ies_size_sized_nonneg l : List.Forall sized l -> 0 <= ies_size l.
Proof. induction 1 as [|i l [_ Hi] _ IH]; cbn; [lia|]. fold (ies_size l). lia. Qed.

Lemma msg_of_ies_eq ty l :
  List.Forall sized l -> 4 + ies_size l < 65536 ->
  msg_of_ies ty l =
    mk_pfcp_msg (set_message_length (4 + ies_size l) (set_message_type ty new_header)) l.
Proof.
  intros Hl. unfold msg_of_ies.
  assert (H : forall k pre, 0 <= k -> k + ies_size l < 65536 ->
    fold_left (fun m i => msg_add_ie i m) l
      (mk_pfcp_msg (set_message_length k (set_message_type ty new_header)) pre) =
      mk_pfcp_msg (set_message_length (k + ies_size l) (set_message_type ty new_header))
        (pre ++ l)).
  { induction Hl as [|i l [Ht Hs] Hl IH]; cbn [fold_left]; intros k pre Hk Hb.
    - cbn. now rewrite Z.add_0_r, app_nil_r.
    - pose proof (ies_size_sized_nonneg l Hl) as Hr. cbn [ies_size fold_right] in *.
      fold (ies_size l) in *. unfold msg_add_ie. cbn [hdr ies message_length set_message_length].
      rewrite Ht, u16_id by lia.
      etransitivity; [apply (IH (k + 4 + ie_size i) (pre ++ [i])); lia|].
      rewrite <- app_assoc. do 2 f_equal. lia. }
  intros Hb. exact (H 4 [] ltac:(lia) Hb).
Qed.

(** The header of a built message. *)
Lemma build_msg_header ty l seid seq :
  List.Forall sized l -> 0 <= ty < 256 -> 0 <= seq < 2 ^ 24 ->
  match seid with Some s => 0 <= s < 2 ^ 64 | None => True end ->
  12 + ies_size l < 65536 ->
  let m := build_msg ty l seid seq in
  ies m = l /\ header_norm (hdr m) = hdr m /\ header_wf (hdr m) /\ message_type (hdr m) = ty /\
  message_length (hdr m) = 4 + (if h_s (hdr m) then 8 else 0) + ies_size l.
Proof.
  intros Hl Hty Hseq Hseid Hb m. pose proof (ies_size_sized_nonneg l Hl) as Hr.
  unfold m, build_msg. rewrite msg_of_ies_eq by (done || lia). split; [done|].
  assert (Hsq : Z.land seq 0x00FFFFFF = seq).
  { change 0x00FFFFFF with (Z.ones 24). rewrite Z.land_ones by lia. now apply Z.mod_small. }
  unfold header_wf, header_norm, set_sequence_number.
  destruct seid as [s|]; cbn -[u16 Z.land Z.add ies_size Z.pow]; rewrite Hsq;
    rewrite ?u16_id by lia; (split; [reflexivity|]); repeat split; lia.
Qed.

Lemma msg_load_build u1 u2 ty l seid seq :
  List.Forall ie_tree_wf l -> 0 <= ty < 256 -> 0 <= seq < 2 ^ 24 ->
  match seid with Some s => 0 <= s < 2 ^ 64 | None => True end ->
  12 + ies_size l < 65536 ->
  let m := build_msg ty l seid seq in
  fst (msg_load u1 (of_bytes (msg_bytes u2 m))) =
    Ok (mk_pfcp_msg (hdr m) (map (ie_tree_norm u1) l)).
Proof.
  intros Hl Hty Hseq Hseid Hb m.
  destruct (build_msg_header ty l seid seq (wf_sized l Hl) Hty Hseq Hseid Hb)
    as (Hm & Hn & Hh & _ & Hlen). fold m in Hm, Hn, Hh, Hlen.
  assert (Hw : msg_wf m) by (split; [done|]; split; rewrite Hm; done).
  rewrite (msg_load_bytes u1 u2 m Hw). unfold msg_norm. now rewrite Hn, Hm.
Qed.


(** An element of length 0 ends the loop. *)
Lemma load_msg_ies_stops u1 u2 check g l rest :
  0 <= g < 2 ^ 15 -> List.Forall ie_tree_wf l ->
  forall fuel n, (length l < fuel)%nat -> 0 <= n -> n + ies_size l < check -> check < 65536 ->
  load_msg_ies u1 fuel check n
    (of_bytes (concat (map (ie_bytes u2) l) ++ tlv_bytes g 0 ++ rest)) =
    (Ok (map (ie_tree_norm u1) l, n + ies_size l), of_bytes rest).
Proof.
  intros Hg. induction 1 as [|i l Hi Hl IH]; intros [|fuel] n Hf Hn Hc Hb;
    [cbn in Hf; lia| |cbn in Hf; lia|]; cbn [load_msg_ies map concat app].
  - assert (new_pfcp_ie_from_stream u1 (of_bytes (tlv_bytes g 0 ++ rest)) =
              (Ok None, of_bytes rest)) as E.
    { unfold new_pfcp_ie_from_stream, stream_fuel. rewrite Nat.add_comm. cbn [Nat.add load_ie].
      rewrite (bind_ok _ _ _ _ _ (tlv_load_bytes g 0 rest Hg ltac:(lia))). done. }
    rewrite (bind_ok _ _ _ _ _ E). unfold ret. cbn. now rewrite Z.add_0_r.
  - rewrite <- app_assoc.
    rewrite (bind_ok _ _ _ _ _ (new_pfcp_ie_from_stream_bytes u1 u2 i _ Hi)).
    pose proof (ie_tree_sizes 0 i Hi) as (_ & Hs & _). pose proof (ies_size_wf_nonneg l Hl) as Hr.
    cbn [ies_size fold_right] in *. fold (ies_size l) in *. rewrite u16_id by lia.
    rewrite (proj2 (Z.ltb_lt _ _)) by lia. cbn in Hf.
    rewrite (bind_ok _ _ _ _ _ (IH fuel (n + (4 + ie_size i)) ltac:(lia) ltac:(lia) ltac:(lia) Hb)).
    unfold ret. cbn [fst snd]. do 3 f_equal. lia.
Qed.


Lemma build_msg_far_id_wf v seq :
  let h := hdr (build_msg 52 [Leaf (FarId v)] None seq) in header_wf h /\ header_norm h = h.
Proof.
  pose proof (Z.mod_pos_bound seq (2 ^ 24) ltac:(lia)) as Hs.
  rewrite <- Z.land_ones in Hs by lia. change (Z.ones 24) with 0x00FFFFFF in Hs.
  split; [|reflexivity]. unfold header_wf. cbn -[Z.land].
  change (256 ^ Z.of_nat 3) with (2 ^ 24). change (256 ^ Z.of_nat 8) with (2 ^ 64).
  change (u16 _) with 12. lia.
Qed.

(** A message that is cut off is accepted: the reads of the stream fail
    without an exception and no length is compared with the bytes received, so
    a message that lacks the last four bytes, the value of its FAR identifier,
    parses, and the identifier is what the memory held ([htonl uninit]). *)
Theorem truncated_message_accepted uninit v seq :
  let m := build_msg 52 [Leaf (FarId v)] None seq in
  let bs := msg_bytes 0 m in
  fst (msg_load uninit (of_bytes (take (length bs - 4) bs))) =
    Ok (mk_pfcp_msg (hdr m) [Leaf (FarId (mk_far_id_t (htonl uninit)))]).
Proof.
  cbn zeta. destruct (build_msg_far_id_wf v seq) as [Hw Hn].
  set (h := hdr (build_msg 52 [Leaf (FarId v)] None seq)) in *.
  assert (Hb : msg_bytes 0 (build_msg 52 [Leaf (FarId v)] None seq) =
               (header_bytes h ++ tlv_bytes 108 4) ++ be_enc 4 (far_id v)).
  { unfold msg_bytes. fold h. now rewrite <- app_assoc. }
  rewrite Hb, length_app, length_be_enc, take_app_length' by lia. unfold msg_load.
  rewrite (bind_ok _ _ _ _ _ (header_load_bytes uninit h _ Hw)), Hn. reflexivity.
Qed.

(** C28: one datagram stops the program: a message with a node identifier whose
    name begins with the byte 255 makes [dotted_to_string] read a label of
    length -1 and stay at its offset; the loop never ends. *)
Theorem hostile_name_hangs uninit h rest :
  header_wf h -> Z.of_nat (length rest) < 65534 ->
  (forall fuel, to_string_loop fuel (255 :: rest) 0 [] = None) /\
  fst (msg_load uninit (of_bytes (header_bytes h ++
         tlv_bytes 60 (Z.of_nat (length rest) + 2) ++ 2 :: 255 :: rest))) = Err (Diverges 60).
Proof.
  intros Hh Hn. split; [intros; apply name_255_loops|].
  set (len := Z.of_nat (length rest) + 2).
  assert (new_pfcp_ie_from_stream uninit (of_bytes (tlv_bytes 60 len ++ 2 :: 255 :: rest)) =
            (Err (Diverges 60), of_bytes [])) as E.
  { unfold new_pfcp_ie_from_stream, stream_fuel. rewrite Nat.add_comm. cbn [Nat.add load_ie].
    rewrite (bind_ok _ _ _ _ _ (tlv_load_bytes 60 len _ ltac:(lia) ltac:(unfold len; lia))).
    rewrite (proj2 (Z.eqb_neq _ 0)) by (unfold len; lia). change (is_group 60) with false.
    cbn [leaf_loader]. rewrite (bind_err _ _ _ (Diverges 60) (of_bytes [])); [done|].
    unfold load_as. now rewrite (bind_err _ _ _ _ _ (node_id_255 uninit rest Hn)). }
  unfold msg_load. rewrite (bind_ok _ _ _ _ _ (header_load_bytes uninit h _ Hh)).
  cbn [load_msg_ies]. rewrite (bind_err _ _ _ (Diverges 60) (of_bytes [])); [done|].
  now rewrite (bind_err _ _ _ _ _ E).
Qed.

(** ** Witness *)

Module SampleMessage.

(** A modification request with a Create FAR that forwards to CORE. *)
Definition create_far_sample : pfcp_ie :=
  Group 3
    [Leaf (FarId (mk_far_id_t 7));
     Leaf (ApplyAction (mk_apply_action_t 0 false false false true false));
     Group 4 [Leaf (DestinationInterface (mk_destination_interface_t 1));
              Leaf (OuterHeaderCreation
                (mk_outer_header_creation_t 0x100 100 0x0a00000a (repeat 0 16) 0))]].

Lemma create_far_sample_wf : ie_tree_wf create_far_sample.
Proof.
  cbn. unfold outer_header_creation_wf, ipv4_ok, ipv6_ok. cbn.
  repeat (split; try done; try lia).
Defined.


(** A heartbeat request of eighteen bytes. *)
Example hostile_name_hangs_witness :
  (forall fuel, to_string_loop fuel [255] 0 [] = None) /\
  fst (msg_load 0 (of_bytes [32; 1; 0; 10; 0; 0; 1; 0; 0; 60; 0; 2; 2; 255])) = Err (Diverges 60).
Proof.
  apply (hostile_name_hangs 0 (set_sequence_number 1 (set_message_length 10 (set_message_type 1
           new_header))) []); [|cbn; lia].
  repeat split; vm_compute; (reflexivity || discriminate).
Defined.


End SampleMessage.
