(* ===== verification/PfcpElements.v ===== *)
(** * Rules as elements (src/src/oai/pfcp/3gpp_29.244.hpp)

    The constructors of the grouped elements from the core types of
    msg_pfcp.hpp, and [to_core_type], which sets the members of a core type one
    element after the other and throws for a member it does not have. *)
From Stdlib Require Import ZArith Lia List Bool.
From stdpp Require Import base list.
From S2P Require Import Prelude PfcpStream PfcpTypes PfcpIes PfcpNodeIes PfcpCodec PfcpMsg PfcpGroups PfcpReportGroups PfcpMessages PfcpContainers.
Open Scope Z_scope.
Open Scope upf_scope.

(** ** Constructors from core types *)

(** [if (b.x.first) add_ie(new pfcp_x_ie(b.x.second))] *)
Definition add_member {T : Type} (to_ie : T -> pfcp_ie) (o : opt T) : list pfcp_ie :=
  if first o then [to_ie (second o)] else [].

Definition add_leaf {T : Type} (mk : T -> leaf) : opt T -> list pfcp_ie :=
  add_member (fun v => Leaf (mk v)).

Definition pdi_ie (b : pdi) : pfcp_ie :=
  Group 2 (add_leaf SourceInterface (pdi_source_interface b) ++
           add_leaf FTeid (pdi_local_fteid b) ++
           add_leaf NetworkInstance (pdi_network_instance b) ++
           add_leaf UeIpAddress (pdi_ue_ip_address b) ++
           add_leaf SdfFilter (pdi_sdf_filter b) ++
           add_leaf ApplicationId (pdi_application_id b) ++
           add_leaf Qfi (pdi_qfi b)).

Definition forwarding_parameters_ie (b : forwarding_parameters) : pfcp_ie :=
  Group 4 (add_leaf DestinationInterface (forwarding_parameters_destination_interface b) ++
           add_leaf NetworkInstance (forwarding_parameters_network_instance b) ++
           add_leaf OuterHeaderCreation (forwarding_parameters_outer_header_creation b) ++
           add_leaf TransportLevelMarking (forwarding_parameters_transport_level_marking b) ++
           add_leaf ForwardingPolicy (forwarding_parameters_forwarding_policy b)).

(** The constructor adds nothing. *)
Definition duplicating_parameters_ie (b : duplicating_parameters) : pfcp_ie := Group 5 [].

Definition create_pdr_ie (b : create_pdr) : pfcp_ie :=
  Group 1 (add_leaf PdrId (create_pdr_pdr_id b) ++
           add_leaf Precedence (create_pdr_precedence b) ++
           add_member pdi_ie (create_pdr_pdi b) ++
           add_leaf OuterHeaderRemoval (create_pdr_outer_header_removal b) ++
           add_leaf FarId (create_pdr_far_id b) ++
           add_leaf UrrId (create_pdr_urr_id b) ++
           add_leaf QerId (create_pdr_qer_id b) ++
           add_leaf ActivatePredefinedRules (create_pdr_activate_predefined_rules b)).

Definition create_far_ie (b : create_far) : pfcp_ie :=
  Group 3 (add_leaf FarId (create_far_far_id b) ++
           add_leaf ApplyAction (create_far_apply_action b) ++
           add_member forwarding_parameters_ie (create_far_forwarding_parameters b) ++
           add_member duplicating_parameters_ie (create_far_duplicating_parameters b) ++
           add_leaf BarId (create_far_bar_id b)).

Definition created_pdr_ie (b : created_pdr) : pfcp_ie :=
  Group 8 (add_leaf PdrId (created_pdr_pdr_id b) ++ add_leaf FTeid (created_pdr_local_fteid b)).

(** The constructor adds nothing. *)
Definition update_pdr_ie (b : update_pdr) : pfcp_ie := Group 9 [].

Definition update_forwarding_parameters_ie (b : update_forwarding_parameters) : pfcp_ie :=
  Group 11
    (add_leaf DestinationInterface (update_forwarding_parameters_destination_interface b) ++
     add_leaf NetworkInstance (update_forwarding_parameters_network_instance b) ++
     add_leaf OuterHeaderCreation (update_forwarding_parameters_outer_header_creation b) ++
     add_leaf TransportLevelMarking (update_forwarding_parameters_transport_level_marking b) ++
     add_leaf ForwardingPolicy (update_forwarding_parameters_forwarding_policy b)).

Definition update_far_ie (b : update_far) : pfcp_ie :=
  Group 10
    ([Leaf (FarId (update_far_far_id b))] ++
     add_leaf ApplyAction (update_far_apply_action b) ++
     add_member update_forwarding_parameters_ie (update_far_update_forwarding_parameters b) ++
     add_leaf BarId (update_far_bar_id b)).

Definition remove_pdr_ie (b : remove_pdr) : pfcp_ie :=
  Group 15 (add_leaf PdrId (remove_pdr_pdr_id b)).

Definition remove_far_ie (b : remove_far) : pfcp_ie :=
  Group 16 (add_leaf FarId (remove_far_far_id b)).

(** The constructors of the elements for usage reporting and QoS rules and for
    traffic endpoints add nothing either. *)
Definition create_urr_ie (b : create_urr) : pfcp_ie := Group 6 [].
Definition create_qer_ie (b : create_qer) : pfcp_ie := Group 7 [].
Definition update_bar_report_ie (b : update_bar_within_pfcp_session_report_response) : pfcp_ie :=
  Group 12 [].
Definition update_urr_ie (b : update_urr) : pfcp_ie := Group 13 [].
Definition update_qer_ie (b : update_qer) : pfcp_ie := Group 14 [].
Definition remove_urr_ie (b : remove_urr) : pfcp_ie := Group 17 [].
Definition remove_qer_ie (b : remove_qer) : pfcp_ie := Group 18 [].
Definition create_traffic_endpoint_ie (b : create_traffic_endpoint) : pfcp_ie := Group 127 [].

Definition downlink_data_report_ie (b : downlink_data_report) : pfcp_ie :=
  Group 83 (add_leaf PdrId (downlink_data_report_pdr_id b)).

(** ** Back to core types *)

(** [for (auto sie : ies) sie->to_core_type(c)]: [vs] are the values of the
    elements, or what making them throws. *)
Fixpoint fill {C : Type} `{IesContainer C} (vs : list (result pfcp_error core_value)) (c : C)
    : result pfcp_error C :=
  match vs with
  | [] => Ok c
  | Err e :: _ => Err e
  | Ok x :: vs' =>
      match set_member x c with
      | Ok c' => fill vs' c'
      | Err e => Err e
      end
  end.

Definition fill_new {C : Type} `{Inhabited C} `{IesContainer C} (mk : C -> core_value)
    (vs : list (result pfcp_error core_value)) : result pfcp_error core_value :=
  match fill vs (inhabitant (A := C)) with Ok c => Ok (mk c) | Err e => Err e end.

(** The value an element sets in the container it stands in.  [to_core_type] of
    Create URR has no overload for [create_urr]: it calls itself for ever. *)
Fixpoint core_of (i : pfcp_ie) : result pfcp_error core_value :=
  match i with
  | Leaf l => Ok (CLeaf l)
  | Group ty ies =>
      let vs := map core_of ies in
      match ty with
      | 1 => fill_new CCreatePdr vs
      | 2 => fill_new CPdi vs
      | 3 => fill_new CCreateFar vs
      | 4 => fill_new CForwardingParameters vs
      | 5 => fill_new CDuplicatingParameters vs
      | 6 => Err (Diverges 6)
      | 7 => fill_new CCreateQer vs
      | 8 => fill_new CCreatedPdr vs
      | 9 => fill_new CUpdatePdr vs
      | 10 => fill_new CUpdateFar vs
      | 11 => fill_new CUpdateForwardingParameters vs
      | 12 => fill_new CUpdateBarReport vs
      | 13 => fill_new CUpdateUrr vs
      | 14 => fill_new CUpdateQer vs
      | 15 => fill_new CRemovePdr vs
      | 16 => fill_new CRemoveFar vs
      | 17 => fill_new CRemoveUrr vs
      | 18 => fill_new CRemoveQer vs
      | 83 => fill_new CDownlinkDataReport vs
      | 127 => fill_new CCreateTrafficEndpoint vs
      | _ => Err (IllegalIe ty)
      end
  end.

(** An element read from a stream and set in a container: [None] where the
    factory returns the null pointer. *)
Definition decode (uninit : Z) (bs : list Z) : result pfcp_error (option core_value) :=
  match fst (new_pfcp_ie_from_stream uninit (of_bytes bs)) with
  | Err e => Err e
  | Ok None => Ok None
  | Ok (Some (_, i)) => match core_of i with Ok x => Ok (Some x) | Err e => Err e end
  end.

(** ** What [to_core_type] throws *)

(** [i] is one of the elements, or inside one. *)
Inductive occurs (i : pfcp_ie) : list pfcp_ie -> Prop :=
| occurs_here l : In i l -> occurs i l
| occurs_inside ty ies l : In (Group ty ies) l -> occurs i ies -> occurs i l.

(** An exception of [to_core_type] names an element; a call that never returns is
    that of a Create URR. *)
Definition names_element (l : list pfcp_ie) (e : pfcp_error) : Prop :=
  match e with
  | IllegalIe ty => exists i, occurs i l /\ tlv_type i = ty
  | Diverges ty => ty = 6 /\ exists i, occurs i l /\ tlv_type i = 6
  | _ => False
  end.

Lemma names_element_mono l l' e :
  (forall i, occurs i l -> occurs i l') -> names_element l e -> names_element l' e.
Proof. destruct e; cbn; naive_solver. Qed.

Lemma occurs_mono i l l' : (forall j, In j l -> In j l') -> occurs i l -> occurs i l'.
Proof.
  intros Hs. destruct 1 as [l Hi|ty ies l Hi Ho]; [now apply occurs_here, Hs|].
  now apply (occurs_inside i ty ies); [apply Hs|].
Qed.

(** The value of an element has the element's number. *)
Lemma core_type_of i x : core_of i = Ok x -> core_type x = tlv_type i.
Proof.
  destruct i as [l|ty ies]; cbn [core_of]; [now intros [= <-]|]. unfold fill_new.
  repeat case_match; intros [= <-]; reflexivity.
Qed.

Section Throws.
Context {C : Type} `{IesContainer C}.

(** The first value without a member ends the call, under the number of its
    element. *)
Lemma fill_refused pre i post x (c c' : C) :
  fill (map core_of pre) c = Ok c' -> core_of i = Ok x -> set_value x c' = None ->
  fill (map core_of (pre ++ i :: post)) c = Err (IllegalIe (tlv_type i)).
Proof.
  revert c. induction pre as [|j pre IH]; intros c; cbn [map app fill].
  - intros [= ->] Hi Hx. rewrite Hi. unfold set_member. rewrite Hx, base_set_value_throws.
    now rewrite (core_type_of _ _ Hi).
  - destruct (core_of j) as [y|]; [|done]. destruct (set_member y c); [|done]. apply IH.
Qed.

Lemma fill_throws l (c : C) e :
  (forall i e, In i l -> core_of i = Err e -> names_element [i] e) ->
  fill (map core_of l) c = Err e -> names_element l e.
Proof.
  revert c. induction l as [|i l IH]; intros c Hl; cbn [map fill]; [done|].
  destruct (core_of i) as [x|e'] eqn:Hi.
  - unfold set_member. destruct (set_value x c) as [c'|].
    + intros He. apply (names_element_mono l); [|apply (IH c'); [|done]].
      * intros j. apply occurs_mono. intros k Hk. now right.
      * intros j e' Hj. apply Hl. now right.
    + rewrite base_set_value_throws. intros [= <-]. exists i.
      split; [apply occurs_here; now left|]. symmetry. now apply core_type_of.
  - intros [= <-]. apply (names_element_mono [i]); [|now apply Hl; [left|]].
    intros j. apply occurs_mono. intros k [<-|[]]. now left.
Qed.

End Throws.

Lemma core_of_throws i e : core_of i = Err e -> names_element [i] e.
Proof.
  revert e. induction i as [l|ty ies IH] using pfcp_ie_ind; intros e; [done|].
  assert (forall C (H : Inhabited C) (H0 : IesContainer C) (mk : C -> core_value),
    fill_new mk (map core_of ies) = Err e -> names_element [Group ty ies] e) as Hf.
  { intros C H H0 mk. unfold fill_new. destruct (fill _ _) as [c|e'] eqn:Hc; [done|].
    intros [= <-]. apply (names_element_mono ies).
    - intros j. apply (occurs_inside j ty ies). now left.
    - refine (fill_throws ies _ e' _ Hc). intros j e'' Hj. now apply (proj1 (List.Forall_forall _ _) IH). }
  assert (forall n, ty = n -> occurs (Group n ies) [Group ty ies]) as Ho
    by (intros n ->; apply occurs_here; now left).
  cbn [core_of].
  repeat case_match; intros He; try (now apply Hf in He); injection He as <-; cbn [names_element];
    try (eexists; split; [now apply Ho|reflexivity]).
  split; [done|]. eexists. split; [now apply Ho|reflexivity].
Qed.

(** ** Round trip of rules *)

(** An optional member as it arrives. *)
Definition opt_norm {T : Type} `{Inhabited T} (f : T -> T) (o : opt T) : opt T :=
  if first o then present (f (second o)) else unset.

Definition arrive (u : Z) (l : list pfcp_ie) : list (result pfcp_error core_value) :=
  map core_of (map (ie_tree_norm u) l).

Lemma arrive_app u l1 l2 : arrive u (l1 ++ l2) = arrive u l1 ++ arrive u l2.
Proof. unfold arrive. now rewrite !map_app. Qed.

Section Fill.
Context {C T : Type} `{Inhabited T} `{HasIELaws C T} `{IesContainer C}.

(** A member that was not there yet. *)
Lemma fill_member u (to_ie : T -> pfcp_ie) (K : T -> core_value) (f : T -> T) o vs (c : C) :
  (forall v, core_of (ie_tree_norm u (to_ie v)) = Ok (K (f v))) ->
  (forall v c, set_value (K v) c = Some (set v c)) -> ie c = unset (T := T) ->
  fill (arrive u (add_member to_ie o) ++ vs) c = fill vs (with_ie (opt_norm f o) c).
Proof.
  intros Hc Hs Hu. unfold add_member, opt_norm. destruct (first o); cbn [arrive map app].
  - cbn [fill]. rewrite Hc, (set_member_some _ _ _ (Hs _ _)). reflexivity.
  - rewrite <- Hu. now rewrite with_ie_ie.
Qed.

Context `{PfcpIeLaws T}.

Lemma fill_leaf u (mk : T -> leaf) o vs (c : C) :
  (forall v, leaf_norm u (mk v) = mk (ie_norm u v)) ->
  (forall v c, set_value (CLeaf (mk v)) c = Some (set v c)) -> ie c = unset (T := T) ->
  fill (arrive u (add_leaf mk o) ++ vs) c = fill vs (with_ie (opt_norm (ie_norm u) o) c).
Proof.
  intros Hn Hs Hu. apply (fill_member u _ (fun v => CLeaf (mk v))); [|done|done].
  intros v. cbn. now rewrite Hn.
Qed.

End Fill.

Definition pdi_norm (u : Z) (b : pdi) : pdi :=
  mk_pdi (opt_norm (ie_norm u) (pdi_source_interface b)) (opt_norm (ie_norm u) (pdi_local_fteid b))
    (opt_norm (ie_norm u) (pdi_network_instance b)) (opt_norm (ie_norm u) (pdi_ue_ip_address b))
    unset (opt_norm (ie_norm u) (pdi_sdf_filter b)) (opt_norm (ie_norm u) (pdi_application_id b))
    unset (opt_norm (ie_norm u) (pdi_qfi b)) unset unset unset.

(** The members of a new container, one after the other. *)
Ltac fill_start :=
  cbn [ie_tree_norm core_of]; unfold fill_new;
  match goal with |- context [map core_of (map (ie_tree_norm ?u) ?l)] =>
    change (map core_of (map (ie_tree_norm u) l)) with (arrive u l) end;
  rewrite <- (app_nil_r (arrive _ _)), ?arrive_app, <- ?app_assoc.

Ltac fill_members :=
  repeat first
    [ rewrite fill_leaf by (intros; reflexivity)
    | erewrite fill_member by (intros; first [reflexivity | auto]) ].

Ltac fill_steps := fill_start; fill_members.

Lemma core_of_pdi u b : core_of (ie_tree_norm u (pdi_ie b)) = Ok (CPdi (pdi_norm u b)).
Proof. unfold pdi_ie. fill_steps. reflexivity. Qed.

Definition forwarding_parameters_norm (u : Z) (b : forwarding_parameters) : forwarding_parameters :=
  mk_forwarding_parameters
    (opt_norm (ie_norm u) (forwarding_parameters_destination_interface b))
    (opt_norm (ie_norm u) (forwarding_parameters_network_instance b)) unset
    (opt_norm (ie_norm u) (forwarding_parameters_outer_header_creation b))
    (opt_norm (ie_norm u) (forwarding_parameters_transport_level_marking b))
    (opt_norm (ie_norm u) (forwarding_parameters_forwarding_policy b)) unset unset unset.

Lemma core_of_forwarding_parameters u b :
  core_of (ie_tree_norm u (forwarding_parameters_ie b)) =
    Ok (CForwardingParameters (forwarding_parameters_norm u b)).
Proof. unfold forwarding_parameters_ie. fill_steps. reflexivity. Qed.

Definition update_forwarding_parameters_norm (u : Z) (b : update_forwarding_parameters)
    : update_forwarding_parameters :=
  mk_update_forwarding_parameters
    (opt_norm (ie_norm u) (update_forwarding_parameters_destination_interface b))
    (opt_norm (ie_norm u) (update_forwarding_parameters_network_instance b))
    (opt_norm (ie_norm u) (update_forwarding_parameters_outer_header_creation b))
    (opt_norm (ie_norm u) (update_forwarding_parameters_transport_level_marking b))
    (opt_norm (ie_norm u) (update_forwarding_parameters_forwarding_policy b)) unset unset unset.

Lemma core_of_update_forwarding_parameters u b :
  core_of (ie_tree_norm u (update_forwarding_parameters_ie b)) =
    Ok (CUpdateForwardingParameters (update_forwarding_parameters_norm u b)).
Proof. unfold update_forwarding_parameters_ie. fill_steps. reflexivity. Qed.

Lemma core_of_duplicating_parameters u b :
  core_of (ie_tree_norm u (duplicating_parameters_ie b)) =
    Ok (CDuplicatingParameters inhabitant).
Proof. reflexivity. Qed.

(** A core type that travels as an element: what is left of it, [rule_norm]. *)
Class RuleElement (C : Type) : Type := {
  rule_ie : C -> pfcp_ie;
  rule_value : C -> core_value;
  rule_norm : Z -> C -> C;
  rule_core_of u b : core_of (ie_tree_norm u (rule_ie b)) = Ok (rule_value (rule_norm u b))
}.

Definition create_pdr_norm (u : Z) (b : create_pdr) : create_pdr :=
  mk_create_pdr (opt_norm (ie_norm u) (create_pdr_pdr_id b))
    (opt_norm (ie_norm u) (create_pdr_precedence b)) (opt_norm (pdi_norm u) (create_pdr_pdi b))
    (opt_norm (ie_norm u) (create_pdr_outer_header_removal b))
    (opt_norm (ie_norm u) (create_pdr_far_id b)) (opt_norm (ie_norm u) (create_pdr_urr_id b))
    (opt_norm (ie_norm u) (create_pdr_qer_id b))
    (opt_norm (ie_norm u) (create_pdr_activate_predefined_rules b)).

#[export] Instance create_pdr_rule : RuleElement create_pdr.
Proof.
  refine {| rule_ie := create_pdr_ie; rule_value := CCreatePdr; rule_norm := create_pdr_norm |}.
  intros u b. unfold create_pdr_ie. pose proof (core_of_pdi u). fill_steps. reflexivity.
Defined.

Definition create_far_norm (u : Z) (b : create_far) : create_far :=
  mk_create_far (opt_norm (ie_norm u) (create_far_far_id b))
    (opt_norm (ie_norm u) (create_far_apply_action b))
    (opt_norm (forwarding_parameters_norm u) (create_far_forwarding_parameters b))
    (opt_norm (fun _ => inhabitant) (create_far_duplicating_parameters b))
    (opt_norm (ie_norm u) (create_far_bar_id b)).

#[export] Instance create_far_rule : RuleElement create_far.
Proof.
  refine {| rule_ie := create_far_ie; rule_value := CCreateFar; rule_norm := create_far_norm |}.
  intros u b. unfold create_far_ie. pose proof (core_of_forwarding_parameters u).
  pose proof (core_of_duplicating_parameters u). fill_steps. reflexivity.
Defined.

Definition created_pdr_norm (u : Z) (b : created_pdr) : created_pdr :=
  mk_created_pdr (opt_norm (ie_norm u) (created_pdr_pdr_id b))
    (opt_norm (ie_norm u) (created_pdr_local_fteid b)).

#[export] Instance created_pdr_rule : RuleElement created_pdr.
Proof.
  refine {| rule_ie := created_pdr_ie; rule_value := CCreatedPdr; rule_norm := created_pdr_norm |}.
  intros u b. unfold created_pdr_ie. fill_steps. reflexivity.
Defined.

Definition update_far_norm (u : Z) (b : update_far) : update_far :=
  mk_update_far (ie_norm u (update_far_far_id b))
    (opt_norm (ie_norm u) (update_far_apply_action b))
    (opt_norm (update_forwarding_parameters_norm u) (update_far_update_forwarding_parameters b))
    unset (opt_norm (ie_norm u) (update_far_bar_id b)).

Lemma fill_far_id u v vs (c : update_far) :
  fill (arrive u [Leaf (FarId v)] ++ vs) c = fill vs (with_member (ie_norm u v) c).
Proof. reflexivity. Qed.

#[export] Instance update_far_rule : RuleElement update_far.
Proof.
  refine {| rule_ie := update_far_ie; rule_value := CUpdateFar; rule_norm := update_far_norm |}.
  intros u b. unfold update_far_ie. pose proof (core_of_update_forwarding_parameters u).
  fill_start. rewrite fill_far_id. fill_members. reflexivity.
Defined.

#[export] Instance remove_pdr_rule : RuleElement remove_pdr.
Proof.
  refine {| rule_ie := remove_pdr_ie; rule_value := CRemovePdr;
            rule_norm u b := mk_remove_pdr (opt_norm (ie_norm u) (remove_pdr_pdr_id b)) |}.
  intros u b. unfold remove_pdr_ie. fill_steps. reflexivity.
Defined.

#[export] Instance remove_far_rule : RuleElement remove_far.
Proof.
  refine {| rule_ie := remove_far_ie; rule_value := CRemoveFar;
            rule_norm u b := mk_remove_far (opt_norm (ie_norm u) (remove_far_far_id b)) |}.
  intros u b. unfold remove_far_ie. fill_steps. reflexivity.
Defined.

(** Round trip of rules: a Create PDR, Create FAR, Created PDR, Update
    FAR, Remove PDR or Remove FAR whose parts are well-formed is read back from
    its bytes as the same rule, up to the members that the elements do not
    carry ([rule_norm]). *)
Theorem rule_roundtrip {C : Type} `{RuleElement C} u1 u2 (b : C) rest :
  ie_tree_wf (rule_ie b) ->
  decode u1 (ie_bytes u2 (rule_ie b) ++ rest) = Ok (Some (rule_value (rule_norm u1 b))).
Proof.
  intros Hw. unfold decode. rewrite new_pfcp_ie_from_stream_bytes by done.
  cbn. now rewrite rule_core_of.
Qed.

(** ** Witness *)

Module SampleElements.

(** A detection rule for uplink packets, with its PDI. *)
Definition create_pdr_sample : create_pdr :=
  mk_create_pdr (present (mk_pdr_id_t 10)) (present (mk_precedence_t 3))
    (present (mk_pdi (present (mk_source_interface_t 0))
                (present (mk_fteid_t false false true false 100 0x0a00000a (repeat 0 16) 0))
                unset (present (mk_ue_ip_address_t false false true false 0x01010101
                                  (repeat 0 16) 0))
                unset unset unset unset unset unset unset unset))
    (present (mk_outer_header_removal_t 0)) (present (mk_far_id_t 7)) unset unset unset.

Example rule_roundtrip_witness :
  create_pdr_norm 0 create_pdr_sample = create_pdr_sample /\
  decode 0 (ie_bytes 0 (create_pdr_ie create_pdr_sample) ++ []) =
    Ok (Some (CCreatePdr create_pdr_sample)).
Proof.
  split; [reflexivity|].
  change (create_pdr_ie create_pdr_sample) with (rule_ie create_pdr_sample).
  rewrite (rule_roundtrip (C := create_pdr) 0 0 create_pdr_sample []); [reflexivity|].
  cbn. unfold fteid_wf, ue_ip_address_wf, ipv4_ok, ipv6_ok. cbn.
  repeat (split; try done; try lia).
Defined.

End SampleElements.
