(* ===== verification/PfcpBuild.v ===== *)
(** * Messages from structures and back
    (src/src/oai/pfcp/3gpp_29.244.cpp, 3gpp_29.244.hpp)

    The constructors of [pfcp_msg] from the containers of whole messages, and
    [pfcp_msg::to_core_type].  A message is an instance of [PfcpMessage]: what
    its constructor adds, and what arrives at the peer. *)
From Stdlib Require Import ZArith Lia List Bool.
From stdpp Require Import base list.
From S2P Require Import Prelude PfcpStream PfcpTypes PfcpIes PfcpFqdn PfcpNodeIes PfcpCodec PfcpMsg PfcpReportTypes PfcpGroups PfcpReportGroups PfcpMessages PfcpContainers PfcpElements.
Open Scope Z_scope.
Open Scope upf_scope.

(** [for (auto it : pfcp_ies.xs) add_ie(new pfcp_x_ie(it))] *)
Definition add_each {T : Type} (to_ie : T -> pfcp_ie) (l : list T) : list pfcp_ie := map to_ie l.

(** ** Constructors of [pfcp_msg] *)

Definition heartbeat_request_ies (b : pfcp_heartbeat_request) : list pfcp_ie :=
  add_leaf RecoveryTimeStamp (heartbeat_request_recovery_time_stamp b).

Definition heartbeat_response_ies (b : pfcp_heartbeat_response) : list pfcp_ie :=
  add_leaf RecoveryTimeStamp (heartbeat_response_recovery_time_stamp b).

Definition association_setup_request_ies (b : pfcp_association_setup_request) : list pfcp_ie :=
  add_leaf NodeId (association_setup_request_node_id b) ++
  add_leaf RecoveryTimeStamp (association_setup_request_recovery_time_stamp b) ++
  add_leaf UpFunctionFeatures (association_setup_request_up_function_features b) ++
  add_leaf CpFunctionFeatures (association_setup_request_cp_function_features b) ++
  add_leaf UserPlaneIpResourceInformation
    (association_setup_request_user_plane_ip_resource_information b).

Definition association_setup_response_ies (b : pfcp_association_setup_response) : list pfcp_ie :=
  add_leaf NodeId (association_setup_response_node_id b) ++
  add_leaf Cause (association_setup_response_cause b) ++
  add_leaf RecoveryTimeStamp (association_setup_response_recovery_time_stamp b) ++
  add_leaf UpFunctionFeatures (association_setup_response_up_function_features b) ++
  add_leaf CpFunctionFeatures (association_setup_response_cp_function_features b) ++
  add_leaf UserPlaneIpResourceInformation
    (association_setup_response_user_plane_ip_resource_information b).

Definition association_release_request_ies (b : pfcp_association_release_request)
    : list pfcp_ie :=
  add_leaf NodeId (association_release_request_node_id b).

Definition association_release_response_ies (b : pfcp_association_release_response)
    : list pfcp_ie :=
  add_leaf NodeId (association_release_response_node_id b) ++
  add_leaf Cause (association_release_response_cause b).

Definition node_report_request_ies (b : pfcp_node_report_request) : list pfcp_ie :=
  add_leaf NodeId (node_report_request_node_id b) ++
  add_leaf NodeReportType (node_report_request_node_report_type b).

Definition session_establishment_request_ies (b : pfcp_session_establishment_request)
    : list pfcp_ie :=
  add_leaf NodeId (session_establishment_request_node_id b) ++
  add_leaf FSeid (session_establishment_request_cp_fseid b) ++
  add_each create_pdr_ie (session_establishment_request_create_pdrs b) ++
  add_each create_far_ie (session_establishment_request_create_fars b) ++
  add_each create_urr_ie (session_establishment_request_create_urrs b) ++
  add_each create_qer_ie (session_establishment_request_create_qers b) ++
  add_member create_traffic_endpoint_ie
    (session_establishment_request_create_traffic_endpoint b) ++
  add_leaf UserPlaneInactivityTimer
    (session_establishment_request_user_plane_inactivity_timer b) ++
  add_leaf UserId (session_establishment_request_user_id b).

Definition session_establishment_response_ies (b : pfcp_session_establishment_response)
    : list pfcp_ie :=
  add_leaf NodeId (session_establishment_response_node_id b) ++
  add_leaf Cause (session_establishment_response_cause b) ++
  add_leaf OffendingIe (session_establishment_response_offending_ie b) ++
  add_leaf FSeid (session_establishment_response_up_fseid b) ++
  add_each created_pdr_ie (session_establishment_response_created_pdrs b) ++
  add_leaf FailedRuleId (session_establishment_response_failed_rule_id b).

Definition session_modification_request_ies (b : pfcp_session_modification_request)
    : list pfcp_ie :=
  add_leaf FSeid (session_modification_request_cp_fseid b) ++
  add_each remove_pdr_ie (session_modification_request_remove_pdrs b) ++
  add_each remove_far_ie (session_modification_request_remove_fars b) ++
  add_each remove_urr_ie (session_modification_request_remove_urrs b) ++
  add_each remove_qer_ie (session_modification_request_remove_qers b) ++
  add_each create_pdr_ie (session_modification_request_create_pdrs b) ++
  add_each create_far_ie (session_modification_request_create_fars b) ++
  add_each create_urr_ie (session_modification_request_create_urrs b) ++
  add_each create_qer_ie (session_modification_request_create_qers b) ++
  add_member create_traffic_endpoint_ie
    (session_modification_request_create_traffic_endpoint b) ++
  add_each update_pdr_ie (session_modification_request_update_pdrs b) ++
  add_each update_far_ie (session_modification_request_update_fars b) ++
  add_each update_urr_ie (session_modification_request_update_urrs b) ++
  add_each update_qer_ie (session_modification_request_update_qers b) ++
  add_leaf UserPlaneInactivityTimer
    (session_modification_request_user_plane_inactivity_timer b).

Definition session_modification_response_ies (b : pfcp_session_modification_response)
    : list pfcp_ie :=
  add_leaf Cause (session_modification_response_cause b) ++
  add_leaf OffendingIe (session_modification_response_offending_ie b) ++
  add_each created_pdr_ie (session_modification_response_created_pdrs b) ++
  add_leaf FailedRuleId (session_modification_response_failed_rule_id b).

Definition session_deletion_request_ies (b : pfcp_session_deletion_request) : list pfcp_ie := [].

Definition session_deletion_response_ies (b : pfcp_session_deletion_response) : list pfcp_ie :=
  add_leaf Cause (session_deletion_response_cause b) ++
  add_leaf OffendingIe (session_deletion_response_offending_ie b).

Definition session_report_request_ies (b : pfcp_session_report_request) : list pfcp_ie :=
  add_leaf ReportType (session_report_request_report_type b) ++
  add_member downlink_data_report_ie (session_report_request_downlink_data_report b).

Definition session_report_response_ies (b : pfcp_session_report_response) : list pfcp_ie :=
  add_leaf Cause (session_report_response_cause b) ++
  add_leaf OffendingIe (session_report_response_offending_ie b).

(** [pfcp_msg::to_core_type] into a new structure. *)
Definition msg_to_core {C : Type} `{Inhabited C} `{IesContainer C} (m : pfcp_msg)
    : result pfcp_error C :=
  fill (map core_of (ies m)) inhabitant.

(** C23: [to_core_type] of a received message, whatever its elements: it fills the
    structure, or throws with the number of an element that the message has, or
    never returns, because of a Create URR; and the first element that the message
    has no member for is the one that is named. *)
Theorem to_core_type_outcome {C : Type} `{Inhabited C} `{IesContainer C} (m : pfcp_msg) :
  match msg_to_core (C := C) m with
  | Ok _ => True
  | Err e => names_element (ies m) e
  end /\
  forall pre i post x c, ies m = pre ++ i :: post ->
    fill (map core_of pre) (inhabitant (A := C)) = Ok c -> core_of i = Ok x ->
    set_value x c = None -> msg_to_core (C := C) m = Err (IllegalIe (tlv_type i)).
Proof.
  split.
  - destruct (msg_to_core m) eqn:Hm; [done|]. refine (fill_throws (ies m) _ _ _ Hm).
    intros i e' _. apply core_of_throws.
  - intros pre i post x c Hm. unfold msg_to_core. rewrite Hm. apply fill_refused.
Qed.

(** ** What arrives *)

Section FillVec.
Context {C T : Type} `{HasVecLaws C T} `{IesContainer C}.

Lemma fill_each u (to_ie : T -> pfcp_ie) (K : T -> core_value) (f : T -> T) l vs (c : C) :
  (forall v, core_of (ie_tree_norm u (to_ie v)) = Ok (K (f v))) ->
  (forall v c, set_value (K v) c = Some (push_back v c)) ->
  fill (arrive u (add_each to_ie l) ++ vs) c = fill vs (with_vec (vec c ++ map f l) c).
Proof.
  intros Hc Hs. revert c. induction l as [|v l IH]; intros c.
  - cbn. rewrite app_nil_r. now rewrite with_vec_vec.
  - cbn [add_each map arrive app fill]. rewrite Hc, (set_member_some _ _ _ (Hs _ _)).
    change (fill (arrive u (add_each to_ie l) ++ vs) (push_back (f v) c) =
            fill vs (with_vec (vec c ++ f v :: map f l) c)).
    rewrite IH. unfold push_back. now rewrite vec_with_vec, with_vec_twice, <- app_assoc.
Qed.

End FillVec.

(** Elements that cannot be sent are not there. *)
Lemma unsendable_each {T} (to_ie : T -> pfcp_ie) (l : list T) :
  (forall v, ~ ie_tree_wf (to_ie v)) -> List.Forall ie_tree_wf (add_each to_ie l) -> l = [].
Proof. intros Hn Hl. destruct l as [|v l]; [done|]. inversion Hl; subst. now destruct (Hn v). Qed.

Lemma unsendable_member {T} (to_ie : T -> pfcp_ie) (o : opt T) :
  (forall v, ~ ie_tree_wf (to_ie v)) -> List.Forall ie_tree_wf (add_member to_ie o) ->
  add_member to_ie o = [].
Proof.
  intros Hn. unfold add_member. destruct (first o); [|done]. intros Hl. inversion Hl; subst.
  now destruct (Hn (second o)).
Qed.

Lemma empty_group_not_wf g : ~ ie_tree_wf (Group g []).
Proof. now intros (_ & H & _). Qed.

Lemma core_of_create_pdr u b :
  core_of (ie_tree_norm u (create_pdr_ie b)) = Ok (CCreatePdr (create_pdr_norm u b)).
Proof. exact (rule_core_of (C := create_pdr) u b). Qed.

Lemma core_of_create_far u b :
  core_of (ie_tree_norm u (create_far_ie b)) = Ok (CCreateFar (create_far_norm u b)).
Proof. exact (rule_core_of (C := create_far) u b). Qed.

Lemma core_of_created_pdr u b :
  core_of (ie_tree_norm u (created_pdr_ie b)) = Ok (CCreatedPdr (created_pdr_norm u b)).
Proof. exact (rule_core_of (C := created_pdr) u b). Qed.

Lemma core_of_update_far u b :
  core_of (ie_tree_norm u (update_far_ie b)) = Ok (CUpdateFar (update_far_norm u b)).
Proof. exact (rule_core_of (C := update_far) u b). Qed.

Lemma core_of_remove_pdr u b :
  core_of (ie_tree_norm u (remove_pdr_ie b)) = Ok (CRemovePdr (rule_norm u b)).
Proof. exact (rule_core_of (C := remove_pdr) u b). Qed.

Lemma core_of_remove_far u b :
  core_of (ie_tree_norm u (remove_far_ie b)) = Ok (CRemoveFar (rule_norm u b)).
Proof. exact (rule_core_of (C := remove_far) u b). Qed.

Definition downlink_data_report_norm (u : Z) (b : downlink_data_report) : downlink_data_report :=
  mk_downlink_data_report (opt_norm (ie_norm u) (downlink_data_report_pdr_id b)) unset.

Lemma core_of_downlink_data_report u b :
  core_of (ie_tree_norm u (downlink_data_report_ie b)) =
    Ok (CDownlinkDataReport (downlink_data_report_norm u b)).
Proof. unfold downlink_data_report_ie. fill_steps. reflexivity. Qed.

(** A whole message: its type, what its constructor adds, and what arrives of
    it at the peer when it can be sent. *)
Class PfcpMessage (C : Type) `{Inhabited C} `{IesContainer C} : Type := {
  msg_id : Z;
  msg_id_range : 0 <= msg_id < 256;
  msg_ies_of : C -> list pfcp_ie;
  core_norm : Z -> C -> C;
  core_fill u b :
    List.Forall ie_tree_wf (msg_ies_of b) ->
    fill (arrive u (msg_ies_of b)) inhabitant = Ok (core_norm u b)
}.

Ltac drop_unsendable :=
  repeat match goal with
  | H : _ /\ _ |- _ => destruct H
  | H : List.Forall _ (_ ++ _) |- _ => apply List.Forall_app in H
  end;
  repeat match goal with
  | H : List.Forall ie_tree_wf (add_each ?f ?l) |- _ =>
      apply (unsendable_each f l (fun v => empty_group_not_wf _)) in H; rewrite H
  | H : List.Forall ie_tree_wf (add_member ?f ?o) |- _ =>
      apply (unsendable_member f o (fun v => empty_group_not_wf _)) in H; rewrite H
  end.

Ltac fill_message :=
  intros u b Hw; drop_unsendable; cbn [add_each map app];
  pose proof (core_of_create_pdr u); pose proof (core_of_create_far u);
  pose proof (core_of_created_pdr u); pose proof (core_of_update_far u);
  pose proof (core_of_remove_pdr u); pose proof (core_of_remove_far u);
  pose proof (core_of_downlink_data_report u);
  rewrite <- (app_nil_r (arrive _ _)), ?arrive_app, <- ?app_assoc;
  repeat first
    [ rewrite fill_leaf by (intros; reflexivity)
    | erewrite fill_each by (intros; first [reflexivity | auto])
    | erewrite fill_member by (intros; first [reflexivity | auto]) ];
  reflexivity.

(** Vectors of elements that cannot be sent are empty in messages that can. *)

Definition heartbeat_request_norm (u : Z) (b : pfcp_heartbeat_request) : pfcp_heartbeat_request
    :=
  mk_pfcp_heartbeat_request (opt_norm (ie_norm u) (heartbeat_request_recovery_time_stamp b)).

#[export] Instance heartbeat_request_message : PfcpMessage pfcp_heartbeat_request.
Proof.
  refine {| msg_id := 1; msg_ies_of := heartbeat_request_ies; core_norm :=
    heartbeat_request_norm |}; [lia|].
  unfold heartbeat_request_ies. fill_message.
Defined.

Definition heartbeat_response_norm (u : Z) (b : pfcp_heartbeat_response) :
    pfcp_heartbeat_response :=
  mk_pfcp_heartbeat_response (opt_norm (ie_norm u) (heartbeat_response_recovery_time_stamp b)).

#[export] Instance heartbeat_response_message : PfcpMessage pfcp_heartbeat_response.
Proof.
  refine {| msg_id := 2; msg_ies_of := heartbeat_response_ies; core_norm :=
    heartbeat_response_norm |}; [lia|].
  unfold heartbeat_response_ies. fill_message.
Defined.

Definition association_setup_request_norm (u : Z) (b : pfcp_association_setup_request) :
    pfcp_association_setup_request :=
  mk_pfcp_association_setup_request (opt_norm (ie_norm u) (association_setup_request_node_id
    b)) (opt_norm (ie_norm u) (association_setup_request_recovery_time_stamp b)) (opt_norm
    (ie_norm u) (association_setup_request_up_function_features b)) (opt_norm (ie_norm u)
    (association_setup_request_cp_function_features b)) (opt_norm (ie_norm u)
    (association_setup_request_user_plane_ip_resource_information b)).

#[export] Instance association_setup_request_message : PfcpMessage
    pfcp_association_setup_request.
Proof.
  refine {| msg_id := 5; msg_ies_of := association_setup_request_ies; core_norm :=
    association_setup_request_norm |}; [lia|].
  unfold association_setup_request_ies. fill_message.
Defined.

Definition association_setup_response_norm (u : Z) (b : pfcp_association_setup_response) :
    pfcp_association_setup_response :=
  mk_pfcp_association_setup_response (opt_norm (ie_norm u) (association_setup_response_node_id
    b)) (opt_norm (ie_norm u) (association_setup_response_cause b)) (opt_norm (ie_norm u)
    (association_setup_response_recovery_time_stamp b)) (opt_norm (ie_norm u)
    (association_setup_response_up_function_features b)) (opt_norm (ie_norm u)
    (association_setup_response_cp_function_features b)) (opt_norm (ie_norm u)
    (association_setup_response_user_plane_ip_resource_information b)).

#[export] Instance association_setup_response_message : PfcpMessage
    pfcp_association_setup_response.
Proof.
  refine {| msg_id := 6; msg_ies_of := association_setup_response_ies; core_norm :=
    association_setup_response_norm |}; [lia|].
  unfold association_setup_response_ies. fill_message.
Defined.

Definition association_release_request_norm (u : Z) (b : pfcp_association_release_request) :
    pfcp_association_release_request :=
  mk_pfcp_association_release_request (opt_norm (ie_norm u)
    (association_release_request_node_id b)).

#[export] Instance association_release_request_message : PfcpMessage
    pfcp_association_release_request.
Proof.
  refine {| msg_id := 9; msg_ies_of := association_release_request_ies; core_norm :=
    association_release_request_norm |}; [lia|].
  unfold association_release_request_ies. fill_message.
Defined.

Definition association_release_response_norm (u : Z) (b : pfcp_association_release_response) :
    pfcp_association_release_response :=
  mk_pfcp_association_release_response (opt_norm (ie_norm u)
    (association_release_response_node_id b)) (opt_norm (ie_norm u)
    (association_release_response_cause b)).

#[export] Instance association_release_response_message : PfcpMessage
    pfcp_association_release_response.
Proof.
  refine {| msg_id := 10; msg_ies_of := association_release_response_ies; core_norm :=
    association_release_response_norm |}; [lia|].
  unfold association_release_response_ies. fill_message.
Defined.

Definition node_report_request_norm (u : Z) (b : pfcp_node_report_request) :
    pfcp_node_report_request :=
  mk_pfcp_node_report_request (opt_norm (ie_norm u) (node_report_request_node_id b)) (opt_norm
    (ie_norm u) (node_report_request_node_report_type b)) unset.

#[export] Instance node_report_request_message : PfcpMessage pfcp_node_report_request.
Proof.
  refine {| msg_id := 12; msg_ies_of := node_report_request_ies; core_norm :=
    node_report_request_norm |}; [lia|].
  unfold node_report_request_ies. fill_message.
Defined.

Definition session_establishment_request_norm (u : Z) (b : pfcp_session_establishment_request)
    : pfcp_session_establishment_request :=
  mk_pfcp_session_establishment_request (opt_norm (ie_norm u)
    (session_establishment_request_node_id b)) (opt_norm (ie_norm u)
    (session_establishment_request_cp_fseid b)) (map (create_pdr_norm u)
    (session_establishment_request_create_pdrs b)) (map (create_far_norm u)
    (session_establishment_request_create_fars b)) [] [] unset unset unset unset unset unset
    unset unset (opt_norm (ie_norm u)
    (session_establishment_request_user_plane_inactivity_timer b)) (opt_norm (ie_norm u)
    (session_establishment_request_user_id b)) unset.

#[export] Instance session_establishment_request_message : PfcpMessage
    pfcp_session_establishment_request.
Proof.
  refine {| msg_id := 50; msg_ies_of := session_establishment_request_ies; core_norm :=
    session_establishment_request_norm |}; [lia|].
  unfold session_establishment_request_ies. fill_message.
Defined.

Definition session_establishment_response_norm (u : Z) (b :
    pfcp_session_establishment_response) : pfcp_session_establishment_response :=
  mk_pfcp_session_establishment_response (opt_norm (ie_norm u)
    (session_establishment_response_node_id b)) (opt_norm (ie_norm u)
    (session_establishment_response_cause b)) (opt_norm (ie_norm u)
    (session_establishment_response_offending_ie b)) (opt_norm (ie_norm u)
    (session_establishment_response_up_fseid b)) (map (created_pdr_norm u)
    (session_establishment_response_created_pdrs b)) unset unset unset unset (opt_norm (ie_norm
    u) (session_establishment_response_failed_rule_id b)) unset.

#[export] Instance session_establishment_response_message : PfcpMessage
    pfcp_session_establishment_response.
Proof.
  refine {| msg_id := 51; msg_ies_of := session_establishment_response_ies; core_norm :=
    session_establishment_response_norm |}; [lia|].
  unfold session_establishment_response_ies. fill_message.
Defined.

Definition session_modification_request_norm (u : Z) (b : pfcp_session_modification_request) :
    pfcp_session_modification_request :=
  mk_pfcp_session_modification_request (opt_norm (ie_norm u)
    (session_modification_request_cp_fseid b)) (map (rule_norm u)
    (session_modification_request_remove_pdrs b)) (map (rule_norm u)
    (session_modification_request_remove_fars b)) [] [] unset unset (map (create_pdr_norm u)
    (session_modification_request_create_pdrs b)) (map (create_far_norm u)
    (session_modification_request_create_fars b)) [] [] unset unset [] (map (update_far_norm u)
    (session_modification_request_update_fars b)) [] [] unset unset unset unset unset unset
    unset unset (opt_norm (ie_norm u) (session_modification_request_user_plane_inactivity_timer
    b)) unset unset.

#[export] Instance session_modification_request_message : PfcpMessage
    pfcp_session_modification_request.
Proof.
  refine {| msg_id := 52; msg_ies_of := session_modification_request_ies; core_norm :=
    session_modification_request_norm |}; [lia|].
  unfold session_modification_request_ies. fill_message.
Defined.

Definition session_modification_response_norm (u : Z) (b : pfcp_session_modification_response)
    : pfcp_session_modification_response :=
  mk_pfcp_session_modification_response (opt_norm (ie_norm u)
    (session_modification_response_cause b)) (opt_norm (ie_norm u)
    (session_modification_response_offending_ie b)) (map (created_pdr_norm u)
    (session_modification_response_created_pdrs b)) unset unset unset (opt_norm (ie_norm u)
    (session_modification_response_failed_rule_id b)) unset unset.

#[export] Instance session_modification_response_message : PfcpMessage
    pfcp_session_modification_response.
Proof.
  refine {| msg_id := 53; msg_ies_of := session_modification_response_ies; core_norm :=
    session_modification_response_norm |}; [lia|].
  unfold session_modification_response_ies. fill_message.
Defined.

Definition session_deletion_request_norm (u : Z) (b : pfcp_session_deletion_request) :
    pfcp_session_deletion_request :=
  mk_pfcp_session_deletion_request .

#[export] Instance session_deletion_request_message : PfcpMessage pfcp_session_deletion_request.
Proof.
  refine {| msg_id := 54; msg_ies_of := session_deletion_request_ies; core_norm :=
    session_deletion_request_norm |}; [lia|].
  unfold session_deletion_request_ies. fill_message.
Defined.

Definition session_deletion_response_norm (u : Z) (b : pfcp_session_deletion_response) :
    pfcp_session_deletion_response :=
  mk_pfcp_session_deletion_response (opt_norm (ie_norm u) (session_deletion_response_cause b))
    (opt_norm (ie_norm u) (session_deletion_response_offending_ie b)).

#[export] Instance session_deletion_response_message : PfcpMessage
    pfcp_session_deletion_response.
Proof.
  refine {| msg_id := 55; msg_ies_of := session_deletion_response_ies; core_norm :=
    session_deletion_response_norm |}; [lia|].
  unfold session_deletion_response_ies. fill_message.
Defined.

Definition session_report_request_norm (u : Z) (b : pfcp_session_report_request) :
    pfcp_session_report_request :=
  mk_pfcp_session_report_request (opt_norm (ie_norm u) (session_report_request_report_type b))
    (opt_norm (downlink_data_report_norm u) (session_report_request_downlink_data_report b))
    unset unset unset unset unset.

#[export] Instance session_report_request_message : PfcpMessage pfcp_session_report_request.
Proof.
  refine {| msg_id := 56; msg_ies_of := session_report_request_ies; core_norm :=
    session_report_request_norm |}; [lia|].
  unfold session_report_request_ies. fill_message.
Defined.

Definition session_report_response_norm (u : Z) (b : pfcp_session_report_response) :
    pfcp_session_report_response :=
  mk_pfcp_session_report_response (opt_norm (ie_norm u) (session_report_response_cause b))
    (opt_norm (ie_norm u) (session_report_response_offending_ie b)) unset.

#[export] Instance session_report_response_message : PfcpMessage pfcp_session_report_response.
Proof.
  refine {| msg_id := 57; msg_ies_of := session_report_response_ies; core_norm :=
    session_report_response_norm |}; [lia|].
  unfold session_report_response_ies. fill_message.
Defined.

(** ** Round trip of messages *)

(** The receiver: the bytes of a datagram to a structure. *)
Definition receive {C : Type} `{Inhabited C} `{IesContainer C} (uninit : Z) (bs : list Z)
    : result pfcp_error (pfcp_msg_header * C) :=
  match fst (msg_load uninit (of_bytes bs)) with
  | Err e => Err e
  | Ok m => match msg_to_core m with Ok c => Ok (hdr m, c) | Err e => Err e end
  end.


(** ** Witnesses *)

Module SampleBuild.

(** An association set-up request of a node with a name. *)
Definition setup_request : pfcp_association_setup_request :=
  mk_pfcp_association_setup_request
    (present (mk_node_id_t 0 2 zeros16 [117; 112; 102; 46; 53; 103]))
    (present (mk_recovery_time_stamp_t 3800000000))
    (present (mk_up_function_features_s true false false false true false false false
                false true false false false false 0))
    (present (mk_cp_function_features_t 0 false true)) unset.

(** An establishment request with one detection rule. *)
Definition establishment_request : pfcp_session_establishment_request :=
  mk_pfcp_session_establishment_request
    (present (mk_node_id_t 0 0 ([10; 0; 0; 1] ++ repeat 0 12) []))
    (present (mk_fseid_t 0 true false 77 0x0100000a (repeat 0 16)))
    [SampleElements.create_pdr_sample] [] [] [] unset unset unset unset unset unset unset unset
    (present (mk_user_plane_inactivity_timer_t 3600)) unset unset.

Lemma establishment_request_wf : List.Forall ie_tree_wf (msg_ies_of establishment_request).
Proof.
  cbn -[ie_tree_wf]. repeat (apply List.Forall_cons || apply List.Forall_nil); cbn;
    unfold node_id_wf, f_seid_wf, fteid_wf, ue_ip_address_wf, ipv4_ok, ipv6_ok;
    cbn; repeat (split; try done; try lia).
Defined.

Lemma setup_request_wf : List.Forall ie_tree_wf (msg_ies_of setup_request).
Proof.
  cbn -[ie_tree_wf]. repeat (apply List.Forall_cons || apply List.Forall_nil); cbn; try lia.
  split; [cbn; lia|]. split; [cbn; lia|]. intros _. exists [117; 112; 102], [[53; 103]].
  split; [done|]. split; [repeat constructor; lia|cbn; lia].
Defined.


(** A deletion response with a FAR identifier behind the cause. *)
Definition odd_response : pfcp_msg :=
  build_msg 55 [Leaf (Cause (mk_cause_t 1)); Leaf (FarId (mk_far_id_t 7))] (Some 0) 1.

Example to_core_type_outcome_witness :
  msg_to_core (C := pfcp_session_deletion_response) odd_response = Err (IllegalIe 108).
Proof.
  destruct (to_core_type_outcome (C := pfcp_session_deletion_response) odd_response) as [_ Ho].
  exact (Ho [Leaf (Cause (mk_cause_t 1))] (Leaf (FarId (mk_far_id_t 7))) [] _ _
    eq_refl eq_refl eq_refl eq_refl).
Defined.

End SampleBuild.
