(* ===== verification/LifeCycle.v ===== *)
(** * The life cycle of a BPF program (src/src/programs/ProgramLifeCycle.hpp)

    A user-space object that opens, loads, attaches, links and tears down one
    BPF object through the functions of its skeleton and of libbpf.  Those are
    not code of the repository: what they answer is an argument of each
    operation, and what the program asks of them is kept in the list [calls],
    the last call first.  The threads that may tear down concurrently are
    serialised by a mutex; the operations are atomic here. *)
From Stdlib Require Import ZArith Lia List Bool.
From stdpp Require Import base list gmap strings.
From S2P Require Import Prelude.
Open Scope Z_scope.
Open Scope upf_scope.

(** ** Data *)

Inductive ProgramState : Type :=
| IDLE
| OPENED
| LOADED
| ATTACHED
| LINKED
| DESTROYED.

#[export] Instance ProgramState_eq_dec : EqDecision ProgramState.
Proof. solve_decision. Defined.

(** A call of the object: [mDestroyFunc(skeleton)], or [bpf_set_link_xdp_fd]
    with an interface and a descriptor (-1 unlinks). *)
Inductive call : Type :=
| Destroy (skeleton : option Z)
| SetLink (ifindex fd : Z).

(** [mState] has no value before [open] stores one: [uninit] stands for it. *)
Record lifecycle : Type := mk_lifecycle {
  mState : ProgramState;
  mSectionLinkInterfacesMap : gmap string (list Z);
  mpSkeleton : option Z;
  calls : list call
}.

(** How an operation ends abnormally: the exceptions, by the text they carry,
    a failed [assert], and a null pointer used. *)
Inductive runtime_error : Type :=
| CannotChangeLimit
| CannotLoad (err : Z)
| CannotAttach (err : Z)
| InterfaceNotFound
| LinkFailed
| SectionNotFound
| CannotUnlink
| MapCannotBeUpdated
| MapCannotBeRemoved
| InterfaceNotDefined
| SessionDoesNotExist
| SessionAlreadyExists
| NoSpaceAvailable
| NoPdrInSession
| NoFieldsAvailable
| MapNotFound
| AssertionFailed
| InvalidAddress
| NullSkeleton
| NullObserver
| UsedAfterDestruction.

Definition lc (A : Type) : Type := M lifecycle runtime_error A.

Definition new_lifecycle (uninit : ProgramState) : lifecycle := mk_lifecycle uninit ∅ None [].

Definition set_state (st : ProgramState) : lc unit :=
  modify (fun l => mk_lifecycle st (mSectionLinkInterfacesMap l) (mpSkeleton l) (calls l)).

Definition emit_call (c : call) : lc unit :=
  modify (fun l => mk_lifecycle (mState l) (mSectionLinkInterfacesMap l) (mpSkeleton l)
                     (c :: calls l)).

Definition set_links (m : gmap string (list Z)) : lc unit :=
  modify (fun l => mk_lifecycle (mState l) m (mpSkeleton l) (calls l)).

Definition set_skeleton (s : option Z) : lc unit :=
  modify (fun l => mk_lifecycle (mState l) (mSectionLinkInterfacesMap l) s (calls l)).

(** ** Operations *)

(** [rlimit_ret]: the answer of setrlimit; [opened]: that of the open function. *)
Definition lc_open (rlimit_ret : Z) (opened : option Z) : lc (option Z) :=
  guard (rlimit_ret =? 0) CannotChangeLimit ;;;
  set_skeleton opened ;;;
  (match opened with None => emit_call (Destroy None) | Some _ => ret tt end) ;;;
  set_state OPENED ;;;
  ret opened.

Definition lc_load (err : Z) : lc unit :=
  if err =? 0 then set_state LOADED
  else
    let* s := gets mpSkeleton in
    emit_call (Destroy s) ;;;
    raise (CannotLoad err).

Definition lc_attach (err : Z) : lc unit :=
  if err =? 0 then set_state ATTACHED
  else
    let* s := gets mpSkeleton in
    emit_call (Destroy s) ;;;
    raise (CannotAttach err).

Definition lc_destroy : lc unit :=
  let* l := get in
  (if decide (mState l = IDLE) then ret tt else emit_call (Destroy (mpSkeleton l))) ;;;
  set_state IDLE.

(** A new entry for a section, or one more interface at the end of its entry. *)
Definition add_link (name : string) (i : Z) (m : gmap string (list Z)) : gmap string (list Z) :=
  <[name := match m !! name with None => [i] | Some l => l ++ [i] end]> m.

Section Programs.
(** The programs of the skeleton's object: section name and descriptor. *)
Variable programs : list (string * Z).
(** The answer of [bpf_set_link_xdp_fd]. *)
Variable set_link_ret : Z -> Z -> Z.

(** Unlinks the interfaces of one section. *)
Fixpoint unlink_interfaces (ifs : list Z) : lc unit :=
  match ifs with
  | [] => ret tt
  | i :: ifs' =>
      emit_call (SetLink i (-1)) ;;;
      guard (set_link_ret i (-1) =? 0) CannotUnlink ;;;
      unlink_interfaces ifs'
  end.

Fixpoint unlink_sections (progs : list (string * Z)) : lc unit :=
  match progs with
  | [] => ret tt
  | (section, _) :: progs' =>
      let* m := gets mSectionLinkInterfacesMap in
      (match m !! section with
       | None => ret tt
       | Some ifs => unlink_interfaces ifs
       end) ;;;
      unlink_sections progs'
  end.

Definition lc_tearDown : lc unit :=
  let* st := gets mState in
  if decide (st = IDLE) then ret tt
  else
    (if decide (st = LINKED) then unlink_sections programs else ret tt) ;;;
    lc_destroy.

Fixpoint find_section (name : string) (progs : list (string * Z)) : option Z :=
  match progs with
  | [] => None
  | (s, fd) :: progs' => if String.eqb s name then Some fd else find_section name progs'
  end.

(** [ifIndex]: the answer of if_nametoindex, 0 when there is no such interface. *)
Definition lc_link (sectionName : string) (ifIndex : Z) : lc unit :=
  guard (negb (ifIndex =? 0)) InterfaceNotFound ;;;
  match find_section sectionName programs with
  | None => raise SectionNotFound
  | Some fd =>
      emit_call (SetLink ifIndex fd) ;;;
      if set_link_ret ifIndex fd <? 0 then
        lc_tearDown ;;;
        raise LinkFailed
      else
        let* m := gets mSectionLinkInterfacesMap in
        set_links (add_link sectionName ifIndex m) ;;;
        set_state LINKED
  end.

(** ** Lemmas *)

Lemma unlink_interfaces_ok ifs l :
  (forall i, In i ifs -> set_link_ret i (-1) = 0) ->
  unlink_interfaces ifs l =
    (Ok tt, mk_lifecycle (mState l) (mSectionLinkInterfacesMap l) (mpSkeleton l)
              (rev (map (fun i => SetLink i (-1)) ifs) ++ calls l)).
Proof.
  revert l. induction ifs as [|i ifs IH]; intros l H; [now destruct l|].
  cbn [unlink_interfaces]. unfold bind at 1 2, emit_call, modify.
  rewrite (H i) by now left. cbn [guard Z.eqb ret]. unfold ret.
  rewrite IH by (intros; apply H; now right). cbn. now rewrite <- app_assoc.
Qed.

(** The unlink calls for a list of programs, in order. *)
Definition unlink_calls (m : gmap string (list Z)) (progs : list (string * Z)) : list call :=
  flat_map (fun p => map (fun i => SetLink i (-1))
                       (match m !! p.1 with Some l => l | None => [] end)) progs.

Lemma unlink_sections_ok progs l :
  (forall i, set_link_ret i (-1) = 0) ->
  unlink_sections progs l =
    (Ok tt, mk_lifecycle (mState l) (mSectionLinkInterfacesMap l) (mpSkeleton l)
              (rev (unlink_calls (mSectionLinkInterfacesMap l) progs) ++ calls l)).
Proof.
  intros H. revert l. induction progs as [|[s fd] progs IH]; intros l; [now destruct l|].
  cbn [unlink_sections]. unfold bind at 1, gets. unfold bind at 1.
  destruct (mSectionLinkInterfacesMap l !! s) as [ifs|] eqn:Hs.
  - rewrite unlink_interfaces_ok by auto. rewrite IH. cbn.
    rewrite Hs, rev_app_distr, <- app_assoc. done.
  - unfold ret at 1. rewrite IH. cbn. now rewrite Hs.
Qed.

Lemma lc_tearDown_eq l :
  (forall i, set_link_ret i (-1) = 0) ->
  lc_tearDown l =
    if decide (mState l = IDLE) then (Ok tt, l)
    else (Ok tt, mk_lifecycle IDLE (mSectionLinkInterfacesMap l) (mpSkeleton l)
            (Destroy (mpSkeleton l) ::
             (if decide (mState l = LINKED)
              then rev (unlink_calls (mSectionLinkInterfacesMap l) programs) else []) ++
             calls l)).
Proof.
  intros H. unfold lc_tearDown, bind at 1, gets.
  destruct (decide (mState l = IDLE)) as [Hi|Hi]; [done|].
  destruct (decide (mState l = LINKED)) as [Hl|Hl].
  - unfold bind at 1. rewrite unlink_sections_ok by done.
    unfold lc_destroy, bind, get. cbn [mState].
    rewrite decide_False by congruence. reflexivity.
  - unfold bind, ret, lc_destroy, bind, get.
    rewrite decide_False by congruence. reflexivity.
Qed.

Lemma calls_unlink_interfaces ifs l r l' :
  unlink_interfaces ifs l = (r, l') -> exists k, calls l' = k ++ calls l /\
    forall c, In c k -> exists i, c = SetLink i (-1).
Proof.
  revert l r l'. induction ifs as [|i ifs IH]; intros l r l'; cbn [unlink_interfaces].
  - intros [= <- <-]. exists []. split; [done|]. intros c [].
  - unfold bind at 1 2, emit_call, modify. destruct (_ =? 0); cbn [guard].
    + unfold ret. intros Hu. apply IH in Hu as (k & Hk & Hc).
      exists (k ++ [SetLink i (-1)]). cbn in Hk. rewrite Hk, <- app_assoc. split; [done|].
      intros c Hin. apply in_app_or in Hin as [Hin|[<-|[]]]; eauto.
    + unfold raise. intros [= <- <-]. exists [SetLink i (-1)]. split; [done|].
      intros c [<-|[]]. eauto.
Qed.

Lemma lc_link_linked name ifIndex fd l :
  ifIndex <> 0 -> find_section name programs = Some fd -> 0 <= set_link_ret ifIndex fd ->
  lc_link name ifIndex l =
    (Ok tt, mk_lifecycle LINKED (add_link name ifIndex (mSectionLinkInterfacesMap l))
              (mpSkeleton l) (SetLink ifIndex fd :: calls l)).
Proof.
  intros Hi Hf Hr. unfold lc_link, bind at 1, guard.
  rewrite (proj2 (Z.eqb_neq _ _) Hi), Hf. cbn [negb]. unfold ret at 1.
  rewrite (proj2 (Z.ltb_ge _ _) Hr). reflexivity.
Qed.

Lemma lc_link_refused name ifIndex fd l :
  ifIndex <> 0 -> find_section name programs = Some fd -> set_link_ret ifIndex fd < 0 ->
  (forall i, set_link_ret i (-1) = 0) ->
  exists l', lc_link name ifIndex l = (Err LinkFailed, l') /\
    lc_tearDown (mk_lifecycle (mState l) (mSectionLinkInterfacesMap l) (mpSkeleton l)
                   (SetLink ifIndex fd :: calls l)) = (Ok tt, l') /\
    mState l' = IDLE.
Proof.
  intros Hi Hf Hr H. unfold lc_link, bind at 1, guard.
  rewrite (proj2 (Z.eqb_neq _ _) Hi), Hf. cbn [negb]. unfold ret at 1.
  rewrite (proj2 (Z.ltb_lt _ _) Hr).
  erewrite bind_ok by reflexivity.
  pose proof (lc_tearDown_eq (mk_lifecycle (mState l) (mSectionLinkInterfacesMap l)
    (mpSkeleton l) (SetLink ifIndex fd :: calls l)) H) as Ht. cbn [mState] in Ht.
  destruct (decide (mState l = IDLE)) as [E|E]; rewrite (bind_ok _ _ _ _ _ Ht);
    eexists; (split; [reflexivity|]); (split; [exact Ht|done]).
Qed.

(** ** Properties *)

(** Tearing down: when the kernel unlinks what it is asked to, every
    interface recorded for a section of the object is unlinked (if the program
    is linked), then the skeleton is destroyed, once, and the program is idle;
    tearing an idle program down, in particular a second time, does nothing. *)
Theorem tearDown_releases l :
  (forall i, set_link_ret i (-1) = 0) -> mState l <> IDLE ->
  exists l',
    lc_tearDown l = (Ok tt, l') /\ mState l' = IDLE /\
    calls l' = Destroy (mpSkeleton l) ::
      (if decide (mState l = LINKED)
       then rev (unlink_calls (mSectionLinkInterfacesMap l) programs) else []) ++ calls l /\
    lc_tearDown l' = (Ok tt, l').
Proof.
  intros H Hi. rewrite lc_tearDown_eq, decide_False by done. eexists.
  split; [reflexivity|]. split; [done|]. split; [done|].
  now rewrite lc_tearDown_eq.
Qed.

(** A program that failed to load is destroyed twice: [load] destroys the
    skeleton and throws but the state stays OPENED, so that the tear-down of
    the object destroys the same skeleton again. *)
Theorem failed_load_destroys_twice uninit sk err :
  err <> 0 -> (forall i, set_link_ret i (-1) = 0) ->
  exists l1 l2 l3,
    lc_open 0 (Some sk) (new_lifecycle uninit) = (Ok (Some sk), l1) /\
    lc_load err l1 = (Err (CannotLoad err), l2) /\
    lc_tearDown l2 = (Ok tt, l3) /\
    calls l3 = [Destroy (Some sk); Destroy (Some sk)].
Proof.
  intros He H. do 3 eexists. split; [reflexivity|]. split.
  - unfold lc_load. rewrite (proj2 (Z.eqb_neq _ _) He). reflexivity.
  - split; [rewrite lc_tearDown_eq by done; reflexivity|reflexivity].
Qed.

(** Linking: on success the interface is recorded last for its section
    and the program is linked; when the kernel refuses, everything linked
    before is unlinked, the skeleton is destroyed and the program is idle. *)
Theorem link_outcomes name ifIndex fd l :
  ifIndex <> 0 -> find_section name programs = Some fd ->
  (forall i, set_link_ret i (-1) = 0) ->
  (0 <= set_link_ret ifIndex fd ->
   exists l', lc_link name ifIndex l = (Ok tt, l') /\ mState l' = LINKED /\
     mSectionLinkInterfacesMap l' !! name =
       Some (match mSectionLinkInterfacesMap l !! name with Some k => k | None => [] end
             ++ [ifIndex]) /\
     calls l' = SetLink ifIndex fd :: calls l) /\
  (set_link_ret ifIndex fd < 0 ->
   exists l', lc_link name ifIndex l = (Err LinkFailed, l') /\ mState l' = IDLE /\
     (mState l = LINKED ->
      calls l' = Destroy (mpSkeleton l) ::
        rev (unlink_calls (mSectionLinkInterfacesMap l) programs) ++
        SetLink ifIndex fd :: calls l)).
Proof.
  intros Hi Hf H. split; intros Hr.
  - rewrite (lc_link_linked _ _ fd) by done. eexists. split; [reflexivity|]. cbn.
    split; [done|]. split; [|done]. unfold add_link. rewrite lookup_insert_eq.
    now destruct (_ !! name).
  - destruct (lc_link_refused name ifIndex fd l Hi Hf Hr H) as (l' & Hl & Ht & Hs).
    exists l'. split; [exact Hl|]. split; [done|]. intros E.
    rewrite lc_tearDown_eq in Ht by done. cbn [mState] in Ht. rewrite E in Ht.
    now injection Ht as <-.
Qed.

End Programs.

(** ** Witnesses *)

Module SampleLifeCycle.

Definition programs : list (string * Z) := [("xdp_entry_point", 7)]%string.
Definition kernel (i fd : Z) : Z := if (i =? 13) && negb (fd =? -1) then -16 else 0.
Definition linked : lifecycle :=
  mk_lifecycle LINKED {[ "xdp_entry_point"%string := [3; 4] ]} (Some 1) [].

Lemma kernel_unlinks i : kernel i (-1) = 0.
Proof. unfold kernel. rewrite andb_false_r. reflexivity. Qed.

End SampleLifeCycle.

Import SampleLifeCycle.

Example tearDown_releases_witness :
  exists l', lc_tearDown programs kernel linked = (Ok tt, l') /\
    calls l' = [Destroy (Some 1); SetLink 4 (-1); SetLink 3 (-1)].
Proof.
  destruct (tearDown_releases programs kernel linked kernel_unlinks ltac:(discriminate))
    as (l' & H1 & _ & H2 & _).
  exists l'. split; [exact H1|]. rewrite H2. reflexivity.
Defined.

Example failed_load_destroys_twice_witness :
  exists l1 l2 l3,
    lc_open 0 (Some 5) (new_lifecycle IDLE) = (Ok (Some 5), l1) /\
    lc_load (-22) l1 = (Err (CannotLoad (-22)), l2) /\
    lc_tearDown programs kernel l2 = (Ok tt, l3) /\
    calls l3 = [Destroy (Some 5); Destroy (Some 5)].
Proof.
  apply (failed_load_destroys_twice programs kernel IDLE 5 (-22));
    [discriminate|apply kernel_unlinks].
Defined.

Example link_outcomes_witness :
  exists l', lc_link programs kernel "xdp_entry_point"%string 13 linked = (Err LinkFailed, l') /\
    mState l' = IDLE.
Proof.
  destruct (link_outcomes programs kernel "xdp_entry_point"%string 13 7 linked) as [_ Hf].
  - discriminate.
  - reflexivity.
  - apply kernel_unlinks.
  - destruct (Hf eq_refl) as (l' & H1 & H2 & _). exists l'. split; assumption.
Defined.
