(* ===== verification/Threads.v ===== *)
(** * Threads and signals around a tear-down (src/src/programs/ProgramLifeCycle.hpp)

    [LifeCycle] has one function per method.  Here the methods [tearDown] and
    [link] go step by step, in threads that share the object and its mutex, and
    a signal may make a thread leave what it does for the handler of
    SignalHandler.cpp, which tears down and ends the process.  A step is a read
    or a write of the object or one call of libbpf. *)
From Stdlib Require Import ZArith Lia List Bool Permutation.
From stdpp Require Import base list gmap relations strings.
From S2P Require Import Prelude LifeCycle.
Open Scope Z_scope.
Open Scope upf_scope.

(** ** Data *)

(** Where a thread is in [tearDown] or in [link]. *)
Inductive pc : Type :=
| Ready
| Locked
| CheckLinked
| Sections (progs : list (string * Z))
| Interfaces (ifs : list Z) (progs : list (string * Z))
| DestroyEnter
| SetIdle
| Unlocking (r : result runtime_error unit)
| Returned (r : result runtime_error unit)
| LinkEnter (sectionName : string) (ifIndex : Z)
| LinkRecord (sectionName : string) (ifIndex : Z)
| LinkState.

(** [fails]: the tear-down of a link that was refused, which throws after it;
    [handler]: the thread runs the handler of a signal, for good. *)
Record thread : Type := mk_thread {
  at_pc : pc;
  fails : bool;
  handler : bool
}.

(** [owner]: who holds [sTearDownMutex]; the threads have numbers. *)
Record config : Type := mk_config {
  threads : list thread;
  owner : option nat;
  life : lifecycle
}.

Definition goto (p : pc) (th : thread) : thread := mk_thread p (fails th) (handler th).

Definition outcome (th : thread) (r : result runtime_error unit) : result runtime_error unit :=
  match r with Ok _ => if fails th then Err LinkFailed else Ok tt | Err e => Err e end.

Definition returned (th : thread) : bool :=
  match at_pc th with Returned _ => true | _ => false end.

(** The process is over when a handler has returned. *)
Definition exited (c : config) : bool := existsb (fun th => handler th && returned th) (threads c).

Section Steps.
Variable programs : list (string * Z).
Variable set_link_ret : Z -> Z -> Z.

(** ** Steps *)

(** What a thread does next, the mutex apart. *)
Definition thread_step (th : thread) (l : lifecycle) : option (thread * lifecycle) :=
  match at_pc th with
  | Locked => Some (goto (if decide (mState l = IDLE) then Unlocking (Ok tt) else CheckLinked) th, l)
  | CheckLinked =>
      Some (goto (if decide (mState l = LINKED) then Sections programs else DestroyEnter) th, l)
  | Sections [] => Some (goto DestroyEnter th, l)
  | Sections ((section, _) :: progs) =>
      Some (goto (match mSectionLinkInterfacesMap l !! section with
                  | None => Sections progs
                  | Some ifs => Interfaces ifs progs
                  end) th, l)
  | Interfaces [] progs => Some (goto (Sections progs) th, l)
  | Interfaces (i :: ifs) progs =>
      Some (goto (if set_link_ret i (-1) =? 0 then Interfaces ifs progs
                  else Unlocking (Err CannotUnlink)) th,
            snd (emit_call (SetLink i (-1)) l))
  | DestroyEnter =>
      Some (goto SetIdle th,
            if decide (mState l = IDLE) then l else snd (emit_call (Destroy (mpSkeleton l)) l))
  | SetIdle => Some (goto (Unlocking (Ok tt)) th, snd (set_state IDLE l))
  | LinkEnter sectionName ifIndex =>
      if ifIndex =? 0 then Some (goto (Returned (Err InterfaceNotFound)) th, l)
      else
        match find_section sectionName programs with
        | None => Some (goto (Returned (Err SectionNotFound)) th, l)
        | Some fd =>
            Some (if set_link_ret ifIndex fd <? 0 then mk_thread Ready true (handler th)
                  else goto (LinkRecord sectionName ifIndex) th,
                  snd (emit_call (SetLink ifIndex fd) l))
        end
  | LinkRecord sectionName ifIndex =>
      Some (goto LinkState th,
            snd (set_links (add_link sectionName ifIndex (mSectionLinkInterfacesMap l)) l))
  | LinkState => Some (goto (Returned (Ok tt)) th, snd (set_state LINKED l))
  | Ready | Unlocking _ | Returned _ => None
  end.

(** A step of thread [t]: [lock_guard] waits for the mutex and takes it, the
    end of its scope releases it. *)
Inductive step (c : config) : config -> Prop :=
| step_lock t th :
    exited c = false -> threads c !! t = Some th -> at_pc th = Ready -> owner c = None ->
    step c (mk_config (<[t := goto Locked th]> (threads c)) (Some t) (life c))
| step_unlock t th r :
    exited c = false -> threads c !! t = Some th -> at_pc th = Unlocking r ->
    step c (mk_config (<[t := goto (Returned (outcome th r)) th]> (threads c)) None (life c))
| step_run t th th' l :
    exited c = false -> threads c !! t = Some th -> thread_step th (life c) = Some (th', l) ->
    step c (mk_config (<[t := th']> (threads c)) (owner c) l).

(** A signal: thread [t] leaves what it does and enters the tear-down.  A mutex
    it holds stays taken. *)
Inductive signal (t : nat) (c : config) : config -> Prop :=
| deliver th :
    exited c = false -> threads c !! t = Some th ->
    signal t c (mk_config (<[t := mk_thread Ready false true]> (threads c)) (owner c) (life c)).

Definition step_or_signal (c c' : config) : Prop := step c c' \/ exists t, signal t c c'.

Definition stuck (c : config) : Prop := forall c', ~ step c c'.

(** Every run is finite. *)
Inductive ends (c : config) : Prop :=
| ends_step : (forall c', step c c' -> ends c') -> ends c.

(** [n] threads about to tear down. *)
Definition start (n : nat) (l : lifecycle) : config :=
  mk_config (replicate n (mk_thread Ready false false)) None l.

(** One thread about to link. *)
Definition start_link (name : string) (i : Z) (l : lifecycle) : config :=
  mk_config [mk_thread (LinkEnter name i) false false] None l.

(** Tear-downs one after the other, by the threads of [log]. *)
Inductive sequential (l : lifecycle) : list (nat * result runtime_error unit) -> lifecycle -> Prop :=
| seq_nil : sequential l [] l
| seq_snoc t r log s s' :
    sequential l log s -> lc_tearDown programs set_link_ret s = (r, s') ->
    sequential l (log ++ [(t, r)]) s'.

(** ** What is left to do, as in [LifeCycle] *)

Definition rest (p : pc) : lc unit :=
  match p with
  | Ready | Locked => lc_tearDown programs set_link_ret
  | CheckLinked =>
      (let* st := gets mState in
       if decide (st = LINKED) then unlink_sections set_link_ret programs else ret tt) ;;;
      lc_destroy
  | Sections progs => unlink_sections set_link_ret progs ;;; lc_destroy
  | Interfaces ifs progs =>
      unlink_interfaces set_link_ret ifs ;;; unlink_sections set_link_ret progs ;;; lc_destroy
  | DestroyEnter => lc_destroy
  | SetIdle => set_state IDLE
  | Unlocking r | Returned r => fun l => (r, l)
  | LinkEnter name i => lc_link programs set_link_ret name i
  | LinkRecord name i =>
      let* m := gets mSectionLinkInterfacesMap in
      set_links (add_link name i m) ;;; set_state LINKED
  | LinkState => set_state LINKED
  end.

(** Inside the scope of the [lock_guard]. *)
Definition critical (p : pc) : bool :=
  match p with
  | Locked | CheckLinked | Sections _ | Interfaces _ _ | DestroyEnter | SetIdle | Unlocking _ => true
  | _ => false
  end.

Definition linking (p : pc) : bool :=
  match p with LinkEnter _ _ | LinkRecord _ _ | LinkState => true | _ => false end.

Lemma thread_step_rest th l th' l' :
  critical (at_pc th) = true -> thread_step th l = Some (th', l') ->
  rest (at_pc th) l = rest (at_pc th') l' /\ critical (at_pc th') = true /\
  fails th' = fails th /\ handler th' = handler th /\
  mSectionLinkInterfacesMap l' = mSectionLinkInterfacesMap l.
Proof.
  destruct th as [p f h]. unfold thread_step. cbn [at_pc].
  destruct p as [| | |[|[s fd] ps]|[|i ifs] ps| | |r|r|n i|n i|]; try discriminate; intros _ [= <- <-].
  - cbn. split; [|case_decide; auto].
    unfold lc_tearDown, bind, gets, ret. destruct (decide (mState l = IDLE)); [done|].
    cbn. unfold bind, gets. now destruct (decide (mState l = LINKED)).
  - cbn. unfold bind, gets. split; [|case_decide; auto].
    now destruct (decide (mState l = LINKED)).
  - now cbn.
  - cbn. unfold bind, gets, ret. split; [|case_match; auto].
    destruct (mSectionLinkInterfacesMap l !! s) as [ifs|]; [|reflexivity].
    cbn. unfold bind. now destruct (unlink_interfaces set_link_ret ifs l) as [[?|?] ?].
  - now cbn.
  - cbn. unfold bind, emit_call, modify, guard, ret, raise.
    destruct (set_link_ret i (-1) =? 0); auto.
  - cbn. unfold lc_destroy, bind, get, set_state, emit_call, modify, ret.
    now destruct (decide (mState l = IDLE)).
  - now cbn.
Qed.

(** ** Mutual exclusion *)

Definition mutex_ok (c : config) : Prop :=
  forall t th, threads c !! t = Some th ->
    (critical (at_pc th) = true <-> owner c = Some t).

Lemma start_mutex_ok n l : mutex_ok (start n l).
Proof. intros t th Ht. apply lookup_replicate in Ht as [-> _]. cbn. split; discriminate. Qed.

Lemma insert_thread (c : config) t th' u th :
  <[t := th']> (threads c) !! u = Some th ->
  (u = t /\ th = th') \/ (u <> t /\ threads c !! u = Some th).
Proof.
  intros Hu. destruct (decide (u = t)) as [->|Hne].
  - apply list_lookup_insert_Some in Hu as [(_ & -> & _)|[Hn _]]; [auto|done].
  - rewrite list_lookup_insert_ne in Hu by done. auto.
Qed.

(** Steps outside the mutex do not enter it. *)
Lemma thread_step_outside th l th' l' :
  critical (at_pc th) = false -> thread_step th l = Some (th', l') ->
  critical (at_pc th') = false /\ linking (at_pc th) = true /\ handler th' = handler th.
Proof.
  destruct th as [p f h]. unfold thread_step. cbn [at_pc].
  destruct p; try discriminate; intros _; repeat case_match; intros [= <- <-]; auto.
Qed.

Lemma step_mutex_ok c c' : mutex_ok c -> step c c' -> mutex_ok c'.
Proof.
  intros Hm [t th _ Ht Hp Ho|t th r _ Ht Hp|t th th' l _ Ht Hs] u v Hu; cbn [threads owner] in *.
  - apply insert_thread in Hu as [[-> ->]|[Hne Hu]]; [now cbn|].
    rewrite (Hm u v Hu), Ho. split; intros [= ?]; congruence.
  - pose proof (proj1 (Hm t th Ht)) as Ho. rewrite Hp in Ho. specialize (Ho eq_refl).
    apply insert_thread in Hu as [[-> ->]|[Hne Hu]]; [now cbn|].
    rewrite (Hm u v Hu), Ho. split; intros [= ?]; congruence.
  - apply insert_thread in Hu as [[-> ->]|[Hne Hu]]; [|exact (Hm u v Hu)].
    rewrite <- (Hm t th Ht). destruct (critical (at_pc th)) eqn:Hc.
    + apply thread_step_rest in Hs as (_ & -> & _); done.
    + now apply thread_step_outside in Hs as (-> & _).
Qed.

(** ** The threads as one after the other *)

(** A thread that only tears down. *)
Definition plain (th : thread) : Prop := fails th = false /\ linking (at_pc th) = false.

(** [log]: the tear-downs in the order in which they took the mutex.  The one
    that has it is a part of the way to its result. *)
Record explained (l : lifecycle) (c : config) (log : list (nat * result runtime_error unit))
    (s : lifecycle) : Prop := {
  ex_sequential : sequential l log s;
  ex_once : NoDup (map fst log);
  ex_plain t th : threads c !! t = Some th -> plain th;
  ex_life :
    match owner c with
    | None => life c = s
    | Some t => exists th r,
        threads c !! t = Some th /\ rest (at_pc th) (life c) = (r, s) /\ In (t, r) log
    end;
  ex_known t r : In (t, r) log -> is_Some (threads c !! t);
  ex_ready t th : threads c !! t = Some th -> at_pc th = Ready -> ~ In t (map fst log);
  ex_returned t th r : threads c !! t = Some th -> at_pc th = Returned r -> In (t, r) log
}.

Lemma sequential_snoc l log s t :
  sequential l log s -> exists r s', sequential l (log ++ [(t, r)]) s' /\
    lc_tearDown programs set_link_ret s = (r, s').
Proof.
  intros Hs. destruct (lc_tearDown programs set_link_ret s) as [r s'] eqn:Ht. exists r, s'.
  split; [econstructor; eassumption|done].
Qed.

Lemma insert_is_Some {A} (l : list A) t u x : is_Some (l !! u) -> is_Some (<[t := x]> l !! u).
Proof. rewrite !lookup_lt_is_Some, length_insert. done. Qed.

Lemma insert_same (c : config) t th th' :
  threads c !! t = Some th -> <[t := th']> (threads c) !! t = Some th'.
Proof. intros Ht. apply list_lookup_insert_eq. now apply lookup_lt_Some in Ht. Qed.

Lemma explained_ready c :
  (forall t th, threads c !! t = Some th -> at_pc th = Ready /\ fails th = false) ->
  owner c = None -> mutex_ok c /\ explained (life c) c [] (life c).
Proof.
  intros Hth Ho. split.
  { intros t th Ht. destruct (Hth t th Ht) as [-> _]. rewrite Ho. split; discriminate. }
  split; try done; [constructor|constructor|..].
  - intros t th Ht. destruct (Hth t th Ht) as [Hr Hf]. unfold plain. now rewrite Hr, Hf.
  - now rewrite Ho.
  - intros t th Ht _ [].
  - intros t th r Ht. destruct (Hth t th Ht) as [-> _]. done.
Qed.

Lemma start_ready n l t th :
  threads (start n l) !! t = Some th -> th = mk_thread Ready false false.
Proof. intros Ht. now apply lookup_replicate in Ht as [-> _]. Qed.

Lemma explained_lock l c log s t th :
  explained l c log s -> threads c !! t = Some th -> at_pc th = Ready -> owner c = None ->
  exists log' s',
    explained l (mk_config (<[t := goto Locked th]> (threads c)) (Some t) (life c)) log' s'.
Proof.
  intros [Hs Hn Hp Hl Hk Hr Ht'] Ht Hat Ho. rewrite Ho in Hl.
  destruct (sequential_snoc l log s t Hs) as (r & s' & Hs' & Htd).
  pose proof (Hr t th Ht Hat) as Hnew. exists (log ++ [(t, r)]), s'.
  split; cbn [threads owner life]; [exact Hs'|..].
  - rewrite map_app, NoDup_app. split; [done|]. split; [|cbn; apply NoDup_singleton].
    intros x Hx. cbn. rewrite list_elem_of_singleton. intros ->. apply Hnew.
    now apply list_elem_of_In.
  - intros u v Hu. apply insert_thread in Hu as [[-> ->]|[_ Hu]]; [|eauto].
    destruct (Hp t th Ht) as [Hf _]. done.
  - exists (goto Locked th), r. split; [eapply insert_same; eassumption|].
    split; [rewrite Hl; exact Htd|]. apply in_app_iff. right. now left.
  - intros u q Hin. apply insert_is_Some. apply in_app_iff in Hin as [Hin|[[= <- _]|[]]]; eauto.
  - intros u v Hu Hv. apply insert_thread in Hu as [[-> ->]|[Hne Hu]]; [done|].
    rewrite map_app, in_app_iff. intros [Hin|[He|[]]]; [|cbn in He; congruence].
    exact (Hr u v Hu Hv Hin).
  - intros u v q Hu Hv. apply insert_thread in Hu as [[-> ->]|[_ Hu]]; [done|].
    apply in_app_iff. left. eauto.
Qed.

Lemma explained_unlock l c log s t th r :
  mutex_ok c -> explained l c log s -> threads c !! t = Some th -> at_pc th = Unlocking r ->
  explained l (mk_config (<[t := goto (Returned (outcome th r)) th]> (threads c)) None (life c))
    log s.
Proof.
  intros Hm [Hs Hn Hp Hl Hk Hr Ht'] Ht Hat. pose proof (proj1 (Hm t th Ht)) as Ho.
  rewrite Hat in Ho. rewrite (Ho eq_refl) in Hl. destruct Hl as (th0 & q & Hth0 & Hrest & Hin).
  rewrite Ht in Hth0. injection Hth0 as <-. rewrite Hat in Hrest. injection Hrest as <- Hlife.
  destruct (Hp t th Ht) as [Hf _].
  assert (outcome th r = r) as Hout by (destruct r as [[]|]; cbn; now rewrite ?Hf).
  rewrite Hout. split; cbn [threads owner life]; [done|done| |done|..].
  - intros u v Hu. apply insert_thread in Hu as [[-> ->]|[_ Hu]]; [done|eauto].
  - intros u v Hu. now apply insert_is_Some, (Hk u v).
  - intros u v Hu Hv. apply insert_thread in Hu as [[-> ->]|[_ Hu]]; [done|eauto].
  - intros u v w Hu Hv. apply insert_thread in Hu as [[-> ->]|[_ Hu]]; [|eauto].
    cbn in Hv. now injection Hv as <-.
Qed.

Lemma explained_run l c log s t th th' l' :
  mutex_ok c -> explained l c log s -> threads c !! t = Some th ->
  thread_step th (life c) = Some (th', l') ->
  explained l (mk_config (<[t := th']> (threads c)) (owner c) l') log s.
Proof.
  intros Hm [Hs Hn Hp Hl Hk Hr Ht'] Ht Hstep. destruct (Hp t th Ht) as [Hf Hli].
  destruct (critical (at_pc th)) eqn:Hc.
  2: { now apply thread_step_outside in Hstep as (_ & Hx & _); [rewrite Hli in Hx|]. }
  pose proof (thread_step_rest _ _ _ _ Hc Hstep) as (Hrest & Hc' & Hf' & Hh' & _).
  rewrite (proj1 (Hm t th Ht) Hc) in *. destruct Hl as (th0 & r & Hth0 & Hx & Hin).
  rewrite Ht in Hth0. injection Hth0 as <-.
  split; cbn [threads owner life]; [done|done|..].
  - intros u v Hu. apply insert_thread in Hu as [[-> ->]|[_ Hu]]; [|eauto].
    unfold plain. rewrite Hf'. split; [done|].
    destruct (at_pc th'); done.
  - exists th', r. split; [eapply insert_same; eassumption|]. now rewrite <- Hrest.
  - intros u v Hu. now apply insert_is_Some, (Hk u v).
  - intros u v Hu Hv. apply insert_thread in Hu as [[-> ->]|[_ Hu]]; [|eauto].
    rewrite Hv in Hc'. done.
  - intros u v w Hu Hv. apply insert_thread in Hu as [[-> ->]|[_ Hu]]; [|eauto].
    rewrite Hv in Hc'. done.
Qed.

Lemma explained_step l c c' log s :
  mutex_ok c -> explained l c log s -> step c c' -> exists log' s', explained l c' log' s'.
Proof.
  intros Hm He [t th _ Ht Hp Ho|t th r _ Ht Hp|t th th' l' _ Ht Hs].
  - eapply explained_lock; eassumption.
  - do 2 eexists. eapply explained_unlock; eassumption.
  - do 2 eexists. eapply explained_run; eassumption.
Qed.

Lemma steps_explained l c c' log s :
  mutex_ok c -> explained l c log s -> rtc step c c' ->
  mutex_ok c' /\ length (threads c') = length (threads c) /\
  exists log' s', explained l c' log' s'.
Proof.
  intros Hm He Hr. revert log s Hm He.
  induction Hr as [c|c c1 c2 Hs _ IH]; intros log s Hm He; [eauto|].
  destruct (explained_step l c c1 log s Hm He Hs) as (log1 & s1 & He1).
  destruct (IH log1 s1 (step_mutex_ok c c1 Hm Hs) He1) as (Hm2 & Hl & Hx).
  split; [done|]. split; [|done]. rewrite Hl. destruct Hs; cbn; apply length_insert.
Qed.

Lemma reachable_explained n l c :
  rtc step (start n l) c ->
  mutex_ok c /\ length (threads c) = n /\ exists log s, explained l c log s.
Proof.
  intros Hr. destruct (explained_ready (start n l)) as [Hm He]; [|done|].
  { intros t th Ht. now rewrite (start_ready n l t th Ht). }
  destruct (steps_explained l _ c [] l Hm He Hr) as (Hm' & Hl & Hx).
  split; [done|]. split; [|done]. rewrite Hl. apply length_replicate.
Qed.

(** A second tear-down finds the program idle. *)
Lemma sequential_once l log s :
  (forall i, set_link_ret i (-1) = 0) -> sequential l log s ->
  (log = [] /\ s = l) \/
  (s = snd (lc_tearDown programs set_link_ret l) /\ forall t r, In (t, r) log -> r = Ok tt).
Proof.
  intros Hu Hs. induction Hs as [|t r log s s' Hs IH Ht]; [now left|]. right.
  rewrite lc_tearDown_eq in Ht by done.
  destruct IH as [[-> ->]|[Hl Hok]].
  - rewrite lc_tearDown_eq by done. destruct (decide (mState l = IDLE)); injection Ht as <- <-;
      (split; [done|]); intros u q [[= _ <-]|[]]; done.
  - assert (mState s = IDLE) as Hi.
    { rewrite Hl, lc_tearDown_eq by done. now destruct (decide (mState l = IDLE)). }
    rewrite Hi in Ht. cbn in Ht. injection Ht as <- <-. split; [done|].
    intros u q Hin. apply in_app_iff in Hin as [Hin|[[= _ <-]|[]]]; [eauto|done].
Qed.

(** ** Runs are finite *)

Definition tearing (c : config) : Prop := forall t th, threads c !! t = Some th -> plain th.

Fixpoint sections_weight (m : gmap string (list Z)) (progs : list (string * Z)) : nat :=
  match progs with
  | [] => 4
  | (s, _) :: progs =>
      (match m !! s with Some ifs => length ifs | None => 0 end) + 2 + sections_weight m progs
  end.

(** The steps a thread has left, at most. *)
Definition weight (m : gmap string (list Z)) (th : thread) : nat :=
  match at_pc th with
  | Ready => sections_weight m programs + 3
  | Locked => sections_weight m programs + 2
  | CheckLinked => sections_weight m programs + 1
  | Sections progs => sections_weight m progs
  | Interfaces ifs progs => length ifs + 1 + sections_weight m progs
  | DestroyEnter => 3
  | SetIdle => 2
  | Unlocking _ => 1
  | _ => 0
  end.

Definition total (c : config) : nat :=
  sum_list_with (weight (mSectionLinkInterfacesMap (life c))) (threads c).

Lemma sum_list_with_insert {A} (f : A -> nat) l t x y :
  l !! t = Some x -> (sum_list_with f (<[t := y]> l) + f x = sum_list_with f l + f y)%nat.
Proof.
  revert t. induction l as [|a l IH]; intros [|t]; simpl; [done..|intros [= ->]; lia|].
  intros Ht. specialize (IH t Ht). lia.
Qed.

Lemma sections_weight_pos m progs : (4 <= sections_weight m progs)%nat.
Proof. induction progs as [|[s fd] ps IH]; cbn; lia. Qed.

Lemma thread_step_weight th l th' l' :
  critical (at_pc th) = true -> thread_step th l = Some (th', l') ->
  (weight (mSectionLinkInterfacesMap l) th' < weight (mSectionLinkInterfacesMap l) th)%nat.
Proof.
  pose proof (sections_weight_pos (mSectionLinkInterfacesMap l) programs) as Hp.
  destruct th as [p f h]. unfold thread_step, weight. cbn [at_pc].
  destruct p as [| | |[|[s fd] ps]|[|i ifs] ps| | |r|r|n i|n i|]; try discriminate; intros _ [= <- <-];
    cbn; repeat case_match; simplify_eq; cbn; lia.
Qed.

Lemma step_tearing c c' :
  tearing c -> step c c' -> tearing c' /\ (total c' < total c)%nat.
Proof.
  intros Hp Hs. destruct Hs as [t th _ Ht Hat Ho|t th r _ Ht Hat|t th th' l _ Ht Hs].
  - pose proof (Hp t th Ht) as [Hf _]. split.
    + intros u v Hu. apply insert_thread in Hu as [[-> ->]|[_ Hu]]; [done|eauto].
    + unfold total. cbn [threads life].
      pose proof (sum_list_with_insert (weight (mSectionLinkInterfacesMap (life c))) _ _ _
        (goto Locked th) Ht) as Hw.
      assert (weight (mSectionLinkInterfacesMap (life c)) th =
              S (weight (mSectionLinkInterfacesMap (life c)) (goto Locked th))) as He
        by (unfold weight; rewrite Hat; cbn; lia).
      lia.
  - pose proof (Hp t th Ht) as [Hf _]. split.
    + intros u v Hu. apply insert_thread in Hu as [[-> ->]|[_ Hu]]; [done|eauto].
    + unfold total. cbn [threads life].
      pose proof (sum_list_with_insert (weight (mSectionLinkInterfacesMap (life c))) _ _ _
        (goto (Returned (outcome th r)) th) Ht) as Hw.
      assert (weight (mSectionLinkInterfacesMap (life c)) th = 1%nat) as He
        by (unfold weight; now rewrite Hat).
      change (weight _ (goto (Returned (outcome th r)) th)) with 0%nat in Hw. lia.
  - pose proof (Hp t th Ht) as [Hf Hli]. destruct (critical (at_pc th)) eqn:Hc.
    2: { apply thread_step_outside in Hs as (_ & Hx & _); [congruence|done]. }
    pose proof (thread_step_weight _ _ _ _ Hc Hs) as Hlt.
    destruct (thread_step_rest _ _ _ _ Hc Hs) as (_ & Hc' & Hf' & _ & Hm). split.
    + intros u v Hu. apply insert_thread in Hu as [[-> ->]|[_ Hu]]; [|eauto].
      split; [congruence|]. destruct (at_pc th'); done.
    + unfold total. cbn [threads life]. rewrite Hm.
      pose proof (sum_list_with_insert (weight (mSectionLinkInterfacesMap (life c))) _ _ _ th' Ht).
      lia.
Qed.

Lemma tearing_ends c : tearing c -> ends c.
Proof.
  remember (total c) as n eqn:Hn. revert c Hn.
  induction n as [n IH] using lt_wf_ind. intros c -> Hp. constructor. intros c' Hs.
  destruct (step_tearing c c' Hp Hs) as [Hp' Hlt]. exact (IH _ Hlt c' eq_refl Hp').
Qed.

(** ** No deadlock *)

Definition owned (c : config) : Prop := forall t, owner c = Some t -> is_Some (threads c !! t).

Lemma step_owned c c' : owned c -> step c c' -> owned c'.
Proof.
  intros Ho [t th _ Ht _ _|t th r _ Ht _|t th th' l _ Ht _] u; cbn [owner threads]; [|done|].
  - intros [= <-]. apply insert_is_Some. eauto.
  - intros Hu. now apply insert_is_Some, Ho.
Qed.

Lemma thread_step_some th l :
  critical (at_pc th) = true ->
  (exists x, thread_step th l = Some x) \/ exists r, at_pc th = Unlocking r.
Proof.
  destruct th as [p f h]. unfold thread_step. cbn [at_pc].
  destruct p as [| | |[|[s fd] ps]|[|i ifs] ps| | |r|r|n i|n i|]; try discriminate; eauto.
Qed.

(** A thread that has not returned, or the one it waits for, can go on. *)
Lemma progress c t th :
  mutex_ok c -> owned c -> tearing c -> exited c = false ->
  threads c !! t = Some th -> returned th = false -> ~ stuck c.
Proof.
  intros Hm Ho Hp He Ht Hn Hs. destruct (owner c) as [u|] eqn:Hu.
  - destruct (Ho u Hu) as [v Hv]. pose proof (proj2 (Hm u v Hv) Hu) as Hc.
    destruct (thread_step_some v (life c) Hc) as [[[v' l] Hx]|[r Hr]].
    + eapply Hs. eapply step_run; eassumption.
    + eapply Hs. eapply step_unlock; eassumption.
  - destruct (critical (at_pc th)) eqn:Hc; [now apply (Hm t th Ht) in Hc; congruence|].
    destruct (Hp t th Ht) as [_ Hli]. eapply Hs. eapply step_lock; try eassumption.
    unfold returned in Hn. now destruct (at_pc th).
Qed.

Lemma exited_false c :
  exited c = false <->
  forall t th, threads c !! t = Some th -> handler th = true -> returned th = false.
Proof.
  unfold exited. split.
  - intros He t th Ht Hh. destruct (returned th) eqn:Hr; [|done].
    assert (existsb (fun th => handler th && returned th) (threads c) = true) as Hx; [|congruence].
    apply existsb_exists. exists th. split; [|now rewrite Hh, Hr].
    apply list_elem_of_In. eapply list_elem_of_lookup_2; eassumption.
  - intros Hn. apply not_true_iff_false. intros Hx.
    apply existsb_exists in Hx as (th & Hin & Hb). apply andb_true_iff in Hb as [Hh Hr].
    apply list_elem_of_In, list_elem_of_lookup_1 in Hin as [t Ht].
    rewrite (Hn t th Ht Hh) in Hr. done.
Qed.

(** ** Idle for good *)

(** Everything so far went well; once a tear-down is through, the program is
    idle and no thread works on it. *)
Definition done_ok (th : thread) : bool :=
  match at_pc th with Unlocking (Ok _) | Returned (Ok _) => true | _ => false end.

Definition failed (th : thread) : bool :=
  match at_pc th with Unlocking (Err _) | Returned (Err _) => true | _ => false end.

Definition working (th : thread) : bool :=
  match at_pc th with
  | CheckLinked | Sections _ | Interfaces _ _ | DestroyEnter | SetIdle => true
  | _ => false
  end.

Record settled (c : config) : Prop := {
  set_ok t th : threads c !! t = Some th -> failed th = false;
  set_idle t th : threads c !! t = Some th -> done_ok th = true -> mState (life c) = IDLE;
  set_rest t th u v :
    threads c !! t = Some th -> done_ok th = true -> threads c !! u = Some v -> working v = false
}.

Lemma working_critical th : working th = true -> critical (at_pc th) = true.
Proof. unfold working. now destruct (at_pc th). Qed.

(** Two threads in the critical section are one. *)
Lemma critical_alone c t th u v :
  mutex_ok c -> threads c !! t = Some th -> threads c !! u = Some v ->
  critical (at_pc th) = true -> critical (at_pc v) = true -> u = t.
Proof.
  intros Hm Ht Hu Hc Hv. apply (Hm t th Ht) in Hc. apply (Hm u v Hu) in Hv. congruence.
Qed.

Lemma settled_run c t th th' l :
  (forall i, set_link_ret i (-1) = 0) -> mutex_ok c -> settled c ->
  threads c !! t = Some th -> critical (at_pc th) = true ->
  thread_step th (life c) = Some (th', l) ->
  settled (mk_config (<[t := th']> (threads c)) (owner c) l).
Proof.
  intros Hu Hm [Hok Hi Hr] Ht Hc Hs.
  assert (forall u v, threads c !! u = Some v -> u <> t -> working v = false) as Hothers.
  { intros u v Hv Hne. destruct (working v) eqn:Hw; [|done]. apply working_critical in Hw.
    now destruct Hne; apply (critical_alone c t th u v). }
  destruct (working th) eqn:Hw.
  - assert (forall u v, threads c !! u = Some v -> done_ok v = false) as Hnd.
    { intros u v Hv. destruct (done_ok v) eqn:Hd; [|done].
      now rewrite (Hr u v t th Hv Hd Ht) in Hw. }
    assert (failed th' = false /\ (done_ok th' = true -> mState l = IDLE /\ working th' = false))
      as [Hf Hd].
    { destruct th as [p f h]. unfold thread_step in Hs. cbn [at_pc] in Hs.
      destruct p as [| | |[|[s fd] ps]|[|i ifs] ps| | |r|r|n i|n i|]; try discriminate;
        injection Hs as <- <-; rewrite ?Hu; cbn; repeat case_match; done. }
    split; cbn [threads life].
    + intros u v Hv. apply insert_thread in Hv as [[-> ->]|[_ Hv]]; [done|eauto].
    + intros u v Hv Hdv. apply insert_thread in Hv as [[-> ->]|[_ Hv]]; [tauto|].
      now rewrite (Hnd u v Hv) in Hdv.
    + intros u v x w Hv Hdv Hx. apply insert_thread in Hv as [[-> ->]|[_ Hv]].
      * apply insert_thread in Hx as [[-> ->]|[Hne Hx]]; [tauto|eauto].
      * now rewrite (Hnd u v Hv) in Hdv.
  - assert (at_pc th = Locked) as Hat.
    { destruct th as [p f h]. unfold thread_step in Hs. now destruct p. }
    unfold thread_step in Hs. rewrite Hat in Hs. injection Hs as <- <-.
    destruct (decide (mState (life c) = IDLE)) as [Hidle|Hnot]; split; cbn [threads life].
    + intros u v Hv. apply insert_thread in Hv as [[-> ->]|[_ Hv]]; [done|eauto].
    + done.
    + intros u v x w _ _ Hx. apply insert_thread in Hx as [[-> ->]|[Hne Hx]]; [done|eauto].
    + intros u v Hv. apply insert_thread in Hv as [[-> ->]|[_ Hv]]; [done|eauto].
    + intros u v Hv Hd. apply insert_thread in Hv as [[-> ->]|[_ Hv]]; [done|eauto].
    + intros u v x w Hv Hd. apply insert_thread in Hv as [[-> ->]|[_ Hv]]; [done|].
      destruct Hnot. eauto.
Qed.

(** A thread takes another place, the object stays. *)
Lemma settled_goto c t th th' o :
  settled c -> threads c !! t = Some th -> failed th' = false -> working th' = false ->
  (done_ok th' = true -> done_ok th = true) ->
  settled (mk_config (<[t := th']> (threads c)) o (life c)).
Proof.
  intros [Hok Hi Hr] Ht Hf Hw Hd. split; cbn [threads life].
  - intros u v Hv. apply insert_thread in Hv as [[-> ->]|[_ Hv]]; [done|eauto].
  - intros u v Hv Hdv. apply insert_thread in Hv as [[-> ->]|[_ Hv]]; eauto.
  - intros u v x w Hv Hdv Hx. apply insert_thread in Hx as [[-> ->]|[_ Hx]]; [done|].
    apply insert_thread in Hv as [[-> ->]|[_ Hv]]; eauto.
Qed.

Lemma step_settled c c' :
  (forall i, set_link_ret i (-1) = 0) -> mutex_ok c -> tearing c -> settled c -> step c c' ->
  settled c'.
Proof.
  intros Hu Hm Hp Hs [t th _ Ht Hat Ho|t th r _ Ht Hat|t th th' l _ Ht Hst].
  - now apply settled_goto with th.
  - pose proof (set_ok c Hs t th Ht) as Hf. unfold failed in Hf. rewrite Hat in Hf.
    destruct (Hp t th Ht) as [Hfl _]. destruct r as [[]|e]; [|done].
    apply settled_goto with th; [done..| | |].
    + unfold failed. cbn. now rewrite Hfl.
    + done.
    + intros _. unfold done_ok. now rewrite Hat.
  - destruct (Hp t th Ht) as [_ Hli]. destruct (critical (at_pc th)) eqn:Hc.
    + eapply settled_run; eassumption.
    + apply thread_step_outside in Hst as (_ & Hx & _); [congruence|done].
Qed.

(** The invariants of runs from [start]. *)
Record fine (c : config) : Prop := {
  fine_mutex : mutex_ok c;
  fine_owned : owned c;
  fine_tearing : tearing c;
  fine_settled : settled c
}.

Lemma step_fine c c' :
  (forall i, set_link_ret i (-1) = 0) -> fine c -> step c c' -> fine c'.
Proof.
  intros Hu [Hm Ho Ht Hs] Hst. split.
  - eapply step_mutex_ok; eassumption.
  - eapply step_owned; eassumption.
  - now apply (step_tearing c c' Ht).
  - eapply step_settled; eassumption.
Qed.

Lemma steps_fine c c' :
  (forall i, set_link_ret i (-1) = 0) -> fine c -> rtc step c c' -> fine c'.
Proof. intros Hu Hf Hr. induction Hr; [done|]. eauto using step_fine. Qed.

Lemma ready_fine c :
  (forall t th, threads c !! t = Some th -> at_pc th = Ready /\ fails th = false) ->
  owner c = None -> fine c.
Proof.
  intros Hth Ho. split.
  - now apply explained_ready.
  - intros t. now rewrite Ho.
  - intros t th Ht. destruct (Hth t th Ht) as [Hr Hf]. unfold plain. now rewrite Hr, Hf.
  - split.
    + intros t th Ht. destruct (Hth t th Ht) as [Hr _]. unfold failed. now rewrite Hr.
    + intros t th Ht. destruct (Hth t th Ht) as [Hr _]. unfold done_ok. now rewrite Hr.
    + intros t th u v Ht. destruct (Hth t th Ht) as [Hr _]. unfold done_ok. now rewrite Hr.
Qed.

(** Handlers stay. *)
Lemma step_handler c c' t th :
  step c c' -> threads c !! t = Some th ->
  exists th', threads c' !! t = Some th' /\ handler th' = handler th.
Proof.
  assert (forall u v v', threads c !! u = Some v -> handler v' = handler v ->
    threads c !! t = Some th ->
    exists th', <[u := v']> (threads c) !! t = Some th' /\ handler th' = handler th) as Hi.
  { intros u v v' Hu Hh Ht. destruct (decide (t = u)) as [->|Hne].
    - exists v'. split; [eapply insert_same; eassumption|]. rewrite Hu in Ht. congruence.
    - exists th. now rewrite list_lookup_insert_ne. }
  intros [u v _ Hu _ _|u v r _ Hu _|u v v' l _ Hu Hs] Ht; cbn [threads].
  - now apply (Hi u v).
  - now apply (Hi u v).
  - apply (Hi u v); [done| |done]. destruct (critical (at_pc v)) eqn:Hc.
    + now apply thread_step_rest in Hs as (_ & _ & _ & -> & _).
    + now apply thread_step_outside in Hs as (_ & _ & ->).
Qed.

(** ** A signal *)

Lemma signal_fine t c c1 :
  fine c -> owner c <> Some t -> signal t c c1 ->
  fine c1 /\ exists th, threads c1 !! t = Some th /\ handler th = true.
Proof.
  intros [Hm Ho Hp Hs] Hne [th _ Ht]. split; [|eexists; split; [eapply insert_same; exact Ht|done]].
  split; cbn.
  - intros u v Hu. apply insert_thread in Hu as [[-> ->]|[_ Hu]]; [cbn; split; [done|congruence]|].
    exact (Hm u v Hu).
  - intros u Hu. now apply insert_is_Some, Ho.
  - intros u v Hu. apply insert_thread in Hu as [[-> ->]|[_ Hu]]; [done|eauto].
  - now apply settled_goto with th.
Qed.

(** A handler waits for the mutex that its own thread holds. *)
Record hung (t : nat) (c : config) : Prop := {
  hung_owner : owner c = Some t;
  hung_thread : threads c !! t = Some (mk_thread Ready false true);
  hung_outside u th : threads c !! u = Some th -> critical (at_pc th) = false;
  hung_handlers u th : threads c !! u = Some th -> handler th = true -> at_pc th = Ready
}.

Lemma hung_exited t c : hung t c -> exited c = false.
Proof.
  intros [_ _ _ Hh]. apply exited_false. intros u th Hu Hh'. unfold returned.
  now rewrite (Hh u th Hu Hh').
Qed.

Lemma hung_step t c c' : hung t c -> step_or_signal c c' -> hung t c'.
Proof.
  intros [Ho Ht Hc Hh] [[u th _ Hu Hat Hn|u th r _ Hu Hat|u th th' l _ Hu Hs]|(u & [th _ Hu])].
  - congruence.
  - pose proof (Hc u th Hu) as Hx. now rewrite Hat in Hx.
  - assert (u <> t) as Hne by (intros ->; rewrite Ht in Hu; now injection Hu as <-).
    pose proof (Hc u th Hu) as Hx.
    destruct (thread_step_outside _ _ _ _ Hx Hs) as (Hc' & Hli & Hh').
    split; cbn; [done|now rewrite list_lookup_insert_ne|..].
    + intros w v Hw. apply insert_thread in Hw as [[-> ->]|[_ Hw]]; [done|eauto].
    + intros w v Hw. apply insert_thread in Hw as [[-> ->]|[_ Hw]]; [|eauto].
      rewrite Hh'. intros Hv. now rewrite (Hh u th Hu Hv) in Hli.
  - split; cbn; [done|..].
    + destruct (decide (u = t)) as [->|Hne]; [|now rewrite list_lookup_insert_ne].
      eapply insert_same. exact Ht.
    + intros w v Hw. apply insert_thread in Hw as [[-> ->]|[_ Hw]]; [done|eauto].
    + intros w v Hw. apply insert_thread in Hw as [[-> ->]|[_ Hw]]; [done|eauto].
Qed.

Lemma step_unsignalled c c' :
  (forall t th, threads c !! t = Some th -> handler th = false) -> step c c' ->
  forall t th, threads c' !! t = Some th -> handler th = false.
Proof.
  intros Hn Hs t th Ht. destruct (threads c !! t) as [th0|] eqn:H0.
  - destruct (step_handler c c' t th0 Hs H0) as (th1 & H1 & Hh). rewrite Ht in H1.
    injection H1 as <-. rewrite Hh. eauto.
  - apply lookup_ge_None in H0. apply lookup_lt_Some in Ht.
    destruct Hs; cbn in Ht; rewrite length_insert in Ht; lia.
Qed.

Lemma reachable_unsignalled n l c :
  rtc step (start n l) c -> forall t th, threads c !! t = Some th -> handler th = false.
Proof.
  intros Hr. assert (forall t th, threads (start n l) !! t = Some th -> handler th = false) as Hi
    by (intros t th Ht; now rewrite (start_ready n l t th Ht)).
  revert Hi. induction Hr as [c|c c1 c2 Hs _ IH]; [done|]. intros Hn. apply IH.
  now apply (step_unsignalled c).
Qed.

Lemma signal_hung t c c1 :
  mutex_ok c -> (forall u th, threads c !! u = Some th -> handler th = false) ->
  owner c = Some t -> signal t c c1 -> hung t c1.
Proof.
  intros Hm Hn Ho [th _ Ht]. split; cbn; [done|eapply insert_same; exact Ht|..].
  - intros u v Hu. apply insert_thread in Hu as [[-> ->]|[Hne Hu]]; [done|].
    destruct (critical (at_pc v)) eqn:Hc; [|done]. apply (Hm u v Hu) in Hc. congruence.
  - intros u v Hu. apply insert_thread in Hu as [[-> ->]|[Hne Hu]]; [done|].
    now rewrite (Hn u v Hu).
Qed.

(** A thread has one result in a log. *)
Lemma log_unique {A} (log : list (nat * A)) t r q :
  NoDup (map fst log) -> In (t, r) log -> In (t, q) log -> r = q.
Proof.
  induction log as [|[u x] log IH]; cbn; [done|]. rewrite NoDup_cons, list_elem_of_In, in_map_iff.
  intros [Hnot Hn] [E|Hin] [E'|Hin']; [congruence| | |auto]; destruct Hnot.
  - exists (t, q). split; [cbn; congruence|done].
  - exists (t, r). split; [cbn; congruence|done].
Qed.

(** ** Properties of the mutex *)

(** C11: the mutex makes a tear-down atomic: when any number of threads that
    tear down at the same time, in any interleaving of their steps and whatever
    the kernel answers, have all returned, the program is as after the
    tear-downs of [LifeCycle] one after the other, in some order of the threads,
    and each thread has the result of its own. *)
Theorem tearDown_linearizable n l c :
  rtc step (start n l) c ->
  (forall t th, threads c !! t = Some th -> returned th = true) ->
  exists log,
    Permutation (map fst log) (seq 0 n) /\ sequential l log (life c) /\
    forall t r, In (t, r) log <->
      exists th, threads c !! t = Some th /\ at_pc th = Returned r.
Proof.
  intros Hr Hall. destruct (reachable_explained n l c Hr) as (Hm & Hlen & log & s & He).
  destruct He as [Hs Hn Hp Hl Hk Hrd Hret].
  assert (owner c = None) as Ho.
  { destruct (owner c) as [t|] eqn:Ho; [|done]. destruct Hl as (th & r & Ht & _).
    pose proof (Hall t th Ht) as Hx. pose proof (proj2 (Hm t th Ht) Ho) as Hc.
    unfold returned in Hx. now destruct (at_pc th). }
  rewrite Ho in Hl. subst s. exists log.
  assert (forall t th, threads c !! t = Some th -> exists r, at_pc th = Returned r) as Hr'.
  { intros t th Ht. specialize (Hall t th Ht). unfold returned in Hall.
    destruct (at_pc th); try discriminate. eauto. }
  split; [|split; [done|]].
  - apply NoDup_Permutation; [done|apply NoDup_seq|].
    intros t. rewrite !list_elem_of_In, in_seq, in_map_iff. split.
    + intros ([u r] & <- & Hin). destruct (Hk u r Hin) as [th Ht].
      apply lookup_lt_Some in Ht. cbn. lia.
    + intros Ht. destruct (lookup_lt_is_Some_2 (threads c) t ltac:(lia)) as [th Hth].
      destruct (Hr' t th Hth) as [r Hat]. exists (t, r). eauto.
  - intros t r. split.
    + intros Hin. destruct (Hk t r Hin) as [th Ht]. exists th. split; [done|].
      destruct (Hr' t th Ht) as [q Hat]. pose proof (Hret t th q Ht Hat) as Hin'.
      now rewrite (log_unique log t r q Hn Hin Hin').
    + intros (th & Ht & Hat). eauto.
Qed.

(** C36: no deadlock and no livelock: with any number of threads and whatever
    the kernel answers, every run of the tear-downs is finite, and where it can
    go no further all of them have returned. *)
Theorem tearDown_threads_finish n l :
  ends (start n l) /\
  forall c, rtc step (start n l) c -> stuck c ->
    forall t th, threads c !! t = Some th -> returned th = true.
Proof.
  destruct (explained_ready (start n l)) as [Hm0 He0]; [|done|].
  { intros t th Ht. now rewrite (start_ready n l t th Ht). }
  split; [apply tearing_ends; exact (ex_plain _ _ _ _ He0)|].
  intros c Hr Hst t th Ht. destruct (reachable_explained n l c Hr) as (Hm & _ & log & s & He).
  destruct (returned th) eqn:Hx; [done|]. exfalso.
  eapply (progress c t th); try eassumption.
  - intros u Hu. pose proof (ex_life _ _ _ _ He) as Hl. rewrite Hu in Hl.
    destruct Hl as (v & r & Hv & _). eauto.
  - exact (ex_plain _ _ _ _ He).
  - apply exited_false. intros u v Hu Hh. now rewrite (reachable_unsignalled n l c Hr u v Hu) in Hh.
Qed.


(** ** What stays attached to interfaces *)

(** The interfaces the kernel has a program on, after these calls (the last
    call first). *)
Fixpoint attached (cs : list call) : gset Z :=
  match cs with
  | [] => ∅
  | Destroy _ :: cs => attached cs
  | SetLink i fd :: cs =>
      if set_link_ret i fd <? 0 then attached cs
      else if fd =? -1 then attached cs ∖ {[i]}
      else {[i]} ∪ attached cs
  end.

(** The interfaces that a tear-down of a linked program unlinks. *)
Definition recorded_interfaces (l : lifecycle) : list Z :=
  flat_map (fun p => match mSectionLinkInterfacesMap l !! p.1 with Some k => k | None => [] end)
    programs.

Definition recorded (l : lifecycle) : Prop :=
  attached (calls l) ⊆ list_to_set (recorded_interfaces l) /\
  (mState l <> LINKED -> attached (calls l) = ∅).

Hypothesis unlinks : forall i, set_link_ret i (-1) = 0.
Hypothesis descriptors : forall s fd, In (s, fd) programs -> 0 <= fd.

Lemma find_section_in name fd progs : find_section name progs = Some fd -> In (name, fd) progs.
Proof.
  induction progs as [|[s f] progs IH]; cbn; [done|].
  destruct (String.eqb_spec s name) as [->|]; [intros [= ->]; now left|auto].
Qed.

Lemma attached_unlink ifs cs :
  attached (rev (map (fun i => SetLink i (-1)) ifs) ++ cs) = attached cs ∖ list_to_set ifs.
Proof.
  revert cs. induction ifs as [|i ifs IH]; intros cs; cbn [map rev list_to_set]; [set_solver|].
  rewrite <- app_assoc, IH. cbn. rewrite unlinks. cbn. set_solver.
Qed.

Lemma unlink_calls_recorded l :
  unlink_calls (mSectionLinkInterfacesMap l) programs =
    map (fun i => SetLink i (-1)) (recorded_interfaces l).
Proof.
  unfold unlink_calls, recorded_interfaces. clear. induction programs as [|p ps IH]; [done|].
  cbn [flat_map]. now rewrite map_app, IH.
Qed.

(** What a tear-down leaves. *)
Lemma attached_tearDown l :
  attached (calls (snd (lc_tearDown programs set_link_ret l))) =
    if decide (mState l = LINKED)
    then attached (calls l) ∖ list_to_set (recorded_interfaces l) else attached (calls l).
Proof.
  rewrite lc_tearDown_eq by done. destruct (decide (mState l = IDLE)) as [Hi|Hi].
  - now rewrite decide_False by congruence.
  - cbn [snd calls attached]. destruct (decide (mState l = LINKED)); [|done].
    now rewrite unlink_calls_recorded, attached_unlink.
Qed.

Lemma recorded_tearDown l :
  recorded l -> attached (calls (snd (lc_tearDown programs set_link_ret l))) = ∅.
Proof.
  intros [Hs Hn]. rewrite attached_tearDown.
  destruct (decide (mState l = LINKED)) as [Hl|Hl]; [set_solver|auto].
Qed.

Lemma elem_recorded i l :
  i ∈ (list_to_set (recorded_interfaces l) : gset Z) <->
  exists s fd k, In (s, fd) programs /\ mSectionLinkInterfacesMap l !! s = Some k /\ In i k.
Proof.
  rewrite elem_of_list_to_set, list_elem_of_In. unfold recorded_interfaces. rewrite in_flat_map.
  split.
  - intros ([s fd] & Hin & Hi). cbn in Hi.
    destruct (mSectionLinkInterfacesMap l !! s) as [k|] eqn:Hk; [eauto 10|done].
  - intros (s & fd & k & Hin & Hk & Hi). exists (s, fd). cbn. now rewrite Hk.
Qed.

(** Linking through to the end records the interface. *)
Lemma recorded_linked name i fd l :
  recorded l -> find_section name programs = Some fd ->
  recorded (mk_lifecycle LINKED (add_link name i (mSectionLinkInterfacesMap l)) (mpSkeleton l)
              (SetLink i fd :: calls l)).
Proof.
  intros [Hs Hn] Hf. split; [|done]. intros j. cbn [calls attached].
  pose proof (descriptors name fd (find_section_in _ _ _ Hf)) as Hfd.
  intros Hj. apply elem_recorded. cbn [mSectionLinkInterfacesMap].
  assert (j = i \/ j ∈ attached (calls l)) as [->|Hj'].
  { destruct (set_link_ret i fd <? 0); [now right|].
    rewrite (proj2 (Z.eqb_neq fd (-1))) in Hj by lia. set_solver. }
  - exists name, fd. unfold add_link. rewrite lookup_insert_eq. eexists.
    split; [now apply find_section_in|]. split; [done|].
    destruct (_ !! name); [apply in_app_iff; right|]; now left.
  - apply Hs, elem_recorded in Hj' as (s & f & k & Hin & Hk & Hjk).
    unfold add_link. destruct (decide (name = s)) as [->|Hne].
    + exists s, f. rewrite lookup_insert_eq, Hk. eexists. split; [done|]. split; [done|].
      apply in_app_iff. now left.
    + exists s, f, k. now rewrite lookup_insert_ne.
Qed.

(** ** A signal while a program is linked *)

(** A tear-down with nobody else around. *)
Lemma alone_tearDown c c' h :
  threads c = [mk_thread Ready false h] -> owner c = None -> rtc step c c' -> stuck c' ->
  life c' = snd (lc_tearDown programs set_link_ret (life c)).
Proof.
  intros Hth Ho Hr Hst.
  assert (forall t th, threads c !! t = Some th -> at_pc th = Ready /\ fails th = false) as Hrd.
  { rewrite Hth. intros [|t] th; [|done]. cbn. now intros [= <-]. }
  destruct (explained_ready c Hrd Ho) as [Hm He].
  destruct (steps_fine c c' unlinks (ready_fine c Hrd Ho) Hr) as [Hm' Hown Hte _].
  destruct (steps_explained _ c c' [] _ Hm He Hr) as (_ & Hlen & log & s & He').
  rewrite Hth in Hlen. destruct (lookup_lt_is_Some_2 (threads c') 0%nat) as [th Ht];
    [rewrite Hlen; cbn; lia|].
  assert (returned th = true) as Hret.
  { destruct (returned th) eqn:Hret; [done|]. exfalso.
    eapply (progress c' 0 th); try eassumption. apply exited_false. intros [|u] v Hv _; [congruence|].
    apply lookup_lt_Some in Hv. rewrite Hlen in Hv. cbn in Hv. lia. }
  destruct He' as [Hs _ _ Hl Hk _ Hin]. assert (exists r, at_pc th = Returned r) as [r Hat].
  { unfold returned in Hret. destruct (at_pc th); try discriminate. eauto. }
  assert (owner c' = None) as Ho'.
  { destruct (owner c') as [u|] eqn:Hu; [|done]. destruct (Hown u Hu) as [v Hv].
    pose proof (lookup_lt_Some _ _ _ Hv) as Hlt. rewrite Hlen in Hlt. cbn in Hlt.
    assert (u = 0%nat) as -> by lia. rewrite Ht in Hv. injection Hv as <-.
    pose proof (proj2 (Hm' _ _ Ht) Hu) as Hc. now rewrite Hat in Hc. }
  rewrite Ho' in Hl. destruct (sequential_once _ _ _ unlinks Hs) as [[-> _]|[-> _]]; [|done].
  destruct (Hin 0%nat th r Ht Hat).
Qed.

Definition asked (i fd : Z) (l : lifecycle) : lifecycle := snd (emit_call (SetLink i fd) l).

Definition noted (name : string) (i : Z) (l : lifecycle) : lifecycle :=
  snd (set_links (add_link name i (mSectionLinkInterfacesMap l)) l).

(** The places of a thread that links. *)
Inductive link_place (name : string) (i : Z) (l : lifecycle) : config -> Prop :=
| at_enter : link_place name i l (start_link name i l)
| at_error e : link_place name i l (mk_config [mk_thread (Returned (Err e)) false false] None l)
| at_record fd :
    find_section name programs = Some fd -> 0 <= set_link_ret i fd ->
    link_place name i l (mk_config [mk_thread (LinkRecord name i) false false] None (asked i fd l))
| at_state fd :
    find_section name programs = Some fd -> 0 <= set_link_ret i fd ->
    link_place name i l (mk_config [mk_thread LinkState false false] None
                           (noted name i (asked i fd l)))
| at_linked fd :
    find_section name programs = Some fd -> 0 <= set_link_ret i fd ->
    link_place name i l (mk_config [mk_thread (Returned (Ok tt)) false false] None
                           (snd (set_state LINKED (noted name i (asked i fd l)))))
| at_tearDown fd p o l' :
    find_section name programs = Some fd -> set_link_ret i fd < 0 -> linking p = false ->
    o = (if critical p then Some 0%nat else None) ->
    snd (rest p l') = snd (lc_tearDown programs set_link_ret (asked i fd l)) ->
    link_place name i l (mk_config [mk_thread p true false] o l').

Lemma single_lookup (th th' : thread) t : [th] !! t = Some th' -> t = 0%nat /\ th' = th.
Proof. destruct t as [|t]; cbn; [|done]. intros [= ->]. auto. Qed.

Lemma link_place_run name i l th l1 th' l2 o :
  link_place name i l (mk_config [th] o l1) -> thread_step th l1 = Some (th', l2) ->
  link_place name i l (mk_config [th'] o l2).
Proof.
  intros Hp Hs. inversion Hp; subst; cbn in Hs; try discriminate.
  - unfold thread_step in Hs. cbn [at_pc] in Hs.
    destruct (i =? 0); [injection Hs as <- <-; constructor|].
    destruct (find_section name programs) as [fd|] eqn:Hf; [|injection Hs as <- <-; constructor].
    destruct (Z.ltb_spec (set_link_ret i fd) 0); injection Hs as <- <-.
    + now apply (at_tearDown _ _ _ fd).
    + now apply (at_record _ _ _ fd).
  - injection Hs as <- <-. now apply (at_state _ _ _ fd).
  - injection Hs as <- <-. now apply (at_linked _ _ _ fd).
  - destruct (critical p) eqn:Hc.
    2: { apply thread_step_outside in Hs as (_ & Hx & _); [cbn in Hx; congruence|done]. }
    destruct (thread_step_rest (mk_thread p true false) _ _ _ Hc Hs) as (Hr & Hc' & Hf & Hh & _).
    destruct th' as [p' f' h']. cbn [at_pc fails handler] in *. subst f' h'.
    apply (at_tearDown _ _ _ fd); [done|done|now destruct p'|now rewrite Hc'|congruence].
Qed.

Lemma link_place_step name i l c c' : link_place name i l c -> step c c' -> link_place name i l c'.
Proof.
  intros Hp Hs. assert (exists th, threads c = [th]) as [th Hth] by (destruct Hp; cbn; eauto).
  destruct c as [ths o l1]. cbn in Hth. subst ths.
  destruct Hs as [t v _ Ht Hat Ho|t v r _ Ht Hat|t v v' l' _ Ht Hs]; cbn in *;
    apply single_lookup in Ht as [-> ->].
  - inversion Hp; subst; try discriminate. cbn in Hat. subst p.
    now apply (at_tearDown _ _ _ fd).
  - inversion Hp; subst; try discriminate. cbn in Hat. subst p.
    now apply (at_tearDown _ _ _ fd).
  - now apply (link_place_run name i l th l1).
Qed.

Lemma link_places name i l c : rtc step (start_link name i l) c -> link_place name i l c.
Proof.
  intros Hr. assert (link_place name i l (start_link name i l)) as Hp by constructor.
  revert Hp. induction Hr; [done|]. eauto using link_place_step.
Qed.

(** The steps of a link, nobody else around, are the method of [LifeCycle]. *)
Definition finish (th : thread) (l : lifecycle) : result runtime_error unit * lifecycle :=
  match at_pc th with
  | Returned r => (r, l)
  | p => let '(r, s) := rest p l in (outcome th r, s)
  end.

Lemma finish_critical th l :
  critical (at_pc th) = true ->
  finish th l = let '(r, s) := rest (at_pc th) l in (outcome th r, s).
Proof. unfold finish. now destruct (at_pc th). Qed.

Lemma finish_link name i l l' h :
  i <> 0 -> find_section name programs <> None ->
  thread_step (mk_thread (LinkEnter name i) false h) l = Some l' ->
  finish (mk_thread (LinkEnter name i) false h) l = finish l'.1 l'.2.
Proof.
  intros Hi Hf. unfold thread_step, finish. cbn [at_pc rest]. unfold lc_link, bind at 1, guard.
  rewrite (proj2 (Z.eqb_neq _ _) Hi). destruct (find_section name programs) as [fd|]; [|done].
  cbn [negb]. unfold ret at 1.
  destruct (set_link_ret i fd <? 0) eqn:Hr; intros [= <-]; cbn [fst snd at_pc goto rest].
  - unfold bind at 1, emit_call, modify, bind, raise.
    destruct (lc_tearDown programs set_link_ret _) as [[[]|e] s]; done.
  - reflexivity.
Qed.

Lemma thread_step_finish th l th' l' :
  (linking (at_pc th) = true -> fails th = false) ->
  thread_step th l = Some (th', l') -> finish th l = finish th' l'.
Proof.
  intros Hl Hs. destruct (critical (at_pc th)) eqn:Hc.
  - destruct (thread_step_rest _ _ _ _ Hc Hs) as (Hr & Hc' & Hf & _).
    rewrite !finish_critical, Hr by done. unfold outcome. now rewrite Hf.
  - destruct th as [p f h]. cbn [at_pc fails] in *.
    destruct p as [| | | | | | | | |name i|name i|]; try discriminate;
      rewrite (Hl eq_refl) in *; try (now injection Hs as <- <-).
    destruct (decide (i = 0)) as [->|Hi]; [now injection Hs as <- <-|].
    destruct (find_section name programs) eqn:Hf.
    + apply (finish_link name i l (th', l')); congruence.
    + unfold thread_step in Hs. cbn [at_pc] in Hs.
      rewrite (proj2 (Z.eqb_neq _ _) Hi), Hf in Hs. injection Hs as <- <-.
      unfold finish. cbn [at_pc rest goto]. unfold lc_link, bind, guard.
      now rewrite (proj2 (Z.eqb_neq _ _) Hi), Hf.
Qed.

Lemma link_place_finish name i l th o l1 c' :
  link_place name i l (mk_config [th] o l1) -> step (mk_config [th] o l1) c' ->
  exists th' o' l', c' = mk_config [th'] o' l' /\ finish th l1 = finish th' l'.
Proof.
  intros Hp [t v _ Ht Hat _|t v r _ Ht Hat|t v v' l' _ Ht Hs]; cbn in *;
    apply single_lookup in Ht as [-> ->]; do 3 eexists; (split; [reflexivity|]).
  - unfold finish. now rewrite Hat.
  - unfold finish. now rewrite Hat.
  - apply thread_step_finish; [|done]. inversion Hp; subst; cbn; congruence.
Qed.

Lemma stuck_link_place name i l c :
  link_place name i l c -> stuck c ->
  exists r f, threads c = [mk_thread (Returned r) f false].
Proof.
  assert (forall th o l1 x, exited (mk_config [th] o l1) = false -> thread_step th l1 = Some x ->
    stuck (mk_config [th] o l1) -> False) as Hrun.
  { intros th o l1 [th' l'] He Hs Hst. eapply Hst. eapply (step_run _ 0); eauto. }
  intros Hp Hst. destruct Hp as [|e|fd Hf Hr|fd Hf Hr|fd Hf Hr|fd p o l' Hf Hr Hli -> Hrest];
    cbn [threads]; eauto.
  - exfalso. assert (exists x, thread_step (mk_thread (LinkEnter name i) false false) l = Some x) as [x Hx].
    { unfold thread_step. cbn [at_pc]. repeat case_match; eauto. }
    eapply Hrun; [|exact Hx|exact Hst]. reflexivity.
  - exfalso. eapply Hrun; [| |exact Hst]; reflexivity.
  - exfalso. eapply Hrun; [| |exact Hst]; reflexivity.
  - destruct (critical p) eqn:Hc.
    + exfalso. destruct (thread_step_some (mk_thread p true false) l' Hc) as [[x Hx]|[r Hx]].
      * eapply Hrun; [|exact Hx|exact Hst]. unfold exited. cbn. reflexivity.
      * cbn in Hx. subst p. eapply Hst. eapply (step_unlock _ 0); reflexivity.
    + destruct p; try discriminate; [|eauto].
      exfalso. eapply Hst. eapply (step_lock _ 0); reflexivity.
Qed.

(** Step by step, with nobody else around, a link does what the method does
    as a whole: when the thread can go no further it has returned the result of
    [lc_link], an error included, and the object is as [lc_link] leaves it. *)
Theorem link_alone name i l c :
  rtc step (start_link name i l) c -> stuck c ->
  exists r f, threads c = [mk_thread (Returned r) f false] /\
    (r, life c) = lc_link programs set_link_ret name i l.
Proof.
  intros Hr Hst. destruct (stuck_link_place name i l c (link_places _ _ _ _ Hr) Hst) as (r & f & Ht).
  exists r, f. split; [done|].
  assert (exists th o l1, c = mk_config [th] o l1 /\
    finish th l1 = lc_link programs set_link_ret name i l) as (th & o & l1 & -> & Hf).
  { apply (rtc_ind_r (R := step) (fun c => exists th o l1, c = mk_config [th] o l1 /\
      finish th l1 = lc_link programs set_link_ret name i l) (start_link name i l)); [| |done].
    - do 3 eexists. split; [reflexivity|]. unfold finish. cbn [at_pc rest].
      destruct (lc_link _ _ _ _ _) as [[[]|e] s]; done.
    - intros c1 c2 Hr1 Hs (th & o & l1 & -> & Hf).
      destruct (link_place_finish name i l th o l1 c2) as (th' & o' & l' & -> & Hf');
        [now apply link_places|done|]. do 3 eexists. split; [reflexivity|]. congruence. }
  cbn in Ht. injection Ht as ->. exact Hf.
Qed.

(** The kernel has the program on the interface, and the object does not know:
    the link is not in the map, or the state does not say that there are any. *)
Definition in_window (c : config) : bool :=
  existsb (fun th =>
    match at_pc th with
    | LinkRecord _ _ => true
    | LinkState => negb (bool_decide (mState (life c) = LINKED))
    | _ => false
    end) (threads c).

Lemma recorded_refused i fd l :
  recorded l -> set_link_ret i fd < 0 -> recorded (asked i fd l).
Proof. intros [Hs Hn] Hr. unfold recorded, asked. cbn. rewrite (proj2 (Z.ltb_lt _ _) Hr). done. Qed.

Lemma attached_asked name i fd l :
  find_section name programs = Some fd -> 0 <= set_link_ret i fd ->
  attached (calls (asked i fd l)) = {[i]} ∪ attached (calls l).
Proof.
  intros Hf Hr. pose proof (descriptors name fd (find_section_in _ _ _ Hf)). cbn.
  rewrite (proj2 (Z.ltb_ge _ _) Hr), (proj2 (Z.eqb_neq fd (-1))) by lia. done.
Qed.

(** What a handler leaves attached, for each place. *)
Lemma link_place_leaves name i l c :
  recorded l -> ~ In i (recorded_interfaces l) -> link_place name i l c -> owner c = None ->
  (attached (calls (snd (lc_tearDown programs set_link_ret (life c)))) = ∅ <->
   in_window c = false).
Proof.
  intros Hrec Hni Hp Ho. destruct Hp as [|e|fd Hf Hr|fd Hf Hr|fd Hf Hr|fd p o l' Hf Hr Hli -> Hrest];
    cbn [life] in *.
  - rewrite recorded_tearDown by done. done.
  - rewrite recorded_tearDown by done. done.
  - rewrite attached_tearDown, (attached_asked name) by done. cbn.
    split; [|done]. intros He. exfalso.
    assert (i ∉ (list_to_set (recorded_interfaces l) : gset Z)) as Hx
      by now rewrite elem_of_list_to_set, list_elem_of_In.
    change (recorded_interfaces (asked i fd l)) with (recorded_interfaces l) in He.
    destruct (decide (mState l = LINKED)); set_solver.
  - unfold in_window. cbn [threads existsb at_pc life]. rewrite orb_false_r, negb_false_iff, bool_decide_eq_true.
    split.
    + intros He. rewrite attached_tearDown in He. destruct (decide (mState l = LINKED)) as [|Hn];
        [done|]. rewrite decide_False in He by done.
      change (calls (noted name i (asked i fd l))) with (calls (asked i fd l)) in He.
      rewrite (attached_asked name) in He by done. set_solver.
    + intros He. apply recorded_tearDown.
      pose proof (recorded_linked name i fd l Hrec Hf) as Hl. unfold noted, asked in *. cbn in *.
      now rewrite He.
  - split; [done|]. intros _. apply recorded_tearDown. now apply (recorded_linked name i fd l).
  - assert (in_window (mk_config [mk_thread p true false]
      (if critical p then Some 0%nat else None) l') = false) as -> by (now destruct p).
    split; [done|]. intros _.
    pose proof (recorded_refused i fd l Hrec Hr) as Hrec1. cbn [owner] in Ho.
    assert (critical p = false) as Hc by (now destruct (critical p)).
    destruct p; try discriminate; cbn [rest] in Hrest.
    + rewrite Hrest. now apply recorded_tearDown.
    + cbn [snd] in Hrest. rewrite attached_tearDown. subst l'. rewrite lc_tearDown_eq by done.
      pose proof (recorded_tearDown _ Hrec1) as He. rewrite lc_tearDown_eq in He by done.
      destruct (decide (mState (asked i fd l) = IDLE)) as [Hi|Hi]; cbn [snd] in *.
      * rewrite decide_False by congruence. exact He.
      * exact He.
Qed.


End Steps.

(** ** Witnesses *)

Module SampleThreads.
Import SampleLifeCycle.

Definition ready : thread := mk_thread Ready false false.

(** A thread that takes all of its steps, as far as it can go. *)
Fixpoint run_thread (progs : list (string * Z)) (ret : Z -> Z -> Z) (fuel : nat) (t : nat)
    (c : config) : config :=
  match fuel with
  | O => c
  | S fuel =>
      match threads c !! t with
      | None => c
      | Some th =>
          if exited c then c
          else match at_pc th with
               | Ready =>
                   match owner c with
                   | None => run_thread progs ret fuel t
                               (mk_config (<[t := goto Locked th]> (threads c)) (Some t) (life c))
                   | Some _ => c
                   end
               | Unlocking r =>
                   run_thread progs ret fuel t
                     (mk_config (<[t := goto (Returned (outcome th r)) th]> (threads c)) None
                        (life c))
               | _ =>
                   match thread_step progs ret th (life c) with
                   | Some (th', l) =>
                       run_thread progs ret fuel t
                         (mk_config (<[t := th']> (threads c)) (owner c) l)
                   | None => c
                   end
               end
      end
  end.

Lemma run_thread_steps progs ret fuel t c : rtc (step progs ret) c (run_thread progs ret fuel t c).
Proof.
  revert c. induction fuel as [|fuel IH]; intros c; cbn [run_thread]; [done|].
  destruct (threads c !! t) as [th|] eqn:Ht; [|done]. destruct (exited c) eqn:He; [done|].
  destruct (at_pc th) eqn:Hp; try (destruct (thread_step progs ret th (life c)) as [[th' l]|] eqn:Hs;
    [|done]; eapply rtc_l; [eapply step_run; eassumption|apply IH]).
  - destruct (owner c) eqn:Ho; [done|]. eapply rtc_l; [eapply step_lock; eassumption|apply IH].
  - eapply rtc_l; [eapply step_unlock; eassumption|apply IH].
Qed.

(** Two threads, the second one first. *)
Definition c2 : config :=
  run_thread programs kernel 20 0 (run_thread programs kernel 20 1 (start 2 linked)).

(** One thread after the first call of libbpf, and before it begins. *)
Definition inside : config := run_thread programs kernel 5 0 (start 1 linked).
Definition signalled (c : config) : config :=
  mk_config (<[0%nat := mk_thread Ready false true]> (threads c)) (owner c) (life c).

(** An object that is attached, and one that has just been linked in the kernel. *)
Definition loaded : lifecycle := mk_lifecycle ATTACHED ∅ (Some 1) [].
Definition linking_c : config :=
  run_thread programs kernel 1 0 (start_link "xdp_entry_point" 5 loaded).

Lemma exited_stuck c : exited c = true -> stuck programs kernel c.
Proof. intros He c' []; congruence. Qed.

End SampleThreads.

Import SampleLifeCycle SampleThreads.

Example tearDown_linearizable_witness :
  exists log, Permutation (map fst log) [0; 1]%nat /\
    sequential programs kernel linked log (life c2).
Proof.
  destruct (tearDown_linearizable programs kernel 2 linked c2) as (log & Hp & Hs & _).
  - unfold c2. etrans; apply run_thread_steps.
  - intros [|[|t]] th; vm_compute; intros [= <-]; reflexivity.
  - exists log. split; [exact Hp|exact Hs].
Defined.

Example tearDown_threads_finish_witness :
  ends programs kernel (start 2 linked).
Proof. apply (tearDown_threads_finish programs kernel 2 linked). Defined.


