(* ===== verification/BpfPrograms.v ===== *)
(** * The BPF programs in user space (src/src/programs, src/src/wrappers)

    The wrappers of BPF maps, and the set-up of the programs of the data plane:
    the entry program (UPFProgram), the program of one FAR (FARProgram) and the
    program of one session (SessionProgram).  What libbpf and the kernel answer
    while a program is opened and loaded is a [program_env]. *)
From Stdlib Require Import ZArith Lia List Bool.
From stdpp Require Import base list gmap strings.
From S2P Require Import Prelude Packet BpfInstances FarBpf LifeCycle.
Open Scope Z_scope.
Open Scope upf_scope.

(** ** wrappers/BPFMap.hpp *)

Section BPFMap.
Context {Mp K V : Type} `{BpfMap Mp K V}.

(** [lookup] gives back the code of the kernel: 0 when there is a value. *)
Definition BPFMap_lookup (k : K) : M Mp runtime_error (option V) :=
  gets (fun m => bpf_map_lookup_elem m k).

Definition BPFMap_update (k : K) (v : V) (flags : Z) : M Mp runtime_error Z :=
  let* m := get in
  let '(m', updateReturn) := bpf_map_update_elem m k v flags in
  put m' ;;;
  if updateReturn =? 0 then ret updateReturn else raise MapCannotBeUpdated.

Definition BPFMap_remove (k : K) : M Mp runtime_error Z :=
  let* m := get in
  let '(m', deleteReturn) := bpf_map_delete_elem m k in
  put m' ;;;
  if deleteReturn =? 0 then ret deleteReturn else raise MapCannotBeRemoved.

End BPFMap.

(** ** wrappers/BPFMaps.cpp *)

(** The position of the map called [name] in the skeleton's maps. *)
Fixpoint map_position (name : string) (names : list string) : option nat :=
  match names with
  | [] => None
  | s :: names' =>
      if String.eqb name s then Some 0%nat else option_map S (map_position name names')
  end.

Definition getMap {S} (names : list string) (name : string) : M S runtime_error nat :=
  guard (negb (match names with [] => true | _ => false end)) AssertionFailed ;;;
  of_option (map_position name names) MapNotFound.

(** ** Opening and loading a program *)

(** The answers of setrlimit, of the skeleton's functions, the names of its
    maps, and the value of the state before the first [open]. *)
Record program_env : Type := mk_env {
  uninit_state : ProgramState;
  rlimit_ret : Z;
  opened : option Z;
  map_names : list string;
  load_err : Z;
  attach_err : Z
}.

(** A kernel that opens and loads. *)
Definition env_ok (wanted : list string) (e : program_env) : Prop :=
  rlimit_ret e = 0 /\ opened e <> None /\ load_err e = 0 /\ attach_err e = 0 /\
  forall n, In n wanted -> In n (map_names e).

Fixpoint get_maps {S} (names wanted : list string) : M S runtime_error unit :=
  match wanted with
  | [] => ret tt
  | n :: wanted' => let* _ := getMap names n in get_maps names wanted'
  end.

(** [mpLifeCycle->getBPFSkeleton()->skeleton], then [getMap] on each name. *)
Definition initializeMaps (e : program_env) (wanted : list string) : lc unit :=
  let* s := gets mpSkeleton in
  match s with
  | None => raise NullSkeleton
  | Some _ => get_maps (map_names e) wanted
  end.

(** [open(); initializeMaps(); load(); attach();] *)
Definition open_and_load (e : program_env) (wanted : list string) : lc unit :=
  let* _ := lc_open (rlimit_ret e) (opened e) in
  initializeMaps e wanted ;;;
  lc_load (load_err e) ;;;
  lc_attach (attach_err e).

(** ** The program of one FAR (programs/FARProgram.cpp) *)

Definition far_map_names : list string :=
  ["m_far"; "m_arp_table"; "m_redirect_interfaces"]%string.
Definition upf_map_names : list string :=
  ["m_teid_session"; "m_ueip_session"; "m_next_rule_prog"; "m_next_rule_prog_index"]%string.
Definition session_map_names : list string :=
  ["m_fars"; "m_teid_pdr"; "m_ueip_pdr"; "mc_stats"; "m_redirect_interfaces";
   "m_arp_table"]%string.

Section Programs.
Context {FarMap DevMap ArpMap : Type} `{BpfMap FarMap Z pfcp_far_t_} `{BpfMap DevMap Z Z}.
(** The answer of if_nametoindex: 0 when there is no such interface. *)
Variable if_nametoindex : string -> Z.
(** The programs of a skeleton's object, and the answer of bpf_set_link_xdp_fd. *)
Variable set_link_ret : Z -> Z -> Z.

(** The object, with the programs of its skeleton (by section), the descriptor
    of [far_entry_point] and the maps of its own. *)
Record far_program : Type := mk_far_program {
  mId : Z;
  far_life : lifecycle;
  far_progs : list (string * Z);
  far_fd : Z;
  mpFARMap : FarMap;
  mpEgressInterfaceMap : DevMap;
  mpArpTableMap : ArpMap
}.

(** [mpLifeCycle->...], [mpFARMap->...], and so on. *)
Definition on_far_life {A} (m : lc A) : M far_program runtime_error A :=
  zoom far_life (fun l p => mk_far_program (mId p) l (far_progs p) (far_fd p)
                              (mpFARMap p) (mpEgressInterfaceMap p) (mpArpTableMap p)) m.
Definition on_far_map {A} (m : M FarMap runtime_error A) : M far_program runtime_error A :=
  zoom mpFARMap (fun v p => mk_far_program (mId p) (far_life p) (far_progs p) (far_fd p)
                              v (mpEgressInterfaceMap p) (mpArpTableMap p)) m.
Definition on_egress {A} (m : M DevMap runtime_error A) : M far_program runtime_error A :=
  zoom mpEgressInterfaceMap (fun v p => mk_far_program (mId p) (far_life p) (far_progs p)
                                          (far_fd p) (mpFARMap p) v (mpArpTableMap p)) m.
Definition on_arp {A} (m : M ArpMap runtime_error A) : M far_program runtime_error A :=
  zoom mpArpTableMap (fun v p => mk_far_program (mId p) (far_life p) (far_progs p) (far_fd p)
                                   (mpFARMap p) (mpEgressInterfaceMap p) v) m.

Definition FARProgram_setup (e : program_env) (udpInterface gtpInterface : string)
    : M far_program runtime_error unit :=
  on_far_life (open_and_load e far_map_names) ;;;
  let udpInterfaceIndex := if_nametoindex udpInterface in
  let gtpInterfaceIndex := if_nametoindex gtpInterface in
  let* _ := on_egress (BPFMap_update UPLINK udpInterfaceIndex BPF_ANY) in
  let* _ := on_egress (BPFMap_update DOWNLINK gtpInterfaceIndex BPF_ANY) in
  ret tt.

Definition FARProgram_tearDown : M far_program runtime_error unit :=
  let* progs := gets far_progs in
  on_far_life (lc_tearDown progs set_link_ret).

Definition getFd : M far_program runtime_error Z := gets far_fd.

(** ** The program of one session (programs/SessionProgram.cpp) *)

Record session_program : Type := mk_session_program {
  session_life : lifecycle;
  session_progs : list (string * Z);
  session_egress : DevMap
}.

Definition on_session_life {A} (m : lc A) : M session_program runtime_error A :=
  zoom session_life (fun l p => mk_session_program l (session_progs p) (session_egress p)) m.
Definition on_session_egress {A} (m : M DevMap runtime_error A)
    : M session_program runtime_error A :=
  zoom session_egress (fun v p => mk_session_program (session_life p) (session_progs p) v) m.

Definition SessionProgram_setup (e : program_env) : M session_program runtime_error unit :=
  on_session_life (open_and_load e session_map_names).

Definition SessionProgram_tearDown : M session_program runtime_error unit :=
  let* progs := gets session_progs in
  on_session_life (lc_tearDown progs set_link_ret).

(** ** The entry program (programs/UPFProgram.cpp) *)

Section Upf.
(** The programs of the entry program's object. *)
Variable upf_programs : list (string * Z).

Definition is_empty (s : string) : bool := String.eqb s EmptyString.

Definition UPFProgram_setup (e : program_env) (mGTPInterface mUDPInterface : string) : lc unit :=
  open_and_load e upf_map_names ;;;
  guard (negb (is_empty mUDPInterface || is_empty mGTPInterface)) InterfaceNotDefined ;;;
  lc_link upf_programs set_link_ret "xdp_entry_point" (if_nametoindex mUDPInterface) ;;;
  lc_link upf_programs set_link_ret "xdp_entry_point" (if_nametoindex mGTPInterface).

End Upf.

Section TeidMap.
Context {TeidMap : Type} `{BpfMap TeidMap Z Z}.

Definition updateProgramMap (key fd : Z) : M TeidMap runtime_error unit :=
  let* _ := BPFMap_update key fd BPF_ANY in ret tt.

(** Removes the entry only when it exists. *)
Definition removeProgramMap (key : Z) : M TeidMap runtime_error unit :=
  let* fd := BPFMap_lookup key in
  match fd with
  | Some _ => let* _ := BPFMap_remove (K := Z) (V := Z) key in ret tt
  | None => ret tt
  end.

End TeidMap.

End Programs.
Arguments far_program : clear implicits.
Arguments session_program : clear implicits.
Arguments mk_far_program {FarMap DevMap ArpMap} _ _ _ _ _ _ _.
Arguments mId {FarMap DevMap ArpMap} _.
Arguments far_life {FarMap DevMap ArpMap} _.
Arguments far_progs {FarMap DevMap ArpMap} _.
Arguments far_fd {FarMap DevMap ArpMap} _.
Arguments mpFARMap {FarMap DevMap ArpMap} _.
Arguments mpEgressInterfaceMap {FarMap DevMap ArpMap} _.
Arguments mpArpTableMap {FarMap DevMap ArpMap} _.
Arguments mk_session_program {DevMap} _ _ _.
Arguments session_life {DevMap} _.
Arguments session_progs {DevMap} _.
Arguments session_egress {DevMap} _.

(** ** Lemmas *)

Lemma BPFMap_update_ok {Mp K V} `{BpfMap Mp K V} (m m' : Mp) (k : K) (v : V) fl :
  bpf_map_update_elem m k v fl = (m', 0) -> BPFMap_update k v fl m = (Ok 0, m').
Proof. intros Hu. unfold BPFMap_update, bind, get, put. now rewrite Hu. Qed.

Lemma BPFMap_update_err {Mp K V} `{BpfMap Mp K V} (m m' : Mp) (k : K) (v : V) fl r :
  bpf_map_update_elem m k v fl = (m', r) -> r <> 0 ->
  BPFMap_update k v fl m = (Err MapCannotBeUpdated, m').
Proof.
  intros Hu Hr. unfold BPFMap_update, bind, get, put. rewrite Hu.
  now rewrite (proj2 (Z.eqb_neq _ _) Hr).
Qed.

Lemma BPFMap_update_inv {Mp K V} `{BpfMap Mp K V} (m m' : Mp) (k : K) (v : V) fl r :
  BPFMap_update k v fl m = (Ok r, m') -> bpf_map_update_elem m k v fl = (m', 0).
Proof.
  unfold BPFMap_update, bind, get, put. destruct (bpf_map_update_elem m k v fl) as [m1 r1].
  destruct (Z.eqb_spec r1 0) as [->|]; unfold ret, raise; congruence.
Qed.

Lemma BPFMap_update_fail {Mp K V} `{BpfMapLaws Mp K V} (m m' : Mp) (k : K) (v : V) fl e :
  BPFMap_update k v fl m = (Err e, m') -> m' = m /\ e = MapCannotBeUpdated.
Proof.
  unfold BPFMap_update, bind, get, put.
  destruct (bpf_map_update_elem m k v fl) as [m1 r1] eqn:Hu.
  destruct (Z.eqb_spec r1 0) as [->|Hr]; unfold ret, raise; [discriminate|].
  intros [= <- <-]. apply map_update_fail in Hu; auto.
Qed.

Lemma BPFMap_remove_ok {Mp K V} `{BpfMap Mp K V} (m m' : Mp) (k : K) :
  bpf_map_delete_elem m k = (m', 0) -> BPFMap_remove k m = (Ok 0, m').
Proof. intros Hu. unfold BPFMap_remove, bind, get, put. now rewrite Hu. Qed.

Lemma BPFMap_remove_absent {Mp K V} `{BpfMapLaws Mp K V} (m : Mp) (k : K) :
  bpf_map_lookup_elem m k = None -> BPFMap_remove k m = (Err MapCannotBeRemoved, m).
Proof.
  intros Hn. unfold BPFMap_remove, bind, get, put.
  destruct (bpf_map_delete_elem m k) as [m1 r1] eqn:Hu.
  pose proof (map_delete_absent _ _ _ _ Hu Hn) as Hr.
  rewrite (proj2 (Z.eqb_neq _ _) Hr), (map_delete_fail _ _ _ _ Hu Hr). reflexivity.
Qed.

Lemma map_position_some name names :
  In name names -> exists i, map_position name names = Some i.
Proof.
  induction names as [|s names IH]; [intros []|]. cbn.
  destruct (String.eqb_spec name s) as [->|Hn]; [eauto|].
  intros [->|Hi]; [done|]. destruct (IH Hi) as [i ->]. cbn. eauto.
Qed.

Lemma get_maps_ok {S} names wanted (s : S) :
  (forall n, In n wanted -> In n names) -> get_maps names wanted s = (Ok tt, s).
Proof.
  induction wanted as [|n wanted IH]; intros Hi; [done|].
  destruct (map_position_some n names) as [i Hp]; [apply Hi; now left|].
  cbn [get_maps]. unfold getMap, bind. rewrite Hp.
  destruct names; [discriminate|]. cbn. apply IH. intros k Hk. apply Hi. now right.
Qed.

Lemma open_and_load_ok e wanted l :
  env_ok wanted e ->
  open_and_load e wanted l =
    (Ok tt, mk_lifecycle ATTACHED (mSectionLinkInterfacesMap l) (opened e) (calls l)).
Proof.
  intros (Hr & Ho & Hl & Ha & Hn). destruct e as [u r o names le ae]. cbn in *. subst.
  unfold open_and_load, initializeMaps. cbn [rlimit_ret opened load_err attach_err map_names].
  destruct o as [sk|]; [|done].
  unfold lc_open, lc_load, lc_attach, bind, set_skeleton, set_state, modify, gets, ret, guard.
  cbn -[get_maps]. rewrite get_maps_ok by done. reflexivity.
Qed.

Lemma FARProgram_setup_ok {FarMap DevMap ArpMap} `{BpfMap DevMap Z Z} nametoindex e udp gtp
    (p : far_program FarMap DevMap ArpMap) d1 d2 :
  env_ok far_map_names e ->
  bpf_map_update_elem (mpEgressInterfaceMap p) UPLINK (nametoindex udp) BPF_ANY = (d1, 0) ->
  bpf_map_update_elem d1 DOWNLINK (nametoindex gtp) BPF_ANY = (d2, 0) ->
  FARProgram_setup nametoindex e udp gtp p =
    (Ok tt, mk_far_program (mId p)
              (mk_lifecycle ATTACHED (mSectionLinkInterfacesMap (far_life p)) (opened e)
                 (calls (far_life p)))
              (far_progs p) (far_fd p) (mpFARMap p) d2 (mpArpTableMap p)).
Proof.
  intros He H1 H2. unfold FARProgram_setup, on_far_life, on_egress.
  erewrite bind_ok by (apply zoom_eq, open_and_load_ok, He).
  erewrite bind_ok by (apply zoom_eq, BPFMap_update_ok; exact H1).
  erewrite bind_ok by (apply zoom_eq, BPFMap_update_ok; exact H2).
  reflexivity.
Qed.

Lemma bind_guard_ok {S E A} b (e : E) (k : unit -> M S E A) s a s' :
  bind (guard b e) k s = (Ok a, s') -> b = true /\ k tt s = (Ok a, s').
Proof. destruct b; cbn; [auto|discriminate]. Qed.

Lemma map_position_in name names i : map_position name names = Some i -> In name names.
Proof.
  revert i. induction names as [|s names IH]; intros i; cbn; [discriminate|].
  destruct (String.eqb_spec name s) as [->|]; [auto|].
  destruct (map_position name names); [eauto|discriminate].
Qed.

Lemma get_maps_inv {S} names wanted (s s' : S) :
  get_maps names wanted s = (Ok tt, s') -> s' = s /\ forall n, In n wanted -> In n names.
Proof.
  revert s. induction wanted as [|n wanted IH]; intros s; [intros [= <-]; split; [done|intros ? []]|].
  intros Hg. cbn in Hg. apply bind_ok_inv in Hg as (i & s1 & Hg & Hw). unfold getMap in Hg.
  apply bind_guard_ok in Hg as [_ Hg].
  destruct (map_position n names) eqn:Hn; [|discriminate]. injection Hg as _ <-.
  apply IH in Hw as [-> Hw]. split; [done|]. intros k [<-|Hk]; [|auto].
  eapply map_position_in; exact Hn.
Qed.

(** A set-up that goes through had every answer it needed. *)
Lemma open_and_load_inv e wanted l l' :
  open_and_load e wanted l = (Ok tt, l') -> env_ok wanted e.
Proof.
  unfold open_and_load, lc_open, initializeMaps, lc_load, lc_attach. intros Ho.
  apply bind_ok_inv in Ho as (o & l1 & H1 & Ho).
  apply bind_guard_ok in H1 as [Hr H1]. apply Z.eqb_eq in Hr.
  apply bind_ok_inv in H1 as (? & l2 & [= _ <-] & H1).
  apply bind_ok_inv in Ho as ([] & l3 & H2 & Ho).
  apply bind_ok_inv in H2 as (s & l4 & [= <- <-] & H2).
  assert (mpSkeleton l1 = opened e) as Hs.
  { destruct (opened e); cbn in H1; now injection H1 as _ <-. }
  rewrite Hs in H2. destruct (opened e) as [sk|] eqn:He; [|discriminate].
  apply get_maps_inv in H2 as [-> Hn].
  apply bind_ok_inv in Ho as ([] & l5 & H3 & H4).
  destruct (Z.eqb_spec (load_err e) 0) as [Hl|]; [|discriminate].
  destruct (Z.eqb_spec (attach_err e) 0) as [Ha|]; [|discriminate].
  split; [done|]. split; [congruence|]. auto.
Qed.

Lemma zoom_ok_inv {S T E A} (f : T -> S) (g : S -> T -> T) (m : M S E A) t a t' :
  zoom f g m t = (Ok a, t') -> exists s, m (f t) = (Ok a, s) /\ t' = g s t.
Proof. unfold zoom. destruct (m (f t)) as [r s]. intros [= -> <-]. eauto. Qed.

Lemma FARProgram_setup_inv {FarMap DevMap ArpMap} `{BpfMap DevMap Z Z} nametoindex e udp gtp
    (p p' : far_program FarMap DevMap ArpMap) :
  FARProgram_setup nametoindex e udp gtp p = (Ok tt, p') ->
  env_ok far_map_names e /\ exists d1 d2,
    bpf_map_update_elem (mpEgressInterfaceMap p) UPLINK (nametoindex udp) BPF_ANY = (d1, 0) /\
    bpf_map_update_elem d1 DOWNLINK (nametoindex gtp) BPF_ANY = (d2, 0).
Proof.
  unfold FARProgram_setup, on_far_life, on_egress. intros Hs.
  apply bind_ok_inv in Hs as ([] & p1 & H1 & Hs).
  apply zoom_ok_inv in H1 as (l1 & H1 & ->). apply open_and_load_inv in H1.
  apply bind_ok_inv in Hs as (r1 & p2 & H2 & Hs).
  apply zoom_ok_inv in H2 as (d1 & H2 & ->). apply BPFMap_update_inv in H2.
  apply bind_ok_inv in Hs as (r2 & p3 & H3 & _).
  apply zoom_ok_inv in H3 as (d2 & H3 & ->). apply BPFMap_update_inv in H3.
  split; [done|]. exists d1, d2. split; [exact H2|exact H3].
Qed.

(** *** What a set-up can end with *)

(** The answers of the system and of libbpf that a set-up passes on. *)
Definition kernel_refusal (e : runtime_error) : Prop :=
  match e with
  | CannotChangeLimit | NullSkeleton | AssertionFailed | MapNotFound | CannotLoad _
  | CannotAttach _ | MapCannotBeUpdated => True
  | _ => False
  end.

Lemma get_maps_throws {S} names wanted : throws kernel_refusal (get_maps (S := S) names wanted).
Proof.
  induction wanted as [|n wanted IH]; cbn [get_maps]; [throws|]. unfold getMap. throws; done.
Qed.

Lemma open_and_load_throws e wanted : throws kernel_refusal (open_and_load e wanted).
Proof.
  unfold open_and_load, lc_open, initializeMaps, lc_load, lc_attach, set_skeleton, emit_call,
    set_state. throws; try done.
  - destruct (opened e); throws.
  - destruct a0; [apply get_maps_throws|now throws].
  - destruct (_ =? 0); throws; done.
  - destruct (_ =? 0); throws; done.
Qed.

Lemma BPFMap_update_throws {Mp K V} `{BpfMap Mp K V} (k : K) (v : V) fl :
  throws kernel_refusal (BPFMap_update (Mp := Mp) k v fl).
Proof.
  intros m e m'. unfold BPFMap_update, bind, get, put. destruct (bpf_map_update_elem m k v fl).
  destruct (_ =? 0); [discriminate|]. now intros [= <- _].
Qed.

Lemma FARProgram_setup_throws {FarMap DevMap ArpMap} `{BpfMap DevMap Z Z} nametoindex e udp gtp :
  throws kernel_refusal (FARProgram_setup (FarMap := FarMap) (ArpMap := ArpMap) nametoindex e udp gtp).
Proof.
  unfold FARProgram_setup, on_far_life, on_egress. cbv zeta.
  throws; first [apply open_and_load_throws|apply BPFMap_update_throws].
Qed.

(** ** Properties *)

Section UpfProperties.
Variable if_nametoindex : string -> Z.
Variable set_link_ret : Z -> Z -> Z.

(** Setting the entry program up: with both interfaces there, either the
    program is linked to the UDP and then to the GTP interface, and a later
    tear-down unlinks both and destroys the object once; or, when the GTP
    interface refuses the link, the UDP interface is unlinked again, the object
    is destroyed and the set-up ends with an exception. *)
Theorem upf_setup_links_both e gtp udp fd uninit :
  let u := if_nametoindex udp in
  let g := if_nametoindex gtp in
  let programs := [("xdp_entry_point"%string, fd)] in
  let setup := UPFProgram_setup if_nametoindex set_link_ret programs e gtp udp
                 (new_lifecycle uninit) in
  env_ok upf_map_names e -> udp <> EmptyString -> gtp <> EmptyString -> u <> 0 -> g <> 0 ->
  (forall i, set_link_ret i (-1) = 0) -> 0 <= set_link_ret u fd ->
  (0 <= set_link_ret g fd ->
   exists l1 l2, setup = (Ok tt, l1) /\ mState l1 = LINKED /\
     calls l1 = [SetLink g fd; SetLink u fd] /\
     lc_tearDown programs set_link_ret l1 = (Ok tt, l2) /\ mState l2 = IDLE /\
     calls l2 = [Destroy (opened e); SetLink g (-1); SetLink u (-1);
                 SetLink g fd; SetLink u fd]) /\
  (set_link_ret g fd < 0 ->
   exists l1, setup = (Err LinkFailed, l1) /\ mState l1 = IDLE /\
     calls l1 = [Destroy (opened e); SetLink u (-1); SetLink g fd; SetLink u fd]).
Proof.
  intros u g programs setup He Hu Hg Hui Hgi Hun Hul.
  assert (is_empty udp || is_empty gtp = false) as Hemp.
  { unfold is_empty. now rewrite (proj2 (String.eqb_neq _ _) Hu),
      (proj2 (String.eqb_neq _ _) Hg). }
  unfold setup, UPFProgram_setup.
  erewrite bind_ok by (apply open_and_load_ok, He). rewrite Hemp. cbn [negb].
  rewrite guard_true, bind_ret_l. fold u g.
  erewrite bind_ok by (apply (lc_link_linked _ _ _ _ fd); done).
  split; intros Hgl.
  - rewrite (lc_link_linked _ _ _ _ fd) by done.
    do 2 eexists. split; [reflexivity|]. split; [done|]. split; [done|].
    rewrite lc_tearDown_eq by done. split; [reflexivity|]. done.
  - edestruct (lc_link_refused programs set_link_ret "xdp_entry_point"%string g fd)
      as (l1 & Hl1 & Ht & Hst); [done..|].
    exists l1. split; [exact Hl1|]. split; [exact Hst|].
    rewrite lc_tearDown_eq in Ht by done. now injection Ht as <-.
Qed.

End UpfProperties.

(** ** Witness *)

Module SamplePrograms.

Definition nametoindex (s : string) : Z :=
  if String.eqb s "eth0" then 3 else if String.eqb s "eth1" then 4 else 0.
Definition env : program_env :=
  mk_env IDLE 0 (Some 5) (upf_map_names ++ far_map_names ++ session_map_names) 0 0.
Definition kernel_ok (i fd : Z) : Z := if (i =? 4) && (fd =? 9) then -16 else 0.

Lemma kernel_ok_unlinks i : kernel_ok i (-1) = 0.
Proof. unfold kernel_ok. rewrite andb_false_r. reflexivity. Qed.

Lemma env_fine : env_ok upf_map_names env /\ env_ok far_map_names env /\
  env_ok session_map_names env.
Proof.
  assert (opened env <> None) by discriminate.
  split; [|split]; (split; [done|split; [done|split; [done|split; [done|]]]]);
    intros n Hn; cbn in Hn; cbn; intuition.
Qed.

End SamplePrograms.

Import SamplePrograms.

Example upf_setup_links_both_witness :
  (exists l1, UPFProgram_setup nametoindex kernel_ok [("xdp_entry_point"%string, 7)] env
     "eth1" "eth0" (new_lifecycle IDLE) = (Ok tt, l1) /\ mState l1 = LINKED) /\
  (exists l1, UPFProgram_setup nametoindex kernel_ok [("xdp_entry_point"%string, 9)] env
     "eth1" "eth0" (new_lifecycle IDLE) = (Err LinkFailed, l1) /\ mState l1 = IDLE).
Proof.
  split.
  - destruct (upf_setup_links_both nametoindex kernel_ok env "eth1" "eth0" 7 IDLE
      (proj1 env_fine) ltac:(discriminate) ltac:(discriminate) ltac:(discriminate)
      ltac:(discriminate) kernel_ok_unlinks ltac:(vm_compute; discriminate)) as [Hok _].
    destruct (Hok ltac:(vm_compute; discriminate)) as (l1 & l2 & H1 & H2 & _).
    exists l1. split; assumption.
  - destruct (upf_setup_links_both nametoindex kernel_ok env "eth1" "eth0" 9 IDLE
      (proj1 env_fine) ltac:(discriminate) ltac:(discriminate) ltac:(discriminate)
      ltac:(discriminate) kernel_ok_unlinks ltac:(vm_compute; discriminate)) as [_ Hno].
    destruct (Hno eq_refl) as (l1 & H1 & H2 & _).
    exists l1. split; assumption.
Defined.
