(* ===== verification/Manager.v ===== *)
(** * The control of the data plane (src/src: UserPlaneComponent.cpp,
    SessionManager.cpp, SessionProgramManager.cpp, SessionPrograms.cpp)

    The singletons, their tables and the objects they share are one record,
    [component].  The FAR programs and the sessions are objects behind shared
    pointers: they live in a store, and a pointer is a position of the store.
    A program pipeline is freed when its last pointer goes, that is, when it
    leaves the table. *)
From Stdlib Require Import ZArith Lia List Bool Sorted Permutation.
From stdpp Require Import base list gmap strings sorting.
From S2P Require Import Prelude StdSort Packet BpfInstances UpfXdp FarBpf PfcpTypes PfcpGroups.
From S2P Require Import PfcpRules PfcpSession LifeCycle BpfPrograms.
Open Scope Z_scope.
Open Scope upf_scope.

(** [EMPTY_SLOT], and the size of the array of programs. *)
Definition EMPTY_SLOT : Z := -1.
Definition PROGRAM_ARRAY_SIZE : nat := 10.

Section Manager.
Context {IdxMap ProgMap FarMap DevMap ArpMap TeidMap : Type}.
Context `{BpfMap IdxMap next_rule_prog_index_key Z} `{BpfMap ProgMap Z Z}
  `{BpfMap FarMap Z pfcp_far_t_} `{BpfMap DevMap Z Z} `{BpfMap TeidMap Z Z}
  `{BpfMap ArpMap Z (list Z)} `{StdSort}.
Variable if_nametoindex : string -> Z.
Variable set_link_ret : Z -> Z -> Z.

(** ** Data *)

(** UPFProgram: the life cycle and the maps of the entry program. *)
Record upf_program : Type := mk_upf_program {
  upf_life : lifecycle;
  upf_progs : list (string * Z);
  mpTeidSessionMap : TeidMap;
  mpNextProgRuleIndexMap : IdxMap;
  mpNextProgRuleMap : ProgMap
}.

(** SessionProgramManager; a SessionPrograms object is a key and a pointer to
    a FAR program.  [mpOnNewSessionProgramObserver]: whether it is set. *)
Record program_manager : Type := mk_program_manager {
  mSessionProgramsMap : gmap Z (next_rule_prog_index_key * nat);
  mSessionProgramMap : gmap Z (session_program DevMap);
  mpOnNewSessionProgramObserver : bool;
  mProgramArray : list Z
}.

Record component : Type := mk_component {
  mGTPInterface : string;
  mUDPInterface : string;
  mpUPFProgram : upf_program;
  manager : program_manager;
  mSeidToSession : gmap Z nat;
  sIdCounter : Z;
  far_objects : list (far_program FarMap DevMap ArpMap);
  session_objects : list pfcp_session
}.

Definition comp (A : Type) : Type := M component runtime_error A.

Definition with_upf (u : upf_program) (c : component) : component :=
  mk_component (mGTPInterface c) (mUDPInterface c) u (manager c) (mSeidToSession c)
    (sIdCounter c) (far_objects c) (session_objects c).
Definition with_manager (m : program_manager) (c : component) : component :=
  mk_component (mGTPInterface c) (mUDPInterface c) (mpUPFProgram c) m (mSeidToSession c)
    (sIdCounter c) (far_objects c) (session_objects c).
Definition with_seids (m : gmap Z nat) (c : component) : component :=
  mk_component (mGTPInterface c) (mUDPInterface c) (mpUPFProgram c) (manager c) m
    (sIdCounter c) (far_objects c) (session_objects c).
Definition with_far_objects (n : Z) (l : list (far_program FarMap DevMap ArpMap)) (c : component) : component :=
  mk_component (mGTPInterface c) (mUDPInterface c) (mpUPFProgram c) (manager c)
    (mSeidToSession c) n l (session_objects c).
Definition with_session_objects (l : list pfcp_session) (c : component) : component :=
  mk_component (mGTPInterface c) (mUDPInterface c) (mpUPFProgram c) (manager c)
    (mSeidToSession c) (sIdCounter c) (far_objects c) l.

Definition with_programs (m : gmap Z (next_rule_prog_index_key * nat)) (c : component)
    : component :=
  with_manager (mk_program_manager m (mSessionProgramMap (manager c))
    (mpOnNewSessionProgramObserver (manager c)) (mProgramArray (manager c))) c.
Definition with_session_programs (m : gmap Z (session_program DevMap)) (c : component) : component :=
  with_manager (mk_program_manager (mSessionProgramsMap (manager c)) m
    (mpOnNewSessionProgramObserver (manager c)) (mProgramArray (manager c))) c.

Definition getNextProgRuleIndexMap (c : component) : IdxMap :=
  mpNextProgRuleIndexMap (mpUPFProgram c).
Definition getNextProgRuleMap (c : component) : ProgMap := mpNextProgRuleMap (mpUPFProgram c).
Definition getTeidSessionMap (c : component) : TeidMap := mpTeidSessionMap (mpUPFProgram c).

Definition with_index (v : IdxMap) (c : component) : component :=
  let u := mpUPFProgram c in
  with_upf (mk_upf_program (upf_life u) (upf_progs u) (mpTeidSessionMap u) v
              (mpNextProgRuleMap u)) c.
Definition with_prog (v : ProgMap) (c : component) : component :=
  let u := mpUPFProgram c in
  with_upf (mk_upf_program (upf_life u) (upf_progs u) (mpTeidSessionMap u)
              (mpNextProgRuleIndexMap u) v) c.

Definition on_index {A} (m : M IdxMap runtime_error A) : comp A :=
  zoom getNextProgRuleIndexMap with_index m.
Definition on_prog {A} (m : M ProgMap runtime_error A) : comp A :=
  zoom getNextProgRuleMap with_prog m.
Definition on_teid {A} (m : M TeidMap runtime_error A) : comp A :=
  zoom getTeidSessionMap
    (fun v c => let u := mpUPFProgram c in
       with_upf (mk_upf_program (upf_life u) (upf_progs u) v (mpNextProgRuleIndexMap u)
                   (mpNextProgRuleMap u)) c) m.
Definition on_upf_life {A} (m : lc A) : comp A :=
  zoom (fun c => upf_life (mpUPFProgram c))
    (fun v c => let u := mpUPFProgram c in
       with_upf (mk_upf_program v (upf_progs u) (mpTeidSessionMap u)
                   (mpNextProgRuleIndexMap u) (mpNextProgRuleMap u)) c) m.

(** A method of the FAR program behind the pointer [p]. *)
Definition on_far_object {A} (p : nat) (m : M (far_program FarMap DevMap ArpMap) runtime_error A) : comp A :=
  fun c =>
    match far_objects c !! p with
    | None => (Err NullSkeleton, c)
    | Some o =>
        let '(r, o') := m o in
        (r, with_far_objects (sIdCounter c) (<[p := o']> (far_objects c)) c)
    end.

(** What the kernel gives to a new FAR program: its answers, the programs of
    the object, the descriptor of [far_entry_point] and the maps. *)
Record far_env : Type := mk_far_env {
  fe_env : program_env;
  fe_progs : list (string * Z);
  fe_fd : Z;
  fe_far : FarMap;
  fe_egress : DevMap;
  fe_arp : ArpMap
}.

(** ** SessionProgramManager.cpp: pipelines *)

(** [std::make_shared<FARProgram>()]: BPFProgram gives the next identifier. *)
Definition new_FARProgram (e : far_env) : comp nat :=
  let* c := get in
  let o := mk_far_program (sIdCounter c) (new_lifecycle (uninit_state (fe_env e)))
             (fe_progs e) (fe_fd e) (fe_far e) (fe_egress e) (fe_arp e) in
  put (with_far_objects (u32 (sIdCounter c + 1)) (far_objects c ++ [o]) c) ;;;
  ret (length (far_objects c)).

(** The FAR as the data plane reads it; the two kinds of [apply_action] have
    the same layout. *)
Definition far_record (f : pfcp_far) : pfcp_far_t_ :=
  let fwd := second (pfcp_far_forwarding_parameters f) in
  let ohc := second (forwarding_parameters_outer_header_creation fwd) in
  let a := pfcp_far_apply_action f in
  mk_far (PfcpTypes.far_id (pfcp_far_far_id f))
    (mk_apply_action (apply_action_spare a) (Z.b2z (apply_action_dupl a))
       (Z.b2z (apply_action_nocp a)) (Z.b2z (apply_action_buff a))
       (Z.b2z (apply_action_forw a)) (Z.b2z (apply_action_drop a)))
    (mk_fwd
       (destination_interface_interface_value
          (second (forwarding_parameters_destination_interface fwd)))
       (mk_ohc (outer_header_creation_outer_header_creation_description ohc)
          (outer_header_creation_teid ohc) (outer_header_creation_ipv4_address ohc)
          (outer_header_creation_port_number ohc))).

(** ~SessionPrograms *)
Definition release_programs (o : option (next_rule_prog_index_key * nat)) : comp unit :=
  match o with
  | None => ret tt
  | Some (_, p) => on_far_object p (FARProgram_tearDown set_link_ret)
  end.

(** [mSessionProgramsMap[seid] = ...]: a pipeline that was there is released. *)
Definition store_programs (seid : Z) (key : next_rule_prog_index_key) (p : nat) : comp unit :=
  let* c := get in
  let m := mSessionProgramsMap (manager c) in
  put (with_programs (<[seid := (key, p)]> m) c) ;;;
  release_programs (m !! seid).

Definition createPipeline (e : far_env) (seid teid sourceInterface ueIpAddress : Z)
    (pFar : pfcp_far) : comp unit :=
  let key := mk_key teid sourceInterface ueIpAddress in
  let* p := new_FARProgram e in
  let* c := get in
  on_far_object p
    (FARProgram_setup if_nametoindex (fe_env e) (mUDPInterface c) (mGTPInterface c)) ;;;
  let* id := on_far_object p (gets mId) in
  let* fd := on_far_object p getFd in
  let* _ := on_index (BPFMap_update key id BPF_ANY) in
  let* _ := on_prog (BPFMap_update id fd BPF_ANY) in
  let* _ := on_far_object p (on_far_map (BPFMap_update 0 (far_record pFar) BPF_ANY)) in
  store_programs seid key p.

Definition removePipeline (seid : Z) : comp unit :=
  let* c := get in
  match mSessionProgramsMap (manager c) !! seid with
  | None => raise SessionDoesNotExist
  | Some (key, p) =>
      release_programs (Some (key, p)) ;;;
      modify (fun c => with_programs (delete seid (mSessionProgramsMap (manager c))) c) ;;;
      let* _ := on_index (BPFMap_remove (V := Z) key) in ret tt
  end.

Definition findSessionPrograms (seid : Z) (c : component)
    : option (next_rule_prog_index_key * nat) :=
  mSessionProgramsMap (manager c) !! seid.

(** [pSessionPrograms->getFARProgram()->getArpTableMap()->update(...)] on what
    [findSessionPrograms] gives, which may be the null pointer. *)
Definition store_arp (programs : option (next_rule_prog_index_key * nat)) (ip : Z)
    (mac : list Z) : comp unit :=
  match programs with
  | None => raise NullSkeleton
  | Some (_, p) =>
      let* _ := on_far_object p (on_arp (BPFMap_update ip mac BPF_ANY)) in ret tt
  end.

(** ** SessionProgramManager.cpp: programs of sessions *)

(** [findSessionProgram]: the null pointer when there is none. *)
Definition findSessionProgram (seid : Z) (c : component) : option (session_program DevMap) :=
  mSessionProgramMap (manager c) !! seid.

(** [p0]: the new object, its maps as the kernel creates them. *)
Definition create (e : program_env) (p0 : session_program DevMap) (seid : Z) : comp unit :=
  let* c := get in
  guard (negb (match mSessionProgramMap (manager c) !! seid with
               | Some _ => true | None => false end)) SessionAlreadyExists ;;;
  let udpInterfaceIndex := if_nametoindex (mUDPInterface c) in
  let gtpInterfaceIndex := if_nametoindex (mGTPInterface c) in
  let '(r, p) :=
    (SessionProgram_setup e ;;;
     let* _ := on_session_egress (BPFMap_update UPLINK udpInterfaceIndex BPF_ANY) in
     let* _ := on_session_egress (BPFMap_update DOWNLINK gtpInterfaceIndex BPF_ANY) in
     ret tt) p0 in
  match r with
  | Err err => raise err
  | Ok _ =>
      modify (fun c => with_session_programs (<[seid := p]> (mSessionProgramMap (manager c))) c)
  end.

(** [it->second->tearDown()] on the program of [seid]. *)
Definition tearDown_session (seid : Z) : comp unit :=
  let* c := get in
  match mSessionProgramMap (manager c) !! seid with
  | None => ret tt
  | Some p =>
      let '(r, p') := SessionProgram_tearDown set_link_ret p in
      modify (fun c =>
        with_session_programs (<[seid := p']> (mSessionProgramMap (manager c))) c) ;;;
      match r with Err err => raise err | Ok _ => ret tt end
  end.

Definition remove (seid : Z) : comp unit :=
  let* c := get in
  match findSessionProgram seid c with
  | None => raise SessionDoesNotExist
  | Some _ =>
      tearDown_session seid ;;;
      modify (fun c => with_session_programs
                         (delete seid (mSessionProgramMap (manager c))) c)
  end.

(** UserPlaneComponent::onDestroySessionProgram *)
Definition onDestroySessionProgram (programId : Z) : comp unit :=
  on_teid (removeProgramMap programId).

(** UserPlaneComponent::onNewSessionProgram *)
Definition onNewSessionProgram (programId fileDescriptor : Z) : comp unit :=
  on_teid (updateProgramMap programId fileDescriptor).

(** Calls a method of the observer, which may not have been set. *)
Fixpoint removeAll_loop (seids : list Z) : comp unit :=
  match seids with
  | [] => ret tt
  | seid :: seids' =>
      tearDown_session seid ;;;
      let* c := get in
      guard (mpOnNewSessionProgramObserver (manager c)) NullObserver ;;;
      onDestroySessionProgram seid ;;;
      removeAll_loop seids'
  end.

(** A std::map is walked by increasing keys. *)
Definition keys_in_order {V} (m : gmap Z V) : list Z := merge_sort Z.le (map fst (map_to_list m)).

Definition removeAll : comp unit :=
  let* c := get in
  removeAll_loop (keys_in_order (mSessionProgramMap (manager c))) ;;;
  modify (with_session_programs ∅).

Definition setOnNewSessionObserver (o : bool) : comp unit :=
  modify (fun c => let m := manager c in
    with_manager (mk_program_manager (mSessionProgramsMap m) (mSessionProgramMap m) o
                    (mProgramArray m)) c).

(** The constructor's table, and the first empty position of it. *)
Definition new_program_manager : program_manager :=
  mk_program_manager ∅ ∅ false (repeat EMPTY_SLOT PROGRAM_ARRAY_SIZE).

Fixpoint find_slot (l : list Z) (i : Z) : option Z :=
  match l with
  | [] => None
  | a :: l' => if a =? EMPTY_SLOT then Some i else find_slot l' (i + 1)
  end.

Definition getEmptySlot : comp Z :=
  let* c := get in of_option (find_slot (mProgramArray (manager c)) 0) NoSpaceAvailable.

(** ** SessionManager.cpp *)

(** [precedence_t] has no constructor: without a precedence the local keeps
    whatever value the memory has, [uninit]. *)
Definition precedence_of (uninit : Z) (p : pfcp_pdr) : Z :=
  match get_ie (T := precedence_t) p with
  | Some v => precedence v
  | None => uninit
  end.

Definition comparePDR (uninit1 uninit2 : Z) (pFirst pSecond : pfcp_pdr) : bool :=
  precedence_of uninit1 pFirst <? precedence_of uninit2 pSecond.

(** [pSession->pdrs], sorted in place, of the session behind the pointer [r]. *)
Definition sorted_session (uninit1 uninit2 : Z) (s : pfcp_session) : pfcp_session :=
  with_pdrs (std_sort (comparePDR uninit1 uninit2) (pdrs s)) s.

Definition sort_pdrs (uninit1 uninit2 : Z) (r : nat) : comp pfcp_session :=
  let* c := get in
  let* s := of_option (session_objects c !! r) NullSkeleton in
  let s' := sorted_session uninit1 uninit2 s in
  put (with_session_objects (<[r := s']> (session_objects c)) c) ;;;
  ret s'.

(** What the first PDR gives: TEID, source interface, UE address. *)
Definition pdr_fields (p : pfcp_pdr) : option (fteid_t * source_interface_t * ue_ip_address_t) :=
  match get_ie (T := pdi) p with
  | None => None
  | Some d =>
      match get_ie (T := fteid_t) d, get_ie (T := source_interface_t) d,
            get_ie (T := ue_ip_address_t) d with
      | Some f, Some i, Some a => Some (f, i, a)
      | _, _, _ => None
      end
  end.

Definition pdr_far (p : pfcp_pdr) (s : pfcp_session) : option pfcp_far :=
  match get_ie (T := far_id_t) p with
  | None => None
  | Some i => get_far (PfcpTypes.far_id i) s
  end.

Definition createBPFSession (uninit1 uninit2 : Z) (e : far_env) (r : nat) : comp unit :=
  let* s := sort_pdrs uninit1 uninit2 r in
  match pdrs s with
  | [] => raise NoPdrInSession
  | pdrHighPriority :: _ =>
      let* (fteid, sourceInterface, ueIpAddress) :=
        of_option (pdr_fields pdrHighPriority) NoFieldsAvailable in
      let* pFar := of_option (pdr_far pdrHighPriority s) NoFieldsAvailable in
      createPipeline e (u32 (get_up_seid s)) (fteid_teid fteid)
        (source_interface_interface_value sourceInterface)
        (ue_ip_address_ipv4_address ueIpAddress) pFar ;;;
      modify (fun c => with_seids (<[get_up_seid s := r]> (mSeidToSession c)) c)
  end.

Definition removeBPFSession (seid : Z) : comp unit :=
  let* c := get in
  match mSeidToSession c !! seid with
  | None => raise SessionDoesNotExist
  | Some _ => removePipeline (u32 seid)
  end.

Definition createSession (e : program_env) (p0 : session_program DevMap) (seid : Z) : comp unit :=
  create e p0 (u32 seid).

Definition removeSession (seid : Z) : comp unit := remove (u32 seid).

(** ** UserPlaneComponent.cpp *)

(** [setup]: a new entry program (its object [u0]) and a new session manager. *)
Definition UserPlaneComponent_setup (e : program_env) (u0 : upf_program)
    (gtpInterface udpInterface : string) : comp unit :=
  modify (fun c => mk_component gtpInterface udpInterface u0 (manager c) (mSeidToSession c)
                     (sIdCounter c) (far_objects c) (session_objects c)) ;;;
  on_upf_life (UPFProgram_setup if_nametoindex set_link_ret (upf_progs u0) e gtpInterface
                 udpInterface) ;;;
  modify (with_seids ∅).

Definition UserPlaneComponent_tearDown : comp unit :=
  let* c := get in
  on_upf_life (lc_tearDown (upf_progs (mpUPFProgram c)) set_link_ret) ;;;
  removeAll.

(** ** Lemmas *)

Context `{!BpfMapLaws IdxMap next_rule_prog_index_key Z} `{!BpfMapLaws ProgMap Z Z}
  `{!BpfMapLaws FarMap Z pfcp_far_t_} `{!DevMapLaws DevMap}.
Context `{ProgArray ProgMap} `{!ProgArrayLaws ProgMap} `{!StdSortLaws}.

Lemma on_far_object_eq {A} p (m : M (far_program FarMap DevMap ArpMap) runtime_error A) c o r o' :
  far_objects c !! p = Some o -> m o = (r, o') ->
  on_far_object p m c =
    (r, with_far_objects (sIdCounter c) (<[p := o']> (far_objects c)) c).
Proof. intros Hp Hm. unfold on_far_object. now rewrite Hp, Hm. Qed.

(** Reading through a pointer changes nothing. *)
Lemma on_far_object_gets {A} p (f : far_program FarMap DevMap ArpMap -> A) c o :
  far_objects c !! p = Some o -> on_far_object p (gets f) c = (Ok (f o), c).
Proof.
  intros Hp. rewrite (on_far_object_eq _ (gets f) _ _ _ _ Hp eq_refl).
  rewrite list_insert_id by done. now destruct c.
Qed.

(** The object once it is loaded, and once its FAR is stored. *)
Definition loaded_object (e : far_env) (id : Z) (d : DevMap) (m : FarMap)
    : far_program FarMap DevMap ArpMap :=
  mk_far_program id
    (mk_lifecycle ATTACHED ∅ (opened (fe_env e)) []) (fe_progs e) (fe_fd e) m d (fe_arp e).

(** Everything the kernel is asked for while a pipeline is created succeeds. *)
Record accepts (e : far_env) (c : component) (key : next_rule_prog_index_key)
    (rec : pfcp_far_t_) (d : DevMap) (idx : IdxMap) (prg : ProgMap) (m : FarMap) : Prop := {
  accepts_env : env_ok far_map_names (fe_env e);
  accepts_egress : exists d1,
    bpf_map_update_elem (fe_egress e) UPLINK (if_nametoindex (mUDPInterface c)) BPF_ANY
      = (d1, 0) /\
    bpf_map_update_elem d1 DOWNLINK (if_nametoindex (mGTPInterface c)) BPF_ANY = (d, 0);
  accepts_index :
    bpf_map_update_elem (getNextProgRuleIndexMap c) key (sIdCounter c) BPF_ANY = (idx, 0);
  accepts_prog :
    bpf_map_update_elem (getNextProgRuleMap c) (sIdCounter c) (fe_fd e) BPF_ANY = (prg, 0);
  accepts_far : bpf_map_update_elem (fe_far e) 0 rec BPF_ANY = (m, 0)
}.

Definition fresh_object (e : far_env) (id : Z) : far_program FarMap DevMap ArpMap :=
  mk_far_program id (new_lifecycle (uninit_state (fe_env e))) (fe_progs e) (fe_fd e)
    (fe_far e) (fe_egress e) (fe_arp e).

(** A component with one more object. *)
Definition with_object (o : far_program FarMap DevMap ArpMap) (c : component) : component :=
  with_far_objects (u32 (sIdCounter c + 1)) (far_objects c ++ [o]) c.

Lemma new_FARProgram_eq e c :
  new_FARProgram e c = (Ok (length (far_objects c)), with_object (fresh_object e (sIdCounter c)) c).
Proof. reflexivity. Qed.

(** A method of the newest object. *)
Lemma on_new_object_eq {A} (m : M (far_program FarMap DevMap ArpMap) runtime_error A) o c r o' :
  m o = (r, o') ->
  on_far_object (length (far_objects c)) m (with_object o c) = (r, with_object o' c).
Proof.
  intros Hm. erewrite on_far_object_eq; [|cbn; now apply list_lookup_middle|exact Hm].
  f_equal. unfold with_object, with_far_objects. cbn. f_equal.
  now rewrite insert_app_r_alt, Nat.sub_diag by lia.
Qed.

Lemma on_index_update key id fl c idx :
  bpf_map_update_elem (getNextProgRuleIndexMap c) key id fl = (idx, 0) ->
  on_index (BPFMap_update key id fl) c = (Ok 0, with_index idx c).
Proof. intros Hu. apply zoom_eq. now apply BPFMap_update_ok. Qed.

Lemma on_prog_update id fd fl c prg :
  bpf_map_update_elem (getNextProgRuleMap c) id fd fl = (prg, 0) ->
  on_prog (BPFMap_update id fd fl) c = (Ok 0, with_prog prg c).
Proof. intros Hu. apply zoom_eq. now apply BPFMap_update_ok. Qed.

(** The component with a new object and new maps. *)
Definition with_deployed (o : far_program FarMap DevMap ArpMap) (idx : IdxMap) (prg : ProgMap)
    (c : component) : component :=
  with_object o (with_prog prg (with_index idx c)).

(** The set-up of the newest object. *)
Lemma setup_new_object e c d1 d :
  env_ok far_map_names (fe_env e) ->
  bpf_map_update_elem (fe_egress e) UPLINK (if_nametoindex (mUDPInterface c)) BPF_ANY
    = (d1, 0) ->
  bpf_map_update_elem d1 DOWNLINK (if_nametoindex (mGTPInterface c)) BPF_ANY = (d, 0) ->
  on_far_object (length (far_objects c))
    (FARProgram_setup if_nametoindex (fe_env e) (mUDPInterface c) (mGTPInterface c))
    (with_object (fresh_object e (sIdCounter c)) c) =
  (Ok tt, with_object (loaded_object e (sIdCounter c) d (fe_far e)) c).
Proof.
  intros He H1' H2'. apply on_new_object_eq.
  now rewrite (FARProgram_setup_ok _ _ _ _ _ d1 d).
Qed.

Lemma createPipeline_eq e seid teid si ue f c d idx prg m :
  accepts e c (mk_key teid si ue) (far_record f) d idx prg m ->
  createPipeline e seid teid si ue f c =
    store_programs seid (mk_key teid si ue) (length (far_objects c))
      (with_deployed (loaded_object e (sIdCounter c) d m) idx prg c).
Proof.
  intros [He (d1 & Hd1 & Hd2) Hi Hp Hm]. unfold createPipeline.
  rewrite (bind_ok _ _ _ _ _ (new_FARProgram_eq e c)).
  rewrite (bind_ok get _ _ _ _ eq_refl).
  rewrite (bind_ok _ _ _ _ _ (setup_new_object e c d1 d He Hd1 Hd2)).
  rewrite (bind_ok _ _ _ _ _ (on_new_object_eq (gets mId) _ c _ _ eq_refl)).
  rewrite (bind_ok _ _ _ _ _ (on_new_object_eq getFd _ c _ _ eq_refl)).
  rewrite (bind_ok _ _ _ _ _ (on_index_update _ _ _ (with_object _ c) idx Hi)).
  rewrite (bind_ok _ _ _ _ _
    (on_prog_update _ _ _ (with_index idx (with_object _ c)) prg Hp)).
  assert (on_far_map (BPFMap_update 0 (far_record f) BPF_ANY)
            (loaded_object e (sIdCounter c) d (fe_far e)) =
          (Ok 0, loaded_object e (sIdCounter c) d m)) as Hf.
  { exact (zoom_eq _ _ _ (loaded_object e (sIdCounter c) d (fe_far e)) _ _
             (BPFMap_update_ok _ _ _ _ _ Hm)). }
  now rewrite (bind_ok _ _ _ _ _
    (on_new_object_eq _ _ (with_prog prg (with_index idx c)) _ _ Hf)).
Qed.

(** *** Tearing a pipeline down *)

Definition torn (o : far_program FarMap DevMap ArpMap) : far_program FarMap DevMap ArpMap :=
  mk_far_program (mId o) (snd (lc_tearDown (far_progs o) set_link_ret (far_life o)))
    (far_progs o) (far_fd o) (mpFARMap o) (mpEgressInterfaceMap o) (mpArpTableMap o).

(** A FAR program in use: attached, and never destroyed. *)
Definition live (o : far_program FarMap DevMap ArpMap) : Prop :=
  mState (far_life o) = ATTACHED /\ calls (far_life o) = [].

(** A FAR program given back: idle, and destroyed exactly once. *)
Definition released (o : far_program FarMap DevMap ArpMap) : Prop :=
  mState (far_life o) = IDLE /\ calls (far_life o) = [Destroy (mpSkeleton (far_life o))].

Hypothesis unlinks : forall i, set_link_ret i (-1) = 0.

Lemma torn_released o : live o -> released (torn o).
Proof.
  intros [Hs Hc]. unfold released, torn. cbn [far_life]. rewrite lc_tearDown_eq by done.
  rewrite Hs. rewrite !decide_False by done. cbn. now rewrite Hc.
Qed.

Lemma FARProgram_tearDown_eq o : FARProgram_tearDown set_link_ret o = (Ok tt, torn o).
Proof.
  unfold FARProgram_tearDown, bind, gets, on_far_life, zoom, torn.
  rewrite lc_tearDown_eq by done. now destruct (decide _).
Qed.

Lemma release_programs_eq k p c o :
  far_objects c !! p = Some o ->
  release_programs (Some (k, p)) c =
    (Ok tt, with_far_objects (sIdCounter c) (<[p := torn o]> (far_objects c)) c).
Proof.
  intros Hp. cbn. apply (on_far_object_eq _ _ _ _ _ _ Hp). apply FARProgram_tearDown_eq.
Qed.

(** The table of pipelines: each has a FAR program of its own, in use. *)
Record table_ok (c : component) : Prop := {
  table_live seid k p :
    mSessionProgramsMap (manager c) !! seid = Some (k, p) ->
    exists o, far_objects c !! p = Some o /\ live o;
  table_own s1 s2 k1 k2 p :
    mSessionProgramsMap (manager c) !! s1 = Some (k1, p) ->
    mSessionProgramsMap (manager c) !! s2 = Some (k2, p) -> s1 = s2
}.

Lemma table_ok_ext c c' :
  table_ok c -> manager c' = manager c -> far_objects c' = far_objects c -> table_ok c'.
Proof. intros [H1' H2'] Hm Ho. split; rewrite Hm; [rewrite Ho|]; assumption. Qed.

Lemma table_bound c seid k p :
  table_ok c -> mSessionProgramsMap (manager c) !! seid = Some (k, p) ->
  (p < length (far_objects c))%nat.
Proof. intros Ht Hp. destruct (table_live c Ht _ _ _ Hp) as (o & Ho & _). now apply lookup_lt_Some in Ho. Qed.

Lemma insert_alter {A} (f : A -> A) p (l : list A) a :
  l !! p = Some a -> <[p := f a]> l = alter f p l.
Proof.
  intros Hp. apply list_eq. intros i. rewrite list_lookup_alter, list_lookup_insert.
  pose proof (lookup_lt_Some _ _ _ Hp).
  destruct (decide (p = i)) as [<-|Hn]; [rewrite decide_True by done; now rewrite Hp|].
  rewrite decide_False; [done|]. tauto.
Qed.

(** Storing the newest object as a pipeline. *)
Lemma store_programs_spec seid key o c :
  table_ok c -> live o ->
  exists c', store_programs seid key (length (far_objects c)) (with_object o c) = (Ok tt, c') /\
    mSessionProgramsMap (manager c') =
      <[seid := (key, length (far_objects c))]> (mSessionProgramsMap (manager c)) /\
    far_objects c' =
      (match mSessionProgramsMap (manager c) !! seid with
       | Some (_, p) => alter torn p (far_objects c)
       | None => far_objects c
       end) ++ [o] /\
    mpUPFProgram c' = mpUPFProgram c /\ mSeidToSession c' = mSeidToSession c /\
    session_objects c' = session_objects c /\ sIdCounter c' = u32 (sIdCounter c + 1) /\
    mUDPInterface c' = mUDPInterface c /\ mGTPInterface c' = mGTPInterface c.
Proof.
  intros Ht Ho. unfold store_programs. rewrite (bind_ok get _ _ _ _ eq_refl).
  erewrite bind_ok by reflexivity.
  change (mSessionProgramsMap (manager (with_object o c)))
    with (mSessionProgramsMap (manager c)).
  destruct (mSessionProgramsMap (manager c) !! seid) as [[k p]|] eqn:Hs.
  - destruct (table_live c Ht _ _ _ Hs) as (o0 & Hp & _).
    pose proof (lookup_lt_Some _ _ _ Hp) as Hlt.
    rewrite (release_programs_eq _ _ _ o0) by (cbn; now rewrite lookup_app_l).
    eexists. split; [reflexivity|]. cbn. rewrite insert_app_l by done.
    rewrite (insert_alter torn _ _ _ Hp). repeat split.
  - eexists. split; [reflexivity|]. cbn. repeat split.
Qed.

Lemma table_ok_store c c' seid key o :
  table_ok c -> live o ->
  mSessionProgramsMap (manager c') =
    <[seid := (key, length (far_objects c))]> (mSessionProgramsMap (manager c)) ->
  far_objects c' =
    (match mSessionProgramsMap (manager c) !! seid with
     | Some (_, p) => alter torn p (far_objects c)
     | None => far_objects c
     end) ++ [o] ->
  table_ok c' /\ far_objects c' !! length (far_objects c) = Some o.
Proof.
  intros Ht Hl Hm Ho.
  set (l := match mSessionProgramsMap (manager c) !! seid with
            | Some (_, p) => alter torn p (far_objects c) | None => far_objects c end) in *.
  assert (length l = length (far_objects c)) as Hlen
    by (unfold l; destruct (_ !! seid) as [[? ?]|]; [apply length_alter|done]).
  assert (far_objects c' !! length (far_objects c) = Some o) as Hnew
    by (rewrite Ho, <- Hlen; apply list_lookup_middle; done).
  split; [|done]. split; rewrite Hm.
  - intros s k p. destruct (decide (seid = s)) as [<-|Hne].
    + rewrite lookup_insert_eq. intros [= <- <-]. eauto.
    + rewrite lookup_insert_ne by done. intros Hs.
      destruct (table_live c Ht _ _ _ Hs) as (o1 & Hp & Hl1).
      pose proof (table_bound _ _ _ _ Ht Hs) as Hb. exists o1. split; [|done].
      rewrite Ho, lookup_app_l by lia. unfold l.
      destruct (mSessionProgramsMap (manager c) !! seid) as [[k0 p0]|] eqn:H0'; [|done].
      rewrite list_lookup_alter_ne; [done|]. intros <-.
      apply Hne. eapply (table_own c Ht); eassumption.
  - intros s1 s2 k1 k2 p.
    destruct (decide (seid = s1)) as [<-|H1']; destruct (decide (seid = s2)) as [<-|H2'];
      rewrite ?lookup_insert_eq, ?lookup_insert_ne by done; [done| | |].
    + intros [= <- <-] Hs. pose proof (table_bound _ _ _ _ Ht Hs). lia.
    + intros Hs [= <- <-]. pose proof (table_bound _ _ _ _ Ht Hs). lia.
    + apply (table_own c Ht).
Qed.

(** *** The PDR that is deployed *)

Lemma comparePDR_ok u1 u2 up p q :
  pdr_ok up p -> pdr_ok up q ->
  comparePDR u1 u2 p q = (precedence_of 0 p <? precedence_of 0 q).
Proof.
  intros (Hp & _) (Hq & _). unfold comparePDR, precedence_of, get_ie. cbn.
  now rewrite Hp, Hq.
Qed.

(** A PDR of the session that no other PDR precedes. *)
Definition highest (s : pfcp_session) (p : pfcp_pdr) : Prop :=
  In p (pdrs s) /\ forall q, In q (pdrs s) -> precedence_of 0 p <= precedence_of 0 q.

Lemma sorted_session_head u1 u2 s :
  session_ok s ->
  match pdrs (sorted_session u1 u2 s) with
  | [] => pdrs s = []
  | p :: _ => highest s p
  end.
Proof.
  intros Hs. unfold session_ok in Hs. rewrite List.Forall_forall in Hs.
  assert (forall x y, In x (pdrs s) -> In y (pdrs s) ->
            comparePDR u1 u2 x y = (precedence_of 0 x <? precedence_of 0 y)) as Hc
    by (intros; eapply comparePDR_ok; eauto).
  unfold sorted_session. cbn [pdrs with_pdrs].
  destruct (std_sort (comparePDR u1 u2) (pdrs s)) as [|p l] eqn:E.
  - eapply std_sort_nil_inv; eassumption.
  - eapply std_sort_head; eassumption.
Qed.

Lemma sort_pdrs_eq u1 u2 r s c :
  session_objects c !! r = Some s ->
  sort_pdrs u1 u2 r c =
    (Ok (sorted_session u1 u2 s),
     with_session_objects (<[r := sorted_session u1 u2 s]> (session_objects c)) c).
Proof.
  intros Hr. unfold sort_pdrs, bind, get, of_option. rewrite Hr. reflexivity.
Qed.

(** A session with a rule is deployed by a pipeline for the rule. *)
Lemma createBPFSession_run u1 u2 e r s c p l t i a f :
  session_objects c !! r = Some s -> pdrs (sorted_session u1 u2 s) = p :: l ->
  pdr_fields p = Some (t, i, a) -> pdr_far p s = Some f ->
  createBPFSession u1 u2 e r c =
    (createPipeline e (u32 (seid s)) (fteid_teid t) (source_interface_interface_value i)
       (ue_ip_address_ipv4_address a) f ;;;
     modify (fun c => with_seids (<[seid s := r]> (mSeidToSession c)) c))
    (with_session_objects (<[r := sorted_session u1 u2 s]> (session_objects c)) c).
Proof.
  intros Hr Hp Hf Hfar. unfold createBPFSession.
  rewrite (bind_ok _ _ _ _ _ (sort_pdrs_eq u1 u2 r s c Hr)), Hp, Hf.
  cbn [of_option]. rewrite bind_ret_l.
  change (pdr_far p (sorted_session u1 u2 s)) with (pdr_far p s).
  rewrite Hfar. cbn [of_option]. now rewrite bind_ret_l.
Qed.

(** *** What the entry program does with a key *)

Definition dispatches (c : component) (key : next_rule_prog_index_key) : result bpf_exit Z :=
  dispatch (getNextProgRuleIndexMap c) (getNextProgRuleMap c) (Session key).

(** The program sends what leaves by [k] to the interface [i], when there is
    such an interface. *)
Definition leaves_by (o : far_program FarMap DevMap ArpMap) (k i : Z) : Prop :=
  i <> 0 -> bpf_map_lookup_elem (mpEgressInterfaceMap o) k = Some i.

(** The names of the interfaces. *)
Definition interfaces (c : component) : string * string := (mUDPInterface c, mGTPInterface c).

(** A FAR program with descriptor [fd] runs for the packets of [key], its FAR
    is [rec], and packets leave by the interfaces of the component. *)
Definition deployed (c : component) (key : next_rule_prog_index_key) (p : nat) (fd : Z)
    (rec : pfcp_far_t_) : Prop :=
  dispatches c key = Err (TailCall fd) /\
  exists o, far_objects c !! p = Some o /\ live o /\ far_fd o = fd /\
    bpf_map_lookup_elem (mpFARMap o) 0 = Some rec /\
    leaves_by o UPLINK (if_nametoindex (fst (interfaces c))) /\
    leaves_by o DOWNLINK (if_nametoindex (snd (interfaces c))).

(** The PDR [p] of [s] has what a pipeline needs, and the kernel accepts it. *)
Definition deployable (e : far_env) (c : component) (s : pfcp_session) (p : pfcp_pdr)
    (key : next_rule_prog_index_key) (f : pfcp_far) : Prop :=
  (exists t i a, pdr_fields p = Some (t, i, a) /\
     key = mk_key (fteid_teid t) (source_interface_interface_value i)
             (ue_ip_address_ipv4_address a)) /\
  pdr_far p s = Some f /\
  exists d idx prg m, accepts e c key (far_record f) d idx prg m.

Lemma dispatches_updated c key id fd idx prg fl1 fl2 :
  bpf_map_update_elem (getNextProgRuleIndexMap c) key id fl1 = (idx, 0) ->
  bpf_map_update_elem (getNextProgRuleMap c) id fd fl2 = (prg, 0) ->
  dispatch idx prg (Session key) = Err (TailCall fd).
Proof.
  intros Hi Hp. cbn. rewrite (map_update_same _ _ _ _ _ Hi).
  now rewrite (tail_call_lookup _ _ _ (map_update_same _ _ _ _ _ Hp)).
Qed.

Lemma accepts_leaves e c key rec d idx prg m :
  accepts e c key rec d idx prg m ->
  leaves_by (loaded_object e (sIdCounter c) d m) UPLINK (if_nametoindex (fst (interfaces c))) /\
  leaves_by (loaded_object e (sIdCounter c) d m) DOWNLINK (if_nametoindex (snd (interfaces c))).
Proof.
  intros [_ (d1 & Hd1 & Hd2) _ _ _]. split; intros Hi; cbn.
  - rewrite (dev_update_other _ _ _ _ _ UPLINK Hd2) by discriminate.
    now apply (dev_update_same _ _ _ _ _ Hd1).
  - now apply (dev_update_same _ _ _ _ _ Hd2).
Qed.

Lemma createPipeline_spec e seid teid si ue f c d idx prg m :
  let key := mk_key teid si ue in
  table_ok c -> accepts e c key (far_record f) d idx prg m ->
  exists c', createPipeline e seid teid si ue f c = (Ok tt, c') /\
    deployed c' key (length (far_objects c)) (fe_fd e) (far_record f) /\
    far_objects c' !! length (far_objects c) = Some (loaded_object e (sIdCounter c) d m) /\
    mSessionProgramsMap (manager c') =
      <[seid := (key, length (far_objects c))]> (mSessionProgramsMap (manager c)) /\
    getNextProgRuleIndexMap c' = idx /\ getNextProgRuleMap c' = prg /\
    mSeidToSession c' = mSeidToSession c /\ session_objects c' = session_objects c /\
    table_ok c' /\
    (forall k0 p0 o0, mSessionProgramsMap (manager c) !! seid = Some (k0, p0) ->
       far_objects c !! p0 = Some o0 ->
       exists o1, far_objects c' !! p0 = Some o1 /\ released o1) /\
    (mSessionProgramsMap (manager c) !! seid = None ->
     exists o, far_objects c' = far_objects c ++ [o]) /\
    sIdCounter c' = u32 (sIdCounter c + 1) /\ interfaces c' = interfaces c.
Proof.
  intros key Ht Ha. rewrite (createPipeline_eq _ _ _ _ _ _ _ _ _ _ _ Ha).
  set (c1 := with_prog prg (with_index idx c)).
  assert (table_ok c1) as Ht1 by now apply (table_ok_ext c).
  set (o := loaded_object e (sIdCounter c) d m). assert (live o) as Hl by done.
  destruct (store_programs_spec seid key o c1 Ht1 Hl)
    as (c' & Hc & Hm & Ho & Hu & Hs & Hso & Hid & Hudp & Hgtp).
  exists c'. split; [exact Hc|]. change (manager c1) with (manager c) in *.
  change (far_objects c1) with (far_objects c) in *.
  destruct (table_ok_store c1 c' seid key o Ht1 Hl Hm Ho) as [Ht' Hnew].
  assert (interfaces c' = interfaces c) as Hifs by (unfold interfaces; now rewrite Hudp, Hgtp).
  destruct (accepts_leaves _ _ _ _ _ _ _ _ Ha) as [Hul Hdl]. destruct Ha as [He _ Hi Hp Hf].
  assert (getNextProgRuleIndexMap c' = idx) as Hidx
    by (unfold getNextProgRuleIndexMap; now rewrite Hu).
  assert (getNextProgRuleMap c' = prg) as Hprg
    by (unfold getNextProgRuleMap; now rewrite Hu).
  split.
  { split; [unfold dispatches; rewrite Hidx, Hprg; eapply dispatches_updated; eassumption|].
    exists o. split; [exact Hnew|]. do 2 (split; [done|]). split; [|now rewrite Hifs].
    cbn. eapply map_update_same. exact Hf. }
  do 7 (split; [done|]).
  split; [|split; [intros Hn; exists o; now rewrite Hn in Ho|done]].
  intros k0 p0 o0 Hk Hp0. rewrite Hk in Ho. exists (torn o0).
  pose proof (lookup_lt_Some _ _ _ Hp0).
  rewrite Ho, lookup_app_l by (rewrite length_alter; lia).
  rewrite list_lookup_alter_eq, Hp0. split; [done|]. apply torn_released.
  destruct (table_live c Ht _ _ _ Hk) as (o2 & H2' & ?). congruence.
Qed.

(** ** Properties *)


(** A session that cannot be deployed: without PDRs, or when the PDR that
    comes first lacks its TEID, interface, UE address or FAR, the deployment
    ends with an exception and changes nothing but the order of the session's
    own PDRs. *)
Theorem createBPFSession_refuses u1 u2 e r s c :
  session_objects c !! r = Some s ->
  let s' := sorted_session u1 u2 s in
  let c' := with_session_objects (<[r := s']> (session_objects c)) c in
  match pdrs s' with
  | [] => createBPFSession u1 u2 e r c = (Err NoPdrInSession, c')
  | p :: _ =>
      pdr_fields p = None \/ pdr_far p s = None ->
      createBPFSession u1 u2 e r c = (Err NoFieldsAvailable, c')
  end.
Proof.
  intros Hr s' c'. unfold createBPFSession.
  rewrite (bind_ok _ _ _ _ _ (sort_pdrs_eq u1 u2 r s c Hr)). fold s' c'.
  destruct (pdrs s') as [|p l]; [done|]. intros [Hn|Hn].
  - rewrite Hn. reflexivity.
  - destruct (pdr_fields p) as [[[t i] a]|]; [|reflexivity].
    cbn [of_option]. rewrite bind_ret_l.
    change (pdr_far p s') with (pdr_far p s). rewrite Hn. reflexivity.
Qed.

(** *** Removing *)

Lemma removePipeline_eq seid key p o c idx :
  mSessionProgramsMap (manager c) !! seid = Some (key, p) ->
  far_objects c !! p = Some o ->
  bpf_map_delete_elem (getNextProgRuleIndexMap c) key = (idx, 0) ->
  removePipeline seid c =
    (Ok tt, with_index idx
       (with_programs (delete seid (mSessionProgramsMap (manager c)))
          (with_far_objects (sIdCounter c) (<[p := torn o]> (far_objects c)) c))).
Proof.
  intros Hs Hp Hd. unfold removePipeline. rewrite (bind_ok get _ _ _ _ eq_refl), Hs.
  rewrite (bind_ok _ _ _ _ _ (release_programs_eq key p c o Hp)).
  erewrite bind_ok by reflexivity.
  set (c1 := with_programs _ _).
  assert (on_index (BPFMap_remove (V := Z) key) c1 = (Ok 0, with_index idx c1)) as Hr
    by (apply zoom_eq; now apply BPFMap_remove_ok).
  now rewrite (bind_ok _ _ _ _ _ Hr).
Qed.

(** Releasing a pipeline and taking it out of the table. *)
Lemma table_ok_delete c c' sid key p o :
  table_ok c -> mSessionProgramsMap (manager c) !! sid = Some (key, p) ->
  mSessionProgramsMap (manager c') = delete sid (mSessionProgramsMap (manager c)) ->
  far_objects c' = <[p := o]> (far_objects c) -> table_ok c'.
Proof.
  intros Ht Hp Hm Ho. split; rewrite Hm.
  - intros s1 k1 p1. rewrite lookup_delete_Some. intros [Hne H1'].
    destruct (table_live c Ht _ _ _ H1') as (o1 & Ho1 & Hl1). exists o1.
    rewrite Ho, list_lookup_insert_ne; [done|]. intros <-. apply Hne.
    eapply (table_own c Ht); eassumption.
  - intros s1 s2 k1 k2 p1. rewrite !lookup_delete_Some. intros [_ ?] [_ ?].
    eapply (table_own c Ht); eassumption.
Qed.

(** C19: removing a deployed session releases its FAR program, takes it out
    of the table and its key out of the index, so that the key's packets are
    passed to the kernel; the other keys and pipelines stay.  The session is
    still in SessionManager's table: removing it once more gets through to the
    pipelines, where it ends with an exception. *)
Theorem removeBPFSession_removes c sid key p r idx :
  table_ok c -> mSeidToSession c !! sid = Some r ->
  findSessionPrograms (u32 sid) c = Some (key, p) ->
  bpf_map_delete_elem (getNextProgRuleIndexMap c) key = (idx, 0) ->
  exists c',
    removeBPFSession sid c = (Ok tt, c') /\ dispatches c' key = Ok XDP_PASS /\
    (exists o, far_objects c' !! p = Some o /\ released o) /\
    findSessionPrograms (u32 sid) c' = None /\
    (forall key', key' <> key -> dispatches c' key' = dispatches c key') /\
    (forall s', s' <> u32 sid -> findSessionPrograms s' c' = findSessionPrograms s' c) /\
    table_ok c' /\
    removeBPFSession sid c' = (Err SessionDoesNotExist, c').
Proof.
  intros Ht Hs Hf Hd. unfold findSessionPrograms in *.
  destruct (table_live c Ht _ _ _ Hf) as (o & Ho & Hl).
  unfold removeBPFSession at 1. rewrite (bind_ok get _ _ _ _ eq_refl), Hs.
  rewrite (removePipeline_eq _ _ _ _ _ _ Hf Ho Hd). eexists. split; [reflexivity|].
  pose proof (lookup_lt_Some _ _ _ Ho) as Hb.
  split; [unfold dispatches; cbn; now rewrite (map_delete_same _ _ _ Hd)|].
  split.
  { exists (torn o). split; [cbn; now apply list_lookup_insert_eq|now apply torn_released]. }
  split; [cbn; apply lookup_delete_eq|]. split.
  { intros key' Hk. unfold dispatches, dispatch. cbn.
    now rewrite (map_delete_other _ _ _ key' Hd) by congruence. }
  split; [intros s' Hs'; cbn; now rewrite lookup_delete_ne by congruence|]. split.
  - now eapply (table_ok_delete c _ (u32 sid) key p (torn o)).
  - unfold removeBPFSession. rewrite (bind_ok get _ _ _ _ eq_refl). cbn. rewrite Hs.
    unfold removePipeline, bind, get. cbn. now rewrite lookup_delete_eq.
Qed.

(** C37: deploying again under the same 32-bit identifier, for another key:
    the old FAR program is released, but its key stays in the index and its
    descriptor in the program array, so the old key's packets still go to the
    old program; removing the session takes out the new key only. *)
Theorem redeploy_keeps_old_key e seid teid si ue f c k0 p0 id0 fd0 d idx prg m idx' :
  let key := mk_key teid si ue in
  table_ok c -> findSessionPrograms seid c = Some (k0, p0) -> k0 <> key ->
  bpf_map_lookup_elem (getNextProgRuleIndexMap c) k0 = Some id0 ->
  bpf_map_lookup_elem (getNextProgRuleMap c) id0 = Some fd0 -> id0 <> sIdCounter c ->
  accepts e c key (far_record f) d idx prg m ->
  bpf_map_delete_elem idx key = (idx', 0) ->
  exists c1 c2 o1,
    createPipeline e seid teid si ue f c = (Ok tt, c1) /\
    far_objects c1 !! p0 = Some o1 /\ released o1 /\
    dispatches c1 k0 = Err (TailCall fd0) /\
    removePipeline seid c1 = (Ok tt, c2) /\ findSessionPrograms seid c2 = None /\
    dispatches c2 k0 = Err (TailCall fd0) /\ dispatches c2 key = Ok XDP_PASS.
Proof.
  intros key Ht Hs Hk Hid Hfd Hne Ha Hdel.
  destruct (createPipeline_spec e seid teid si ue f c d idx prg m Ht Ha)
    as (c1 & Hc & (_ & o & Ho & Hl & _) & _ & Hm & Hidx & Hprg & _ & _ & Ht1 & Hrel & _).
  destruct (table_live c Ht _ _ _ Hs) as (o0 & Ho0 & _).
  destruct (Hrel k0 p0 o0 Hs Ho0) as (o1 & Ho1 & Hr1).
  destruct Ha as [_ _ Hi Hp _].
  assert (bpf_map_lookup_elem idx k0 = Some id0) as Hid1
    by (rewrite (map_update_other _ _ _ _ _ k0 Hi); [done|congruence]).
  assert (bpf_map_lookup_elem prg id0 = Some fd0) as Hfd1
    by (rewrite (map_update_other _ _ _ _ _ id0 Hp); [done|congruence]).
  assert (mSessionProgramsMap (manager c1) !! seid = Some (key, length (far_objects c)))
    as Hs1 by (rewrite Hm; apply lookup_insert_eq).
  assert (bpf_map_delete_elem (getNextProgRuleIndexMap c1) key = (idx', 0)) as Hdel1
    by now rewrite Hidx.
  exists c1. rewrite (removePipeline_eq _ _ _ _ _ _ Hs1 Ho Hdel1).
  do 2 eexists. split; [exact Hc|]. split; [exact Ho1|]. split; [exact Hr1|]. split.
  { unfold dispatches, dispatch. rewrite Hidx, Hid1, Hprg.
    now rewrite (tail_call_lookup _ _ _ Hfd1). }
  split; [reflexivity|]. split; [unfold findSessionPrograms; cbn; apply lookup_delete_eq|].
  assert (mpNextProgRuleMap (mpUPFProgram c1) = prg) as Hprg' by exact Hprg.
  unfold dispatches, dispatch. cbn. rewrite Hprg'. split.
  - rewrite (map_delete_other _ _ _ k0 Hdel) by congruence.
    now rewrite Hid1, (tail_call_lookup _ _ _ Hfd1).
  - now rewrite (map_delete_same _ _ _ Hdel).
Qed.

(** *** Failing creations *)

(** The program array refuses the identifier. *)
Lemma createPipeline_no_room e seid teid si ue f c d1 d idx r :
  let key := mk_key teid si ue in
  env_ok far_map_names (fe_env e) ->
  bpf_map_update_elem (fe_egress e) UPLINK (if_nametoindex (mUDPInterface c)) BPF_ANY
    = (d1, 0) ->
  bpf_map_update_elem d1 DOWNLINK (if_nametoindex (mGTPInterface c)) BPF_ANY = (d, 0) ->
  bpf_map_update_elem (getNextProgRuleIndexMap c) key (sIdCounter c) BPF_ANY = (idx, 0) ->
  bpf_map_update_elem (getNextProgRuleMap c) (sIdCounter c) (fe_fd e) BPF_ANY
    = (getNextProgRuleMap c, r) -> r <> 0 ->
  createPipeline e seid teid si ue f c =
    (Err MapCannotBeUpdated,
     with_object (loaded_object e (sIdCounter c) d (fe_far e)) (with_index idx c)).
Proof.
  intros key He Hd1 Hd2 Hi Hp Hr. unfold createPipeline.
  rewrite (bind_ok _ _ _ _ _ (new_FARProgram_eq e c)).
  rewrite (bind_ok get _ _ _ _ eq_refl).
  rewrite (bind_ok _ _ _ _ _ (setup_new_object e c d1 d He Hd1 Hd2)).
  rewrite (bind_ok _ _ _ _ _ (on_new_object_eq (gets mId) _ c _ _ eq_refl)).
  rewrite (bind_ok _ _ _ _ _ (on_new_object_eq getFd _ c _ _ eq_refl)).
  rewrite (bind_ok _ _ _ _ _ (on_index_update _ _ _ (with_object _ c) idx Hi)).
  set (c1 := with_object (loaded_object e (sIdCounter c) d (fe_far e)) (with_index idx c)).
  assert (BPFMap_update (sIdCounter c) (fe_fd e) BPF_ANY (getNextProgRuleMap c) =
    (Err MapCannotBeUpdated, getNextProgRuleMap c)) as Hu.
  { unfold BPFMap_update, bind, get, put. rewrite Hp.
    now rewrite (proj2 (Z.eqb_neq _ _) Hr). }
  pose proof (zoom_eq getNextProgRuleMap with_prog _ c1 _ _ Hu) as Hz.
  unfold on_prog. cbn [mId far_fd loaded_object] in *. now rewrite (bind_err _ _ _ _ _ Hz).
Qed.

(** A creation that stops early: one object more, the table as it was; the
    index may have the key, under the new identifier, and the program array is
    as it was, unless it was the last step that failed. *)
Record only_object (e : far_env) (key : next_rule_prog_index_key) (rec : pfcp_far_t_)
    (c c' : component) : Prop := {
  only_manager : manager c' = manager c;
  only_seids : mSeidToSession c' = mSeidToSession c;
  only_sessions : session_objects c' = session_objects c;
  only_objects : exists o, far_objects c' = far_objects c ++ [o];
  only_counter : sIdCounter c' = u32 (sIdCounter c + 1);
  only_index : getNextProgRuleIndexMap c' = getNextProgRuleIndexMap c \/
    bpf_map_update_elem (getNextProgRuleIndexMap c) key (sIdCounter c) BPF_ANY =
      (getNextProgRuleIndexMap c', 0);
  only_interfaces : interfaces c' = interfaces c;
  only_progs : getNextProgRuleMap c' = getNextProgRuleMap c \/
    exists m r, bpf_map_update_elem (fe_far e) 0 rec BPF_ANY = (m, r) /\ r <> 0
}.

Lemma setup_new_object_cases e c r c1 :
  on_far_object (length (far_objects c))
    (FARProgram_setup if_nametoindex (fe_env e) (mUDPInterface c) (mGTPInterface c))
    (with_object (fresh_object e (sIdCounter c)) c) = (r, c1) ->
  (exists d1 d, r = Ok tt /\ env_ok far_map_names (fe_env e) /\
    bpf_map_update_elem (fe_egress e) UPLINK (if_nametoindex (mUDPInterface c)) BPF_ANY
      = (d1, 0) /\
    bpf_map_update_elem d1 DOWNLINK (if_nametoindex (mGTPInterface c)) BPF_ANY = (d, 0) /\
    c1 = with_object (loaded_object e (sIdCounter c) d (fe_far e)) c) \/
  (exists err o, r = Err err /\ kernel_refusal err /\ c1 = with_object o c).
Proof.
  intros Ho.
  destruct (FARProgram_setup if_nametoindex (fe_env e) (mUDPInterface c) (mGTPInterface c)
              (fresh_object e (sIdCounter c))) as [r' o'] eqn:Hs.
  rewrite (on_new_object_eq _ _ _ _ _ Hs) in Ho. injection Ho as <- <-.
  destruct r' as [[]|err]; [left|right; exists err, o'; split; [done|]; split; [|done];
    exact (FARProgram_setup_throws _ _ _ _ _ _ _ Hs)].
  pose proof (FARProgram_setup_inv _ _ _ _ _ _ Hs) as (He & d1 & d & H1' & H2').
  exists d1, d. do 4 (split; [done|]).
  rewrite (FARProgram_setup_ok _ _ _ _ _ d1 d) in Hs by done. now injection Hs as <-.
Qed.

Lemma update_cases {Mp K V T} `{BpfMap Mp K V} (g : T -> Mp) (h : Mp -> T -> T)
    (k : K) (v : V) fl (c : T) :
  (exists m, bpf_map_update_elem (g c) k v fl = (m, 0) /\
     zoom g h (BPFMap_update k v fl) c = (Ok 0, h m c)) \/
  (exists m r, bpf_map_update_elem (g c) k v fl = (m, r) /\ r <> 0 /\
     zoom g h (BPFMap_update k v fl) c = (Err MapCannotBeUpdated, h m c)).
Proof.
  destruct (bpf_map_update_elem (g c) k v fl) as [m r] eqn:Hu.
  destruct (Z.eq_dec r 0) as [->|Hr]; [left; exists m|right; exists m, r].
  - split; [done|]. apply zoom_eq. now apply BPFMap_update_ok.
  - do 2 (split; [done|]). apply zoom_eq. now apply (BPFMap_update_err _ _ _ _ _ r).
Qed.

(** The first step of a sequence, done. *)
Ltac first_step Hs :=
  unfold bind at 1;
  match goal with |- (match ?x with _ => _ end = _) -> _ =>
    let r := fresh "r" in let c := fresh "c" in destruct x as [r c] eqn:Hs
  end.

Lemma createPipeline_cases e seid teid si ue f c r c' :
  let key := mk_key teid si ue in
  createPipeline e seid teid si ue f c = (r, c') ->
  (exists d idx prg m, accepts e c key (far_record f) d idx prg m) \/
  (exists err, r = Err err /\ kernel_refusal err /\ only_object e key (far_record f) c c').
Proof.
  intros key. set (rec := far_record f).
  assert (forall err o (cc : component), kernel_refusal err -> manager cc = manager c ->
    mSeidToSession cc = mSeidToSession c -> session_objects cc = session_objects c ->
    far_objects cc = far_objects c ++ [o] -> sIdCounter cc = u32 (sIdCounter c + 1) ->
    (getNextProgRuleIndexMap cc = getNextProgRuleIndexMap c \/
     bpf_map_update_elem (getNextProgRuleIndexMap c) key (sIdCounter c) BPF_ANY =
       (getNextProgRuleIndexMap cc, 0)) ->
    interfaces cc = interfaces c ->
    (getNextProgRuleMap cc = getNextProgRuleMap c \/
     exists m r, bpf_map_update_elem (fe_far e) 0 rec BPF_ANY = (m, r) /\ r <> 0) ->
    (Err err, cc) = (r, c') ->
    exists err, r = Err err /\ kernel_refusal err /\ only_object e key rec c c') as Hstop.
  { intros err o cc ? ? ? ? ? ? ? ? ? [= <- <-]. exists err. do 2 (split; [done|]). split; eauto. }
  unfold createPipeline. rewrite (bind_ok _ _ _ _ _ (new_FARProgram_eq e c)).
  rewrite (bind_ok get _ _ _ _ eq_refl).
  change (mUDPInterface (with_object _ c)) with (mUDPInterface c).
  change (mGTPInterface (with_object _ c)) with (mGTPInterface c).
  first_step Hs. apply setup_new_object_cases in Hs
    as [(d1 & d & -> & He & Hd1 & Hd2 & ->)|(err & o & -> & Hr & ->)].
  2: { intros E. right.
       eapply (Hstop err o); [..|exact E]; first [exact Hr|reflexivity|left; reflexivity]. }
  rewrite (bind_ok _ _ _ _ _ (on_new_object_eq (gets mId) _ c _ _ eq_refl)).
  rewrite (bind_ok _ _ _ _ _ (on_new_object_eq getFd _ c _ _ eq_refl)).
  set (o := loaded_object e (sIdCounter c) d (fe_far e)).
  destruct (update_cases getNextProgRuleIndexMap with_index key (mId o)
    BPF_ANY (with_object o c)) as [(idx & Hi & Hz)|(idx & ri & Hi & Hri & Hz)].
  2: { rewrite (bind_err _ _ _ _ _ Hz). intros E. right.
       pose proof (map_update_fail _ _ _ _ _ _ Hi Hri) as ->.
       eapply (Hstop _ o); [..|exact E]; first [exact I|reflexivity|left; reflexivity]. }
  rewrite (bind_ok _ _ _ _ _ Hz).
  destruct (update_cases getNextProgRuleMap with_prog (mId o) (far_fd o)
    BPF_ANY (with_index idx (with_object o c))) as [(prg & Hp & Hz')|(prg & rp & Hp & Hrp & Hz')].
  2: { rewrite (bind_err _ _ _ _ _ Hz'). intros E. right.
       pose proof (map_update_fail _ _ _ _ _ _ Hp Hrp) as ->.
       eapply (Hstop _ o); [..|exact E];
         first [exact I|reflexivity|right; exact Hi|left; reflexivity]. }
  rewrite (bind_ok _ _ _ _ _ Hz').
  destruct (update_cases mpFARMap (fun v p => mk_far_program (mId p) (far_life p)
    (far_progs p) (far_fd p) v (mpEgressInterfaceMap p) (mpArpTableMap p)) 0 rec BPF_ANY o)
    as [(m & Hm & _)|(m & rm & Hm & Hrm & Hz'')].
  - intros _. left. exists d, idx, prg, m. split; [done| |done..]. eauto.
  - rewrite (bind_err _ _ _ _ _
      (on_new_object_eq _ _ (with_prog prg (with_index idx c)) _ _ Hz'')).
    intros E. right.
    eapply (Hstop _ _); [..|exact E];
      first [exact I|reflexivity|right; exact Hi|right; exists m, rm; done].
Qed.

(** ** The component under any sequence of events *)

Inductive event : Type :=
| NewSession (cp : fseid_t) (up_seid : Z)
| SessionOp (r : nat) (o : rule_op)
| CreateBPFSession (uninit1 uninit2 : Z) (e : far_env) (r : nat)
| RemoveBPFSession (sid : Z)
| CreateSession (e : program_env) (p0 : session_program DevMap) (sid : Z)
| RemoveSession (sid : Z)
| SetObserver (o : bool)
| StoreArp (sid ip : Z) (mac : list Z)
| TearDown.

(** A session object changed by a PFCP element; a failure is for the caller. *)
Definition session_op (r : nat) (o : rule_op) : comp unit :=
  modify (fun c =>
    match session_objects c !! r with
    | None => c
    | Some s => with_session_objects (<[r := snd (run_op o s)]> (session_objects c)) c
    end).

Definition run_event (ev : event) : comp unit :=
  match ev with
  | NewSession cp up_seid =>
      modify (fun c =>
        with_session_objects (session_objects c ++ [new_pfcp_session cp up_seid]) c)
  | SessionOp r o => session_op r o
  | CreateBPFSession u1 u2 e r => createBPFSession u1 u2 e r
  | RemoveBPFSession sid => removeBPFSession sid
  | CreateSession e p0 sid => createSession e p0 sid
  | RemoveSession sid => removeSession sid
  | SetObserver o => setOnNewSessionObserver o
  | StoreArp sid ip mac =>
      let* c := get in store_arp (findSessionPrograms (u32 sid) c) ip mac
  | TearDown => UserPlaneComponent_tearDown
  end.

(** From a component whose manager is new; the kernel may answer anything. *)
Inductive reachable : component -> Prop :=
| reach_start g u p n :
    reachable (mk_component g u p new_program_manager ∅ n [] [])
| reach_event c ev r c' :
    reachable c -> run_event ev c = (r, c') -> reachable c'.

Record component_ok (c : component) : Prop := {
  ok_table : table_ok c;
  ok_sessions : List.Forall session_ok (session_objects c);
  ok_seids sid r :
    mSeidToSession c !! sid = Some r ->
    exists s, session_objects c !! r = Some s /\ seid s = sid
}.

(** What the events that leave the pipelines alone keep. *)
Definition same_pipelines (c c' : component) : Prop :=
  mSessionProgramsMap (manager c') = mSessionProgramsMap (manager c) /\
  far_objects c' = far_objects c /\ session_objects c' = session_objects c /\
  mSeidToSession c' = mSeidToSession c /\
  getNextProgRuleIndexMap c' = getNextProgRuleIndexMap c /\
  getNextProgRuleMap c' = getNextProgRuleMap c /\ sIdCounter c' = sIdCounter c /\
  interfaces c' = interfaces c.

#[local] Instance same_pipelines_refl : Reflexive same_pipelines.
Proof. done. Qed.
#[local] Instance same_pipelines_trans : Transitive same_pipelines.
Proof. unfold same_pipelines. intros c1 c2 c3 (?&?&?&?&?&?&?&?) (?&?&?&?&?&?&?&?). repeat split; congruence. Qed.

Lemma same_pipelines_ok c c' : same_pipelines c c' -> component_ok c -> component_ok c'.
Proof.
  intros (Hm & Ho & Hs & Hi & _) [[H1' H2'] H3' H4'].
  split; [split|..]; rewrite ?Hm, ?Ho, ?Hs, ?Hi; assumption.
Qed.

(** [m] leaves the pipelines alone. *)
Definition quiet {A} (m : comp A) : Prop := forall c r c', m c = (r, c') -> same_pipelines c c'.

Lemma quiet_bind {A B} (m : comp A) (k : A -> comp B) :
  quiet m -> (forall a, quiet (k a)) -> quiet (bind m k).
Proof.
  intros Hm Hk c r c'. unfold bind. destruct (m c) as [[a|err] c1] eqn:E.
  - intros Hc. transitivity c1; [eapply Hm|eapply Hk]; eassumption.
  - intros [= <- <-]. eapply Hm. eassumption.
Qed.

Lemma quiet_ret {A} (a : A) : quiet (ret a).
Proof. intros c r c' [= <- <-]. reflexivity. Qed.

Lemma quiet_raise {A} err : quiet (raise (A := A) err).
Proof. intros c r c' [= <- <-]. reflexivity. Qed.

Lemma quiet_get : quiet get.
Proof. intros c r c' [= <- <-]. reflexivity. Qed.

Lemma quiet_guard b err : quiet (guard b err).
Proof. destruct b; [apply quiet_ret|apply quiet_raise]. Qed.

Lemma quiet_modify f : (forall c, same_pipelines c (f c)) -> quiet (modify f).
Proof. intros Hf c r c' [= <- <-]. apply Hf. Qed.

Lemma quiet_zoom {S A} (g : component -> S) h (m : M S runtime_error A) :
  (forall v c, same_pipelines c (h v c)) -> quiet (zoom g h m).
Proof. intros Hh c r c'. unfold zoom. destruct (m (g c)). intros [= <- <-]. apply Hh. Qed.

(** Goes through an operation by its syntax. *)
Ltac quiet :=
  repeat match goal with
  | |- quiet (ret _) => apply quiet_ret
  | |- quiet (raise _) => apply quiet_raise
  | |- quiet get => apply quiet_get
  | |- quiet (guard _ _) => apply quiet_guard
  | |- quiet (modify _) => apply quiet_modify; intros; repeat split
  | |- quiet (zoom _ _ _) => apply quiet_zoom; intros; repeat split
  | |- quiet (bind _ _) => apply quiet_bind; [|intros]
  | |- forall _, quiet _ => intros
  end.

Lemma quiet_create e p0 sid : quiet (create e p0 sid).
Proof.
  unfold create. quiet. cbv zeta. destruct (bind _ _ p0) as [[?|?] p]; quiet.
Qed.

Lemma quiet_tearDown_session sid : quiet (tearDown_session sid).
Proof.
  unfold tearDown_session. quiet. destruct (_ !! sid) as [p|]; [|quiet].
  destruct (SessionProgram_tearDown _ p) as [[?|?] p']; quiet.
Qed.

Lemma quiet_remove sid : quiet (remove sid).
Proof.
  unfold remove. quiet. destruct (findSessionProgram sid _); quiet.
  apply quiet_tearDown_session.
Qed.

Lemma quiet_removeAll : quiet removeAll.
Proof.
  unfold removeAll. apply quiet_bind; [apply quiet_get|intros c0].
  apply quiet_bind; [|intros; quiet].
  induction (keys_in_order _) as [|k l IH]; cbn [removeAll_loop]; [quiet|].
  unfold onDestroySessionProgram, on_teid.
  apply quiet_bind; [apply quiet_tearDown_session|intros _]. quiet. apply IH.
Qed.

(** A session object replaced by another state of the same session. *)
Lemma component_ok_session c r s s' :
  component_ok c -> session_objects c !! r = Some s -> session_ok s' -> seid s' = seid s ->
  component_ok (with_session_objects (<[r := s']> (session_objects c)) c).
Proof.
  intros [Ht Hs Hi] Hr Hs' Hid. split; cbn.
  - now apply (table_ok_ext c).
  - apply List.Forall_forall. intros x Hx. apply in_lookup in Hx as [j Hj].
    rewrite list_lookup_insert_Some in Hj. rewrite List.Forall_forall in Hs.
    destruct Hj as [(<- & <- & _)|[_ Hj]]; [done|]. apply Hs, in_lookup. eauto.
  - intros sid r' Hsid. destruct (Hi sid r' Hsid) as (s1 & Hs1 & Hid1).
    destruct (decide (r = r')) as [<-|Hne].
    + exists s'. split; [|congruence]. apply list_lookup_insert_eq.
      now apply lookup_lt_Some in Hr.
    + exists s1. now rewrite list_lookup_insert_ne.
Qed.

Lemma table_ok_more c c' o :
  table_ok c -> manager c' = manager c -> far_objects c' = far_objects c ++ [o] -> table_ok c'.
Proof.
  intros Ht Hm Ho. split; rewrite Hm; [|apply (table_own c Ht)].
  intros sid k p Hp. destruct (table_live c Ht _ _ _ Hp) as (o1 & Ho1 & Hl).
  exists o1. rewrite Ho, lookup_app_l; [done|]. now apply lookup_lt_Some in Ho1.
Qed.

Lemma createPipeline_ok e sid teid si ue f c x c' :
  table_ok c -> createPipeline e sid teid si ue f c = (x, c') ->
  table_ok c' /\ session_objects c' = session_objects c /\
  mSeidToSession c' = mSeidToSession c.
Proof.
  intros Ht Hx. destruct (createPipeline_cases _ _ _ _ _ _ _ _ _ Hx)
    as [(d & idx & prg & m & Ha)|(err & _ & _ & Ho)].
  - destruct (createPipeline_spec _ sid _ _ _ f _ _ _ _ _ Ht Ha)
      as (c2 & Hc & _ & _ & _ & _ & _ & Hs & Ho & Ht2 & _).
    rewrite Hx in Hc. injection Hc as -> ->. done.
  - destruct Ho as [Hm Hs Hso [o Hf] _ _ _ _].
    split; [|done]. eapply table_ok_more; eassumption.
Qed.

Lemma sorted_session_ok u1 u2 s : session_ok s -> session_ok (sorted_session u1 u2 s).
Proof.
  unfold session_ok. intros Hs. cbn.
  assert (Permutation (std_sort (comparePDR u1 u2) (pdrs s)) (pdrs s)) as Hp.
  { apply (std_sort_permutation _ (precedence_of 0)). rewrite List.Forall_forall in Hs.
    intros a b Ha Hb. eapply comparePDR_ok; eauto. }
  rewrite List.Forall_forall in *. intros p Hin. apply Hs.
  eapply Permutation_in; eassumption.
Qed.

Lemma createBPFSession_ok u1 u2 e r c x c' :
  component_ok c -> createBPFSession u1 u2 e r c = (x, c') -> component_ok c'.
Proof.
  intros Hc Hx. unfold createBPFSession in Hx.
  destruct (session_objects c !! r) as [s|] eqn:Hr.
  2: { unfold bind, sort_pdrs, bind, get, of_option in Hx. rewrite Hr in Hx.
       now injection Hx as _ <-. }
  rewrite (bind_ok _ _ _ _ _ (sort_pdrs_eq u1 u2 r s c Hr)) in Hx.
  assert (session_ok s) as Hs.
  { pose proof (ok_sessions c Hc) as Hall. rewrite List.Forall_forall in Hall.
    apply Hall, in_lookup. eauto. }
  pose proof (component_ok_session c r s _ Hc Hr (sorted_session_ok u1 u2 s Hs) eq_refl) as H1'.
  set (s' := sorted_session u1 u2 s) in *. set (c1 := with_session_objects _ c) in *.
  assert (session_objects c1 !! r = Some s') as Hr1
    by (apply list_lookup_insert_eq; now apply lookup_lt_Some in Hr).
  destruct (pdrs s') as [|p l]; [now injection Hx as _ <-|].
  destruct (pdr_fields p) as [[[t i] a]|]; cbn [of_option] in Hx; [|now injection Hx as _ <-].
  rewrite bind_ret_l in Hx.
  destruct (pdr_far p s') as [f|]; cbn [of_option] in Hx; [|now injection Hx as _ <-].
  rewrite bind_ret_l in Hx. unfold bind in Hx.
  destruct (createPipeline _ _ _ _ _ _ c1) as [y c2] eqn:Hp.
  apply createPipeline_ok in Hp as (Ht2 & Hs2 & Hi2); [|apply H1'].
  assert (component_ok c2) as H2'.
  { destruct H1' as [_ ? ?]. split; [done|now rewrite Hs2|]. rewrite Hs2, Hi2. done. }
  destruct y; [|now injection Hx as _ <-]. injection Hx as _ <-.
  destruct H2' as [_ ? Hi]. split; [now apply (table_ok_ext c2)|done|].
  intros sid r'. cbn. rewrite lookup_insert_Some. intros [[<- <-]|[_ Hsid]]; [|auto].
  exists s'. now rewrite Hs2.
Qed.

Lemma removePipeline_ok sid c x c' :
  component_ok c -> removePipeline sid c = (x, c') -> component_ok c'.
Proof.
  intros [Ht Hs Hi]. unfold removePipeline. rewrite (bind_ok get _ _ _ _ eq_refl).
  destruct (mSessionProgramsMap (manager c) !! sid) as [[key p]|] eqn:Hp.
  2: { intros [= <- <-]. done. }
  destruct (table_live c Ht _ _ _ Hp) as (o & Ho & _).
  rewrite (bind_ok _ _ _ _ _ (release_programs_eq key p c o Ho)).
  erewrite bind_ok by reflexivity. set (c1 := with_programs _ _). intros Hx.
  assert (component_ok c1) as Hc1.
  { split; [|done|done]. now eapply (table_ok_delete c _ sid key p (torn o)). }
  revert Hx. unfold on_index, bind, zoom.
  destruct (BPFMap_remove key (getNextProgRuleIndexMap c1)) as [[z|err] idx];
    intros [= <- <-]; destruct Hc1 as [Ht1 ? ?]; (split; [now apply (table_ok_ext c1)|done..]).
Qed.

Lemma session_op_ok sr o c x c' :
  component_ok c -> session_op sr o c = (x, c') -> component_ok c'.
Proof.
  intros Hc [= _ <-]. destruct (session_objects c !! sr) as [s|] eqn:Hr; [|done].
  pose proof (ok_sessions c Hc) as Hs. rewrite List.Forall_forall in Hs.
  destruct (run_op o s) as [y s'] eqn:Ho. cbn [snd].
  apply (component_ok_session c sr s); [done|done| |].
  - eapply run_op_ok; [|exact Ho]. apply Hs, in_lookup. eauto.
  - now apply (run_op_ids o s y).
Qed.

Lemma new_session_ok cp up_seid c :
  component_ok c ->
  component_ok (with_session_objects (session_objects c ++ [new_pfcp_session cp up_seid]) c).
Proof.
  intros [Ht Hs Hi]. split; cbn.
  - now apply (table_ok_ext c).
  - apply List.Forall_app. split; [done|]. repeat constructor.
  - intros sid q Hq. destruct (Hi sid q Hq) as (s & Hs1 & ?). exists s.
    split; [|done]. rewrite lookup_app_l; [done|]. now apply lookup_lt_Some in Hs1.
Qed.

(** A program with another ARP table. *)
Definition same_program (o o' : far_program FarMap DevMap ArpMap) : Prop :=
  far_life o' = far_life o /\ far_fd o' = far_fd o /\ mpFARMap o' = mpFARMap o /\
  mpEgressInterfaceMap o' = mpEgressInterfaceMap o.

(** [c'] is [c], except for the ARP tables of the programs. *)
Record same_but_arp (c c' : component) : Prop := {
  arp_manager : manager c' = manager c;
  arp_seids : mSeidToSession c' = mSeidToSession c;
  arp_sessions : session_objects c' = session_objects c;
  arp_upf : mpUPFProgram c' = mpUPFProgram c;
  arp_counter : sIdCounter c' = sIdCounter c;
  arp_interfaces : interfaces c' = interfaces c;
  arp_objects p o : far_objects c !! p = Some o ->
    exists o', far_objects c' !! p = Some o' /\ same_program o o'
}.

#[export] Instance same_but_arp_refl : Reflexive same_but_arp.
Proof. intros c. split; try done. intros p o Ho. exists o. done. Qed.

#[export] Instance same_but_arp_trans : Transitive same_but_arp.
Proof.
  intros c1 c2 c3 [? ? ? ? ? ? H1'] [? ? ? ? ? ? H2']. split; try congruence.
  intros p o Ho. destruct (H1' p o Ho) as (o2 & Ho2 & ? & ? & ? & ?).
  destruct (H2' p o2 Ho2) as (o3 & Ho3 & ? & ? & ? & ?). exists o3. split; [done|].
  repeat split; congruence.
Qed.

Lemma on_arp_same {A} p (m : M ArpMap runtime_error A) c r c' :
  on_far_object p (on_arp m) c = (r, c') -> same_but_arp c c'.
Proof.
  unfold on_far_object. destruct (far_objects c !! p) as [o|] eqn:Ho; [|now intros [= _ <-]].
  unfold on_arp, zoom. destruct (m (mpArpTableMap o)) as [x a]. intros [= _ <-].
  split; try done. intros q o1 Hq. cbn. destruct (decide (p = q)) as [<-|Hne].
  - rewrite Hq in Ho. injection Ho as <-. eexists. split.
    + apply list_lookup_insert_eq. now apply lookup_lt_Some in Hq.
    + done.
  - exists o1. now rewrite list_lookup_insert_ne.
Qed.

Lemma store_arp_same programs ip mac c r c' :
  store_arp programs ip mac c = (r, c') -> same_but_arp c c'.
Proof.
  destruct programs as [[k p]|]; [|now intros [= _ <-]]. cbn. unfold bind.
  destruct (on_far_object _ _ c) as [[x|err] c1] eqn:Ho; apply on_arp_same in Ho;
    now intros [= _ <-].
Qed.

Lemma same_but_arp_ok c c' : same_but_arp c c' -> component_ok c -> component_ok c'.
Proof.
  intros [Hm Hi Hs _ _ _ Ho] [[H1' H2'] H3' H4']. split; [split|..]; rewrite ?Hm, ?Hi, ?Hs; eauto.
  intros sid k p Hp. destruct (H1' sid k p Hp) as (o & Hq & Hl1 & Hl2).
  destruct (Ho p o Hq) as (o' & Hq' & Hf & _). exists o'. unfold live. now rewrite Hf.
Qed.

Lemma dispatches_arp c c' key : same_but_arp c c' -> dispatches c' key = dispatches c key.
Proof.
  intros Ha. unfold dispatches, getNextProgRuleIndexMap, getNextProgRuleMap.
  now rewrite (arp_upf c c' Ha).
Qed.

Lemma deployed_arp c c' key p fd rec :
  same_but_arp c c' -> deployed c key p fd rec -> deployed c' key p fd rec.
Proof.
  intros Ha (Hd & o & Hq & Hl & Hr). split; [now rewrite (dispatches_arp c c' key Ha)|].
  destruct (arp_objects c c' Ha p o Hq) as (o' & Hq' & E1 & E2 & E3 & E4). exists o'.
  unfold live, leaves_by in *. now rewrite (arp_interfaces c c' Ha), E1, E2, E3, E4.
Qed.

Lemma quiet_UserPlaneComponent_tearDown : quiet UserPlaneComponent_tearDown.
Proof. unfold UserPlaneComponent_tearDown, on_upf_life. quiet. apply quiet_removeAll. Qed.

Lemma run_event_ok ev c x c' : component_ok c -> run_event ev c = (x, c') -> component_ok c'.
Proof.
  intros Hc He. destruct ev; cbn [run_event] in He.
  - injection He as _ <-. now apply new_session_ok.
  - eapply session_op_ok; eassumption.
  - eapply createBPFSession_ok; eassumption.
  - revert He. unfold removeBPFSession. rewrite (bind_ok get _ _ _ _ eq_refl).
    destruct (_ !! sid); [now apply removePipeline_ok|]. now intros [= _ <-].
  - apply quiet_create in He. now apply (same_pipelines_ok c).
  - apply quiet_remove in He. now apply (same_pipelines_ok c).
  - injection He as _ <-. now apply (same_pipelines_ok c).
  - apply store_arp_same in He. now apply (same_but_arp_ok c).
  - apply quiet_UserPlaneComponent_tearDown in He. now apply (same_pipelines_ok c).
Qed.

Lemma new_component_ok g u p n :
  component_ok (mk_component g u p new_program_manager ∅ n [] []).
Proof. split; [split|constructor|]; intros *; cbn; rewrite lookup_empty; done. Qed.


(** *** Programs of sessions *)

Lemma SessionProgram_tearDown_ok (p : session_program DevMap) :
  exists p', SessionProgram_tearDown set_link_ret p = (Ok tt, p').
Proof.
  unfold SessionProgram_tearDown, bind, gets, on_session_life, zoom.
  rewrite lc_tearDown_eq by done. destruct (decide _); eauto.
Qed.

Lemma tearDown_session_ok sid c p :
  mSessionProgramMap (manager c) !! sid = Some p ->
  exists p', tearDown_session sid c =
    (Ok tt, with_session_programs (<[sid := p']> (mSessionProgramMap (manager c))) c).
Proof.
  intros Hp. unfold tearDown_session. rewrite (bind_ok get _ _ _ _ eq_refl), Hp.
  destruct (SessionProgram_tearDown_ok p) as [p' ->]. exists p'. reflexivity.
Qed.

(** The programs of sessions: creating one for a free identifier loads
    it, sets its two egress interfaces and records it; a second creation for
    the identifier ends with an exception and changes nothing; removing gives
    the table back, and removing again ends with an exception. *)
Theorem session_program_create_remove e p0 d1 d sid c :
  mSessionProgramMap (manager c) !! sid = None -> env_ok session_map_names e ->
  bpf_map_update_elem (session_egress p0) UPLINK (if_nametoindex (mUDPInterface c)) BPF_ANY
    = (d1, 0) ->
  bpf_map_update_elem d1 DOWNLINK (if_nametoindex (mGTPInterface c)) BPF_ANY = (d, 0) ->
  exists c1 c2 p,
    create e p0 sid c = (Ok tt, c1) /\ findSessionProgram sid c1 = Some p /\
    mState (session_life p) = ATTACHED /\ session_egress p = d /\
    (forall e' p', create e' p' sid c1 = (Err SessionAlreadyExists, c1)) /\
    remove sid c1 = (Ok tt, c2) /\
    mSessionProgramMap (manager c2) = mSessionProgramMap (manager c) /\
    remove sid c2 = (Err SessionDoesNotExist, c2).
Proof.
  intros Hn He Hd1 Hd2.
  set (p := mk_session_program (mk_lifecycle ATTACHED
    (mSectionLinkInterfacesMap (session_life p0)) (opened e) (calls (session_life p0)))
    (session_progs p0) d).
  set (c1 := with_session_programs (<[sid := p]> (mSessionProgramMap (manager c))) c).
  assert (create e p0 sid c = (Ok tt, c1)) as Hc.
  { unfold create. rewrite (bind_ok get _ _ _ _ eq_refl), Hn. cbn [negb].
    rewrite guard_true, bind_ret_l. unfold SessionProgram_setup, on_session_life.
    rewrite (bind_ok _ _ _ _ _ (zoom_eq _ _ _ p0 _ _ (open_and_load_ok _ _ _ He))).
    unfold on_session_egress.
    erewrite bind_ok by (apply zoom_eq, BPFMap_update_ok; exact Hd1).
    erewrite bind_ok by (apply zoom_eq, BPFMap_update_ok; exact Hd2). reflexivity. }
  assert (mSessionProgramMap (manager c1) !! sid = Some p) as Hp
    by (cbn; apply lookup_insert_eq).
  destruct (tearDown_session_ok sid c1 p Hp) as [p' Ht].
  do 3 eexists. split; [exact Hc|]. split; [exact Hp|]. do 2 (split; [done|]). split.
  { intros e' q. unfold create. now rewrite (bind_ok get _ _ _ _ eq_refl), Hp. }
  split; [unfold remove; rewrite (bind_ok get _ _ _ _ eq_refl); unfold findSessionProgram;
          rewrite Hp, (bind_ok _ _ _ _ _ Ht); reflexivity|].
  assert (delete sid (<[sid := p']> (<[sid := p]> (mSessionProgramMap (manager c)))) =
          mSessionProgramMap (manager c)) as Hm
    by (rewrite insert_insert_eq, delete_insert_id; done).
  split; [exact Hm|].
  unfold remove. rewrite (bind_ok get _ _ _ _ eq_refl). unfold findSessionProgram. cbn.
  now rewrite Hm, Hn.
Qed.

(** Tearing everything down while there are programs of sessions uses the
    observer for each; the observer is set nowhere in the program, and without
    it the tear-down fails at the first of them. *)
Theorem removeAll_needs_observer c :
  mpOnNewSessionProgramObserver (manager c) = false ->
  mSessionProgramMap (manager c) <> ∅ ->
  exists c', removeAll c = (Err NullObserver, c') /\
    dom (mSessionProgramMap (manager c')) = dom (mSessionProgramMap (manager c)).
Proof.
  intros Ho Hne. unfold removeAll. rewrite (bind_ok get _ _ _ _ eq_refl).
  assert (forall k, In k (keys_in_order (mSessionProgramMap (manager c))) ->
            exists p, mSessionProgramMap (manager c) !! k = Some p) as Hin.
  { intros k. unfold keys_in_order. rewrite <- list_elem_of_In, merge_sort_Permutation.
    rewrite list_elem_of_fmap. intros ([k' p] & -> & Hp). exists p.
    now apply elem_of_map_to_list in Hp. }
  destruct (keys_in_order (mSessionProgramMap (manager c))) as [|k l] eqn:Hk.
  { exfalso. apply Hne. apply map_to_list_empty_iff.
    unfold keys_in_order in Hk. pose proof (merge_sort_Permutation Z.le
      (map fst (map_to_list (mSessionProgramMap (manager c))))) as Hp.
    rewrite Hk in Hp. apply Permutation_nil in Hp. now apply map_eq_nil in Hp. }
  destruct (Hin k) as [p Hp]; [now left|]. destruct (tearDown_session_ok k c p Hp) as [p' Ht].
  eexists. unfold bind at 1. cbn [removeAll_loop].
  rewrite (bind_ok _ _ _ _ _ Ht), (bind_ok get _ _ _ _ eq_refl). cbn. rewrite Ho.
  split; [reflexivity|]. cbn. rewrite dom_insert_lookup_L; [done|eauto].
Qed.

End Manager.

(** ** The program array has ten entries *)

(** C38: the identifier of a FAR program is its index in the program array and
    is never given again: once nine programs have been made, every further
    creation ends with an exception, after the key has been put into the index
    and the program has been loaded; the session is not recorded, the program
    is not released, and the key's packets are passed to the kernel. *)
Theorem identifiers_run_out {IdxMap FarMap DevMap ArpMap TeidMap}
    `{BpfMapLaws IdxMap next_rule_prog_index_key Z} `{BpfMap FarMap Z pfcp_far_t_}
    `{BpfMap DevMap Z Z} `{BpfMap TeidMap Z Z} nametoindex set_link_ret e sid teid si ue f
    (c : component (IdxMap := IdxMap) (ProgMap := prog_array) (FarMap := FarMap)
                   (DevMap := DevMap) (ArpMap := ArpMap) (TeidMap := TeidMap)) d1 d idx :
  let key := mk_key teid si ue in
  pa_max_entries (getNextProgRuleMap c) = 10 -> 10 <= sIdCounter c ->
  env_ok far_map_names (fe_env e) ->
  bpf_map_update_elem (fe_egress e) UPLINK (nametoindex (mUDPInterface c)) BPF_ANY = (d1, 0) ->
  bpf_map_update_elem d1 DOWNLINK (nametoindex (mGTPInterface c)) BPF_ANY = (d, 0) ->
  bpf_map_update_elem (getNextProgRuleIndexMap c) key (sIdCounter c) BPF_ANY = (idx, 0) ->
  exists c' o,
    createPipeline nametoindex set_link_ret e sid teid si ue f c =
      (Err MapCannotBeUpdated, c') /\
    manager c' = manager c /\ far_objects c' = far_objects c ++ [o] /\ live o /\
    bpf_map_lookup_elem (getNextProgRuleIndexMap c') key = Some (sIdCounter c) /\
    dispatches c' key = Ok XDP_PASS.
Proof.
  intros key Hmax Hid He Hd1 Hd2 Hi.
  assert (pa_in_range (getNextProgRuleMap c) (sIdCounter c) = false) as Hrange.
  { unfold pa_in_range. rewrite Hmax, (proj2 (Z.ltb_ge _ _) Hid). apply andb_false_r. }
  assert (bpf_map_update_elem (getNextProgRuleMap c) (sIdCounter c) (fe_fd e) BPF_ANY =
          (getNextProgRuleMap c, - E2BIG)) as Hp
    by (cbn; unfold pa_update; now rewrite Hrange).
  rewrite (createPipeline_no_room _ _ _ _ _ _ _ f c d1 d idx (- E2BIG)) by done.
  do 2 eexists. split; [reflexivity|]. do 2 (split; [reflexivity|]). split; [done|].
  pose proof (map_update_same _ _ _ _ _ Hi) as Hs. split; [exact Hs|].
  unfold dispatches, dispatch.
  change (getNextProgRuleIndexMap (with_object _ (with_index idx c))) with idx.
  change (getNextProgRuleMap (with_object _ (with_index idx c))) with (getNextProgRuleMap c).
  assert (bpf_tail_call (getNextProgRuleMap c) (sIdCounter c) = None) as Ht
    by (change (pa_lookup (getNextProgRuleMap c) (sIdCounter c) = None);
        unfold pa_lookup; now rewrite Hrange).
  now rewrite Hs, Ht.
Qed.

(** ** Witnesses *)

Module SampleManager.

Definition sys : Type :=
  component (IdxMap := hash_map next_rule_prog_index_key Z) (ProgMap := prog_array)
    (FarMap := hash_map Z pfcp_far_t_) (DevMap := hash_map Z Z)
    (ArpMap := hash_map Z (list Z)) (TeidMap := prog_array).
Definition key_ul : next_rule_prog_index_key := mk_key 100 0 168430090.
Definition upf0 : upf_program :=
  mk_upf_program (new_lifecycle IDLE) [("xdp_entry_point"%string, 7)]
    (mk_prog_array 10000 ∅) (mk_hash_map (K := next_rule_prog_index_key) (V := Z) 10 ∅)
    (mk_prog_array 10 ∅).
Definition far_env0 (fd : Z)
    : far_env (FarMap := hash_map Z pfcp_far_t_) (DevMap := hash_map Z Z)
        (ArpMap := hash_map Z (list Z)) :=
  mk_far_env SamplePrograms.env [("xdp_far"%string, fd)] fd
    (mk_hash_map (K := Z) (V := pfcp_far_t_) 1 ∅) (mk_hash_map (K := Z) (V := Z) 10 ∅)
    (mk_hash_map (K := Z) (V := list Z) 2 ∅).
Definition session_program0 : session_program (hash_map Z Z) :=
  mk_session_program (new_lifecycle IDLE) [("xdp_uplink_entry_point"%string, 8)]
    (mk_hash_map 10 ∅).
Definition c0 : sys :=
  mk_component "eth1" "eth0" upf0 new_program_manager ∅ 1 [] [SamplePfcp.session].
Definition deploy (fd : Z) (c : sys) : result runtime_error unit * sys :=
  createBPFSession SamplePrograms.nametoindex SamplePrograms.kernel_ok 0 0 (far_env0 fd) 0 c.
Definition c1 : sys := snd (deploy 21 c0).
Definition far_ul : pfcp_far :=
  match get_far 1 SamplePfcp.session with Some f => f | None => inhabitant end.

End SampleManager.

Import SamplePrograms SampleManager.

Lemma c0_ok : component_ok c0.
Proof.
  split; [split|repeat constructor|]; intros *; cbn; rewrite lookup_empty; done.
Qed.

Lemma c1_ok : component_ok c1.
Proof.
  unfold c1, deploy.
  match goal with |- component_ok (snd (?m c0)) =>
    pose proof (surjective_pairing (m c0)) as Hd
  end.
  exact (createBPFSession_ok nametoindex kernel_ok kernel_ok_unlinks 0 0 (far_env0 21) 0 c0
           _ _ c0_ok Hd).
Qed.

Lemma sample_accepts : exists d idx prg m,
  accepts nametoindex (far_env0 21) c0 key_ul (far_record far_ul) d idx prg m.
Proof.
  do 4 eexists. split.
  - apply env_fine.
  - eexists. split; reflexivity.
  - reflexivity.
  - reflexivity.
  - reflexivity.
Qed.


Example createBPFSession_refuses_witness :
  exists c', createBPFSession nametoindex kernel_ok 0 0 (far_env0 21) 0
    (with_session_objects [SamplePfcp.empty] c0) = (Err NoPdrInSession, c').
Proof.
  eexists. exact (createBPFSession_refuses nametoindex kernel_ok 0 0 (far_env0 21) 0
    SamplePfcp.empty (with_session_objects [SamplePfcp.empty] c0) eq_refl).
Defined.

Example removeBPFSession_removes_witness :
  exists c', removeBPFSession kernel_ok 1000 c1 = (Ok tt, c') /\
    dispatches c' key_ul = Ok XDP_PASS /\
    removeBPFSession kernel_ok 1000 c' = (Err SessionDoesNotExist, c').
Proof.
  destruct (removeBPFSession_removes kernel_ok kernel_ok_unlinks c1 1000 key_ul 0 0
    (mk_hash_map 10 ∅)) as (c' & H1 & H2 & _ & _ & _ & _ & _ & H3).
  - exact (ok_table c1 c1_ok).
  - vm_compute. reflexivity.
  - vm_compute. reflexivity.
  - vm_compute. reflexivity.
  - exists c'. repeat split; assumption.
Defined.

Definition key_dl : next_rule_prog_index_key := mk_key 0 1 168430090.
Definition idx2 : hash_map next_rule_prog_index_key Z :=
  fst (bpf_map_update_elem (getNextProgRuleIndexMap c1) key_dl 2 BPF_ANY).
Definition prg2 : prog_array :=
  fst (bpf_map_update_elem (getNextProgRuleMap c1) 2 22 BPF_ANY).
Definition far2 : hash_map Z pfcp_far_t_ :=
  fst (bpf_map_update_elem (fe_far (far_env0 22)) 0 (far_record far_ul) BPF_ANY).
Definition egress1 : hash_map Z Z :=
  fst (bpf_map_update_elem (fe_egress (far_env0 22)) UPLINK 3 BPF_ANY).
Definition egress2 : hash_map Z Z := fst (bpf_map_update_elem egress1 DOWNLINK 4 BPF_ANY).

Lemma sample_accepts2 :
  accepts nametoindex (far_env0 22) c1 key_dl (far_record far_ul) egress2 idx2 prg2 far2.
Proof.
  split; [apply env_fine|exists egress1; split| | |]; vm_compute; reflexivity.
Qed.

Example redeploy_keeps_old_key_witness :
  exists c', createPipeline nametoindex kernel_ok (far_env0 22) 1000 0 1 168430090 far_ul c1 =
    (Ok tt, c') /\ dispatches c' key_ul = Err (TailCall 21).
Proof.
  destruct (redeploy_keeps_old_key nametoindex kernel_ok kernel_ok_unlinks (far_env0 22) 1000
    0 1 168430090 far_ul c1 key_ul 0 1 21 egress2 idx2 prg2 far2
    (fst (bpf_map_delete_elem idx2 key_dl))) as (c' & _ & _ & H1 & _ & _ & H2 & _).
  - exact (ok_table c1 c1_ok).
  - vm_compute. reflexivity.
  - discriminate.
  - vm_compute. reflexivity.
  - vm_compute. reflexivity.
  - vm_compute. discriminate.
  - exact sample_accepts2.
  - vm_compute. reflexivity.
  - exists c'. split; assumption.
Defined.


Example session_program_create_remove_witness :
  exists c1 c2, create nametoindex env session_program0 5 c0 = (Ok tt, c1) /\
    remove kernel_ok 5 c1 = (Ok tt, c2) /\ remove kernel_ok 5 c2 = (Err SessionDoesNotExist, c2).
Proof.
  edestruct (session_program_create_remove nametoindex kernel_ok kernel_ok_unlinks env
    session_program0 egress1 egress2 5 c0) as (c1 & c2 & p & H1 & _ & _ & _ & _ & H2 & _ & H3).
  - reflexivity.
  - apply env_fine.
  - reflexivity.
  - reflexivity.
  - exists c1, c2. repeat split; assumption.
Defined.

Example removeAll_needs_observer_witness :
  exists c', removeAll kernel_ok (snd (create nametoindex env session_program0 5 c0)) =
    (Err NullObserver, c').
Proof.
  destruct (removeAll_needs_observer kernel_ok kernel_ok_unlinks
    (snd (create nametoindex env session_program0 5 c0))) as (c' & H & _).
  - reflexivity.
  - discriminate.
  - exists c'. exact H.
Defined.

Example identifiers_run_out_witness :
  exists c', createPipeline nametoindex kernel_ok (far_env0 21) 1 0 1 9 far_ul
    (with_far_objects 10 [] c0) = (Err MapCannotBeUpdated, c') /\
    dispatches c' (mk_key 0 1 9) = Ok XDP_PASS.
Proof.
  edestruct (identifiers_run_out nametoindex kernel_ok (far_env0 21) 1 0 1 9 far_ul
    (with_far_objects 10 [] c0)) as (c' & o & H1 & _ & _ & _ & _ & H2).
  - reflexivity.
  - cbn. lia.
  - apply env_fine.
  - reflexivity.
  - reflexivity.
  - reflexivity.
  - exists c'. split; assumption.
Defined.
