(* ===== verification/Shutdown.v ===== *)
(** * The end of the process (src/src: SignalHandler.cpp, UserPlaneComponent.cpp)

    The singletons are function-local statics: constructed by the first call of
    [getInstance], destroyed by [exit] in the reverse order.  A signal tears
    down and calls [exit]; the destructors tear down once more.  What is
    modelled is a signal between two requests; [Threads] has the signals that
    arrive in the middle of a tear-down or of a link. *)
From Stdlib Require Import ZArith Lia List Bool Sorted Permutation.
From stdpp Require Import base list gmap strings sorting.
From S2P Require Import Prelude StdSort Packet BpfInstances UpfXdp FarBpf PfcpTypes PfcpGroups.
From S2P Require Import PfcpRules PfcpSession LifeCycle BpfPrograms Manager.
Open Scope Z_scope.
Open Scope upf_scope.

(** ** Data *)

(** The singletons whose destructors do something; that of the logger is
    older than both. *)
Inductive singleton : Type :=
| TheUserPlaneComponent
| TheSessionProgramManager.

#[export] Instance singleton_eq_dec : EqDecision singleton.
Proof. solve_decision. Defined.

Section Shutdown.
Context {IdxMap ProgMap FarMap DevMap ArpMap TeidMap : Type}.
Context `{BpfMap IdxMap next_rule_prog_index_key Z} `{BpfMap ProgMap Z Z}
  `{BpfMap FarMap Z pfcp_far_t_} `{BpfMap DevMap Z Z} `{BpfMap TeidMap Z Z}.
Variable set_link_ret : Z -> Z -> Z.

Notation component := (component (IdxMap := IdxMap) (ProgMap := ProgMap) (FarMap := FarMap)
  (DevMap := DevMap) (ArpMap := ArpMap) (TeidMap := TeidMap)).
Notation comp := (comp (IdxMap := IdxMap) (ProgMap := ProgMap) (FarMap := FarMap)
  (DevMap := DevMap) (ArpMap := ArpMap) (TeidMap := TeidMap)).

(** [alive]: the singletons in use, the newest first.  [is_set_up]: whether
    [mpUPFProgram] points to a program. *)
Record process : Type := mk_process {
  the_component : component;
  is_set_up : bool;
  alive : list singleton;
  destroyed : list singleton
}.

Definition proc (A : Type) : Type := M process runtime_error A.

Definition on_component {A} (m : comp A) : proc A :=
  zoom the_component (fun c p => mk_process c (is_set_up p) (alive p) (destroyed p)) m.

(** ** Operations *)

(** [getInstance]: constructs the object, unless it is there. *)
Definition getInstance (x : singleton) : proc unit :=
  let* p := get in
  guard (negb (bool_decide (x ∈ destroyed p))) UsedAfterDestruction ;;;
  if bool_decide (x ∈ alive p) then ret tt
  else put (mk_process (the_component p) (is_set_up p) (x :: alive p) (destroyed p)).

(** UserPlaneComponent::tearDown, with the objects that it uses. *)
Definition process_tearDown : proc unit :=
  let* p := get in
  guard (is_set_up p) NullSkeleton ;;;
  on_component (on_upf_life
    (lc_tearDown (upf_progs (mpUPFProgram (the_component p))) set_link_ret)) ;;;
  getInstance TheSessionProgramManager ;;;
  on_component (removeAll set_link_ret).

(** The pipelines that the map of the manager still holds are released with it. *)
Fixpoint release_loop (seids : list Z) : comp unit :=
  match seids with
  | [] => ret tt
  | sid :: seids =>
      let* c := get in
      release_programs set_link_ret (mSessionProgramsMap (manager c) !! sid) ;;;
      modify (fun c => with_programs (delete sid (mSessionProgramsMap (manager c))) c) ;;;
      release_loop seids
  end.

(** ~SessionProgramManager *)
Definition destroy_manager : comp unit :=
  removeAll set_link_ret ;;;
  let* c := get in
  release_loop (keys_in_order (mSessionProgramsMap (manager c))).

Definition destructor (x : singleton) : proc unit :=
  match x with
  | TheUserPlaneComponent => process_tearDown
  | TheSessionProgramManager => on_component destroy_manager
  end.

(** The destructor of the newest singleton. *)
Definition exit_step : proc unit :=
  let* p := get in
  match alive p with
  | [] => ret tt
  | x :: l =>
      put (mk_process (the_component p) (is_set_up p) l (x :: destroyed p)) ;;;
      destructor x
  end.

(** [exit]: there are two singletons, and each is destroyed once. *)
Definition exit : proc unit := exit_step ;;; exit_step.

(** SignalHandler::tearDown *)
Definition signal_handler : proc unit :=
  getInstance TheUserPlaneComponent ;;;
  process_tearDown ;;;
  exit.

(** ** Lemmas *)

Context `{!BpfMapLaws IdxMap next_rule_prog_index_key Z} `{!BpfMapLaws ProgMap Z Z}
  `{!BpfMapLaws FarMap Z pfcp_far_t_} `{!DevMapLaws DevMap} `{BpfMap ArpMap Z (list Z)}.
Context `{ProgArray ProgMap} `{!ProgArrayLaws ProgMap} `{StdSortLaws}.
Hypothesis unlinks : forall i, set_link_ret i (-1) = 0.
Implicit Types c : component.

Lemma on_component_bind {A B} (m : comp A) (k : A -> proc B) c b a d r c1 :
  m c = (Ok r, c1) ->
  bind (on_component m) k (mk_process c b a d) = k r (mk_process c1 b a d).
Proof. intros Hm. unfold bind, on_component, zoom. cbn [the_component]. now rewrite Hm. Qed.

Lemma on_component_eq {A} (m : comp A) c b a d r c1 :
  m c = (r, c1) -> on_component m (mk_process c b a d) = (r, mk_process c1 b a d).
Proof. intros Hm. unfold on_component, zoom. cbn [the_component]. now rewrite Hm. Qed.

Lemma getInstance_eq x c b a d :
  getInstance x (mk_process c b a d) =
    if bool_decide (x ∈ d) then (Err UsedAfterDestruction, mk_process c b a d)
    else (Ok tt, mk_process c b (if bool_decide (x ∈ a) then a else x :: a) d).
Proof.
  unfold getInstance. rewrite (bind_ok get _ _ _ _ eq_refl). cbn [destroyed alive].
  destruct (bool_decide (x ∈ d)); [reflexivity|]. cbn [negb]. rewrite guard_true, bind_ret_l.
  now destruct (bool_decide (x ∈ a)).
Qed.

(** Without programs of sessions there is nothing to remove. *)
Lemma removeAll_empty c :
  mSessionProgramMap (manager c) = ∅ -> removeAll set_link_ret c = (Ok tt, c).
Proof.
  intros He. unfold removeAll. rewrite (bind_ok get _ _ _ _ eq_refl), He.
  change (keys_in_order (∅ : gmap Z (session_program DevMap))) with (@nil Z).
  cbn [removeAll_loop]. rewrite bind_ret_l. unfold modify, with_session_programs, with_manager.
  f_equal. rewrite <- He. destruct c as [g u up m s n o so]. now destruct m.
Qed.

(** The entry program torn down. *)
Definition upf_torn (c : component) : component :=
  let u := mpUPFProgram c in
  with_upf (mk_upf_program (snd (lc_tearDown (upf_progs u) set_link_ret (upf_life u)))
    (upf_progs u) (mpTeidSessionMap u) (mpNextProgRuleIndexMap u) (mpNextProgRuleMap u)) c.

Lemma upf_tearDown_eq c :
  on_upf_life (lc_tearDown (upf_progs (mpUPFProgram c)) set_link_ret) c = (Ok tt, upf_torn c).
Proof.
  unfold on_upf_life, zoom, upf_torn. rewrite lc_tearDown_eq by done.
  now destruct (decide _).
Qed.

Lemma upf_torn_idle c : mState (upf_life (mpUPFProgram (upf_torn c))) = IDLE.
Proof.
  unfold upf_torn. cbn [mpUPFProgram with_upf upf_life]. rewrite lc_tearDown_eq by done.
  now destruct (decide _).
Qed.

Lemma lc_tearDown_twice progs l :
  snd (lc_tearDown progs set_link_ret (snd (lc_tearDown progs set_link_ret l))) =
  snd (lc_tearDown progs set_link_ret l).
Proof.
  rewrite (lc_tearDown_eq progs set_link_ret l) by done.
  destruct (decide (mState l = IDLE)) as [Hi|Hi]; cbn [snd]; rewrite lc_tearDown_eq by done;
    now rewrite decide_True.
Qed.

Lemma upf_torn_twice c : upf_torn (upf_torn c) = upf_torn c.
Proof.
  unfold upf_torn, with_upf.
  cbn [mpUPFProgram upf_progs upf_life mpTeidSessionMap mpNextProgRuleIndexMap mpNextProgRuleMap].
  now rewrite lc_tearDown_twice.
Qed.

(** *** The pipelines *)

(** The pipelines under the identifiers of [l] are released, the others stay. *)
Record released_all (l : list Z) (c c' : component) : Prop := {
  ra_gone sid : sid ∈ l -> mSessionProgramsMap (manager c') !! sid = None;
  ra_stay sid : sid ∉ l ->
    mSessionProgramsMap (manager c') !! sid = mSessionProgramsMap (manager c) !! sid;
  ra_released sid key p :
    sid ∈ l -> mSessionProgramsMap (manager c) !! sid = Some (key, p) ->
    exists o, far_objects c' !! p = Some o /\ released o;
  ra_others p : (forall sid key, sid ∈ l ->
      mSessionProgramsMap (manager c) !! sid <> Some (key, p)) ->
    far_objects c' !! p = far_objects c !! p;
  ra_upf : mpUPFProgram c' = mpUPFProgram c;
  ra_sessions : mSessionProgramMap (manager c') = mSessionProgramMap (manager c);
  ra_table : table_ok c'
}.

Lemma release_one sid c :
  table_ok c ->
  exists c', (release_programs set_link_ret (mSessionProgramsMap (manager c) !! sid) ;;;
      modify (fun c => with_programs (delete sid (mSessionProgramsMap (manager c))) c)) c =
    (Ok tt, c') /\ released_all [sid] c c'.
Proof.
  intros Ht. destruct (mSessionProgramsMap (manager c) !! sid) as [[key p]|] eqn:Hs.
  - destruct (table_live c Ht _ _ _ Hs) as (o & Ho & Hl).
    rewrite (bind_ok _ _ _ _ _ (release_programs_eq set_link_ret unlinks key p c o Ho)).
    eexists. split; [reflexivity|]. split; cbn; try done.
    + intros s ->%list_elem_of_singleton. apply lookup_delete_eq.
    + intros s Hn. apply lookup_delete_ne. set_solver.
    + intros s k q ->%list_elem_of_singleton Hq. rewrite Hs in Hq. injection Hq as <- <-.
      exists (torn set_link_ret o). split; [|now apply torn_released].
      apply list_lookup_insert_eq. now apply lookup_lt_Some in Ho.
    + intros q Hno. apply list_lookup_insert_ne. intros <-. apply (Hno sid key); [|done].
      now apply list_elem_of_singleton.
    + now eapply (table_ok_delete c _ sid key p).
  - cbn [release_programs]. rewrite bind_ret_l. eexists. split; [reflexivity|].
    split; cbn; rewrite ?(delete_id _ _ Hs); try done.
    + intros s ->%list_elem_of_singleton. done.
    + intros s k q ->%list_elem_of_singleton Hq. congruence.
    + apply (table_ok_ext c); [done| |done]. cbn. now destruct (manager c).
Qed.

Lemma released_all_nil c : table_ok c -> released_all [] c c.
Proof. intros Ht. split; try done; intros *; now intros ?%not_elem_of_nil. Qed.

Lemma released_all_cons sid l c c1 c2 :
  sid ∉ l -> table_ok c -> released_all [sid] c c1 -> released_all l c1 c2 ->
  released_all (sid :: l) c c2.
Proof.
  intros Hnin Ht [G1 S1 R1 O1 U1 M1 T1] [G2 S2 R2 O2 U2 M2 T2].
  assert (sid ∈ [sid]) as Hin by now apply list_elem_of_singleton.
  assert (forall s, s ∈ l -> s ∉ [sid]) as Hne by (intros s Hs ->%list_elem_of_singleton; done).
  split; try congruence.
  - intros s [->|Hs]%elem_of_cons; [|now apply G2]. rewrite S2 by done. now apply G1.
  - intros s [Hs1 Hs2]%not_elem_of_cons. rewrite S2 by done. apply S1.
    now intros ->%list_elem_of_singleton.
  - intros s k p [->|Hs]%elem_of_cons Hp.
    + destruct (R1 sid k p Hin Hp) as (o & Ho & Hr). exists o. split; [|done].
      rewrite O2; [done|]. intros s' k' Hs'. rewrite S1 by now apply Hne. intros Hp'.
      apply Hnin. now rewrite (table_own c Ht _ _ _ _ _ Hp Hp').
    + apply (R2 s k p Hs). rewrite S1 by now apply Hne. exact Hp.
  - intros p Hno. rewrite O2, O1; [done| |].
    + intros s k ->%list_elem_of_singleton. apply Hno. now left.
    + intros s k Hs. rewrite S1 by now apply Hne. apply Hno. now right.
Qed.

Lemma release_loop_ok l c :
  NoDup l -> table_ok c ->
  exists c', release_loop l c = (Ok tt, c') /\ released_all l c c'.
Proof.
  revert c. induction l as [|sid l IH]; intros c Hnd Ht.
  { exists c. split; [done|now apply released_all_nil]. }
  apply NoDup_cons in Hnd as [Hnin Hnd]. cbn [release_loop].
  rewrite (bind_ok get _ _ _ _ eq_refl).
  destruct (release_one sid c Ht) as (c1 & Hc1 & Hr1).
  destruct (IH c1 Hnd (ra_table _ _ _ Hr1)) as (c2 & Hc2 & Hr2).
  exists c2. split; [|eapply released_all_cons; eassumption].
  rewrite <- bind_assoc. now rewrite (bind_ok _ _ _ _ _ Hc1).
Qed.

Lemma keys_in_order_spec {V} (m : gmap Z V) :
  NoDup (keys_in_order m) /\ forall k, k ∈ keys_in_order m <-> is_Some (m !! k).
Proof.
  unfold keys_in_order. split.
  - rewrite merge_sort_Permutation. apply NoDup_fst_map_to_list.
  - intros k. rewrite merge_sort_Permutation, list_elem_of_fmap. split.
    + intros ([k' v] & -> & Hv). exists v. now apply elem_of_map_to_list.
    + intros [v Hv]. exists (k, v). split; [done|]. now apply elem_of_map_to_list.
Qed.

(** Every pipeline of [c] is given back. *)
Definition pipelines_released (c c' : component) : Prop :=
  mSessionProgramsMap (manager c') = ∅ /\
  forall sid key p, mSessionProgramsMap (manager c) !! sid = Some (key, p) ->
    exists o, far_objects c' !! p = Some o /\ released o.

Lemma destroy_manager_ok c :
  table_ok c -> mSessionProgramMap (manager c) = ∅ ->
  exists c', destroy_manager c = (Ok tt, c') /\ pipelines_released c c' /\
    mpUPFProgram c' = mpUPFProgram c /\ mSessionProgramMap (manager c') = ∅.
Proof.
  intros Ht He. unfold destroy_manager.
  rewrite (bind_ok _ _ _ _ _ (removeAll_empty c He)), (bind_ok get _ _ _ _ eq_refl).
  destruct (keys_in_order_spec (mSessionProgramsMap (manager c))) as [Hnd Hk].
  destruct (release_loop_ok _ c Hnd Ht) as (c' & Hc' & [G S R _ U M _]).
  exists c'. split; [exact Hc'|]. split; [split|].
  - apply map_eq. intros sid. rewrite lookup_empty.
    destruct (decide (sid ∈ keys_in_order (mSessionProgramsMap (manager c)))) as [Hin|Hn].
    + now apply G.
    + rewrite S by done. apply eq_None_not_Some. now rewrite <- Hk.
  - intros sid key p Hp. apply (R sid key p); [|done]. apply Hk. eauto.
  - split; [done|]. now rewrite M.
Qed.

Lemma upf_torn_manager c : manager (upf_torn c) = manager c.
Proof. reflexivity. Qed.

(** The tear-down goes through unless the manager has been destroyed. *)
Lemma process_tearDown_eq c a d :
  mSessionProgramMap (manager c) = ∅ ->
  process_tearDown (mk_process c true a d) =
    if bool_decide (TheSessionProgramManager ∈ d)
    then (Err UsedAfterDestruction, mk_process (upf_torn c) true a d)
    else (Ok tt, mk_process (upf_torn c) true
            (if bool_decide (TheSessionProgramManager ∈ a) then a
             else TheSessionProgramManager :: a) d).
Proof.
  intros He. unfold process_tearDown. rewrite (bind_ok get _ _ _ _ eq_refl).
  cbn [is_set_up the_component]. rewrite guard_true, bind_ret_l.
  rewrite (on_component_bind _ _ _ _ _ _ _ _ (upf_tearDown_eq c)).
  assert (removeAll set_link_ret (upf_torn c) = (Ok tt, upf_torn c)) as Hr
    by now apply removeAll_empty.
  pose proof (getInstance_eq TheSessionProgramManager (upf_torn c) true a d) as Hg.
  destruct (bool_decide (TheSessionProgramManager ∈ d)).
  - now rewrite (bind_err _ _ _ _ _ Hg).
  - rewrite (bind_ok _ _ _ _ _ Hg). now apply on_component_eq.
Qed.

Lemma exit_step_component c a d :
  exit_step (mk_process c true (TheUserPlaneComponent :: a) d) =
    process_tearDown (mk_process c true a (TheUserPlaneComponent :: d)).
Proof. reflexivity. Qed.

Lemma exit_step_manager c c' a d :
  destroy_manager c = (Ok tt, c') ->
  exit_step (mk_process c true (TheSessionProgramManager :: a) d) =
    (Ok tt, mk_process c' true a (TheSessionProgramManager :: d)).
Proof.
  intros Hc. unfold exit_step. rewrite (bind_ok get _ _ _ _ eq_refl). cbn [alive].
  erewrite bind_ok by reflexivity. cbn [destructor]. unfold on_component, zoom.
  cbn [the_component]. now rewrite Hc.
Qed.

(** ** Property *)


End Shutdown.

(** ** Witness *)

Import SamplePrograms SampleManager.

