(* ===== verification/Pipeline.v ===== *)
(** * From the PFCP session to the packet

    The entry program and the FAR program of a deployed session, run one after
    the other on the maps the control plane filled: the entry program tail-calls
    the descriptor that [Manager.deployed] promises, and the FAR program runs on
    the FAR map and the egress map of the same object. *)
From Stdlib Require Import ZArith Lia List Bool.
From stdpp Require Import base list gmap strings.
From S2P Require Import Prelude Packet BpfInstances Csum UpfXdp FarBpf PfcpTypes PfcpGroups.
From S2P Require Import PfcpRules PfcpSession LifeCycle BpfPrograms Manager.
Open Scope Z_scope.
Open Scope upf_scope.

Section Pipeline.
Context {IdxMap ProgMap FarMap DevMap ArpMap TeidMap : Type}.
Context `{BpfMapLaws IdxMap next_rule_prog_index_key Z} `{ProgArray ProgMap}
  `{BpfMap FarMap Z pfcp_far_t_} `{BpfMap ArpMap Z (list Z)} `{XdpHelperLaws DevMap}
  `{BpfMap DevMap Z Z} `{!RedirectLaws DevMap}.
Variable if_nametoindex : string -> Z.
Variable linux_version_code : Z.

(** A frame that arrives and is handed to the program of its session: the
    entry program, then [far_entry_point] of the object behind [p]. *)
Definition run_pipeline
    (c : component (IdxMap := IdxMap) (ProgMap := ProgMap) (FarMap := FarMap)
                   (DevMap := DevMap) (ArpMap := ArpMap) (TeidMap := TeidMap)) (p : nat) : xdp Z := fun pkt =>
  match eth_handle (getNextProgRuleIndexMap c) (getNextProgRuleMap c) 0 pkt,
        far_objects c !! p with
  | (Err (TailCall fd), pkt'), Some o =>
      if fd =? far_fd o
      then far_entry_point linux_version_code (mpFARMap o) (mpArpTableMap o)
             (mpEgressInterfaceMap o) pkt'
      else (Err (TailCall fd), pkt')
  | r, _ => r
  end.

Lemma run_pipeline_deployed c key p fd rec pkt o :
  deployed if_nametoindex c key p fd rec -> bytes (data pkt) -> classify (data pkt) = Session key ->
  far_objects c !! p = Some o ->
  run_pipeline c p pkt =
    pfcp_far_apply linux_version_code (mpArpTableMap o) (mpEgressInterfaceMap o) (Some rec) pkt.
Proof.
  intros (Hd & o' & Ho & _ & Hfd & Hrec & _) Hb Hc Hp. rewrite Hp in Ho. injection Ho as <-.
  unfold run_pipeline. rewrite eth_handle_spec, Hc by done. unfold dispatches in Hd.
  rewrite Hd, Hp, Hfd, Z.eqb_refl. unfold far_entry_point. change (u8 0) with 0.
  now rewrite Hrec.
Qed.

(** ** Properties *)

(** Uplink: with a pipeline deployed for a TEID, ACCESS and a
    sender, whose FAR removes the tunnel, a G-PDU of that TEID and sender loses
    its outer IPv4, UDP and GTP-U headers, gets the MAC address of the inner
    destination and is redirected: the session's own program has the UDP
    interface of the component as its UPLINK; everything else of the frame is
    kept. *)
Theorem deployed_uplink c teid src p fd rec eth ip udp gtp inner pkt mac :
  deployed if_nametoindex c (mk_key teid UpfXdp.INTERFACE_VALUE_ACCESS src) p fd rec ->
  kind_of rec = Decap ->
  data pkt = eth ++ ip ++ udp ++ gtp ++ inner -> bytes (data pkt) ->
  is_uplink eth ip udp gtp inner ->
  if_nametoindex (fst (interfaces c)) <> 0 ->
  le_dec (field 4 4 gtp) = teid -> le_dec (field 12 4 ip) = src ->
  (forall o, far_objects c !! p = Some o ->
     bpf_map_lookup_elem (mpArpTableMap o) (le_dec (field 16 4 inner)) = Some mac) ->
  length mac = 6%nat ->
  (forall d, length d = length (data pkt) ->
     fst (bpf_xdp_adjust_head 36 (mk_xdp_md (headroom pkt) d)) = 0) ->
  exists o pkt',
    far_objects c !! p = Some o /\ live o /\
    bpf_map_lookup_elem (mpEgressInterfaceMap o) UPLINK =
      Some (if_nametoindex (fst (interfaces c))) /\
    run_pipeline c p pkt = (Ok XDP_REDIRECT, pkt') /\
    data pkt' = mac ++ drop 6 eth ++ inner.
Proof.
  intros Hdep Hk Hd Hb Hu Hif <- <- Harp Hmac Hadj.
  pose proof Hdep as (_ & o & Ho & Hl & _ & _ & Hul & _). exists o. specialize (Hul Hif).
  specialize (Harp o Ho).
  rewrite <- (redirect_entry _ _ _ 0 Hul).
  pose proof Hu as (He & Hi & Hud & Hg & Hn & _).
  rewrite (run_pipeline_deployed _ _ _ _ _ _ _ Hdep Hb) by
    (rewrite ?Hd; (now apply classify_uplink) || done).
  rewrite !(app_assoc ip), !(app_assoc (ip ++ udp)) in Hd.
  pose proof (far_apply_decap linux_version_code (mpArpTableMap o) (mpEgressInterfaceMap o)
    UPLINK DOWNLINK rec pkt eth ((ip ++ udp) ++ gtp) inner mac Hk Hd He) as Hr.
  apply runs_ok in Hr as (a & pkt' & Heq & -> & Hd'); [exists pkt'; auto| |done..].
  rewrite !length_app, Hi, Hud, Hg. done.
Qed.

(** Downlink, end to end: with a pipeline deployed for CORE and the
    address of the UE, whose FAR asks for a GTP-U/UDP/IPv4 tunnel, a datagram to
    the UE is redirected, to the GTP interface of the component, which the
    session's own program has as its DOWNLINK, as a frame with the FAR's outer
    headers around the original packet. *)
Theorem deployed_downlink c ue p fd rec eth ip udp rest pkt pkt1 mac :
  let ohc := outer_header_creation (FarBpf.forwarding_parameters rec) in
  let payload := ip ++ udp ++ rest in
  deployed if_nametoindex c (mk_key 0 UpfXdp.INTERFACE_VALUE_CORE ue) p fd rec ->
  kind_of rec = Encap ->
  data pkt = eth ++ payload -> bytes (data pkt) -> is_downlink eth ip udp ->
  if_nametoindex (snd (interfaces c)) <> 0 -> le_dec (field 16 4 ip) = ue ->
  bpf_xdp_adjust_head (-36) pkt = (0, pkt1) ->
  0 <= ohc_ipv4_address ohc < 2 ^ 32 ->
  (forall o, far_objects c !! p = Some o ->
     bpf_map_lookup_elem (mpArpTableMap o) (ohc_ipv4_address ohc) = Some mac) ->
  length mac = 6%nat -> KERNEL_VERSION 4 16 0 <= linux_version_code ->
  exists o pkt' chk,
    far_objects c !! p = Some o /\ live o /\
    bpf_map_lookup_elem (mpEgressInterfaceMap o) DOWNLINK =
      Some (if_nametoindex (snd (interfaces c))) /\
    run_pipeline c p pkt = (Ok XDP_REDIRECT, pkt') /\
    data pkt' = gtpu_frame rec mac eth payload chk /\
    rfc1071_ok (outer_ip (be_dec (field 2 2 payload) + 36) (ohc_ipv4_address ohc) chk).
Proof.
  intros ohc payload Hdep Hk Hd Hb Hu Hif <- Hadj Hip Harp Hmac Hver.
  pose proof Hdep as (_ & o & Ho & Hl & _ & _ & _ & Hdl). exists o. specialize (Hdl Hif).
  specialize (Harp o Ho).
  rewrite <- (redirect_entry _ _ _ 0 Hdl).
  pose proof Hu as (He & Hi & _).
  rewrite (run_pipeline_deployed _ _ _ _ _ _ _ Hdep Hb) by
    (rewrite ?Hd; (now apply classify_downlink) || done).
  assert (bytes payload) as Hp by (rewrite Hd in Hb; now apply bytes_app in Hb).
  assert (20 <= length payload)%nat as Hlen by (unfold payload; rewrite length_app; lia).
  assert (runs (pfcp_far_apply linux_version_code (mpArpTableMap o) (mpEgressInterfaceMap o)
      (Some rec)) pkt (fun a pkt' =>
    a = bpf_redirect_map (mpEgressInterfaceMap o) DOWNLINK 0 /\ exists chk,
      data pkt' = gtpu_frame rec mac eth payload chk /\
      rfc1071_ok (outer_ip (be_dec (field 2 2 payload) + 36) (ohc_ipv4_address ohc) chk)))
    as Hr.
  { apply far_apply_encap; [done|rewrite Hd, length_app; lia|].
    eapply runs_weaken; [eapply create_outer_header_spec; done|]. tauto. }
  apply runs_ok in Hr as (a & pkt' & Heq & -> & chk & Hd' & Hv).
  exists pkt', chk. do 5 (split; [done|]). done.
Qed.

End Pipeline.

(** ** Witnesses *)

Module SamplePipeline.

Definition gtp : list Z := [0x30; 255; 0; 31; 100; 0; 0; 0].
Definition ip_ue : list Z := take 12 (Sample.ip IPPROTO_UDP) ++ [10; 10; 10; 10; 10; 10; 10; 10].
Definition uplink : xdp_md :=
  Sample.pkt (SampleFar.frame_eth ++ ip_ue ++ Sample.udp GTP_UDP_PORT ++ gtp ++
              SampleFar.packet).
Definition downlink : xdp_md :=
  Sample.pkt (SampleFar.frame_eth ++ ip_ue ++ Sample.udp 53 ++ [1; 2; 3]).
Definition far_dl : pfcp_far :=
  match get_far 2 SamplePfcp.session with Some f => f | None => inhabitant end.
(** The MAC addresses of the next hops, stored in the map of the program. *)
Definition learn (c : SampleManager.sys) : SampleManager.sys :=
  snd ((let* _ := on_far_object 0
          (on_arp (BPFMap_update SampleFar.gnb_ip SampleFar.mac BPF_ANY)) in
        on_far_object 0
          (on_arp (BPFMap_update (le_dec [10; 1; 3; 30]) SampleFar.mac BPF_ANY))) c).
Definition c1 : SampleManager.sys := learn SampleManager.c1.
Definition c2 : SampleManager.sys := learn (
  snd (createPipeline SamplePrograms.nametoindex SamplePrograms.kernel_ok
         (SampleManager.far_env0 22) 2000 0 1 168430090 far_dl SampleManager.c0)).

Lemma c1_deployed :
  deployed SamplePrograms.nametoindex c1 SampleManager.key_ul 0 21 (far_record SampleManager.far_ul).
Proof.
  split; [vm_compute; reflexivity|]. eexists. split; [vm_compute; reflexivity|].
  repeat split; vm_compute; reflexivity.
Qed.

Lemma c2_deployed :
  deployed SamplePrograms.nametoindex c2 (mk_key 0 1 168430090) 0 22 (far_record far_dl).
Proof.
  split; [vm_compute; reflexivity|]. eexists. split; [vm_compute; reflexivity|].
  repeat split; vm_compute; reflexivity.
Qed.

Lemma c1_arp o :
  far_objects c1 !! 0%nat = Some o ->
  bpf_map_lookup_elem (mpArpTableMap o) (le_dec (field 16 4 SampleFar.packet)) =
    Some SampleFar.mac.
Proof. intros Ho. vm_compute in Ho. injection Ho as <-. vm_compute. reflexivity. Qed.

Lemma c2_arp o :
  far_objects c2 !! 0%nat = Some o ->
  bpf_map_lookup_elem (mpArpTableMap o)
    (ohc_ipv4_address (outer_header_creation
       (FarBpf.forwarding_parameters (far_record far_dl)))) = Some SampleFar.mac.
Proof. intros Ho. vm_compute in Ho. injection Ho as <-. vm_compute. reflexivity. Qed.

End SamplePipeline.

Import SamplePipeline.

Example deployed_uplink_witness :
  exists pkt', run_pipeline SampleFar.version c1 0 uplink =
    (Ok XDP_REDIRECT, pkt') /\
    data pkt' = SampleFar.mac ++ drop 6 SampleFar.frame_eth ++ SampleFar.packet.
Proof.
  destruct (deployed_uplink SamplePrograms.nametoindex SampleFar.version c1 100 168430090
    0 21 _ SampleFar.frame_eth ip_ue (Sample.udp GTP_UDP_PORT) gtp SampleFar.packet uplink
    SampleFar.mac c1_deployed) as (o & pkt' & Ho & _ & _ & Hr & Hd).
  - reflexivity.
  - reflexivity.
  - apply bytes_bool. reflexivity.
  - repeat split. vm_compute. lia.
  - vm_compute. discriminate.
  - reflexivity.
  - reflexivity.
  - intros o Ho. apply (c1_arp o). exact Ho.
  - reflexivity.
  - intros d Hd. cbn. unfold sample_adjust_head. cbn [data Z.ltb]. rewrite Hd. reflexivity.
  - exists pkt'. split; [exact Hr|exact Hd].
Defined.

Example deployed_downlink_witness :
  exists pkt' chk, run_pipeline SampleFar.version c2 0 downlink =
    (Ok XDP_REDIRECT, pkt') /\
    data pkt' = gtpu_frame (far_record far_dl) SampleFar.mac SampleFar.frame_eth
      (ip_ue ++ Sample.udp 53 ++ [1; 2; 3]) chk.
Proof.
  destruct (deployed_downlink SamplePrograms.nametoindex SampleFar.version c2 168430090
    0 22 _ SampleFar.frame_eth ip_ue (Sample.udp 53) [1; 2; 3] downlink
    (snd (sample_adjust_head (-36) downlink)) SampleFar.mac c2_deployed)
    as (o & pkt' & chk & Ho & _ & _ & Hr & Hd & _).
  - reflexivity.
  - reflexivity.
  - apply bytes_bool. reflexivity.
  - repeat split. discriminate.
  - vm_compute. discriminate.
  - reflexivity.
  - reflexivity.
  - vm_compute. split; [discriminate|reflexivity].
  - intros o Ho. apply (c2_arp o). exact Ho.
  - reflexivity.
  - vm_compute. discriminate.
  - exists pkt', chk. split; [exact Hr|exact Hd].
Defined.
