(* ===== verification/Interleave.v ===== *)
(** * Deployment and removal, as packets see them

    A deployment is a sequence of updates of maps that the datapath reads all
    the time.  Here SessionProgramManager::createPipeline and removePipeline are
    lists of steps, run one after the other; packets may come between any two of
    them. *)
From Stdlib Require Import ZArith Lia List Bool.
From stdpp Require Import base list gmap strings.
From S2P Require Import Prelude Packet BpfInstances Csum UpfXdp FarBpf PfcpTypes PfcpGroups.
From S2P Require Import PfcpRules PfcpSession LifeCycle BpfPrograms Manager Pipeline.
Open Scope Z_scope.
Open Scope upf_scope.

Section Interleave.
Context {IdxMap ProgMap FarMap DevMap ArpMap TeidMap : Type}.
Context `{BpfMapLaws IdxMap next_rule_prog_index_key Z} `{BpfMapLaws ProgMap Z Z}
  `{BpfMapLaws FarMap Z pfcp_far_t_} `{BpfMap ArpMap Z (list Z)} `{XdpHelpers DevMap}
  `{DevMapLaws DevMap} `{!ProgArray ProgMap} `{!ProgArrayLaws ProgMap}.
Variable if_nametoindex : string -> Z.
Variable set_link_ret : Z -> Z -> Z.
Variable linux_version_code : Z.

Notation component := (component (IdxMap := IdxMap) (ProgMap := ProgMap) (FarMap := FarMap)
  (DevMap := DevMap) (ArpMap := ArpMap) (TeidMap := TeidMap)).
Notation comp := (comp (IdxMap := IdxMap) (ProgMap := ProgMap) (FarMap := FarMap)
  (DevMap := DevMap) (ArpMap := ArpMap) (TeidMap := TeidMap)).
Notation far_env := (far_env (FarMap := FarMap) (DevMap := DevMap) (ArpMap := ArpMap)).

(** ** Steps *)

(** A step works on the component and on the local variables of the function. *)
Fixpoint run_steps {V} (l : list (V -> comp V)) (v : V) : comp V :=
  match l with
  | [] => ret v
  | s :: l => let* v := s v in run_steps l v
  end.

(** The local variables of createPipeline: the new program, [id] and [fd]. *)
Record locals : Type := mk_locals { pFARProgram : nat; local_id : Z; local_fd : Z }.

Section CreatePipeline.
Variables (e : far_env) (seid : Z) (key : next_rule_prog_index_key) (far : pfcp_far_t_).

Definition construct (v : locals) : comp locals :=
  let* p := new_FARProgram e in ret (mk_locals p (local_id v) (local_fd v)).

Definition set_up (v : locals) : comp locals :=
  let* c := get in
  on_far_object (pFARProgram v)
    (FARProgram_setup if_nametoindex (fe_env e) (mUDPInterface c) (mGTPInterface c)) ;;;
  ret v.

Definition read_locals (v : locals) : comp locals :=
  let* id := on_far_object (pFARProgram v) (gets mId) in
  let* fd := on_far_object (pFARProgram v) getFd in
  ret (mk_locals (pFARProgram v) id fd).

Definition update_index (v : locals) : comp locals :=
  let* _ := on_index (BPFMap_update key (local_id v) BPF_ANY) in ret v.

Definition update_slot (v : locals) : comp locals :=
  let* _ := on_prog (BPFMap_update (local_id v) (local_fd v) BPF_ANY) in ret v.

Definition store_far (v : locals) : comp locals :=
  let* _ := on_far_object (pFARProgram v) (on_far_map (BPFMap_update 0 far BPF_ANY)) in ret v.

Definition store_pipeline (v : locals) : comp locals :=
  store_programs set_link_ret seid key (pFARProgram v) ;;; ret v.

Definition create_steps : list (locals -> comp locals) :=
  [construct; set_up; read_locals; update_index; update_slot; store_far; store_pipeline].

End CreatePipeline.

(** removePipeline, once it has found the pipeline. *)
Definition remove_steps (seid : Z) (key : next_rule_prog_index_key) (p : nat)
    : list (unit -> comp unit) :=
  [ (fun _ => release_programs set_link_ret (Some (key, p)));
    (fun _ =>
       modify (fun c => with_programs (delete seid (mSessionProgramsMap (manager c))) c));
    (fun _ => let* _ := on_index (BPFMap_remove (V := Z) key) in ret tt) ].

(** ** Lemmas *)

Implicit Types c : component.

Lemma bind_cong {S E A B} (m : M S E A) (k1 k2 : A -> M S E B) s :
  (forall a s', k1 a s' = k2 a s') -> bind m k1 s = bind m k2 s.
Proof. intros Hk. unfold bind. destruct (m s) as [[a|err] s']; [apply Hk|reflexivity]. Qed.

Lemma bind_unit {S E} (m : M S E unit) s : bind m (fun _ => ret tt) s = m s.
Proof. unfold bind. destruct (m s) as [[[]|err] s']; reflexivity. Qed.

(** Two sequences of the same calls. *)
Ltac same_calls :=
  repeat (rewrite ?bind_assoc; first [rewrite !bind_ret_l|apply bind_cong; intros ? ?]);
  cbn [pFARProgram local_id local_fd].

(** The steps in a row are the functions. *)
Lemma create_steps_run e seid teid si ue f v c :
  (let* _ := run_steps (create_steps e seid (mk_key teid si ue) (far_record f)) v in ret tt) c =
  createPipeline if_nametoindex set_link_ret e seid teid si ue f c.
Proof.
  unfold createPipeline, create_steps, construct, set_up, read_locals, update_index, update_slot,
    store_far, store_pipeline.
  cbn [run_steps]. same_calls.
  etransitivity; [|apply bind_unit]. rewrite !bind_assoc. apply bind_cong. reflexivity.
Qed.

Lemma remove_steps_run seid key p c :
  mSessionProgramsMap (manager c) !! seid = Some (key, p) ->
  run_steps (remove_steps seid key p) tt c = removePipeline set_link_ret seid c.
Proof.
  intros Hs. unfold removePipeline, remove_steps. cbn [run_steps].
  rewrite (bind_ok get _ _ _ _ eq_refl), Hs. same_calls. reflexivity.
Qed.

Lemma run_steps_take {V} n (s : V -> comp V) l v c v1 c1 :
  s v c = (Ok v1, c1) -> run_steps (take (S n) (s :: l)) v c = run_steps (take n l) v1 c1.
Proof. intros Hs. cbn [take run_steps]. now rewrite (bind_ok _ _ _ _ _ Hs). Qed.

(** What a packet meets behind the tail call: the descriptor and the maps. *)
Definition view (o : far_program FarMap DevMap ArpMap) : Z * FarMap * ArpMap * DevMap :=
  (far_fd o, mpFARMap o, mpArpTableMap o, mpEgressInterfaceMap o).

Definition views c (p : nat) : option (Z * FarMap * ArpMap * DevMap) := view <$> far_objects c !! p.

Lemma run_pipeline_views c c' p pkt :
  bytes (data pkt) ->
  (forall key, classify (data pkt) = Session key -> dispatches c' key = dispatches c key) ->
  views c' p = views c p ->
  run_pipeline linux_version_code c' p pkt = run_pipeline linux_version_code c p pkt.
Proof.
  intros Hb Hd Hv. unfold run_pipeline. rewrite !eth_handle_spec by done.
  unfold dispatches in Hd. destruct (classify (data pkt)) as [a|key]; [reflexivity|].
  rewrite (Hd key eq_refl). unfold views in Hv.
  destruct (far_objects c' !! p) as [o'|], (far_objects c !! p) as [o|]; try discriminate Hv;
    [|reflexivity].
  injection Hv as Hf -> -> ->. now rewrite Hf.
Qed.

(** A component with a new object, and what can be seen of it. *)
Lemma views_new o c : views (with_object o c) (length (far_objects c)) = Some (view o).
Proof. unfold views. cbn. now rewrite list_lookup_middle by done. Qed.

Lemma views_old o c p : (p < length (far_objects c))%nat -> views (with_object o c) p = views c p.
Proof. intros Hp. unfold views. cbn. now rewrite lookup_app_l. Qed.

Hypothesis unlinks : forall i, set_link_ret i (-1) = 0.

Lemma view_torn o : view (torn set_link_ret o) = view o.
Proof. reflexivity. Qed.

Lemma views_stored c c' seid o :
  far_objects c' =
    (match mSessionProgramsMap (manager c) !! seid with
     | Some (_, p) => alter (torn set_link_ret) p (far_objects c)
     | None => far_objects c
     end) ++ [o] ->
  views c' (length (far_objects c)) = Some (view o) /\
  forall p, (p < length (far_objects c))%nat -> views c' p = views c p.
Proof.
  intros Ho. unfold views. rewrite Ho.
  destruct (mSessionProgramsMap (manager c) !! seid) as [[k p0]|].
  - split; [now rewrite list_lookup_middle by now rewrite length_alter|].
    intros p Hp. rewrite lookup_app_l by now rewrite length_alter. rewrite list_lookup_alter.
    destruct (decide (p0 = p)) as [->|]; [|done]. now destruct (far_objects c !! p).
  - split; [now rewrite list_lookup_middle|]. intros p Hp. now rewrite lookup_app_l.
Qed.

(** The component after [n] steps of a deployment. *)
Record after_steps (n : nat) (e : far_env) c c' (d : DevMap) (idx : IdxMap) (prg : ProgMap)
    (m : FarMap) : Prop := {
  after_index : getNextProgRuleIndexMap c' =
    if (n <? 4)%nat then getNextProgRuleIndexMap c else idx;
  after_prog : getNextProgRuleMap c' = if (n <? 5)%nat then getNextProgRuleMap c else prg;
  after_old p : (p < length (far_objects c))%nat -> views c' p = views c p;
  after_new : (2 <= n)%nat ->
    views c' (length (far_objects c)) =
      Some (fe_fd e, (if (n <? 6)%nat then fe_far e else m), fe_arp e, d)
}.

Lemma after_object n e o c c' d idx prg m :
  c' = with_object o c \/ c' = with_object o (with_index idx c) \/
    c' = with_object o (with_prog prg (with_index idx c)) ->
  getNextProgRuleIndexMap c' = (if (n <? 4)%nat then getNextProgRuleIndexMap c else idx) ->
  getNextProgRuleMap c' = (if (n <? 5)%nat then getNextProgRuleMap c else prg) ->
  ((2 <= n)%nat -> view o = (fe_fd e, (if (n <? 6)%nat then fe_far e else m), fe_arp e, d)) ->
  after_steps n e c c' d idx prg m.
Proof.
  intros Hc Hi Hp Hv. split; [exact Hi|exact Hp| |].
  - intros p Hp'. destruct Hc as [->|[->| ->]]; now rewrite views_old.
  - intros Hn. rewrite <- (Hv Hn).
    destruct Hc as [->|[->| ->]]; [apply views_new|..]; unfold views; cbn;
      now rewrite list_lookup_middle.
Qed.

(** The end of a list of steps. *)
Lemma run_steps_nil {V} n v c : run_steps (V := V) (take n []) v c = (Ok v, c).
Proof. now destruct n. Qed.

(** The steps one by one, when the kernel accepts the program. *)
Section Accepted.
Variables (e : far_env) (c : component) (seid : Z) (key : next_rule_prog_index_key)
  (rec : pfcp_far_t_) (d : DevMap) (idx : IdxMap) (prg : ProgMap) (m : FarMap).
Hypothesis Hacc : accepts if_nametoindex e c key rec d idx prg m.

Let p := length (far_objects c).
Let loaded := loaded_object e (sIdCounter c) d (fe_far e).
Let w := mk_locals p (sIdCounter c) (fe_fd e).

Lemma construct_eq v :
  construct e v c =
    (Ok (mk_locals p (local_id v) (local_fd v)), with_object (fresh_object e (sIdCounter c)) c).
Proof. reflexivity. Qed.

Lemma set_up_eq v :
  pFARProgram v = p ->
  set_up e v (with_object (fresh_object e (sIdCounter c)) c) = (Ok v, with_object loaded c).
Proof.
  intros Hv. destruct Hacc as [He (d1 & Hd1 & Hd2) _ _ _].
  unfold set_up. rewrite (bind_ok get _ _ _ _ eq_refl), Hv.
  now rewrite (bind_ok _ _ _ _ _ (setup_new_object if_nametoindex e c d1 d He Hd1 Hd2)).
Qed.

Lemma read_locals_eq v :
  pFARProgram v = p -> read_locals v (with_object loaded c) = (Ok w, with_object loaded c).
Proof.
  intros Hv. unfold read_locals. rewrite Hv.
  rewrite (bind_ok _ _ _ _ _ (on_new_object_eq (gets mId) loaded c _ _ eq_refl)).
  now rewrite (bind_ok _ _ _ _ _ (on_new_object_eq getFd loaded c _ _ eq_refl)).
Qed.

Lemma update_index_eq :
  update_index key w (with_object loaded c) = (Ok w, with_object loaded (with_index idx c)).
Proof.
  unfold update_index. cbn [local_id].
  now rewrite (bind_ok _ _ _ _ _ (on_index_update _ _ _ (with_object loaded c) idx
    (accepts_index _ _ _ _ _ _ _ _ _ Hacc))).
Qed.

Lemma update_slot_eq :
  update_slot w (with_object loaded (with_index idx c)) = (Ok w, with_deployed loaded idx prg c).
Proof.
  unfold update_slot. cbn [local_id local_fd].
  now rewrite (bind_ok _ _ _ _ _ (on_prog_update _ _ _ (with_index idx (with_object loaded c)) prg
    (accepts_prog _ _ _ _ _ _ _ _ _ Hacc))).
Qed.

Lemma store_far_eq :
  store_far rec w (with_deployed loaded idx prg c) =
    (Ok w, with_deployed (loaded_object e (sIdCounter c) d m) idx prg c).
Proof.
  unfold store_far. cbn [pFARProgram].
  assert (on_far_map (BPFMap_update 0 rec BPF_ANY) loaded =
    (Ok 0, loaded_object e (sIdCounter c) d m)) as Hf.
  { exact (zoom_eq _ _ _ loaded _ _
             (BPFMap_update_ok _ _ _ _ _ (accepts_far _ _ _ _ _ _ _ _ _ Hacc))). }
  now rewrite (bind_ok _ _ _ _ _ (on_new_object_eq _ _ (with_prog prg (with_index idx c)) _ _ Hf)).
Qed.

Lemma create_steps_after v n :
  table_ok c ->
  exists v' c', run_steps (take n (create_steps e seid key rec)) v c = (Ok v', c') /\
    after_steps n e c c' d idx prg m.
Proof.
  intros Ht. unfold create_steps. set (v1 := mk_locals p (local_id v) (local_fd v)).
  destruct n as [|n]; [exists v, c; split; [done|]; split; [done|done|done|lia]|].
  rewrite (run_steps_take _ _ _ _ _ _ _ (construct_eq v)).
  destruct n as [|n].
  { do 2 eexists. split; [reflexivity|]. eapply after_object; [now left|done|done|lia]. }
  rewrite (run_steps_take _ _ _ _ _ _ _ (set_up_eq v1 eq_refl)).
  destruct n as [|n].
  { do 2 eexists. split; [reflexivity|]. eapply after_object; [now left|done|done|done]. }
  rewrite (run_steps_take _ _ _ _ _ _ _ (read_locals_eq v1 eq_refl)).
  destruct n as [|n].
  { do 2 eexists. split; [reflexivity|]. eapply after_object; [now left|done|done|done]. }
  rewrite (run_steps_take _ _ _ _ _ _ _ update_index_eq).
  destruct n as [|n].
  { do 2 eexists. split; [reflexivity|]. eapply after_object; [now right; left|done|done|done]. }
  rewrite (run_steps_take _ _ _ _ _ _ _ update_slot_eq).
  destruct n as [|n].
  { do 2 eexists. split; [reflexivity|]. eapply after_object; [now right; right|done|done|done]. }
  rewrite (run_steps_take _ _ _ _ _ _ _ store_far_eq).
  destruct n as [|n].
  { do 2 eexists. split; [reflexivity|]. eapply after_object; [now right; right|done|done|done]. }
  set (c0 := with_prog prg (with_index idx c)).
  destruct (store_programs_spec set_link_ret unlinks seid key
    (loaded_object e (sIdCounter c) d m) c0) as (c' & Hc' & _ & Ho & Hu & _).
  { now apply (table_ok_ext c). } { done. }
  assert (store_pipeline seid key w (with_deployed (loaded_object e (sIdCounter c) d m) idx prg c)
    = (Ok w, c')) as Hs by (unfold store_pipeline; now rewrite (bind_ok _ _ _ _ _ Hc')).
  rewrite (run_steps_take _ _ _ _ _ _ _ Hs).
  exists w, c'. split; [apply run_steps_nil|].
  destruct (views_stored c c' seid _ Ho) as [Hn Hold].
  split; [exact (f_equal mpNextProgRuleIndexMap Hu)|exact (f_equal mpNextProgRuleMap Hu)|
          exact Hold|intros _; exact Hn].
Qed.

End Accepted.

(** The entry program after [n] steps. *)
Lemma dispatches_after n e c c' key rec d idx prg m :
  accepts if_nametoindex e c key rec d idx prg m ->
  (forall k i, bpf_map_lookup_elem (getNextProgRuleIndexMap c) k = Some i -> i <> sIdCounter c) ->
  bpf_map_lookup_elem (getNextProgRuleMap c) (sIdCounter c) = None ->
  after_steps n e c c' d idx prg m ->
  (forall k, k <> key -> dispatches c' k = dispatches c k) /\
  dispatches c' key =
    if (n <? 4)%nat then dispatches c key
    else if (n <? 5)%nat then Ok XDP_PASS else Err (TailCall (fe_fd e)).
Proof.
  intros [_ _ Hi Hp _] Hfresh Hslot [Hidx Hprg _ _].
  unfold dispatches, dispatch. rewrite Hidx, Hprg. split.
  - intros k Hk.
    assert (bpf_map_lookup_elem (if (n <? 4)%nat then getNextProgRuleIndexMap c else idx) k =
      bpf_map_lookup_elem (getNextProgRuleIndexMap c) k) as ->
      by (destruct (n <? 4)%nat; [done|now apply (map_update_other _ _ _ _ _ _ Hi)]).
    destruct (bpf_map_lookup_elem (getNextProgRuleIndexMap c) k) as [i|] eqn:Hl; [|done].
    rewrite (tail_call_ext (getNextProgRuleMap c)); [done|].
    destruct (n <? 5)%nat; [done|]. apply (map_update_other _ _ _ _ _ _ Hp).
    intros <-. exact (Hfresh k _ Hl eq_refl).
  - destruct (Nat.ltb_spec n 4), (Nat.ltb_spec n 5); try lia; [done|..];
      rewrite (map_update_same _ _ _ _ _ Hi).
    + now rewrite tail_call_empty.
    + now rewrite (tail_call_lookup _ _ _ (map_update_same _ _ _ _ _ Hp)).
Qed.

(** A packet that is handed to the program [p]. *)
Lemma run_pipeline_view c p fd fars arps devs key pkt :
  views c p = Some (fd, fars, arps, devs) -> dispatches c key = Err (TailCall fd) ->
  bytes (data pkt) -> classify (data pkt) = Session key ->
  run_pipeline linux_version_code c p pkt =
    pfcp_far_apply linux_version_code arps devs (bpf_map_lookup_elem fars 0) pkt.
Proof.
  unfold views. destruct (far_objects c !! p) as [o|] eqn:Ho; [|done].
  intros Hv Hd Hb Hk. injection Hv as <- <- <- <-. unfold run_pipeline. rewrite eth_handle_spec, Hk, Ho by done.
  unfold dispatches in Hd. rewrite Hd, Z.eqb_refl. reflexivity.
Qed.

Lemma run_pipeline_passed c p key pkt :
  dispatches c key = Ok XDP_PASS -> bytes (data pkt) -> classify (data pkt) = Session key ->
  run_pipeline linux_version_code c p pkt = (Ok XDP_PASS, pkt).
Proof.
  intros Hd Hb Hk. unfold run_pipeline. rewrite eth_handle_spec, Hk by done.
  unfold dispatches in Hd. now rewrite Hd.
Qed.

(** ** Properties *)

(** C8: a removal, as packets see it.  The steps in a row are removePipeline; the
    program array keeps the program alive after its object is destroyed, so until
    the last step every packet is treated as before the removal, and after it the
    packets of the key are left to the kernel and all others still treated as
    before. *)
Theorem packets_during_removal seid key p c n c' idx :
  let steps := remove_steps seid key p in
  let run := run_pipeline linux_version_code in
  table_ok c -> mSessionProgramsMap (manager c) !! seid = Some (key, p) ->
  bpf_map_delete_elem (getNextProgRuleIndexMap c) key = (idx, 0) ->
  snd (run_steps (take n steps) tt c) = c' ->
  run_steps steps tt c = removePipeline set_link_ret seid c /\
  forall q pkt, bytes (data pkt) ->
    ((n < 3)%nat \/ classify (data pkt) <> Session key -> run c' q pkt = run c q pkt) /\
    ((3 <= n)%nat -> classify (data pkt) = Session key -> run c' q pkt = (Ok XDP_PASS, pkt)).
Proof.
  intros steps run Ht Hs Hdel Hc'. split; [now apply remove_steps_run|].
  destruct (table_live c Ht _ _ _ Hs) as (o & Ho & _).
  set (c1 := with_far_objects (sIdCounter c) (<[p := torn set_link_ret o]> (far_objects c)) c).
  set (c2 := with_programs (delete seid (mSessionProgramsMap (manager c1))) c1).
  assert (forall q, views c1 q = views c q) as Hv.
  { intros q. unfold views, c1. cbn. rewrite list_lookup_insert.
    destruct (decide _) as [[<- _]|]; [|done]. now rewrite Ho. }
  assert (on_index (BPFMap_remove (V := Z) key) c2 = (Ok 0, with_index idx c2)) as H3'.
  { apply zoom_eq. unfold BPFMap_remove, bind, get, put.
    change (getNextProgRuleIndexMap c2) with (getNextProgRuleIndexMap c). now rewrite Hdel. }
  unfold steps, remove_steps in Hc'.
  pose proof (release_programs_eq set_link_ret unlinks key p c o Ho) as H1'.
  intros q pkt Hb.
  destruct n as [|n]; [cbn in Hc'; subst c'; split; [done|lia]|].
  erewrite run_steps_take in Hc' by exact H1'.
  destruct n as [|n].
  { cbn in Hc'. subst c'. split; [|lia]. intros _. now apply run_pipeline_views. }
  erewrite (run_steps_take n _ _ tt c1 tt c2) in Hc' by reflexivity.
  destruct n as [|n].
  { cbn in Hc'. subst c'. split; [|lia]. intros _. now apply run_pipeline_views; [|..|apply Hv]. }
  erewrite (run_steps_take n _ _ tt c2 tt (with_index idx c2)) in Hc'.
  2: { now rewrite (bind_ok _ _ _ _ _ H3'). }
  rewrite firstn_nil in Hc'. cbn [run_steps ret snd] in Hc'. subst c'. split.
  - intros [?|Hk]; [lia|]. apply run_pipeline_views; [done| |apply Hv].
    intros k Hk'. unfold dispatches, dispatch.
    change (getNextProgRuleIndexMap (with_index idx c2)) with idx.
    change (getNextProgRuleMap (with_index idx c2)) with (getNextProgRuleMap c).
    rewrite (map_delete_other _ _ _ k Hdel); [done|]. congruence.
  - intros _ Hk. apply (run_pipeline_passed _ _ key); [|done|done].
    unfold dispatches, dispatch.
    change (getNextProgRuleIndexMap (with_index idx c2)) with idx.
    now rewrite (map_delete_same _ _ _ Hdel).
Qed.

End Interleave.

(** ** Witnesses *)

Import SamplePrograms SampleManager.

Definition v0 : locals := mk_locals 0 0 0.
(** The component when five of the seven steps are done, in one deployment. *)
Definition halfway : sys :=
  snd (run_steps (take 5 (create_steps nametoindex kernel_ok (far_env0 21) 1000 key_ul
    (far_record far_ul))) v0 c0).


Example packets_during_removal_witness :
  let c' := snd (run_steps (take 3 (remove_steps kernel_ok 1000 key_ul 0)) tt c1) in
  run_pipeline SampleFar.version c' 0 SamplePipeline.uplink =
    (Ok XDP_PASS, SamplePipeline.uplink).
Proof.
  edestruct (packets_during_removal kernel_ok SampleFar.version kernel_ok_unlinks 1000 key_ul 0 c1 3
    (snd (run_steps (take 3 (remove_steps kernel_ok 1000 key_ul 0)) tt c1))) as [_ Hp].
  - exact (ok_table c1 c1_ok).
  - vm_compute. reflexivity.
  - vm_compute. reflexivity.
  - reflexivity.
  - apply (Hp 0%nat SamplePipeline.uplink);
      [apply bytes_bool; reflexivity|lia|vm_compute; reflexivity].
Defined.
