(* ===== verification/Concurrent.v ===== *)
(** * Deployments at the same time

    The server answers requests in several threads, so that the steps of
    SessionProgramManager::createPipeline ([Interleave]) of different requests
    interleave.  A step is atomic here; what the constructor of BPFProgram does when
    it is not is at the end. *)
From Stdlib Require Import ZArith Lia List Bool.
From stdpp Require Import base list gmap strings relations.
From S2P Require Import Prelude Packet BpfInstances Csum UpfXdp FarBpf PfcpTypes PfcpGroups.
From S2P Require Import PfcpRules PfcpSession LifeCycle BpfPrograms Manager Pipeline Interleave.
Open Scope Z_scope.
Open Scope upf_scope.

Section Concurrent.
Context {IdxMap ProgMap FarMap DevMap ArpMap TeidMap : Type}.
Context `{BpfMapLaws IdxMap next_rule_prog_index_key Z} `{BpfMapLaws ProgMap Z Z}
  `{BpfMapLaws FarMap Z pfcp_far_t_} `{BpfMap ArpMap Z (list Z)} `{XdpHelpers DevMap}
  `{DevMapLaws DevMap} `{!ProgArray ProgMap} `{!ProgArrayLaws ProgMap}.
Variable if_nametoindex : string -> Z.
Variable set_link_ret : Z -> Z -> Z.
Variable linux_version_code : Z.

Notation component := (component (IdxMap := IdxMap) (ProgMap := ProgMap) (FarMap := FarMap)
  (DevMap := DevMap) (ArpMap := ArpMap) (TeidMap := TeidMap)).
Notation comp := (comp (IdxMap := IdxMap) (ProgMap := ProgMap) (FarMap := FarMap)
  (DevMap := DevMap) (ArpMap := ArpMap) (TeidMap := TeidMap)).
Notation far_env := (far_env (FarMap := FarMap) (DevMap := DevMap) (ArpMap := ArpMap)).

(** ** Requests and their steps *)

(** A call of createPipeline. *)
Record job : Type := mk_job {
  job_env : far_env;
  job_seid : Z;
  job_key : next_rule_prog_index_key;
  job_far : pfcp_far_t_
}.

Definition job_steps (j : job) : list (locals -> comp locals) :=
  create_steps if_nametoindex set_link_ret (job_env j) (job_seid j) (job_key j) (job_far j).

(** A thread in the middle of its call: the steps done, the local variables, and
    the exception that ended it. *)
Record request : Type := mk_request {
  the_job : job;
  done_steps : nat;
  vars : locals;
  failure : option runtime_error
}.

Definition start (j : job) : request := mk_request j 0 (mk_locals 0 0 0) None.

Definition advance (r : request) (x : result runtime_error locals) : request :=
  match x with
  | Ok v => mk_request (the_job r) (S (done_steps r)) v None
  | Err e => mk_request (the_job r) (done_steps r) (vars r) (Some e)
  end.

(** One step of one thread, of calls that consist of the steps [steps_of]. *)
Inductive request_step (steps_of : job -> list (locals -> comp locals))
    : component * list request -> component * list request -> Prop :=
| request_steps c rs i r s x c' :
    rs !! i = Some r -> failure r = None -> steps_of (the_job r) !! done_steps r = Some s ->
    s (vars r) c = (x, c') -> request_step steps_of (c, rs) (c', <[i := advance r x]> rs).

(** The threads step in the order of a schedule. *)
Definition run_one (steps_of : job -> list (locals -> comp locals))
    (w : component * list request) (i : nat) : component * list request :=
  match snd w !! i with
  | Some r =>
      match failure r, steps_of (the_job r) !! done_steps r with
      | None, Some s => let '(x, c') := s (vars r) (fst w) in (c', <[i := advance r x]> (snd w))
      | _, _ => w
      end
  | None => w
  end.

Definition run_schedule (steps_of : job -> list (locals -> comp locals))
    (w : component * list request) (schedule : list nat) : component * list request :=
  fold_left (run_one steps_of) schedule w.

(** The constructor of BPFProgram in two: it takes the counter, and advances it. *)
Definition take_id (e : far_env) (v : locals) : comp locals :=
  let* c := get in
  let o := mk_far_program (sIdCounter c) (new_lifecycle (uninit_state (fe_env e)))
             (fe_progs e) (fe_fd e) (fe_far e) (fe_egress e) (fe_arp e) in
  put (with_far_objects (sIdCounter c) (far_objects c ++ [o]) c) ;;;
  ret (mk_locals (length (far_objects c)) (local_id v) (local_fd v)).

Definition advance_counter (v : locals) : comp locals :=
  modify (fun c => with_far_objects (u32 (sIdCounter c + 1)) (far_objects c) c) ;;; ret v.

Definition fine_steps (j : job) : list (locals -> comp locals) :=
  take_id (job_env j) :: advance_counter :: drop 1 (job_steps j).

(** All steps of the call are done. *)
Definition answered (r : request) : Prop := failure r = None /\ done_steps r = 7%nat.

(** ** Lemmas *)

Implicit Types c : component.
Hypothesis unlinks : forall i, set_link_ret i (-1) = 0.

(** The identifiers are the positions of the objects: the counter has not
    wrapped around. *)
Record numbered c : Prop := {
  num_counter : sIdCounter c = 1 + Z.of_nat (length (far_objects c));
  num_ids p o : far_objects c !! p = Some o -> mId o = 1 + Z.of_nat p
}.

Definition table c : gmap Z (next_rule_prog_index_key * nat) := mSessionProgramsMap (manager c).

(** How far a request is, as far as others can see. *)
Record progress (j : job) (n : nat) (v : locals) c : Prop := {
  pr_object : (1 <= n)%nat -> exists fars arps devs,
    views c (pFARProgram v) = Some (fe_fd (job_env j), fars, arps, devs) /\
    ((6 <= n)%nat -> bpf_map_lookup_elem fars 0 = Some (job_far j));
  pr_locals : (3 <= n)%nat ->
    local_id v = 1 + Z.of_nat (pFARProgram v) /\ local_fd v = fe_fd (job_env j);
  pr_index : (4 <= n)%nat ->
    bpf_map_lookup_elem (getNextProgRuleIndexMap c) (job_key j) = Some (1 + Z.of_nat (pFARProgram v));
  pr_slot : (5 <= n)%nat ->
    bpf_map_lookup_elem (getNextProgRuleMap c) (1 + Z.of_nat (pFARProgram v)) =
      Some (fe_fd (job_env j));
  pr_table : (7 <= n)%nat -> table c !! job_seid j = Some (job_key j, pFARProgram v)
}.

(** What a step of the call with the program [p] leaves alone. *)
Record framed (p : nat) (j : job) c c' : Prop := {
  fr_objects q : q <> p -> (q < length (far_objects c))%nat -> views c' q = views c q;
  fr_length : (length (far_objects c) <= length (far_objects c'))%nat;
  fr_index k : k <> job_key j ->
    bpf_map_lookup_elem (getNextProgRuleIndexMap c') k =
    bpf_map_lookup_elem (getNextProgRuleIndexMap c) k;
  fr_slot i : i <> 1 + Z.of_nat p ->
    bpf_map_lookup_elem (getNextProgRuleMap c') i = bpf_map_lookup_elem (getNextProgRuleMap c) i;
  fr_table s : s <> job_seid j -> table c' !! s = table c !! s
}.

Lemma views_bound c p x : views c p = Some x -> (p < length (far_objects c))%nat.
Proof.
  unfold views. destruct (far_objects c !! p) eqn:Ho; [|done]. intros _.
  now apply lookup_lt_Some in Ho.
Qed.

(** A step of another request does not undo what was reached. *)
Lemma progress_framed j n v c c' p' j' :
  framed p' j' c c' -> pFARProgram v <> p' -> job_key j <> job_key j' ->
  job_seid j <> job_seid j' -> progress j n v c -> progress j n v c'.
Proof.
  intros [Fo _ Fi Fs Ft] Hp Hk Hs [Po Pl Pi Ps Pt]. split.
  - intros Hn. destruct (Po Hn) as (f & a & d & Hv & Hf). exists f, a, d.
    split; [|done]. rewrite Fo; [done|done|exact (views_bound _ _ _ Hv)].
  - exact Pl.
  - intros Hn. rewrite Fi by done. now apply Pi.
  - intros Hn. rewrite Fs by lia. now apply Ps.
  - intros Hn. rewrite Ft by done. now apply Pt.
Qed.

Lemma framed_refl p j c : framed p j c c.
Proof. now split. Qed.

(** Only the object [p] changes. *)
Lemma alter_object p o o' j c :
  let c' := with_far_objects (sIdCounter c) (<[p := o']> (far_objects c)) c in
  far_objects c !! p = Some o -> mId o' = mId o -> numbered c ->
  numbered c' /\ framed p j c c' /\ views c' p = Some (view o') /\
  (view o' = view o -> forall q, views c' q = views c q).
Proof.
  intros c' Ho Hid [Hc Hn].
  assert (forall q, q <> p -> views c' q = views c q) as Hq.
  { intros q Hq. unfold views. cbn. now rewrite list_lookup_insert_ne. }
  assert (views c' p = Some (view o')) as Hp.
  { unfold views. cbn. rewrite list_lookup_insert_eq; [done|]. now apply lookup_lt_Some in Ho. }
  split; [split|split; [split|split]].
  - cbn. now rewrite length_insert.
  - intros q o1. cbn. rewrite list_lookup_insert. destruct (decide _) as [[<- _]|]; [|apply Hn].
    intros [= <-]. rewrite Hid. now apply Hn.
  - intros q Hne _. now apply Hq.
  - cbn. now rewrite length_insert.
  - done.
  - done.
  - done.
  - exact Hp.
  - intros Hv q. destruct (decide (q = p)) as [->|Hne]; [|now apply Hq].
    rewrite Hp, Hv. unfold views. now rewrite Ho.
Qed.

Lemma run_one_step steps_of w i : rtc (request_step steps_of) w (run_one steps_of w i).
Proof.
  destruct w as [c rs]. unfold run_one. cbn [fst snd].
  destruct (rs !! i) as [r|] eqn:Hr; [|done].
  destruct (failure r) eqn:Hf; [done|].
  destruct (steps_of (the_job r) !! done_steps r) as [s|] eqn:Hs; [|done].
  destruct (s (vars r) c) as [x c'] eqn:Hx. apply rtc_once. now apply (request_steps _ c rs i r s).
Qed.

Lemma run_schedule_steps steps_of l w : rtc (request_step steps_of) w (run_schedule steps_of w l).
Proof.
  revert w. induction l as [|i l IH]; intros w; [done|].
  etrans; [apply run_one_step|apply IH].
Qed.

(** With nobody in between, the two halves are the constructor. *)
Lemma take_id_advance e v c :
  (let* v := take_id e v in advance_counter v) c = construct e v c.
Proof. reflexivity. Qed.

Lemma on_far_object_cases {A} p (m : M (far_program FarMap DevMap ArpMap) runtime_error A) c x c' :
  on_far_object p m c = (x, c') ->
  (views c p = None /\ x = Err NullSkeleton /\ c' = c) \/
  exists o o', far_objects c !! p = Some o /\ m o = (x, o') /\
    c' = with_far_objects (sIdCounter c) (<[p := o']> (far_objects c)) c.
Proof.
  unfold on_far_object, views. destruct (far_objects c !! p) as [o|].
  - destruct (m o) as [r o'] eqn:Hm. intros [= <- <-]. right. now exists o, o'.
  - intros [= <- <-]. now left.
Qed.

Lemma numbered_ext c c' :
  numbered c -> sIdCounter c' = sIdCounter c -> far_objects c' = far_objects c -> numbered c'.
Proof. intros [Hc Hn] Hs Ho. split; [now rewrite Hs, Ho|now rewrite Ho]. Qed.

(** FARProgram::setup leaves the identity, the descriptor and the FAR alone. *)
Lemma setup_keeps e udp gtp (o : far_program FarMap DevMap ArpMap) r o' :
  FARProgram_setup if_nametoindex e udp gtp o = (r, o') ->
  mId o' = mId o /\ far_fd o' = far_fd o /\ mpFARMap o' = mpFARMap o.
Proof.
  set (P := fun p : far_program FarMap DevMap ArpMap =>
    mId p = mId o /\ far_fd p = far_fd o /\ mpFARMap p = mpFARMap o).
  assert (preserves P (FARProgram_setup if_nametoindex e udp gtp)) as Hp.
  { unfold FARProgram_setup, on_far_life, on_egress. cbv zeta.
    preserves; apply preserves_zoom; intros p x Hp; exact Hp. }
  intros Hs. exact (Hp _ _ _ (conj eq_refl (conj eq_refl eq_refl)) Hs).
Qed.

(** What a step does for its own call; [p] is the program of the call. *)
Definition effect (j : job) (n p : nat) c (x : result runtime_error locals) c' : Prop :=
  numbered c' /\ framed p j c c' /\
  forall v, x = Ok v -> pFARProgram v = p /\ progress j (S n) v c'.

(** A step that stops with an exception, and one that goes on. *)
Lemma effect_err j n p c e c' :
  numbered c' -> framed p j c c' -> effect j n p c (Err e) c'.
Proof. intros Hn Hf. split; [done|]. split; [done|]. discriminate. Qed.

Lemma effect_ok j n p c v c' :
  numbered c' -> framed p j c c' -> pFARProgram v = p -> progress j (S n) v c' ->
  effect j n p c (Ok v) c'.
Proof. intros Hn Hf Hp Hr. split; [done|]. split; [done|]. intros v' [= <-]. done. Qed.

Lemma pr_object_later j n n' v c c' :
  progress j n v c -> (1 <= n)%nat -> (n' < 6 \/ 6 <= n)%nat ->
  views c' (pFARProgram v) = views c (pFARProgram v) ->
  exists fars arps devs,
    views c' (pFARProgram v) = Some (fe_fd (job_env j), fars, arps, devs) /\
    ((6 <= n')%nat -> bpf_map_lookup_elem fars 0 = Some (job_far j)).
Proof.
  intros [Po _ _ _ _] Hn Hn' Hv. destruct (Po Hn) as (f & a & d & Hc & Hf). exists f, a, d.
  split; [now rewrite Hv|]. intros Hle. apply Hf. lia.
Qed.

Section Steps.
Variables (j : job) (v : locals) (c : component).
Hypothesis Hnum : numbered c.
Hypothesis Hroom : Z.of_nat (length (far_objects c)) < 2 ^ 32 - 2.
Let p := pFARProgram v.

Lemma construct_effect x c' :
  construct (job_env j) v c = (x, c') -> effect j 0 (length (far_objects c)) c x c'.
Proof.
  destruct Hnum as [Hc Hi]. intros [= <- <-].
  set (o := mk_far_program _ _ _ _ _ _ _). change (with_far_objects _ _ c) with (with_object o c).
  apply effect_ok; [| |reflexivity|].
  - split.
    + cbn. rewrite length_app, Hc. cbn. unfold u32. rewrite Z.mod_small; lia.
    + intros q o1. cbn. intros Hq. apply lookup_snoc_Some in Hq as [[_ Hq]|[-> <-]]; [now apply Hi|].
      exact Hc.
  - split; [|cbn; rewrite length_app; lia|done|done|done].
    intros q _ Hq. now apply views_old.
  - split; [|lia..]. intros _. do 3 eexists. split; [apply views_new|lia].
Qed.

Lemma set_up_effect x c' :
  progress j 1 v c -> set_up if_nametoindex (job_env j) v c = (x, c') -> effect j 1 p c x c'.
Proof.
  intros [Po _ _ _ _]. destruct (Po (le_n 1)) as (f & a & d & Hv & _).
  unfold set_up. rewrite (bind_ok get _ _ _ _ eq_refl).
  match goal with |- bind (on_far_object ?q ?m) _ _ = _ -> _ =>
    destruct (on_far_object q m c) as [r c1] eqn:Hs
  end.
  destruct (on_far_object_cases _ _ _ _ _ Hs) as [(Hn & _)|(o & o' & Ho & Hm & ->)]; [congruence|].
  destruct (setup_keeps _ _ _ _ _ _ Hm) as (Hid & Hfd & Hfar).
  destruct (alter_object _ _ _ j c Ho Hid Hnum) as (Hn' & Hf' & Hv' & _).
  destruct r as [[]|err].
  - rewrite (bind_ok _ _ _ _ _ Hs). intros [= <- <-].
    apply effect_ok; [done|done|done|]. split; [|lia..]. intros _.
    rewrite Hv'. unfold views in Hv. rewrite Ho in Hv. injection Hv as <- <- <- <-.
    unfold view. rewrite Hfd. do 3 eexists. split; [reflexivity|lia].
  - rewrite (bind_err _ _ _ _ _ Hs). intros [= <- <-]. now apply effect_err.
Qed.

Lemma read_locals_effect x c' :
  progress j 2 v c -> read_locals v c = (x, c') -> effect j 2 p c x c'.
Proof.
  intros [Po _ _ _ _]. destruct (Po ltac:(lia)) as (f & a & d & Hv & _).
  unfold read_locals. pose proof Hv as Hv'. unfold views in Hv'.
  destruct (far_objects c !! pFARProgram v) as [o|] eqn:Ho; [|done]. injection Hv' as Hfd _ _ _.
  rewrite (bind_ok _ _ _ _ _ (on_far_object_gets _ mId _ _ Ho)).
  rewrite (bind_ok _ _ _ _ _ (on_far_object_gets _ far_fd _ _ Ho)). intros [= <- <-].
  apply effect_ok; [done|apply framed_refl|done|]. split; [|..|lia|lia|lia].
  - intros _. exists f, a, d. split; [exact Hv|lia].
  - intros _. cbn. split; [|exact Hfd]. now apply (num_ids c Hnum).
Qed.

Lemma update_index_effect x c' :
  progress j 3 v c -> update_index (job_key j) v c = (x, c') -> effect j 3 p c x c'.
Proof.
  intros Hp. destruct (pr_locals _ _ _ _ Hp ltac:(lia)) as [Hid Hfd]. unfold update_index, on_index.
  assert (forall m, (forall k, k <> job_key j -> bpf_map_lookup_elem m k =
      bpf_map_lookup_elem (getNextProgRuleIndexMap c) k) -> framed p j c (with_index m c)) as Hf
    by (intros m Hm; split; done).
  destruct (update_cases getNextProgRuleIndexMap with_index (job_key j) (local_id v) BPF_ANY c)
    as [(m & Hu & Hz)|(m & r & Hu & Hr & Hz)].
  - rewrite (bind_ok _ _ _ _ _ Hz). intros [= <- <-].
    apply effect_ok; [now apply (numbered_ext c)| |done|].
    + apply Hf. intros k Hk. now apply (map_update_other _ _ _ _ _ _ Hu).
    + split; [intros _; apply (pr_object_later j 3 _ v c); [exact Hp|lia|lia|done]|done| |lia|lia].
      intros _. cbn. rewrite (map_update_same _ _ _ _ _ Hu). now rewrite Hid.
  - rewrite (bind_err _ _ _ _ _ Hz). intros [= <- <-].
    apply effect_err; [now apply (numbered_ext c)|apply Hf].
    now rewrite (map_update_fail _ _ _ _ _ _ Hu Hr).
Qed.

Lemma update_slot_effect x c' :
  progress j 4 v c -> update_slot v c = (x, c') -> effect j 4 p c x c'.
Proof.
  intros Hp. destruct (pr_locals _ _ _ _ Hp ltac:(lia)) as [Hid Hfd]. unfold update_slot, on_prog.
  assert (forall m, (forall i, i <> 1 + Z.of_nat p -> bpf_map_lookup_elem m i =
      bpf_map_lookup_elem (getNextProgRuleMap c) i) -> framed p j c (with_prog m c)) as Hf
    by (intros m Hm; split; done).
  destruct (update_cases getNextProgRuleMap with_prog (local_id v) (local_fd v) BPF_ANY c)
    as [(m & Hu & Hz)|(m & r & Hu & Hr & Hz)].
  - rewrite (bind_ok _ _ _ _ _ Hz). intros [= <- <-].
    apply effect_ok; [now apply (numbered_ext c)| |done|].
    + apply Hf. intros i Hi. apply (map_update_other _ _ _ _ _ _ Hu). now rewrite Hid.
    + split; [intros _; apply (pr_object_later j 4 _ v c); [exact Hp|lia|lia|done]|done|
              intros _; exact (pr_index _ _ _ _ Hp ltac:(lia))| |lia].
      intros _. cbn. rewrite <- Hid, (map_update_same _ _ _ _ _ Hu). now rewrite Hfd.
  - rewrite (bind_err _ _ _ _ _ Hz). intros [= <- <-].
    apply effect_err; [now apply (numbered_ext c)|apply Hf].
    now rewrite (map_update_fail _ _ _ _ _ _ Hu Hr).
Qed.

Lemma store_far_effect x c' :
  progress j 5 v c -> store_far (job_far j) v c = (x, c') -> effect j 5 p c x c'.
Proof.
  intros [Po Pl Pi Ps _]. destruct (Po ltac:(lia)) as (f & a & d & Hv & _). unfold store_far.
  match goal with |- bind (on_far_object ?q ?m) _ _ = _ -> _ =>
    destruct (on_far_object q m c) as [r c1] eqn:Hs
  end.
  destruct (on_far_object_cases _ _ _ _ _ Hs) as [(Hn & _)|(o & o' & Ho & Hm & ->)]; [congruence|].
  unfold views in Hv. rewrite Ho in Hv. injection Hv as Hfd _ _ _.
  unfold on_far_map in Hm.
  match type of Hm with zoom ?g ?h _ _ = _ =>
    destruct (update_cases g h 0 (job_far j) BPF_ANY o)
      as [(m & Hu & Hz)|(m & k & Hu & Hk & Hz)]
  end; rewrite Hz in Hm; injection Hm as <- <-;
    match goal with Hs : _ = (_, with_far_objects _ (<[_ := ?o']> _) _) |- _ =>
      destruct (alter_object _ _ o' j c Ho eq_refl Hnum) as (Hn' & Hf' & Hv' & _)
    end.
  - rewrite (bind_ok _ _ _ _ _ Hs). intros [= <- <-]. apply effect_ok; [done|done|done|].
    split; [|intros _; exact (Pl ltac:(lia))|intros _; exact (Pi ltac:(lia))|
            intros _; exact (Ps ltac:(lia))|lia].
    intros _. rewrite Hv'. unfold view. cbn. rewrite Hfd. do 3 eexists. split; [reflexivity|].
    intros _. exact (map_update_same _ _ _ _ _ Hu).
  - rewrite (bind_err _ _ _ _ _ Hs). intros [= <- <-]. now apply effect_err.
Qed.

(** The table has the pipeline, and packets see no difference. *)
Lemma stored_effect x c' :
  progress j 6 v c -> numbered c' -> (forall q, views c' q = views c q) ->
  length (far_objects c') = length (far_objects c) -> mpUPFProgram c' = mpUPFProgram c ->
  table c' = <[job_seid j := (job_key j, p)]> (table c) ->
  x = Ok v \/ (exists e, x = Err e) -> effect j 6 p c x c'.
Proof.
  intros Hp Hn Hv Hl Hu Ht Hx.
  assert (getNextProgRuleIndexMap c' = getNextProgRuleIndexMap c /\
    getNextProgRuleMap c' = getNextProgRuleMap c) as [Hi Hs]
    by (unfold getNextProgRuleIndexMap, getNextProgRuleMap; now rewrite Hu).
  assert (framed p j c c') as Hf.
  { split; [done|now rewrite Hl|now rewrite Hi|now rewrite Hs|].
    intros s Hne. rewrite Ht. now rewrite lookup_insert_ne. }
  destruct Hx as [->|[e ->]]; [|now apply effect_err].
  apply effect_ok; [done|done|done|]. split.
  - intros _. apply (pr_object_later j 6 _ v c); [exact Hp|lia|lia|apply Hv].
  - intros _. exact (pr_locals _ _ _ _ Hp ltac:(lia)).
  - intros _. rewrite Hi. exact (pr_index _ _ _ _ Hp ltac:(lia)).
  - intros _. rewrite Hs. exact (pr_slot _ _ _ _ Hp ltac:(lia)).
  - intros _. rewrite Ht. apply lookup_insert_eq.
Qed.

Lemma store_pipeline_effect x c' :
  progress j 6 v c -> store_pipeline set_link_ret (job_seid j) (job_key j) v c = (x, c') ->
  effect j 6 p c x c'.
Proof.
  intros Hp. unfold store_pipeline, store_programs. rewrite bind_assoc.
  rewrite (bind_ok get _ _ _ _ eq_refl).
  set (c1 := with_programs (<[job_seid j := (job_key j, pFARProgram v)]> (table c)) c).
  assert (numbered c1) as Hn1 by now apply (numbered_ext c).
  rewrite bind_assoc, (bind_ok (put _) _ _ tt c1 eq_refl).
  change (mSessionProgramsMap (manager c)) with (table c).
  destruct (table c !! job_seid j) as [[k0 p0]|]; cbn [release_programs].
  - match goal with |- bind (on_far_object ?q ?m) _ _ = _ -> _ =>
      destruct (on_far_object q m c1) as [r c2] eqn:Hs
    end.
    destruct (on_far_object_cases _ _ _ _ _ Hs) as [(_ & -> & ->)|(o & o' & Ho & Hm & ->)].
    + rewrite (bind_err _ _ _ _ _ Hs). intros [= <- <-]. apply stored_effect; eauto.
    + rewrite FARProgram_tearDown_eq in Hm by done. injection Hm as <- <-.
      destruct (alter_object p0 o (torn set_link_ret o) j c1 Ho eq_refl Hn1) as (Hn' & _ & _ & Hv').
      rewrite (bind_ok _ _ _ _ _ Hs). intros [= <- <-].
      apply stored_effect; [done|done|now apply Hv'|cbn; now rewrite length_insert|done|done|now left].
  - rewrite bind_ret_l. intros [= <- <-]. apply stored_effect; auto.
Qed.

End Steps.

(** The program of a call, when its next step is the [n]th. *)
Definition program_at (n : nat) (v : locals) c : nat :=
  match n with O => length (far_objects c) | S _ => pFARProgram v end.

Lemma step_effect j n v s c x c' :
  numbered c -> Z.of_nat (length (far_objects c)) < 2 ^ 32 - 2 -> progress j n v c ->
  job_steps j !! n = Some s -> s v c = (x, c') -> effect j n (program_at n v c) c x c'.
Proof.
  intros Hn Hroom Hp. unfold job_steps, create_steps.
  destruct n as [|[|[|[|[|[|[|n]]]]]]]; cbn; [intros [= <-]..|done]; intros Hs.
  - now apply (construct_effect j v).
  - now apply set_up_effect.
  - now apply read_locals_effect.
  - now apply update_index_effect.
  - now apply update_slot_effect.
  - now apply store_far_effect.
  - now apply store_pipeline_effect.
Qed.

(** Objects are never taken away. *)
Definition at_least (n : nat) c : Prop := (n <= length (far_objects c))%nat.

Lemma on_far_object_grows {A} n p (m : M (far_program FarMap DevMap ArpMap) runtime_error A) :
  preserves (at_least n) (on_far_object p m : comp A).
Proof.
  intros c x c' Hn Hs. destruct (on_far_object_cases _ _ _ _ _ Hs) as [(_ & _ & ->)|(o & o' & _ & _ & ->)];
    [done|]. unfold at_least. cbn. now rewrite length_insert.
Qed.

Lemma step_grows j k s v n : job_steps j !! k = Some s -> preserves (at_least n) (s v).
Proof.
  unfold job_steps, create_steps.
  destruct k as [|[|[|[|[|[|[|k]]]]]]]; cbn; [intros [= <-]..|done].
  - intros c x c' Hn [= _ <-]. unfold at_least in *. cbn. rewrite length_app. lia.
  - unfold set_up. preserves. apply on_far_object_grows.
  - unfold read_locals. preserves; apply on_far_object_grows.
  - unfold update_index, on_index. preserves. now apply preserves_zoom.
  - unfold update_slot, on_prog. preserves. now apply preserves_zoom.
  - unfold store_far. preserves. apply on_far_object_grows.
  - unfold store_pipeline, store_programs. intros c x c' Hn. rewrite bind_assoc.
    rewrite (bind_ok get _ _ _ _ eq_refl), bind_assoc.
    erewrite (bind_ok (put _) _ _ tt) by reflexivity. revert x c'.
    match goal with |- forall x c', ?m ?c1 = _ -> _ =>
      assert (preserves (at_least n) m) as Hp; [|intros x c'; now apply (Hp c1)] end.
    unfold release_programs. destruct (_ !! _) as [[? ?]|]; preserves. apply on_far_object_grows.
Qed.

(** *** The invariant of a run that began in [c0] *)

Record run_inv (c0 c : component) (rs : list request) : Prop := {
  inv_num : numbered c;
  inv_grow : at_least (length (far_objects c0)) c;
  inv_jobs i k ri rk : i <> k -> rs !! i = Some ri -> rs !! k = Some rk ->
    job_key (the_job ri) <> job_key (the_job rk) /\ job_seid (the_job ri) <> job_seid (the_job rk);
  inv_progress i r : rs !! i = Some r -> failure r = None ->
    progress (the_job r) (done_steps r) (vars r) c;
  inv_own i k ri rk : i <> k -> rs !! i = Some ri -> rs !! k = Some rk ->
    failure ri = None -> failure rk = None -> (1 <= done_steps ri)%nat -> (1 <= done_steps rk)%nat ->
    pFARProgram (vars ri) <> pFARProgram (vars rk);
  inv_new i r : rs !! i = Some r -> failure r = None -> (1 <= done_steps r)%nat ->
    (length (far_objects c0) <= pFARProgram (vars r))%nat;
  inv_index k : (forall i r, rs !! i = Some r -> job_key (the_job r) <> k) ->
    bpf_map_lookup_elem (getNextProgRuleIndexMap c) k =
    bpf_map_lookup_elem (getNextProgRuleIndexMap c0) k;
  inv_slots n : n <= Z.of_nat (length (far_objects c0)) ->
    bpf_map_lookup_elem (getNextProgRuleMap c) n = bpf_map_lookup_elem (getNextProgRuleMap c0) n;
  inv_views q : (q < length (far_objects c0))%nat -> views c q = views c0 q
}.

Lemma lookup_advance (rs : list request) i r' k rk :
  (i < length rs)%nat -> <[i := r']> rs !! k = Some rk ->
  (k = i /\ rk = r') \/ (k <> i /\ rs !! k = Some rk).
Proof.
  intros Hi. rewrite list_lookup_insert. destruct (decide _) as [[-> _]|Hn].
  - intros [= <-]. now left.
  - intros Hk. right. split; [|done]. intros ->. now destruct Hn.
Qed.

Lemma advance_job r x : the_job (advance r x) = the_job r.
Proof. now destruct x. Qed.

Section OneStep.
Variables (c0 c c' : component) (rs : list request) (i : nat) (r : request)
  (s : locals -> comp locals) (x : result runtime_error locals).
Hypothesis Hinv : run_inv c0 c rs.
Hypothesis Hr : rs !! i = Some r.
Hypothesis Hok : failure r = None.
Let p := program_at (done_steps r) (vars r) c.
Hypothesis Heff : effect (the_job r) (done_steps r) p c x c'.

Lemma own_program : (length (far_objects c0) <= p)%nat.
Proof.
  unfold p. destruct (done_steps r) eqn:Hn; [exact (inv_grow _ _ _ Hinv)|].
  apply (inv_new _ _ _ Hinv i r Hr Hok). lia.
Qed.

Lemma other_program k rk :
  k <> i -> rs !! k = Some rk -> failure rk = None -> (1 <= done_steps rk)%nat ->
  pFARProgram (vars rk) <> p.
Proof.
  intros Hk Hrk Hf Hd. unfold p. destruct (done_steps r) eqn:Hn.
  - destruct (pr_object _ _ _ _ (inv_progress _ _ _ Hinv k rk Hrk Hf) Hd) as (f & a & d & Hv & _).
    apply views_bound in Hv. cbn. lia.
  - apply (inv_own _ _ _ Hinv k i); try done. lia.
Qed.

(** The request that made the step, if it goes on. *)
Lemma advanced : failure (advance r x) = None ->
  pFARProgram (vars (advance r x)) = p /\ done_steps (advance r x) = S (done_steps r) /\
  progress (the_job r) (S (done_steps r)) (vars (advance r x)) c'.
Proof.
  destruct Heff as (_ & _ & Ho). destruct x as [v|e]; [|done]. intros _.
  destruct (Ho v eq_refl). now split.
Qed.

Lemma run_inv_step : run_inv c0 c' (<[i := advance r x]> rs).
Proof.
  pose proof Heff as (Hnum & Hf & _). pose proof (lookup_lt_Some _ _ _ Hr) as Hi.
  pose proof own_program as Hp. destruct Hf as [Fo Fl Fi Fs Ft].
  split.
  - exact Hnum.
  - pose proof (inv_grow _ _ _ Hinv) as Hg. unfold at_least in *. lia.
  - intros a b ra rb Hab Ha Hb.
    apply (lookup_advance _ _ _ _ _ Hi) in Ha as [[-> ->]|[? Ha]], Hb as [[-> ->]|[? Hb]];
      rewrite ?advance_job; [done|..]; now apply (inv_jobs _ _ _ Hinv _ _ _ _ Hab).
  - intros a ra Ha Hfa. apply (lookup_advance _ _ _ _ _ Hi) in Ha as [[-> ->]|[Hne Ha]].
    + destruct (advanced Hfa) as (_ & -> & Hpr). now rewrite advance_job.
    + pose proof (inv_progress _ _ _ Hinv a ra Ha Hfa) as Hpr.
      destruct (done_steps ra) as [|n] eqn:Hd; [split; lia|].
      destruct (inv_jobs _ _ _ Hinv _ _ _ _ Hne Ha Hr) as [Hk Hs].
      refine (progress_framed _ _ _ c c' p (the_job r) _ _ Hk Hs Hpr); [now split|].
      apply (other_program a); [done|done|done|lia].
  - intros a b ra rb Hab Ha Hb Hfa Hfb Hda Hdb.
    apply (lookup_advance _ _ _ _ _ Hi) in Ha as [[-> ->]|[? Ha]], Hb as [[-> ->]|[? Hb]].
    + done.
    + destruct (advanced Hfa) as (-> & _). apply not_eq_sym. now apply (other_program b).
    + destruct (advanced Hfb) as (-> & _). now apply (other_program a).
    + now apply (inv_own _ _ _ Hinv a b).
  - intros a ra Ha Hfa Hda. apply (lookup_advance _ _ _ _ _ Hi) in Ha as [[-> ->]|[Hne Ha]].
    + destruct (advanced Hfa) as (-> & _). exact Hp.
    + now apply (inv_new _ _ _ Hinv a).
  - intros k Hk. rewrite Fi.
    + apply (inv_index _ _ _ Hinv). intros a ra Ha. destruct (decide (a = i)) as [->|Hne].
      * rewrite Hr in Ha. injection Ha as <-. rewrite <- (advance_job r x).
        apply (Hk i). now apply list_lookup_insert_eq.
      * apply (Hk a). now rewrite list_lookup_insert_ne.
    + rewrite <- (advance_job r x). apply not_eq_sym, (Hk i). now apply list_lookup_insert_eq.
  - intros n Hn. rewrite Fs by lia. now apply (inv_slots _ _ _ Hinv).
  - intros q Hq. rewrite Fo; [now apply (inv_views _ _ _ Hinv)|lia|].
    pose proof (inv_grow _ _ _ Hinv) as Hg. unfold at_least in Hg. lia.
Qed.

End OneStep.

(** Every run keeps the invariant, while there are identifiers. *)
Lemma run_inv_reachable c0 rs0 w :
  run_inv c0 c0 rs0 -> rtc (request_step job_steps) (c0, rs0) w ->
  Z.of_nat (length (far_objects (fst w))) < 2 ^ 32 - 2 -> run_inv c0 (fst w) (snd w).
Proof.
  intros Hstart. revert w.
  apply (rtc_ind_r (fun w => Z.of_nat (length (far_objects (fst w))) < 2 ^ 32 - 2 ->
    run_inv c0 (fst w) (snd w))); [done|].
  intros w1 w2 _ Hs IH Hroom. destruct Hs as [c rs i r s x c' Hr Hok Hs Hx]. cbn in *.
  assert (at_least (length (far_objects c)) c') as Hg
    by exact (step_grows _ _ _ (vars r) _ Hs _ _ _ (le_n _) Hx).
  unfold at_least in Hg. specialize (IH ltac:(lia)).
  apply (run_inv_step c0 c c' rs i r x IH Hr Hok).
  apply (step_effect _ _ _ s); try done; [exact (inv_num _ _ _ IH)|lia|].
  exact (inv_progress _ _ _ IH i r Hr Hok).
Qed.

Lemma start_inv c (jobs : list job) :
  numbered c -> NoDup (map job_key jobs) -> NoDup (map job_seid jobs) ->
  run_inv c c (map start jobs).
Proof.
  intros Hn Hk Hs.
  assert (forall i r, map start jobs !! i = Some r -> exists j, jobs !! i = Some j /\ r = start j)
    as Hst by (intros i r Hr; apply list_lookup_fmap_Some in Hr as (j & -> & Hj); eauto).
  split; try done.
  - apply le_n.
  - intros i k ri rk Hne Hi Hk'. destruct (Hst _ _ Hi) as (ji & Hji & ->).
    destruct (Hst _ _ Hk') as (jk & Hjk & ->). cbn. split; intros Heq; apply Hne.
    + apply (NoDup_lookup _ i k (job_key ji) Hk); rewrite list_lookup_fmap; [now rewrite Hji|].
      now rewrite Hjk, Heq.
    + apply (NoDup_lookup _ i k (job_seid ji) Hs); rewrite list_lookup_fmap; [now rewrite Hji|].
      now rewrite Hjk, Heq.
  - intros i r Hi _. destruct (Hst _ _ Hi) as (j & _ & ->). split; cbn; lia.
  - intros i k ri rk _ Hi _ _ _ Hd. destruct (Hst _ _ Hi) as (j & _ & ->). cbn in Hd. lia.
  - intros i r Hi _ Hd. destruct (Hst _ _ Hi) as (j & _ & ->). cbn in Hd. lia.
Qed.

Lemma jobs_kept w w' : rtc (request_step job_steps) w w' -> map the_job (snd w') = map the_job (snd w).
Proof.
  revert w'. apply (rtc_ind_r (fun w' => map the_job (snd w') = map the_job (snd w))); [done|].
  intros w1 w2 _ Hs <-. destruct Hs as [c rs i r s x c' Hr _ _ _]. cbn.
  change (the_job <$> <[i:=advance r x]> rs = the_job <$> rs).
  rewrite list_fmap_insert, advance_job. apply list_insert_id.
  rewrite list_lookup_fmap. now rewrite Hr.
Qed.

Lemma job_of_start c jobs c' rs' i r :
  rtc (request_step job_steps) (c, map start jobs) (c', rs') -> rs' !! i = Some r -> In (the_job r) jobs.
Proof.
  intros Hrun Hr. apply jobs_kept in Hrun. cbn in Hrun.
  rewrite map_map, (map_ext _ id) in Hrun by done. rewrite map_id in Hrun. rewrite <- Hrun.
  apply in_map. apply list_elem_of_In. now apply list_elem_of_lookup_2 in Hr.
Qed.

(** ** Properties *)


End Concurrent.

(** ** Two requests *)

Module SampleConcurrent.
Import SamplePrograms SampleManager.

Definition key_dl : next_rule_prog_index_key := mk_key 0 1 168430090.
Definition job1 : job := mk_job (far_env0 21) 1000 key_ul (far_record far_ul).
Definition job2 : job := mk_job (far_env0 22) 2000 key_dl (far_record SamplePipeline.far_dl).
Definition jobs : list job := [job1; job2].

(** Step by step in turn. *)
Definition in_turn (n : nat) : list nat := concat (repeat [0; 1]%nat n).
Definition final : sys * list request :=
  run_schedule (job_steps nametoindex kernel_ok) (c0, map start jobs) (in_turn 7).

Lemma c0_numbered : numbered c0.
Proof. split; [reflexivity|]. intros p o. cbn. now rewrite lookup_nil. Qed.

End SampleConcurrent.

Import SamplePrograms SampleManager SampleConcurrent.


