(* ===== verification/Forwarding.v ===== *)
(** * The forwarding table, and how the control side implements it

    The abstract specification of the whole: a table from session identifiers to
    the packets of the session (a key) and the FAR they get.  A session is put
    into the table or taken out of it, and a packet is treated by the FAR of its
    key.  The component of [Manager], with its objects, maps and identifiers,
    refines this table; the datapath of [Pipeline] reads it. *)
From Stdlib Require Import ZArith Lia List Bool.
From stdpp Require Import base list gmap strings.
From S2P Require Import Prelude StdSort Packet BpfInstances UpfXdp FarBpf PfcpTypes PfcpGroups.
From S2P Require Import PfcpRules PfcpSession LifeCycle BpfPrograms Manager Pipeline.
Open Scope Z_scope.
Open Scope upf_scope.

(** ** The specification *)

Notation table := (gmap Z (next_rule_prog_index_key * pfcp_far_t_)).

(** The packets and the FAR that a PDR of [s] stands for. *)
Definition rule_of (p : pfcp_pdr) (s : pfcp_session)
    : option (next_rule_prog_index_key * pfcp_far_t_) :=
  match pdr_fields p, pdr_far p s with
  | Some (f, i, a), Some far =>
      Some (mk_key (fteid_teid f) (source_interface_interface_value i)
              (ue_ip_address_ipv4_address a), far_record far)
  | _, _ => None
  end.

Inductive request : Type :=
| Deploy (s : pfcp_session)
| Undeploy (sid : Z)
| OtherRequest.

(** What a request does to the table, and its outcome.  The system may refuse a
    deployment, with one of its errors. *)
Inductive spec_step (t : table) : request -> result runtime_error unit -> table -> Prop :=
| spec_deploy s p key rec :
    highest s p -> rule_of p s = Some (key, rec) ->
    spec_step t (Deploy s) (Ok tt) (<[seid s := (key, rec)]> t)
| spec_deploy_refused s p key rec err :
    highest s p -> rule_of p s = Some (key, rec) -> kernel_refusal err ->
    spec_step t (Deploy s) (Err err) t
| spec_deploy_no_pdr s : pdrs s = [] -> spec_step t (Deploy s) (Err NoPdrInSession) t
| spec_deploy_no_rule s p :
    highest s p -> rule_of p s = None -> spec_step t (Deploy s) (Err NoFieldsAvailable) t
| spec_undeploy sid entry :
    t !! sid = Some entry -> spec_step t (Undeploy sid) (Ok tt) (delete sid t)
| spec_undeploy_absent sid :
    t !! sid = None -> spec_step t (Undeploy sid) (Err SessionDoesNotExist) t
| spec_other x : spec_step t OtherRequest x t.

(** A sequence of requests. *)
Inductive spec_run (t : table) : list (request * result runtime_error unit) -> table -> Prop :=
| spec_run_nil : spec_run t [] t
| spec_run_cons r x t1 tr t2 :
    spec_step t r x t1 -> spec_run t1 tr t2 -> spec_run t ((r, x) :: tr) t2.

(** The entry of a key. *)
Definition forward (t : table) (key : next_rule_prog_index_key) : option (Z * pfcp_far_t_) :=
  match find (fun e => bool_decide (fst (snd e) = key)) (map_to_list t) with
  | Some (sid, (_, rec)) => Some (sid, rec)
  | None => None
  end.

Lemma forward_some t key sid rec : forward t key = Some (sid, rec) -> t !! sid = Some (key, rec).
Proof.
  unfold forward. destruct (find _ _) as [[k [key' r]]|] eqn:Hf; [|done].
  intros [= <- <-]. apply find_some in Hf as [Hin Hk]. cbn in Hk.
  apply bool_decide_eq_true in Hk as ->.
  now apply elem_of_map_to_list, list_elem_of_In.
Qed.

Lemma forward_none t key sid rec : forward t key = None -> t !! sid <> Some (key, rec).
Proof.
  unfold forward. destruct (find _ _) as [[? [? ?]]|] eqn:Hf; [done|]. intros _ Hs.
  apply elem_of_map_to_list, list_elem_of_In in Hs.
  pose proof (find_none _ _ Hf _ Hs) as Hk. cbn in Hk.
  now apply bool_decide_eq_false in Hk.
Qed.

Section Control.
Context {IdxMap ProgMap FarMap DevMap ArpMap TeidMap : Type}.
Context `{BpfMapLaws IdxMap next_rule_prog_index_key Z} `{BpfMapLaws ProgMap Z Z}
  `{BpfMapLaws FarMap Z pfcp_far_t_} `{DevMapLaws DevMap} `{BpfMap TeidMap Z Z}
  `{BpfMap ArpMap Z (list Z)} `{StdSortLaws} `{!ProgArray ProgMap} `{!ProgArrayLaws ProgMap}.
Variable if_nametoindex : string -> Z.
Variable set_link_ret : Z -> Z -> Z.
Hypothesis unlinks : forall i, set_link_ret i (-1) = 0.
(** A hash map deletes the keys it has. *)
Hypothesis index_deletes : forall (m : IdxMap) key (id : Z),
  bpf_map_lookup_elem m key = Some id -> exists m', bpf_map_delete_elem m key = (m', 0).

Notation component := (component (IdxMap := IdxMap) (ProgMap := ProgMap) (FarMap := FarMap)
  (DevMap := DevMap) (ArpMap := ArpMap) (TeidMap := TeidMap)).
Notation event := (event (FarMap := FarMap) (DevMap := DevMap) (ArpMap := ArpMap)).
Notation run_event := (run_event if_nametoindex set_link_ret).
Implicit Types c : component.

(** ** The implementation relation *)

(** The maps and tables hold what the table says.  A key without an entry may
    be in the index, after a refused deployment, but under an identifier that
    has no program. *)
Record serves (c : component) (t : table) : Prop := {
  serves_some sid key rec :
    t !! sid = Some (key, rec) ->
    (exists r, mSeidToSession c !! sid = Some r) /\
    exists p fd, findSessionPrograms sid c = Some (key, p) /\
      deployed if_nametoindex c key p fd rec;
  serves_none sid : t !! sid = None -> findSessionPrograms sid c = None;
  serves_keys s1 s2 key r1 r2 :
    t !! s1 = Some (key, r1) -> t !! s2 = Some (key, r2) -> s1 = s2;
  serves_pass key :
    (forall sid rec, t !! sid <> Some (key, rec)) -> dispatches c key = Ok XDP_PASS;
  serves_seids sid r : mSeidToSession c !! sid = Some r -> 0 <= sid < 2 ^ 32;
  serves_index key id :
    bpf_map_lookup_elem (getNextProgRuleIndexMap c) key = Some id -> id < sIdCounter c;
  serves_progs id fd :
    bpf_map_lookup_elem (getNextProgRuleMap c) id = Some fd -> id < sIdCounter c;
  serves_counter : 0 <= sIdCounter c
}.

Definition implements (c : component) (t : table) : Prop := component_ok c /\ serves c t.

Definition request_of (ev : event) (c : component) : request :=
  match ev with
  | CreateBPFSession _ _ _ r =>
      match session_objects c !! r with Some s => Deploy s | None => OtherRequest end
  | RemoveBPFSession sid => Undeploy sid
  | _ => OtherRequest
  end.

(** The array behind a new FAR program has its one entry. *)
Definition far_ready (e : far_env (FarMap := FarMap) (DevMap := DevMap) (ArpMap := ArpMap)) : Prop :=
  forall rec m r, bpf_map_update_elem (fe_far e) 0 rec BPF_ANY = (m, r) -> r = 0.

(** A deployment under an identifier and for a key that are not in use, and
    identifiers that have not wrapped: [Manager.redeploy_keeps_old_key] and
    [Manager.identifiers_run_out] are what happens otherwise. *)
Definition orderly (ev : event) (c : component) : Prop :=
  match ev with
  | CreateBPFSession _ _ e r =>
      far_ready e /\ sIdCounter c + 1 < 2 ^ 32 /\
      forall s, session_objects c !! r = Some s ->
        0 <= seid s < 2 ^ 32 /\ findSessionPrograms (seid s) c = None /\
        forall p key rec, highest s p -> rule_of p s = Some (key, rec) ->
          forall sid q, findSessionPrograms sid c <> Some (key, q)
  | _ => True
  end.

Inductive orderly_run : component -> list (request * result runtime_error unit) ->
    component -> Prop :=
| run_nil c : orderly_run c [] c
| run_cons c ev x c1 tr c2 :
    orderly ev c -> run_event ev c = (x, c1) -> orderly_run c1 tr c2 ->
    orderly_run c ((request_of ev c, x) :: tr) c2.

(** ** Lemmas *)

Lemma serves_ext c c' t :
  serves c t -> mSessionProgramsMap (manager c') = mSessionProgramsMap (manager c) ->
  far_objects c' = far_objects c -> mSeidToSession c' = mSeidToSession c ->
  getNextProgRuleIndexMap c' = getNextProgRuleIndexMap c ->
  getNextProgRuleMap c' = getNextProgRuleMap c -> sIdCounter c' = sIdCounter c ->
  interfaces c' = interfaces c -> serves c' t.
Proof.
  intros [Hs Hn Hk Hp Hi Hx Hg Hc] E1 E2 E3 E4 E5 E6 E7.
  unfold deployed, dispatches, findSessionPrograms in *.
  split; unfold deployed, dispatches, findSessionPrograms;
    rewrite ?E1, ?E2, ?E3, ?E4, ?E5, ?E6, ?E7; assumption.
Qed.

Lemma serves_arp c c' t : same_but_arp c c' -> serves c t -> serves c' t.
Proof.
  intros Ha [Hs Hn Hk Hp Hsi Hx Hg Hco]. pose proof Ha as [Hm Hi _ Hu Hc _ _].
  unfold findSessionPrograms, getNextProgRuleIndexMap, getNextProgRuleMap in *.
  split; unfold findSessionPrograms, getNextProgRuleIndexMap, getNextProgRuleMap;
    rewrite ?Hm, ?Hi, ?Hu, ?Hc; try assumption.
  - intros sid key rec Ht. destruct (Hs sid key rec Ht) as (? & p & fd & Hf & Hd).
    split; [done|]. exists p, fd. split; [done|]. eapply deployed_arp; eassumption.
  - intros key Ht. rewrite (dispatches_arp _ _ _ Ha). now apply Hp.
Qed.

Lemma implements_quiet c c' t : implements c t -> same_pipelines c c' -> implements c' t.
Proof.
  intros [Hc Ht] Hq. split; [exact (same_pipelines_ok c c' Hq Hc)|].
  destruct Hq as (? & ? & ? & ? & ? & ? & ? & ?). now apply (serves_ext c).
Qed.

Lemma dispatches_ext c c' key :
  bpf_map_lookup_elem (getNextProgRuleIndexMap c') key =
    bpf_map_lookup_elem (getNextProgRuleIndexMap c) key ->
  (forall id, bpf_map_lookup_elem (getNextProgRuleIndexMap c) key = Some id ->
     bpf_map_lookup_elem (getNextProgRuleMap c') id =
     bpf_map_lookup_elem (getNextProgRuleMap c) id) ->
  dispatches c' key = dispatches c key.
Proof.
  intros Hi Hp. unfold dispatches, dispatch. rewrite Hi.
  destruct (bpf_map_lookup_elem (getNextProgRuleIndexMap c) key) as [id|]; [|done].
  now rewrite (tail_call_ext _ _ _ (Hp id eq_refl)).
Qed.

Lemma deployed_ext c c' key p fd rec :
  deployed if_nametoindex c key p fd rec -> dispatches c' key = dispatches c key ->
  interfaces c' = interfaces c ->
  (forall o, far_objects c !! p = Some o -> far_objects c' !! p = Some o) ->
  deployed if_nametoindex c' key p fd rec.
Proof.
  intros (Hd & o & Ho & Hr) He Hif Hl. split; [congruence|]. exists o. rewrite Hif.
  split; [now apply Hl|done].
Qed.

(** An entry of the table for a key stands under the identifier that the
    component has it under. *)
Lemma serves_find c t sid key p :
  serves c t -> findSessionPrograms sid c = Some (key, p) -> exists rec, t !! sid = Some (key, rec).
Proof.
  intros Ht Hf. destruct (t !! sid) as [[k rec]|] eqn:Hs.
  - destruct (serves_some c t Ht _ _ _ Hs) as (_ & q & fd & Hq & _).
    rewrite Hf in Hq. injection Hq as -> ->. eauto.
  - now rewrite (serves_none c t Ht _ Hs) in Hf.
Qed.

Lemma key_unused c t key :
  serves c t -> (forall sid q, findSessionPrograms sid c <> Some (key, q)) ->
  forall sid rec, t !! sid <> Some (key, rec).
Proof.
  intros Ht Hu sid rec Hs. destruct (serves_some c t Ht _ _ _ Hs) as (_ & p & fd & Hp & _).
  exact (Hu _ _ Hp).
Qed.

(** A key and a program under an identifier above those in use. *)
Lemma dispatches_fresh c c' t key key' id fd idx :
  serves c t -> sIdCounter c <= id ->
  bpf_map_update_elem (getNextProgRuleIndexMap c) key id BPF_ANY = (idx, 0) ->
  getNextProgRuleIndexMap c' = idx ->
  getNextProgRuleMap c' = getNextProgRuleMap c \/
    bpf_map_update_elem (getNextProgRuleMap c) id fd BPF_ANY = (getNextProgRuleMap c', 0) ->
  key' <> key -> dispatches c' key' = dispatches c key'.
Proof.
  intros Ht Hid Hu <- Hp Hk. apply dispatches_ext.
  - eapply map_update_other; [exact Hu|congruence].
  - intros i Hi. destruct Hp as [->|Hp]; [done|].
    eapply map_update_other; [exact Hp|]. pose proof (serves_index c t Ht _ _ Hi). lia.
Qed.

(** *** A deployment that goes through *)

Lemma serves_deployed c c' t sid key rec p fd r idx prg :
  serves c t -> (0 <= sid < 2 ^ 32) -> t !! sid = None ->
  (forall s rec', t !! s <> Some (key, rec')) ->
  bpf_map_update_elem (getNextProgRuleIndexMap c) key (sIdCounter c) BPF_ANY = (idx, 0) ->
  bpf_map_update_elem (getNextProgRuleMap c) (sIdCounter c) fd BPF_ANY = (prg, 0) ->
  getNextProgRuleIndexMap c' = idx -> getNextProgRuleMap c' = prg ->
  mSeidToSession c' = <[sid := r]> (mSeidToSession c) ->
  mSessionProgramsMap (manager c') = <[sid := (key, p)]> (mSessionProgramsMap (manager c)) ->
  (exists o, far_objects c' = far_objects c ++ [o]) ->
  sIdCounter c' = sIdCounter c + 1 -> interfaces c' = interfaces c ->
  deployed if_nametoindex c' key p fd rec ->
  serves c' (<[sid := (key, rec)]> t).
Proof.
  intros Ht Hr Hn Hu Hi Hg <- Hprg Hs Hm [o Ho] Hc Hif Hd.
  assert (forall key', key' <> key -> dispatches c' key' = dispatches c key') as Hoth.
  { intros key' Hk. eapply (dispatches_fresh c c' t key key'); [exact Ht|reflexivity|exact Hi|done| |done].
    right. rewrite Hprg. exact Hg. }
  subst prg. split.
  - intros s k rc. unfold findSessionPrograms. rewrite Hs, Hm.
    destruct (decide (sid = s)) as [<-|Hne].
    + rewrite !lookup_insert_eq. intros [= <- <-]. split; [eauto|]. exists p, fd. done.
    + rewrite !lookup_insert_ne by done. intros Ht1.
      destruct (serves_some c t Ht _ _ _ Ht1) as (? & q & f & Hq & Hdq). split; [done|].
      exists q, f. split; [exact Hq|]. eapply deployed_ext; [exact Hdq| |exact Hif|].
      * apply Hoth. intros ->. exact (Hu _ _ Ht1).
      * intros o' Ho'. rewrite Ho, lookup_app_l; [done|]. now apply lookup_lt_Some in Ho'.
  - intros s. unfold findSessionPrograms. rewrite Hm, !lookup_insert_None.
    intros [Hs1 Hne]. split; [now apply (serves_none c t Ht)|done].
  - intros s1 s2 k r1 r2.
    destruct (decide (sid = s1)) as [<-|H1']; destruct (decide (sid = s2)) as [<-|H2'];
      rewrite ?lookup_insert_eq, ?lookup_insert_ne by done; [done| | |].
    + intros [= <- <-] Hs2. now apply Hu in Hs2.
    + intros Hs1 [= <- <-]. now apply Hu in Hs1.
    + apply (serves_keys c t Ht).
  - intros k Hk. destruct (decide (k = key)) as [->|Hne].
    { exfalso. apply (Hk sid rec). apply lookup_insert_eq. }
    rewrite Hoth by done. apply (serves_pass c t Ht). intros s rc Hs1. apply (Hk s rc).
    rewrite lookup_insert_ne; [done|]. intros <-. congruence.
  - intros s q. rewrite Hs, lookup_insert_Some. intros [[<- _]|[_ Hq]]; [done|].
    now apply (serves_seids c t Ht) in Hq.
  - intros k id. rewrite Hc. destruct (decide (k = key)) as [->|Hne].
    + rewrite (map_update_same _ _ _ _ _ Hi). intros [= <-]. lia.
    + rewrite (map_update_other _ _ _ _ _ k Hi) by congruence.
      intros Hid. apply (serves_index c t Ht) in Hid. lia.
  - intros id f. rewrite Hc. destruct (decide (id = sIdCounter c)) as [->|Hne]; [lia|].
    rewrite (map_update_other _ _ _ _ _ id Hg) by congruence.
    intros Hid. apply (serves_progs c t Ht) in Hid. lia.
  - rewrite Hc. pose proof (serves_counter c t Ht). lia.
Qed.

(** *** A deployment that is refused *)

Lemma serves_refused c c' t e key rec :
  serves c t -> far_ready e -> sIdCounter c + 1 < 2 ^ 32 ->
  (forall s rec', t !! s <> Some (key, rec')) -> only_object e key rec c c' -> serves c' t.
Proof.
  intros Ht He Hb Hu [Hm Hs _ [o Ho] Hc Hi Hif Hp].
  pose proof (serves_counter c t Ht) as Hc0. rewrite u32_id in Hc by lia.
  destruct Hp as [Hp|(m & r & Hup & Hr)]; [|now apply He in Hup].
  assert (forall k, k <> key -> dispatches c' k = dispatches c k) as Hoth.
  { intros k Hk. destruct Hi as [Hi|Hi].
    - apply dispatches_ext; [now rewrite Hi|intros; now rewrite Hp].
    - eapply (dispatches_fresh c c' t key k (sIdCounter c) 0); [exact Ht|lia|exact Hi|done| |done].
      now left. }
  assert (forall k id, bpf_map_lookup_elem (getNextProgRuleIndexMap c') k = Some id ->
            id < sIdCounter c \/ k = key /\ id = sIdCounter c) as Hidx.
  { intros k id. destruct Hi as [->|Hi]; [intros Hk; left; eapply (serves_index c t Ht); exact Hk|].
    destruct (decide (k = key)) as [->|Hne].
    - rewrite (map_update_same _ _ _ _ _ Hi). intros [= <-]. auto.
    - rewrite (map_update_other _ _ _ _ _ k Hi) by congruence.
      intros Hk. left. eapply (serves_index c t Ht). exact Hk. }
  unfold findSessionPrograms in *. split; unfold findSessionPrograms; rewrite ?Hm, ?Hs, ?Hc.
  - intros s k rc Hk. destruct (serves_some c t Ht _ _ _ Hk) as (? & p & fd & Hf & Hd).
    split; [done|]. exists p, fd. split; [exact Hf|]. eapply deployed_ext; [exact Hd| |exact Hif|].
    + apply Hoth. intros ->. exact (Hu _ _ Hk).
    + intros o' Ho'. rewrite Ho, lookup_app_l; [done|]. now apply lookup_lt_Some in Ho'.
  - apply (serves_none c t Ht).
  - apply (serves_keys c t Ht).
  - intros k Hk. destruct (decide (k = key)) as [->|Hne];
      [|rewrite Hoth by done; now apply (serves_pass c t Ht)].
    destruct Hi as [Hi|Hi].
    { transitivity (dispatches c key); [|now apply (serves_pass c t Ht)].
      apply dispatches_ext; [now rewrite Hi|intros; now rewrite Hp]. }
    unfold dispatches, dispatch. rewrite (map_update_same _ _ _ _ _ Hi), Hp.
    rewrite tail_call_empty; [done|].
    destruct (bpf_map_lookup_elem (getNextProgRuleMap c) (sIdCounter c)) as [fd|] eqn:Hg; [|done].
    apply (serves_progs c t Ht) in Hg. lia.
  - apply (serves_seids c t Ht).
  - intros k id Hk. apply Hidx in Hk. lia.
  - intros id fd. rewrite Hp. intros Hg. apply (serves_progs c t Ht) in Hg. lia.
  - lia.
Qed.

(** *** Taking a session out *)

Lemma serves_removed c c' t sid key rec p idx :
  table_ok c -> serves c t -> t !! sid = Some (key, rec) ->
  findSessionPrograms sid c = Some (key, p) ->
  bpf_map_delete_elem (getNextProgRuleIndexMap c) key = (idx, 0) ->
  getNextProgRuleIndexMap c' = idx -> getNextProgRuleMap c' = getNextProgRuleMap c ->
  mSeidToSession c' = mSeidToSession c -> sIdCounter c' = sIdCounter c ->
  mSessionProgramsMap (manager c') = delete sid (mSessionProgramsMap (manager c)) ->
  interfaces c' = interfaces c ->
  (exists o, far_objects c' = <[p := o]> (far_objects c)) -> serves c' (delete sid t).
Proof.
  intros Hok Ht Hs Hf Hd <- Hg Hse Hc Hm Hif [o Ho].
  assert (forall k, k <> key -> dispatches c' k = dispatches c k) as Hoth.
  { intros k Hk. apply dispatches_ext; [|intros; now rewrite Hg].
    eapply map_delete_other; [exact Hd|congruence]. }
  unfold findSessionPrograms in *.
  split; unfold findSessionPrograms; rewrite ?Hm, ?Hse, ?Hc, ?Hg.
  - intros s k rc. rewrite lookup_delete_Some. intros [Hne Hk].
    destruct (serves_some c t Ht _ _ _ Hk) as (? & q & fd & Hq & Hdq).
    unfold findSessionPrograms in Hq. split; [done|].
    exists q, fd. rewrite lookup_delete_ne by done. split; [exact Hq|].
    eapply deployed_ext; [exact Hdq| |exact Hif|].
    + apply Hoth. intros ->. apply Hne. eapply (serves_keys c t Ht); eassumption.
    + intros o' Ho'. rewrite Ho, list_lookup_insert_ne; [done|]. intros <-. apply Hne.
      eapply (table_own c Hok); eassumption.
  - intros s. rewrite lookup_delete_None. intros [<-|Hn]; [apply lookup_delete_eq|].
    apply (serves_none c t Ht) in Hn. apply lookup_delete_None. now right.
  - intros s1 s2 k r1 r2. rewrite !lookup_delete_Some. intros [_ H1'] [_ H2'].
    eapply (serves_keys c t Ht); eassumption.
  - intros k Hk. destruct (decide (k = key)) as [->|Hne].
    + unfold dispatches, dispatch. now rewrite (map_delete_same _ _ _ Hd).
    + rewrite Hoth by done. apply (serves_pass c t Ht). intros s rc Hsk. apply (Hk s rc).
      rewrite lookup_delete_ne; [done|]. intros <-. congruence.
  - apply (serves_seids c t Ht).
  - intros k id. destruct (decide (k = key)) as [->|Hne].
    + now rewrite (map_delete_same _ _ _ Hd).
    + rewrite (map_delete_other _ _ _ k Hd) by congruence. apply (serves_index c t Ht).
  - apply (serves_progs c t Ht).
  - apply (serves_counter c t Ht).
Qed.

(** *** Every request *)

Lemma rule_of_inv p s key rec :
  rule_of p s = Some (key, rec) ->
  exists f i a far, pdr_fields p = Some (f, i, a) /\ pdr_far p s = Some far /\
    key = mk_key (fteid_teid f) (source_interface_interface_value i)
            (ue_ip_address_ipv4_address a) /\ rec = far_record far.
Proof.
  unfold rule_of. destruct (pdr_fields p) as [[[f i] a]|]; [|done].
  destruct (pdr_far p s) as [far|]; [|done]. intros [= <- <-]. eauto 10.
Qed.

(** A pipeline for a rule, under a free identifier and for a free key. *)
Lemma pipeline_refines e s key rec f i a far r c t x c' :
  implements c t -> far_ready e -> sIdCounter c + 1 < 2 ^ 32 ->
  0 <= seid s < 2 ^ 32 -> t !! seid s = None ->
  (forall sid rec', t !! sid <> Some (key, rec')) ->
  key = mk_key (fteid_teid f) (source_interface_interface_value i)
          (ue_ip_address_ipv4_address a) -> rec = far_record far ->
  (createPipeline if_nametoindex set_link_ret e (u32 (seid s)) (fteid_teid f)
     (source_interface_interface_value i) (ue_ip_address_ipv4_address a) far ;;;
   modify (fun c => with_seids (<[seid s := r]> (mSeidToSession c)) c)) c = (x, c') ->
  (x = Ok tt /\ serves c' (<[seid s := (key, rec)]> t)) \/
  (exists err, x = Err err /\ kernel_refusal err /\ serves c' t).
Proof.
  intros [Hok Ht] He Hb Hr Hn Hu -> -> Hx.
  pose proof (serves_counter c t Ht) as Hc0. rewrite (u32_id (seid s)) in Hx by lia.
  unfold bind in Hx. destruct (createPipeline _ _ _ _ _ _ _ _ c) as [y c1] eqn:Hp.
  destruct (createPipeline_cases _ _ _ _ _ _ _ _ _ _ _ Hp) as [(d & idx & prg & m & Ha)|Ho].
  - left. pose proof (serves_none c t Ht _ Hn) as Hf.
    destruct (createPipeline_spec if_nametoindex set_link_ret unlinks e (seid s) _ _ _ far c
                d idx prg m (ok_table c Hok) Ha)
      as (c2 & Hc & Hd & _ & Hm & Hi & Hg & Hs & _ & _ & _ & Hobj & Hid & Hif).
    rewrite Hp in Hc. injection Hc as -> ->. injection Hx as <- <-. split; [done|].
    rewrite u32_id in Hid by lia. destruct Ha as [_ _ Hai Hag _].
    eapply (serves_deployed c _ t (seid s) _ _ (length (far_objects c)) (fe_fd e) r idx prg);
      [done|done|done|exact Hu|exact Hai|exact Hag|exact Hi|exact Hg| | | | | |].
    + cbn. now rewrite Hs.
    + exact Hm.
    + exact (Hobj Hf).
    + exact Hid.
    + exact Hif.
    + exact Hd.
  - right. destruct Ho as (err & -> & Hk & Ho). injection Hx as <- <-. exists err.
    do 2 (split; [done|]). eapply serves_refused; eassumption.
Qed.

Lemma create_refines u1 u2 e r s c t x c' :
  implements c t -> session_objects c !! r = Some s ->
  orderly (CreateBPFSession u1 u2 e r) c ->
  createBPFSession if_nametoindex set_link_ret u1 u2 e r c = (x, c') ->
  exists t', spec_step t (Deploy s) x t' /\ serves c' t'.
Proof.
  intros [Hok Ht] Hr (He & Hb & Hord) Hx. destruct (Hord s Hr) as (Hsid & Hfree & Hkey).
  assert (t !! seid s = None) as Hn.
  { destruct (t !! seid s) as [[k rc]|] eqn:Hs; [|done].
    destruct (serves_some c t Ht _ _ _ Hs) as (_ & p & fd & Hp & _). congruence. }
  unfold createBPFSession in Hx. rewrite (bind_ok _ _ _ _ _ (sort_pdrs_eq u1 u2 r s c Hr)) in Hx.
  assert (session_ok s) as Hs.
  { pose proof (ok_sessions c Hok) as Hall. rewrite List.Forall_forall in Hall.
    apply Hall, in_lookup. eauto. }
  pose proof (sorted_session_head u1 u2 s Hs) as Hh.
  pose proof (component_ok_session c r s _ Hok Hr (sorted_session_ok u1 u2 s Hs) eq_refl) as Hok1.
  set (c1 := with_session_objects _ c) in *. assert (serves c1 t) as Ht1 by now apply (serves_ext c).
  destruct (pdrs (sorted_session u1 u2 s)) as [|p l].
  { injection Hx as <- <-. exists t. split; [now constructor|done]. }
  change (pdr_far p (sorted_session u1 u2 s)) with (pdr_far p s) in Hx.
  destruct (rule_of p s) as [[key rec]|] eqn:Hrule.
  - destruct (rule_of_inv _ _ _ _ Hrule) as (f & i & a & far & Hf & Hfar & Hk & Hrec).
    rewrite Hf, Hfar in Hx. cbn [of_option] in Hx. rewrite !bind_ret_l in Hx.
    destruct (pipeline_refines e s key rec f i a far r c1 t x c') as [[-> Hs']|(err & -> & Href & Hs')];
      try assumption.
    + split; assumption.
    + eapply key_unused; [exact Ht|]. eapply Hkey; eassumption.
    + exists (<[seid s := (key, rec)]> t). split; [econstructor; eassumption|done].
    + exists t. split; [econstructor; eassumption|done].
  - exists t. assert (x = Err NoFieldsAvailable /\ c' = c1) as [-> ->].
    { unfold rule_of in Hrule. destruct (pdr_fields p) as [[[f i] a]|]; cbn [of_option] in Hx;
        [|now injection Hx as <- <-].
      rewrite bind_ret_l in Hx. destruct (pdr_far p s); [done|]. now injection Hx as <- <-. }
    split; [econstructor; eassumption|done].
Qed.

Lemma remove_refines sid c t x c' :
  implements c t -> removeBPFSession set_link_ret sid c = (x, c') ->
  exists t', spec_step t (Undeploy sid) x t' /\ serves c' t'.
Proof.
  intros [Hok Ht] Hx. unfold removeBPFSession in Hx.
  rewrite (bind_ok get _ _ _ _ eq_refl) in Hx.
  destruct (t !! sid) as [[key rec]|] eqn:Hs.
  - destruct (serves_some c t Ht _ _ _ Hs) as ([r Hr] & p & fd & Hf & Hd & o & Ho & _).
    rewrite Hr, (u32_id sid) in Hx by (apply (serves_seids c t Ht) in Hr; lia).
    assert (exists id, bpf_map_lookup_elem (getNextProgRuleIndexMap c) key = Some id)
      as [id Hid].
    { unfold dispatches, dispatch in Hd.
      destruct (bpf_map_lookup_elem (getNextProgRuleIndexMap c) key) as [id|]; [eauto|done]. }
    destruct (index_deletes _ _ _ Hid) as [idx Hdel].
    rewrite (removePipeline_eq set_link_ret unlinks _ _ _ _ _ _ Hf Ho Hdel) in Hx.
    injection Hx as <- <-. exists (delete sid t). split; [econstructor; exact Hs|].
    eapply (serves_removed c _ t sid key rec p idx); try done; [apply Hok|eauto].
  - exists t. assert (x = Err SessionDoesNotExist /\ c' = c) as [-> ->].
    { destruct (mSeidToSession c !! sid) as [r|] eqn:Hr; [|now injection Hx as <- <-].
      rewrite (u32_id sid) in Hx by (apply (serves_seids c t Ht) in Hr; lia).
      unfold removePipeline in Hx. rewrite (bind_ok get _ _ _ _ eq_refl) in Hx.
      pose proof (serves_none c t Ht _ Hs) as Hf. unfold findSessionPrograms in Hf.
      rewrite Hf in Hx. now injection Hx as <- <-. }
    split; [now constructor|done].
Qed.

Lemma event_refines ev c t x c' :
  implements c t -> orderly ev c -> run_event ev c = (x, c') ->
  exists t', spec_step t (request_of ev c) x t' /\ implements c' t'.
Proof.
  intros Hi Ho He. pose proof (run_event_ok _ _ unlinks _ _ _ _ (proj1 Hi) He) as Hok.
  assert (same_pipelines c c' ->
    exists t', spec_step t OtherRequest x t' /\ implements c' t') as Hq.
  { intros Hq. exists t. split; [constructor|]. now apply (implements_quiet c). }
  destruct ev as [cp sd|r o|u1 u2 e r|sid|e p0 sid|sid|o|sid ip mac|]; cbn [run_event request_of] in *.
  - injection He as <- <-. exists t. split; [constructor|]. split; [done|].
    apply (serves_ext c); [apply Hi|reflexivity..].
  - injection He as <- <-. exists t. split; [constructor|]. split; [done|].
    destruct (session_objects c !! r); (apply (serves_ext c); [apply Hi|reflexivity..]).
  - destruct (session_objects c !! r) as [s|] eqn:Hr.
    + destruct (create_refines u1 u2 e r s c t x c' Hi Hr Ho He) as (t' & Hs & Hs').
      exists t'. split; [exact Hs|]. split; assumption.
    + apply Hq. unfold createBPFSession, sort_pdrs, bind, get, of_option in He.
      rewrite Hr in He. now injection He as <- <-.
  - destruct (remove_refines sid c t x c' Hi He) as (t' & Hs & Hs'). exists t'.
    split; [exact Hs|]. split; assumption.
  - apply Hq. now apply quiet_create in He.
  - apply Hq. now apply quiet_remove in He.
  - apply Hq. now injection He as <- <-.
  - exists t. split; [constructor|]. split; [done|].
    eapply serves_arp; [|apply Hi]. eapply store_arp_same. exact He.
  - apply Hq. now apply quiet_UserPlaneComponent_tearDown in He.
Qed.

(** Before the first deployment. *)
Definition blank (c : component) : Prop :=
  manager c = new_program_manager /\ mSeidToSession c = ∅ /\ 0 <= sIdCounter c /\
  List.Forall session_ok (session_objects c) /\
  (forall key, bpf_map_lookup_elem (getNextProgRuleIndexMap c) key = None) /\
  (forall id, bpf_map_lookup_elem (getNextProgRuleMap c) id = None).

Lemma blank_implements c : blank c -> implements c ∅.
Proof.
  intros (Hm & Hs & Hc & Ho & Hi & Hp). split.
  - split; [split|exact Ho|]; intros *; rewrite ?Hm, ?Hs; cbn; rewrite lookup_empty; done.
  - split; unfold findSessionPrograms; try (intros *; rewrite ?Hm, ?Hs, ?Hi, ?Hp; cbn;
      rewrite ?lookup_empty; done).
    intros key _. unfold dispatches, dispatch. now rewrite Hi.
Qed.

Lemma control_refines c t tr c' :
  implements c t -> orderly_run c tr c' -> exists t', spec_run t tr t' /\ implements c' t'.
Proof.
  intros Hi Hr. revert t Hi. induction Hr as [c|c ev x c1 tr c2 Ho He Hr IH]; intros t Hi.
  - exists t. split; [constructor|done].
  - destruct (event_refines ev c t x c1 Hi Ho He) as (t1 & Hs & Hi1).
    destruct (IH t1 Hi1) as (t2 & Hr2 & Hi2). exists t2. split; [econstructor; eassumption|done].
Qed.

End Control.

(** ** The datapath reads the table *)

Section Datapath.
Context {IdxMap ProgMap FarMap DevMap ArpMap TeidMap : Type}.
Context `{BpfMapLaws IdxMap next_rule_prog_index_key Z} `{BpfMapLaws ProgMap Z Z}
  `{BpfMapLaws FarMap Z pfcp_far_t_} `{DevMapLaws DevMap} `{BpfMap TeidMap Z Z}
  `{BpfMap ArpMap Z (list Z)} `{StdSortLaws} `{!ProgArray ProgMap} `{!ProgArrayLaws ProgMap}
  `{XdpHelperLaws DevMap}.
Variable if_nametoindex : string -> Z.
Variable set_link_ret : Z -> Z -> Z.
Hypothesis unlinks : forall i, set_link_ret i (-1) = 0.
Hypothesis index_deletes : forall (m : IdxMap) key (id : Z),
  bpf_map_lookup_elem m key = Some id -> exists m', bpf_map_delete_elem m key = (m', 0).
Variable linux_version_code : Z.

Notation component := (component (IdxMap := IdxMap) (ProgMap := ProgMap) (FarMap := FarMap)
  (DevMap := DevMap) (ArpMap := ArpMap) (TeidMap := TeidMap)).

(** The treatment of a frame by the table: the action that the headers ask for;
    or, for the packets of a session, its FAR, run by the program of an object
    in use, with the interfaces of the component to leave by; or, for the packets of no session, nothing. *)
Definition treats (c : component) (t : table) (pkt : xdp_md) : Prop :=
  let run := run_pipeline linux_version_code c in
  match classify (data pkt) with
  | Act a => forall p, run p pkt = (Ok a, pkt)
  | Session key =>
      match forward t key with
      | None => forall p, run p pkt = (Ok XDP_PASS, pkt)
      | Some (sid, rec) =>
          exists p o, findSessionPrograms sid c = Some (key, p) /\
            far_objects c !! p = Some o /\ live o /\
            leaves_by o UPLINK (if_nametoindex (fst (interfaces c))) /\
            leaves_by o DOWNLINK (if_nametoindex (snd (interfaces c))) /\
            run p pkt = pfcp_far_apply linux_version_code (mpArpTableMap o)
                          (mpEgressInterfaceMap o) (Some rec) pkt
      end
  end.

Lemma run_pipeline_done (c : component) p pkt a :
  eth_handle (getNextProgRuleIndexMap c) (getNextProgRuleMap c) 0 pkt = (Ok a, pkt) ->
  run_pipeline linux_version_code c p pkt = (Ok a, pkt).
Proof. unfold run_pipeline. intros ->. reflexivity. Qed.

Lemma datapath_treats (c : component) t pkt :
  implements if_nametoindex c t -> bytes (data pkt) -> treats c t pkt.
Proof.
  intros [_ Ht] Hb. unfold treats. destruct (classify (data pkt)) as [a|key] eqn:Hc.
  - intros p. apply run_pipeline_done. now rewrite eth_handle_spec, Hc.
  - destruct (forward t key) as [[sid rec]|] eqn:Hf.
    + apply forward_some in Hf.
      destruct (serves_some _ c t Ht _ _ _ Hf) as (_ & p & fd & Hp & Hd).
      pose proof Hd as (_ & o & Ho & Hl & _ & _ & Hul & Hdl). exists p, o.
      do 5 (split; [done|]). eapply run_pipeline_deployed; eassumption.
    + intros p. apply run_pipeline_done. rewrite eth_handle_spec, Hc by done. f_equal.
      apply (serves_pass _ c t Ht). intros sid rec. now apply forward_none.
Qed.

(** ** Property *)


End Datapath.

(** ** Witness *)

Import SamplePrograms SampleManager.

Lemma sample_index_deletes (m : hash_map next_rule_prog_index_key Z) key (id : Z) :
  bpf_map_lookup_elem m key = Some id -> exists m', bpf_map_delete_elem m key = (m', 0).
Proof. cbn. unfold hm_delete. intros ->. eauto. Qed.

Lemma c0_blank : blank c0.
Proof.
  split; [reflexivity|]. split; [reflexivity|]. split; [cbn; lia|].
  split; [repeat constructor|]. split; intros k; cbn; [apply lookup_empty|].
  unfold pa_lookup. destruct (pa_in_range _ k); [apply lookup_empty|done].
Qed.

Lemma sample_orderly : orderly (CreateBPFSession 0 0 (far_env0 21) 0) c0.
Proof.
  split; [intros rec m r [= <- <-]; reflexivity|]. split; [cbn; lia|].
  intros s [= <-]. split; [cbn; lia|]. split; [reflexivity|].
  intros p key rec _ _ sid q. unfold findSessionPrograms. cbn. now rewrite lookup_empty.
Qed.

