(* ===== verification/Api.v ===== *)
(** * The HTTP interface (src/tests/api/Controller.cpp, InformationElementFactory.hpp)

    The handlers of the server that configures the user plane and deploys
    sessions.  A request is what the JSON library makes of the body, numbers as
    integers; a field that is missing makes the library throw, which is not
    modelled.  inet_aton and ether_aton are functions of the C library and stay
    parameters: an address as the machine reads it, six bytes. *)
From Stdlib Require Import ZArith Lia List Bool.
From stdpp Require Import base list gmap strings.
From S2P Require Import Prelude StdSort Packet BpfInstances Csum SessionBpf UpfXdp FarBpf.
From S2P Require Import PfcpTypes PfcpGroups.
From S2P Require Import PfcpRules PfcpSession LifeCycle BpfPrograms Manager Pipeline.
Open Scope Z_scope.
Open Scope upf_scope.

(** ** Data *)

(** An element of [pdrs], one of [fars], and the body of /createSession. *)
Record api_pdr : Type := mk_api_pdr {
  pdrId : Z;
  api_pdr_farId : Z;
  api_teid : Z;
  sourceInterface : string;
  ueIPAddress : string;
  outerHeaderRemoval : string;
  api_precedence : Z
}.

Record api_far : Type := mk_api_far {
  farId : Z;
  destinationInterface : string;
  outerHeaderCreationDescription : string;
  ipv4Address : string;
  portNumber : Z
}.

Record session_request : Type := mk_session_request {
  request_seid : Z;
  request_pdrs : list api_pdr;
  request_fars : list api_far;
  arpTable : list (string * string)
}.

(** [operator[]] of a std::map gives 0 for a key that is not there. *)
Definition sMapInterface (name : string) : Z :=
  if String.eqb name "INTERFACE_VALUE_CORE" then UpfXdp.INTERFACE_VALUE_CORE
  else if String.eqb name "INTERFACE_VALUE_ACCESS" then UpfXdp.INTERFACE_VALUE_ACCESS
  else 0.

Definition sMapOuterHeader (name : string) : Z :=
  if String.eqb name "OUTER_HEADER_CREATION_GTPU_UDP_IPV4"
  then OUTER_HEADER_CREATION_GTPU_UDP_IPV4
  else if String.eqb name "OUTER_HEADER_CREATION_UDP_IPV4" then OUTER_HEADER_CREATION_UDP_IPV4
  else if String.eqb name "OUTER_HEADER_REMOVAL_UDP_IPV4" then OUTER_HEADER_REMOVAL_UDP_IPV4
  else if String.eqb name "OUTER_HEADER_REMOVAL_GTPU_UDP_IPV4"
  then OUTER_HEADER_REMOVAL_GTPU_UDP_IPV4
  else 0.

(** ** InformationElementFactory.hpp *)

Definition createOaiPDR (pdrId farId teid sourceInterface ueIPv4 outerHeaderRemoval precedence : Z)
    : create_pdr :=
  let local_fteid := mk_fteid_t false true false false (u32 teid) 0 (repeat 0 16) 0 in
  let ue_ip := mk_ue_ip_address_t false false false false ueIPv4 (repeat 0 16) 0 in
  set (mk_pdr_id_t (u16 pdrId))
    (set (mk_far_id_t (u32 farId))
    (set (mk_outer_header_removal_t (u8 (u16 outerHeaderRemoval)))
    (set (mk_precedence_t (u32 precedence))
    (set (T := pdi)
       (set local_fteid (set (mk_source_interface_t (u8 sourceInterface)) (set ue_ip inhabitant)))
       inhabitant)))).

(** Of the actions, only [forw]. *)
Definition createOaiFAR (farId : Z) (forw : bool)
    (destinationInterface outerHeaderCreation destinationIPv4 destinationPort : Z) : create_far :=
  let ohc := mk_outer_header_creation_t (u16 outerHeaderCreation) 0 destinationIPv4 (repeat 0 16)
               (u16 destinationPort) in
  set (mk_far_id_t (u32 farId))
    (set (mk_apply_action_t 0 false false false forw false)
    (set (T := forwarding_parameters)
       (set ohc (set (mk_destination_interface_t (u8 destinationInterface)) inhabitant))
       inhabitant)).

Section Api.
Context {IdxMap ProgMap FarMap DevMap ArpMap TeidMap : Type}.
Context `{BpfMapLaws IdxMap next_rule_prog_index_key Z} `{BpfMapLaws ProgMap Z Z}
  `{BpfMapLaws FarMap Z pfcp_far_t_} `{DevMapLaws DevMap} `{BpfMap TeidMap Z Z}
  `{BpfMap ArpMap Z (list Z)} `{StdSortLaws} `{!ProgArray ProgMap} `{!ProgArrayLaws ProgMap}.
Variable if_nametoindex : string -> Z.
Variable set_link_ret : Z -> Z -> Z.
Variable inet_aton : string -> option Z.
Variable ether_aton : string -> option (list Z).

Notation component := (component (IdxMap := IdxMap) (ProgMap := ProgMap) (FarMap := FarMap)
  (DevMap := DevMap) (ArpMap := ArpMap) (TeidMap := TeidMap)).
Notation comp := (comp (IdxMap := IdxMap) (ProgMap := ProgMap) (FarMap := FarMap)
  (DevMap := DevMap) (ArpMap := ArpMap) (TeidMap := TeidMap)).
Notation far_env := (far_env (FarMap := FarMap) (DevMap := DevMap) (ArpMap := ArpMap)).

(** ** Operations *)

(** The process, and whether [spSessionManager] is set. *)
Record server : Type := mk_server {
  srv : component;
  spSessionManager : bool
}.

Definition api (A : Type) : Type := M server runtime_error A.

Definition on_srv {A} (m : comp A) : api A :=
  zoom srv (fun c s => mk_server c (spSessionManager s)) m.

(** /configure *)
Definition Controller_setup (e : program_env) (u0 : upf_program)
    (gtpInterface udpInterface : string) : api Z :=
  on_srv (UserPlaneComponent_setup if_nametoindex set_link_ret e u0 gtpInterface udpInterface) ;;;
  modify (fun s => mk_server (srv s) true) ;;;
  ret 200.

(** utils/Util.cpp *)
Definition convertIpToInet (ipAddress : string) : comp Z :=
  of_option (inet_aton ipAddress) InvalidAddress.

(** The arguments are evaluated first; what [create] answers is not looked at. *)
Fixpoint add_pdrs (r : nat) (l : list api_pdr) : comp unit :=
  match l with
  | [] => ret tt
  | x :: l =>
      let* ue := convertIpToInet (ueIPAddress x) in
      session_op r (CreatePdr (createOaiPDR (pdrId x) (api_pdr_farId x) (htonl (u32 (api_teid x)))
        (sMapInterface (sourceInterface x)) ue (sMapOuterHeader (outerHeaderRemoval x))
        (api_precedence x))) ;;;
      add_pdrs r l
  end.

Fixpoint add_fars (r : nat) (l : list api_far) : comp unit :=
  match l with
  | [] => ret tt
  | x :: l =>
      let* addr := convertIpToInet (ipv4Address x) in
      session_op r (CreateFar (createOaiFAR (farId x) true
        (sMapInterface (destinationInterface x))
        (sMapOuterHeader (outerHeaderCreationDescription x)) addr (portNumber x))) ;;;
      add_fars r l
  end.

(** An address that does not parse ends the request, what was stored stays. *)
Fixpoint store_arps (programs : option (next_rule_prog_index_key * nat))
    (l : list (string * string)) : comp Z :=
  match l with
  | [] => ret 200
  | (ip, mac) :: l =>
      match inet_aton ip with
      | None => ret 400
      | Some ip =>
          let* mac := of_option (ether_aton mac) NullSkeleton in
          store_arp programs ip mac ;;;
          store_arps programs l
      end
  end.

(** /createSession; [uninit1] and [uninit2] as in [createBPFSession]. *)
Definition createSesssion (uninit1 uninit2 : Z) (e : far_env) (q : session_request) : api Z :=
  let* s := get in
  let r := length (session_objects (srv s)) in
  on_srv (modify (fun c => with_session_objects
    (session_objects c ++ [new_pfcp_session inhabitant (u64 (request_seid q))]) c)) ;;;
  on_srv (add_pdrs r (request_pdrs q)) ;;;
  on_srv (add_fars r (request_fars q)) ;;;
  guard (spSessionManager s) NullSkeleton ;;;
  on_srv (createBPFSession if_nametoindex set_link_ret uninit1 uninit2 e r) ;;;
  let* programs := on_srv (gets (findSessionPrograms (u32 (u64 (request_seid q))))) in
  on_srv (store_arps programs (arpTable q)).


(** ** What a request asks for *)

(** The rule of an element, with the address that its text stands for. *)
Definition rule_of_pdr (seid : Z) (x : api_pdr) (ue : Z) : pfcp_pdr :=
  with_member seid (pfcp_pdr_of_create
    (createOaiPDR (pdrId x) (api_pdr_farId x) (htonl (u32 (api_teid x)))
       (sMapInterface (sourceInterface x)) ue (sMapOuterHeader (outerHeaderRemoval x))
       (api_precedence x))).

Definition rule_of_far (x : api_far) (addr : Z) : pfcp_far :=
  pfcp_far_of_create (createOaiFAR (farId x) true (sMapInterface (destinationInterface x))
    (sMapOuterHeader (outerHeaderCreationDescription x)) addr (portNumber x)).

Definition ue_addresses (q : session_request) : option (list Z) :=
  mapM (fun x => inet_aton (ueIPAddress x)) (request_pdrs q).
Definition far_addresses (q : session_request) : option (list Z) :=
  mapM (fun x => inet_aton (ipv4Address x)) (request_fars q).

Definition requested (q : session_request) : option pfcp_session :=
  match ue_addresses q, far_addresses q with
  | Some ues, Some addrs =>
      Some (mk_pfcp_session inhabitant (u64 (request_seid q))
              (zip_with (rule_of_pdr (u64 (request_seid q))) (request_pdrs q) ues)
              (zip_with rule_of_far (request_fars q) addrs))
  | _, _ => None
  end.

(** The ARP table after the entries of a request, when the map takes them. *)
Fixpoint arp_stored (l : list (string * string)) (m : ArpMap) : option ArpMap :=
  match l with
  | [] => Some m
  | (ip, mac) :: l =>
      match inet_aton ip, ether_aton mac with
      | Some ip, Some mac =>
          let '(m', r) := bpf_map_update_elem m ip mac BPF_ANY in
          if r =? 0 then arp_stored l m' else None
      | _, _ => None
      end
  end.

(** The [i]-th PDR comes first, and the [k]-th FAR is the one it names. *)
Record chosen (q : session_request) (i k : nat) (x : api_pdr) (y : api_far) : Prop := {
  chosen_pdr : request_pdrs q !! i = Some x;
  chosen_first j z : request_pdrs q !! j = Some z -> j <> i ->
    u32 (api_precedence x) < u32 (api_precedence z);
  chosen_far : request_fars q !! k = Some y;
  chosen_id : u32 (farId y) = u32 (api_pdr_farId x);
  chosen_before j z : request_fars q !! j = Some z -> (j < k)%nat ->
    u32 (farId z) <> u32 (api_pdr_farId x)
}.

(** ** Lemmas *)

Implicit Types c : component.

Lemma sMapInterface_range name : sMapInterface name = 0 \/ sMapInterface name = 1.
Proof. unfold sMapInterface. destruct (_ =? _)%string; [now right|]. left. now destruct (_ =? _)%string. Qed.

Lemma create_pdr_taken s x ue :
  run_op (CreatePdr (createOaiPDR (pdrId x) (api_pdr_farId x) (htonl (u32 (api_teid x)))
    (sMapInterface (sourceInterface x)) ue (sMapOuterHeader (outerHeaderRemoval x))
    (api_precedence x))) s =
  (Ok tt, with_pdrs (pdrs s ++ [rule_of_pdr (seid s) x ue]) s).
Proof.
  unfold rule_of_pdr. destruct (sMapInterface_range (sourceInterface x)) as [-> | ->]; reflexivity.
Qed.

Lemma create_far_taken s x addr :
  run_op (CreateFar (createOaiFAR (farId x) true (sMapInterface (destinationInterface x))
    (sMapOuterHeader (outerHeaderCreationDescription x)) addr (portNumber x))) s =
  (Ok tt, with_fars (fars s ++ [rule_of_far x addr]) s).
Proof. reflexivity. Qed.

Lemma session_op_eq r o s s' c x :
  session_objects c !! r = Some s -> run_op o s = (x, s') ->
  session_op r o c = (Ok tt, with_session_objects (<[r := s']> (session_objects c)) c).
Proof. intros Hr Ho. unfold session_op, modify. now rewrite Hr, Ho. Qed.

(** A session object changed twice, or not at all. *)
Lemma with_session_twice r s1 s2 (c : component) :
  with_session_objects
    (<[r := s2]> (session_objects (with_session_objects (<[r := s1]> (session_objects c)) c)))
    (with_session_objects (<[r := s1]> (session_objects c)) c) =
  with_session_objects (<[r := s2]> (session_objects c)) c.
Proof. unfold with_session_objects. cbn. now rewrite list_insert_insert_eq. Qed.

Lemma with_session_same r s (c : component) :
  session_objects c !! r = Some s ->
  with_session_objects (<[r := s]> (session_objects c)) c = c.
Proof. intros Hr. unfold with_session_objects. rewrite list_insert_id by done. now destruct c. Qed.

Lemma add_pdrs_eq r l ues s c :
  session_objects c !! r = Some s ->
  mapM (fun x => inet_aton (ueIPAddress x)) l = Some ues ->
  add_pdrs r l c =
    (Ok tt, with_session_objects
       (<[r := with_pdrs (pdrs s ++ zip_with (rule_of_pdr (seid s)) l ues) s]>
          (session_objects c)) c).
Proof.
  revert ues s c. induction l as [|x l IH]; intros ues s c Hr; cbn [mapM add_pdrs].
  - intros [= <-]. cbn [zip_with]. rewrite app_nil_r.
    rewrite with_session_same by (destruct s; exact Hr). reflexivity.
  - unfold convertIpToInet. cbn [mbind option_bind]. destruct (inet_aton (ueIPAddress x)) as [ue|];
      [|discriminate]. cbn [mbind option_bind].
    destruct (mapM _ l) as [ues'|] eqn:Hm; [|discriminate]. intros [= <-].
    cbn [of_option]. rewrite bind_ret_l.
    rewrite (bind_ok _ _ _ _ _ (session_op_eq _ _ _ _ _ _ Hr (create_pdr_taken s x ue))).
    rewrite (IH ues' (with_pdrs (pdrs s ++ [rule_of_pdr (seid s) x ue]) s)) by
      (try done; apply list_lookup_insert_eq; now apply lookup_lt_Some in Hr).
    rewrite with_session_twice. cbn [pdrs seid with_pdrs zip_with]. now rewrite <- app_assoc.
Qed.

Lemma add_fars_eq r l addrs s c :
  session_objects c !! r = Some s ->
  mapM (fun x => inet_aton (ipv4Address x)) l = Some addrs ->
  add_fars r l c =
    (Ok tt, with_session_objects
       (<[r := with_fars (fars s ++ zip_with rule_of_far l addrs) s]> (session_objects c)) c).
Proof.
  revert addrs s c. induction l as [|x l IH]; intros addrs s c Hr; cbn [mapM add_fars].
  - intros [= <-]. cbn [zip_with]. rewrite app_nil_r.
    rewrite with_session_same by (destruct s; exact Hr). reflexivity.
  - unfold convertIpToInet. cbn [mbind option_bind]. destruct (inet_aton (ipv4Address x)) as [a|];
      [|discriminate]. cbn [mbind option_bind].
    destruct (mapM _ l) as [addrs'|] eqn:Hm; [|discriminate]. intros [= <-].
    cbn [of_option]. rewrite bind_ret_l.
    rewrite (bind_ok _ _ _ _ _ (session_op_eq _ _ _ _ _ _ Hr (create_far_taken s x a))).
    rewrite (IH addrs' (with_fars (fars s ++ [rule_of_far x a]) s)) by
      (try done; apply list_lookup_insert_eq; now apply lookup_lt_Some in Hr).
    rewrite with_session_twice. cbn [fars with_fars zip_with]. now rewrite <- app_assoc.
Qed.

(** The store after the request is read. *)
Definition with_request (s : pfcp_session) (c : component) : component :=
  with_session_objects (session_objects c ++ [s]) c.

Lemma with_request_same s s' c :
  with_session_objects
    (<[length (session_objects c) := s']> (session_objects (with_request s c)))
    (with_request s c) = with_request s' c.
Proof.
  unfold with_request, with_session_objects. cbn. f_equal.
  now rewrite insert_app_r_alt, Nat.sub_diag by lia.
Qed.

Lemma with_request_new s c :
  session_objects (with_request s c) !! length (session_objects c) = Some s.
Proof. cbn. now apply list_lookup_middle. Qed.

Lemma on_srv_bind {A B} (m : comp A) (k : A -> api B) c b r c1 :
  m c = (Ok r, c1) -> bind (on_srv m) k (mk_server c b) = k r (mk_server c1 b).
Proof. intros Hm. unfold bind, on_srv, zoom. cbn [srv]. now rewrite Hm. Qed.

Lemma on_srv_err {A B} (m : comp A) (k : A -> api B) c b e c1 :
  m c = (Err e, c1) -> bind (on_srv m) k (mk_server c b) = (Err e, mk_server c1 b).
Proof. intros Hm. unfold bind, on_srv, zoom. cbn [srv]. now rewrite Hm. Qed.

(** Once the addresses parse, a request is a deployment of the session that it
    asks for, and then the ARP entries. *)
Lemma createSesssion_eq u1 u2 e q s c :
  requested q = Some s ->
  createSesssion u1 u2 e q (mk_server c true) =
    (on_srv (createBPFSession if_nametoindex set_link_ret u1 u2 e (length (session_objects c))) ;;;
     let* programs := on_srv (gets (findSessionPrograms (u32 (u64 (request_seid q))))) in
     on_srv (store_arps programs (arpTable q))) (mk_server (with_request s c) true).
Proof.
  unfold requested. destruct (ue_addresses q) as [ues|] eqn:Hu; [|done].
  destruct (far_addresses q) as [addrs|] eqn:Hf; [|done]. intros [= <-].
  unfold createSesssion. rewrite (bind_ok get _ _ _ _ eq_refl). cbn [srv spSessionManager].
  rewrite (on_srv_bind (modify (fun c => with_session_objects (session_objects c ++
    [new_pfcp_session inhabitant (u64 (request_seid q))]) c)) _ c true tt
    (with_request (new_pfcp_session inhabitant (u64 (request_seid q))) c) eq_refl).
  rewrite (on_srv_bind _ _ _ _ _ _ (add_pdrs_eq _ _ ues _ _ (with_request_new _ c) Hu)).
  rewrite with_request_same.
  rewrite (on_srv_bind _ _ _ _ _ _ (add_fars_eq _ _ addrs _ _ (with_request_new _ c) Hf)).
  rewrite with_request_same. reflexivity.
Qed.

Lemma requested_seid q s : requested q = Some s -> seid s = u64 (request_seid q).
Proof.
  unfold requested. destruct (ue_addresses q), (far_addresses q); try done. now intros [= <-].
Qed.

Lemma requested_ok q s : requested q = Some s -> session_ok s.
Proof.
  unfold requested. destruct (ue_addresses q) as [ues|], (far_addresses q); try done.
  intros [= <-]. unfold session_ok. cbn [pdrs seid]. generalize (request_pdrs q). clear.
  intros l. revert ues. induction l as [|x l IH]; intros [|ue ues]; cbn; constructor; [done|].
  apply IH.
Qed.

Lemma mapM_lookup {A B} (f : A -> option B) l k i a :
  mapM f l = Some k -> l !! i = Some a -> exists b, k !! i = Some b /\ f a = Some b.
Proof.
  intros Hm Hi. apply mapM_Some_1 in Hm.
  destruct (Forall2_lookup_l _ _ _ _ _ Hm Hi) as (b & Hb & Hf). eauto.
Qed.

Lemma zip_with_in {A B C} (f : A -> B -> C) l k z :
  In z (zip_with f l k) -> exists i a b, l !! i = Some a /\ k !! i = Some b /\ z = f a b.
Proof.
  intros Hz. apply in_lookup in Hz as [i Hi]. apply lookup_zip_with_Some in Hi as (a & b & -> & ? & ?).
  eauto 10.
Qed.

Lemma precedence_of_rule seid x ue :
  precedence_of 0 (rule_of_pdr seid x ue) = u32 (api_precedence x).
Proof. reflexivity. Qed.

(** The rule that comes first is the chosen one. *)
Lemma chosen_highest q i k x y ue s p :
  chosen q i k x y -> requested q = Some s -> inet_aton (ueIPAddress x) = Some ue ->
  highest s p -> p = rule_of_pdr (seid s) x ue.
Proof.
  intros [Hx Hfirst _ _ _] Hreq Hue [Hin Hle]. pose proof (requested_seid q s Hreq) as Hs.
  rewrite Hs. unfold requested in Hreq. destruct (ue_addresses q) as [ues|] eqn:Hu; [|done].
  destruct (far_addresses q) as [addrs|]; [|done]. injection Hreq as <-. cbn [pdrs] in *.
  apply zip_with_in in Hin as (j & z & b & Hz & Hb & ->).
  destruct (mapM_lookup _ _ _ _ _ Hu Hx) as (ue' & Hue' & He). rewrite Hue in He.
  injection He as <-.
  destruct (decide (j = i)) as [->|Hne]; [congruence|]. exfalso.
  pose proof (Hfirst j z Hz Hne) as Hlt.
  assert (In (rule_of_pdr (u64 (request_seid q)) x ue)
    (zip_with (rule_of_pdr (u64 (request_seid q))) (request_pdrs q) ues)) as Hinx.
  { apply in_lookup. exists i. rewrite lookup_zip_with, Hx, Hue'. done. }
  specialize (Hle _ Hinx). rewrite !precedence_of_rule in Hle. lia.
Qed.

Lemma find_lookup {A} (p : A -> bool) l k a :
  l !! k = Some a -> p a = true -> (forall j b, l !! j = Some b -> (j < k)%nat -> p b = false) ->
  find p l = Some a.
Proof.
  revert k. induction l as [|x l IH]; intros [|k]; cbn; [done..| |].
  - intros [= ->] ->. done.
  - intros Hk Hp Hb. rewrite (Hb 0%nat x eq_refl) by lia. apply (IH k Hk Hp).
    intros j b Hj Hlt. apply (Hb (S j) b Hj). lia.
Qed.

(** Its FAR is the one it names. *)
Lemma chosen_get_far q i k x y ue addr s :
  chosen q i k x y -> requested q = Some s -> inet_aton (ipv4Address y) = Some addr ->
  pdr_far (rule_of_pdr (seid s) x ue) s = Some (rule_of_far y addr).
Proof.
  intros [_ _ Hy Hid Hbef] Hreq Haddr.
  unfold pdr_far. change (get_ie (T := far_id_t) (rule_of_pdr (seid s) x ue)) with
    (Some (mk_far_id_t (u32 (api_pdr_farId x)))). cbn [PfcpTypes.far_id].
  unfold requested in Hreq. destruct (ue_addresses q) as [ues|]; [|done].
  destruct (far_addresses q) as [addrs|] eqn:Hf; [|done]. injection Hreq as <-.
  unfold get_far. cbn [fars]. destruct (mapM_lookup _ _ _ _ _ Hf Hy) as (a & Ha & He).
  rewrite Haddr in He. injection He as <-.
  apply (find_lookup _ _ k).
  - rewrite lookup_zip_with, Hy, Ha. done.
  - unfold has_far_id. cbn. now apply Z.eqb_eq.
  - intros j b Hj Hlt. apply lookup_zip_with_Some in Hj as (z & ? & -> & Hz & _).
    unfold has_far_id. cbn. apply Z.eqb_neq. exact (Hbef j z Hz Hlt).
Qed.

Lemma store_arps_eq key p l a o c :
  far_objects c !! p = Some o -> arp_stored l (mpArpTableMap o) = Some a ->
  exists c' o', store_arps (Some (key, p)) l c = (Ok 200, c') /\ same_but_arp c c' /\
    far_objects c' !! p = Some o' /\ mpArpTableMap o' = a.
Proof.
  revert o c. induction l as [|[ip mac] l IH]; intros o c Ho; cbn [arp_stored store_arps].
  { intros [= <-]. exists c, o. done. }
  destruct (inet_aton ip) as [ip'|]; [|done]. destruct (ether_aton mac) as [mac'|]; [|done].
  destruct (bpf_map_update_elem (mpArpTableMap o) ip' mac' BPF_ANY) as [m r] eqn:Hu.
  destruct (Z.eqb_spec r 0) as [->|]; [|done]. intros Hl.
  cbn [of_option]. rewrite bind_ret_l. unfold store_arp.
  set (o1 := mk_far_program (mId o) (far_life o) (far_progs o) (far_fd o) (mpFARMap o)
               (mpEgressInterfaceMap o) m).
  assert (on_arp (BPFMap_update ip' mac' BPF_ANY) o = (Ok 0, o1)) as Hs
    by exact (zoom_eq _ _ _ o _ _ (BPFMap_update_ok _ _ _ _ _ Hu)).
  pose proof (on_far_object_eq p _ c o _ _ Ho Hs) as Hw.
  set (c1 := with_far_objects _ _ c) in *. pose proof (on_arp_same _ _ _ _ _ Hw) as Hc1.
  assert (far_objects c1 !! p = Some o1) as Ho1
    by (apply list_lookup_insert_eq; now apply lookup_lt_Some in Ho).
  destruct (IH o1 c1 Ho1 Hl) as (c' & o' & Hr & Hsame & Ho' & Ha).
  exists c', o'. split; [|split; [etrans; eassumption|done]].
  erewrite bind_ok by (erewrite bind_ok by exact Hw; reflexivity). exact Hr.
Qed.

(** The key and the FAR of the chosen rules, as the data plane has them. *)
Definition request_key (x : api_pdr) (ue : Z) : next_rule_prog_index_key :=
  mk_key (htonl (u32 (api_teid x))) (sMapInterface (sourceInterface x)) ue.

Definition request_far (y : api_far) (addr : Z) : pfcp_far_t_ :=
  mk_far (u32 (farId y)) (mk_apply_action 0 0 0 0 1 0)
    (mk_fwd (sMapInterface (destinationInterface y))
       (mk_ohc (sMapOuterHeader (outerHeaderCreationDescription y)) 0 addr
          (u16 (portNumber y)))).

Lemma rule_fields seid x ue :
  exists t i a, pdr_fields (rule_of_pdr seid x ue) = Some (t, i, a) /\
    mk_key (fteid_teid t) (source_interface_interface_value i) (ue_ip_address_ipv4_address a) =
      request_key x ue.
Proof.
  do 3 eexists. split; [reflexivity|]. cbn. unfold request_key. f_equal.
  - apply u32_id. apply bytes_htonl_range.
  - now destruct (sMapInterface_range (sourceInterface x)) as [-> | ->].
Qed.

Lemma far_record_rule y addr : far_record (rule_of_far y addr) = request_far y addr.
Proof.
  unfold far_record, request_far. cbn. f_equal. f_equal.
  - now destruct (sMapInterface_range (destinationInterface y)) as [-> | ->].
  - f_equal. unfold sMapOuterHeader. now repeat case_match.
Qed.

Hypothesis unlinks : forall i, set_link_ret i (-1) = 0.

(** A request that goes through: its session is deployed. *)
Lemma request_deployed u1 u2 e q i k x y ue addr s c d idx prg m a :
  component_ok c -> requested q = Some s -> chosen q i k x y ->
  inet_aton (ueIPAddress x) = Some ue -> inet_aton (ipv4Address y) = Some addr ->
  accepts if_nametoindex e c (request_key x ue) (request_far y addr) d idx prg m ->
  arp_stored (arpTable q) (fe_arp e) = Some a ->
  exists c' o,
    createSesssion u1 u2 e q (mk_server c true) = (Ok 200, mk_server c' true) /\
    deployed if_nametoindex c' (request_key x ue) (length (far_objects c)) (fe_fd e)
      (request_far y addr) /\
    far_objects c' !! length (far_objects c) = Some o /\ mpArpTableMap o = a /\
    findSessionPrograms (u32 (request_seid q)) c' =
      Some (request_key x ue, length (far_objects c)) /\
    mSeidToSession c' !! u64 (request_seid q) = Some (length (session_objects c)) /\
    interfaces c' = interfaces c.
Proof.
  intros Hc Hreq Hch Hue Haddr Hacc Harp. rewrite (createSesssion_eq u1 u2 e q s c Hreq).
  pose proof (requested_seid q s Hreq) as Hseid. pose proof (requested_ok q s Hreq) as Hsok.
  pose proof (sorted_session_head u1 u2 s Hsok) as Hh.
  destruct (pdrs (sorted_session u1 u2 s)) as [|p l] eqn:Hp.
  { exfalso. destruct Hch as [Hx _ _ _ _]. revert Hh Hx. unfold requested in Hreq.
    destruct (ue_addresses q) as [ues|] eqn:Hu; [|done].
    destruct (far_addresses q); [|done]. injection Hreq as <-. cbn [pdrs].
    unfold ue_addresses in Hu. apply length_mapM in Hu.
    destruct (request_pdrs q), ues; done. }
  pose proof (chosen_highest q i k x y ue s p Hch Hreq Hue Hh) as ->.
  destruct (rule_fields (seid s) x ue) as (t & si & ad & Hf & Hkey).
  pose proof (chosen_get_far q i k x y ue addr s Hch Hreq Haddr) as Hfar.
  pose proof (createBPFSession_run if_nametoindex set_link_ret u1 u2 e _ s _ _ l t si ad _
    (with_request_new s c) Hp Hf Hfar) as Hrun.
  rewrite with_request_same in Hrun.
  set (c1 := with_request (sorted_session u1 u2 s) c) in *.
  assert (table_ok c1) as Ht1 by (eapply (table_ok_ext c); [apply Hc|done|done]).
  destruct (createPipeline_spec if_nametoindex set_link_ret unlinks e (u32 (seid s))
    (fteid_teid t) (source_interface_interface_value si) (ue_ip_address_ipv4_address ad)
    (rule_of_far y addr) c1 d idx prg m Ht1)
    as (c2 & Hc2 & Hdep & Hobj & Hm & _ & _ & _ & _ & Ht2 & _ & _ & _ & Hif).
  { rewrite Hkey, far_record_rule. destruct Hacc. now split. }
  rewrite (bind_ok _ _ _ _ _ Hc2) in Hrun.
  set (c3 := with_seids (<[seid s := length (session_objects c)]> (mSeidToSession c2)) c2).
  change (modify _ c2) with (Ok (E := runtime_error) tt, c3) in Hrun.
  rewrite (on_srv_bind _ _ _ _ _ _ Hrun).
  rewrite Hkey, far_record_rule in *.
  assert (findSessionPrograms (u32 (seid s)) c3 = Some (request_key x ue, length (far_objects c)))
    as Hfind by (unfold findSessionPrograms; cbn; rewrite Hm; apply lookup_insert_eq).
  rewrite <- Hseid.
  rewrite (on_srv_bind (gets _) _ c3 true _ c3 eq_refl), Hfind.
  destruct (store_arps_eq (request_key x ue) (length (far_objects c)) (arpTable q) a
    (loaded_object e (sIdCounter c1) d m) c3 Hobj Harp) as (c4 & o & Hst & Hsame & Ho & Ha).
  exists c4, o. split; [unfold on_srv, zoom; cbn [srv]; now rewrite Hst|].
  split; [apply (deployed_arp _ c3 c4 _ _ _ _ Hsame); exact Hdep|].
  split; [exact Ho|]. split; [exact Ha|].
  assert (u32 (seid s) = u32 (request_seid q)) as <-.
  { rewrite Hseid. unfold u32, u64. now rewrite Z.mod_mod_divide by (now exists (2 ^ 32)). }
  unfold findSessionPrograms in *. rewrite (arp_manager _ _ Hsame), (arp_seids _ _ Hsame).
  split; [exact Hfind|]. split; [cbn; apply lookup_insert_eq|].
  rewrite (arp_interfaces _ _ Hsame). exact Hif.
Qed.

(** An address that does not parse: nothing is deployed. *)
Lemma add_pdrs_bad r l c :
  (exists s, session_objects c !! r = Some s) ->
  mapM (fun x => inet_aton (ueIPAddress x)) l = None ->
  exists s', add_pdrs r l c =
    (Err InvalidAddress, with_session_objects (<[r := s']> (session_objects c)) c).
Proof.
  revert c. induction l as [|x l IH]; intros c [s Hr]; cbn [mapM add_pdrs]; [discriminate|].
  unfold convertIpToInet. cbn [mbind option_bind]. destruct (inet_aton (ueIPAddress x)) as [ue|].
  2: { intros _. exists s. now rewrite with_session_same. }
  cbn [mbind option_bind]. destruct (mapM _ l) as [|] eqn:Hm; [discriminate|]. intros _.
  cbn [of_option]. rewrite bind_ret_l.
  rewrite (bind_ok _ _ _ _ _ (session_op_eq _ _ _ _ _ _ Hr (create_pdr_taken s x ue))).
  set (s1 := with_pdrs _ s). destruct (IH (with_session_objects (<[r := s1]> (session_objects c)) c)) as [s' Hs'].
  { exists s1. cbn. apply list_lookup_insert_eq. now apply lookup_lt_Some in Hr. }
  { reflexivity. }
  exists s'. rewrite Hs', with_session_twice. reflexivity.
Qed.

Lemma add_fars_bad r l c :
  (exists s, session_objects c !! r = Some s) ->
  mapM (fun x => inet_aton (ipv4Address x)) l = None ->
  exists s', add_fars r l c =
    (Err InvalidAddress, with_session_objects (<[r := s']> (session_objects c)) c).
Proof.
  revert c. induction l as [|x l IH]; intros c [s Hr]; cbn [mapM add_fars]; [discriminate|].
  unfold convertIpToInet. cbn [mbind option_bind]. destruct (inet_aton (ipv4Address x)) as [a|].
  2: { intros _. exists s. now rewrite with_session_same. }
  cbn [mbind option_bind]. destruct (mapM _ l) as [|] eqn:Hm; [discriminate|]. intros _.
  cbn [of_option]. rewrite bind_ret_l.
  rewrite (bind_ok _ _ _ _ _ (session_op_eq _ _ _ _ _ _ Hr (create_far_taken s x a))).
  set (s1 := with_fars _ s). destruct (IH (with_session_objects (<[r := s1]> (session_objects c)) c)) as [s' Hs'].
  { exists s1. cbn. apply list_lookup_insert_eq. now apply lookup_lt_Some in Hr. }
  { reflexivity. }
  exists s'. rewrite Hs', with_session_twice. reflexivity.
Qed.

(** *** Every request keeps the invariant of the component *)

Lemma on_srv_preserves {A} (m : comp A) :
  preserves component_ok m -> preserves (fun s => component_ok (srv s)) (on_srv m).
Proof.
  intros Hm s x s' Hs. unfold on_srv, zoom. destruct (m (srv s)) as [r c] eqn:E.
  intros [= _ <-]. exact (Hm _ _ _ Hs E).
Qed.

Lemma session_op_preserves r o : preserves component_ok (session_op r o : comp unit).
Proof. intros c x c'. apply session_op_ok. Qed.

Lemma add_pdrs_preserves r l : preserves component_ok (add_pdrs r l).
Proof.
  induction l as [|p l IH]; cbn [add_pdrs]; unfold convertIpToInet; preserves.
  - apply session_op_preserves.
  - exact IH.
Qed.

Lemma add_fars_preserves r l : preserves component_ok (add_fars r l).
Proof.
  induction l as [|p l IH]; cbn [add_fars]; unfold convertIpToInet; preserves.
  - apply session_op_preserves.
  - exact IH.
Qed.

Lemma store_arps_preserves p l : preserves component_ok (store_arps p l).
Proof.
  induction l as [|[ip mac] l IH]; cbn [store_arps]; [preserves|].
  destruct (inet_aton ip); preserves; [|exact IH].
  intros c x c' Hc Hs. apply store_arp_same in Hs. now apply (same_but_arp_ok c).
Qed.

(** A request leaves the component well-formed, however it ends. *)
Theorem createSesssion_ok u1 u2 e q :
  preserves (fun s => component_ok (srv s)) (createSesssion u1 u2 e q).
Proof.
  unfold createSesssion. preserves; apply on_srv_preserves.
  - apply preserves_modify. intros c. apply new_session_ok.
  - apply add_pdrs_preserves.
  - apply add_fars_preserves.
  - intros c x c' Hc Hs. exact (createBPFSession_ok _ _ unlinks _ _ _ _ _ _ _ Hc Hs).
  - preserves.
  - apply store_arps_preserves.
Qed.

(** ** Properties *)


Context `{XdpHelperLaws DevMap} `{!RedirectLaws DevMap}.
Variable linux_version_code : Z.



End Api.

(** ** Witnesses *)

Module SampleApi.
Import SamplePrograms SampleManager.

Definition inet (s : string) : option Z :=
  if String.eqb s "10.10.10.10" then Some (le_dec [10; 10; 10; 10])
  else if String.eqb s "10.1.3.27" then Some (le_dec [10; 1; 3; 27])
  else if String.eqb s "10.1.3.30" then Some (le_dec [10; 1; 3; 30])
  else None.

Definition ether (s : string) : option (list Z) :=
  if String.eqb s "90:e2:ba:27:fd:3c" then Some SampleFar.mac else None.

(** The request of the repository's API collection, with the UE of the tests. *)
Definition pdr_dl : api_pdr :=
  mk_api_pdr 20 200 0 "INTERFACE_VALUE_CORE" "10.1.3.27" "OUTER_HEADER_REMOVAL_UDP_IPV4" 2.
Definition pdr_ul : api_pdr :=
  mk_api_pdr 10 100 100 "INTERFACE_VALUE_ACCESS" "10.10.10.10"
    "OUTER_HEADER_REMOVAL_GTPU_UDP_IPV4" 1.
Definition far_dl : api_far :=
  mk_api_far 200 "INTERFACE_VALUE_ACCESS" "OUTER_HEADER_CREATION_GTPU_UDP_IPV4" "10.1.3.27" 1234.
Definition far_ul : api_far :=
  mk_api_far 100 "INTERFACE_VALUE_CORE" "OUTER_HEADER_CREATION_UDP_IPV4" "10.1.3.27" 1234.
Definition request : session_request :=
  mk_session_request 1 [pdr_dl; pdr_ul] [far_dl; far_ul] [("10.1.3.30", "90:e2:ba:27:fd:3c")%string].
Definition bad_request : session_request :=
  mk_session_request 1 [pdr_ul] [mk_api_far 100 "INTERFACE_VALUE_CORE" "" "gateway" 0] [].

Definition session : pfcp_session :=
  match requested inet request with Some s => s | None => new_pfcp_session inhabitant 0 end.
Definition arps : hash_map Z (list Z) :=
  match arp_stored inet ether (arpTable request) (mk_hash_map 2 ∅) with
  | Some a => a | None => mk_hash_map 0 ∅ end.
Definition key : next_rule_prog_index_key := request_key pdr_ul (le_dec [10; 10; 10; 10]).
Definition far : pfcp_far_t_ := request_far far_ul (le_dec [10; 1; 3; 27]).

Definition egress1 : hash_map Z Z :=
  fst (bpf_map_update_elem (fe_egress (far_env0 21)) UPLINK 3 BPF_ANY).
Definition egress : hash_map Z Z := fst (bpf_map_update_elem egress1 DOWNLINK 4 BPF_ANY).

Definition gtp : list Z := [0x30; 255; 0; 31; 0; 0; 0; 100].
Definition uplink : xdp_md :=
  Sample.pkt (SampleFar.frame_eth ++ SamplePipeline.ip_ue ++ Sample.udp GTP_UDP_PORT ++ gtp ++
              SampleFar.packet).

Definition idx : hash_map next_rule_prog_index_key Z :=
  fst (bpf_map_update_elem (getNextProgRuleIndexMap c0) key 1 BPF_ANY).
Definition prg : prog_array := fst (bpf_map_update_elem (getNextProgRuleMap c0) 1 21 BPF_ANY).
Definition fars : hash_map Z pfcp_far_t_ :=
  fst (bpf_map_update_elem (fe_far (far_env0 21)) 0 far BPF_ANY).

(** A session for the other direction. *)
Definition pdr_down : api_pdr :=
  mk_api_pdr 20 200 0 "INTERFACE_VALUE_CORE" "10.10.10.10" "OUTER_HEADER_REMOVAL_UDP_IPV4" 1.
Definition request2 : session_request :=
  mk_session_request 2 [pdr_down] [far_dl] [("10.1.3.27", "90:e2:ba:27:fd:3c")%string].
Definition session2 : pfcp_session :=
  match requested inet request2 with Some s => s | None => new_pfcp_session inhabitant 0 end.
Definition arps2 : hash_map Z (list Z) :=
  match arp_stored inet ether (arpTable request2) (mk_hash_map 2 ∅) with
  | Some a => a | None => mk_hash_map 0 ∅ end.
Definition key2 : next_rule_prog_index_key := request_key pdr_down (le_dec [10; 10; 10; 10]).
Definition far2 : pfcp_far_t_ := request_far far_dl (le_dec [10; 1; 3; 27]).
Definition idx2 : hash_map next_rule_prog_index_key Z :=
  fst (bpf_map_update_elem (getNextProgRuleIndexMap c0) key2 1 BPF_ANY).
Definition fars2 : hash_map Z pfcp_far_t_ :=
  fst (bpf_map_update_elem (fe_far (far_env0 21)) 0 far2 BPF_ANY).

Lemma request2_accepted : accepts nametoindex (far_env0 21) c0 key2 far2 egress idx2 prg fars2.
Proof.
  split; [|exists egress1; split|..]; try (vm_compute; reflexivity).
  repeat split; try done. intros n Hn. cbn in *. tauto.
Qed.

Lemma request2_chosen : chosen request2 0 0 pdr_down far_dl.
Proof.
  split; try reflexivity.
  - intros [|j] z; cbn; [|done]. intros _ Hj. now destruct Hj.
  - intros j z _ Hj. lia.
Qed.

Lemma request_accepted : accepts nametoindex (far_env0 21) c0 key far egress idx prg fars.
Proof.
  split; [|exists egress1; split|..]; try (vm_compute; reflexivity).
  repeat split; try done. intros n Hn. cbn in *. tauto.
Qed.

Lemma request_chosen : chosen request 1 1 pdr_ul far_ul.
Proof.
  split; try reflexivity.
  - intros [|[|j]] z; cbn; [|done|done]. intros [= <-] _. vm_compute. reflexivity.
  - intros [|j] z; cbn; [|lia]. intros [= <-] _. vm_compute. discriminate.
Qed.

End SampleApi.

Import SamplePrograms SampleManager SampleApi.



