(* ===== verification/RulesUtilities.v ===== *)
(** * The first model of rules and sessions (src/src/pfcp, src/src/interfaces,
    src/tests/interfaces, src/tests/InformationElementFactory.hpp)

    Before the structures of the protocol library were taken over, rules were objects
    behind abstract classes, filled from the structures of the data plane, and a
    session kept its detection rules sorted.  The factory of the server still makes
    rules in both ways. *)
From Stdlib Require Import ZArith Lia List Bool Sorted Permutation.
From stdpp Require Import base list.
From S2P Require Import Prelude StdSort FarBpf SessionBpf PfcpTypes PfcpGroups PfcpRules BpfPrograms Manager Api.
Open Scope Z_scope.

(** ** src/src/pfcp *)

Record PacketDetectionInformation : Type := mk_information {
  mTeid : Z;
  mUeIpAddress : Z;
  mSourceInterface : Z
}.

Record PacketDetectionRule : Type := mk_rule {
  mPrecedence : Z;
  mPDI : PacketDetectionInformation;
  mFarId : Z
}.

Record Session : Type := mk_Session {
  mPDRs : list PacketDetectionRule;
  mFARs : list nat;
  mSeid : Z
}.

Definition new_Session (seid : Z) : Session := mk_Session [] [] seid.

Definition rule_before (first second : PacketDetectionRule) : bool :=
  mPrecedence first <? mPrecedence second.

(** std::list::sort keeps the order of rules of which neither is before the other:
    [insertion_sort_stable]. *)
Definition Session_addPDR (pPdr : PacketDetectionRule) (s : Session) : Session :=
  mk_Session (insertion_sort rule_before (mPDRs s ++ [pPdr])) (mFARs s) (mSeid s).

(** The overload for the rules of the protocol library is empty, and so is the one
    for FARs. *)
Definition Session_addPDR_pfcp (pPdr : pfcp_pdr) (s : Session) : Session := s.
Definition Session_addFAR_pfcp (pFar : pfcp_far) (s : Session) : Session := s.

(** ForwardingActionRule has no members: an object is its identity. *)
Definition Session_addFAR (pFar : nat) (s : Session) : Session :=
  mk_Session (mPDRs s) (mFARs s ++ [pFar]) (mSeid s).

(** [None]: [*mPDRs.begin()] of an empty list. *)
Definition getHighestPrecedencePDR (s : Session) : option PacketDetectionRule := head (mPDRs s).

(** ** The abstract classes and their implementations *)

(** ForwardingActionRules, without what the data plane has no field for. *)
Class ForwardingActionRules (T : Type) : Type := {
  getFARId : T -> Z;
  getApplyRules : T -> apply_action_t_;
  getForwardingParameters : T -> forwarding_parameters_t_;
  far_getData : T -> pfcp_far_t_
}.

Class PacketDetectionRules (T : Type) : Type := {
  getTeid : T -> Z;
  getPdrId : T -> Z;
  getPrecedence : T -> Z;
  getPdi : T -> pdi_t_;
  getOuterHeaderRemoval : T -> Z;
  getFarId : T -> Z;
  pdr_getData : T -> pfcp_pdr_t_
}.

Record ForwardingActionRulesImpl : Type := mk_ForwardingActionRulesImpl { mFar : pfcp_far_t_ }.
Record PacketDetectionRulesImpl : Type := mk_PacketDetectionRulesImpl { mPdr : pfcp_pdr_t_ }.

#[export] Instance far_impl : ForwardingActionRules ForwardingActionRulesImpl := {
  getFARId r := FarBpf.far_id (mFar r);
  getApplyRules r := FarBpf.apply_action (mFar r);
  getForwardingParameters r := FarBpf.forwarding_parameters (mFar r);
  far_getData := mFar
}.

#[export] Instance pdr_impl : PacketDetectionRules PacketDetectionRulesImpl := {
  getTeid r := SessionBpf.fteid_teid (SessionBpf.pdi (mPdr r));
  getPdrId r := SessionBpf.rule_id (mPdr r);
  getPrecedence r := SessionBpf.precedence (mPdr r);
  getPdi r := SessionBpf.pdi (mPdr r);
  getOuterHeaderRemoval r := outer_header_removal_description (mPdr r);
  getFarId r := pdr_far_id (mPdr r);
  pdr_getData := mPdr
}.

(** RulesUtilities: the structure behind the pointer, which is written, is the result. *)
Definition copyFAR {T : Type} `{ForwardingActionRules T} (pFarDestination : pfcp_far_t_)
    (pFarSource : T) : pfcp_far_t_ := far_getData pFarSource.
Definition createFAR_of (pFarSource : pfcp_far_t_) : ForwardingActionRulesImpl :=
  mk_ForwardingActionRulesImpl pFarSource.
Definition copyPDR {T : Type} `{PacketDetectionRules T} (pPdrDestination : pfcp_pdr_t_)
    (pPdrSource : T) : pfcp_pdr_t_ := pdr_getData pPdrSource.
Definition createPDR_of (pPdrSource : pfcp_pdr_t_) : PacketDetectionRulesImpl :=
  mk_PacketDetectionRulesImpl pPdrSource.

(** ** The factory; what it does not set is 0. *)

Definition createPDR (pdrId farId teid sourceInterface ueIPv4 outerHeaderRemoval : Z)
    : PacketDetectionRulesImpl :=
  mk_PacketDetectionRulesImpl
    (mk_pdr (u16 pdrId) 0 (SessionBpf.mk_pdi (u8 (u32 sourceInterface)) (u32 teid) ueIPv4)
       (u8 (u16 outerHeaderRemoval)) (u32 farId)).

Definition createFAR (farId : Z) (actions : apply_action_t_)
    (destinationInterface outerHeaderCreation destinationIPv4 destinationPort : Z)
    : ForwardingActionRulesImpl :=
  mk_ForwardingActionRulesImpl
    (mk_far (u32 farId) actions
       (mk_fwd (u8 (u32 destinationInterface))
          (mk_ohc (u16 outerHeaderCreation) 0 destinationIPv4 (u16 destinationPort)))).

(** ** Lemmas *)

(** The first of the rules with the least precedence. *)
Fixpoint first_least (l : list PacketDetectionRule) : option PacketDetectionRule :=
  match l with
  | [] => None
  | a :: l =>
      match first_least l with
      | Some h => if rule_before h a then Some h else Some a
      | None => Some a
      end
  end.

Lemma head_insertion_sort l : head (insertion_sort rule_before l) = first_least l.
Proof.
  induction l as [|a l IH]; [done|]. cbn. fold (insertion_sort rule_before l).
  rewrite <- IH. destruct (insertion_sort rule_before l) as [|h t]; [done|].
  cbn. now destruct (rule_before h a).
Qed.

Lemma first_least_snoc l p :
  first_least (l ++ [p]) =
    match first_least l with
    | Some h => if rule_before p h then Some p else Some h
    | None => Some p
    end.
Proof.
  induction l as [|a l IH]; [done|]. cbn. rewrite IH. destruct (first_least l) as [h|].
  - unfold rule_before.
    destruct (Z.ltb_spec (mPrecedence p) (mPrecedence h)), (Z.ltb_spec (mPrecedence h) (mPrecedence a));
      cbn; repeat match goal with |- context [?x <? ?y] => destruct (Z.ltb_spec x y) end; done || lia.
  - now destruct (rule_before p a).
Qed.

Lemma sorted_head l :
  StronglySorted (fun a b => mPrecedence a <= mPrecedence b) l -> first_least l = head l.
Proof.
  induction 1 as [|a l Hs IH Ha]; [done|]. cbn. rewrite IH.
  destruct l as [|h t]; [done|]. cbn. inversion Ha as [|? ? Hle]; subst.
  unfold rule_before. now rewrite (proj2 (Z.ltb_ge _ _)) by done.
Qed.

Lemma rules_sorted l :
  StronglySorted (fun a b => mPrecedence a <= mPrecedence b) (insertion_sort rule_before l).
Proof.
  exact (@std_sort_sorted insertion_std_sort _ _ rule_before mPrecedence l (fun _ _ _ _ => eq_refl)).
Qed.

(** The rules of one precedence stay in their order. *)
Lemma insertion_sort_stable l n :
  List.filter (fun r => mPrecedence r =? n) (insertion_sort rule_before l) =
  List.filter (fun r => mPrecedence r =? n) l.
Proof.
  induction l as [|a l IH]; [done|]. cbn [insertion_sort fold_right].
  fold (insertion_sort rule_before l). cbn [List.filter]. rewrite <- IH. clear IH.
  induction (insertion_sort rule_before l) as [|b t IH]; [done|]. cbn [insert_sorted].
  unfold rule_before at 1. destruct (Z.ltb_spec (mPrecedence b) (mPrecedence a)) as [Hlt|Hge]; [|done].
  cbn [List.filter]. rewrite IH.
  destruct (Z.eqb_spec (mPrecedence a) n), (Z.eqb_spec (mPrecedence b) n); done || lia.
Qed.

(** ** Properties *)

Definition with_rules (l : list PacketDetectionRule) (s : Session) : Session :=
  fold_left (fun s p => Session_addPDR p s) l s.

(** The rules of a session are those that were added, in the order of their
    precedence, and the one it answers with is the first with the least. *)
Theorem session_rules seid l :
  let s := with_rules l (new_Session seid) in
  Permutation (mPDRs s) l /\
  StronglySorted (fun a b => mPrecedence a <= mPrecedence b) (mPDRs s) /\
  (forall n, List.filter (fun r => mPrecedence r =? n) (mPDRs s) =
             List.filter (fun r => mPrecedence r =? n) l) /\
  getHighestPrecedencePDR s = first_least l.
Proof.
  cbv zeta. unfold getHighestPrecedencePDR, with_rules. induction l as [|p l IH] using rev_ind.
  - repeat split; constructor.
  - rewrite fold_left_app. cbn [fold_left]. destruct IH as (Hp & Hs & Hf & Hh).
    set (s := fold_left _ l _) in *. unfold Session_addPDR. cbn [mPDRs]. split; [|split; [|split]].
    + etrans; [apply insertion_sort_permutation|]. now apply Permutation_app_tail.
    + apply rules_sorted.
    + intros n. rewrite insertion_sort_stable, !List.filter_app. now rewrite Hf.
    + rewrite head_insertion_sort, !first_least_snoc, sorted_head by done. now rewrite Hh.
Qed.

(** The two factories agree: the FAR made for the protocol library, as the manager
    writes it into the map, is the FAR made for the data plane, when it is to
    forward and nothing else. *)
Theorem factories_agree farId forw di ohc addr p :
  far_record (pfcp_far_of_create (createOaiFAR farId forw di ohc addr p)) =
    far_getData (createFAR farId (mk_apply_action 0 0 0 0 (Z.b2z forw) 0) di ohc addr p).
Proof.
  assert (u8 (u32 di) = u8 di) as Hd.
  { symmetry. apply Znumtheory.Zmod_div_mod; [lia|lia|]. now exists (2 ^ 24). }
  cbn. now rewrite Hd.
Qed.

(** A structure copied out of an object made of it is the structure. *)
Theorem copy_create far far' pdr pdr' :
  copyFAR far' (createFAR_of far) = far /\ copyPDR pdr' (createPDR_of pdr) = pdr.
Proof. done. Qed.
