(* ===== verification/UintGenerator.v ===== *)
(** * Identifiers (src/src/oai/common/utils/uint_generator.hpp)

    [util::uint_generator<UINT>]: a counter that wraps at the width of UINT, and
    the set of the identifiers that are in use.  The search for a free one is a
    loop; the mutexes make the two operations atomic. *)
From Stdlib Require Import ZArith Lia List Bool.
From stdpp Require Import base list gmap.
From S2P Require Import Prelude.
Open Scope Z_scope.

(** ** Data and operations *)

Section Generator.
(** The width of UINT in bits. *)
Variable w : Z.

Record uint_generator : Type := mk_uint_generator {
  uid_generator : Z;
  uid_generated : gset Z
}.

Definition new_uint_generator : uint_generator := mk_uint_generator 0 ∅.

(** [++uid_generator] *)
Definition incr (u : Z) : Z := (u + 1) mod 2 ^ w.

(** [while (true)]: [None] is a search that is not over within the fuel. *)
Fixpoint get_uid_loop (fuel : nat) (uid : Z) (g : uint_generator) : option (Z * uint_generator) :=
  match fuel with
  | O => None
  | S fuel =>
      if decide (uid ∈ uid_generated g)
      then
        let uid' := incr (uid_generator g) in
        get_uid_loop fuel uid' (mk_uint_generator uid' (uid_generated g))
      else Some (uid, mk_uint_generator (uid_generator g) ({[uid]} ∪ uid_generated g))
  end.

(** The identifiers in use, and one more round, are enough: [get_uid_total]. *)
Definition get_uid (g : uint_generator) : option (Z * uint_generator) :=
  let uid := incr (uid_generator g) in
  get_uid_loop (S (size (uid_generated g))) uid (mk_uint_generator uid (uid_generated g)).

Definition free_uid (uid : Z) (g : uint_generator) : uint_generator :=
  mk_uint_generator (uid_generator g) (uid_generated g ∖ {[uid]}).

(** ** The search *)

Hypothesis width : 0 < w.

Lemma modulus_pos : 0 < 2 ^ w.
Proof. apply Z.pow_pos_nonneg; lia. Qed.

Definition in_width (u : Z) : Prop := 0 <= u < 2 ^ w.

Lemma incr_in_width u : in_width (incr u).
Proof. apply Z.mod_pos_bound, modulus_pos. Qed.

(** The candidate of round [n], the first being [uid]. *)
Definition candidate (uid : Z) (n : nat) : Z := (uid + Z.of_nat n) mod 2 ^ w.

Lemma candidate_0 uid : in_width uid -> candidate uid 0 = uid.
Proof. intros Hu. unfold candidate. rewrite Z.add_0_r. now apply Z.mod_small. Qed.

Lemma candidate_S uid n : candidate (incr uid) n = candidate uid (S n).
Proof.
  unfold candidate, incr. rewrite Zplus_mod_idemp_l. f_equal. lia.
Qed.

Lemma candidate_inj uid m n :
  Z.of_nat m < 2 ^ w -> Z.of_nat n < 2 ^ w -> candidate uid m = candidate uid n -> m = n.
Proof.
  unfold candidate. intros Hm Hn He. pose proof modulus_pos as Hp.
  assert ((Z.of_nat m - Z.of_nat n) mod 2 ^ w = 0) as Hd.
  { replace (Z.of_nat m - Z.of_nat n) with ((uid + Z.of_nat m) - (uid + Z.of_nat n)) by lia.
    rewrite Zminus_mod, He, Z.sub_diag. now apply Z.mod_0_l, Z.neq_sym, Z.lt_neq. }
  apply Z.mod_divide in Hd as [k Hk]; [|lia].
  assert (k = 0) as -> by nia. lia.
Qed.

(** The loop stops at the first candidate that is not in use. *)
Lemma get_uid_loop_found fuel uid (G : gset Z) n :
  in_width uid -> (n < fuel)%nat -> candidate uid n ∉ G ->
  (forall m, (m < n)%nat -> candidate uid m ∈ G) ->
  get_uid_loop fuel uid (mk_uint_generator uid G) =
    Some (candidate uid n,
          mk_uint_generator (candidate uid n) ({[candidate uid n]} ∪ G)).
Proof.
  revert uid fuel. induction n as [|n IH]; intros uid fuel Hu Hf Hn Hm;
    (destruct fuel as [|fuel]; [lia|]); cbn [get_uid_loop uid_generated].
  - rewrite candidate_0 in * by done. rewrite decide_False by done. reflexivity.
  - pose proof (Hm 0%nat ltac:(lia)) as H0. rewrite candidate_0 in H0 by done.
    rewrite decide_True by done. cbn [uid_generator]. rewrite (IH (incr uid)).
    + now rewrite candidate_S.
    + apply incr_in_width.
    + lia.
    + now rewrite candidate_S.
    + intros m Hlt. rewrite candidate_S. apply Hm. lia.
Qed.

(** A search that ends within the fuel, or candidates all in use. *)
Lemma get_uid_loop_cases fuel uid (G : gset Z) :
  in_width uid ->
  (exists n, (n < fuel)%nat /\ (candidate uid n ∉ G) /\
     forall m, (m < n)%nat -> candidate uid m ∈ G) \/
  (forall m, (m < fuel)%nat -> candidate uid m ∈ G).
Proof.
  intros Hu. induction fuel as [|fuel IH]; [right; lia|].
  destruct IH as [(n & Hn & Hc & Hm)|Hm]; [left; exists n; split; [lia|done]|].
  destruct (decide (candidate uid fuel ∈ G)) as [Hin|Hout].
  - right. intros m Hlt. destruct (decide (m = fuel)) as [->|Hne]; [done|]. apply Hm. lia.
  - left. exists fuel. split; [lia|]. split; [done|]. intros m Hlt. apply Hm. lia.
Qed.

Lemma get_uid_loop_stuck fuel uid (G : gset Z) :
  in_width uid -> (forall m, (m < fuel)%nat -> candidate uid m ∈ G) ->
  get_uid_loop fuel uid (mk_uint_generator uid G) = None.
Proof.
  revert uid. induction fuel as [|fuel IH]; intros uid Hu Hm; [done|].
  cbn [get_uid_loop uid_generated uid_generator].
  pose proof (Hm 0%nat ltac:(lia)) as H0. rewrite candidate_0 in H0 by done.
  rewrite decide_True by done. apply IH; [apply incr_in_width|].
  intros m Hlt. rewrite candidate_S. apply Hm. lia.
Qed.

(** More candidates than identifiers in use. *)
Lemma candidates_pigeonhole uid (G : gset Z) k :
  Z.of_nat k <= 2 ^ w -> (forall m, (m < k)%nat -> candidate uid m ∈ G) -> (k <= size G)%nat.
Proof.
  intros Hk Hm.
  assert (NoDup (map (candidate uid) (seq 0 k))) as Hnd.
  { apply NoDup_fmap_2_strong; [|apply NoDup_seq]. intros x y Hx Hy.
    apply elem_of_seq in Hx, Hy. apply candidate_inj; lia. }
  assert ((list_to_set (map (candidate uid) (seq 0 k)) : gset Z) ⊆ G) as Hs.
  { intros x Hx. apply elem_of_list_to_set, list_elem_of_fmap in Hx as (m & -> & Hx).
    apply elem_of_seq in Hx. apply Hm. lia. }
  apply subseteq_size in Hs. rewrite size_list_to_set in Hs by done.
  now rewrite length_map, length_seq in Hs.
Qed.

(** *** The identifiers of a generator in use are of the width *)

Definition generator_ok (g : uint_generator) : Prop :=
  forall u, u ∈ uid_generated g -> in_width u.

(** The identifier it gives: the first free one after the last one given. *)
Definition next_free (g : uint_generator) (uid : Z) : Prop :=
  exists n, uid = candidate (incr (uid_generator g)) n /\ (uid ∉ uid_generated g) /\
    forall m, (m < n)%nat -> candidate (incr (uid_generator g)) m ∈ uid_generated g.

Lemma generator_ok_bound g :
  generator_ok g -> Z.of_nat (size (uid_generated g)) <= 2 ^ w.
Proof.
  intros Hg. pose proof modulus_pos as Hp.
  assert (uid_generated g ⊆ list_to_set (map (candidate 0) (seq 0 (Z.to_nat (2 ^ w))))) as Hs.
  { intros u Hu. pose proof (Hg u Hu) as Hw. apply elem_of_list_to_set, list_elem_of_fmap.
    exists (Z.to_nat u). unfold in_width in Hw. split; [|apply elem_of_seq; lia].
    unfold candidate. rewrite Z2Nat.id by lia. cbn [Z.add]. symmetry. now apply Z.mod_small. }
  apply subseteq_size in Hs. rewrite size_list_to_set in Hs.
  - rewrite length_map, length_seq in Hs. lia.
  - apply NoDup_fmap_2_strong; [|apply NoDup_seq]. intros x y Hx Hy.
    apply elem_of_seq in Hx, Hy. apply candidate_inj; lia.
Qed.

(** With every identifier in use each candidate is. *)
Lemma full_generator g u :
  generator_ok g -> Z.of_nat (size (uid_generated g)) = 2 ^ w -> in_width u ->
  u ∈ uid_generated g.
Proof.
  intros Hg Hs Hu. destruct (decide (u ∈ uid_generated g)) as [|Hn]; [done|].
  pose proof (generator_ok_bound (mk_uint_generator 0 ({[u]} ∪ uid_generated g))) as Hb.
  cbn [uid_generated] in Hb. rewrite size_union in Hb by set_solver.
  rewrite size_singleton in Hb. assert (Z.of_nat (1 + size (uid_generated g)) <= 2 ^ w); [|lia].
  apply Hb. intros v. cbn [uid_generated]. rewrite elem_of_union, elem_of_singleton.
  intros [->|Hv]; [done|now apply Hg].
Qed.

Lemma free_uid_ok u g : generator_ok g -> generator_ok (free_uid u g).
Proof. intros Hg v. cbn. rewrite elem_of_difference. intros [Hv _]. now apply Hg. Qed.

(** ** Property *)

(** C32: while an identifier of the type is free, the search ends, within as
    many rounds as there are identifiers in use and one more; it gives the
    first free identifier after the last one given, which is then in use with
    the others, and which can be given again only once it has been freed.  With
    all identifiers in use the search never ends. *)
Theorem get_uid_live g :
  generator_ok g ->
  (Z.of_nat (size (uid_generated g)) < 2 ^ w ->
   exists uid, get_uid g = Some (uid, mk_uint_generator uid ({[uid]} ∪ uid_generated g)) /\
     next_free g uid /\ generator_ok (mk_uint_generator uid ({[uid]} ∪ uid_generated g))) /\
  (Z.of_nat (size (uid_generated g)) = 2 ^ w ->
   forall fuel, get_uid_loop fuel (incr (uid_generator g))
     (mk_uint_generator (incr (uid_generator g)) (uid_generated g)) = None).
Proof.
  intros Hg. pose proof (incr_in_width (uid_generator g)) as Hi. split.
  - intros Hs. unfold get_uid.
    destruct (get_uid_loop_cases (S (size (uid_generated g))) _ (uid_generated g) Hi)
      as [(n & Hn & Hc & Hm)|Hm].
    + exists (candidate (incr (uid_generator g)) n).
      rewrite (get_uid_loop_found _ _ _ n) by done. split; [done|].
      split; [exists n; done|]. intros u. cbn [uid_generated].
      rewrite elem_of_union, elem_of_singleton. intros [->|Hu]; [|now apply Hg].
      apply Z.mod_pos_bound, modulus_pos.
    + apply candidates_pigeonhole in Hm; lia.
  - intros Hs fuel. apply get_uid_loop_stuck; [done|]. intros m _.
    apply full_generator; [done..|]. apply Z.mod_pos_bound, modulus_pos.
Qed.

(** ** Threads

    [uint_uid_generator] has the same operations on one object for the whole program.
    get_uid keeps [m_uid_generator] locked from its beginning to its end; it locks
    [m_uid_generated] for one look at the identifiers in use at a time, and free_uid
    locks only that one: it can come between two rounds of a search. *)

Record uint_uid_generator : Type := mk_uid {
  instance : uint_generator;
  (** the thread that has [m_uid_generator] locked, and its candidate *)
  searching : option (nat * Z)
}.

Definition get_instance : uint_uid_generator := mk_uid new_uint_generator None.

Inductive uid_event : Type :=
| Got (thread : nat) (uid : Z)
| Freed (uid : Z).

Inductive uid_step : uint_uid_generator -> list uid_event -> uint_uid_generator -> Prop :=
| uid_begin t g :
    let uid := incr (uid_generator g) in
    uid_step (mk_uid g None) [] (mk_uid (mk_uint_generator uid (uid_generated g)) (Some (t, uid)))
| uid_taken t uid g :
    uid ∈ uid_generated g ->
    let uid' := incr (uid_generator g) in
    uid_step (mk_uid g (Some (t, uid))) []
      (mk_uid (mk_uint_generator uid' (uid_generated g)) (Some (t, uid')))
| uid_found t uid g :
    uid ∉ uid_generated g ->
    uid_step (mk_uid g (Some (t, uid))) [Got t uid]
      (mk_uid (mk_uint_generator (uid_generator g) ({[uid]} ∪ uid_generated g)) None)
| uid_freed u g s :
    uid_step (mk_uid g s) [Freed u] (mk_uid (free_uid u g) s).

Inductive uid_run (s0 : uint_uid_generator) : list uid_event -> uint_uid_generator -> Prop :=
| run_start : uid_run s0 [] s0
| run_step es s e s' : uid_run s0 es s -> uid_step s e s' -> uid_run s0 (es ++ e) s'.

(** The identifiers given out and not freed. *)
Definition in_use (es : list uid_event) : gset Z :=
  fold_left (fun S e => match e with Got _ u => {[u]} ∪ S | Freed u => S ∖ {[u]} end) es ∅.

Lemma in_use_snoc es e :
  in_use (es ++ [e]) =
    match e with Got _ u => {[u]} ∪ in_use es | Freed u => in_use es ∖ {[u]} end.
Proof. unfold in_use. now rewrite fold_left_app. Qed.

(** What is given out is free at that moment. *)
Definition fresh (es : list uid_event) : Prop :=
  forall pre t u post, es = pre ++ Got t u :: post -> u ∉ in_use pre /\ in_width u.

Lemma fresh_snoc es e :
  fresh es -> match e with Got _ u => u ∉ in_use es /\ in_width u | Freed _ => True end ->
  fresh (es ++ [e]).
Proof.
  intros Hf He pre t u post Heq. destruct post as [|x post _] using rev_ind.
  - apply app_inj_tail in Heq as [-> ->]. exact He.
  - rewrite app_comm_cons, app_assoc in Heq. apply app_inj_tail in Heq as [Heq _].
    now apply (Hf pre t u post).
Qed.

Record run_ok (es : list uid_event) (s : uint_uid_generator) : Prop := {
  ok_fresh : fresh es;
  ok_set : uid_generated (instance s) = in_use es;
  ok_candidate t u : searching s = Some (t, u) -> in_width u /\ uid_generator (instance s) = u
}.

Lemma uid_run_ok es s : uid_run get_instance es s -> run_ok es s.
Proof.
  induction 1 as [|es s e s' _ IH Hs].
  - split; [|reflexivity|discriminate]. intros pre t u post Heq. now destruct pre.
  - destruct Hs as [t g|t uid g Hin|t uid g Hout|u g h], IH as [Hf Hset Hc];
      cbn [instance searching] in *; rewrite ?app_nil_r.
    + split; [exact Hf|exact Hset|]. intros ? ? [= <- <-]. split; [apply incr_in_width|done].
    + split; [exact Hf|exact Hset|]. intros ? ? [= <- <-]. split; [apply incr_in_width|done].
    + split; [|cbn; now rewrite in_use_snoc, Hset|discriminate].
      apply fresh_snoc; [exact Hf|]. split; [now rewrite <- Hset|now apply (Hc t)].
    + split; [now apply fresh_snoc|cbn; now rewrite in_use_snoc, Hset|exact Hc].
Qed.

(** A search that nobody disturbs is [get_uid_loop]. *)
Lemma search_run t fuel uid g u g' es s0 :
  get_uid_loop fuel uid g = Some (u, g') -> uid_run s0 es (mk_uid g (Some (t, uid))) ->
  uid_run s0 (es ++ [Got t u]) (mk_uid g' None).
Proof.
  revert uid g. induction fuel as [|fuel IH]; intros uid g; cbn [get_uid_loop]; [done|].
  destruct (decide (uid ∈ uid_generated g)) as [Hin|Hout]; intros Hl Hrun.
  - refine (IH _ _ Hl _). rewrite <- (app_nil_r es).
    exact (run_step _ _ _ _ _ Hrun (uid_taken t uid g Hin)).
  - injection Hl as <- <-. exact (run_step _ _ _ _ _ Hrun (uid_found t uid g Hout)).
Qed.

(** However calls of get_uid and free_uid of several threads interleave, an
    identifier is given out only when nobody has it, those in use are the ones given
    out and not freed, and a thread that searches while one is free gets one when it
    is left alone. *)
Theorem identifiers_unique es s :
  uid_run get_instance es s ->
  fresh es /\ uid_generated (instance s) = in_use es /\
  forall t uid, searching s = Some (t, uid) ->
    Z.of_nat (size (in_use es)) < 2 ^ w ->
    exists u g, uid_run get_instance (es ++ [Got t u]) (mk_uid g None).
Proof.
  intros Hrun. destruct (uid_run_ok es s Hrun) as [Hf Hset Hc]. split; [exact Hf|].
  split; [exact Hset|]. intros t uid Hs Hroom. destruct (Hc t uid Hs) as [Hw Hn].
  destruct s as [[n G] h]. cbn in Hs, Hset, Hn. subst h G n.
  destruct (get_uid_loop_cases (S (size (in_use es))) uid (in_use es) Hw)
    as [(m & Hm & Hout & Hin)|Hall].
  - eexists _, _. exact (search_run t _ _ _ _ _ _ _
      (get_uid_loop_found _ uid (in_use es) m Hw Hm Hout Hin) Hrun).
  - apply candidates_pigeonhole in Hall; lia.
Qed.

End Generator.

Lemma get_uid_live_witness :
  (exists uid, get_uid 2 (mk_uint_generator 3 {[0; 2]}) = Some (uid, mk_uint_generator uid {[uid; 0; 2]})) /\
  get_uid_loop 2 1000 1 (mk_uint_generator 1 {[0; 1; 2; 3]}) = None.
Proof.
  assert (forall u, u ∈ ({[0; 2]} : gset Z) -> in_width 2 u) as H1
    by (intros u Hu; unfold in_width; rewrite ?elem_of_union, ?elem_of_singleton in Hu; lia).
  assert (forall u, u ∈ ({[0; 1; 2; 3]} : gset Z) -> in_width 2 u) as H2
    by (intros u Hu; unfold in_width; rewrite ?elem_of_union, ?elem_of_singleton in Hu; lia).
  split.
  - destruct (get_uid_live 2 eq_refl (mk_uint_generator 3 {[0; 2]}) H1) as [Hf _].
    destruct Hf as (uid & Hu & _); [vm_compute; reflexivity|]. exists uid.
    rewrite Hu. do 3 f_equal. cbn [uid_generated]. now rewrite assoc_L by apply _.
  - destruct (get_uid_live 2 eq_refl (mk_uint_generator 0 {[0; 1; 2; 3]}) H2) as [_ Hf].
    apply (Hf ltac:(vm_compute; reflexivity) 1000%nat).
Defined.
