(* ===== verification/Conversions.v ===== *)
(** * Conversions of strings (src/src/oai/common/utils: conversions.cpp,
    string.cpp)

    Hexadecimal digits to bytes and back, network codes as text, and trimming.
    A string is the list of its characters, as unsigned bytes, without the NUL
    at the end. *)
From Stdlib Require Import ZArith Lia List Bool Ascii String.
From stdpp Require Import base list.
From S2P Require Import Prelude.
Open Scope Z_scope.

(** The characters of a literal. *)
Definition chars (s : string) : list Z :=
  map (fun a => Z.of_nat (nat_of_ascii a)) (list_ascii_of_string s).

(** isspace in the C locale. *)
Definition isspace (c : Z) : bool := ((9 <=? c) && (c <=? 13)) || (c =? 32).

(** ** conversions.cpp: hexadecimal *)

Definition hex_to_ascii_table : list Z :=
  [48; 49; 50; 51; 52; 53; 54; 55; 56; 57; 97; 98; 99; 100; 101; 102].

Definition ascii_to_hex_table : list Z :=
  repeat (-1) 48 ++ [0; 1; 2; 3; 4; 5; 6; 7; 8; 9] ++ repeat (-1) 7 ++
  [10; 11; 12; 13; 14; 15] ++ repeat (-1) 26 ++ [10; 11; 12; 13; 14; 15] ++ repeat (-1) 153.

Definition hex_char (nibble : Z) : Z := nth (Z.to_nat nibble) hex_to_ascii_table 0.
Definition hex_value (c : Z) : Z := nth (Z.to_nat c) ascii_to_hex_table 0.

(** The characters written to [to], two for each of the [length] bytes. *)
Fixpoint hexa_to_ascii (from : list Z) : list Z :=
  match from with
  | [] => []
  | b :: from' =>
      let upper := Z.shiftr (Z.land b 0xf0) 4 in
      let lower := Z.land b 0x0f in
      hex_char upper :: hex_char lower :: hexa_to_ascii from'
  end.

(** The loop, at a first digit ([high] is [None]) or at a second one: the
    result (1, or 0 on an error) and the bytes written to [dst] so far. *)
Fixpoint ascii_to_hex_loop (high : option Z) (hex : list Z) : Z * list Z :=
  match hex with
  | [] => (match high with None => 1 | Some _ => 0 end, [])
  | c :: hex' =>
      if isspace c then ascii_to_hex_loop high hex'
      else
        let v := hex_value c in
        if v <? 0 then (0, [])
        else
          match high with
          | None => ascii_to_hex_loop (Some v) hex'
          | Some h =>
              let '(r, dst) := ascii_to_hex_loop None hex' in
              (r, u8 (Z.lor (Z.shiftl h 4) v) :: dst)
          end
  end.

Definition ascii_to_hex (h : list Z) : Z * list Z := ascii_to_hex_loop None h.

(** fmt's [{:0nx}] of a number of [n] digits. *)
Fixpoint hex_loop (n : nat) (v : Z) (acc : list Z) : list Z :=
  match n with
  | O => acc
  | S n => hex_loop n (v / 16) (hex_char (v mod 16) :: acc)
  end.
Definition hex_text (n : nat) (v : Z) : list Z := hex_loop n v [].

Lemma length_hex_text n v : length (hex_text n v) = n.
Proof.
  unfold hex_text. enough (forall acc, length (hex_loop n v acc) = (n + length acc)%nat) as H
    by (rewrite H; cbn; lia).
  revert v. induction n as [|n IH]; intros v acc; [done|]. cbn [hex_loop]. rewrite IH. cbn. lia.
Qed.

(** ** conversions.cpp: network codes *)

(** std::to_string of an integer that is not negative, below 10^10. *)
Fixpoint decimal_loop (fuel : nat) (n : Z) (acc : list Z) : list Z :=
  match fuel with
  | O => acc
  | S fuel =>
      let acc' := (48 + n mod 10) :: acc in
      if n <? 10 then acc' else decimal_loop fuel (n / 10) acc'
  end.
Definition to_string (n : Z) : list Z := decimal_loop 10 n [].

Definition mccToString (digit1 digit2 digit3 : Z) : list Z :=
  to_string (u16 (digit1 * 100 + digit2 * 10 + digit3)).

Definition mncToString (digit1 digit2 digit3 : Z) : list Z :=
  to_string (if digit3 =? 0x0F then u16 (digit1 * 10 + digit2)
             else u16 (digit1 * 100 + digit2 * 10 + digit3)).

(** ** string.cpp *)

Fixpoint ltrim (s : list Z) : list Z :=
  match s with
  | [] => []
  | c :: s' => if isspace c then ltrim s' else s
  end.

(** The search from the end. *)
Definition rtrim (s : list Z) : list Z := rev (ltrim (rev s)).

Definition trim (s : list Z) : list Z := ltrim (rtrim s).

(** ** Lemmas *)

(** The digits of a byte, tried on all of them. *)
Definition byte_digits_ok (b : Z) : bool :=
  let hi := hex_char (Z.shiftr (Z.land b 0xf0) 4) in
  let lo := hex_char (Z.land b 0x0f) in
  negb (isspace hi) && negb (isspace lo) && negb (hex_value hi <? 0) &&
  negb (hex_value lo <? 0) && (u8 (Z.lor (Z.shiftl (hex_value hi) 4) (hex_value lo)) =? b).

Lemma all_bytes_digits_ok : forallb (fun n => byte_digits_ok (Z.of_nat n)) (seq 0 256) = true.
Proof. vm_compute. reflexivity. Qed.

Lemma byte_digits b :
  is_byte b ->
  let hi := hex_char (Z.shiftr (Z.land b 0xf0) 4) in
  let lo := hex_char (Z.land b 0x0f) in
  isspace hi = false /\ isspace lo = false /\ (hex_value hi <? 0) = false /\
  (hex_value lo <? 0) = false /\
  u8 (Z.lor (Z.shiftl (hex_value hi) 4) (hex_value lo)) = b.
Proof.
  intros Hb hi lo. pose proof all_bytes_digits_ok as Ha. rewrite forallb_forall in Ha.
  unfold is_byte in Hb. specialize (Ha (Z.to_nat b)). rewrite Z2Nat.id in Ha by lia.
  assert (byte_digits_ok b = true) as H by (apply Ha, in_seq; lia).
  unfold byte_digits_ok in H. fold hi lo in H.
  rewrite !andb_true_iff, !negb_true_iff, Z.eqb_eq in H. tauto.
Qed.

(** Spaces do not matter, anywhere. *)
Lemma ascii_to_hex_spaces high h :
  ascii_to_hex_loop high (List.filter (fun c => negb (isspace c)) h) = ascii_to_hex_loop high h.
Proof.
  revert high. induction h as [|c h IH]; intros high; [done|]. cbn [List.filter].
  destruct (isspace c) eqn:Hc; cbn [negb ascii_to_hex_loop]; rewrite Hc; [apply IH|].
  destruct (_ <? 0); [done|]. destruct high; [|apply IH]. now rewrite IH.
Qed.

Lemma ascii_to_hex_digits l : bytes l -> ascii_to_hex (hexa_to_ascii l) = (1, l).
Proof.
  induction 1 as [|b l Hb Hl IH]; [done|]. unfold ascii_to_hex in *.
  destruct (byte_digits b Hb) as (H1 & H2 & H3 & H4 & H5).
  cbn [hexa_to_ascii ascii_to_hex_loop].
  now rewrite H1, H3, H2, H4, IH, H5.
Qed.

Lemma ltrim_split s :
  exists pre, s = pre ++ ltrim s /\ forallb isspace pre = true /\
    match ltrim s with [] => True | c :: _ => isspace c = false end.
Proof.
  induction s as [|c s (pre & Hs & Hp & Hc)]; [now exists []|]. cbn [ltrim].
  destruct (isspace c) eqn:He; [|now exists []].
  exists (c :: pre). split; [cbn; congruence|]. split; [cbn; now rewrite He|done].
Qed.

(** The first and the last character are not spaces. *)
Definition trimmed (s : list Z) : Prop :=
  match s with [] => True | c :: _ => isspace c = false end /\
  match rev s with [] => True | c :: _ => isspace c = false end.

Lemma ltrim_id s : match s with [] => True | c :: _ => isspace c = false end -> ltrim s = s.
Proof. destruct s as [|c s]; [done|]. cbn. now intros ->. Qed.

Lemma ltrim_suffix s : exists pre, s = pre ++ ltrim s.
Proof. destruct (ltrim_split s) as (pre & Hs & _). eauto. Qed.

Lemma ltrim_spaces pre s : forallb isspace pre = true -> ltrim (pre ++ s) = ltrim s.
Proof.
  induction pre as [|c pre IH]; [done|]. cbn. intros [-> Hp]%andb_true_iff. now apply IH.
Qed.

Lemma forallb_rev {A} (p : A -> bool) l : forallb p (rev l) = forallb p l.
Proof.
  induction l as [|a l IH]; [done|]. cbn. rewrite forallb_app, IH. cbn.
  rewrite andb_true_r. apply andb_comm.
Qed.

Lemma rtrim_spaces s post : forallb isspace post = true -> rtrim (s ++ post) = rtrim s.
Proof.
  intros Hp. unfold rtrim. rewrite rev_app_distr, ltrim_spaces by now rewrite forallb_rev. done.
Qed.

Lemma rtrim_split s :
  exists post, s = rtrim s ++ post /\ forallb isspace post = true /\
    match rev (rtrim s) with [] => True | c :: _ => isspace c = false end.
Proof.
  destruct (ltrim_split (rev s)) as (pre & Hs & Hp & Hc). exists (rev pre).
  unfold rtrim. rewrite <- rev_app_distr, <- Hs, rev_involutive, forallb_rev, rev_involutive.
  done.
Qed.

Lemma trim_between pre t post :
  forallb isspace pre = true -> forallb isspace post = true -> trimmed t ->
  trim (pre ++ t ++ post) = t.
Proof.
  intros Hpre Hpost [Hf Hl]. unfold trim. rewrite app_assoc, rtrim_spaces by done.
  destruct (rev t) as [|c r] eqn:Hr.
  - apply (f_equal (@rev Z)) in Hr. rewrite rev_involutive in Hr. subst t. rewrite app_nil_r.
    pose proof (rtrim_spaces [] pre Hpre) as Hn. cbn [app] in Hn. now rewrite Hn.
  - assert (rtrim (pre ++ t) = pre ++ t) as ->.
    { unfold rtrim. rewrite rev_app_distr, Hr. cbn [app ltrim]. rewrite Hl.
      rewrite app_comm_cons, <- Hr, <- rev_app_distr. apply rev_involutive. }
    rewrite ltrim_spaces by done. now apply ltrim_id.
Qed.

Lemma trim_exists s :
  exists pre post, s = pre ++ trim s ++ post /\ forallb isspace pre = true /\
    forallb isspace post = true /\ trimmed (trim s).
Proof.
  destruct (rtrim_split s) as (post & Hs & Hpost & Hl).
  destruct (ltrim_split (rtrim s)) as (pre & Hr & Hpre & Hf). fold (trim s) in *.
  exists pre, post. rewrite app_assoc, <- Hr. do 3 (split; [done|]). split; [done|].
  rewrite Hr, rev_app_distr in Hl. destruct (rev (trim s)) as [|c r]; done.
Qed.

(** With the digits as numbers, 001 (three digits) and 01 (two digits, filler
    15) are both "1". *)
Lemma mncToString_collides : mncToString 0 0 1 = mncToString 0 1 15.
Proof. reflexivity. Qed.

(** ** Properties *)

(** The bytes written as hexadecimal digits are read back, whatever
    spaces are put between the digits. *)
Theorem hex_roundtrip l h :
  bytes l -> List.filter (fun c => negb (isspace c)) h = hexa_to_ascii l ->
  ascii_to_hex h = (1, l).
Proof.
  intros Hl Hh. unfold ascii_to_hex. rewrite <- ascii_to_hex_spaces, Hh.
  now apply ascii_to_hex_digits.
Qed.

(** [trim] is the string between the spaces: it gives [t] exactly when
    the string is [t] with spaces before and behind, and [t] neither begins nor
    ends with a space. *)
Theorem trim_iff s t :
  trim s = t <->
  trimmed t /\ exists pre post, s = pre ++ t ++ post /\
    forallb isspace pre = true /\ forallb isspace post = true.
Proof.
  split.
  - intros <-. destruct (trim_exists s) as (pre & post & ? & ? & ? & ?). eauto 10.
  - intros (Ht & pre & post & -> & Hpre & Hpost). now apply trim_between.
Qed.

Lemma hex_roundtrip_witness : ascii_to_hex [32; 49; 102; 9; 32; 48; 10; 97] = (1, [31; 10]).
Proof.
  apply (hex_roundtrip [31; 10]); [repeat constructor; unfold is_byte; lia|reflexivity].
Defined.
