(* ===== verification/Identity.v ===== *)
(** * Identities (src/src/oai/common: 3gpp_29.244.h, 3gpp_29.274.h)

    The order of F-SEIDs, and the digits of an IMSI: eight bytes with two
    binary-coded digits each, the first in the low half; 15 is a filler. *)
From Stdlib Require Import ZArith Lia List Bool.
From stdpp Require Import base list.
From S2P Require Import Prelude Packet PfcpTypes Conversions.
Open Scope Z_scope.

(** ** 3gpp_29.244.h: F-SEID *)

(** [ipv6_address.s6_addr32], in host order. *)
Definition s6_addr32 (f : fseid_t) (i : nat) : Z := le_dec (field (4 * i) 4 (fseid_ipv6_address f)).

(** Two words as one of 64 bits. *)
Definition addr64 (f : fseid_t) (i : nat) : Z :=
  Z.lor (Z.shiftl (s6_addr32 f i) 32) (s6_addr32 f (i + 1)).

Definition fseid_eqb (this i : fseid_t) : bool :=
  (fseid_seid i =? fseid_seid this) && eqb (fseid_v4 i) (fseid_v4 this) &&
  (fseid_ipv4_address i =? fseid_ipv4_address this) && eqb (fseid_v6 i) (fseid_v6 this) &&
  (s6_addr32 i 0 =? s6_addr32 this 0) && (s6_addr32 i 1 =? s6_addr32 this 1) &&
  (s6_addr32 i 2 =? s6_addr32 this 2) && (s6_addr32 i 3 =? s6_addr32 this 3).

(** The comparison of the IPv6 addresses, at the end of [operator<]. *)
Definition fseid_lt_v6 (this i : fseid_t) : bool :=
  if eqb (fseid_v6 i) (fseid_v6 this) then
    if addr64 i 0 <? addr64 this 0 then true
    else if addr64 i 0 >? addr64 this 0 then false
    else if addr64 i 2 <? addr64 this 2 then true
    else false
  else fseid_v6 this.

Definition fseid_lt (this i : fseid_t) : bool :=
  if fseid_seid i <? fseid_seid this then true
  else if fseid_seid i >? fseid_seid this then false
  else if eqb (fseid_v4 i) (fseid_v4 this) then
    if fseid_ipv4_address i >? fseid_ipv4_address this then true
    else if fseid_ipv4_address i <? fseid_ipv4_address this then false
    else fseid_lt_v6 this i
  else if fseid_v4 this then true
  else fseid_lt_v6 this i.

(** ** 3gpp_29.274.h: IMSI *)

Definition IMSI_BCD8_SIZE : nat := 8.

Fixpoint imsi_digits (b : list Z) : list Z :=
  match b with
  | [] => []
  | d :: b' =>
      let d1 := Z.land d 0x0f in
      let d2 := Z.shiftr (Z.land d 0xf0) 4 in
      if 9 <? d1 then []
      else to_string d1 ++ (if 9 <? d2 then [] else to_string d2 ++ imsi_digits b')
  end.

Definition imsi_toString (i : imsi_t) : list Z := imsi_digits (take IMSI_BCD8_SIZE (imsi_b i)).

Fixpoint imsi64_loop (imsi64 : Z) (b : list Z) : Z :=
  match b with
  | [] => imsi64
  | d :: b' =>
      let d2 := Z.shiftr (Z.land d 0xf0) 4 in
      let d1 := Z.land d 0x0f in
      if 10 >? d1 then
        let imsi64 := u64 (imsi64 * 10 + d1) in
        if 10 >? d2 then imsi64_loop (u64 (imsi64 * 10 + d2)) b' else imsi64
      else imsi64
  end.

Definition to_imsi64 (i : imsi_t) : Z := imsi64_loop 0 (take IMSI_BCD8_SIZE (imsi_b i)).

(** [operator++], which IMSIs, MSISDNs and MEIs repeat with another end of the
    loop, [low]: [None] is an access outside the array, or no end within the
    fuel. *)
Fixpoint bcd_incr_loop (low fuel l_i : nat) (u1 : list Z) : option (list Z) :=
  match fuel with
  | O => None
  | S fuel =>
      if (low <? l_i)%nat then
        match u1 !! l_i with
        | None => None
        | Some b =>
            let carry := 1 in
            let d0 := Z.land b 0x0f in
            let d1 := Z.land b 0xf0 in
            if (d0 <=? 9) && (d0 + carry <=? 9) then Some (<[l_i := Z.lor (d0 + carry) d1]> u1)
            else
              let d0' := if d0 <=? 9 then 0 else d0 in
              let u1' := if d0 <=? 9 then <[l_i := Z.lor 0 d1]> u1 else u1 in
              if (d1 <=? 9) && (d1 + carry <=? 9)
              then Some (<[l_i := Z.lor d0' (d1 + carry)]> u1')
              else
                let u1'' := if d1 <=? 9 then <[l_i := Z.lor d0' 0]> u1' else u1' in
                bcd_incr_loop low fuel (l_i + 1) u1''
        end
      else Some u1
  end.

(** The index starts at the last byte: the second round is outside already. *)
Definition imsi_incr (i : imsi_t) : option imsi_t :=
  option_map (fun b => mk_imsi_t b (imsi_num_digits i))
    (bcd_incr_loop 5 2 (IMSI_BCD8_SIZE - 1) (imsi_b i)).

(** ** 3gpp_29.274.h: MSISDN and MEI *)

Definition msisdn_size : nat := 8.

Definition msisdn_toString (m : msisdn_t) : list Z := imsi_digits (take msisdn_size (msisdn_b m)).

Definition msisdn_incr (m : msisdn_t) : option msisdn_t :=
  option_map (fun b => mk_msisdn_t b (msisdn_num_digits m))
    (bcd_incr_loop 5 2 (msisdn_size - 1) (msisdn_b m)).

Definition MEI_MAX_LENGTH : nat := 16.

Record mei_t : Type := mk_mei_t {
  mei_b : list Z;
  mei_num_digits : Z
}.

Definition mei_toString (m : mei_t) : list Z := imsi_digits (take (MEI_MAX_LENGTH / 2) (mei_b m)).

(** From the last but one byte. *)
Definition mei_incr (m : mei_t) : option mei_t :=
  option_map (fun b => mk_mei_t b (mei_num_digits m))
    (bcd_incr_loop 0 3 (MEI_MAX_LENGTH / 2 - 1 - 1) (mei_b m)).

(** ** Lemmas: F-SEIDs *)

Definition fseid_ok (f : fseid_t) : Prop :=
  length (fseid_ipv6_address f) = 16%nat /\ bytes (fseid_ipv6_address f).

Lemma s6_addr32_range f i : fseid_ok f -> (i < 4)%nat -> 0 <= s6_addr32 f i < 2 ^ 32.
Proof.
  intros [Hl Hb] Hi. unfold s6_addr32.
  pose proof (le_dec_bound (field (4 * i) 4 (fseid_ipv6_address f)) ltac:(now apply bytes_field))
    as Hr. rewrite length_field in Hr by lia. exact Hr.
Qed.

Lemma addr64_eq f i : fseid_ok f -> (i + 1 < 4)%nat ->
  addr64 f i = s6_addr32 f i * 2 ^ 32 + s6_addr32 f (i + 1).
Proof. intros Hf Hi. apply (lor_shift_add 32), s6_addr32_range; done. Qed.

(** The order compares four numbers, the first and the last two downwards. *)
Definition fseid_key (f : fseid_t) : Z * Z * Z * Z :=
  (- fseid_seid f, fseid_ipv4_address f, - addr64 f 0, - addr64 f 2).

Definition lex (x y : Z * Z * Z * Z) : Prop :=
  let '(a1, a2, a3, a4) := x in
  let '(b1, b2, b3, b4) := y in
  a1 < b1 \/ a1 = b1 /\ (a2 < b2 \/ a2 = b2 /\ (a3 < b3 \/ a3 = b3 /\ a4 < b4)).

Definition same_flags (f g : fseid_t) : Prop :=
  fseid_v4 f = fseid_v4 g /\ fseid_v6 f = fseid_v6 g.

Lemma fseid_lt_lex f g :
  same_flags f g -> (fseid_lt f g = true <-> lex (fseid_key f) (fseid_key g)).
Proof.
  intros [H4 H6]. unfold fseid_lt, fseid_lt_v6, lex, fseid_key. rewrite H4, H6, !eqb_reflx.
  rewrite !Z.gtb_ltb.
  repeat match goal with |- context [?a <? ?b] => destruct (Z.ltb_spec a b) end;
    split; intros; try done; lia.
Qed.

Lemma fseid_eqb_key f g :
  same_flags f g -> fseid_ok f -> fseid_ok g ->
  (fseid_eqb f g = true <-> fseid_key f = fseid_key g).
Proof.
  intros [H4 H6] Hf Hg. unfold fseid_eqb, fseid_key. rewrite H4, H6, !eqb_reflx.
  rewrite !(addr64_eq _ 0), !(addr64_eq _ 2) by (done || lia).
  pose proof (s6_addr32_range f 0 Hf ltac:(lia)). pose proof (s6_addr32_range f 1 Hf ltac:(lia)).
  pose proof (s6_addr32_range f 2 Hf ltac:(lia)). pose proof (s6_addr32_range f 3 Hf ltac:(lia)).
  pose proof (s6_addr32_range g 0 Hg ltac:(lia)). pose proof (s6_addr32_range g 1 Hg ltac:(lia)).
  pose proof (s6_addr32_range g 2 Hg ltac:(lia)). pose proof (s6_addr32_range g 3 Hg ltac:(lia)).
  cbn [Nat.add]. rewrite !andb_true_iff, !Z.eqb_eq. split.
  - intros Hq. destruct_and!. f_equal; [f_equal; [f_equal|]|]; lia.
  - intros [= E1 E2 E3 E4]. repeat split; lia.
Qed.

(** Neither flag in common: each comes before the other. *)
Definition fseid_a : fseid_t := mk_fseid_t 0 true false 7 1 (repeat 0 16).
Definition fseid_b : fseid_t := mk_fseid_t 0 false true 7 0 (repeat 1 16).

Lemma fseid_lt_both : fseid_lt fseid_a fseid_b = true /\ fseid_lt fseid_b fseid_a = true.
Proof. split; reflexivity. Qed.

(** ** Lemmas: IMSIs *)

Definition text_value (s : list Z) (v : Z) : Z := fold_left (fun v c => v * 10 + (c - 48)) s v.

Lemma text_value_app s1 s2 v : text_value (s1 ++ s2) v = text_value s2 (text_value s1 v).
Proof. apply fold_left_app. Qed.

Lemma to_string_digit d : 0 <= d <= 9 -> to_string d = [48 + d].
Proof.
  intros Hd. unfold to_string. cbn [decimal_loop].
  rewrite (proj2 (Z.ltb_lt d 10)) by lia. now rewrite Z.mod_small by lia.
Qed.

Lemma low_nibble d : is_byte d -> 0 <= Z.land d 0x0f < 16 /\ 0 <= Z.shiftr (Z.land d 0xf0) 4 < 16.
Proof.
  unfold is_byte. intros Hd.
  assert (forallb (fun n => let d := Z.of_nat n in
            (0 <=? Z.land d 15) && (Z.land d 15 <? 16) && (0 <=? Z.shiftr (Z.land d 240) 4) &&
            (Z.shiftr (Z.land d 240) 4 <? 16)) (seq 0 256) = true) as Ha
    by (vm_compute; reflexivity).
  rewrite forallb_forall in Ha. specialize (Ha (Z.to_nat d) ltac:(apply in_seq; lia)).
  cbv zeta in Ha. rewrite Z2Nat.id in Ha by lia.
  rewrite !andb_true_iff, !Z.leb_le, !Z.ltb_lt in Ha. lia.
Qed.

(** Sixteen digits do not fill 64 bits. *)
Lemma imsi64_loop_value b v :
  bytes b -> 0 <= v -> (v + 1) * 100 ^ Z.of_nat (length b) <= 2 ^ 64 ->
  imsi64_loop v b = text_value (imsi_digits b) v.
Proof.
  intros Hb. revert v. induction Hb as [|d b Hd Hb IH]; intros v Hv Hm; [done|].
  cbn [length imsi64_loop imsi_digits] in *. rewrite !Z.gtb_ltb.
  destruct (low_nibble d Hd) as [H1 H2].
  set (d1 := Z.land d 15) in *. set (d2 := Z.shiftr (Z.land d 240) 4) in *.
  rewrite Nat2Z.inj_succ, Z.pow_succ_r in Hm by lia.
  pose proof (Z.pow_pos_nonneg 100 (Z.of_nat (length b)) ltac:(lia) ltac:(lia)) as Hp.
  assert ((v + 1) * 100 <= 2 ^ 64) as Hv100 by nia.
  destruct (Z.ltb_spec d1 10), (Z.ltb_spec 9 d1); try lia; [|done].
  rewrite to_string_digit by lia.
  assert (u64 (v * 10 + d1) = v * 10 + d1) as -> by (apply Z.mod_small; lia).
  rewrite text_value_app. cbn [text_value fold_left].
  destruct (Z.ltb_spec d2 10), (Z.ltb_spec 9 d2); try lia.
  - rewrite to_string_digit by lia.
    assert (u64 ((v * 10 + d1) * 10 + d2) = (v * 10 + d1) * 10 + d2) as ->
      by (apply Z.mod_small; lia).
    rewrite IH by nia. rewrite text_value_app. cbn [text_value fold_left].
    unfold text_value. f_equal. lia.
  - cbn [text_value fold_left]. unfold text_value. cbn [fold_left]. lia.
Qed.

Definition digit_pair (d : Z) : Prop :=
  is_byte d /\ Z.land d 0x0f <= 9 /\ Z.shiftr (Z.land d 0xf0) 4 <= 9.

Lemma imsi64_loop_app b r v :
  Forall digit_pair b -> imsi64_loop v (b ++ r) = imsi64_loop (imsi64_loop v b) r.
Proof.
  intros Hb. revert v. induction Hb as [|d b (Hd & H1 & H2) Hb IH]; intros v; [done|].
  cbn [app imsi64_loop]. rewrite !Z.gtb_ltb.
  rewrite (proj2 (Z.ltb_lt (Z.land d 15) 10)), (proj2 (Z.ltb_lt (Z.shiftr _ 4) 10)) by lia.
  apply IH.
Qed.

Lemma imsi64_loop_bound b v :
  Forall digit_pair b -> 0 <= v -> (v + 1) * 100 ^ Z.of_nat (length b) <= 2 ^ 64 ->
  0 <= imsi64_loop v b < (v + 1) * 100 ^ Z.of_nat (length b).
Proof.
  intros Hb. revert v. induction Hb as [|d b (Hd & H1 & H2) Hb IH]; intros v Hv Hm; [cbn; lia|].
  cbn [length imsi64_loop] in *. destruct (low_nibble d Hd) as [Hl Hh]. rewrite !Z.gtb_ltb.
  rewrite (proj2 (Z.ltb_lt (Z.land d 15) 10)), (proj2 (Z.ltb_lt (Z.shiftr _ 4) 10)) by lia.
  rewrite Nat2Z.inj_succ, Z.pow_succ_r in * by lia.
  pose proof (Z.pow_pos_nonneg 100 (Z.of_nat (length b)) ltac:(lia) ltac:(lia)) as Hp.
  set (d1 := Z.land d 15) in *. set (d2 := Z.shiftr (Z.land d 240) 4) in *.
  assert ((v + 1) * 100 <= 2 ^ 64) as Hv100 by nia.
  assert (u64 (v * 10 + d1) = v * 10 + d1) as -> by (apply Z.mod_small; lia).
  assert (u64 ((v * 10 + d1) * 10 + d2) = (v * 10 + d1) * 10 + d2) as ->
    by (apply Z.mod_small; lia).
  specialize (IH ((v * 10 + d1) * 10 + d2) ltac:(lia) ltac:(nia)). nia.
Qed.

(** A last byte with a filler. *)
Definition odd_end (lo : Z) : Z := 0xf0 + lo.

Lemma odd_end_nibbles lo : 0 <= lo <= 9 ->
  Z.land (odd_end lo) 15 = lo /\ Z.land (odd_end lo) 240 = 240.
Proof.
  intros Hlo. assert (In lo [0; 1; 2; 3; 4; 5; 6; 7; 8; 9]) as Hin by (cbn; lia).
  cbn in Hin. repeat (destruct Hin as [<-|Hin]; [split; reflexivity|]). done.
Qed.

Lemma to_imsi64_odd l lo n :
  Forall digit_pair l -> length l = 7%nat -> 0 <= lo <= 9 ->
  to_imsi64 (mk_imsi_t (l ++ [odd_end lo]) n) = imsi64_loop 0 l * 10 + lo.
Proof.
  intros Hl Hlen Hlo. unfold to_imsi64. cbn [imsi_b].
  rewrite take_ge by (rewrite length_app, Hlen; unfold IMSI_BCD8_SIZE; cbn; lia).
  rewrite imsi64_loop_app by done.
  pose proof (imsi64_loop_bound l 0 Hl ltac:(lia)) as Hb. rewrite Hlen in Hb.
  change (100 ^ Z.of_nat 7) with 100000000000000 in Hb.
  destruct (odd_end_nibbles lo Hlo) as [H1 H2]. cbn [imsi64_loop].
  rewrite H1, H2, !Z.gtb_ltb, (proj2 (Z.ltb_lt lo 10)) by lia.
  apply Z.mod_small. lia.
Qed.

(** The digit pair of a byte. *)
Definition pair_byte (lo hi : Z) : Z := Z.lor lo (Z.shiftl hi 4).

(** The byte where a loop starts, its low digit not 9: one is added to it and
    nothing else changes. *)
Lemma bcd_incr_digit low fuel i u lo hi :
  (low < i)%nat -> u !! i = Some (pair_byte lo hi) -> 0 <= lo < 9 -> 0 <= hi < 16 ->
  bcd_incr_loop low (S fuel) i u = Some (<[i := pair_byte (lo + 1) hi]> u).
Proof.
  intros Hi Hu Hlo Hhi. cbn [bcd_incr_loop]. rewrite (proj2 (Nat.ltb_lt low i)), Hu by lia.
  assert (Z.land (pair_byte lo hi) 15 = lo /\
          Z.lor (lo + 1) (Z.land (pair_byte lo hi) 240) = pair_byte (lo + 1) hi) as [-> H2].
  { assert (forallb (fun n => forallb (fun m => let lo := Z.of_nat n in let hi := Z.of_nat m in
              (Z.land (pair_byte lo hi) 15 =? lo) &&
              (Z.lor (lo + 1) (Z.land (pair_byte lo hi) 240) =? pair_byte (lo + 1) hi))
              (seq 0 16)) (seq 0 9) = true) as Ha by (vm_compute; reflexivity).
    rewrite forallb_forall in Ha. specialize (Ha (Z.to_nat lo) ltac:(apply in_seq; lia)).
    rewrite forallb_forall in Ha. specialize (Ha (Z.to_nat hi) ltac:(apply in_seq; lia)).
    cbv zeta in Ha. rewrite !Z2Nat.id, andb_true_iff, !Z.eqb_eq in Ha by lia. exact Ha. }
  cbv zeta. rewrite (proj2 (Z.leb_le lo 9)), (proj2 (Z.leb_le (lo + 1) 9)) by lia.
  cbn [andb]. now rewrite H2.
Qed.

(** An MEI is counted in its thirteenth digit. *)
Lemma mei_incr_digit b n lo hi :
  length b = 8%nat -> b !! 6%nat = Some (pair_byte lo hi) -> 0 <= lo < 9 -> 0 <= hi < 16 ->
  mei_incr (mk_mei_t b n) = Some (mk_mei_t (<[6%nat := pair_byte (lo + 1) hi]> b) n).
Proof.
  intros Hl Hb Hlo Hhi. unfold mei_incr. cbn [mei_b mei_num_digits].
  change (MEI_MAX_LENGTH / 2 - 1 - 1)%nat with 6%nat.
  now rewrite (bcd_incr_digit _ _ _ _ lo hi) by (done || lia).
Qed.

(** The carry is lost: it is added to the low digit, which was set to zero, so
    that ...90 is followed by ...10. *)
Lemma mei_carry_lost b n :
  length b = 8%nat -> b !! 6%nat = Some (pair_byte 9 0) ->
  mei_incr (mk_mei_t b n) = Some (mk_mei_t (<[6%nat := pair_byte 1 0]> b) n).
Proof.
  intros Hl Hb. unfold mei_incr. cbn [mei_b mei_num_digits].
  change (MEI_MAX_LENGTH / 2 - 1 - 1)%nat with 6%nat. cbn [bcd_incr_loop Nat.ltb Nat.leb].
  rewrite Hb. change (pair_byte 9 0) with 9.
  change (Z.land 9 15) with 9. change (Z.land 9 240) with 0. cbv zeta.
  change (9 <=? 9) with true. change (9 + 1 <=? 9) with false. change (0 <=? 9) with true.
  change (0 + 1 <=? 9) with true. cbn [andb option_map]. now rewrite list_insert_insert_eq.
Qed.

(** ** Properties *)

(** Among F-SEIDs with the same address flags [operator<] is a strict
    total order that agrees with [operator==]: of two, either one comes before
    the other or they are equal, only one of the three, and it is transitive. *)
Theorem fseid_lt_order f g h :
  same_flags f g -> same_flags g h -> fseid_ok f -> fseid_ok g ->
  (fseid_lt f g = true \/ fseid_eqb f g = true \/ fseid_lt g f = true) /\
  (fseid_lt f g = true -> fseid_lt g f = false /\ fseid_eqb f g = false) /\
  (fseid_lt f g = true -> fseid_lt g h = true -> fseid_lt f h = true).
Proof.
  intros Hfg Hgh Hf Hg.
  assert (same_flags g f) as Hgf by (destruct Hfg; now split).
  assert (same_flags f h) as Hfh by (destruct Hfg, Hgh; split; congruence).
  rewrite <- !not_true_iff_false, !fseid_lt_lex, fseid_eqb_key by done.
  destruct (fseid_key f) as [[[a1 a2] a3] a4], (fseid_key g) as [[[b1 b2] b3] b4],
    (fseid_key h) as [[[c1 c2] c3] c4]. unfold lex. split; [|split].
  - destruct (Z.lt_trichotomy a1 b1) as [?|[->|?]]; [lia| |lia].
    destruct (Z.lt_trichotomy a2 b2) as [?|[->|?]]; [lia| |lia].
    destruct (Z.lt_trichotomy a3 b3) as [?|[->|?]]; [lia| |lia].
    destruct (Z.lt_trichotomy a4 b4) as [?|[->|?]]; [lia|auto|lia].
  - intros Hlt. split; [lia|]. intros [= -> -> -> ->]. lia.
  - lia.
Qed.

(** C39: the two readings of an IMSI agree: the number is the decimal value of
    the text, for any eight bytes, fillers and digits above nine included. *)
Theorem imsi_readings_agree i :
  bytes (imsi_b i) -> to_imsi64 i = text_value (imsi_toString i) 0.
Proof.
  intros Hb. unfold to_imsi64, imsi_toString. apply imsi64_loop_value; [|lia|].
  - now apply Forall_take.
  - assert (length (take IMSI_BCD8_SIZE (imsi_b i)) <= 8)%nat as Hl
      by (rewrite length_take; unfold IMSI_BCD8_SIZE; lia).
    pose proof (Z.pow_le_mono_r 100 (Z.of_nat (length (take IMSI_BCD8_SIZE (imsi_b i)))) 8
      ltac:(lia) ltac:(lia)) as Hp.
    change (100 ^ 8) with 10000000000000000 in Hp. lia.
Qed.

(** The increment of an IMSI of fifteen digits adds one when the last
    digit is not 9; when it is 9 the loop goes on behind the array. *)
Theorem imsi_increment l lo n :
  let i := mk_imsi_t (l ++ [odd_end lo]) n in
  Forall digit_pair l -> length l = 7%nat -> 0 <= lo <= 9 ->
  (lo < 9 -> exists i', imsi_incr i = Some i' /\ to_imsi64 i' = to_imsi64 i + 1) /\
  (lo = 9 -> forall fuel, bcd_incr_loop 5 fuel (IMSI_BCD8_SIZE - 1) (imsi_b i) = None).
Proof.
  intros i Hl Hlen Hlo. destruct (odd_end_nibbles lo Hlo) as [H1 H2].
  assert ((l ++ [odd_end lo]) !! 7%nat = Some (odd_end lo)) as H7
    by (rewrite <- Hlen; now apply list_lookup_middle).
  split.
  - intros Hlt. exists (mk_imsi_t (l ++ [odd_end (lo + 1)]) n).
    split; [|unfold i; rewrite !to_imsi64_odd by (done || lia); lia].
    unfold imsi_incr, i. cbn [imsi_b IMSI_BCD8_SIZE Nat.sub bcd_incr_loop Nat.ltb Nat.leb].
    rewrite H7, H1, H2. cbv zeta.
    rewrite (proj2 (Z.leb_le lo 9)), (proj2 (Z.leb_le (lo + 1) 9)) by lia.
    cbn [andb option_map imsi_num_digits]. do 2 f_equal.
    rewrite <- Hlen, insert_app_r_alt, Nat.sub_diag by lia. cbn. do 2 f_equal.
    destruct (odd_end_nibbles (lo + 1) ltac:(lia)) as [H3 H4].
    assert (In lo [0; 1; 2; 3; 4; 5; 6; 7; 8]) as Hin by (cbn; lia).
    cbn in Hin. repeat (destruct Hin as [<-|Hin]; [reflexivity|]). done.
  - intros -> fuel. unfold i. destruct fuel as [|fuel]; [done|].
    cbn [imsi_b IMSI_BCD8_SIZE Nat.sub bcd_incr_loop Nat.ltb Nat.leb]. rewrite H7, H1, H2.
    cbn -[bcd_incr_loop insert]. destruct fuel as [|fuel]; [done|].
    cbn [bcd_incr_loop Nat.ltb Nat.leb]. rewrite lookup_ge_None_2; [done|].
    rewrite length_insert, length_app, Hlen. cbn. lia.
Qed.

(** ** Witnesses *)

Lemma fseid_lt_order_witness :
  let f := mk_fseid_t 0 true false 9 1 (repeat 0 16) in
  let g := mk_fseid_t 0 true false 7 1 (repeat 0 16) in
  fseid_lt g f = false /\ fseid_eqb f g = false.
Proof.
  intros f g. apply (fseid_lt_order f g g); try (split; reflexivity); try reflexivity.
  all: split; [reflexivity|]; apply bytes_bool; reflexivity.
Defined.

Definition imsi_of (last : Z) : imsi_t :=
  mk_imsi_t ([0x02; 0x08; 0x39; 0; 0; 0; 0x10] ++ [odd_end last]) 15.

Lemma imsi_readings_agree_witness : to_imsi64 (imsi_of 4) = 208093000000014.
Proof.
  rewrite imsi_readings_agree; [reflexivity|]. apply bytes_bool. reflexivity.
Defined.

Lemma imsi_increment_witness :
  (exists i', imsi_incr (imsi_of 4) = Some i' /\ to_imsi64 i' = 208093000000015) /\
  imsi_incr (imsi_of 9) = None.
Proof.
  assert (Forall digit_pair [0x02; 0x08; 0x39; 0; 0; 0; 0x10]) as Hd
    by (repeat (apply Forall_cons; split;
          [split; [unfold is_byte; lia|split; now apply Z.leb_le]|]); constructor).
  split.
  - destruct (imsi_increment _ 4 15 Hd eq_refl ltac:(lia)) as [Hi _].
    destruct (Hi ltac:(lia)) as (i' & H1 & H2). exists i'. split; [exact H1|]. rewrite H2.
    reflexivity.
  - destruct (imsi_increment _ 9 15 Hd eq_refl ltac:(lia)) as [_ Hi].
    specialize (Hi eq_refl 2%nat). unfold imsi_incr, imsi_of. now rewrite Hi.
Defined.
