(* ===== verification/EpcNames.v ===== *)
(** * Names of the core network (src/src/oai/common/utils: epc.cpp, epc.h)

    [EPC::Utility]: the domain names of 3GPP TS 23.003, from the codes of a
    network (text, or the three bytes of a PLMN identifier), and [apn_label],
    which writes a name as labels with their lengths.  A string is the list of
    its characters. *)
From Stdlib Require Import ZArith Lia List Bool String.
From stdpp Require Import base list.
From S2P Require Import Prelude PfcpStream PfcpFqdn Conversions.
Open Scope Z_scope.

Module EPC.

(** ** epc.h *)

Definition LOW_NIBBLE (a : Z) : Z := Z.land a 0x0f.
Definition HIGH_NIBBLE (a : Z) : Z := Z.shiftr (Z.land a 0xf0) 4.

(** [b[i]] of the PLMN identifier. *)
Definition octet (b : list Z) (i : nat) : Z := nth i b 0.

Definition PARSE_MNC (b : list Z) : list Z :=
  if HIGH_NIBBLE (octet b 1) =? 0x0f
  then [48; LOW_NIBBLE (octet b 2) + 48; HIGH_NIBBLE (octet b 2) + 48]
  else [LOW_NIBBLE (octet b 2) + 48; HIGH_NIBBLE (octet b 2) + 48; HIGH_NIBBLE (octet b 1) + 48].

Definition PARSE_MCC (b : list Z) : list Z :=
  [LOW_NIBBLE (octet b 0) + 48; HIGH_NIBBLE (octet b 0) + 48; LOW_NIBBLE (octet b 1) + 48].

Definition APPEND_MNC (a : list Z) : list Z := chars "mnc" ++ a ++ chars ".".
Definition APPEND_MCC (a : list Z) : list Z := chars "mcc" ++ a ++ chars ".".
Definition APPEND_3GPPNETWORK : list Z := chars "3gppnetwork.org".

(** ** epc.cpp: names *)

Definition home_network (mnc mcc : list Z) : list Z :=
  APPEND_MNC mnc ++ APPEND_MCC mcc ++ APPEND_3GPPNETWORK.
Definition home_network_plmnid (plmnid : list Z) : list Z :=
  home_network (PARSE_MNC plmnid) (PARSE_MCC plmnid).

Definition home_network_gprs (mnc mcc : list Z) : list Z :=
  APPEND_MNC mnc ++ APPEND_MCC mcc ++ chars "gprs".
Definition home_network_gprs_plmnid (plmnid : list Z) : list Z :=
  home_network_gprs (PARSE_MNC plmnid) (PARSE_MCC plmnid).

Definition tai_fqdn (lb hb mnc mcc : list Z) : list Z :=
  chars "tac-lb" ++ lb ++ chars ".tac-hb" ++ hb ++ chars ".tac.epc." ++ APPEND_MNC mnc ++
    APPEND_MCC mcc ++ APPEND_3GPPNETWORK.
Definition tai_fqdn_plmnid (lb hb plmnid : list Z) : list Z :=
  tai_fqdn lb hb (PARSE_MNC plmnid) (PARSE_MCC plmnid).

Definition mme_fqdn (mmec mmegi mnc mcc : list Z) : list Z :=
  chars "mmec" ++ mmec ++ chars ".mmegi" ++ mmegi ++ chars ".mme.epc." ++ APPEND_MNC mnc ++
    APPEND_MCC mcc ++ APPEND_3GPPNETWORK.
Definition mme_fqdn_plmnid (mmec mmegi plmnid : list Z) : list Z :=
  mme_fqdn mmec mmegi (PARSE_MNC plmnid) (PARSE_MCC plmnid).

Definition mme_pool_fqdn (mmegi mnc mcc : list Z) : list Z :=
  chars "mmegi" ++ mmegi ++ chars ".mme.epc." ++ APPEND_MNC mnc ++ APPEND_MCC mcc ++
    APPEND_3GPPNETWORK.
Definition mme_pool_fqdn_plmnid (mmegi plmnid : list Z) : list Z :=
  mme_pool_fqdn mmegi (PARSE_MNC plmnid) (PARSE_MCC plmnid).

Definition rai_fqdn (rac lac mnc mcc : list Z) : list Z :=
  chars "rac" ++ rac ++ chars ".lac" ++ lac ++ chars ".rac.epc." ++ APPEND_MNC mnc ++ APPEND_MCC
    mcc ++ APPEND_3GPPNETWORK.
Definition rai_fqdn_plmnid (rac lac plmnid : list Z) : list Z :=
  rai_fqdn rac lac (PARSE_MNC plmnid) (PARSE_MCC plmnid).

Definition rnc_fqdn (rnc mnc mcc : list Z) : list Z :=
  chars "rnc" ++ rnc ++ chars ".rnc.epc." ++ APPEND_MNC mnc ++ APPEND_MCC mcc ++
    APPEND_3GPPNETWORK.
Definition rnc_fqdn_plmnid (rnc plmnid : list Z) : list Z :=
  rnc_fqdn rnc (PARSE_MNC plmnid) (PARSE_MCC plmnid).

Definition sgsn_fqdn (nri rac lac mnc mcc : list Z) : list Z :=
  chars "nri" ++ nri ++ chars ".rac" ++ rac ++ chars ".lac" ++ lac ++ chars ".rac.epc." ++
    APPEND_MNC mnc ++ APPEND_MCC mcc ++ APPEND_3GPPNETWORK.
Definition sgsn_fqdn_plmnid (nri rac lac plmnid : list Z) : list Z :=
  sgsn_fqdn nri rac lac (PARSE_MNC plmnid) (PARSE_MCC plmnid).

Definition epc_nodes_domain_fqdn (mnc mcc : list Z) : list Z :=
  chars "node.epc." ++ APPEND_MNC mnc ++ APPEND_MCC mcc ++ APPEND_3GPPNETWORK.
Definition epc_nodes_domain_fqdn_plmnid (plmnid : list Z) : list Z :=
  epc_nodes_domain_fqdn (PARSE_MNC plmnid) (PARSE_MCC plmnid).

Definition epc_node_fqdn (node mnc mcc : list Z) : list Z :=
  node ++ chars ".node.epc." ++ APPEND_MNC mnc ++ APPEND_MCC mcc ++ APPEND_3GPPNETWORK.
Definition epc_node_fqdn_plmnid (node plmnid : list Z) : list Z :=
  epc_node_fqdn node (PARSE_MNC plmnid) (PARSE_MCC plmnid).

Definition nonemergency_epdg_oi_fqdn (mnc mcc : list Z) : list Z :=
  chars "epdg.epc." ++ APPEND_MNC mnc ++ APPEND_MCC mcc ++ chars "pub." ++ APPEND_3GPPNETWORK.
Definition nonemergency_epdg_oi_fqdn_plmnid (plmnid : list Z) : list Z :=
  nonemergency_epdg_oi_fqdn (PARSE_MNC plmnid) (PARSE_MCC plmnid).

Definition nonemergency_epdg_tai_fqdn (lb hb mnc mcc : list Z) : list Z :=
  chars "tac-lb" ++ lb ++ chars ".tac-hb" ++ hb ++ chars ".tac.epdg.epc." ++ APPEND_MNC mnc ++
    APPEND_MCC mcc ++ APPEND_3GPPNETWORK.
Definition nonemergency_epdg_tai_fqdn_plmnid (lb hb plmnid : list Z) : list Z :=
  nonemergency_epdg_tai_fqdn lb hb (PARSE_MNC plmnid) (PARSE_MCC plmnid).

Definition nonemergency_epdg_lac_fqdn (lac mnc mcc : list Z) : list Z :=
  chars "lac" ++ lac ++ chars ".epdg.epc." ++ APPEND_MNC mnc ++ APPEND_MCC mcc ++ chars "pub."
    ++ APPEND_3GPPNETWORK.
Definition nonemergency_epdg_lac_fqdn_plmnid (lac plmnid : list Z) : list Z :=
  nonemergency_epdg_lac_fqdn lac (PARSE_MNC plmnid) (PARSE_MCC plmnid).

Definition nonemergency_epdg_visitedcountry_fqdn (mcc : list Z) : list Z :=
  chars "epdg.epc." ++ APPEND_MCC mcc ++ chars "visited-country.pub." ++ APPEND_3GPPNETWORK.
Definition nonemergency_epdg_visitedcountry_fqdn_plmnid (plmnid : list Z) : list Z :=
  nonemergency_epdg_visitedcountry_fqdn (PARSE_MCC plmnid).

Definition emergency_epdg_oi_fqdn (mnc mcc : list Z) : list Z :=
  chars "sos.epdg.epc." ++ APPEND_MNC mnc ++ APPEND_MCC mcc ++ chars "pub." ++
    APPEND_3GPPNETWORK.
Definition emergency_epdg_oi_fqdn_plmnid (plmnid : list Z) : list Z :=
  emergency_epdg_oi_fqdn (PARSE_MNC plmnid) (PARSE_MCC plmnid).

Definition emergency_epdg_tai_fqdn (lb hb mnc mcc : list Z) : list Z :=
  chars "tac-lb" ++ lb ++ chars ".tac-hb" ++ hb ++ chars ".tac.sos.epdg.epc." ++ APPEND_MNC mnc
    ++ APPEND_MCC mcc ++ chars "pub." ++ APPEND_3GPPNETWORK.
Definition emergency_epdg_tai_fqdn_plmnid (lb hb plmnid : list Z) : list Z :=
  emergency_epdg_tai_fqdn lb hb (PARSE_MNC plmnid) (PARSE_MCC plmnid).

Definition emergency_epdg_lac_fqdn (lac mnc mcc : list Z) : list Z :=
  chars "lac" ++ lac ++ chars ".sos.epdg.epc." ++ APPEND_MNC mnc ++ APPEND_MCC mcc ++ chars
    "pub." ++ APPEND_3GPPNETWORK.
Definition emergency_epdg_lac_fqdn_plmnid (lac plmnid : list Z) : list Z :=
  emergency_epdg_lac_fqdn lac (PARSE_MNC plmnid) (PARSE_MCC plmnid).

Definition emergency_epdg_visitedcountry_fqdn (mcc : list Z) : list Z :=
  chars "sos.epdg.epc." ++ APPEND_MCC mcc ++ chars "visited-country.pub." ++ APPEND_3GPPNETWORK.
Definition emergency_epdg_visitedcountry_fqdn_plmnid (plmnid : list Z) : list Z :=
  emergency_epdg_visitedcountry_fqdn (PARSE_MCC plmnid).

Definition global_enodeb_id_fqdn (enb mcc : list Z) : list Z :=
  chars "enb" ++ enb ++ chars ".enb.epc." ++ APPEND_MCC mcc ++ chars "visited-country.pub." ++
    APPEND_3GPPNETWORK.
Definition global_enodeb_id_fqdn_plmnid (enb plmnid : list Z) : list Z :=
  global_enodeb_id_fqdn enb (PARSE_MCC plmnid).

Definition local_homenetwork_fqdn (lhn mcc : list Z) : list Z :=
  chars "lhn" ++ lhn ++ chars ".lhn.epc." ++ APPEND_MCC mcc ++ chars "visited-country.pub." ++
    APPEND_3GPPNETWORK.
Definition local_homenetwork_fqdn_plmnid (lhn plmnid : list Z) : list Z :=
  local_homenetwork_fqdn lhn (PARSE_MCC plmnid).

Definition epc (mnc mcc : list Z) : list Z :=
  chars "epc." ++ APPEND_MNC mnc ++ APPEND_MCC mcc ++ APPEND_3GPPNETWORK.
Definition epc_plmnid (plmnid : list Z) : list Z :=
  epc (PARSE_MNC plmnid) (PARSE_MCC plmnid).

Definition apn_fqdn (apnoi mnc mcc : list Z) : list Z :=
  apnoi ++ chars ".apn.epc." ++ APPEND_MNC mnc ++ APPEND_MCC mcc ++ APPEND_3GPPNETWORK.
Definition apn_fqdn_plmnid (apnoi plmnid : list Z) : list Z :=
  apn_fqdn apnoi (PARSE_MNC plmnid) (PARSE_MCC plmnid).

Definition apn (apnoi mnc mcc : list Z) : list Z :=
  apnoi ++ chars ".apn." ++ APPEND_MNC mnc ++ APPEND_MCC mcc ++ chars "gprs".
Definition apn_plmnid (apnoi plmnid : list Z) : list Z :=
  apn apnoi (PARSE_MNC plmnid) (PARSE_MCC plmnid).

(** ** epc.cpp: labels *)

(** isalnum in the C locale. *)
Definition isalnum (c : Z) : bool :=
  ((48 <=? c) && (c <=? 57)) || ((65 <=? c) && (c <=? 90)) || ((97 <=? c) && (c <=? 122)).

Fixpoint apn_label_loop (apn apn_label : list Z) (counted : Z) (index : nat) : list Z :=
  match apn with
  | [] => <[index := counted]> apn_label
  | c :: apn' =>
      if isalnum c || (c =? 45)
      then apn_label_loop apn' (apn_label ++ [c]) (u8 (counted + 1)) index
      else if c =? 46
      then
        let label' := <[index := counted]> (apn_label ++ [63]) in
        apn_label_loop apn' label' 0 (length label' - 1)
      else apn_label_loop apn' apn_label counted index
  end.

Definition apn_label (apn : list Z) : list Z := apn_label_loop apn [63] 0 0.

(** ** Lemmas: labels *)

(** A label of letters, digits and hyphens. *)
Definition dns_label (w : list Z) : Prop :=
  (0 < length w < 64)%nat /\ forallb (fun c => isalnum c || (c =? 45)) w = true.

Lemma dns_char c : isalnum c || (c =? 45) = true -> 0 < c < 256 /\ c <> 46.
Proof. unfold isalnum. rewrite !orb_true_iff, !andb_true_iff. lia. Qed.

Lemma dns_label_ok w : dns_label w -> label_ok w.
Proof.
  intros [Hl Hc]. split; [lia|]. apply List.Forall_forall. intros c Hin.
  rewrite forallb_forall in Hc. now apply dns_char, Hc.
Qed.

Lemma apn_label_word w rest label counted index :
  forallb (fun c => isalnum c || (c =? 45)) w = true ->
  0 <= counted -> counted + Z.of_nat (length w) < 256 ->
  apn_label_loop (w ++ rest) label counted index =
  apn_label_loop rest (label ++ w) (counted + Z.of_nat (length w)) index.
Proof.
  revert label counted. induction w as [|c w IH]; intros label counted Hw H0 H1.
  { cbn [app length]. now rewrite app_nil_r, Z.add_0_r. }
  cbn [forallb] in Hw. apply andb_true_iff in Hw as [Hc Hw].
  cbn [app apn_label_loop length] in *. rewrite Hc.
  assert (u8 (counted + 1) = counted + 1) as -> by (apply u8_id; unfold is_byte; lia).
  rewrite IH by (done || lia). rewrite <- app_assoc. cbn [app]. f_equal. lia.
Qed.

Lemma apn_label_labels w ws pre :
  List.Forall dns_label (w :: ws) ->
  apn_label_loop (join w ws) (pre ++ [63]) 0 (length pre) = pre ++ encoded (w :: ws).
Proof.
  revert w pre. induction ws as [|w' ws IH]; intros w pre Hok;
    inversion Hok as [|? ? [Hl Hc] Hok']; subst; cbn [join].
  - rewrite <- (app_nil_r w) at 1. rewrite apn_label_word by (done || lia).
    cbn [apn_label_loop]. rewrite <- app_assoc, insert_app_r_alt, Nat.sub_diag by lia.
    unfold encoded. cbn. now rewrite app_nil_r.
  - rewrite apn_label_word by (done || lia). cbn [apn_label_loop].
    change (isalnum 46 || (46 =? 45)) with false. cbn [Z.eqb Pos.eqb].
    rewrite Z.add_0_l, <- !app_assoc, insert_app_r_alt, Nat.sub_diag by lia. cbn [app insert list_insert].
    replace (length (pre ++ Z.of_nat (length w) :: w ++ [63%Z]) - 1)%nat
      with (length (pre ++ Z.of_nat (length w) :: w))
      by (rewrite !length_app; cbn; rewrite length_app; cbn; lia).
    replace (pre ++ Z.of_nat (length w) :: w ++ [63%Z])
      with ((pre ++ Z.of_nat (length w) :: w) ++ [63%Z]) by (now rewrite <- app_assoc).
    rewrite IH by done. unfold encoded. cbn. now rewrite <- app_assoc.
Qed.

Lemma apn_label_encoded w ws :
  List.Forall dns_label (w :: ws) -> apn_label (join w ws) = encoded (w :: ws).
Proof. intros Hok. exact (apn_label_labels w ws [] Hok). Qed.

Lemma dns_labels_ok ws : List.Forall dns_label ws -> Forall label_ok ws.
Proof. intros Hok. eapply List.Forall_impl; [|exact Hok]. apply dns_label_ok. Qed.

(** ** The names, by their labels *)

Inductive epc_name : Type :=
| Home_network (mnc mcc : list Z)
| Home_network_gprs (mnc mcc : list Z)
| Tai_fqdn (lb hb mnc mcc : list Z)
| Mme_fqdn (mmec mmegi mnc mcc : list Z)
| Mme_pool_fqdn (mmegi mnc mcc : list Z)
| Rai_fqdn (rac lac mnc mcc : list Z)
| Rnc_fqdn (rnc mnc mcc : list Z)
| Sgsn_fqdn (nri rac lac mnc mcc : list Z)
| Epc_nodes_domain_fqdn (mnc mcc : list Z)
| Epc_node_fqdn (node mnc mcc : list Z)
| Nonemergency_epdg_oi_fqdn (mnc mcc : list Z)
| Nonemergency_epdg_tai_fqdn (lb hb mnc mcc : list Z)
| Nonemergency_epdg_lac_fqdn (lac mnc mcc : list Z)
| Nonemergency_epdg_visitedcountry_fqdn (mcc : list Z)
| Emergency_epdg_oi_fqdn (mnc mcc : list Z)
| Emergency_epdg_tai_fqdn (lb hb mnc mcc : list Z)
| Emergency_epdg_lac_fqdn (lac mnc mcc : list Z)
| Emergency_epdg_visitedcountry_fqdn (mcc : list Z)
| Global_enodeb_id_fqdn (enb mcc : list Z)
| Local_homenetwork_fqdn (lhn mcc : list Z)
| Epc (mnc mcc : list Z)
| Apn_fqdn (apnoi mnc mcc : list Z)
| Apn (apnoi mnc mcc : list Z).

Definition name_text (n : epc_name) : list Z :=
  match n with
  | Home_network mnc mcc => home_network mnc mcc
  | Home_network_gprs mnc mcc => home_network_gprs mnc mcc
  | Tai_fqdn lb hb mnc mcc => tai_fqdn lb hb mnc mcc
  | Mme_fqdn mmec mmegi mnc mcc => mme_fqdn mmec mmegi mnc mcc
  | Mme_pool_fqdn mmegi mnc mcc => mme_pool_fqdn mmegi mnc mcc
  | Rai_fqdn rac lac mnc mcc => rai_fqdn rac lac mnc mcc
  | Rnc_fqdn rnc mnc mcc => rnc_fqdn rnc mnc mcc
  | Sgsn_fqdn nri rac lac mnc mcc => sgsn_fqdn nri rac lac mnc mcc
  | Epc_nodes_domain_fqdn mnc mcc => epc_nodes_domain_fqdn mnc mcc
  | Epc_node_fqdn node mnc mcc => epc_node_fqdn node mnc mcc
  | Nonemergency_epdg_oi_fqdn mnc mcc => nonemergency_epdg_oi_fqdn mnc mcc
  | Nonemergency_epdg_tai_fqdn lb hb mnc mcc => nonemergency_epdg_tai_fqdn lb hb mnc mcc
  | Nonemergency_epdg_lac_fqdn lac mnc mcc => nonemergency_epdg_lac_fqdn lac mnc mcc
  | Nonemergency_epdg_visitedcountry_fqdn mcc => nonemergency_epdg_visitedcountry_fqdn mcc
  | Emergency_epdg_oi_fqdn mnc mcc => emergency_epdg_oi_fqdn mnc mcc
  | Emergency_epdg_tai_fqdn lb hb mnc mcc => emergency_epdg_tai_fqdn lb hb mnc mcc
  | Emergency_epdg_lac_fqdn lac mnc mcc => emergency_epdg_lac_fqdn lac mnc mcc
  | Emergency_epdg_visitedcountry_fqdn mcc => emergency_epdg_visitedcountry_fqdn mcc
  | Global_enodeb_id_fqdn enb mcc => global_enodeb_id_fqdn enb mcc
  | Local_homenetwork_fqdn lhn mcc => local_homenetwork_fqdn lhn mcc
  | Epc mnc mcc => epc mnc mcc
  | Apn_fqdn apnoi mnc mcc => apn_fqdn apnoi mnc mcc
  | Apn apnoi mnc mcc => apn apnoi mnc mcc
  end.

(** The labels of each name. *)
Definition name_labels (n : epc_name) : list (list Z) :=
  match n with
  | Home_network mnc mcc =>
      [chars "mnc" ++ mnc; chars "mcc" ++ mcc; chars "3gppnetwork"; chars "org"]
  | Home_network_gprs mnc mcc =>
      [chars "mnc" ++ mnc; chars "mcc" ++ mcc; chars "gprs"]
  | Tai_fqdn lb hb mnc mcc =>
      [chars "tac-lb" ++ lb; chars "tac-hb" ++ hb; chars "tac"; chars "epc";
       chars "mnc" ++ mnc; chars "mcc" ++ mcc; chars "3gppnetwork"; chars "org"]
  | Mme_fqdn mmec mmegi mnc mcc =>
      [chars "mmec" ++ mmec; chars "mmegi" ++ mmegi; chars "mme"; chars "epc";
       chars "mnc" ++ mnc; chars "mcc" ++ mcc; chars "3gppnetwork"; chars "org"]
  | Mme_pool_fqdn mmegi mnc mcc =>
      [chars "mmegi" ++ mmegi; chars "mme"; chars "epc"; chars "mnc" ++ mnc;
       chars "mcc" ++ mcc; chars "3gppnetwork"; chars "org"]
  | Rai_fqdn rac lac mnc mcc =>
      [chars "rac" ++ rac; chars "lac" ++ lac; chars "rac"; chars "epc";
       chars "mnc" ++ mnc; chars "mcc" ++ mcc; chars "3gppnetwork"; chars "org"]
  | Rnc_fqdn rnc mnc mcc =>
      [chars "rnc" ++ rnc; chars "rnc"; chars "epc"; chars "mnc" ++ mnc;
       chars "mcc" ++ mcc; chars "3gppnetwork"; chars "org"]
  | Sgsn_fqdn nri rac lac mnc mcc =>
      [chars "nri" ++ nri; chars "rac" ++ rac; chars "lac" ++ lac; chars "rac";
       chars "epc"; chars "mnc" ++ mnc; chars "mcc" ++ mcc; chars "3gppnetwork";
       chars "org"]
  | Epc_nodes_domain_fqdn mnc mcc =>
      [chars "node"; chars "epc"; chars "mnc" ++ mnc; chars "mcc" ++ mcc;
       chars "3gppnetwork"; chars "org"]
  | Epc_node_fqdn node mnc mcc =>
      [node; chars "node"; chars "epc"; chars "mnc" ++ mnc; chars "mcc" ++ mcc;
       chars "3gppnetwork"; chars "org"]
  | Nonemergency_epdg_oi_fqdn mnc mcc =>
      [chars "epdg"; chars "epc"; chars "mnc" ++ mnc; chars "mcc" ++ mcc; chars "pub";
       chars "3gppnetwork"; chars "org"]
  | Nonemergency_epdg_tai_fqdn lb hb mnc mcc =>
      [chars "tac-lb" ++ lb; chars "tac-hb" ++ hb; chars "tac"; chars "epdg";
       chars "epc"; chars "mnc" ++ mnc; chars "mcc" ++ mcc; chars "3gppnetwork";
       chars "org"]
  | Nonemergency_epdg_lac_fqdn lac mnc mcc =>
      [chars "lac" ++ lac; chars "epdg"; chars "epc"; chars "mnc" ++ mnc;
       chars "mcc" ++ mcc; chars "pub"; chars "3gppnetwork"; chars "org"]
  | Nonemergency_epdg_visitedcountry_fqdn mcc =>
      [chars "epdg"; chars "epc"; chars "mcc" ++ mcc; chars "visited-country";
       chars "pub"; chars "3gppnetwork"; chars "org"]
  | Emergency_epdg_oi_fqdn mnc mcc =>
      [chars "sos"; chars "epdg"; chars "epc"; chars "mnc" ++ mnc; chars "mcc" ++ mcc;
       chars "pub"; chars "3gppnetwork"; chars "org"]
  | Emergency_epdg_tai_fqdn lb hb mnc mcc =>
      [chars "tac-lb" ++ lb; chars "tac-hb" ++ hb; chars "tac"; chars "sos";
       chars "epdg"; chars "epc"; chars "mnc" ++ mnc; chars "mcc" ++ mcc; chars "pub";
       chars "3gppnetwork"; chars "org"]
  | Emergency_epdg_lac_fqdn lac mnc mcc =>
      [chars "lac" ++ lac; chars "sos"; chars "epdg"; chars "epc"; chars "mnc" ++ mnc;
       chars "mcc" ++ mcc; chars "pub"; chars "3gppnetwork"; chars "org"]
  | Emergency_epdg_visitedcountry_fqdn mcc =>
      [chars "sos"; chars "epdg"; chars "epc"; chars "mcc" ++ mcc;
       chars "visited-country"; chars "pub"; chars "3gppnetwork"; chars "org"]
  | Global_enodeb_id_fqdn enb mcc =>
      [chars "enb" ++ enb; chars "enb"; chars "epc"; chars "mcc" ++ mcc;
       chars "visited-country"; chars "pub"; chars "3gppnetwork"; chars "org"]
  | Local_homenetwork_fqdn lhn mcc =>
      [chars "lhn" ++ lhn; chars "lhn"; chars "epc"; chars "mcc" ++ mcc;
       chars "visited-country"; chars "pub"; chars "3gppnetwork"; chars "org"]
  | Epc mnc mcc =>
      [chars "epc"; chars "mnc" ++ mnc; chars "mcc" ++ mcc; chars "3gppnetwork";
       chars "org"]
  | Apn_fqdn apnoi mnc mcc =>
      [apnoi; chars "apn"; chars "epc"; chars "mnc" ++ mnc; chars "mcc" ++ mcc;
       chars "3gppnetwork"; chars "org"]
  | Apn apnoi mnc mcc =>
      [apnoi; chars "apn"; chars "mnc" ++ mnc; chars "mcc" ++ mcc; chars "gprs"]
  end.

Definition name_args (n : epc_name) : list (list Z) :=
  match n with
  | Home_network mnc mcc => [mnc; mcc]
  | Home_network_gprs mnc mcc => [mnc; mcc]
  | Tai_fqdn lb hb mnc mcc => [lb; hb; mnc; mcc]
  | Mme_fqdn mmec mmegi mnc mcc => [mmec; mmegi; mnc; mcc]
  | Mme_pool_fqdn mmegi mnc mcc => [mmegi; mnc; mcc]
  | Rai_fqdn rac lac mnc mcc => [rac; lac; mnc; mcc]
  | Rnc_fqdn rnc mnc mcc => [rnc; mnc; mcc]
  | Sgsn_fqdn nri rac lac mnc mcc => [nri; rac; lac; mnc; mcc]
  | Epc_nodes_domain_fqdn mnc mcc => [mnc; mcc]
  | Epc_node_fqdn node mnc mcc => [node; mnc; mcc]
  | Nonemergency_epdg_oi_fqdn mnc mcc => [mnc; mcc]
  | Nonemergency_epdg_tai_fqdn lb hb mnc mcc => [lb; hb; mnc; mcc]
  | Nonemergency_epdg_lac_fqdn lac mnc mcc => [lac; mnc; mcc]
  | Nonemergency_epdg_visitedcountry_fqdn mcc => [mcc]
  | Emergency_epdg_oi_fqdn mnc mcc => [mnc; mcc]
  | Emergency_epdg_tai_fqdn lb hb mnc mcc => [lb; hb; mnc; mcc]
  | Emergency_epdg_lac_fqdn lac mnc mcc => [lac; mnc; mcc]
  | Emergency_epdg_visitedcountry_fqdn mcc => [mcc]
  | Global_enodeb_id_fqdn enb mcc => [enb; mcc]
  | Local_homenetwork_fqdn lhn mcc => [lhn; mcc]
  | Epc mnc mcc => [mnc; mcc]
  | Apn_fqdn apnoi mnc mcc => [apnoi; mnc; mcc]
  | Apn apnoi mnc mcc => [apnoi; mnc; mcc]
  end.

(** A code or identifier that is put into a name. *)
Definition name_part (a : list Z) : Prop :=
  (0 < length a <= 16)%nat /\ forallb (fun c => isalnum c || (c =? 45)) a = true.

Lemma dns_label_part lit a :
  (length lit < 16)%nat -> forallb (fun c => isalnum c || (c =? 45)) lit = true ->
  name_part a -> dns_label (lit ++ a).
Proof.
  intros Hl Hlit [Ha Hc]. split; [rewrite length_app; lia|].
  now rewrite forallb_app, Hlit, Hc.
Qed.

Lemma dns_label_only a : name_part a -> dns_label a.
Proof. intros [Ha Hc]. split; [lia|done]. Qed.

Ltac dns_labels :=
  repeat (apply List.Forall_cons || apply List.Forall_nil);
  first [ split; [vm_compute; lia|reflexivity]
        | apply dns_label_part; [vm_compute; lia|reflexivity|assumption]
        | apply dns_label_only; assumption ].

Lemma name_labels_ok n :
  List.Forall name_part (name_args n) -> List.Forall dns_label (name_labels n).
Proof.
  intros Ha. destruct n; cbn [name_args name_labels] in *;
    repeat match goal with H : List.Forall _ (_ :: _) |- _ =>
      apply List.Forall_cons_iff in H as [? H] end;
    dns_labels.
Qed.

Create HintDb epc_names.
#[export] Hint Unfold home_network home_network_gprs tai_fqdn mme_fqdn mme_pool_fqdn rai_fqdn rnc_fqdn sgsn_fqdn epc_nodes_domain_fqdn epc_node_fqdn nonemergency_epdg_oi_fqdn nonemergency_epdg_tai_fqdn nonemergency_epdg_lac_fqdn nonemergency_epdg_visitedcountry_fqdn emergency_epdg_oi_fqdn emergency_epdg_tai_fqdn emergency_epdg_lac_fqdn emergency_epdg_visitedcountry_fqdn global_enodeb_id_fqdn local_homenetwork_fqdn epc apn_fqdn apn APPEND_MNC APPEND_MCC APPEND_3GPPNETWORK : epc_names.

(** A name is its labels with dots between them. *)
Lemma name_text_labels n :
  exists w ws, name_labels n = w :: ws /\ name_text n = join w ws.
Proof.
  destruct n; cbn [name_labels]; do 2 eexists; (split; [reflexivity|]);
    cbn [name_text]; autounfold with epc_names; cbn [join];
    rewrite <- ?app_assoc; reflexivity.
Qed.

Lemma name_text_length n :
  List.Forall name_part (name_args n) -> (length (name_text n) < 256)%nat.
Proof.
  intros Ha. destruct n; cbn [name_args name_text] in *;
    repeat match goal with H : List.Forall _ (_ :: _) |- _ =>
      apply List.Forall_cons_iff in H as [[? _] H] end;
    autounfold with epc_names; rewrite ?length_app;
    repeat match goal with |- context [length (chars ?s)] =>
      let v := eval vm_compute in (length (chars s)) in change (length (chars s)) with v end;
    lia.
Qed.

(** ** PLMN identifiers *)

(** The three bytes for a country code and a network code of two or three
    digits; 15 stands for the missing digit. *)
Definition plmn_octets (c1 c2 c3 n1 n2 n3 : Z) : list Z :=
  [c1 + 16 * c2; c3 + 16 * n3; n1 + 16 * n2].

Definition digit (d : Z) : Prop := 0 <= d <= 9.

Lemma nibbles_of lo hi :
  0 <= lo < 16 -> 0 <= hi < 16 -> LOW_NIBBLE (lo + 16 * hi) = lo /\ HIGH_NIBBLE (lo + 16 * hi) = hi.
Proof.
  intros Hl Hh.
  assert (forallb (fun l => forallb (fun h =>
            (LOW_NIBBLE (Z.of_nat l + 16 * Z.of_nat h) =? Z.of_nat l) &&
            (HIGH_NIBBLE (Z.of_nat l + 16 * Z.of_nat h) =? Z.of_nat h)) (seq 0 16)) (seq 0 16) = true)
    as Ha by (vm_compute; reflexivity).
  rewrite forallb_forall in Ha. specialize (Ha (Z.to_nat lo) ltac:(apply in_seq; lia)).
  rewrite forallb_forall in Ha. specialize (Ha (Z.to_nat hi) ltac:(apply in_seq; lia)).
  rewrite !Z2Nat.id, andb_true_iff, !Z.eqb_eq in Ha by lia. exact Ha.
Qed.

Lemma digits_part l : List.Forall digit l -> (0 < length l <= 16)%nat -> name_part (map (Z.add 48) l).
Proof.
  intros Hd Hl. split; [now rewrite length_map|]. apply forallb_forall. intros c Hin.
  apply in_map_iff in Hin as (d & <- & Hd'). rewrite List.Forall_forall in Hd.
  apply Hd in Hd'. unfold digit in Hd'. unfold isalnum.
  rewrite (proj2 (Z.leb_le 48 (48 + d))), (proj2 (Z.leb_le (48 + d) 57)) by lia. reflexivity.
Qed.

(** ** Properties *)

(** [apn_label] and the encoder of Node IDs, [string_to_dotted], write
    the same bytes for every name of letters, digits and hyphens whose labels
    are not empty and shorter than 64, shorter than 256 in all. *)
Theorem apn_label_is_string_to_dotted uninit w ws :
  List.Forall dns_label (w :: ws) -> (length (join w ws) < 256)%nat ->
  string_to_dotted uninit (join w ws) = Some (apn_label (join w ws)).
Proof.
  intros Hok Hl. rewrite apn_label_encoded by done.
  apply string_to_dotted_labels; [now apply dns_labels_ok|done].
Qed.

(** Every name of the network can be sent: from codes of letters, digits
    and hyphens, at most 16 characters each, it becomes labels that are read
    back as the same name. *)
Theorem epc_names_roundtrip n :
  List.Forall name_part (name_args n) ->
  dotted_to_string (apn_label (name_text n)) = Some (Name (name_text n)).
Proof.
  intros Ha. pose proof (name_labels_ok n Ha) as Hok. pose proof (name_text_length n Ha) as Hl.
  destruct (name_text_labels n) as (w & ws & Hw & Ht). rewrite Hw in Hok. rewrite Ht in *.
  rewrite apn_label_encoded by done. apply dotted_to_string_labels; [now apply dns_labels_ok|].
  rewrite length_join. lia.
Qed.

(** The names of a network are taken from the digits of its PLMN
    identifier: country code as it is, a network code of two digits with a 0 in
    front, one of three digits as it is; they can be put into any name. *)
Theorem plmnid_codes c1 c2 c3 n1 n2 n3 :
  digit c1 -> digit c2 -> digit c3 -> digit n1 -> digit n2 -> (digit n3 \/ n3 = 15) ->
  let b := plmn_octets c1 c2 c3 n1 n2 n3 in
  PARSE_MCC b = map (Z.add 48) [c1; c2; c3] /\
  PARSE_MNC b = map (Z.add 48) (if n3 =? 15 then [0; n1; n2] else [n1; n2; n3]) /\
  name_part (PARSE_MCC b) /\ name_part (PARSE_MNC b) /\
  home_network_plmnid b = name_text (Home_network (PARSE_MNC b) (PARSE_MCC b)).
Proof.
  intros H1 H2 H3 H4 H5 H6 b. unfold digit in *.
  destruct (nibbles_of c1 c2) as [E1 E2]; [lia..|].
  destruct (nibbles_of c3 n3) as [E3 E4]; [lia..|].
  destruct (nibbles_of n1 n2) as [E5 E6]; [lia..|].
  assert (PARSE_MCC b = map (Z.add 48) [c1; c2; c3]) as HC.
  { unfold PARSE_MCC, b. cbn [octet plmn_octets nth]. unfold octet. cbn [plmn_octets nth].
    rewrite E1, E2, E3. cbn [map]. now rewrite !(Z.add_comm 48). }
  assert (PARSE_MNC b = map (Z.add 48) (if n3 =? 15 then [0; n1; n2] else [n1; n2; n3])) as HN.
  { unfold PARSE_MNC, b, octet. cbn [plmn_octets nth]. rewrite E4, E5, E6.
    destruct (n3 =? 15); cbn [map]; now rewrite !(Z.add_comm 48). }
  split; [exact HC|]. split; [exact HN|]. rewrite HC, HN. split; [|split].
  - apply digits_part; [repeat constructor; unfold digit; lia|cbn; lia].
  - destruct (Z.eqb_spec n3 15); (apply digits_part; [repeat constructor; unfold digit; lia|cbn; lia]).
  - unfold home_network_plmnid. now rewrite HC, HN.
Qed.

(** ** Witnesses *)

Definition mnc93 : list Z := [48; 57; 51].
Definition mcc208 : list Z := [50; 48; 56].

Lemma parts_ok : name_part mnc93 /\ name_part mcc208.
Proof. split; (split; [cbn; lia|reflexivity]). Qed.

Lemma apn_label_is_string_to_dotted_witness :
  string_to_dotted 0 (chars "mnc093.mcc208") = Some (apn_label (chars "mnc093.mcc208")).
Proof.
  apply (apn_label_is_string_to_dotted 0 (chars "mnc093") [chars "mcc208"]).
  - repeat (apply List.Forall_cons || apply List.Forall_nil); split; (reflexivity || (vm_compute; lia)).
  - vm_compute. lia.
Defined.

Lemma epc_names_roundtrip_witness :
  dotted_to_string (apn_label (chars "node.epc.mnc093.mcc208.3gppnetwork.org")) =
    Some (Name (chars "node.epc.mnc093.mcc208.3gppnetwork.org")).
Proof.
  apply (epc_names_roundtrip (Epc_nodes_domain_fqdn mnc93 mcc208)).
  repeat constructor; apply parts_ok.
Defined.

Lemma plmnid_codes_witness :
  PARSE_MNC [0x02; 0xf8; 0x39] = mnc93 /\ PARSE_MCC [0x02; 0xf8; 0x39] = mcc208.
Proof.
  destruct (plmnid_codes 2 0 8 9 3 15) as (H1 & H2 & _); unfold digit; try lia.
  split; [exact H2|exact H1].
Defined.

End EPC.
