(* ===== verification/SessionText.v ===== *)
(** * The printed form of a session (src/src/oai/pfcp/pfcp_session.cpp)

    [pfcp_session::to_string]: one line per PDR, with the FAR it names, and a
    rule below.  [inet_ntop] gives the text of an address; it is cut or filled
    up to sixteen characters. *)
From Stdlib Require Import ZArith Lia List Bool String.
From stdpp Require Import base list.
From S2P Require Import Prelude PfcpTypes PfcpGroups PfcpRules PfcpSession Conversions.
Open Scope Z_scope.

Definition INTERFACE_VALUE_SGI_LAN_N6_LAN : Z := 2.
Definition INTERFACE_VALUE_CP_FUNCTION : Z := 3.
Definition INTERFACE_VALUE_LI_FUNCTION : Z := 4.
Definition INET_ADDRSTRLEN : nat := 16.

(** [s.resize(n, ' ')] and [s.append(n, ' ')]. *)
Definition resize (n : nat) (s : list Z) : list Z := take n s ++ repeat 32 (n - length s).
Definition spaces (n : nat) : list Z := repeat 32 n.

Section Text.
(** conv::toString of an IPv4 and of an IPv6 address. *)
Variable ntop4 : Z -> list Z.
Variable ntop6 : list Z -> list Z.

(** The interface of the PDI, with its sign behind. *)
Definition source_text (p : pfcp_pdr) : list Z :=
  if first (pfcp_pdr_pdi p) then
    let i := pdi_source_interface (second (pfcp_pdr_pdi p)) in
    if first i then
      let v := source_interface_interface_value (second i) in
      if v =? INTERFACE_VALUE_ACCESS then chars "|ACC>"
      else if v =? INTERFACE_VALUE_CORE then chars "|COR>"
      else if v =? INTERFACE_VALUE_SGI_LAN_N6_LAN then chars "|LAN>"
      else if v =? INTERFACE_VALUE_CP_FUNCTION then chars "|CPF>"
      else if v =? INTERFACE_VALUE_LI_FUNCTION then chars "|LIF>"
      else chars "| ? >"
    else chars "| ? >"
  else chars "| ? >".

Definition action_text (a : apply_action_t) : list Z :=
  let c := if apply_action_dupl a then 61 else 45 in
  [c] ++ (if apply_action_nocp a then chars "N" else [c]) ++
  (if apply_action_buff a then chars "B" else [c]) ++
  (if apply_action_drop a then chars "X" else [c]).

(** The interface a FAR forwards to; nothing when it has to forward and does
    not say where. *)
Definition destination_text (f : pfcp_far) : list Z :=
  if apply_action_forw (pfcp_far_apply_action f) then
    let fwd := pfcp_far_forwarding_parameters f in
    if first fwd && first (forwarding_parameters_destination_interface (second fwd)) then
      let v := destination_interface_interface_value
                 (second (forwarding_parameters_destination_interface (second fwd))) in
      if v =? INTERFACE_VALUE_ACCESS then chars ">ACC"
      else if v =? INTERFACE_VALUE_CORE then chars ">COR"
      else if v =? INTERFACE_VALUE_SGI_LAN_N6_LAN then chars ">LAN"
      else if v =? INTERFACE_VALUE_CP_FUNCTION then chars ">CPF"
      else if v =? INTERFACE_VALUE_LI_FUNCTION then chars ">LIF"
      else chars "> ? "
    else []
  else chars "> ? ".

(** In the second case the address is made and not appended. *)
Definition creation_text (f : pfcp_far) : list Z :=
  let fwd := pfcp_far_forwarding_parameters f in
  let o := forwarding_parameters_outer_header_creation (second fwd) in
  if first fwd && first o then
    let ohc := second o in
    let d := outer_header_creation_outer_header_creation_description ohc in
    let ip4 := resize INET_ADDRSTRLEN (ntop4 (outer_header_creation_ipv4_address ohc)) in
    let ip6 := resize INET_ADDRSTRLEN (ntop6 (outer_header_creation_ipv6_address ohc)) in
    let teid := chars ":" ++ hex_text 8 (outer_header_creation_teid ohc) in
    if d =? 0x0100 then chars "|GTPU_UDP_IPV4:" ++ ip4 ++ teid
    else if d =? 0x0200 then chars "|GTPU_UDP_IPV6:" ++ teid
    else if d =? 0x0400 then chars "|UDP_IPV4     :" ++ ip4 ++ spaces 9
    else if d =? 0x0800 then chars "|UDP_IPV6     :" ++ ip6 ++ spaces 9
    else chars "|BAD_VALUE    " ++ resize INET_ADDRSTRLEN [] ++ spaces 9
  else chars "|none          " ++ resize INET_ADDRSTRLEN [] ++ spaces 9.

Definition far_text (p : pfcp_pdr) (s : pfcp_session) : list Z :=
  if first (pfcp_pdr_far_id p) then
    match get_far (far_id (second (pfcp_pdr_far_id p))) s with
    | Some f => action_text (pfcp_far_apply_action f) ++ destination_text f ++ creation_text f
    | None => []
    end
  else [].

Definition removal_text (p : pfcp_pdr) : list Z :=
  let r := pfcp_pdr_outer_header_removal p in
  let teid := chars ":" ++ hex_text 8 (fteid_teid (second (pdi_local_fteid (second (pfcp_pdr_pdi p))))) in
  if first r then
    let d := outer_header_removal_outer_header_removal_description (second r) in
    if d =? 0 then chars "|GTPU_UDP_IPV4" ++ teid
    else if d =? 1 then chars "|GTPU_UDP_IPV6" ++ teid
    else if d =? 2 then chars "|UDP_IPV4     " ++ spaces 9
    else if d =? 3 then chars "|UDP_IPV6     " ++ spaces 9
    else chars "|BAD_VALUE    " ++ spaces 9
  else chars "|none         " ++ spaces 9.

Definition ue_text (p : pfcp_pdr) : list Z :=
  if first (pfcp_pdr_pdi p) then
    let u := pdi_ue_ip_address (second (pfcp_pdr_pdi p)) in
    if first u then
      resize INET_ADDRSTRLEN
        (if ue_ip_address_v4 (second u) then ntop4 (ue_ip_address_ipv4_address (second u)) else [])
    else []
  else resize INET_ADDRSTRLEN [].

(** A line, without its end. *)
Definition pdr_text (s : pfcp_session) (p : pfcp_pdr) : list Z :=
  chars "|" ++ hex_text 16 (seid s) ++
  chars "|" ++ hex_text 4 (pdr_id_rule_id (pfcp_pdr_pdr_id p)) ++
  chars "|" ++ hex_text 8 (far_id (second (pfcp_pdr_far_id p))) ++
  (if first (pfcp_pdr_precedence p)
   then chars "|" ++ hex_text 8 (precedence (second (pfcp_pdr_precedence p)))
   else chars "|no prece") ++
  source_text p ++ far_text p s ++ removal_text p ++ chars "|" ++ ue_text p ++ chars "|".

Definition session_to_string (s : pfcp_session) : list Z :=
  concat (map (fun p => pdr_text s p ++ [10]) (pdrs s)) ++
  chars "+" ++ repeat 45 176 ++ chars "+" ++ [10].

(** ** Columns *)

Lemma length_resize n s : length (resize n s) = n.
Proof. unfold resize. rewrite length_app, length_take, repeat_length. lia. Qed.

(** The rules whose line has every column: the FAR exists, says where it
    forwards to, creates no header of an unknown kind and no GTP-U over IPv6;
    a PDI has the address of the UE. *)
Definition plain_far (f : pfcp_far) : Prop :=
  let fwd := pfcp_far_forwarding_parameters f in
  let o := forwarding_parameters_outer_header_creation (second fwd) in
  (apply_action_forw (pfcp_far_apply_action f) = true ->
   first fwd = true /\ first (forwarding_parameters_destination_interface (second fwd)) = true) /\
  (first fwd = true -> first o = true ->
   In (outer_header_creation_outer_header_creation_description (second o)) [0x0100; 0x0400; 0x0800]).

Definition plain (s : pfcp_session) (p : pfcp_pdr) : Prop :=
  first (pfcp_pdr_far_id p) = true /\
  (exists f, get_far (far_id (second (pfcp_pdr_far_id p))) s = Some f /\ plain_far f) /\
  (first (pfcp_pdr_pdi p) = true -> first (pdi_ue_ip_address (second (pfcp_pdr_pdi p))) = true).

Ltac lengths :=
  rewrite ?length_app, ?length_hex_text, ?length_resize, ?repeat_length; reflexivity.

Lemma length_source_text p : length (source_text p) = 5%nat.
Proof. unfold source_text. repeat case_match; reflexivity. Qed.

Lemma length_action_text a : length (action_text a) = 4%nat.
Proof. unfold action_text. rewrite !length_app. repeat case_match; reflexivity. Qed.

Lemma length_destination_text f : plain_far f -> length (destination_text f) = 4%nat.
Proof.
  intros [Hd _]. unfold destination_text. destruct (apply_action_forw _); [|reflexivity].
  destruct (Hd eq_refl) as [-> ->]. cbn [andb]. repeat case_match; reflexivity.
Qed.

Lemma length_creation_text f : plain_far f -> length (creation_text f) = 40%nat.
Proof.
  intros [_ Ho]. unfold creation_text. destruct (first (pfcp_far_forwarding_parameters f));
    [|cbn [andb]; lengths].
  destruct (first (forwarding_parameters_outer_header_creation _)); [|cbn [andb]; lengths].
  destruct (Ho eq_refl eq_refl) as [<-|[<-|[<-|[]]]]; cbn [andb Z.eqb Pos.eqb]; lengths.
Qed.

Lemma length_removal_text p : length (removal_text p) = 23%nat.
Proof. unfold removal_text. repeat case_match; lengths. Qed.

Lemma length_ue_text s p : plain s p -> length (ue_text p) = INET_ADDRSTRLEN.
Proof.
  intros (_ & _ & Hu). unfold ue_text. destruct (first (pfcp_pdr_pdi p)); [|apply length_resize].
  rewrite (Hu eq_refl). apply length_resize.
Qed.

(** The columns of a table of plain rules stand below each other: every line
    has 134 characters, whatever the values and the texts of the addresses. *)
Theorem lines_aligned s :
  List.Forall (plain s) (pdrs s) ->
  forall p, In p (pdrs s) -> length (pdr_text s p) = 134%nat.
Proof.
  intros Hp p Hin. rewrite List.Forall_forall in Hp.
  specialize (Hp p Hin). unfold pdr_text, far_text. rewrite !length_app, !length_hex_text.
  rewrite length_source_text, length_removal_text, (length_ue_text s) by done.
  destruct Hp as (-> & (f & -> & Hf) & _).
  rewrite !length_app, length_action_text, length_destination_text, length_creation_text by done.
  destruct (first (pfcp_pdr_precedence p)); rewrite ?length_app, ?length_hex_text; reflexivity.
Qed.

End Text.

(** The line of a GTP-U over IPv6 header lacks the address. *)
Definition far_v6 : pfcp_far :=
  mk_pfcp_far (mk_far_id_t 1) inhabitant
    (present (set (mk_outer_header_creation_t 0x0200 7 0 (repeat 1 16) 2152) inhabitant)) unset unset.

Lemma gtpu_ipv6_address_missing ntop4 ntop6 ntop6' :
  creation_text ntop4 ntop6 far_v6 = creation_text ntop4 ntop6' far_v6.
Proof. reflexivity. Qed.
