(* ===== verification/XgppConv.v ===== *)
(** * Core network values and PFCP values (src/src/oai/common:
    utils/3gpp_conversions.cpp, endpoint.hpp, 3gpp_29.274.h, 3gpp_29.281.h)

    The structures of the core network that the conversions use, the orders on
    them, the socket addresses of endpoints, and the conversions. *)
From Stdlib Require Import ZArith Lia List Bool.
From stdpp Require Import base list.
From S2P Require Import Prelude Packet PfcpTypes.
Open Scope Z_scope.

(** ** 3gpp_29.274.h, 3gpp_29.281.h *)

Module Core.

Definition PDN_TYPE_E_IPV4 : Z := 1.
Definition PDN_TYPE_E_IPV6 : Z := 2.
Definition PDN_TYPE_E_IPV4V6 : Z := 3.
Definition PDN_TYPE_E_NON_IP : Z := 4.

Definition REQUEST_ACCEPTED : Z := 16.
Definition SYSTEM_FAILURE : Z := 72.
Definition REQUEST_REJECTED : Z := 94.
Definition APN_CONGESTION : Z := 113.

Record cause_s : Type := mk_cause {
  cause_value : Z;
  pce : bool;
  bce : bool;
  cs : bool;
  offending_ie_instance : Z;
  filler : bool;
  offending_ie_type : Z;
  offending_ie_length : Z
}.

Record paa_t : Type := mk_paa_t {
  paa_pdn_type : Z;
  ipv6_prefix_length : Z;
  paa_ipv6_address : list Z;
  paa_ipv4_address : Z
}.

(** [s6_addr32[i]] *)
Definition addr32 (a : list Z) (i : nat) : Z := le_dec (field (4 * i) 4 a).

Definition v6_assigned (a : list Z) : bool :=
  negb (Z.lor (Z.lor (Z.lor (addr32 a 0) (addr32 a 1)) (addr32 a 2)) (addr32 a 3) =? 0).

Definition is_ip_assigned (p : paa_t) : bool :=
  if paa_pdn_type p =? PDN_TYPE_E_IPV4 then negb (paa_ipv4_address p =? 0)
  else if paa_pdn_type p =? PDN_TYPE_E_IPV6 then v6_assigned (paa_ipv6_address p)
  else if paa_pdn_type p =? PDN_TYPE_E_IPV4V6 then
    if negb (paa_ipv4_address p =? 0) then true else v6_assigned (paa_ipv6_address p)
  else false.

Record fully_qualified_tunnel_endpoint_identifier_s : Type := mk_fteid {
  v4 : bool;
  v6 : bool;
  interface_type : Z;
  teid_gre_key : Z;
  ipv4_address : Z;
  ipv6_address : list Z
}.

Definition fteid_lt (this f : fully_qualified_tunnel_endpoint_identifier_s) : bool :=
  (teid_gre_key this <? teid_gre_key f) || (ipv4_address this <? ipv4_address f) ||
  (interface_type this <? interface_type f) || eqb (v4 this) (v4 f) || eqb (v6 this) (v6 f) ||
  (addr32 (ipv6_address this) 0 =? addr32 (ipv6_address f) 0) ||
  (addr32 (ipv6_address this) 1 =? addr32 (ipv6_address f) 1) ||
  (addr32 (ipv6_address this) 2 =? addr32 (ipv6_address f) 2) ||
  (addr32 (ipv6_address this) 3 =? addr32 (ipv6_address f) 3).

Definition fteid_eqb (this f : fully_qualified_tunnel_endpoint_identifier_s) : bool :=
  (teid_gre_key this =? teid_gre_key f) && (ipv4_address this =? ipv4_address f) &&
  (interface_type this =? interface_type f) &&
  (addr32 (ipv6_address this) 0 =? addr32 (ipv6_address f) 0) &&
  (addr32 (ipv6_address this) 1 =? addr32 (ipv6_address f) 1) &&
  (addr32 (ipv6_address this) 2 =? addr32 (ipv6_address f) 2) &&
  (addr32 (ipv6_address this) 3 =? addr32 (ipv6_address f) 3) &&
  eqb (v4 this) (v4 f) && eqb (v6 this) (v6 f).

Definition is_zero (f : fully_qualified_tunnel_endpoint_identifier_s) : bool := negb (v4 f) && negb (v6 f).

Record gtp_u_peer_address_t : Type := mk_gtp_u_peer_address_t {
  peer_ipv4_address : Z;
  peer_ipv6_address : list Z;
  is_v4 : bool
}.

End Core.

(** ** endpoint.hpp *)

Definition AF_INET : Z := 2.
Definition AF_INET6 : Z := 10.

(** [addr_storage], 128 bytes, and its length. *)
Record endpoint : Type := mk_endpoint {
  addr_storage : list Z;
  addr_storage_len : Z
}.

(** Bytes written into a structure. *)
Definition patch (o : nat) (bs l : list Z) : list Z := take o l ++ bs ++ drop (o + length bs) l.

(** The constructors leave the other bytes as the memory has them, [uninit];
    the ports are in network order. *)
Definition endpoint_v4 (uninit : list Z) (addr port : Z) : endpoint :=
  mk_endpoint
    (patch 4 (le_enc 4 addr) (patch 2 (le_enc 2 (htons port)) (patch 0 (le_enc 2 AF_INET) uninit)))
    16.

Definition endpoint_v6 (uninit addr6 : list Z) (port : Z) : endpoint :=
  mk_endpoint
    (patch 24 (le_enc 4 0) (patch 8 addr6 (patch 4 (le_enc 4 0)
      (patch 2 (le_enc 2 (htons port)) (patch 0 (le_enc 2 AF_INET6) uninit)))))
    28.

Definition port (e : endpoint) : Z := ntohs (le_dec (field 2 2 (addr_storage e))).
Definition family (e : endpoint) : Z := le_dec (field 0 2 (addr_storage e)).
Definition sin_addr (e : endpoint) : Z := le_dec (field 4 4 (addr_storage e)).
Definition sin6_addr (e : endpoint) : list Z := field 8 16 (addr_storage e).

(** ** 3gpp_conversions.cpp *)

Definition with_v4 (a : Z) (u : ue_ip_address_t) : ue_ip_address_t :=
  mk_ue_ip_address_t (ue_ip_address_ipv6d u) (ue_ip_address_sd u) true (ue_ip_address_v6 u) a
    (ue_ip_address_ipv6_address u) (ue_ip_address_ipv6_prefix_delegation_bits u).
Definition with_v6 (a : list Z) (u : ue_ip_address_t) : ue_ip_address_t :=
  mk_ue_ip_address_t (ue_ip_address_ipv6d u) (ue_ip_address_sd u) (ue_ip_address_v4 u) true
    (ue_ip_address_ipv4_address u) a (ue_ip_address_ipv6_prefix_delegation_bits u).

Definition pdn_ip_to_pfcp_ue_ip_address (pdn_type ipv4 : Z) (ipv6 : list Z) (u : ue_ip_address_t)
    : ue_ip_address_t :=
  if pdn_type =? Core.PDN_TYPE_E_IPV4 then with_v4 ipv4 u
  else if pdn_type =? Core.PDN_TYPE_E_IPV6 then with_v6 ipv6 u
  else if pdn_type =? Core.PDN_TYPE_E_IPV4V6 then with_v6 ipv6 (with_v4 ipv4 u)
  else u.

Definition paa_to_pfcp_ue_ip_address (paa : Core.paa_t) (u : ue_ip_address_t) : ue_ip_address_t :=
  let t := Core.paa_pdn_type paa in
  if t =? Core.PDN_TYPE_E_IPV4 then with_v4 (Core.paa_ipv4_address paa) u
  else if t =? Core.PDN_TYPE_E_IPV6 then with_v6 (Core.paa_ipv6_address paa) u
  else if t =? Core.PDN_TYPE_E_IPV4V6 then
    with_v6 (Core.paa_ipv6_address paa) (with_v4 (Core.paa_ipv4_address paa) u)
  else u.

(** The interface type of the F-TEID that is written to stays. *)
Definition pfcp_to_core_fteid (p : fteid_t) (f : Core.fully_qualified_tunnel_endpoint_identifier_s) : Core.fully_qualified_tunnel_endpoint_identifier_s :=
  Core.mk_fteid (fteid_v4 p) (fteid_v6 p) (Core.interface_type f) (fteid_teid p)
    (fteid_ipv4_address p) (fteid_ipv6_address p).

Definition pfcp_from_core_fteid (f : Core.fully_qualified_tunnel_endpoint_identifier_s) : fteid_t :=
  mk_fteid_t false false (Core.v4 f) (Core.v6 f) (Core.teid_gre_key f) (Core.ipv4_address f)
    (Core.ipv6_address f) 0.

Definition core_cause_value (pc : Z) : Z :=
  if pc =? 1 then Core.REQUEST_ACCEPTED
  else if pc =? 64 then Core.REQUEST_REJECTED
  else if (65 <=? pc) && (pc <=? 73) then Core.SYSTEM_FAILURE
  else if pc =? 74 then Core.APN_CONGESTION
  else Core.SYSTEM_FAILURE.

Definition pfcp_cause_to_core_cause (pc : cause_t) (c : Core.cause_s) : Core.cause_s :=
  Core.mk_cause (core_cause_value (cause_cause_value pc)) (Core.pce c) (Core.bce c) (Core.cs c)
    (Core.offending_ie_instance c) (Core.filler c) (Core.offending_ie_type c)
    (Core.offending_ie_length c).

Definition endpoint_to_gtp_u_peer_address (ep : endpoint) (a : Core.gtp_u_peer_address_t)
    : bool * Core.gtp_u_peer_address_t :=
  if family ep =? AF_INET then
    (true, Core.mk_gtp_u_peer_address_t (sin_addr ep) (Core.peer_ipv6_address a) true)
  else if family ep =? AF_INET6 then
    (true, Core.mk_gtp_u_peer_address_t (Core.peer_ipv4_address a) (sin6_addr ep) false)
  else (false, a).

(** ** Lemmas *)

Lemma length_patch o bs l : (o + length bs <= length l)%nat -> length (patch o bs l) = length l.
Proof. intros Hl. unfold patch. rewrite !length_app, length_take, length_drop. lia. Qed.

(** What was written is read back, and stays under writes behind it. *)
Lemma field_patch_same o bs l :
  (o <= length l)%nat -> field o (length bs) (patch o bs l) = bs.
Proof.
  intros Hl. unfold field, patch. rewrite drop_app_length' by (rewrite length_take; lia).
  now rewrite take_app_length.
Qed.

Lemma field_patch_before o n o' bs l :
  (o + n <= o')%nat -> (o' <= length l)%nat -> field o n (patch o' bs l) = field o n l.
Proof.
  intros Hn Hl. unfold patch. rewrite field_app_l by (rewrite length_take; lia).
  unfold field. rewrite skipn_firstn_comm, take_take. f_equal. lia.
Qed.

Lemma addr32_inj a b :
  length a = 16%nat -> length b = 16%nat -> bytes a -> bytes b ->
  (forall i, (i < 4)%nat -> Core.addr32 a i = Core.addr32 b i) -> a = b.
Proof.
  intros Ha Hb Ba Bb He.
  assert (forall i, (i < 4)%nat -> field (4 * i) 4 a = field (4 * i) 4 b) as Hf.
  { intros i Hi. rewrite <- (le_enc_dec (field (4 * i) 4 a)) by now apply bytes_field.
    rewrite <- (le_enc_dec (field (4 * i) 4 b)) by now apply bytes_field.
    rewrite !length_field by lia. f_equal. exact (He i Hi). }
  assert (forall l, length l = 16%nat ->
            l = field 0 4 l ++ field 4 4 l ++ field 8 4 l ++ field 12 4 l) as Hs.
  { intros l Hl. do 16 (destruct l as [|? l]; [discriminate|]).
    destruct l; [reflexivity|discriminate]. }
  rewrite (Hs a Ha), (Hs b Hb).
  pose proof (Hf 0%nat ltac:(lia)) as H0. pose proof (Hf 1%nat ltac:(lia)) as H1.
  pose proof (Hf 2%nat ltac:(lia)) as H2. pose proof (Hf 3%nat ltac:(lia)) as H3.
  cbn [Nat.mul Nat.add] in H0, H1, H2, H3. congruence.
Qed.

(** Bounds on the lengths of patched storage. *)
Ltac lens := rewrite ?length_le_enc; first [lia | rewrite length_patch; lens].

(** ** Theorems *)

Definition storage_ok (uninit : list Z) : Prop := length uninit = 128%nat.

Lemma endpoint_v4_fields uninit addr p :
  storage_ok uninit -> 0 <= addr < 2 ^ 32 -> 0 <= p < 2 ^ 16 ->
  let e := endpoint_v4 uninit addr p in
  family e = AF_INET /\ port e = p /\ sin_addr e = addr.
Proof.
  intros Hu Ha Hp e. unfold storage_ok in Hu.
  unfold family, port, sin_addr, e, endpoint_v4. cbn [addr_storage]. split; [|split].
  - rewrite !field_patch_before by lens.
    rewrite (field_patch_same 0 (le_enc 2 AF_INET)) by lens. reflexivity.
  - rewrite field_patch_before by lens.
    rewrite (field_patch_same 2 (le_enc 2 (htons p))) by lens.
    rewrite le_dec_enc, Z.mod_small by apply bytes_htons_range. now apply htons_involutive.
  - rewrite (field_patch_same 4 (le_enc 4 addr)) by lens.
    rewrite le_dec_enc. now apply Z.mod_small.
Qed.

(** The peer address of an endpoint is the address it was made of, and its
    port is read back; what the memory held before does not matter. *)
Theorem endpoint_peer_address uninit addr p a :
  storage_ok uninit -> 0 <= addr < 2 ^ 32 -> 0 <= p < 2 ^ 16 ->
  let e := endpoint_v4 uninit addr p in
  port e = p /\
  endpoint_to_gtp_u_peer_address e a =
    (true, Core.mk_gtp_u_peer_address_t addr (Core.peer_ipv6_address a) true).
Proof.
  intros Hu Ha Hp e. destruct (endpoint_v4_fields uninit addr p Hu Ha Hp) as (Hf & Hport & Hs).
  split; [exact Hport|]. unfold endpoint_to_gtp_u_peer_address. fold e in Hf, Hs.
  rewrite Hf. cbn [Z.eqb Pos.eqb]. now rewrite Hs.
Qed.

Theorem endpoint_peer_address_v6 uninit addr6 p a :
  storage_ok uninit -> length addr6 = 16%nat ->
  endpoint_to_gtp_u_peer_address (endpoint_v6 uninit addr6 p) a =
    (true, Core.mk_gtp_u_peer_address_t (Core.peer_ipv4_address a) addr6 false).
Proof.
  unfold storage_ok. intros Hu Ha. set (e := endpoint_v6 uninit addr6 p).
  assert (family e = AF_INET6) as Hf.
  { unfold family, e, endpoint_v6. cbn [addr_storage].
    rewrite !field_patch_before by lens.
    rewrite (field_patch_same 0 (le_enc 2 AF_INET6)) by lens. reflexivity. }
  unfold endpoint_to_gtp_u_peer_address. rewrite Hf. cbn [Z.eqb Pos.eqb].
  do 2 f_equal. unfold sin6_addr, e, endpoint_v6. cbn [addr_storage].
  rewrite field_patch_before by lens.
  rewrite <- Ha at 1. rewrite field_patch_same by lens. done.
Qed.

(** A F-TEID goes to the core network and back without its CHOOSE members. *)
Theorem fteid_to_core_and_back p f :
  pfcp_from_core_fteid (pfcp_to_core_fteid p f) =
    mk_fteid_t false false (fteid_v4 p) (fteid_v6 p) (fteid_teid p) (fteid_ipv4_address p)
      (fteid_ipv6_address p) 0 /\
  pfcp_to_core_fteid (pfcp_from_core_fteid f) f = f.
Proof. split; [reflexivity|now destruct f]. Qed.

(** [operator==] of core F-TEIDs is equality, and [operator<] holds between
    an F-TEID and itself: it is no order. *)
Theorem core_fteid_eqb_eq f g :
  length (Core.ipv6_address f) = 16%nat -> length (Core.ipv6_address g) = 16%nat ->
  bytes (Core.ipv6_address f) -> bytes (Core.ipv6_address g) ->
  Core.fteid_eqb f g = true <-> f = g.
Proof.
  intros Lf Lg Bf Bg. unfold Core.fteid_eqb. rewrite !andb_true_iff, !Z.eqb_eq, !eqb_true_iff.
  split; [|intros ->; tauto]. intros Hq. destruct_and!.
  assert (Core.ipv6_address f = Core.ipv6_address g) as Ha.
  { apply addr32_inj; try done. intros i Hi.
    do 4 (destruct i as [|i]; [assumption|]). lia. }
  destruct f, g. cbn in *. congruence.
Qed.

Lemma core_fteid_lt_itself f : Core.fteid_lt f f = true.
Proof. unfold Core.fteid_lt. rewrite eqb_reflx, !orb_true_r. reflexivity. Qed.

(** A cause is success for the core network exactly when it is for PFCP. *)
Theorem cause_accepted_iff pc c :
  Core.cause_value (pfcp_cause_to_core_cause pc c) = Core.REQUEST_ACCEPTED <->
  cause_cause_value pc = 1.
Proof.
  unfold pfcp_cause_to_core_cause, core_cause_value. cbn [Core.cause_value].
  destruct (Z.eqb_spec (cause_cause_value pc) 1) as [E|E]; [done|].
  repeat case_match; unfold Core.REQUEST_REJECTED, Core.SYSTEM_FAILURE, Core.APN_CONGESTION,
    Core.REQUEST_ACCEPTED; lia.
Qed.

(** The two conversions of an address agree. *)
Lemma paa_is_pdn_ip paa u :
  paa_to_pfcp_ue_ip_address paa u =
    pdn_ip_to_pfcp_ue_ip_address (Core.paa_pdn_type paa) (Core.paa_ipv4_address paa)
      (Core.paa_ipv6_address paa) u.
Proof. reflexivity. Qed.

(** A user equipment with an address keeps it, and its kind, in PFCP. *)
Theorem paa_conversion paa u :
  ue_ip_address_v4 u = false -> ue_ip_address_v6 u = false ->
  let r := paa_to_pfcp_ue_ip_address paa u in
  let t := Core.paa_pdn_type paa in
  (ue_ip_address_v4 r = true <-> t = Core.PDN_TYPE_E_IPV4 \/ t = Core.PDN_TYPE_E_IPV4V6) /\
  (ue_ip_address_v6 r = true <-> t = Core.PDN_TYPE_E_IPV6 \/ t = Core.PDN_TYPE_E_IPV4V6) /\
  (ue_ip_address_v4 r = true -> ue_ip_address_ipv4_address r = Core.paa_ipv4_address paa) /\
  (ue_ip_address_v6 r = true -> ue_ip_address_ipv6_address r = Core.paa_ipv6_address paa).
Proof.
  intros H4 H6 r t. unfold r. rewrite paa_is_pdn_ip. unfold pdn_ip_to_pfcp_ue_ip_address. fold t.
  unfold Core.PDN_TYPE_E_IPV4, Core.PDN_TYPE_E_IPV6, Core.PDN_TYPE_E_IPV4V6.
  destruct (Z.eqb_spec t 1); [cbn; rewrite H6; repeat split; intros; try done; lia|].
  destruct (Z.eqb_spec t 2); [cbn; rewrite H4; repeat split; intros; try done; lia|].
  destruct (Z.eqb_spec t 3); [cbn; repeat split; intros; try done; lia|].
  rewrite H4, H6. repeat split; intros; try done; lia.
Qed.
