(* ===== verification/AddressText.v ===== *)
(** * Addresses and formatted text (src/src/oai/common: utils/conversions.cpp,
    utils/string.cpp, endpoint.hpp)

    The conversions that wrap functions of the C library: inet_pton and inet_ntop are
    an interface with the laws their documentation gives, vsnprintf is a parameter. *)
From Stdlib Require Import ZArith Lia List Bool Ascii String.
From stdpp Require Import base list strings pretty.
From S2P Require Import Prelude Packet Text Logging XgppConv.
Open Scope string_scope.
Open Scope Z_scope.

(** [None]: inet_pton does not return 1, and inet_ntop returns NULL. *)
Class InetText : Type := {
  inet_pton : string -> option Z;
  inet_ntop : Z -> option string;
  inet_ntop6 : list Z -> option string
}.

Class InetTextLaws `{InetText} : Prop := {
  inet_ntop_text a :
    0 <= a < 2 ^ 32 ->
    exists s, inet_ntop a = Some s /\ has ":" s = false /\ has zero s = false /\ inet_pton s = Some a
}.

Section Conv.
Context `{InetText}.

(** [conv::fromString]: the result of inet_pton is not looked at; the buffer is
    zero before. *)
Definition fromString (addr4 : string) : Z :=
  match inet_pton (c_str addr4) with Some a => a | None => 0 end.

(** [conv::toString] of an in_addr and of an in6_addr *)
Definition toString (inaddr : Z) : string :=
  match inet_ntop inaddr with Some s => s | None => "Error in_addr" end.

Definition toString6 (in6addr : list Z) : string :=
  match inet_ntop6 in6addr with Some s => s | None => "Error in6_addr" end.

(** [endpoint::toString] *)
Definition endpoint_toString (e : endpoint) : string :=
  if family e =? AF_INET then toString (sin_addr e) +:+ ":" +:+ pretty (port e)
  else if family e =? AF_INET6 then toString6 (sin6_addr e) +:+ ":" +:+ pretty (port e)
  else "".

End Conv.

(** *** util::string_format *)

Section StringFormat.
(** The text that vsnprintf makes of a format and arguments; [None] when it
    returns -1. *)
Variable vsnprintf : string -> option string.

(** A call with a buffer of [size] characters: the last one is for the NUL. *)
Definition vsnprintf_into (size : nat) (format : string) : string :=
  match vsnprintf format with Some s => take_str (size - 1) s | None => "" end.

(** [None]: the exception std::length_error, of std::string(buf, 2^64 - 1). *)
Definition string_format (format : string) : option string :=
  let size := u64 (match vsnprintf format with
                   | Some s => Z.of_nat (String.length s)
                   | None => -1
                   end + 1) in
  let buf := vsnprintf_into (Z.to_nat size) format in
  if u64 (size - 1) =? 2 ^ 64 - 1 then None else Some (take_str (Z.to_nat (size - 1)) buf).

(** The whole text, or an exception when vsnprintf fails. *)
Theorem string_format_outcome format :
  match vsnprintf format with
  | Some s => Z.of_nat (String.length s) < 2 ^ 64 - 1 -> string_format format = Some s
  | None => string_format format = None
  end.
Proof.
  unfold string_format, vsnprintf_into. destruct (vsnprintf format) as [s|]; [|reflexivity].
  intros Hs. unfold u64. rewrite (Z.mod_small (_ + 1)) by lia. rewrite Z.mod_small by lia.
  rewrite (proj2 (Z.eqb_neq _ _)) by lia.
  rewrite !take_str_all; [done|lia|rewrite ?take_str_all by lia; lia].
Qed.

End StringFormat.

(** ** Properties *)

Section Text.
Context `{InetTextLaws}.

(** The text of an address is read back as the address; a text that is none is read
    as 0.0.0.0. *)
Theorem fromString_toString a t :
  0 <= a < 2 ^ 32 ->
  fromString (toString a) = a /\ (inet_pton (c_str t) = None -> fromString t = 0).
Proof.
  intros Ha. unfold fromString, toString. destruct (inet_ntop_text a Ha) as (s & -> & _ & Hz & Hp).
  split; [now rewrite (c_str_clean s Hz), Hp|]. now intros ->.
Qed.

(** An endpoint of an IPv4 address prints as the address and the port, and two that
    print alike are the same address and port. *)
Theorem endpoint_toString_inj uninit1 uninit2 a1 a2 p1 p2 :
  storage_ok uninit1 -> storage_ok uninit2 -> 0 <= a1 < 2 ^ 32 -> 0 <= a2 < 2 ^ 32 ->
  0 <= p1 < 2 ^ 16 -> 0 <= p2 < 2 ^ 16 ->
  endpoint_toString (endpoint_v4 uninit1 a1 p1) = endpoint_toString (endpoint_v4 uninit2 a2 p2) ->
  a1 = a2 /\ p1 = p2.
Proof.
  intros Hu1 Hu2 Ha1 Ha2 Hp1 Hp2. unfold endpoint_toString.
  destruct (endpoint_v4_fields uninit1 a1 p1 Hu1 Ha1 Hp1) as (-> & -> & ->).
  destruct (endpoint_v4_fields uninit2 a2 p2 Hu2 Ha2 Hp2) as (-> & -> & ->).
  cbn [Z.eqb Pos.eqb]. unfold toString.
  destruct (inet_ntop_text a1 Ha1) as (s1 & -> & Hc1 & _ & Hb1).
  destruct (inet_ntop_text a2 Ha2) as (s2 & -> & Hc2 & _ & Hb2). intros Heq.
  assert (s1 = s2 /\ pretty p1 = pretty p2) as [-> Hp].
  { clear Hb1 Hb2. revert s2 Hc2 Heq. induction s1 as [|c s1 IH]; intros [|d s2] Hc2 Heq.
    - injection Heq as Heq. done.
    - injection Heq as <- _. cbn in Hc2. done.
    - injection Heq as -> _. cbn in Hc1. done.
    - injection Heq as <- Heq. cbn [has] in Hc1, Hc2.
      apply orb_false_iff in Hc1 as [_ Hc1], Hc2 as [_ Hc2].
      destruct (IH Hc1 s2 Hc2 Heq) as [-> ?]. done. }
  split; [congruence|]. now apply (inj pretty).
Qed.

End Text.
