(* ===== verification/Gtpv2.v ===== *)
(** * What core network values print (oai/common/3gpp_29.274.h)

    The comparisons and the texts of bearer QoS, PDN type, RAT type, E-UTRAN cells,
    interface types and core F-TEIDs.  The names of the interface types are an array
    that another part of the network defines; addresses are written by inet_ntop. *)
From Stdlib Require Import ZArith Lia List Bool Ascii String.
From stdpp Require Import base list strings pretty.
From S2P Require Import Prelude Text Conversions XgppConv.
Import Core.
Open Scope string_scope.
Open Scope Z_scope.

(** ** EPS bearers *)

Definition EPS_BEARER_IDENTITY_UNASSIGNED : Z := 0.

Record ebi_t : Type := mk_ebi { ebi : Z }.

Definition new_ebi : ebi_t := mk_ebi EPS_BEARER_IDENTITY_UNASSIGNED.
Definition ebi_eqb (this rhs : ebi_t) : bool := ebi this =? ebi rhs.
Definition ebi_neqb (this rhs : ebi_t) : bool := negb (ebi this =? ebi rhs).

(** The spare bits are read by nobody. *)
Record bearer_qos_t : Type := mk_bearer_qos {
  pci : Z;
  pl : Z;
  pvi : Z;
  label_qci : Z;
  maximum_bit_rate_for_uplink : Z;
  maximum_bit_rate_for_downlink : Z;
  guaranted_bit_rate_for_uplink : Z;
  guaranted_bit_rate_for_downlink : Z
}.

Definition bearer_qos_eqb (this q : bearer_qos_t) : bool :=
  (label_qci q =? label_qci this) && (pl q =? pl this) && (pvi q =? pvi this) &&
  (pci q =? pci this).

Definition bearer_qos_toString (q : bearer_qos_t) : string :=
  "MBR UL=" +:+ pretty (maximum_bit_rate_for_uplink q) +:+
  ", MBR DL=" +:+ pretty (maximum_bit_rate_for_downlink q) +:+
  ", GBR UL=" +:+ pretty (guaranted_bit_rate_for_uplink q) +:+
  ", GBR DL=" +:+ pretty (guaranted_bit_rate_for_downlink q) +:+
  ", PCI=" +:+ pretty (pci q) +:+ ", PL=" +:+ pretty (pl q) +:+
  ", PVI=" +:+ pretty (pvi q) +:+ ", QCI=" +:+ pretty (label_qci q).

Definition bearer_qos_ok (q : bearer_qos_t) : Prop :=
  0 <= pci q < 2 /\ 0 <= pl q < 16 /\ 0 <= pvi q < 2 /\ 0 <= label_qci q < 2 ^ 8 /\
  0 <= maximum_bit_rate_for_uplink q < 2 ^ 64 /\
  0 <= maximum_bit_rate_for_downlink q < 2 ^ 64 /\
  0 <= guaranted_bit_rate_for_uplink q < 2 ^ 64 /\
  0 <= guaranted_bit_rate_for_downlink q < 2 ^ 64.

(** ** Types of networks and radio access *)

Definition pdn_type_e2str : list string := ["Error"; "IPV4"; "IPV6"; "IPV4V6"; "NON_IP"].

(** [std::vector::at]: [None] is std::out_of_range. *)
Definition pdn_type_toString (pdn_type : Z) : option string :=
  pdn_type_e2str !! Z.to_nat pdn_type.

Definition pdn_type_eqb (this p : Z) : bool := p =? this.

Definition RAT_TYPE_E_EUTRAN_WB_EUTRAN : Z := 6.
Definition new_rat_type : Z := RAT_TYPE_E_EUTRAN_WB_EUTRAN.

Definition rat_type_toString (rat_type : Z) : string :=
  match rat_type with
  | 6 => "EUTRAN_WB_EUTRAN"
  | 8 => "EUTRAN_NB_IOT"
  | 9 => "LTE_M"
  | 10 => "NR"
  | 7 => "VIRTUAL"
  | 0 => "RESERVED"
  | 1 => "UTRAN"
  | 2 => "GERAN"
  | 3 => "WLAN"
  | 4 => "GAN"
  | 5 => "HSPA_EVOLUTION"
  | _ => pretty rat_type
  end.

(** ** Cells *)

Record ecgi_field_t : Type := mk_ecgi {
  mcc_digit_1 : Z;
  mcc_digit_2 : Z;
  mcc_digit_3 : Z;
  mnc_digit_1 : Z;
  mnc_digit_2 : Z;
  mnc_digit_3 : Z;
  eci : Z;
  e_utran_cell_identifier : list Z
}.

Definition we_utran_cell_identifier (f : ecgi_field_t) : Z :=
  let b i := nth i (e_utran_cell_identifier f) 0 in
  Z.lor (Z.lor (Z.shiftl (b 0%nat) 16) (Z.shiftl (b 1%nat) 8)) (b 2%nat).

Definition ecgi_toString (f : ecgi_field_t) : string :=
  "mcc=" +:+ of_codes (mccToString (mcc_digit_1 f) (mcc_digit_2 f) (mcc_digit_3 f)) +:+
  ", MNC=" +:+ of_codes (mncToString (mnc_digit_1 f) (mnc_digit_2 f) (mnc_digit_3 f)) +:+
  ", ECI=" +:+ pretty (eci f) +:+
  ", EUCI=" +:+ pretty (we_utran_cell_identifier f).

(** ** Tunnel endpoints *)

Definition INTERFACE_TYPE_MIN : Z := 0.
Definition INTERFACE_TYPE_MAX : Z := 39.

Section Names.
(** The array, and the texts of addresses. *)
Variable interface_type2char : Z -> string.
Variable ipv4_text : Z -> string.
Variable ipv6_text : list Z -> string.

Definition interface_type_toString (t : Z) : string :=
  if (INTERFACE_TYPE_MIN <=? t) && (t <=? INTERFACE_TYPE_MAX) then interface_type2char t
  else pretty t.

Definition fteid_toString (f : fully_qualified_tunnel_endpoint_identifier_s) : string :=
  if v4 f || v6 f then
    "Interface type=" +:+ interface_type_toString (interface_type f) +:+
    ", TEID=" +:+ pretty (teid_gre_key f) +:+
    (if v4 f then ", IPv4=" +:+ ipv4_text (ipv4_address f) else "") +:+
    (if v6 f then ", IPv6=" +:+ ipv6_text (ipv6_address f) else "")
  else "null_fteid".

(** ** Properties *)

Lemma append_inj_l s t1 t2 : s +:+ t1 = s +:+ t2 -> t1 = t2.
Proof.
  induction s as [|c s IH]; [done|]. rewrite !append_cons. intros Heq. injection Heq as Heq. auto.
Qed.

(** A core F-TEID is printed as null exactly when it has no address, and the
    text of two of the same interface is the same only with the same TEID. *)
Theorem fteid_text f g :
  (fteid_toString f = "null_fteid" <-> is_zero f = true) /\
  (is_zero f = false -> is_zero g = false -> 0 <= teid_gre_key f -> 0 <= teid_gre_key g ->
   interface_type f = interface_type g -> fteid_toString f = fteid_toString g ->
   teid_gre_key f = teid_gre_key g).
Proof.
  unfold fteid_toString, is_zero. split.
  - destruct (v4 f), (v6 f); cbn [orb andb negb]; rewrite ?append_cons; split; done.
  - intros Hf Hg Pf Pg Hi. rewrite Hi.
    destruct (v4 f), (v6 f); try discriminate Hf; destruct (v4 g), (v6 g); try discriminate Hg;
      cbn [orb]; intros Heq%append_inj_l%append_inj_l; rewrite ?append_cons, ?append_empty in Heq;
      injection Heq as Heq; (apply number_end in Heq as [? _]; [done|done..|reflexivity|reflexivity]).
Qed.

End Names.

(** What is printed of a bearer's QoS determines it ... *)
Theorem bearer_qos_text_inj p q :
  bearer_qos_ok p -> bearer_qos_ok q -> bearer_qos_toString p = bearer_qos_toString q -> p = q.
Proof.
  destruct p, q. unfold bearer_qos_ok, bearer_qos_toString. cbn. intros Hp Hq.
  destruct Hp as (? & ? & ? & ? & ? & ? & ? & ?), Hq as (? & ? & ? & ? & ? & ? & ? & ?).
  rewrite ?append_cons, ?append_empty. intros Heq. injection Heq as Heq.
  repeat (apply number_end in Heq as [? Heq]; [|lia..|reflexivity|reflexivity]; injection Heq as Heq).
  apply (inj pretty) in Heq. congruence.
Qed.

(** ... but QoS that differ only in their bit rates compare equal. *)
Theorem bearer_qos_eqb_spec p q :
  bearer_qos_eqb p q = true <->
  (label_qci p, pl p, pvi p, pci p) = (label_qci q, pl q, pvi q, pci q).
Proof.
  unfold bearer_qos_eqb. rewrite !andb_true_iff, !Z.eqb_eq. split.
  - intros [[[-> ->] ->] ->]. done.
  - intros [= -> -> -> ->]. done.
Qed.

(** A PDN type has a text up to 4; beyond that [at] throws. *)
Theorem pdn_type_text p :
  0 <= p -> (pdn_type_toString p = None <-> 4 < p).
Proof.
  intros Hp. unfold pdn_type_toString. rewrite lookup_ge_None. cbn. lia.
Qed.

(** Different RAT types have different texts. *)
Theorem rat_type_text_inj x y :
  0 <= x < 2 ^ 8 -> 0 <= y < 2 ^ 8 -> rat_type_toString x = rat_type_toString y -> x = y.
Proof.
  set (l := map Z.of_nat (seq 0 256)).
  assert (forallb (fun x => forallb (fun y =>
    implb (String.eqb (rat_type_toString x) (rat_type_toString y)) (x =? y)) l) l = true) as Hall
    by (vm_compute; reflexivity).
  assert (forall z, 0 <= z < 2 ^ 8 -> In z l) as Hin.
  { intros z Hz. apply in_map_iff. exists (Z.to_nat z). split; [lia|]. apply in_seq. lia. }
  intros Hx Hy Heq. rewrite forallb_forall in Hall. specialize (Hall x (Hin x Hx)).
  rewrite forallb_forall in Hall. specialize (Hall y (Hin y Hy)). cbv beta in Hall.
  rewrite Heq, String.eqb_refl in Hall. now apply Z.eqb_eq.
Qed.

(** The three bytes of a cell identifier are printed as one number, high byte
    first. *)
Theorem cell_identifier_value f a b c :
  e_utran_cell_identifier f = [a; b; c] -> 0 <= a < 256 -> 0 <= b < 256 -> 0 <= c < 256 ->
  we_utran_cell_identifier f = be_dec [a; b; c].
Proof.
  unfold we_utran_cell_identifier. intros -> Ha Hb Hc. cbn [nth].
  replace (Z.shiftl a 16) with (Z.shiftl (Z.shiftl a 8) 8) by now rewrite Z.shiftl_shiftl.
  rewrite <- Z.shiftl_lor, !(lor_shift_add 8) by (cbn; lia).
  unfold be_dec. cbn. lia.
Qed.

(** ** Witnesses *)

Definition qos (rate : Z) : bearer_qos_t := mk_bearer_qos 1 2 0 9 rate rate 0 0.

Example bearer_qos_text_inj_witness : qos 1 = qos 1.
Proof.
  apply (bearer_qos_text_inj (qos 1) (qos 1)); [unfold bearer_qos_ok; cbn; lia..|reflexivity].
Defined.

Example rat_type_text_inj_witness : rat_type_toString 10 = "NR" /\ 10 = 10.
Proof. split; [reflexivity|apply (rat_type_text_inj 10 10); [lia|lia|reflexivity]]. Defined.

Example pdn_type_text_witness : pdn_type_toString 5 = None /\ pdn_type_toString 4 = Some "NON_IP".
Proof. split; [apply (pdn_type_text 5); lia|reflexivity]. Defined.

Definition cell : ecgi_field_t := mk_ecgi 2 0 8 9 5 15 1 [1; 2; 3].

Example cell_identifier_value_witness :
  we_utran_cell_identifier cell = be_dec [1; 2; 3] /\
  ecgi_toString cell = "mcc=208, MNC=95, ECI=1, EUCI=66051".
Proof.
  split; [apply (cell_identifier_value cell 1 2 3); [reflexivity|lia..]|vm_compute; reflexivity].
Defined.
