(* ===== verification/Hashes.v ===== *)
(** * Hashes of keys (src/src/oai/common: 3gpp_29.244.h, 3gpp_29.274.h)

    [std::hash] of F-SEIDs, node identifiers and core F-TEIDs.  A hash table
    needs that keys which [operator==] calls equal have equal hashes. *)
From Stdlib Require Import ZArith Lia List Bool.
From stdpp Require Import base list.
From S2P Require Import Prelude Packet PfcpTypes Identity XgppConv.
Open Scope Z_scope.

(** ** Node identifiers *)

Definition NODE_ID_TYPE_IPV4_ADDRESS : Z := 0.
Definition NODE_ID_TYPE_IPV6_ADDRESS : Z := 1.
Definition NODE_ID_TYPE_FQDN : Z := 2.

(** The words of the union; the first is the IPv4 address. *)
Definition node_word (n : node_id_t) (i : nat) : Z := le_dec (field (4 * i) 4 (node_id_u1 n)).

Definition node_id_eqb (this i : node_id_t) : bool :=
  (node_id_node_id_type i =? node_id_node_id_type this) &&
  (node_word i 0 =? node_word this 0) && bool_decide (node_id_fqdn i = node_id_fqdn this) &&
  (node_word i 0 =? node_word this 0) && (node_word i 1 =? node_word this 1) &&
  (node_word i 2 =? node_word this 2) && (node_word i 3 =? node_word this 3).

Section Hashes.
(** [std::hash] of a [uint32_t] and of a string. *)
Variable hash_u32 : Z -> Z.
Variable hash_string : list Z -> Z.

Definition hash_fseid (k : fseid_t) : Z :=
  if fseid_v4 k then Z.lxor (fseid_ipv4_address k) (fseid_seid k)
  else if fseid_v6 k then
    Z.lxor (fseid_seid k)
      (Z.lxor (Z.lxor (Z.lxor (s6_addr32 k 0) (s6_addr32 k 1)) (s6_addr32 k 2)) (s6_addr32 k 3))
  else fseid_seid k.

Definition hash_node_id (k : node_id_t) : Z :=
  let t := node_id_node_id_type k in
  if t =? NODE_ID_TYPE_IPV4_ADDRESS then hash_u32 (node_word k 0)
  else if t =? NODE_ID_TYPE_IPV6_ADDRESS then
    Z.lxor (Z.lxor (Z.lxor (node_word k 0) (node_word k 1)) (node_word k 2)) (node_word k 3)
  else if t =? NODE_ID_TYPE_FQDN then hash_string (node_id_fqdn k)
  else 0.

Definition hash_fteid (k : Core.fully_qualified_tunnel_endpoint_identifier_s) : Z :=
  let h1 := hash_u32 (Core.interface_type k) in
  let h2 := Z.lxor (hash_u32 (Core.teid_gre_key k)) h1 in
  let h2 := if Core.v4 k then Z.lxor h2 (hash_u32 (Core.ipv4_address k)) else h2 in
  if Core.v6 k then
    let w i := hash_u32 (Core.addr32 (Core.ipv6_address k) i) in
    Z.lxor (Z.lxor (Z.lxor (Z.lxor h2 (w 0%nat)) (w 1%nat)) (w 2%nat)) (w 3%nat)
  else h2.

Ltac rewrite_all_eq :=
  repeat match goal with H : _ = _ |- _ => rewrite H; clear H end; reflexivity.

(** ** Equal keys have equal hashes *)

Theorem equal_keys_hash_equal :
  (forall f g, fseid_eqb f g = true -> hash_fseid f = hash_fseid g) /\
  (forall f g, node_id_eqb f g = true -> hash_node_id f = hash_node_id g) /\
  (forall f g, Core.fteid_eqb f g = true -> hash_fteid f = hash_fteid g).
Proof.
  split; [|split]; intros f g.
  - unfold fseid_eqb, hash_fseid. rewrite !andb_true_iff, !Z.eqb_eq, !eqb_true_iff.
    intros Hq. destruct_and!. rewrite_all_eq.
  - unfold node_id_eqb, hash_node_id. rewrite !andb_true_iff, !Z.eqb_eq, bool_decide_eq_true.
    intros Hq. destruct_and!. rewrite_all_eq.
  - unfold Core.fteid_eqb, hash_fteid. rewrite !andb_true_iff, !Z.eqb_eq, !eqb_true_iff.
    intros Hq. destruct_and!. rewrite_all_eq.
Qed.

(** Hashes of F-SEIDs stay 64-bit numbers. *)
Lemma hash_fseid_range f :
  fseid_ok f -> 0 <= fseid_seid f < 2 ^ 64 -> 0 <= fseid_ipv4_address f < 2 ^ 32 ->
  0 <= hash_fseid f < 2 ^ 64.
Proof.
  intros Hf Hs Ha. unfold hash_fseid.
  assert (forall a b, 0 <= a < 2 ^ 64 -> 0 <= b < 2 ^ 64 -> 0 <= Z.lxor a b < 2 ^ 64) as Hx.
  { intros a b [Ha0 Ha1] [Hb0 Hb1]. split; [apply Z.lxor_nonneg; lia|].
    destruct (Z.eq_dec (Z.lxor a b) 0) as [->|Hn]; [lia|].
    assert (0 <= Z.lxor a b) as Hp by (apply Z.lxor_nonneg; lia).
    apply Z.log2_lt_pow2; [lia|]. pose proof (Z.log2_lxor a b ltac:(lia) ltac:(lia)).
    assert (forall z, 0 <= z < 2 ^ 64 -> Z.log2 z < 64) as Hlog.
    { intros z Hz. destruct (Z.eq_dec z 0) as [->|]; [cbn; lia|]. apply Z.log2_lt_pow2; lia. }
    pose proof (Hlog a ltac:(lia)). pose proof (Hlog b ltac:(lia)). lia. }
  pose proof (s6_addr32_range f 0 Hf ltac:(lia)). pose proof (s6_addr32_range f 1 Hf ltac:(lia)).
  pose proof (s6_addr32_range f 2 Hf ltac:(lia)). pose proof (s6_addr32_range f 3 Hf ltac:(lia)).
  destruct (fseid_v4 f); [apply Hx; lia|]. destruct (fseid_v6 f); [|lia].
  repeat apply Hx; lia.
Qed.

End Hashes.
